(* ===== verification/_CoqProject ===== *)
-Q . S2P
Prelude.v
Config.v
Protocols.v
CTypes.v
WireControl.v
WirePhy.v
WireSvc.v
WireSerial.v
WireMedia.v
WireTable.v
WireFacts.v
Hdlc.v
HdlcRx.v
Crc.v
RxQueue.v
Kernel.v
Zephyr.v
Mdns.v
MdnsNames.v
MdnsQuery.v
MdnsTable.v
MdnsRecv.v
MdnsWitness.v
Messages.v
FrameLayout.v
Interfaces.v
IdCounter.v
NodeCache.v
CacheRace.v
State.v
ApMap.v
NodeLink.v
NodeLife.v
Ap.v
TxRace.v
LocalNode.v
Routes.v
Svc.v
Quiet.v
SvcFacts.v
NodeTx.v
Bridge.v
NodeRx.v
Discovery.v
Resume.v
NodeThreads.v
HdlcThread.v
Rely.v
ApThreads.v
SvcThreads.v
SendThreads.v
Threads.v
Main.v
WorkItem.v
MainFacts.v
ThreadRace.v
ConnectRace.v
RemoveRace.v
NodeSet.v
Discover.v
LogBackend.v
LogThread.v
Boot.v
Invariant.v
MemInv.v
Stays.v
Interleaving.v
Receive.v
RxPreempted.v
Session.v
Witnesses.v
SystemWitness.v
SessionWitness.v
ThreadWitness.v
