(* ===== verification/Prelude.v ===== *)
(** * A verification library for the CC1352 Greybus host firmware

    The firmware runs on the CC1352 co-processor of a BeaglePlay.  It speaks
    HDLC over a UART with the Greybus host (the AP) on the main processor, and
    Greybus over TCP with remote nodes, and contains an SVC and a local node of
    its own.  The AP's messages are routed by a table of AP cports; the SVC
    tells the AP which nodes exist.

    ** Parts and their files

    - Machine integers, bytes, the state monad with faults, lenses, arrays:
      [Prelude] (this file).  Kconfig: [Config].
    - include/greybus_protocols.h: [Protocols] (what the firmware uses, as
      constants and records), [CTypes] (C types with their layout and encoding),
      [WireControl], [WirePhy], [WireSvc], [WireSerial], [WireMedia] (every
      declaration of the header), [WireTable] (sizes and offsets), [WireFacts]
      (theorems on them).
    - src/hdlc.c, include/hdlc.h: [Hdlc] (both directions), [HdlcRx] (the
      receiver against the abstract deframer [deframe]), [Crc] (an instance of
      the checksum).
    - The UART interrupt of src/main.c and the receive work of src/hdlc.c:
      [RxQueue], a step relation over the ring buffer.
    - Kernel services: [Kernel] (heap, slabs, sockets, stack as classes of
      operations with the laws used of them), [Zephyr] (executable instances).
    - The same transmitter while other threads send between its bytes: [TxRace].
    - src/greybus_messages.c: [Messages], and the layout of a message's frame in
      [FrameLayout]; src/greybus_interfaces.c:
      [Interfaces], and [gb_interface_find_by_id] in [Routes]; their id counters
      under preemption: [IdCounter].
    - src/node.c: [NodeCache] (the array of nodes), [CacheRace] (adding to it
      while another thread removes), [NodeLink] (sockets, reading
      messages, creating and destroying nodes), [NodeLife] (their invariant),
      [NodeTx] (writing messages), [NodeRx] (the receive thread, discovery's
      entry points), [NodeSet] (theorems on the set of nodes).
    - src/apbridge.c: [ApMap] (the table), [Routes] (connections), [Bridge]
      (routing messages).  src/ap.c: [Ap].
    - src/svc.c: [Svc] (requests, responses), [SvcFacts] (their specification).
    - src/local_node.c: [LocalNode].
    - src/mdns.c: [Mdns] (every function), [MdnsNames] (reading names from
      packets), [MdnsQuery] (writing names, sending queries), [MdnsRecv]
      (responses), [MdnsTable] (the table of labels for compression),
      [MdnsWitness] (concrete packets).
    - src/tcp_discovery.c: [Discovery] (both variants of the thread),
      [Discover] (a round of it with mDNS).
    - src/hdlc_log_backend.c: [LogBackend].
    - The rest of src/main.c: [Main], [MainFacts], and [Boot] ([main] itself).
    - The whole system: [Receive] (the receive path), [Session] (connections the
      AP makes by requests on the UART), [Quiet] (which operations leave the
      tables alone), [Invariant] (what every event preserves).
    - The firmware's threads as sequences of pieces between which other
      threads run: [Resume] (resumptions), [NodeThreads] (connecting to
      nodes, creating and destroying them, the node cache), [Rely] (reasoning
      about one between the steps of others), [HdlcThread] (the receiver), [ApThreads] (frames for
      the AP, byte by byte), [SvcThreads] (the SVC and the local node),
      [SendThreads] (routing messages and sending them to nodes), [Threads] (the
      receive and the discovery thread), [WorkItem] (the work item that handles
      received bytes), [LogThread] (the log backend's calls), [ThreadRace] (an
      index kept too long while reading), [ConnectRace] (while connecting),
      [RemoveRace] (while removing), [MemInv] (what no piece breaks), [Stays] and
      [Interleaving] (that none does), [RxPreempted] (the receiver while the
      others run).
    - Concrete runs: [Witnesses], [SystemWitness], [SessionWitness],
      [ThreadWitness].

    ** How code becomes definitions

    A C function is a definition of the same name.  Code that keeps state is a
    computation of the monad [M W], which yields a result and a new state or
    stops with a [fault]: an access out of bounds, through a null pointer, to
    freed memory, a failed assertion, a loop that does not end, the use of a
    local variable's address that an allocator hands out.  A theorem that
    a run is [Done] thus says that the code commits none of them, with one
    exception: [control_send_request] reads the operation id of a message it no
    longer owns, which is a read with an arbitrary result ([msg_operation_id],
    recorded in [stale_reads]).  Local state
    is embedded in the firmware's ([State.fw], the static variables) by a lens
    per component.  Integers are [Z], wrapped where the C type does ([u8],
    [u16], [u32]); memory is a list of bytes; a pointer to a message is its
    address in a store of live blocks, NULL is 0, and freeing removes the block.
    The blocks of nodes and their interfaces are never freed: the code passes
    the address of a pointer to [k_mem_slab_free], which takes the pointer
    (greybus_interfaces.c:57, node.c:461 and 481).  The slab then holds the
    address of a local variable, [LocalVariable], among its free blocks; the
    interface and its control data stay in the stores for ever, and an
    allocation that would return the local variable is the fault [StackBlock].
    Interfaces are pointers to records whose callbacks are tags, which
    [call_write], [call_create_connection] and [call_destroy_connection]
    dispatch on.  [fw_uart] records the bytes written to the UART, and the
    observer [net_sent] of [Sockets] those written to a socket.  The
    calls of the LOG macros are left out; what the log backend does with the
    records Zephyr hands it is in [LogBackend].  In the mDNS client a pointer
    into a buffer is an offset, and functions that write return the buffer.

    Zephyr's code is not in the repository: the checksum ([Crc16]), the ring
    buffer ([RingBuf]), the heap ([KHeap]), slabs ([KSlab]), sockets
    ([Sockets]), uninitialised stack memory ([Stack]), the UART device
    ([UartDevice]) and the formatting of log records ([LogOutput]) are classes,
    and the theorems hold for every instance with the documented laws.  Claims
    on the ring buffer add up until they are finished, as Zephyr's do.

    ** Parts that call each other

    [connection_send] calls an interface's [write], and the SVC, the local node
    and the nodes call [connection_send] in turn, always to send to the AP.
    Each of them takes [connection_send] as a parameter; [ApLink] states what
    they rely on, their theorems are proved from it, and [Bridge] ties the knot
    with fuel 2 and discharges [ApLink].  [connection_send_bounded] shows that
    more fuel changes nothing.

    ** Other loops

    [write_loop] and [read_loop] get the length as fuel, and each round that
    makes progress uses one; a send that keeps returning 0 loops for ever in the
    code, and is the fault [Diverge] in the model.  [destroy_from] gets the
    number of nodes.  Loops over arrays are structural in what is left.  The
    endless loops of threads are modelled one round at a time.

    In the mDNS client [follow_refs] gets 17 rounds, one more than the 16
    pointers the code follows, [skip_loop] and [extract_loop] 66, one more than
    the 65 the label counter allows, [match_loop] and [make_loop] the length of
    the name, of which each round uses a byte; [mdns_names_total],
    [mdns_names_decoded] and [mdns_name_roundtrip] show that they are enough.
    [recv_loop] gets its fuel as a parameter: the number of datagrams that
    arrive is enough ([mdns_query_recv_collects]), and a network that never
    stops sending answers that do not match keeps the code in the loop.
    [firmware_event_ends] shows that, from states of the invariant, no loop
    runs out of fuel.

    ** The theorems

    - HDLC: a byte stream is taken apart exactly as [deframe] says, without a
      fault ([receive_bytes_frames]); round trip, integrity, resynchronisation
      ([hdlc_roundtrip], [hdlc_delivers_checked], [hdlc_resynchronises]); the
      transmitter's output ([hdlc_block_send_sync_frame]); two situations in
      which frames are lost or altered.
    - Receive queue: while the UART can be read, no byte is lost or reordered
      under any interleaving ([rx_stream_exact]), and the work makes progress;
      after a read that failed stale bytes are received
      ([failed_read_commits_stale]).
    - End to end: bytes from the UART to the response on the UART
      ([svc_request_answered_on_uart], [local_node_frame_answered]) or the bytes
      on a node's socket ([node_message_reaches_socket]), and back
      ([node_message_forwarded]); [message_send_receive] joins two ends of a
      socket whatever pieces the network cuts the stream into.
    - Sessions: the AP connects and disconnects cports by requests on the UART
      ([svc_connects_on_uart], [svc_connection_roundtrip]), after which messages
      pass in both directions ([connected_cports_joined]).
    - The transmitter under preemption: frames of different threads interleave
      byte by byte ([tx_preempted_interleaves]) and get lost
      ([tx_race_loses_frames]).
    - Threads: piece by piece they do what the definitions that take a round
      at once do ([threads_undisturbed]); every interleaving of their pieces
      keeps [mem_inv] or stops at a fault ([threads_invariant]); whatever
      runs in between, the receiver follows the deframer
      ([receiver_undisturbed]).  What breaks is [nodes_wf], that the node cache
      and the interfaces agree: a node that is removed while a message is read
      is mixed up with another ([stale_index_hits_other_node]), one that is
      removed while a node is connected leaves that node unheard
      ([connect_stale_index]), a node removed by two threads takes another with
      it ([node_removal_race]), and one that is added while another is removed
      is lost ([node_cache_add_race]).
    - Connections and the set of nodes: creation and destruction
      ([node_create_destroy]: what it frees and what it does not), with the
      invariant [nodes_wf] that ties the entries of the node cache to allocated
      interfaces and control data; the node cache as a finite map.
    - Messages: what every operation does on any arguments, faults included
      ([message_operations_outcome]).
    - The whole firmware: [main] leaves it in a consistent state ([main_boots]),
      which every event preserves or stops at a fault in
      ([firmware_invariant], [firmware_event_ends]).  Events are chunks of bytes
      from the UART, rounds of the receive thread, rounds of the discovery
      thread in either variant, and calls of the log backend.  Rounds of
      discovery while one of the next interface ids it may give out belongs to
      a live node are excluded, since ids wrap around without a check.
    - mDNS: names are decoded as a relational reading of RFC 1035 says
      ([mdns_names_decoded], on arbitrary bytes [mdns_names_total]); writing
      and reading names is a round trip ([mdns_name_roundtrip]); the bytes of a
      query and the lengths for which they fit ([mdns_query_send_packet]); the
      verdict on a response ([mdns_response_verdict], [mdns_response_safe]) and
      the list of responders ([mdns_query_recv_collects]); a round of discovery
      up to the event for the AP ([mdns_answer_creates_node]).
    - The wire protocol: every declared structure has the size and its members
      the offsets of [layout_table], its encoding can be decoded, and the
      members' encodings are at their offsets ([wire_structures]); the fields of
      the records the firmware uses are the declared members, by name, offset
      and width ([firmware_structs_declared]); operation types are unambiguous.
    - Starting and stopping the SVC, discovery, the log on the UART
      ([log_calls_framed]), id counters.
    - Faults the code can commit, with the inputs that lead to them.

    ** Not modelled

    The macro [BIT] of the C library is a parameter of the tables that use it.
    The log backend before [main] has called [hdlc_init] is left out, since the
    driver's callbacks are not state of the model. Preemption in the middle of
    an operation is modelled where it matters most: the receive interrupt, the
    id counters, adding to the node cache, the bytes of a frame, and the calls
    the firmware's threads make.  In [threads_invariant] a search of a table is
    one piece, and so is one change of the table of AP cports or of an entry of
    the node cache; allocating a block and filling it in is one, too, since no
    other thread has its address yet.  Priorities and time are not modelled: any
    thread may run next.  What a failed read of the UART does to the bytes that
    follow is shown for the next interrupt only. *)

From stdpp Require Export base tactics option list list_numbers numbers gmap relations.
From Stdlib Require Export ZArith Lia.
From Stdlib Require Import Zquot.
From Stdlib Require String Ascii.

#[export] Set Default Goal Selector "!".
Open Scope Z_scope.
Coercion Z.of_nat : nat >-> Z.

(** ** Machine integers

    The firmware runs on a Cortex-M4: [size_t], [unsigned] and pointers are 32
    bits wide and the byte order is little endian.  Values are kept in [Z]
    with their wrap-around written out. *)

Definition u8 (z : Z) : Z := z mod 2 ^ 8.
Definition u16 (z : Z) : Z := z mod 2 ^ 16.
Definition u32 (z : Z) : Z := z mod 2 ^ 32.

(** Conversion of a 32-bit pattern to [int]. *)
Definition i32 (z : Z) : Z :=
  if Z.ltb (u32 z) (2 ^ 31) then u32 z else u32 z - 2 ^ 32.

Definition is_u8 (z : Z) : Prop := 0 <= z < 2 ^ 8.
Definition is_u16 (z : Z) : Prop := 0 <= z < 2 ^ 16.
Definition is_u32 (z : Z) : Prop := 0 <= z < 2 ^ 32.

Abbreviation bytes := (Forall is_u8).

(** Negative [errno] values, as Zephyr's minimal libc numbers them. *)
Definition EINVAL : Z := 22.
Definition ENOMEM : Z := 12.
Definition E2BIG : Z := 7.
Definition EBUSY : Z := 16.
Definition ENODEV : Z := 19.
Definition EALREADY : Z := 114.

Create HintDb machine.
Create Rewrite HintDb machine.
Create Rewrite HintDb lenses.

Ltac unfold_machine := unfold is_u8, is_u16, is_u32, u8, u16, u32 in *.

(** Arithmetic with [mod] and [/] by constants. *)
Ltac mlia := unfold_machine; Z.div_mod_to_equations; lia.

Lemma u8_is_u8 z : is_u8 (u8 z).
Proof. mlia. Qed.

Lemma u16_is_u16 z : is_u16 (u16 z).
Proof. mlia. Qed.

Lemma u32_is_u32 z : is_u32 (u32 z).
Proof. mlia. Qed.

Lemma u8_id z : is_u8 z → u8 z = z.
Proof. apply Z.mod_small. Qed.

Lemma u16_id z : is_u16 z → u16 z = z.
Proof. apply Z.mod_small. Qed.

Lemma u32_id z : is_u32 z → u32 z = z.
Proof. apply Z.mod_small. Qed.

#[export] Hint Resolve Forall_nil_2 Forall_cons_2 Forall_app_2 Forall_take Forall_drop : machine.
#[export] Hint Resolve u8_is_u8 u16_is_u16 u32_is_u32 : machine.
#[export] Hint Rewrite u8_id u16_id u32_id using (unfold_machine; lia) : machine.

(** A number is below [2 ^ n] when its bits from [n] on are clear. *)
Lemma high_bits_bound z n :
  0 <= n → 0 <= z → (∀ i, n <= i → Z.testbit z i = false) → z < 2 ^ n.
Proof.
  intros Hn Hz Hhigh. assert (z = z mod 2 ^ n) as ->; [|apply Z.mod_pos_bound; lia].
  rewrite <-Z.land_ones by done. apply Z.bits_inj'. intros i Hi. rewrite Z.land_spec.
  destruct (decide (i < n)).
  - by rewrite Z.ones_spec_low, andb_true_r by lia.
  - by rewrite Z.ones_spec_high, Hhigh by lia.
Qed.

Lemma high_bits a n i : 0 <= a < 2 ^ n → 0 <= n → n <= i → Z.testbit a i = false.
Proof. intros. rewrite <-(Z.mod_small a (2 ^ n)) by done. by apply Z.mod_pow2_bits_high. Qed.

Lemma lxor_bound a b n :
  0 <= n → 0 <= a < 2 ^ n → 0 <= b < 2 ^ n → 0 <= Z.lxor a b < 2 ^ n.
Proof.
  intros Hn Ha Hb. split; [apply Z.lxor_nonneg; lia|].
  apply high_bits_bound; [done|apply Z.lxor_nonneg; lia|].
  intros i Hi. by rewrite Z.lxor_spec, !(high_bits _ n).
Qed.

Lemma lor_bound a b n :
  0 <= n → 0 <= a < 2 ^ n → 0 <= b < 2 ^ n → 0 <= Z.lor a b < 2 ^ n.
Proof.
  intros Hn Ha Hb. split; [apply Z.lor_nonneg; lia|].
  apply high_bits_bound; [done|apply Z.lor_nonneg; lia|].
  intros i Hi. by rewrite Z.lor_spec, !(high_bits _ n).
Qed.

Lemma lxor_is_u8 a b : is_u8 a → is_u8 b → is_u8 (Z.lxor a b).
Proof. intros. apply (lxor_bound a b 8); [lia|done..]. Qed.

Lemma lxor_is_u16 a b : is_u16 a → is_u16 b → is_u16 (Z.lxor a b).
Proof. intros. apply (lxor_bound a b 16); [lia|done..]. Qed.

Lemma lor_is_u8 a b : is_u8 a → is_u8 b → is_u8 (Z.lor a b).
Proof. intros. apply (lor_bound a b 8); [lia|done..]. Qed.

#[export] Hint Resolve lxor_is_u8 lxor_is_u16 lor_is_u8 : machine.

Lemma lxor_cancel a b : Z.lxor (Z.lxor a b) b = a.
Proof. by rewrite Z.lxor_assoc, Z.lxor_nilpotent, Z.lxor_0_r. Qed.

(** ** Little- and big-endian fields *)

(** [n] bytes of [z], least significant first. *)
Fixpoint le_bytes (n : nat) (z : Z) : list Z :=
  match n with
  | O => []
  | S n => u8 z :: le_bytes n (Z.shiftr z 8)
  end.

Fixpoint of_le (bs : list Z) : Z :=
  match bs with
  | [] => 0
  | b :: bs => b + 2 ^ 8 * of_le bs
  end.

Lemma length_le_bytes n z : length (le_bytes n z) = n.
Proof. revert z. induction n as [|n IH]; intros z; simpl; [done|by rewrite IH]. Qed.

Lemma le_bytes_bytes n z : bytes (le_bytes n z).
Proof.
  revert z. induction n as [|n IH]; intros z; simpl; [constructor|].
  constructor; [apply u8_is_u8|apply IH].
Qed.

Lemma of_le_le_bytes n z : of_le (le_bytes n z) = z mod 2 ^ (8 * n).
Proof.
  revert z. induction n as [|n IH]; intros z; cbn [le_bytes of_le].
  { by rewrite Z.mod_1_r. }
  rewrite IH, Z.shiftr_div_pow2 by lia.
  replace (8 * Z.of_nat (S n)) with (8 + 8 * Z.of_nat n) by lia.
  rewrite Z.pow_add_r by lia. unfold u8.
  rewrite Z.rem_mul_r; [done|lia|]. apply Z.pow_pos_nonneg; lia.
Qed.

Lemma of_le_bound bs : bytes bs → 0 <= of_le bs < 2 ^ (8 * length bs).
Proof.
  induction 1 as [|b bs Hb Hbs IH]; cbn [of_le length]; [lia|].
  replace (8 * Z.of_nat (S (length bs))) with (8 + 8 * Z.of_nat (length bs)) by lia.
  rewrite Z.pow_add_r by lia. unfold is_u8 in Hb. nia.
Qed.

Lemma le_bytes_of_le bs : bytes bs → le_bytes (length bs) (of_le bs) = bs.
Proof.
  induction 1 as [|b bs Hb Hbs IH]; cbn [of_le length le_bytes]; [done|].
  f_equal.
  - unfold u8. rewrite Z.mul_comm, Z_mod_plus_full. by apply Z.mod_small.
  - rewrite Z.shiftr_div_pow2 by lia. unfold is_u8 in Hb.
    by rewrite <-(Z.div_unique (b + 2 ^ 8 * of_le bs) (2 ^ 8) (of_le bs) b) by lia.
Qed.

Lemma of_le_app bs1 bs2 :
  of_le (bs1 ++ bs2) = of_le bs1 + 2 ^ (8 * length bs1) * of_le bs2.
Proof.
  induction bs1 as [|b bs1 IH]; cbn [of_le length app]; [lia|].
  rewrite IH. replace (8 * Z.of_nat (S (length bs1))) with (8 + 8 * Z.of_nat (length bs1)) by lia.
  rewrite Z.pow_add_r by lia. lia.
Qed.

#[export] Hint Resolve le_bytes_bytes : machine.
#[export] Hint Rewrite length_le_bytes : machine.

(** A 16-bit value in network order, as [htons] and [ntohs] convert it. *)
Definition be16 (z : Z) : list Z := [u8 (Z.shiftr z 8); u8 z].
Definition of_be16 (hi lo : Z) : Z := 2 ^ 8 * hi + lo.

Lemma of_be16_be16 z : is_u16 z → of_be16 (u8 (Z.shiftr z 8)) (u8 z) = z.
Proof.
  intros Hz. unfold of_be16, u8. rewrite Z.shiftr_div_pow2 by lia. mlia.
Qed.

Lemma of_be16_is_u16 hi lo : is_u8 hi → is_u8 lo → is_u16 (of_be16 hi lo).
Proof. unfold of_be16. mlia. Qed.

#[export] Hint Resolve of_be16_is_u16 : machine.

(** The characters of a string literal, without its final zero. *)
Export String.StringSyntax.
Delimit Scope string_scope with string.
Definition chars (s : String.string) : list Z :=
  (λ a, Z.of_N (Ascii.N_of_ascii a)) <$> String.list_ascii_of_string s.
Arguments chars s%_string.


(** ** State, faults and the program monad

    Statements of the C program become functions of type [M S A]: they take
    the state and either return a value with the new state or crash.  A crash
    stands for behaviour the C standard leaves undefined (or an assertion that
    fails); [StackBlock] is a memory slab handing out the address of a local
    variable that was freed to it; [Diverge] is a loop whose fuel ran out. *)

Inductive fault :=
| NullDeref
| OutOfBounds
| UseAfterFree
| DoubleFree
| StackBlock
| Uninitialised
| AssertFailed
| Diverge.

#[export] Instance fault_eq_dec : EqDecision fault.
Proof. solve_decision. Defined.

Inductive result (S A : Type) :=
| Done (a : A) (s : S)
| Crash (f : fault).
Arguments Done {S A} a s.
Arguments Crash {S A} f.

Definition M (S A : Type) : Type := S → result S A.

#[export] Instance M_ret S : MRet (M S) := λ A a s, Done a s.
#[export] Instance M_bind S : MBind (M S) := λ A B k m s,
  match m s with
  | Done a s' => k a s'
  | Crash f => Crash f
  end.
#[export] Instance M_fmap S : FMap (M S) := λ A B f m s,
  match m s with
  | Done a s' => Done (f a) s'
  | Crash e => Crash e
  end.

Definition crash {S A} (f : fault) : M S A := λ _, Crash f.
Definition getS {S} : M S S := λ s, Done s s.
Definition putS {S} (s : S) : M S () := λ _, Done () s.
Definition modS {S} (f : S → S) : M S () := λ s, Done () (f s).

(** Two programs are the same when they agree on every state. *)
#[export] Instance M_equiv S A : Equiv (M S A) := λ m1 m2, ∀ s, m1 s = m2 s.

#[export] Instance M_equivalence S A : Equivalence (≡@{M S A}).
Proof.
  split.
  - by intros m s.
  - intros m1 m2 H s. symmetry. apply H.
  - intros m1 m2 m3 H1 H2 s. by rewrite H1.
Qed.

#[export] Instance M_bind_proper S A B :
  Proper (pointwise_relation A (≡) ==> (≡) ==> (≡)) (@mbind (M S) _ A B).
Proof.
  intros k1 k2 Hk m1 m2 Hm s. unfold mbind, M_bind. rewrite (Hm s).
  destruct (m2 s) as [a s'|f]; [apply Hk|done].
Qed.

Lemma M_bind_assoc {S A B C} (m : M S A) (k1 : A → M S B) (k2 : B → M S C) :
  (m ≫= k1) ≫= k2 ≡ (m ≫= λ a, k1 a ≫= k2).
Proof. intros s. unfold mbind, M_bind. by destruct (m s). Qed.

Lemma M_ret_bind {S A B} (a : A) (k : A → M S B) : mret a ≫= k ≡ k a.
Proof. done. Qed.

Lemma M_bind_ret {S A} (m : M S A) : (m ≫= mret) ≡ m.
Proof. intros s. unfold mbind, M_bind. by destruct (m s). Qed.

Lemma M_bind_Done {S A B} (m : M S A) (k : A → M S B) s a s' :
  m s = Done a s' → (m ≫= k) s = k a s'.
Proof. intros H. unfold mbind, M_bind. by rewrite H. Qed.

Lemma M_bind_mret {S A B} (a : A) (k : A → M S B) s : (mret a ≫= k) s = k a s.
Proof. done. Qed.

Lemma M_bind_Crash {S A B} (m : M S A) (k : A → M S B) s f :
  m s = Crash f → (m ≫= k) s = Crash f.
Proof. intros H. unfold mbind, M_bind. by rewrite H. Qed.

Lemma M_bind_inv {S A B} (m : M S A) (k : A → M S B) s b s'' :
  (m ≫= k) s = Done b s'' → ∃ a s', m s = Done a s' ∧ k a s' = Done b s''.
Proof. unfold mbind, M_bind. destruct (m s) as [a s'|f]; [eauto|done]. Qed.

(** *** Total correctness: the program does not crash and ends in [Q]. *)
Definition wp {S A} (m : M S A) (Q : A → S → Prop) (s : S) : Prop :=
  match m s with
  | Done a s' => Q a s'
  | Crash _ => False
  end.

Lemma wp_ret {S A} (a : A) (Q : A → S → Prop) s : Q a s → wp (mret a) Q s.
Proof. done. Qed.

Lemma wp_bind {S A B} (m : M S A) (k : A → M S B) Q s :
  wp m (λ a, wp (k a) Q) s → wp (m ≫= k) Q s.
Proof. unfold wp, mbind, M_bind. by destruct (m s). Qed.

Lemma wp_mono {S A} (m : M S A) (Q Q' : A → S → Prop) s :
  wp m Q s → (∀ a s', Q a s' → Q' a s') → wp m Q' s.
Proof. unfold wp. destruct (m s); eauto. Qed.

Lemma wp_Done {S A} (m : M S A) Q s :
  wp m Q s ↔ ∃ a s', m s = Done a s' ∧ Q a s'.
Proof.
  unfold wp. destruct (m s) as [a s'|f]; split.
  - eauto.
  - by intros (? & ? & [= <- <-] & ?).
  - done.
  - by intros (? & ? & ? & ?).
Qed.

#[export] Instance wp_proper S A :
  Proper ((≡) ==> pointwise_relation A (pointwise_relation S iff) ==> (=) ==> iff) (@wp S A).
Proof.
  intros m1 m2 Hm Q1 Q2 HQ s ? <-. unfold wp. rewrite (Hm s).
  destruct (m2 s); [apply HQ|done].
Qed.

(** ** Arrays and memory

    A read or write outside the array is a fault. *)

Definition array_get {S A} (l : list A) (i : Z) : M S A :=
  if Z.ltb i 0 then crash OutOfBounds
  else match l !! Z.to_nat i with
       | Some a => mret a
       | None => crash OutOfBounds
       end.

Definition array_set {S A} (l : list A) (i : Z) (a : A) : M S (list A) :=
  if Z.ltb i 0 then crash OutOfBounds
  else if decide (Z.to_nat i < length l)%nat then mret (<[Z.to_nat i := a]> l)
  else crash OutOfBounds.

(** [memcpy(dst, src, n)] on blocks given by their contents from the pointer on. *)
Definition memcpy {S} (dst src : list Z) (n : Z) : M S (list Z) :=
  if decide (0 <= n <= length dst ∧ n <= length src)
  then mret (take (Z.to_nat n) src ++ drop (Z.to_nat n) dst)
  else crash OutOfBounds.

(** [memcpy(dst + off, src, n)] *)
Definition memcpy_at {S} (dst : list Z) (off : nat) (src : list Z) (n : Z) : M S (list Z) :=
  if decide (off <= length dst)%nat
  then (tail ← memcpy (drop off dst) src n; mret (take off dst ++ tail))
  else crash OutOfBounds.

Lemma array_get_ok {S A} (l : list A) i a (s : S) :
  0 <= i → l !! Z.to_nat i = Some a → array_get l i s = Done a s.
Proof.
  intros Hi Hl. unfold array_get. destruct (Z.ltb_spec i 0); [lia|]. by rewrite Hl.
Qed.

Lemma array_get_oob {S A} (l : list A) i (s : S) :
  i < 0 ∨ length l <= i → array_get l i s = Crash OutOfBounds.
Proof.
  intros Hi. unfold array_get. destruct (Z.ltb_spec i 0); [done|].
  rewrite lookup_ge_None_2; [done|lia].
Qed.

Lemma array_set_ok {S A} (l : list A) i a (s : S) :
  0 <= i < length l → array_set l i a s = Done (<[Z.to_nat i := a]> l) s.
Proof.
  intros Hi. unfold array_set. destruct (Z.ltb_spec i 0); [lia|].
  by rewrite decide_True by lia.
Qed.

Lemma memcpy_ok {S} dst src n (s : S) :
  0 <= n <= length dst → n <= length src →
  memcpy dst src n s = Done (take (Z.to_nat n) src ++ drop (Z.to_nat n) dst) s.
Proof. intros. unfold memcpy. by rewrite decide_True by lia. Qed.

Lemma memcpy_at_ok {S} dst (off : nat) src n (s : S) :
  0 <= n → off + n <= length dst → n <= length src →
  memcpy_at dst off src n s
  = Done (take off dst ++ take (Z.to_nat n) src ++ drop (off + Z.to_nat n) dst) s.
Proof.
  intros Hn Hd Hs. unfold memcpy_at. rewrite decide_True by lia.
  rewrite (M_bind_Done _ _ _ _ _ (memcpy_ok (drop off dst) src n s
    ltac:(rewrite length_drop; lia) Hs)). by rewrite drop_drop.
Qed.

Lemma memcpy_at_state {S} dst off src n (s s' : S) r :
  memcpy_at dst off src n s = Done r s' → s' = s.
Proof.
  unfold memcpy_at. case_decide; [|done]. unfold memcpy, mbind, M_bind.
  by case_decide; [intros [= _ <-]|].
Qed.

Lemma memcpy_at_oob {S} dst (off : nat) src n (s : S) :
  length dst < off + n → memcpy_at dst off src n s = Crash OutOfBounds.
Proof.
  intros Hd. unfold memcpy_at. case_decide; [|done]. unfold memcpy.
  rewrite decide_False by (rewrite length_drop; lia). done.
Qed.

(** The memory after [xs] has been stored at [off]. *)
Definition write_at {A} (dst : list A) (off : nat) (xs : list A) : list A :=
  take off dst ++ xs ++ drop (off + length xs) dst.

Lemma length_write_at {A} (dst : list A) (off : nat) xs :
  (off + length xs <= length dst)%nat → length (write_at dst off xs) = length dst.
Proof. intros Hl. unfold write_at. rewrite !length_app, length_take, length_drop. lia. Qed.

Lemma write_at_nil {A} (dst : list A) off : write_at dst off [] = dst.
Proof. unfold write_at. rewrite Nat.add_0_r. apply take_drop. Qed.

Lemma write_at_app {A} (dst : list A) (off : nat) xs ys :
  (off + length xs <= length dst)%nat →
  write_at (write_at dst off xs) (off + length xs) ys = write_at dst off (xs ++ ys).
Proof.
  intros Hl. unfold write_at at 1 3. rewrite length_app, <-app_assoc.
  assert (Htake : take (off + length xs) (write_at dst off xs) = take off dst ++ xs).
  { unfold write_at. rewrite app_assoc, take_app_length'; [done|].
    rewrite length_app, length_take. lia. }
  assert (Hdrop : drop (off + length xs + length ys) (write_at dst off xs)
                  = drop (off + (length xs + length ys)) dst).
  { unfold write_at. rewrite app_assoc, drop_app_ge by (rewrite length_app, length_take; lia).
    rewrite length_app, length_take, drop_drop. f_equal. lia. }
  by rewrite Htake, Hdrop, <-app_assoc.
Qed.

Lemma take_write_at {A} (dst : list A) (off n : nat) xs :
  (off + length xs <= length dst)%nat → n = (off + length xs)%nat →
  take n (write_at dst off xs) = take off dst ++ xs.
Proof.
  intros Hl ->. unfold write_at. rewrite app_assoc, take_app_length'; [done|].
  rewrite length_app, length_take. lia.
Qed.

Lemma drop_take_write_at {A} (dst : list A) (off : nat) xs :
  (off + length xs <= length dst)%nat → take (length xs) (drop off (write_at dst off xs)) = xs.
Proof.
  intros Hl. unfold write_at. rewrite drop_app_length' by (rewrite length_take; lia).
  by rewrite take_app_length.
Qed.

Lemma bytes_write_at dst off xs : bytes dst → bytes xs → bytes (write_at dst off xs).
Proof.
  intros Hd Hx. unfold write_at. apply Forall_app. split; [by apply Forall_take|].
  apply Forall_app. split; [done|by apply Forall_drop].
Qed.

Lemma memcpy_at_write {S} dst (off : nat) src n (s : S) :
  0 <= n → off + n <= length dst → n <= length src →
  memcpy_at dst off src n s = Done (write_at dst off (take (Z.to_nat n) src)) s.
Proof.
  intros Hn Hd Hs. rewrite memcpy_at_ok by done. unfold write_at.
  by rewrite length_take_le by lia.
Qed.

(** Setting an element is writing it there. *)
Lemma write_at_singleton {A} (dst : list A) (i : nat) v :
  (i < length dst)%nat → <[i := v]> dst = write_at dst i [v].
Proof. intros Hi. unfold write_at. rewrite insert_take_drop by done. by rewrite Nat.add_1_r. Qed.

Lemma write_at_cons {A} (dst : list A) (i : nat) v xs :
  (i < length dst)%nat →
  write_at (<[i := v]> dst) (S i) xs = write_at dst i (v :: xs).
Proof.
  intros Hi. rewrite write_at_singleton by lia.
  replace (S i) with (i + length [v])%nat by (cbn; lia).
  rewrite write_at_app by (cbn; lia). done.
Qed.

Lemma array_set_write {S A} (dst : list A) i v (s : S) :
  0 <= i < length dst → array_set dst i v s = Done (write_at dst (Z.to_nat i) [v]) s.
Proof. intros Hi. rewrite array_set_ok by done. by rewrite write_at_singleton by lia. Qed.

(** ** Lenses: a component's state inside the whole state *)

Record lens (S T : Type) := Lens { view : S → T; store : T → S → S }.
Arguments Lens {S T} view store.
Arguments view {S T} l s.
Arguments store {S T} l t s.

Class LensLaws {S T} (l : lens S T) := {
  view_store t s : view l (store l t s) = t;
  store_view s : store l (view l s) s = s;
  store_store t1 t2 s : store l t2 (store l t1 s) = store l t2 s;
}.

(** Run an operation of a component on its part of the state. *)
Definition zoom {S T A} (l : lens S T) (m : M T A) : M S A := λ s,
  match m (view l s) with
  | Done a t => Done a (store l t s)
  | Crash f => Crash f
  end.

(** A part of a part. *)
Definition lens_comp {S T U} (l : lens S T) (l' : lens T U) : lens S U :=
  Lens (λ s, view l' (view l s)) (λ u s, store l (store l' u (view l s)) s).

#[export] Instance lens_comp_laws {S T U} (l : lens S T) (l' : lens T U) :
  LensLaws l → LensLaws l' → LensLaws (lens_comp l l').
Proof.
  intros Hl Hl'. split; intros; cbn.
  - by rewrite !view_store.
  - by rewrite !store_view.
  - by rewrite view_store, !store_store.
Qed.

Definition getL {S T} (l : lens S T) : M S T := zoom l getS.
Definition modL {S T} (l : lens S T) (f : T → T) : M S () := zoom l (modS f).

Lemma zoom_bind {S T A B} (l : lens S T) `{!LensLaws l} (m : M T A) (k : A → M T B) :
  zoom l (m ≫= k) ≡ (zoom l m ≫= λ a, zoom l (k a)).
Proof.
  intros s. unfold zoom, mbind, M_bind. destruct (m (view l s)) as [a t|f]; [|done].
  rewrite view_store. destruct (k a t) as [b t'|f]; [|done]. by rewrite store_store.
Qed.

Lemma getL_spec {S T} (l : lens S T) `{!LensLaws l} s : getL l s = Done (view l s) s.
Proof. unfold getL, zoom, getS. by rewrite store_view. Qed.

Lemma zoom_Done {S T A} (l : lens S T) (m : M T A) s a t :
  m (view l s) = Done a t → zoom l m s = Done a (store l t s).
Proof. intros Hm. unfold zoom. by rewrite Hm. Qed.

Lemma zoom_Crash {S T A} (l : lens S T) (m : M T A) s f :
  m (view l s) = Crash f → zoom l m s = Crash f.
Proof. intros Hm. unfold zoom. by rewrite Hm. Qed.

(** A read of a component leaves the state alone. *)
Lemma zoom_read {S T A} (l : lens S T) `{!LensLaws l} (m : M T A) s a :
  m (view l s) = Done a (view l s) → zoom l m s = Done a s.
Proof. intros Hm. rewrite (zoom_Done _ _ _ _ _ Hm). by rewrite store_view. Qed.

Lemma modL_spec {S T} (l : lens S T) (f : T → T) s :
  modL l f s = Done () (store l (f (view l s)) s).
Proof. done. Qed.

#[export] Hint Rewrite @view_store @store_view @store_store @getL_spec
  using typeclasses eauto : lenses.

(** Run a program that is known by an equation in the context. *)
Ltac step_with H := rewrite (M_bind_Done _ _ _ _ _ H).

(** Run a step on a component, given what the component's operation does. *)
Ltac step_zoom l H := rewrite (M_bind_Done _ _ _ _ _ (zoom_Done l _ _ _ _ H)).
Ltac step_read l H := rewrite (M_bind_Done _ _ _ _ _ (zoom_read l _ _ _ H)).

(** Run reads and writes of a component's whole state; [lens_simpl] is set
    where the lenses are defined. *)
Ltac lens_simpl := idtac.
Ltac step_getL l := rewrite (M_bind_Done _ _ _ _ _ (getL_spec l _)); lens_simpl.
Ltac step_modL l := rewrite (M_bind_Done _ _ _ _ _ (modL_spec l _ _)); lens_simpl.

(** Goals on closed terms that evaluate. *)
Ltac solve_closed := first [reflexivity|discriminate|split; [discriminate|reflexivity]
  |split; discriminate|apply Nat.leb_le; reflexivity].
Ltac solve_bytes :=
  repeat (apply Forall_cons_2; [split; [discriminate|reflexivity]|]); apply Forall_nil_2.

(** Decide the conditions of a dispatch on a known message type. *)
Ltac eval_dispatch :=
  repeat match goal with
    | |- context [if ?b then _ else _] =>
        let v := eval vm_compute in b in
        match v with
        | true => change b with true; cbv iota
        | false => change b with false; cbv iota
        end
    end.

(** Run both sides of an equivalence of programs on a state. *)
Ltac run_both :=
  let s := fresh "s" in
  intros s; cbv [mbind M_bind mret M_ret crash];
  repeat (case_match; simplify_eq/=; try done).

(** Take a [Done] hypothesis about a sequence of statements apart. *)
Ltac inv_bind H :=
  let a := fresh "a" in let s := fresh "s" in let H1 := fresh "Hm" in
  apply M_bind_inv in H as (a & s & H1 & H).
