(* ===== verification/Config.v ===== *)
(** * Build configuration

    The Kconfig symbols that size the firmware's tables, as a class, so that
    the components are verified for every configuration satisfying
    [ConfigOk], with the two configurations of the repository as instances. *)

From S2P Require Import Prelude.

Class Config := {
  CONFIG_BEAGLEPLAY_GREYBUS_MAX_NODES : Z;
  CONFIG_BEAGLEPLAY_GREYBUS_MAX_INTERFACES : Z;
  CONFIG_BEAGLEPLAY_HDLC_MAX_BLOCK_SIZE : Z;
  CONFIG_BEAGLEPLAY_GREYBUS_MESSAGES_HEAP_MEM_POOL_SIZE : Z;
  CONFIG_BEAGLEPLAY_GREYBUS_MDNS_DISCOVERY : bool;
}.

(** What the code needs of the numbers: the tables exist, an index into them
    fits the C type that holds it, and an HDLC block has room for its address,
    control and check bytes. *)
Class ConfigOk (c : Config) := {
  max_nodes_ok : 0 < CONFIG_BEAGLEPLAY_GREYBUS_MAX_NODES < 2 ^ 15;
  max_interfaces_ok : 0 < CONFIG_BEAGLEPLAY_GREYBUS_MAX_INTERFACES < 2 ^ 8;
  hdlc_block_ok : 10 <= CONFIG_BEAGLEPLAY_HDLC_MAX_BLOCK_SIZE < 2 ^ 16;
}.

(** The defaults of Kconfig. *)
Definition kconfig_default : Config := {|
  CONFIG_BEAGLEPLAY_GREYBUS_MAX_NODES := 1;
  CONFIG_BEAGLEPLAY_GREYBUS_MAX_INTERFACES := 1;
  CONFIG_BEAGLEPLAY_HDLC_MAX_BLOCK_SIZE := 140;
  CONFIG_BEAGLEPLAY_GREYBUS_MESSAGES_HEAP_MEM_POOL_SIZE := 2048;
  CONFIG_BEAGLEPLAY_GREYBUS_MDNS_DISCOVERY := true;
|}.

(** The values prj.conf builds with. *)
Definition prj_conf : Config := {|
  CONFIG_BEAGLEPLAY_GREYBUS_MAX_NODES := 32;
  CONFIG_BEAGLEPLAY_GREYBUS_MAX_INTERFACES := 10;
  CONFIG_BEAGLEPLAY_HDLC_MAX_BLOCK_SIZE := 256;
  CONFIG_BEAGLEPLAY_GREYBUS_MESSAGES_HEAP_MEM_POOL_SIZE := 4096;
  CONFIG_BEAGLEPLAY_GREYBUS_MDNS_DISCOVERY := false;
|}.

#[export] Instance kconfig_default_ok : ConfigOk kconfig_default.
Proof. by split. Qed.

#[export] Instance prj_conf_ok : ConfigOk prj_conf.
Proof. by split. Qed.
