(* ===== verification/Protocols.v ===== *)
(** * Greybus wire protocol

    The constants of include/greybus_protocols.h that the firmware dispatches
    on, and its packed structures.  A packed structure is a list of
    little-endian fields; [pack] and [unpack] are shared by all of them and a
    [Packed] instance gives one structure's layout. *)

From S2P Require Import Prelude.

(** ** Message types and status codes *)

Definition GB_OP_RESPONSE : Z := 0x80.
Definition GB_REQUEST_TYPE_CPORT_SHUTDOWN : Z := 0x00.
Definition GB_REQUEST_TYPE_INVALID : Z := 0x7f.

Definition GB_CONTROL_TYPE_VERSION : Z := 0x01.
Definition GB_CONTROL_TYPE_PROBE_AP : Z := 0x02.
Definition GB_CONTROL_TYPE_GET_MANIFEST_SIZE : Z := 0x03.
Definition GB_CONTROL_TYPE_GET_MANIFEST : Z := 0x04.
Definition GB_CONTROL_TYPE_CONNECTED : Z := 0x05.
Definition GB_CONTROL_TYPE_DISCONNECTED : Z := 0x06.
Definition GB_CONTROL_TYPE_TIMESYNC_ENABLE : Z := 0x07.
Definition GB_CONTROL_TYPE_TIMESYNC_DISABLE : Z := 0x08.
Definition GB_CONTROL_TYPE_TIMESYNC_AUTHORITATIVE : Z := 0x09.
Definition GB_CONTROL_TYPE_BUNDLE_VERSION : Z := 0x0b.
Definition GB_CONTROL_TYPE_DISCONNECTING : Z := 0x0c.
Definition GB_CONTROL_TYPE_TIMESYNC_GET_LAST_EVENT : Z := 0x0d.
Definition GB_CONTROL_TYPE_MODE_SWITCH : Z := 0x0e.
Definition GB_CONTROL_TYPE_BUNDLE_SUSPEND : Z := 0x0f.
Definition GB_CONTROL_TYPE_BUNDLE_RESUME : Z := 0x10.
Definition GB_CONTROL_TYPE_BUNDLE_DEACTIVATE : Z := 0x11.
Definition GB_CONTROL_TYPE_BUNDLE_ACTIVATE : Z := 0x12.
Definition GB_CONTROL_TYPE_INTF_SUSPEND_PREPARE : Z := 0x13.
Definition GB_CONTROL_TYPE_INTF_DEACTIVATE_PREPARE : Z := 0x14.
Definition GB_CONTROL_TYPE_INTF_HIBERNATE_ABORT : Z := 0x15.

Definition GB_SVC_VERSION_MAJOR : Z := 0x00.
Definition GB_SVC_VERSION_MINOR : Z := 0x01.
Definition GB_SVC_TYPE_PROTOCOL_VERSION : Z := 0x01.
Definition GB_SVC_TYPE_SVC_HELLO : Z := 0x02.
Definition GB_SVC_TYPE_INTF_DEVICE_ID : Z := 0x03.
Definition GB_SVC_TYPE_INTF_RESET : Z := 0x06.
Definition GB_SVC_TYPE_CONN_CREATE : Z := 0x07.
Definition GB_SVC_TYPE_CONN_DESTROY : Z := 0x08.
Definition GB_SVC_TYPE_DME_PEER_GET : Z := 0x09.
Definition GB_SVC_TYPE_DME_PEER_SET : Z := 0x0a.
Definition GB_SVC_TYPE_ROUTE_CREATE : Z := 0x0b.
Definition GB_SVC_TYPE_ROUTE_DESTROY : Z := 0x0c.
Definition GB_SVC_TYPE_TIMESYNC_ENABLE : Z := 0x0d.
Definition GB_SVC_TYPE_TIMESYNC_DISABLE : Z := 0x0e.
Definition GB_SVC_TYPE_TIMESYNC_AUTHORITATIVE : Z := 0x0f.
Definition GB_SVC_TYPE_INTF_SET_PWRM : Z := 0x10.
Definition GB_SVC_TYPE_INTF_EJECT : Z := 0x11.
Definition GB_SVC_TYPE_PING : Z := 0x13.
Definition GB_SVC_TYPE_PWRMON_RAIL_COUNT_GET : Z := 0x14.
Definition GB_SVC_TYPE_PWRMON_RAIL_NAMES_GET : Z := 0x15.
Definition GB_SVC_TYPE_PWRMON_SAMPLE_GET : Z := 0x16.
Definition GB_SVC_TYPE_PWRMON_INTF_SAMPLE_GET : Z := 0x17.
Definition GB_SVC_TYPE_TIMESYNC_WAKE_PINS_ACQUIRE : Z := 0x18.
Definition GB_SVC_TYPE_TIMESYNC_WAKE_PINS_RELEASE : Z := 0x19.
Definition GB_SVC_TYPE_TIMESYNC_PING : Z := 0x1a.
Definition GB_SVC_TYPE_MODULE_INSERTED : Z := 0x1f.
Definition GB_SVC_TYPE_MODULE_REMOVED : Z := 0x20.
Definition GB_SVC_TYPE_INTF_VSYS_ENABLE : Z := 0x21.
Definition GB_SVC_TYPE_INTF_VSYS_DISABLE : Z := 0x22.
Definition GB_SVC_TYPE_INTF_REFCLK_ENABLE : Z := 0x23.
Definition GB_SVC_TYPE_INTF_REFCLK_DISABLE : Z := 0x24.
Definition GB_SVC_TYPE_INTF_UNIPRO_ENABLE : Z := 0x25.
Definition GB_SVC_TYPE_INTF_UNIPRO_DISABLE : Z := 0x26.
Definition GB_SVC_TYPE_INTF_ACTIVATE : Z := 0x27.
Definition GB_SVC_TYPE_INTF_RESUME : Z := 0x28.
Definition GB_SVC_TYPE_INTF_MAILBOX_EVENT : Z := 0x29.
Definition GB_SVC_TYPE_INTF_OOPS : Z := 0x2a.
Definition GB_SVC_OP_SUCCESS : Z := 0x00.
Definition GB_SVC_OP_UNKNOWN_ERROR : Z := 0x01.
Definition GB_SVC_INTF_NOT_DETECTED : Z := 0x02.
Definition GB_SVC_INTF_NO_UPRO_LINK : Z := 0x03.
Definition GB_SVC_INTF_UPRO_NOT_DOWN : Z := 0x04.
Definition GB_SVC_INTF_UPRO_NOT_HIBERNATED : Z := 0x05.
Definition GB_SVC_INTF_NO_V_SYS : Z := 0x06.
Definition GB_SVC_INTF_V_CHG : Z := 0x07.
Definition GB_SVC_INTF_WAKE_BUSY : Z := 0x08.
Definition GB_SVC_INTF_NO_REFCLK : Z := 0x09.
Definition GB_SVC_INTF_RELEASING : Z := 0x0a.
Definition GB_SVC_INTF_NO_ORDER : Z := 0x0b.
Definition GB_SVC_INTF_MBOX_SET : Z := 0x0c.
Definition GB_SVC_INTF_BAD_MBOX : Z := 0x0d.
Definition GB_SVC_INTF_OP_TIMEOUT : Z := 0x0e.
Definition GB_SVC_PWRMON_OP_NOT_PRESENT : Z := 0x0f.

Definition GB_SVC_INTF_VSYS_OK : Z := 0x00.
Definition GB_SVC_INTF_REFCLK_OK : Z := 0x00.
Definition GB_SVC_INTF_UNIPRO_OK : Z := 0x00.
Definition GB_SVC_UNIPRO_FAST_MODE : Z := 0x01.
Definition GB_SVC_UNIPRO_SLOW_MODE : Z := 0x02.
Definition GB_SVC_UNIPRO_FAST_AUTO_MODE : Z := 0x04.
Definition GB_SVC_UNIPRO_SLOW_AUTO_MODE : Z := 0x05.
Definition GB_SVC_UNIPRO_MODE_UNCHANGED : Z := 0x07.
Definition GB_SVC_UNIPRO_HIBERNATE_MODE : Z := 0x11.
Definition GB_SVC_UNIPRO_OFF_MODE : Z := 0x12.
Definition GB_SVC_SETPWRM_PWR_OK : Z := 0x00.
Definition GB_SVC_SETPWRM_PWR_LOCAL : Z := 0x01.
Definition GB_SVC_SETPWRM_PWR_REMOTE : Z := 0x02.
Definition GB_SVC_SETPWRM_PWR_BUSY : Z := 0x03.
Definition GB_SVC_SETPWRM_PWR_ERROR_CAP : Z := 0x04.
Definition GB_SVC_SETPWRM_PWR_FATAL_ERROR : Z := 0x05.
Definition GB_SVC_INTF_TYPE_UNKNOWN : Z := 0x00.
Definition GB_SVC_INTF_TYPE_DUMMY : Z := 0x01.
Definition GB_SVC_INTF_TYPE_UNIPRO : Z := 0x02.
Definition GB_SVC_INTF_TYPE_GREYBUS : Z := 0x03.

(** [GB_RESPONSE(req)]: the type of the response to a request. *)
Definition GB_RESPONSE (req : Z) : Z := Z.lor req GB_OP_RESPONSE.

(** ** Packed structures *)

(** Fields of [ws] bytes each, least significant byte first, without padding. *)
Fixpoint pack (ws : list nat) (vs : list Z) : list Z :=
  match ws, vs with
  | w :: ws, v :: vs => le_bytes w v ++ pack ws vs
  | _, _ => []
  end.

Fixpoint unpack (ws : list nat) (bs : list Z) : list Z :=
  match ws with
  | [] => []
  | w :: ws => of_le (take w bs) :: unpack ws (drop w bs)
  end.

Definition layout_size (ws : list nat) : nat := sum_list ws.

Definition fits (w : nat) (v : Z) : Prop := 0 <= v < 2 ^ (8 * w).

Lemma length_pack ws vs : length vs = length ws → length (pack ws vs) = layout_size ws.
Proof.
  revert vs. induction ws as [|w ws IH]; intros [|v vs] Hl; try done; simplify_eq/=.
  rewrite length_app, length_le_bytes, IH by done. done.
Qed.

Lemma pack_bytes ws vs : bytes (pack ws vs).
Proof.
  revert vs. induction ws as [|w ws IH]; intros [|v vs]; simpl; try constructor.
  apply Forall_app_2; [apply le_bytes_bytes|apply IH].
Qed.

Lemma unpack_pack ws vs rest :
  Forall2 fits ws vs → unpack ws (pack ws vs ++ rest) = vs.
Proof.
  induction 1 as [|w v ws vs Hv Hvs IH]; simpl; [done|].
  rewrite <-app_assoc, take_app_le by (rewrite length_le_bytes; lia).
  rewrite take_ge by (rewrite length_le_bytes; lia).
  rewrite drop_app_ge by (rewrite length_le_bytes; lia).
  rewrite length_le_bytes, Nat.sub_diag, drop_0, IH, of_le_le_bytes.
  f_equal. apply Z.mod_small. apply Hv.
Qed.

Lemma pack_unpack ws bs :
  bytes bs → length bs = layout_size ws → pack ws (unpack ws bs) = bs.
Proof.
  revert bs. induction ws as [|w ws IH]; intros bs Hbs Hl; simpl in *.
  { by destruct bs. }
  unfold layout_size in *. simpl in Hl.
  rewrite <-(take_drop w bs) at 3. f_equal.
  - rewrite <-(length_take_le bs w) at 1 by lia. apply le_bytes_of_le. by apply Forall_take.
  - apply IH; [by apply Forall_drop|]. rewrite length_drop. lia.
Qed.

Lemma unpack_fits ws bs :
  bytes bs → (layout_size ws <= length bs)%nat → Forall2 fits ws (unpack ws bs).
Proof.
  unfold layout_size. revert bs.
  induction ws as [|w ws IH]; intros bs Hbs Hl; simpl in *; constructor.
  - unfold fits. pose proof (of_le_bound (take w bs)) as Hb.
    rewrite length_take_le in Hb by lia. by apply Hb, Forall_take.
  - apply IH; [by apply Forall_drop|]. rewrite length_drop. lia.
Qed.

(** Only the bytes of the layout matter. *)
Lemma unpack_take ws n bs : (layout_size ws <= n)%nat → unpack ws (take n bs) = unpack ws bs.
Proof.
  unfold layout_size. revert n bs. induction ws as [|w ws IH]; intros n bs Hn; simpl in *; [done|].
  rewrite take_take, Nat.min_l by lia. f_equal.
  replace n with (w + (n - w))%nat by lia. rewrite <-take_drop_commute. apply IH. lia.
Qed.

(** A structure's layout and its fields in order. *)
Class Packed (A : Type) := {
  layout : list nat;
  fields : A → list Z;
  of_fields : list Z → A;
}.

Class PackedLaws (A : Type) `{Packed A} := {
  of_fields_fields a : of_fields (fields a) = a;
  fields_length a : length (fields a) = length (layout (A := A));
  fields_of_fields vs :
    length vs = length (layout (A := A)) → fields (of_fields (A := A) vs) = vs;
}.

Section Packed.
Context {A : Type} `{PackedLaws A}.

Definition sizeof : nat := layout_size (layout (A := A)).
Definition to_wire (a : A) : list Z := pack layout (fields a).
Definition of_wire (bs : list Z) : A := of_fields (unpack layout bs).
Definition in_range (a : A) : Prop := Forall2 fits layout (fields a).

(** Read a structure through a pointer to [bs]. *)
Definition read_struct {S} (bs : list Z) : M S A :=
  if decide (sizeof <= length bs)%nat then mret (of_wire bs) else crash OutOfBounds.

(** Read only fields that end within the first [n] bytes. *)
Definition read_fields {S} (n : nat) (bs : list Z) : M S A :=
  if decide (n <= length bs)%nat then mret (of_wire bs) else crash OutOfBounds.

Lemma read_fields_ok {S} n bs (s : S) :
  (n <= length bs)%nat → read_fields n bs s = Done (of_wire bs) s.
Proof. intros Hl. unfold read_fields. by rewrite decide_True. Qed.

Lemma read_fields_short {S} n bs (s : S) :
  (length bs < n)%nat → read_fields n bs s = Crash OutOfBounds.
Proof. intros Hl. unfold read_fields. by rewrite decide_False by lia. Qed.

Lemma length_to_wire a : length (to_wire a) = sizeof.
Proof. apply length_pack, fields_length. Qed.

Lemma to_wire_bytes a : bytes (to_wire a).
Proof. apply pack_bytes. Qed.

Lemma of_wire_to_wire a rest : in_range a → of_wire (to_wire a ++ rest) = a.
Proof.
  intros Ha. unfold of_wire, to_wire. rewrite unpack_pack by done. apply of_fields_fields.
Qed.

Lemma of_wire_take n bs : (sizeof <= n)%nat → of_wire (take n bs) = of_wire bs.
Proof. intros Hn. unfold of_wire. by rewrite unpack_take. Qed.

Lemma to_wire_of_wire bs :
  bytes bs → length bs = sizeof → to_wire (of_wire bs) = bs.
Proof.
  intros Hbs Hl. unfold to_wire, of_wire. rewrite fields_of_fields.
  - by apply pack_unpack.
  - clear. induction layout as [|w ws IH] in bs |- *; simpl; [done|]. by rewrite IH.
Qed.

Lemma read_struct_ok {S} bs (s : S) :
  (sizeof <= length bs)%nat → read_struct bs s = Done (of_wire bs) s.
Proof. intros Hl. unfold read_struct. by rewrite decide_True. Qed.

Lemma read_struct_short {S} bs (s : S) :
  (length bs < sizeof)%nat → read_struct bs s = Crash OutOfBounds.
Proof. intros Hl. unfold read_struct. by rewrite decide_False by lia. Qed.
End Packed.

Arguments sizeof A {_}.

(** The laws of a record with as many fields as its layout. *)
Ltac solve_packed :=
  split; [by intros []|done|
          intros vs Hvs; simpl in Hvs;
          repeat (destruct vs as [|? vs]; [discriminate Hvs|]); by destruct vs].

Record gb_operation_msg_hdr := {
  hdr_size : Z;
  hdr_operation_id : Z;
  hdr_type : Z;
  hdr_result : Z;
  hdr_pad0 : Z;
  hdr_pad1 : Z;
}.
#[export] Instance packed_gb_operation_msg_hdr : Packed gb_operation_msg_hdr := {
  layout := [2%nat; 2%nat; 1%nat; 1%nat; 1%nat; 1%nat];
  fields s := [hdr_size s; hdr_operation_id s; hdr_type s; hdr_result s; hdr_pad0 s; hdr_pad1 s];
  of_fields vs := {| hdr_size := vs !!! 0%nat;
    hdr_operation_id := vs !!! 1%nat;
    hdr_type := vs !!! 2%nat;
    hdr_result := vs !!! 3%nat;
    hdr_pad0 := vs !!! 4%nat;
    hdr_pad1 := vs !!! 5%nat |};
}.
#[export] Instance packed_laws_gb_operation_msg_hdr : PackedLaws gb_operation_msg_hdr.
Proof. solve_packed. Qed.

Record gb_control_version_response := {
  cvr_major : Z;
  cvr_minor : Z;
}.
#[export] Instance packed_gb_control_version_response : Packed gb_control_version_response := {
  layout := [1%nat; 1%nat];
  fields s := [cvr_major s; cvr_minor s];
  of_fields vs := {| cvr_major := vs !!! 0%nat;
    cvr_minor := vs !!! 1%nat |};
}.
#[export] Instance packed_laws_gb_control_version_response : PackedLaws gb_control_version_response.
Proof. solve_packed. Qed.

Record gb_control_get_manifest_size_response := {
  gms_size : Z;
}.
#[export] Instance packed_gb_control_get_manifest_size_response : Packed gb_control_get_manifest_size_response := {
  layout := [2%nat];
  fields s := [gms_size s];
  of_fields vs := {| gms_size := vs !!! 0%nat |};
}.
#[export] Instance packed_laws_gb_control_get_manifest_size_response : PackedLaws gb_control_get_manifest_size_response.
Proof. solve_packed. Qed.

Record gb_svc_version_request := {
  svr_major : Z;
  svr_minor : Z;
}.
#[export] Instance packed_gb_svc_version_request : Packed gb_svc_version_request := {
  layout := [1%nat; 1%nat];
  fields s := [svr_major s; svr_minor s];
  of_fields vs := {| svr_major := vs !!! 0%nat;
    svr_minor := vs !!! 1%nat |};
}.
#[export] Instance packed_laws_gb_svc_version_request : PackedLaws gb_svc_version_request.
Proof. solve_packed. Qed.

Record gb_svc_hello_request := {
  hello_endo_id : Z;
  hello_interface_id : Z;
}.
#[export] Instance packed_gb_svc_hello_request : Packed gb_svc_hello_request := {
  layout := [2%nat; 1%nat];
  fields s := [hello_endo_id s; hello_interface_id s];
  of_fields vs := {| hello_endo_id := vs !!! 0%nat;
    hello_interface_id := vs !!! 1%nat |};
}.
#[export] Instance packed_laws_gb_svc_hello_request : PackedLaws gb_svc_hello_request.
Proof. solve_packed. Qed.

Record gb_svc_conn_create_request := {
  cc_intf1_id : Z;
  cc_cport1_id : Z;
  cc_intf2_id : Z;
  cc_cport2_id : Z;
  cc_tc : Z;
  cc_flags : Z;
}.
#[export] Instance packed_gb_svc_conn_create_request : Packed gb_svc_conn_create_request := {
  layout := [1%nat; 2%nat; 1%nat; 2%nat; 1%nat; 1%nat];
  fields s := [cc_intf1_id s; cc_cport1_id s; cc_intf2_id s; cc_cport2_id s; cc_tc s; cc_flags s];
  of_fields vs := {| cc_intf1_id := vs !!! 0%nat;
    cc_cport1_id := vs !!! 1%nat;
    cc_intf2_id := vs !!! 2%nat;
    cc_cport2_id := vs !!! 3%nat;
    cc_tc := vs !!! 4%nat;
    cc_flags := vs !!! 5%nat |};
}.
#[export] Instance packed_laws_gb_svc_conn_create_request : PackedLaws gb_svc_conn_create_request.
Proof. solve_packed. Qed.

Record gb_svc_conn_destroy_request := {
  cd_intf1_id : Z;
  cd_cport1_id : Z;
  cd_intf2_id : Z;
  cd_cport2_id : Z;
}.
#[export] Instance packed_gb_svc_conn_destroy_request : Packed gb_svc_conn_destroy_request := {
  layout := [1%nat; 2%nat; 1%nat; 2%nat];
  fields s := [cd_intf1_id s; cd_cport1_id s; cd_intf2_id s; cd_cport2_id s];
  of_fields vs := {| cd_intf1_id := vs !!! 0%nat;
    cd_cport1_id := vs !!! 1%nat;
    cd_intf2_id := vs !!! 2%nat;
    cd_cport2_id := vs !!! 3%nat |};
}.
#[export] Instance packed_laws_gb_svc_conn_destroy_request : PackedLaws gb_svc_conn_destroy_request.
Proof. solve_packed. Qed.

Record gb_svc_dme_peer_get_response := {
  dpg_result_code : Z;
  dpg_attr_value : Z;
}.
#[export] Instance packed_gb_svc_dme_peer_get_response : Packed gb_svc_dme_peer_get_response := {
  layout := [2%nat; 4%nat];
  fields s := [dpg_result_code s; dpg_attr_value s];
  of_fields vs := {| dpg_result_code := vs !!! 0%nat;
    dpg_attr_value := vs !!! 1%nat |};
}.
#[export] Instance packed_laws_gb_svc_dme_peer_get_response : PackedLaws gb_svc_dme_peer_get_response.
Proof. solve_packed. Qed.

Record gb_svc_dme_peer_set_response := {
  dps_result_code : Z;
}.
#[export] Instance packed_gb_svc_dme_peer_set_response : Packed gb_svc_dme_peer_set_response := {
  layout := [2%nat];
  fields s := [dps_result_code s];
  of_fields vs := {| dps_result_code := vs !!! 0%nat |};
}.
#[export] Instance packed_laws_gb_svc_dme_peer_set_response : PackedLaws gb_svc_dme_peer_set_response.
Proof. solve_packed. Qed.

Record gb_svc_intf_vsys_response := {
  vsys_result_code : Z;
}.
#[export] Instance packed_gb_svc_intf_vsys_response : Packed gb_svc_intf_vsys_response := {
  layout := [1%nat];
  fields s := [vsys_result_code s];
  of_fields vs := {| vsys_result_code := vs !!! 0%nat |};
}.
#[export] Instance packed_laws_gb_svc_intf_vsys_response : PackedLaws gb_svc_intf_vsys_response.
Proof. solve_packed. Qed.

Record gb_svc_intf_refclk_response := {
  refclk_result_code : Z;
}.
#[export] Instance packed_gb_svc_intf_refclk_response : Packed gb_svc_intf_refclk_response := {
  layout := [1%nat];
  fields s := [refclk_result_code s];
  of_fields vs := {| refclk_result_code := vs !!! 0%nat |};
}.
#[export] Instance packed_laws_gb_svc_intf_refclk_response : PackedLaws gb_svc_intf_refclk_response.
Proof. solve_packed. Qed.

Record gb_svc_intf_unipro_response := {
  unipro_result_code : Z;
}.
#[export] Instance packed_gb_svc_intf_unipro_response : Packed gb_svc_intf_unipro_response := {
  layout := [1%nat];
  fields s := [unipro_result_code s];
  of_fields vs := {| unipro_result_code := vs !!! 0%nat |};
}.
#[export] Instance packed_laws_gb_svc_intf_unipro_response : PackedLaws gb_svc_intf_unipro_response.
Proof. solve_packed. Qed.

Record gb_svc_l2_timer_cfg := {
  l2_tsb_fc0_protection_timeout : Z;
  l2_tsb_tc0_replay_timeout : Z;
  l2_tsb_afc0_req_timeout : Z;
  l2_tsb_fc1_protection_timeout : Z;
  l2_tsb_tc1_replay_timeout : Z;
  l2_tsb_afc1_req_timeout : Z;
  l2_reserved_for_tc20 : Z;
  l2_reserved_for_tc21 : Z;
  l2_reserved_for_tc22 : Z;
  l2_reserved_for_tc30 : Z;
  l2_reserved_for_tc31 : Z;
  l2_reserved_for_tc32 : Z;
}.
#[export] Instance packed_gb_svc_l2_timer_cfg : Packed gb_svc_l2_timer_cfg := {
  layout := [2%nat; 2%nat; 2%nat; 2%nat; 2%nat; 2%nat; 2%nat; 2%nat; 2%nat; 2%nat; 2%nat; 2%nat];
  fields s := [l2_tsb_fc0_protection_timeout s; l2_tsb_tc0_replay_timeout s; l2_tsb_afc0_req_timeout s; l2_tsb_fc1_protection_timeout s; l2_tsb_tc1_replay_timeout s; l2_tsb_afc1_req_timeout s; l2_reserved_for_tc20 s; l2_reserved_for_tc21 s; l2_reserved_for_tc22 s; l2_reserved_for_tc30 s; l2_reserved_for_tc31 s; l2_reserved_for_tc32 s];
  of_fields vs := {| l2_tsb_fc0_protection_timeout := vs !!! 0%nat;
    l2_tsb_tc0_replay_timeout := vs !!! 1%nat;
    l2_tsb_afc0_req_timeout := vs !!! 2%nat;
    l2_tsb_fc1_protection_timeout := vs !!! 3%nat;
    l2_tsb_tc1_replay_timeout := vs !!! 4%nat;
    l2_tsb_afc1_req_timeout := vs !!! 5%nat;
    l2_reserved_for_tc20 := vs !!! 6%nat;
    l2_reserved_for_tc21 := vs !!! 7%nat;
    l2_reserved_for_tc22 := vs !!! 8%nat;
    l2_reserved_for_tc30 := vs !!! 9%nat;
    l2_reserved_for_tc31 := vs !!! 10%nat;
    l2_reserved_for_tc32 := vs !!! 11%nat |};
}.
#[export] Instance packed_laws_gb_svc_l2_timer_cfg : PackedLaws gb_svc_l2_timer_cfg.
Proof. solve_packed. Qed.

Record gb_svc_intf_set_pwrm_request := {
  pwrm_intf_id : Z;
  pwrm_hs_series : Z;
  pwrm_tx_mode : Z;
  pwrm_tx_gear : Z;
  pwrm_tx_nlanes : Z;
  pwrm_tx_amplitude : Z;
  pwrm_tx_hs_equalizer : Z;
  pwrm_rx_mode : Z;
  pwrm_rx_gear : Z;
  pwrm_rx_nlanes : Z;
  pwrm_flags : Z;
  pwrm_quirks : Z;
  pwrm_local_l2timerdata : gb_svc_l2_timer_cfg;
  pwrm_remote_l2timerdata : gb_svc_l2_timer_cfg;
}.
#[export] Instance packed_gb_svc_intf_set_pwrm_request : Packed gb_svc_intf_set_pwrm_request := {
  layout := [1%nat; 1%nat; 1%nat; 1%nat; 1%nat; 1%nat; 1%nat; 1%nat; 1%nat; 1%nat; 1%nat; 4%nat] ++ layout (A := gb_svc_l2_timer_cfg) ++ layout (A := gb_svc_l2_timer_cfg);
  fields s := [pwrm_intf_id s; pwrm_hs_series s; pwrm_tx_mode s; pwrm_tx_gear s; pwrm_tx_nlanes s; pwrm_tx_amplitude s; pwrm_tx_hs_equalizer s; pwrm_rx_mode s; pwrm_rx_gear s; pwrm_rx_nlanes s; pwrm_flags s; pwrm_quirks s] ++ fields (pwrm_local_l2timerdata s) ++ fields (pwrm_remote_l2timerdata s);
  of_fields vs := {| pwrm_intf_id := vs !!! 0%nat;
    pwrm_hs_series := vs !!! 1%nat;
    pwrm_tx_mode := vs !!! 2%nat;
    pwrm_tx_gear := vs !!! 3%nat;
    pwrm_tx_nlanes := vs !!! 4%nat;
    pwrm_tx_amplitude := vs !!! 5%nat;
    pwrm_tx_hs_equalizer := vs !!! 6%nat;
    pwrm_rx_mode := vs !!! 7%nat;
    pwrm_rx_gear := vs !!! 8%nat;
    pwrm_rx_nlanes := vs !!! 9%nat;
    pwrm_flags := vs !!! 10%nat;
    pwrm_quirks := vs !!! 11%nat;
    pwrm_local_l2timerdata := of_fields (take 12 (drop 12 vs));
    pwrm_remote_l2timerdata := of_fields (drop 24 vs) |};
}.
#[export] Instance packed_laws_gb_svc_intf_set_pwrm_request : PackedLaws gb_svc_intf_set_pwrm_request.
Proof.
  split.
  - by intros [? ? ? ? ? ? ? ? ? ? ? ? [] []].
  - done.
  - intros vs Hvs. simpl in Hvs.
    repeat (destruct vs as [|? vs]; [discriminate Hvs|]). by destruct vs.
Qed.

Record gb_svc_intf_set_pwrm_response := {
  pwrm_resp_result_code : Z;
}.
#[export] Instance packed_gb_svc_intf_set_pwrm_response : Packed gb_svc_intf_set_pwrm_response := {
  layout := [1%nat];
  fields s := [pwrm_resp_result_code s];
  of_fields vs := {| pwrm_resp_result_code := vs !!! 0%nat |};
}.
#[export] Instance packed_laws_gb_svc_intf_set_pwrm_response : PackedLaws gb_svc_intf_set_pwrm_response.
Proof. solve_packed. Qed.

Record gb_svc_pwrmon_rail_count_get_response := {
  rail_rail_count : Z;
}.
#[export] Instance packed_gb_svc_pwrmon_rail_count_get_response : Packed gb_svc_pwrmon_rail_count_get_response := {
  layout := [1%nat];
  fields s := [rail_rail_count s];
  of_fields vs := {| rail_rail_count := vs !!! 0%nat |};
}.
#[export] Instance packed_laws_gb_svc_pwrmon_rail_count_get_response : PackedLaws gb_svc_pwrmon_rail_count_get_response.
Proof. solve_packed. Qed.

Record gb_svc_module_inserted_request := {
  mi_primary_intf_id : Z;
  mi_intf_count : Z;
  mi_flags : Z;
}.
#[export] Instance packed_gb_svc_module_inserted_request : Packed gb_svc_module_inserted_request := {
  layout := [1%nat; 1%nat; 2%nat];
  fields s := [mi_primary_intf_id s; mi_intf_count s; mi_flags s];
  of_fields vs := {| mi_primary_intf_id := vs !!! 0%nat;
    mi_intf_count := vs !!! 1%nat;
    mi_flags := vs !!! 2%nat |};
}.
#[export] Instance packed_laws_gb_svc_module_inserted_request : PackedLaws gb_svc_module_inserted_request.
Proof. solve_packed. Qed.

Record gb_svc_module_removed_request := {
  mr_primary_intf_id : Z;
}.
#[export] Instance packed_gb_svc_module_removed_request : Packed gb_svc_module_removed_request := {
  layout := [1%nat];
  fields s := [mr_primary_intf_id s];
  of_fields vs := {| mr_primary_intf_id := vs !!! 0%nat |};
}.
#[export] Instance packed_laws_gb_svc_module_removed_request : PackedLaws gb_svc_module_removed_request.
Proof. solve_packed. Qed.

Record gb_svc_intf_activate_response := {
  act_status : Z;
  act_intf_type : Z;
}.
#[export] Instance packed_gb_svc_intf_activate_response : Packed gb_svc_intf_activate_response := {
  layout := [1%nat; 1%nat];
  fields s := [act_status s; act_intf_type s];
  of_fields vs := {| act_status := vs !!! 0%nat;
    act_intf_type := vs !!! 1%nat |};
}.
#[export] Instance packed_laws_gb_svc_intf_activate_response : PackedLaws gb_svc_intf_activate_response.
Proof. solve_packed. Qed.

Record gb_svc_intf_resume_response := {
  res_status : Z;
}.
#[export] Instance packed_gb_svc_intf_resume_response : Packed gb_svc_intf_resume_response := {
  layout := [1%nat];
  fields s := [res_status s];
  of_fields vs := {| res_status := vs !!! 0%nat |};
}.
#[export] Instance packed_laws_gb_svc_intf_resume_response : PackedLaws gb_svc_intf_resume_response.
Proof. solve_packed. Qed.
