(* ===== verification/CTypes.v ===== *)
(** * C structures

    The declarations of include/greybus_protocols.h as data: the types a packed
    or unpacked structure is made of, their layout by the C ABI of the target
    (natural alignment, little endian), and the encoding of a value as the
    bytes of a message, with its inverse. *)

From S2P Require Import Prelude.

#[local] Set Warnings "-register-all".

(** [Int w] is an unsigned integer of [w] bytes, [Flexible t] the member
    [t x[]] (or [t x[0]]) at the end of a structure. *)
Inductive ctype :=
| Int (w : nat)
| Array (t : ctype) (n : nat)
| Flexible (t : ctype)
| Struct (packed : bool) (fs : list (String.string * ctype))
| Union (fs : list (String.string * ctype)).

(** The header's integer types. *)
Definition __u8 : ctype := Int 1.
Definition __le16 : ctype := Int 2.
Definition __le32 : ctype := Int 4.
Definition __le64 : ctype := Int 8.

(** Macros with their values; [BIT] is the C library's. *)
Definition constants : Type := list (String.string * Z).
Class Bit := BIT : Z → Z.

Section Induction.
Context (P : ctype → Prop).
Context (HInt : ∀ w, P (Int w)) (HArray : ∀ t n, P t → P (Array t n)) (HFlex : ∀ t, P t → P (Flexible t)).
Context (HStruct : ∀ p fs, Forall (λ f, P f.2) fs → P (Struct p fs)).
Context (HUnion : ∀ fs, Forall (λ f, P f.2) fs → P (Union fs)).

Fixpoint ctype_nested_ind (t : ctype) : P t :=
  let fix members (fs : list (String.string * ctype)) : Forall (λ f, P f.2) fs :=
    match fs with
    | [] => Forall_nil_2 _
    | (name, t) :: fs => Forall_cons_2 _ (name, t) fs (ctype_nested_ind t) (members fs)
    end in
  match t with
  | Int w => HInt w
  | Array t n => HArray t n (ctype_nested_ind t)
  | Flexible t => HFlex t (ctype_nested_ind t)
  | Struct p fs => HStruct p fs (members fs)
  | Union fs => HUnion fs (members fs)
  end.
End Induction.

(** ** Layout *)

Fixpoint alignof (t : ctype) : nat :=
  match t with
  | Int w => w
  | Array t _ | Flexible t => alignof t
  | Struct true _ => 1
  | Struct false fs | Union fs => foldr Nat.max 1%nat (map (λ '(_, t), alignof t) fs)
  end.

Definition round_up (n a : nat) : nat := ((n + a - 1) / a * a)%nat.

(** Where members of the given sizes and alignments come to lie, from [off] on. *)
Fixpoint offsets (packed : bool) (ms : list (nat * nat)) (off : nat) : list nat :=
  match ms with
  | [] => []
  | (size, align) :: ms =>
      let off := if packed then off else round_up off align in
      off :: offsets packed ms (off + size)
  end.

Fixpoint extent (packed : bool) (ms : list (nat * nat)) (off : nat) : nat :=
  match ms with
  | [] => off
  | (size, align) :: ms => extent packed ms ((if packed then off else round_up off align) + size)
  end.

Fixpoint sizeof (t : ctype) : nat :=
  match t with
  | Int w => w
  | Array t n => n * sizeof t
  | Flexible _ => 0
  | Struct packed fs =>
      round_up (extent packed (map (λ '(_, t), (sizeof t, alignof t)) fs) 0) (alignof t)
  | Union fs => round_up (foldr Nat.max 0%nat (map (λ '(_, t), sizeof t) fs)) (alignof t)
  end.

Definition members (fs : list (String.string * ctype)) : list (nat * nat) :=
  map (λ '(_, t), (sizeof t, alignof t)) fs.

(** [offsetof] for the members in order. *)
Definition field_offsets (packed : bool) (fs : list (String.string * ctype)) : list nat :=
  offsets packed (members fs) 0.

(** No byte of the type belongs to no member. *)
Fixpoint unpadded (t : ctype) : bool :=
  match t with
  | Int _ | Union _ => true
  | Array t _ | Flexible t => unpadded t
  | Struct packed fs =>
      forallb (λ '(_, t), unpadded t) fs
      && bool_decide (field_offsets packed fs = offsets true (members fs) 0)
      && (sizeof t =? sum_list (map fst (members fs)))%nat
  end.

(** ** Values and their bytes *)

(** A union is kept as the bytes it is stored in. *)
Inductive cvalue :=
| VInt (z : Z)
| VSeq (vs : list cvalue)
| VUnion (bs : list Z).

Fixpoint all_typed (ps : list (cvalue → bool)) (vs : list cvalue) : bool :=
  match ps, vs with
  | [], [] => true
  | p :: ps, v :: vs => p v && all_typed ps vs
  | _, _ => false
  end.

Fixpoint has_type (t : ctype) (v : cvalue) : bool :=
  match t, v with
  | Int w, VInt z => (0 <=? z) && (z <? 2 ^ (8 * w))
  | Array t n, VSeq vs => all_typed (replicate n (has_type t)) vs
  | Flexible t, VSeq vs => forallb (has_type t) vs
  | Struct _ fs, VSeq vs => all_typed (map (λ '(_, t), has_type t) fs) vs
  | Union _, VUnion bs => (length bs =? sizeof t)%nat && forallb (λ b, (0 <=? b) && (b <? 256)) bs
  | _, _ => false
  end.

Fixpoint encode_all (es : list (cvalue → list Z)) (vs : list cvalue) : list Z :=
  match es, vs with
  | e :: es, v :: vs => e v ++ encode_all es vs
  | _, _ => []
  end.

Fixpoint encode (t : ctype) (v : cvalue) : list Z :=
  match t, v with
  | Int w, VInt z => le_bytes w z
  | Array t n, VSeq vs => encode_all (replicate n (encode t)) vs
  | Flexible t, VSeq vs => concat (map (encode t) vs)
  | Struct _ fs, VSeq vs => encode_all (map (λ '(_, t), encode t) fs) vs
  | Union _, VUnion bs => bs
  | _, _ => []
  end.

Definition decoder : Type := list Z → option (cvalue * list Z).

Fixpoint decode_all (ds : list decoder) (bs : list Z) : option (list cvalue * list Z) :=
  match ds with
  | [] => Some ([], bs)
  | d :: ds =>
      '(v, bs) ← d bs;
      '(vs, bs) ← decode_all ds bs;
      Some (v :: vs, bs)
  end.

(** As many elements as there are bytes for; [fuel] is the number of bytes. *)
Fixpoint decode_many (fuel : nat) (d : decoder) (bs : list Z) : option (list cvalue) :=
  match bs with
  | [] => Some []
  | _ :: _ =>
      match fuel with
      | O => None
      | S fuel => '(v, bs) ← d bs; vs ← decode_many fuel d bs; Some (v :: vs)
      end
  end.

Definition take_bytes (n : nat) (bs : list Z) : option (list Z * list Z) :=
  if decide (n <= length bs)%nat then Some (take n bs, drop n bs) else None.

(** The value at the beginning of [bs] and the bytes behind it. *)
Fixpoint decode (t : ctype) : decoder := λ bs,
  match t with
  | Int w => '(b, bs) ← take_bytes w bs; Some (VInt (of_le b), bs)
  | Array t n => '(vs, bs) ← decode_all (replicate n (decode t)) bs; Some (VSeq vs, bs)
  | Flexible t => vs ← decode_many (length bs) (decode t) bs; Some (VSeq vs, [])
  | Struct _ fs => '(vs, bs) ← decode_all (map (λ '(_, t), decode t) fs) bs; Some (VSeq vs, bs)
  | Union _ => '(b, bs) ← take_bytes (sizeof t) bs; Some (VUnion b, bs)
  end.

(** ** Well-formed declarations *)

(** All values have the same size. *)
Fixpoint fixed (t : ctype) : bool :=
  match t with
  | Int _ | Union _ => true
  | Array t _ => fixed t
  | Flexible _ => false
  | Struct _ fs => forallb (λ '(_, t), fixed t) fs
  end.

(** Only the last member may have a size of its own. *)
Fixpoint fixed_but_last (fs : list bool) : bool :=
  match fs with
  | [] | [_] => true
  | f :: fs => f && fixed_but_last fs
  end.

Fixpoint declared (t : ctype) : bool :=
  match t with
  | Int w => (0 <? w)%nat
  | Array t _ => declared t && fixed t
  | Flexible t => declared t && fixed t && unpadded t && (0 <? sizeof t)%nat
  | Struct _ fs =>
      forallb (λ '(_, t), declared t) fs && fixed_but_last (map (λ '(_, t), fixed t) fs)
  | Union fs => forallb (λ '(_, t), declared t) fs
  end.

(** ** Decoding what was encoded *)

Lemma map_replicate {A B} (f : A → B) n x : map f (replicate n x) = replicate n (f x).
Proof. induction n as [|n IH]; cbn; congruence. Qed.

Lemma has_type_array t n vs :
  has_type (Array t n) (VSeq vs) = all_typed (map has_type (replicate n t)) vs.
Proof. by rewrite map_replicate. Qed.

Lemma encode_array t n vs : encode (Array t n) (VSeq vs) = encode_all (map encode (replicate n t)) vs.
Proof. by rewrite map_replicate. Qed.

Lemma decode_array t n bs :
  decode (Array t n) bs = ('(vs, bs) ← decode_all (map decode (replicate n t)) bs; Some (VSeq vs, bs)).
Proof. by rewrite map_replicate. Qed.

Lemma forallb_Forall {A} (f : A → bool) l : forallb f l = true → Forall (λ x, f x = true) l.
Proof. intros Hf. apply Forall_forall. intros x Hx. rewrite forallb_forall in Hf. by apply Hf, list_elem_of_In. Qed.

Lemma take_bytes_app n b rest : length b = n → take_bytes n (b ++ rest) = Some (b, rest).
Proof.
  intros <-. unfold take_bytes. rewrite decide_True by (rewrite length_app; lia).
  by rewrite take_app_length, drop_app_length.
Qed.

(** What a member's decoder does on its encoder's output. *)
Definition inverts (f : bool) (p : cvalue → bool) (e : cvalue → list Z) (d : decoder) : Prop :=
  ∀ v rest, p v = true → f = true ∨ rest = [] → d (e v ++ rest) = Some (v, rest).

Lemma decode_all_inverts {A} (f : A → bool) (p : A → cvalue → bool) e d (l : list A) vs rest :
  Forall (λ a, inverts (f a) (p a) (e a) (d a)) l → fixed_but_last (map f l) = true →
  all_typed (map p l) vs = true → forallb f l = true ∨ rest = [] →
  decode_all (map d l) (encode_all (map e l) vs ++ rest) = Some (vs, rest).
Proof.
  intros Hl. revert vs. induction Hl as [|a l Ha Hl IH]; intros [|v vs] Hlast Hty Hf; try done.
  cbn [map all_typed] in Hty. apply andb_true_iff in Hty as [Hv Hvs].
  cbn [map decode_all encode_all]. rewrite <-app_assoc.
  assert (Ht : fixed_but_last (map f l) = true ∧ (l ≠ [] → f a = true)).
  { destruct l; cbn [map fixed_but_last] in *; [done|]. by apply andb_true_iff in Hlast as [-> ->]. }
  destruct Ht as [Hlast' Hfa]. cbn [forallb] in Hf.
  rewrite (Ha v (encode_all (map e l) vs ++ rest)); [|done|].
  - cbn [mbind option_bind]. rewrite IH; [done..|]. destruct Hf as [Hf|]; [left|by right].
    by apply andb_true_iff in Hf as [_ ->].
  - destruct l; [|left; by apply Hfa]. destruct Hf as [Hf|Hf]; [left|right].
    + by apply andb_true_iff in Hf as [-> _].
    + by destruct vs.
Qed.

Lemma decode_many_inverts p e d vs fuel :
  inverts true p e d → (∀ v, p v = true → e v ≠ []) → forallb p vs = true →
  (length (concat (map e vs)) <= fuel)%nat → decode_many fuel d (concat (map e vs)) = Some vs.
Proof.
  intros Hd Hne. revert fuel. induction vs as [|v vs IH]; intros fuel Hp Hfuel; [by destruct fuel|].
  cbn [forallb map concat] in *. apply andb_true_iff in Hp as [Hv Hvs]. rewrite length_app in Hfuel.
  specialize (Hne v Hv). destruct (e v) as [|b bs] eqn:He; [done|]. destruct fuel as [|fuel]; [cbn in Hfuel; lia|].
  cbn [app decode_many]. change (b :: bs ++ concat (map e vs)) with ((b :: bs) ++ concat (map e vs)).
  rewrite <-He, Hd by (done || by left). cbn [mbind option_bind]. rewrite IH; [done..|]. cbn in Hfuel. lia.
Qed.

(** *** Sizes *)

Lemma encode_all_length {A} (p : A → cvalue → bool) e (size : A → nat) (l : list A) vs :
  Forall (λ a, ∀ v, p a v = true → length (e a v) = size a) l → all_typed (map p l) vs = true →
  length (encode_all (map e l) vs) = sum_list (map size l).
Proof.
  intros Hl. revert vs. induction Hl as [|a l Ha Hl IH]; intros [|v vs] Hty; try done.
  cbn [map all_typed] in Hty. apply andb_true_iff in Hty as [Hv Hvs].
  cbn [map encode_all]. rewrite length_app, (Ha v Hv), (IH vs Hvs). done.
Qed.

Lemma encode_length t v :
  unpadded t = true → fixed t = true → has_type t v = true → length (encode t v) = sizeof t.
Proof.
  revert v. induction t as [w|t n IH|t _|packed fs IH|fs _] using ctype_nested_ind;
    intros v Hu Hf Hty; cbn [unpadded fixed] in *; try done; destruct v as [z|vs|bs]; try done.
  - apply length_le_bytes.
  - rewrite has_type_array in Hty. rewrite encode_array, (encode_all_length has_type encode sizeof _ vs); [|clear Hty|done].
    + rewrite map_replicate. clear. induction n as [|n IHn]; cbn in *; congruence.
    + apply Forall_replicate. intros v Hv. by apply IH.
  - apply andb_true_iff in Hu as [[Hu _]%andb_true_iff Hsize%Nat.eqb_eq]. rewrite Hsize.
    cbn [has_type encode] in *.
    rewrite (encode_all_length (λ '(_, t), has_type t) (λ '(_, t), encode t) (λ '(_, t), sizeof t) fs vs); [|clear Hty|done].
    + f_equal. unfold members. rewrite map_map. apply map_ext. by intros [].
    + apply forallb_Forall in Hu, Hf. rewrite Forall_forall in Hu, Hf, IH. apply Forall_forall.
      intros [name t] Hin v Hv. apply (IH _ Hin); [apply (Hu _ Hin)|apply (Hf _ Hin)|done].
  - cbn [has_type encode] in *. by apply andb_true_iff in Hty as [Hl%Nat.eqb_eq _].
Qed.

(** *** Round trip *)

Lemma decode_encode t : declared t = true → inverts (fixed t) (has_type t) (encode t) (decode t).
Proof.
  induction t as [w|t n IH|t IH|packed fs IH|fs _] using ctype_nested_ind;
    intros Hd v rest Hty Hrest; destruct v as [z|vs|bs]; try done; cbn [declared fixed] in *.
  - cbn [has_type encode decode] in *. apply andb_true_iff in Hty as [Hlo%Z.leb_le Hhi%Z.ltb_lt].
    rewrite take_bytes_app by apply length_le_bytes. cbn [mbind option_bind].
    rewrite of_le_le_bytes, Z.mod_small; [done|lia].
  - apply andb_true_iff in Hd as [Hd Hf]. rewrite has_type_array in Hty. rewrite encode_array, decode_array.
    rewrite (decode_all_inverts fixed has_type encode decode); [done| | |done|].
    + apply Forall_replicate. by apply IH.
    + rewrite map_replicate, Hf. clear. induction n as [|[|n] IHn]; done.
    + left. rewrite forallb_forall. intros x Hx%list_elem_of_In%elem_of_replicate_inv. by subst.
  - destruct Hrest as [| ->]; [done|]. rewrite app_nil_r. cbn [has_type encode decode] in *.
    apply andb_true_iff in Hd as [Hd Hpos%Nat.ltb_lt]. apply andb_true_iff in Hd as [[Hd Hf]%andb_true_iff Hu].
    rewrite (decode_many_inverts (has_type t) (encode t)); [done| | |done|done].
    + rewrite <-Hf. by apply IH.
    + intros v Hv Hnil. pose proof (encode_length t v Hu Hf Hv) as Hl. rewrite Hnil in Hl. cbn in Hl. lia.
  - apply andb_true_iff in Hd as [Hd Hlast]. apply forallb_Forall in Hd. cbn [has_type encode decode] in *.
    rewrite (decode_all_inverts (λ '(_, t), fixed t) (λ '(_, t), has_type t) (λ '(_, t), encode t)
      (λ '(_, t), decode t)); [done| |done|done|done].
    rewrite Forall_forall in Hd, IH. apply Forall_forall. intros [name t] Hin. apply (IH _ Hin), (Hd _ Hin).
  - cbn [has_type encode decode] in *. apply andb_true_iff in Hty as [Hl%Nat.eqb_eq _]. by rewrite take_bytes_app.
Qed.

(** *** What is decoded *)

Lemma take_bytes_inv n bs b rest :
  take_bytes n bs = Some (b, rest) → length b = n ∧ bs = b ++ rest.
Proof.
  unfold take_bytes. case_decide as Hn; [|done]. intros [= <- <-].
  split; [rewrite length_take; lia|by rewrite take_drop].
Qed.

(** What a member's decoder accepts. *)
Definition accepts (p : cvalue → bool) (e : cvalue → list Z) (d : decoder) : Prop :=
  ∀ bs v rest, bytes bs → d bs = Some (v, rest) → p v = true ∧ bs = e v ++ rest.

Lemma decode_all_accepts {A} (p : A → cvalue → bool) e d (l : list A) bs vs rest :
  Forall (λ a, accepts (p a) (e a) (d a)) l → bytes bs → decode_all (map d l) bs = Some (vs, rest) →
  all_typed (map p l) vs = true ∧ bs = encode_all (map e l) vs ++ rest.
Proof.
  intros Hl. revert bs vs. induction Hl as [|a l Ha Hl IH]; intros bs vs Hbs Hrun; cbn [map decode_all] in Hrun.
  { injection Hrun as <- <-. done. }
  apply bind_Some in Hrun as ([v bs1] & Hd & Hrun). apply bind_Some in Hrun as ([vs1 bs2] & Hds & [= <- <-]).
  destruct (Ha bs v bs1 Hbs Hd) as [Hv ->]. apply Forall_app in Hbs as [_ Hbs1].
  destruct (IH bs1 vs1 Hbs1 Hds) as [Hvs ->]. cbn [map all_typed encode_all].
  split; [by rewrite Hv, Hvs|by rewrite app_assoc].
Qed.

Lemma decode_many_accepts p e d fuel bs vs :
  accepts p e d → bytes bs → decode_many fuel d bs = Some vs → forallb p vs = true ∧ bs = concat (map e vs).
Proof.
  intros Hd. revert bs vs. induction fuel as [|fuel IH]; intros [|b bs] vs Hbs Hrun; try by injection Hrun as <-.
  { done. }
  cbn [decode_many] in Hrun. apply bind_Some in Hrun as ([v bs1] & Hd1 & Hrun).
  apply bind_Some in Hrun as (vs1 & Hds & [= <-]).
  destruct (Hd (b :: bs) v bs1 Hbs Hd1) as [Hv Heq]. rewrite Heq in Hbs |- *. apply Forall_app in Hbs as [_ Hbs1].
  destruct (IH bs1 vs1 Hbs1 Hds) as [Hvs ->]. cbn [forallb map concat]. by rewrite Hv, Hvs.
Qed.

Lemma decode_accepts t : accepts (has_type t) (encode t) (decode t).
Proof.
  induction t as [w|t n IH|t IH|packed fs IH|fs _] using ctype_nested_ind; intros bs v rest Hbs Hrun.
  - cbn [decode] in Hrun. apply bind_Some in Hrun as ([b bs1] & Hb & [= <- <-]).
    apply take_bytes_inv in Hb as [Hl ->]. apply Forall_app in Hbs as [Hb _].
    pose proof (of_le_bound b Hb) as Hbound. rewrite Hl in Hbound. cbn [has_type encode].
    split; [apply andb_true_iff; split; [apply Z.leb_le|apply Z.ltb_lt]; lia|].
    by rewrite <-Hl, le_bytes_of_le.
  - rewrite decode_array in Hrun. apply bind_Some in Hrun as ([vs bs1] & Hvs & [= <- <-]).
    rewrite has_type_array, encode_array.
    eapply decode_all_accepts; [|done|done]. by apply Forall_replicate.
  - cbn [decode] in Hrun. apply bind_Some in Hrun as (vs & Hvs & [= <- <-]).
    cbn [has_type encode]. rewrite app_nil_r. by eapply decode_many_accepts.
  - cbn [decode] in Hrun. apply bind_Some in Hrun as ([vs bs1] & Hvs & [= <- <-]). cbn [has_type encode].
    eapply (decode_all_accepts (λ '(_, t), has_type t) (λ '(_, t), encode t)); [|done|done].
    rewrite Forall_forall in IH. apply Forall_forall. intros [name t] Hin. apply (IH _ Hin).
  - cbn [decode] in Hrun. apply bind_Some in Hrun as ([b bs1] & Hb & [= <- <-]).
    apply take_bytes_inv in Hb as [Hl ->]. apply Forall_app in Hbs as [Hb _]. cbn [has_type encode].
    split; [|done]. apply andb_true_iff. split; [by apply Nat.eqb_eq|].
    apply forallb_forall. intros z Hz%list_elem_of_In. rewrite Forall_forall in Hb. specialize (Hb z Hz).
    unfold is_u8 in Hb. apply andb_true_iff. split; [apply Z.leb_le|apply Z.ltb_lt]; lia.
Qed.

(** Enough bytes are decoded. *)
Lemma decode_all_enough {A} (d : A → decoder) (size : A → nat) (l : list A) bs :
  Forall (λ a, ∀ bs, (size a <= length bs)%nat → ∃ v, d a bs = Some (v, drop (size a) bs)) l →
  (sum_list (map size l) <= length bs)%nat →
  ∃ vs, decode_all (map d l) bs = Some (vs, drop (sum_list (map size l)) bs).
Proof.
  intros Hl. revert bs. induction Hl as [|a l Ha Hl IH]; intros bs Hbs; cbn [map decode_all sum_list_with] in *.
  { by exists []. }
  change (id (size a)) with (size a) in *.
  destruct (Ha bs) as [v Hv]; [lia|]. destruct (IH (drop (size a) bs)) as [vs Hvs]; [rewrite length_drop; lia|].
  exists (v :: vs). rewrite Hv. cbn [mbind option_bind]. by rewrite Hvs, drop_drop.
Qed.

Lemma take_bytes_enough n bs : (n <= length bs)%nat → take_bytes n bs = Some (take n bs, drop n bs).
Proof. intros Hn. unfold take_bytes. by rewrite decide_True. Qed.

Lemma decode_enough t bs :
  unpadded t = true → fixed t = true → (sizeof t <= length bs)%nat →
  ∃ v, decode t bs = Some (v, drop (sizeof t) bs).
Proof.
  revert bs. induction t as [w|t n IH|t _|packed fs IH|fs _] using ctype_nested_ind;
    intros bs Hu Hf Hbs; cbn [unpadded fixed] in *; try done.
  - cbn [decode sizeof] in *. rewrite take_bytes_enough by done. by eexists.
  - assert (Hsum : sum_list (map sizeof (replicate n t)) = (n * sizeof t)%nat).
    { rewrite map_replicate. clear. induction n as [|n IHn]; cbn in *; congruence. }
    rewrite decode_array. cbn [sizeof] in *. rewrite <-Hsum in *.
    destruct (decode_all_enough decode sizeof (replicate n t) bs) as [vs ->]; [|done|by eexists].
    apply Forall_replicate. intros bs'. by apply IH.
  - apply andb_true_iff in Hu as [[Hu _]%andb_true_iff Hsize%Nat.eqb_eq]. rewrite Hsize in *.
    assert (Hsum : sum_list (map fst (members fs)) = sum_list (map (λ '(_, t), sizeof t) fs)).
    { f_equal. unfold members. rewrite map_map. apply map_ext. by intros []. }
    rewrite Hsum in *. cbn [decode].
    destruct (decode_all_enough (λ '(_, t), decode t) (λ '(_, t), sizeof t) fs bs) as [vs ->]; [|done|by eexists].
    apply forallb_Forall in Hu, Hf. rewrite Forall_forall in Hu, Hf, IH. apply Forall_forall.
    intros [name t] Hin bs'. apply (IH _ Hin); [apply (Hu _ Hin)|apply (Hf _ Hin)].
  - cbn [decode]. rewrite take_bytes_enough by done. by eexists.
Qed.

(** *** Members at their offsets *)

Lemma encode_all_at (fs : list (String.string * ctype)) vs i name t v (off0 off : nat) :
  forallb (λ '(_, t), unpadded t) fs = true → fixed_but_last (map (λ '(_, t), fixed t) fs) = true →
  all_typed (map (λ '(_, t), has_type t) fs) vs = true →
  fs !! i = Some (name, t) → vs !! i = Some v → offsets true (members fs) off0 !! i = Some off →
  ∃ rest, drop (off - off0) (encode_all (map (λ '(_, t), encode t) fs) vs) = encode t v ++ rest ∧
          (off0 <= off)%nat ∧ (fixed t = false → rest = []).
Proof.
  revert vs i off0. induction fs as [|[name0 t0] fs IH]; intros [|v0 vs] i off0 Hu Hlast Hty Hi Hv Hoff; try done.
  cbn [forallb map all_typed members offsets encode_all] in *.
  apply andb_true_iff in Hu as [Hu0 Hu]. apply andb_true_iff in Hty as [Hv0 Hty].
  destruct i as [|i]; cbn in Hi, Hv, Hoff.
  - injection Hi as <- <-. injection Hv as <-. injection Hoff as <-. rewrite Nat.sub_diag, drop_0.
    eexists. split; [done|]. split; [done|]. intros Hf. destruct fs as [|f fs]; [by destruct vs|].
    cbn [map fixed_but_last] in Hlast. by rewrite Hf in Hlast.
  - assert (Hf0 : fixed t0 = true ∧ fixed_but_last (map (λ '(_, t), fixed t) fs) = true).
    { destruct fs; [done|]. cbn [map fixed_but_last] in Hlast. by apply andb_true_iff in Hlast. }
    destruct Hf0 as [Hf0 Hlast']. destruct (IH vs i (off0 + sizeof t0)%nat) as (rest & Hdrop & Hle & Hr); try done.
    exists rest. split; [|split; [lia|done]]. rewrite <-Hdrop.
    rewrite drop_app_ge; rewrite (encode_length t0 v0 Hu0 Hf0 Hv0); [|lia]. f_equal. lia.
Qed.

(** A member's encoding is at its offset in the encoded structure. *)
Lemma field_bytes packed fs vs i name t v off :
  declared (Struct packed fs) = true → unpadded (Struct packed fs) = true →
  has_type (Struct packed fs) (VSeq vs) = true →
  fs !! i = Some (name, t) → vs !! i = Some v → field_offsets packed fs !! i = Some off →
  ∃ rest, drop off (encode (Struct packed fs) (VSeq vs)) = encode t v ++ rest.
Proof.
  intros Hd Hu Hty Hi Hv Hoff. cbn [declared unpadded has_type encode] in *.
  apply andb_true_iff in Hd as [Hd Hlast]. apply andb_true_iff in Hu as [[Hu Hsame]%andb_true_iff _].
  apply bool_decide_eq_true in Hsame. rewrite Hsame in Hoff.
  destruct (encode_all_at fs vs i name t v 0 off Hu Hlast Hty Hi Hv Hoff) as (rest & Hdrop & _ & _).
  rewrite Nat.sub_0_r in Hdrop. by exists rest.
Qed.

Lemma offsets_length packed ms off : length (offsets packed ms off) = length ms.
Proof. revert off. induction ms as [|[size align] ms IH]; intros off; cbn; [done|]. by rewrite IH. Qed.

Lemma field_offsets_length packed fs : length (field_offsets packed fs) = length fs.
Proof. unfold field_offsets, members. by rewrite offsets_length, length_map. Qed.
