(* ===== verification/WireControl.v ===== *)
(** * Greybus wire protocol: control, APBridge, firmware, authentication and bootrom

    Lines 1 to 431 of include/greybus_protocols.h: each structure as a
    [ctype], each group of macros as a table of names and values. *)

From S2P Require Import Prelude Protocols CTypes.

#[local] Open Scope string_scope.

Definition GB_SVC_DEVICE_ID : constants := [
  ("GB_SVC_DEVICE_ID_SVC", 0);
  ("GB_SVC_DEVICE_ID_AP", 1);
  ("GB_SVC_DEVICE_ID_MIN", 2);
  ("GB_SVC_DEVICE_ID_MAX", 31)].

Definition GB_CPORT_IDS : constants := [
  ("GB_SVC_CPORT_ID", 0);
  ("GB_CONTROL_BUNDLE_ID", 0);
  ("GB_CONTROL_CPORT_ID", 0)].

Definition struct_gb_operation_msg_hdr : ctype := Struct true [
  ("size", __le16);
  ("operation_id", __le16);
  ("type", __u8);
  ("result", __u8);
  ("pad", Array __u8 2)].

Definition GB_REQUEST_TYPE : constants := [
  ("GB_REQUEST_TYPE_CPORT_SHUTDOWN", GB_REQUEST_TYPE_CPORT_SHUTDOWN);
  ("GB_REQUEST_TYPE_INVALID", GB_REQUEST_TYPE_INVALID)].

Definition struct_gb_cport_shutdown_request : ctype := Struct true [("phase", __u8)].

Definition GB_CONTROL_TYPE : constants := [
  ("GB_CONTROL_TYPE_VERSION", GB_CONTROL_TYPE_VERSION);
  ("GB_CONTROL_TYPE_PROBE_AP", GB_CONTROL_TYPE_PROBE_AP);
  ("GB_CONTROL_TYPE_GET_MANIFEST_SIZE", GB_CONTROL_TYPE_GET_MANIFEST_SIZE);
  ("GB_CONTROL_TYPE_GET_MANIFEST", GB_CONTROL_TYPE_GET_MANIFEST);
  ("GB_CONTROL_TYPE_CONNECTED", GB_CONTROL_TYPE_CONNECTED);
  ("GB_CONTROL_TYPE_DISCONNECTED", GB_CONTROL_TYPE_DISCONNECTED);
  ("GB_CONTROL_TYPE_TIMESYNC_ENABLE", GB_CONTROL_TYPE_TIMESYNC_ENABLE);
  ("GB_CONTROL_TYPE_TIMESYNC_DISABLE", GB_CONTROL_TYPE_TIMESYNC_DISABLE);
  ("GB_CONTROL_TYPE_TIMESYNC_AUTHORITATIVE", GB_CONTROL_TYPE_TIMESYNC_AUTHORITATIVE);
  ("GB_CONTROL_TYPE_BUNDLE_VERSION", GB_CONTROL_TYPE_BUNDLE_VERSION);
  ("GB_CONTROL_TYPE_DISCONNECTING", GB_CONTROL_TYPE_DISCONNECTING);
  ("GB_CONTROL_TYPE_TIMESYNC_GET_LAST_EVENT", GB_CONTROL_TYPE_TIMESYNC_GET_LAST_EVENT);
  ("GB_CONTROL_TYPE_MODE_SWITCH", GB_CONTROL_TYPE_MODE_SWITCH);
  ("GB_CONTROL_TYPE_BUNDLE_SUSPEND", GB_CONTROL_TYPE_BUNDLE_SUSPEND);
  ("GB_CONTROL_TYPE_BUNDLE_RESUME", GB_CONTROL_TYPE_BUNDLE_RESUME);
  ("GB_CONTROL_TYPE_BUNDLE_DEACTIVATE", GB_CONTROL_TYPE_BUNDLE_DEACTIVATE);
  ("GB_CONTROL_TYPE_BUNDLE_ACTIVATE", GB_CONTROL_TYPE_BUNDLE_ACTIVATE);
  ("GB_CONTROL_TYPE_INTF_SUSPEND_PREPARE", GB_CONTROL_TYPE_INTF_SUSPEND_PREPARE);
  ("GB_CONTROL_TYPE_INTF_DEACTIVATE_PREPARE", GB_CONTROL_TYPE_INTF_DEACTIVATE_PREPARE);
  ("GB_CONTROL_TYPE_INTF_HIBERNATE_ABORT", GB_CONTROL_TYPE_INTF_HIBERNATE_ABORT)].

Definition struct_gb_control_version_request : ctype := Struct true [
  ("major", __u8);
  ("minor", __u8)].

Definition struct_gb_control_version_response : ctype := Struct true [
  ("major", __u8);
  ("minor", __u8)].

Definition struct_gb_control_bundle_version_request : ctype := Struct true [("bundle_id", __u8)].

Definition struct_gb_control_bundle_version_response : ctype := Struct true [
  ("major", __u8);
  ("minor", __u8)].

Definition struct_gb_control_get_manifest_size_response : ctype := Struct true [("size", __le16)].

Definition struct_gb_control_get_manifest_response : ctype := Struct true [("data", Flexible __u8)].

Definition struct_gb_control_connected_request : ctype := Struct true [("cport_id", __le16)].

Definition struct_gb_control_disconnecting_request : ctype := Struct true [("cport_id", __le16)].

Definition struct_gb_control_disconnected_request : ctype := Struct true [("cport_id", __le16)].

Definition GB_CONTROL_BUNDLE_PM : constants := [
  ("GB_CONTROL_BUNDLE_PM_OK", 0x00);
  ("GB_CONTROL_BUNDLE_PM_INVAL", 0x01);
  ("GB_CONTROL_BUNDLE_PM_BUSY", 0x02);
  ("GB_CONTROL_BUNDLE_PM_FAIL", 0x03);
  ("GB_CONTROL_BUNDLE_PM_NA", 0x04)].

Definition struct_gb_control_bundle_pm_request : ctype := Struct true [("bundle_id", __u8)].

Definition struct_gb_control_bundle_pm_response : ctype := Struct true [("status", __u8)].

Definition GB_CONTROL_INTF_PM : constants := [
  ("GB_CONTROL_INTF_PM_OK", 0x00);
  ("GB_CONTROL_INTF_PM_BUSY", 0x01);
  ("GB_CONTROL_INTF_PM_NA", 0x02)].

Definition struct_gb_control_intf_pm_response : ctype := Struct true [("status", __u8)].

Definition GB_APB_REQUEST : constants := [
  ("GB_APB_REQUEST_LOG", 0x02);
  ("GB_APB_REQUEST_EP_MAPPING", 0x03);
  ("GB_APB_REQUEST_CPORT_COUNT", 0x04);
  ("GB_APB_REQUEST_RESET_CPORT", 0x05);
  ("GB_APB_REQUEST_LATENCY_TAG_EN", 0x06);
  ("GB_APB_REQUEST_LATENCY_TAG_DIS", 0x07);
  ("GB_APB_REQUEST_CSI_TX_CONTROL", 0x08);
  ("GB_APB_REQUEST_AUDIO_CONTROL", 0x09);
  ("GB_APB_REQUEST_TIMESYNC_ENABLE", 0x0d);
  ("GB_APB_REQUEST_TIMESYNC_DISABLE", 0x0e);
  ("GB_APB_REQUEST_TIMESYNC_AUTHORITATIVE", 0x0f);
  ("GB_APB_REQUEST_TIMESYNC_GET_LAST_EVENT", 0x10);
  ("GB_APB_REQUEST_CPORT_FLAGS", 0x11);
  ("GB_APB_REQUEST_ARPC_RUN", 0x12)].

Definition GB_APB_CPORT_FLAG : constants := [
  ("GB_APB_CPORT_FLAG_CONTROL", 0x01);
  ("GB_APB_CPORT_FLAG_HIGH_PRIO", 0x02)].

Definition struct_gb_apb_request_cport_flags : ctype := Struct true [("flags", __le32)].

Definition GB_FW_DOWNLOAD_TYPE : constants := [
  ("GB_FW_DOWNLOAD_TYPE_FIND_FIRMWARE", 0x01);
  ("GB_FW_DOWNLOAD_TYPE_FETCH_FIRMWARE", 0x02);
  ("GB_FW_DOWNLOAD_TYPE_RELEASE_FIRMWARE", 0x03)].

Definition GB_FIRMWARE_TAG_MAX_SIZE : nat := 10.

Definition struct_gb_fw_download_find_firmware_request : ctype := Struct true [
  ("firmware_tag", Array __u8 GB_FIRMWARE_TAG_MAX_SIZE)].

Definition struct_gb_fw_download_find_firmware_response : ctype := Struct true [
  ("firmware_id", __u8);
  ("size", __le32)].

Definition struct_gb_fw_download_fetch_firmware_request : ctype := Struct true [
  ("firmware_id", __u8);
  ("offset", __le32);
  ("size", __le32)].

Definition struct_gb_fw_download_release_firmware_request : ctype := Struct true [
  ("firmware_id", __u8)].

Definition GB_FW_MGMT_TYPE : constants := [
  ("GB_FW_MGMT_TYPE_INTERFACE_FW_VERSION", 0x01);
  ("GB_FW_MGMT_TYPE_LOAD_AND_VALIDATE_FW", 0x02);
  ("GB_FW_MGMT_TYPE_LOADED_FW", 0x03);
  ("GB_FW_MGMT_TYPE_BACKEND_FW_VERSION", 0x04);
  ("GB_FW_MGMT_TYPE_BACKEND_FW_UPDATE", 0x05);
  ("GB_FW_MGMT_TYPE_BACKEND_FW_UPDATED", 0x06)].

Definition GB_FW_LOAD_METHOD : constants := [
  ("GB_FW_LOAD_METHOD_UNIPRO", 0x01);
  ("GB_FW_LOAD_METHOD_INTERNAL", 0x02)].

Definition GB_FW_LOAD_STATUS : constants := [
  ("GB_FW_LOAD_STATUS_FAILED", 0x00);
  ("GB_FW_LOAD_STATUS_UNVALIDATED", 0x01);
  ("GB_FW_LOAD_STATUS_VALIDATED", 0x02);
  ("GB_FW_LOAD_STATUS_VALIDATION_FAILED", 0x03)].

Definition GB_FW_BACKEND_FW_STATUS : constants := [
  ("GB_FW_BACKEND_FW_STATUS_SUCCESS", 0x01);
  ("GB_FW_BACKEND_FW_STATUS_FAIL_FIND", 0x02);
  ("GB_FW_BACKEND_FW_STATUS_FAIL_FETCH", 0x03);
  ("GB_FW_BACKEND_FW_STATUS_FAIL_WRITE", 0x04);
  ("GB_FW_BACKEND_FW_STATUS_INT", 0x05);
  ("GB_FW_BACKEND_FW_STATUS_RETRY", 0x06);
  ("GB_FW_BACKEND_FW_STATUS_NOT_SUPPORTED", 0x07)].

Definition GB_FW_BACKEND_VERSION_STATUS : constants := [
  ("GB_FW_BACKEND_VERSION_STATUS_SUCCESS", 0x01);
  ("GB_FW_BACKEND_VERSION_STATUS_NOT_AVAILABLE", 0x02);
  ("GB_FW_BACKEND_VERSION_STATUS_NOT_SUPPORTED", 0x03);
  ("GB_FW_BACKEND_VERSION_STATUS_RETRY", 0x04);
  ("GB_FW_BACKEND_VERSION_STATUS_FAIL_INT", 0x05)].

Definition struct_gb_fw_mgmt_interface_fw_version_response : ctype := Struct true [
  ("firmware_tag", Array __u8 GB_FIRMWARE_TAG_MAX_SIZE);
  ("major", __le16);
  ("minor", __le16)].

Definition struct_gb_fw_mgmt_load_and_validate_fw_request : ctype := Struct true [
  ("request_id", __u8);
  ("load_method", __u8);
  ("firmware_tag", Array __u8 GB_FIRMWARE_TAG_MAX_SIZE)].

Definition struct_gb_fw_mgmt_loaded_fw_request : ctype := Struct true [
  ("request_id", __u8);
  ("status", __u8);
  ("major", __le16);
  ("minor", __le16)].

Definition struct_gb_fw_mgmt_backend_fw_version_request : ctype := Struct true [
  ("firmware_tag", Array __u8 GB_FIRMWARE_TAG_MAX_SIZE)].

Definition struct_gb_fw_mgmt_backend_fw_version_response : ctype := Struct true [
  ("major", __le16);
  ("minor", __le16);
  ("status", __u8)].

Definition struct_gb_fw_mgmt_backend_fw_update_request : ctype := Struct true [
  ("request_id", __u8);
  ("firmware_tag", Array __u8 GB_FIRMWARE_TAG_MAX_SIZE)].

Definition struct_gb_fw_mgmt_backend_fw_updated_request : ctype := Struct true [
  ("request_id", __u8);
  ("status", __u8)].

Definition GB_CAP_TYPE : constants := [
  ("GB_CAP_TYPE_GET_ENDPOINT_UID", 0x01);
  ("GB_CAP_TYPE_GET_IMS_CERTIFICATE", 0x02);
  ("GB_CAP_TYPE_AUTHENTICATE", 0x03)].

Definition struct_gb_cap_get_endpoint_uid_response : ctype := Struct true [("uid", Array __u8 8)].

Definition struct_gb_cap_get_ims_certificate_request : ctype := Struct true [
  ("certificate_class", __le32);
  ("certificate_id", __le32)].

Definition struct_gb_cap_get_ims_certificate_response : ctype := Struct true [
  ("result_code", __u8);
  ("certificate", Flexible __u8)].

Definition struct_gb_cap_authenticate_request : ctype := Struct true [
  ("auth_type", __le32);
  ("uid", Array __u8 8);
  ("challenge", Array __u8 32)].

Definition struct_gb_cap_authenticate_response : ctype := Struct true [
  ("result_code", __u8);
  ("response", Array __u8 64);
  ("signature", Flexible __u8)].

Definition GB_BOOTROM_VERSION : constants := [
  ("GB_BOOTROM_VERSION_MAJOR", 0x00);
  ("GB_BOOTROM_VERSION_MINOR", 0x01)].

Definition GB_BOOTROM_TYPE : constants := [
  ("GB_BOOTROM_TYPE_VERSION", 0x01);
  ("GB_BOOTROM_TYPE_FIRMWARE_SIZE", 0x02);
  ("GB_BOOTROM_TYPE_GET_FIRMWARE", 0x03);
  ("GB_BOOTROM_TYPE_READY_TO_BOOT", 0x04);
  ("GB_BOOTROM_TYPE_AP_READY", 0x05);
  ("GB_BOOTROM_TYPE_GET_VID_PID", 0x06)].

Definition GB_BOOTROM_BOOT_STAGE : constants := [
  ("GB_BOOTROM_BOOT_STAGE_ONE", 0x01);
  ("GB_BOOTROM_BOOT_STAGE_TWO", 0x02);
  ("GB_BOOTROM_BOOT_STAGE_THREE", 0x03)].

Definition GB_BOOTROM_BOOT_STATUS : constants := [
  ("GB_BOOTROM_BOOT_STATUS_INVALID", 0x00);
  ("GB_BOOTROM_BOOT_STATUS_INSECURE", 0x01);
  ("GB_BOOTROM_BOOT_STATUS_SECURE", 0x02)].

Definition GB_BOOTROM_LIMITS : constants := [
  ("GB_BOOTROM_FETCH_MAX", 2000)].

Definition struct_gb_bootrom_version_request : ctype := Struct true [
  ("major", __u8);
  ("minor", __u8)].

Definition struct_gb_bootrom_version_response : ctype := Struct true [
  ("major", __u8);
  ("minor", __u8)].

Definition struct_gb_bootrom_firmware_size_request : ctype := Struct true [("stage", __u8)].

Definition struct_gb_bootrom_firmware_size_response : ctype := Struct true [("size", __le32)].

Definition struct_gb_bootrom_get_firmware_request : ctype := Struct true [
  ("offset", __le32);
  ("size", __le32)].

Definition struct_gb_bootrom_ready_to_boot_request : ctype := Struct true [("status", __u8)].

Definition struct_gb_bootrom_get_vid_pid_response : ctype := Struct true [
  ("vendor_id", __le32);
  ("product_id", __le32)].

Definition control_structs : list (String.string * ctype) := [
  ("gb_operation_msg_hdr", struct_gb_operation_msg_hdr);
  ("gb_cport_shutdown_request", struct_gb_cport_shutdown_request);
  ("gb_control_version_request", struct_gb_control_version_request);
  ("gb_control_version_response", struct_gb_control_version_response);
  ("gb_control_bundle_version_request", struct_gb_control_bundle_version_request);
  ("gb_control_bundle_version_response", struct_gb_control_bundle_version_response);
  ("gb_control_get_manifest_size_response", struct_gb_control_get_manifest_size_response);
  ("gb_control_get_manifest_response", struct_gb_control_get_manifest_response);
  ("gb_control_connected_request", struct_gb_control_connected_request);
  ("gb_control_disconnecting_request", struct_gb_control_disconnecting_request);
  ("gb_control_disconnected_request", struct_gb_control_disconnected_request);
  ("gb_control_bundle_pm_request", struct_gb_control_bundle_pm_request);
  ("gb_control_bundle_pm_response", struct_gb_control_bundle_pm_response);
  ("gb_control_intf_pm_response", struct_gb_control_intf_pm_response);
  ("gb_apb_request_cport_flags", struct_gb_apb_request_cport_flags);
  ("gb_fw_download_find_firmware_request", struct_gb_fw_download_find_firmware_request);
  ("gb_fw_download_find_firmware_response", struct_gb_fw_download_find_firmware_response);
  ("gb_fw_download_fetch_firmware_request", struct_gb_fw_download_fetch_firmware_request);
  ("gb_fw_download_release_firmware_request", struct_gb_fw_download_release_firmware_request);
  ("gb_fw_mgmt_interface_fw_version_response", struct_gb_fw_mgmt_interface_fw_version_response);
  ("gb_fw_mgmt_load_and_validate_fw_request", struct_gb_fw_mgmt_load_and_validate_fw_request);
  ("gb_fw_mgmt_loaded_fw_request", struct_gb_fw_mgmt_loaded_fw_request);
  ("gb_fw_mgmt_backend_fw_version_request", struct_gb_fw_mgmt_backend_fw_version_request);
  ("gb_fw_mgmt_backend_fw_version_response", struct_gb_fw_mgmt_backend_fw_version_response);
  ("gb_fw_mgmt_backend_fw_update_request", struct_gb_fw_mgmt_backend_fw_update_request);
  ("gb_fw_mgmt_backend_fw_updated_request", struct_gb_fw_mgmt_backend_fw_updated_request);
  ("gb_cap_get_endpoint_uid_response", struct_gb_cap_get_endpoint_uid_response);
  ("gb_cap_get_ims_certificate_request", struct_gb_cap_get_ims_certificate_request);
  ("gb_cap_get_ims_certificate_response", struct_gb_cap_get_ims_certificate_response);
  ("gb_cap_authenticate_request", struct_gb_cap_authenticate_request);
  ("gb_cap_authenticate_response", struct_gb_cap_authenticate_response);
  ("gb_bootrom_version_request", struct_gb_bootrom_version_request);
  ("gb_bootrom_version_response", struct_gb_bootrom_version_response);
  ("gb_bootrom_firmware_size_request", struct_gb_bootrom_firmware_size_request);
  ("gb_bootrom_firmware_size_response", struct_gb_bootrom_firmware_size_response);
  ("gb_bootrom_get_firmware_request", struct_gb_bootrom_get_firmware_request);
  ("gb_bootrom_ready_to_boot_request", struct_gb_bootrom_ready_to_boot_request);
  ("gb_bootrom_get_vid_pid_response", struct_gb_bootrom_get_vid_pid_response)].
