(* ===== verification/WirePhy.v ===== *)
(** * Greybus wire protocol: power supply, HID, I2C, GPIO, PWM and SPI

    Lines 432 to 912 of include/greybus_protocols.h: each structure as a
    [ctype], each group of macros as a table of names and values. *)

From S2P Require Import Prelude CTypes.

#[local] Open Scope string_scope.

Definition GB_POWER_SUPPLY_TYPE : constants := [
  ("GB_POWER_SUPPLY_TYPE_GET_SUPPLIES", 0x02);
  ("GB_POWER_SUPPLY_TYPE_GET_DESCRIPTION", 0x03);
  ("GB_POWER_SUPPLY_TYPE_GET_PROP_DESCRIPTORS", 0x04);
  ("GB_POWER_SUPPLY_TYPE_GET_PROPERTY", 0x05);
  ("GB_POWER_SUPPLY_TYPE_SET_PROPERTY", 0x06);
  ("GB_POWER_SUPPLY_TYPE_EVENT", 0x07)].

Definition GB_POWER_SUPPLY_TECH : constants := [
  ("GB_POWER_SUPPLY_TECH_UNKNOWN", 0x0000);
  ("GB_POWER_SUPPLY_TECH_NiMH", 0x0001);
  ("GB_POWER_SUPPLY_TECH_LION", 0x0002);
  ("GB_POWER_SUPPLY_TECH_LIPO", 0x0003);
  ("GB_POWER_SUPPLY_TECH_LiFe", 0x0004);
  ("GB_POWER_SUPPLY_TECH_NiCd", 0x0005);
  ("GB_POWER_SUPPLY_TECH_LiMn", 0x0006)].

Definition GB_POWER_SUPPLY_TYPES : constants := [
  ("GB_POWER_SUPPLY_UNKNOWN_TYPE", 0x0000);
  ("GB_POWER_SUPPLY_BATTERY_TYPE", 0x0001);
  ("GB_POWER_SUPPLY_UPS_TYPE", 0x0002);
  ("GB_POWER_SUPPLY_MAINS_TYPE", 0x0003);
  ("GB_POWER_SUPPLY_USB_TYPE", 0x0004);
  ("GB_POWER_SUPPLY_USB_DCP_TYPE", 0x0005);
  ("GB_POWER_SUPPLY_USB_CDP_TYPE", 0x0006);
  ("GB_POWER_SUPPLY_USB_ACA_TYPE", 0x0007)].

Definition GB_POWER_SUPPLY_HEALTH : constants := [
  ("GB_POWER_SUPPLY_HEALTH_UNKNOWN", 0x0000);
  ("GB_POWER_SUPPLY_HEALTH_GOOD", 0x0001);
  ("GB_POWER_SUPPLY_HEALTH_OVERHEAT", 0x0002);
  ("GB_POWER_SUPPLY_HEALTH_DEAD", 0x0003);
  ("GB_POWER_SUPPLY_HEALTH_OVERVOLTAGE", 0x0004);
  ("GB_POWER_SUPPLY_HEALTH_UNSPEC_FAILURE", 0x0005);
  ("GB_POWER_SUPPLY_HEALTH_COLD", 0x0006);
  ("GB_POWER_SUPPLY_HEALTH_WATCHDOG_TIMER_EXPIRE", 0x0007);
  ("GB_POWER_SUPPLY_HEALTH_SAFETY_TIMER_EXPIRE", 0x0008)].

Definition GB_POWER_SUPPLY_STATUS : constants := [
  ("GB_POWER_SUPPLY_STATUS_UNKNOWN", 0x0000);
  ("GB_POWER_SUPPLY_STATUS_CHARGING", 0x0001);
  ("GB_POWER_SUPPLY_STATUS_DISCHARGING", 0x0002);
  ("GB_POWER_SUPPLY_STATUS_NOT_CHARGING", 0x0003);
  ("GB_POWER_SUPPLY_STATUS_FULL", 0x0004)].

Definition GB_POWER_SUPPLY_CAPACITY_LEVEL : constants := [
  ("GB_POWER_SUPPLY_CAPACITY_LEVEL_UNKNOWN", 0x0000);
  ("GB_POWER_SUPPLY_CAPACITY_LEVEL_CRITICAL", 0x0001);
  ("GB_POWER_SUPPLY_CAPACITY_LEVEL_LOW", 0x0002);
  ("GB_POWER_SUPPLY_CAPACITY_LEVEL_NORMAL", 0x0003);
  ("GB_POWER_SUPPLY_CAPACITY_LEVEL_HIGH", 0x0004);
  ("GB_POWER_SUPPLY_CAPACITY_LEVEL_FULL", 0x0005)].

Definition GB_POWER_SUPPLY_SCOPE : constants := [
  ("GB_POWER_SUPPLY_SCOPE_UNKNOWN", 0x0000);
  ("GB_POWER_SUPPLY_SCOPE_SYSTEM", 0x0001);
  ("GB_POWER_SUPPLY_SCOPE_DEVICE", 0x0002)].

Definition struct_gb_power_supply_get_supplies_response : ctype := Struct true [
  ("supplies_count", __u8)].

Definition struct_gb_power_supply_get_description_request : ctype := Struct true [("psy_id", __u8)].

Definition struct_gb_power_supply_get_description_response : ctype := Struct true [
  ("manufacturer", Array __u8 32);
  ("model", Array __u8 32);
  ("serial_number", Array __u8 32);
  ("type", __le16);
  ("properties_count", __u8)].

Definition GB_POWER_SUPPLY_PROP : constants := [
  ("GB_POWER_SUPPLY_PROP_STATUS", 0x00);
  ("GB_POWER_SUPPLY_PROP_CHARGE_TYPE", 0x01);
  ("GB_POWER_SUPPLY_PROP_HEALTH", 0x02);
  ("GB_POWER_SUPPLY_PROP_PRESENT", 0x03);
  ("GB_POWER_SUPPLY_PROP_ONLINE", 0x04);
  ("GB_POWER_SUPPLY_PROP_AUTHENTIC", 0x05);
  ("GB_POWER_SUPPLY_PROP_TECHNOLOGY", 0x06);
  ("GB_POWER_SUPPLY_PROP_CYCLE_COUNT", 0x07);
  ("GB_POWER_SUPPLY_PROP_VOLTAGE_MAX", 0x08);
  ("GB_POWER_SUPPLY_PROP_VOLTAGE_MIN", 0x09);
  ("GB_POWER_SUPPLY_PROP_VOLTAGE_MAX_DESIGN", 0x0A);
  ("GB_POWER_SUPPLY_PROP_VOLTAGE_MIN_DESIGN", 0x0B);
  ("GB_POWER_SUPPLY_PROP_VOLTAGE_NOW", 0x0C);
  ("GB_POWER_SUPPLY_PROP_VOLTAGE_AVG", 0x0D);
  ("GB_POWER_SUPPLY_PROP_VOLTAGE_OCV", 0x0E);
  ("GB_POWER_SUPPLY_PROP_VOLTAGE_BOOT", 0x0F);
  ("GB_POWER_SUPPLY_PROP_CURRENT_MAX", 0x10);
  ("GB_POWER_SUPPLY_PROP_CURRENT_NOW", 0x11);
  ("GB_POWER_SUPPLY_PROP_CURRENT_AVG", 0x12);
  ("GB_POWER_SUPPLY_PROP_CURRENT_BOOT", 0x13);
  ("GB_POWER_SUPPLY_PROP_POWER_NOW", 0x14);
  ("GB_POWER_SUPPLY_PROP_POWER_AVG", 0x15);
  ("GB_POWER_SUPPLY_PROP_CHARGE_FULL_DESIGN", 0x16);
  ("GB_POWER_SUPPLY_PROP_CHARGE_EMPTY_DESIGN", 0x17);
  ("GB_POWER_SUPPLY_PROP_CHARGE_FULL", 0x18);
  ("GB_POWER_SUPPLY_PROP_CHARGE_EMPTY", 0x19);
  ("GB_POWER_SUPPLY_PROP_CHARGE_NOW", 0x1A);
  ("GB_POWER_SUPPLY_PROP_CHARGE_AVG", 0x1B);
  ("GB_POWER_SUPPLY_PROP_CHARGE_COUNTER", 0x1C);
  ("GB_POWER_SUPPLY_PROP_CONSTANT_CHARGE_CURRENT", 0x1D);
  ("GB_POWER_SUPPLY_PROP_CONSTANT_CHARGE_CURRENT_MAX", 0x1E);
  ("GB_POWER_SUPPLY_PROP_CONSTANT_CHARGE_VOLTAGE", 0x1F);
  ("GB_POWER_SUPPLY_PROP_CONSTANT_CHARGE_VOLTAGE_MAX", 0x20);
  ("GB_POWER_SUPPLY_PROP_CHARGE_CONTROL_LIMIT", 0x21);
  ("GB_POWER_SUPPLY_PROP_CHARGE_CONTROL_LIMIT_MAX", 0x22);
  ("GB_POWER_SUPPLY_PROP_INPUT_CURRENT_LIMIT", 0x23);
  ("GB_POWER_SUPPLY_PROP_ENERGY_FULL_DESIGN", 0x24);
  ("GB_POWER_SUPPLY_PROP_ENERGY_EMPTY_DESIGN", 0x25);
  ("GB_POWER_SUPPLY_PROP_ENERGY_FULL", 0x26);
  ("GB_POWER_SUPPLY_PROP_ENERGY_EMPTY", 0x27);
  ("GB_POWER_SUPPLY_PROP_ENERGY_NOW", 0x28);
  ("GB_POWER_SUPPLY_PROP_ENERGY_AVG", 0x29);
  ("GB_POWER_SUPPLY_PROP_CAPACITY", 0x2A);
  ("GB_POWER_SUPPLY_PROP_CAPACITY_ALERT_MIN", 0x2B);
  ("GB_POWER_SUPPLY_PROP_CAPACITY_ALERT_MAX", 0x2C);
  ("GB_POWER_SUPPLY_PROP_CAPACITY_LEVEL", 0x2D);
  ("GB_POWER_SUPPLY_PROP_TEMP", 0x2E);
  ("GB_POWER_SUPPLY_PROP_TEMP_MAX", 0x2F);
  ("GB_POWER_SUPPLY_PROP_TEMP_MIN", 0x30);
  ("GB_POWER_SUPPLY_PROP_TEMP_ALERT_MIN", 0x31);
  ("GB_POWER_SUPPLY_PROP_TEMP_ALERT_MAX", 0x32);
  ("GB_POWER_SUPPLY_PROP_TEMP_AMBIENT", 0x33);
  ("GB_POWER_SUPPLY_PROP_TEMP_AMBIENT_ALERT_MIN", 0x34);
  ("GB_POWER_SUPPLY_PROP_TEMP_AMBIENT_ALERT_MAX", 0x35);
  ("GB_POWER_SUPPLY_PROP_TIME_TO_EMPTY_NOW", 0x36);
  ("GB_POWER_SUPPLY_PROP_TIME_TO_EMPTY_AVG", 0x37);
  ("GB_POWER_SUPPLY_PROP_TIME_TO_FULL_NOW", 0x38);
  ("GB_POWER_SUPPLY_PROP_TIME_TO_FULL_AVG", 0x39);
  ("GB_POWER_SUPPLY_PROP_TYPE", 0x3A);
  ("GB_POWER_SUPPLY_PROP_SCOPE", 0x3B);
  ("GB_POWER_SUPPLY_PROP_CHARGE_TERM_CURRENT", 0x3C);
  ("GB_POWER_SUPPLY_PROP_CALIBRATE", 0x3D)].

Definition struct_gb_power_supply_props_desc : ctype := Struct true [
  ("property", __u8);
  ("is_writeable", __u8)].

Definition struct_gb_power_supply_get_property_descriptors_request : ctype := Struct true [
  ("psy_id", __u8)].

Definition struct_gb_power_supply_get_property_descriptors_response : ctype := Struct true [
  ("properties_count", __u8);
  ("props", Flexible struct_gb_power_supply_props_desc)].

Definition struct_gb_power_supply_get_property_request : ctype := Struct true [
  ("psy_id", __u8);
  ("property", __u8)].

Definition struct_gb_power_supply_get_property_response : ctype := Struct false [
  ("prop_val", __le32)].

Definition struct_gb_power_supply_set_property_request : ctype := Struct true [
  ("psy_id", __u8);
  ("property", __u8);
  ("prop_val", __le32)].

Definition GB_POWER_SUPPLY_EVENTS : constants := [
  ("GB_POWER_SUPPLY_UPDATE", 0x01)].

Definition struct_gb_power_supply_event_request : ctype := Struct true [
  ("psy_id", __u8);
  ("event", __u8)].

Definition GB_HID_TYPE : constants := [
  ("GB_HID_TYPE_GET_DESC", 0x02);
  ("GB_HID_TYPE_GET_REPORT_DESC", 0x03);
  ("GB_HID_TYPE_PWR_ON", 0x04);
  ("GB_HID_TYPE_PWR_OFF", 0x05);
  ("GB_HID_TYPE_GET_REPORT", 0x06);
  ("GB_HID_TYPE_SET_REPORT", 0x07);
  ("GB_HID_TYPE_IRQ_EVENT", 0x08)].

Definition GB_HID_REPORT : constants := [
  ("GB_HID_INPUT_REPORT", 0);
  ("GB_HID_OUTPUT_REPORT", 1);
  ("GB_HID_FEATURE_REPORT", 2)].

Definition struct_gb_hid_desc_response : ctype := Struct true [
  ("bLength", __u8);
  ("wReportDescLength", __le16);
  ("bcdHID", __le16);
  ("wProductID", __le16);
  ("wVendorID", __le16);
  ("bCountryCode", __u8)].

Definition struct_gb_hid_get_report_request : ctype := Struct true [
  ("report_type", __u8);
  ("report_id", __u8)].

Definition struct_gb_hid_set_report_request : ctype := Struct true [
  ("report_type", __u8);
  ("report_id", __u8);
  ("report", Flexible __u8)].

Definition struct_gb_hid_input_report_request : ctype := Struct true [("report", Flexible __u8)].

Definition GB_I2C_TYPE : constants := [
  ("GB_I2C_TYPE_FUNCTIONALITY", 0x02);
  ("GB_I2C_TYPE_TRANSFER", 0x05)].

Definition struct_gb_i2c_functionality_response : ctype := Struct true [("functionality", __le32)].

Definition struct_gb_i2c_transfer_op : ctype := Struct true [
  ("addr", __le16);
  ("flags", __le16);
  ("size", __le16)].

Definition struct_gb_i2c_transfer_request : ctype := Struct true [
  ("op_count", __le16);
  ("ops", Flexible struct_gb_i2c_transfer_op)].

Definition struct_gb_i2c_transfer_response : ctype := Struct true [("data", Flexible __u8)].

Definition GB_GPIO_TYPE : constants := [
  ("GB_GPIO_TYPE_LINE_COUNT", 0x02);
  ("GB_GPIO_TYPE_ACTIVATE", 0x03);
  ("GB_GPIO_TYPE_DEACTIVATE", 0x04);
  ("GB_GPIO_TYPE_GET_DIRECTION", 0x05);
  ("GB_GPIO_TYPE_DIRECTION_IN", 0x06);
  ("GB_GPIO_TYPE_DIRECTION_OUT", 0x07);
  ("GB_GPIO_TYPE_GET_VALUE", 0x08);
  ("GB_GPIO_TYPE_SET_VALUE", 0x09);
  ("GB_GPIO_TYPE_SET_DEBOUNCE", 0x0a);
  ("GB_GPIO_TYPE_IRQ_TYPE", 0x0b);
  ("GB_GPIO_TYPE_IRQ_MASK", 0x0c);
  ("GB_GPIO_TYPE_IRQ_UNMASK", 0x0d);
  ("GB_GPIO_TYPE_IRQ_EVENT", 0x0e)].

Definition GB_GPIO_IRQ_TYPE : constants := [
  ("GB_GPIO_IRQ_TYPE_NONE", 0x00);
  ("GB_GPIO_IRQ_TYPE_EDGE_RISING", 0x01);
  ("GB_GPIO_IRQ_TYPE_EDGE_FALLING", 0x02);
  ("GB_GPIO_IRQ_TYPE_EDGE_BOTH", 0x03);
  ("GB_GPIO_IRQ_TYPE_LEVEL_HIGH", 0x04);
  ("GB_GPIO_IRQ_TYPE_LEVEL_LOW", 0x08)].

Definition struct_gb_gpio_line_count_response : ctype := Struct true [("count", __u8)].

Definition struct_gb_gpio_activate_request : ctype := Struct true [("which", __u8)].

Definition struct_gb_gpio_deactivate_request : ctype := Struct true [("which", __u8)].

Definition struct_gb_gpio_get_direction_request : ctype := Struct true [("which", __u8)].

Definition struct_gb_gpio_get_direction_response : ctype := Struct true [("direction", __u8)].

Definition struct_gb_gpio_direction_in_request : ctype := Struct true [("which", __u8)].

Definition struct_gb_gpio_direction_out_request : ctype := Struct true [
  ("which", __u8);
  ("value", __u8)].

Definition struct_gb_gpio_get_value_request : ctype := Struct true [("which", __u8)].

Definition struct_gb_gpio_get_value_response : ctype := Struct true [("value", __u8)].

Definition struct_gb_gpio_set_value_request : ctype := Struct true [
  ("which", __u8);
  ("value", __u8)].

Definition struct_gb_gpio_set_debounce_request : ctype := Struct true [
  ("which", __u8);
  ("usec", __le16)].

Definition struct_gb_gpio_irq_type_request : ctype := Struct true [("which", __u8); ("type", __u8)].

Definition struct_gb_gpio_irq_mask_request : ctype := Struct true [("which", __u8)].

Definition struct_gb_gpio_irq_unmask_request : ctype := Struct true [("which", __u8)].

Definition struct_gb_gpio_irq_event_request : ctype := Struct true [("which", __u8)].

Definition GB_PWM_TYPE : constants := [
  ("GB_PWM_TYPE_PWM_COUNT", 0x02);
  ("GB_PWM_TYPE_ACTIVATE", 0x03);
  ("GB_PWM_TYPE_DEACTIVATE", 0x04);
  ("GB_PWM_TYPE_CONFIG", 0x05);
  ("GB_PWM_TYPE_POLARITY", 0x06);
  ("GB_PWM_TYPE_ENABLE", 0x07);
  ("GB_PWM_TYPE_DISABLE", 0x08)].

Definition struct_gb_pwm_count_response : ctype := Struct true [("count", __u8)].

Definition struct_gb_pwm_activate_request : ctype := Struct true [("which", __u8)].

Definition struct_gb_pwm_deactivate_request : ctype := Struct true [("which", __u8)].

Definition struct_gb_pwm_config_request : ctype := Struct true [
  ("which", __u8);
  ("duty", __le32);
  ("period", __le32)].

Definition struct_gb_pwm_polarity_request : ctype := Struct true [
  ("which", __u8);
  ("polarity", __u8)].

Definition struct_gb_pwm_enable_request : ctype := Struct true [("which", __u8)].

Definition struct_gb_pwm_disable_request : ctype := Struct true [("which", __u8)].

Definition GB_SPI_MODE : constants := [
  ("GB_SPI_MODE_CPHA", 0x01);
  ("GB_SPI_MODE_CPOL", 0x02);
  ("GB_SPI_MODE_MODE_0", Z.lor 0 0);
  ("GB_SPI_MODE_MODE_1", Z.lor 0 0x01);
  ("GB_SPI_MODE_MODE_2", Z.lor 0x02 0);
  ("GB_SPI_MODE_MODE_3", Z.lor 0x02 0x01);
  ("GB_SPI_MODE_CS_HIGH", 0x04);
  ("GB_SPI_MODE_LSB_FIRST", 0x08);
  ("GB_SPI_MODE_3WIRE", 0x10);
  ("GB_SPI_MODE_LOOP", 0x20);
  ("GB_SPI_MODE_NO_CS", 0x40);
  ("GB_SPI_MODE_READY", 0x80)].

Definition GB_SPI_FLAG `{Bit} : constants := [
  ("GB_SPI_FLAG_HALF_DUPLEX", BIT 0);
  ("GB_SPI_FLAG_NO_RX", BIT 1);
  ("GB_SPI_FLAG_NO_TX", BIT 2)].

Definition GB_SPI_TYPE : constants := [
  ("GB_SPI_TYPE_MASTER_CONFIG", 0x02);
  ("GB_SPI_TYPE_DEVICE_CONFIG", 0x03);
  ("GB_SPI_TYPE_TRANSFER", 0x04)].

Definition struct_gb_spi_master_config_response : ctype := Struct true [
  ("bits_per_word_mask", __le32);
  ("min_speed_hz", __le32);
  ("max_speed_hz", __le32);
  ("mode", __le16);
  ("flags", __le16);
  ("num_chipselect", __u8)].

Definition struct_gb_spi_device_config_request : ctype := Struct true [("chip_select", __u8)].

Definition GB_SPI_DEVICE_TYPE : constants := [
  ("GB_SPI_SPI_DEV", 0x00);
  ("GB_SPI_SPI_NOR", 0x01);
  ("GB_SPI_SPI_MODALIAS", 0x02)].

Definition struct_gb_spi_device_config_response : ctype := Struct true [
  ("mode", __le16);
  ("bits_per_word", __u8);
  ("max_speed_hz", __le32);
  ("device_type", __u8);
  ("name", Array __u8 32)].

Definition GB_SPI_XFER : constants := [
  ("GB_SPI_XFER_READ", 0x01);
  ("GB_SPI_XFER_WRITE", 0x02);
  ("GB_SPI_XFER_INPROGRESS", 0x04)].

Definition struct_gb_spi_transfer : ctype := Struct true [
  ("speed_hz", __le32);
  ("len", __le32);
  ("delay_usecs", __le16);
  ("cs_change", __u8);
  ("bits_per_word", __u8);
  ("xfer_flags", __u8)].

Definition struct_gb_spi_transfer_request : ctype := Struct true [
  ("chip_select", __u8);
  ("mode", __u8);
  ("count", __le16);
  ("transfers", Flexible struct_gb_spi_transfer)].

Definition struct_gb_spi_transfer_response : ctype := Struct true [("data", Flexible __u8)].

Definition phy_structs : list (String.string * ctype) := [
  ("gb_power_supply_get_supplies_response", struct_gb_power_supply_get_supplies_response);
  ("gb_power_supply_get_description_request", struct_gb_power_supply_get_description_request);
  ("gb_power_supply_get_description_response", struct_gb_power_supply_get_description_response);
  ("gb_power_supply_props_desc", struct_gb_power_supply_props_desc);
  ("gb_power_supply_get_property_descriptors_request", struct_gb_power_supply_get_property_descriptors_request);
  ("gb_power_supply_get_property_descriptors_response", struct_gb_power_supply_get_property_descriptors_response);
  ("gb_power_supply_get_property_request", struct_gb_power_supply_get_property_request);
  ("gb_power_supply_get_property_response", struct_gb_power_supply_get_property_response);
  ("gb_power_supply_set_property_request", struct_gb_power_supply_set_property_request);
  ("gb_power_supply_event_request", struct_gb_power_supply_event_request);
  ("gb_hid_desc_response", struct_gb_hid_desc_response);
  ("gb_hid_get_report_request", struct_gb_hid_get_report_request);
  ("gb_hid_set_report_request", struct_gb_hid_set_report_request);
  ("gb_hid_input_report_request", struct_gb_hid_input_report_request);
  ("gb_i2c_functionality_response", struct_gb_i2c_functionality_response);
  ("gb_i2c_transfer_op", struct_gb_i2c_transfer_op);
  ("gb_i2c_transfer_request", struct_gb_i2c_transfer_request);
  ("gb_i2c_transfer_response", struct_gb_i2c_transfer_response);
  ("gb_gpio_line_count_response", struct_gb_gpio_line_count_response);
  ("gb_gpio_activate_request", struct_gb_gpio_activate_request);
  ("gb_gpio_deactivate_request", struct_gb_gpio_deactivate_request);
  ("gb_gpio_get_direction_request", struct_gb_gpio_get_direction_request);
  ("gb_gpio_get_direction_response", struct_gb_gpio_get_direction_response);
  ("gb_gpio_direction_in_request", struct_gb_gpio_direction_in_request);
  ("gb_gpio_direction_out_request", struct_gb_gpio_direction_out_request);
  ("gb_gpio_get_value_request", struct_gb_gpio_get_value_request);
  ("gb_gpio_get_value_response", struct_gb_gpio_get_value_response);
  ("gb_gpio_set_value_request", struct_gb_gpio_set_value_request);
  ("gb_gpio_set_debounce_request", struct_gb_gpio_set_debounce_request);
  ("gb_gpio_irq_type_request", struct_gb_gpio_irq_type_request);
  ("gb_gpio_irq_mask_request", struct_gb_gpio_irq_mask_request);
  ("gb_gpio_irq_unmask_request", struct_gb_gpio_irq_unmask_request);
  ("gb_gpio_irq_event_request", struct_gb_gpio_irq_event_request);
  ("gb_pwm_count_response", struct_gb_pwm_count_response);
  ("gb_pwm_activate_request", struct_gb_pwm_activate_request);
  ("gb_pwm_deactivate_request", struct_gb_pwm_deactivate_request);
  ("gb_pwm_config_request", struct_gb_pwm_config_request);
  ("gb_pwm_polarity_request", struct_gb_pwm_polarity_request);
  ("gb_pwm_enable_request", struct_gb_pwm_enable_request);
  ("gb_pwm_disable_request", struct_gb_pwm_disable_request);
  ("gb_spi_master_config_response", struct_gb_spi_master_config_response);
  ("gb_spi_device_config_request", struct_gb_spi_device_config_request);
  ("gb_spi_device_config_response", struct_gb_spi_device_config_response);
  ("gb_spi_transfer", struct_gb_spi_transfer);
  ("gb_spi_transfer_request", struct_gb_spi_transfer_request);
  ("gb_spi_transfer_response", struct_gb_spi_transfer_response)].
