(* ===== verification/WireSvc.v ===== *)
(** * Greybus wire protocol: SVC

    Lines 913 to 1269 of include/greybus_protocols.h: each structure as a
    [ctype], each group of macros as a table of names and values. *)

From S2P Require Import Prelude Protocols CTypes.

#[local] Open Scope string_scope.

Definition GB_SVC_VERSION : constants := [
  ("GB_SVC_VERSION_MAJOR", GB_SVC_VERSION_MAJOR);
  ("GB_SVC_VERSION_MINOR", GB_SVC_VERSION_MINOR)].

Definition GB_SVC_TYPE : constants := [
  ("GB_SVC_TYPE_PROTOCOL_VERSION", GB_SVC_TYPE_PROTOCOL_VERSION);
  ("GB_SVC_TYPE_SVC_HELLO", GB_SVC_TYPE_SVC_HELLO);
  ("GB_SVC_TYPE_INTF_DEVICE_ID", GB_SVC_TYPE_INTF_DEVICE_ID);
  ("GB_SVC_TYPE_INTF_RESET", GB_SVC_TYPE_INTF_RESET);
  ("GB_SVC_TYPE_CONN_CREATE", GB_SVC_TYPE_CONN_CREATE);
  ("GB_SVC_TYPE_CONN_DESTROY", GB_SVC_TYPE_CONN_DESTROY);
  ("GB_SVC_TYPE_DME_PEER_GET", GB_SVC_TYPE_DME_PEER_GET);
  ("GB_SVC_TYPE_DME_PEER_SET", GB_SVC_TYPE_DME_PEER_SET);
  ("GB_SVC_TYPE_ROUTE_CREATE", GB_SVC_TYPE_ROUTE_CREATE);
  ("GB_SVC_TYPE_ROUTE_DESTROY", GB_SVC_TYPE_ROUTE_DESTROY);
  ("GB_SVC_TYPE_TIMESYNC_ENABLE", GB_SVC_TYPE_TIMESYNC_ENABLE);
  ("GB_SVC_TYPE_TIMESYNC_DISABLE", GB_SVC_TYPE_TIMESYNC_DISABLE);
  ("GB_SVC_TYPE_TIMESYNC_AUTHORITATIVE", GB_SVC_TYPE_TIMESYNC_AUTHORITATIVE);
  ("GB_SVC_TYPE_INTF_SET_PWRM", GB_SVC_TYPE_INTF_SET_PWRM);
  ("GB_SVC_TYPE_INTF_EJECT", GB_SVC_TYPE_INTF_EJECT);
  ("GB_SVC_TYPE_PING", GB_SVC_TYPE_PING);
  ("GB_SVC_TYPE_PWRMON_RAIL_COUNT_GET", GB_SVC_TYPE_PWRMON_RAIL_COUNT_GET);
  ("GB_SVC_TYPE_PWRMON_RAIL_NAMES_GET", GB_SVC_TYPE_PWRMON_RAIL_NAMES_GET);
  ("GB_SVC_TYPE_PWRMON_SAMPLE_GET", GB_SVC_TYPE_PWRMON_SAMPLE_GET);
  ("GB_SVC_TYPE_PWRMON_INTF_SAMPLE_GET", GB_SVC_TYPE_PWRMON_INTF_SAMPLE_GET);
  ("GB_SVC_TYPE_TIMESYNC_WAKE_PINS_ACQUIRE", GB_SVC_TYPE_TIMESYNC_WAKE_PINS_ACQUIRE);
  ("GB_SVC_TYPE_TIMESYNC_WAKE_PINS_RELEASE", GB_SVC_TYPE_TIMESYNC_WAKE_PINS_RELEASE);
  ("GB_SVC_TYPE_TIMESYNC_PING", GB_SVC_TYPE_TIMESYNC_PING);
  ("GB_SVC_TYPE_MODULE_INSERTED", GB_SVC_TYPE_MODULE_INSERTED);
  ("GB_SVC_TYPE_MODULE_REMOVED", GB_SVC_TYPE_MODULE_REMOVED);
  ("GB_SVC_TYPE_INTF_VSYS_ENABLE", GB_SVC_TYPE_INTF_VSYS_ENABLE);
  ("GB_SVC_TYPE_INTF_VSYS_DISABLE", GB_SVC_TYPE_INTF_VSYS_DISABLE);
  ("GB_SVC_TYPE_INTF_REFCLK_ENABLE", GB_SVC_TYPE_INTF_REFCLK_ENABLE);
  ("GB_SVC_TYPE_INTF_REFCLK_DISABLE", GB_SVC_TYPE_INTF_REFCLK_DISABLE);
  ("GB_SVC_TYPE_INTF_UNIPRO_ENABLE", GB_SVC_TYPE_INTF_UNIPRO_ENABLE);
  ("GB_SVC_TYPE_INTF_UNIPRO_DISABLE", GB_SVC_TYPE_INTF_UNIPRO_DISABLE);
  ("GB_SVC_TYPE_INTF_ACTIVATE", GB_SVC_TYPE_INTF_ACTIVATE);
  ("GB_SVC_TYPE_INTF_RESUME", GB_SVC_TYPE_INTF_RESUME);
  ("GB_SVC_TYPE_INTF_MAILBOX_EVENT", GB_SVC_TYPE_INTF_MAILBOX_EVENT);
  ("GB_SVC_TYPE_INTF_OOPS", GB_SVC_TYPE_INTF_OOPS)].

Definition GB_SVC_STATUS : constants := [
  ("GB_SVC_OP_SUCCESS", GB_SVC_OP_SUCCESS);
  ("GB_SVC_OP_UNKNOWN_ERROR", GB_SVC_OP_UNKNOWN_ERROR);
  ("GB_SVC_INTF_NOT_DETECTED", GB_SVC_INTF_NOT_DETECTED);
  ("GB_SVC_INTF_NO_UPRO_LINK", GB_SVC_INTF_NO_UPRO_LINK);
  ("GB_SVC_INTF_UPRO_NOT_DOWN", GB_SVC_INTF_UPRO_NOT_DOWN);
  ("GB_SVC_INTF_UPRO_NOT_HIBERNATED", GB_SVC_INTF_UPRO_NOT_HIBERNATED);
  ("GB_SVC_INTF_NO_V_SYS", GB_SVC_INTF_NO_V_SYS);
  ("GB_SVC_INTF_V_CHG", GB_SVC_INTF_V_CHG);
  ("GB_SVC_INTF_WAKE_BUSY", GB_SVC_INTF_WAKE_BUSY);
  ("GB_SVC_INTF_NO_REFCLK", GB_SVC_INTF_NO_REFCLK);
  ("GB_SVC_INTF_RELEASING", GB_SVC_INTF_RELEASING);
  ("GB_SVC_INTF_NO_ORDER", GB_SVC_INTF_NO_ORDER);
  ("GB_SVC_INTF_MBOX_SET", GB_SVC_INTF_MBOX_SET);
  ("GB_SVC_INTF_BAD_MBOX", GB_SVC_INTF_BAD_MBOX);
  ("GB_SVC_INTF_OP_TIMEOUT", GB_SVC_INTF_OP_TIMEOUT);
  ("GB_SVC_PWRMON_OP_NOT_PRESENT", GB_SVC_PWRMON_OP_NOT_PRESENT)].

Definition struct_gb_svc_version_request : ctype := Struct true [("major", __u8); ("minor", __u8)].

Definition struct_gb_svc_version_response : ctype := Struct true [("major", __u8); ("minor", __u8)].

Definition struct_gb_svc_hello_request : ctype := Struct true [
  ("endo_id", __le16);
  ("interface_id", __u8)].

Definition struct_gb_svc_intf_device_id_request : ctype := Struct true [
  ("intf_id", __u8);
  ("device_id", __u8)].

Definition struct_gb_svc_intf_reset_request : ctype := Struct true [("intf_id", __u8)].

Definition struct_gb_svc_intf_eject_request : ctype := Struct true [("intf_id", __u8)].

Definition struct_gb_svc_conn_create_request : ctype := Struct true [
  ("intf1_id", __u8);
  ("cport1_id", __le16);
  ("intf2_id", __u8);
  ("cport2_id", __le16);
  ("tc", __u8);
  ("flags", __u8)].

Definition struct_gb_svc_conn_destroy_request : ctype := Struct true [
  ("intf1_id", __u8);
  ("cport1_id", __le16);
  ("intf2_id", __u8);
  ("cport2_id", __le16)].

Definition struct_gb_svc_dme_peer_get_request : ctype := Struct true [
  ("intf_id", __u8);
  ("attr", __le16);
  ("selector", __le16)].

Definition struct_gb_svc_dme_peer_get_response : ctype := Struct true [
  ("result_code", __le16);
  ("attr_value", __le32)].

Definition struct_gb_svc_dme_peer_set_request : ctype := Struct true [
  ("intf_id", __u8);
  ("attr", __le16);
  ("selector", __le16);
  ("value", __le32)].

Definition struct_gb_svc_dme_peer_set_response : ctype := Struct true [("result_code", __le16)].

Definition GB_INIT : constants := [
  ("GB_INIT_SPI_BOOT_STARTED", 0x02);
  ("GB_INIT_TRUSTED_SPI_BOOT_FINISHED", 0x03);
  ("GB_INIT_UNTRUSTED_SPI_BOOT_FINISHED", 0x04);
  ("GB_INIT_BOOTROM_UNIPRO_BOOT_STARTED", 0x06);
  ("GB_INIT_BOOTROM_FALLBACK_UNIPRO_BOOT_STARTED", 0x09);
  ("GB_INIT_S2_LOADER_BOOT_STARTED", 0x0D)].

Definition struct_gb_svc_route_create_request : ctype := Struct true [
  ("intf1_id", __u8);
  ("dev1_id", __u8);
  ("intf2_id", __u8);
  ("dev2_id", __u8)].

Definition struct_gb_svc_route_destroy_request : ctype := Struct true [
  ("intf1_id", __u8);
  ("intf2_id", __u8)].

Definition struct_gb_svc_intf_vsys_request : ctype := Struct true [("intf_id", __u8)].

Definition GB_SVC_INTF_VSYS : constants := [
  ("GB_SVC_INTF_VSYS_OK", GB_SVC_INTF_VSYS_OK);
  ("GB_SVC_INTF_VSYS_FAIL", 0x02)].

Definition struct_gb_svc_intf_vsys_response : ctype := Struct true [("result_code", __u8)].

Definition struct_gb_svc_intf_refclk_request : ctype := Struct true [("intf_id", __u8)].

Definition GB_SVC_INTF_REFCLK : constants := [
  ("GB_SVC_INTF_REFCLK_OK", GB_SVC_INTF_REFCLK_OK);
  ("GB_SVC_INTF_REFCLK_FAIL", 0x02)].

Definition struct_gb_svc_intf_refclk_response : ctype := Struct true [("result_code", __u8)].

Definition struct_gb_svc_intf_unipro_request : ctype := Struct true [("intf_id", __u8)].

Definition GB_SVC_INTF_UNIPRO : constants := [
  ("GB_SVC_INTF_UNIPRO_OK", GB_SVC_INTF_UNIPRO_OK);
  ("GB_SVC_INTF_UNIPRO_FAIL", 0x02);
  ("GB_SVC_INTF_UNIPRO_NOT_OFF", 0x03)].

Definition struct_gb_svc_intf_unipro_response : ctype := Struct true [("result_code", __u8)].

Definition GB_SVC_UNIPRO : constants := [
  ("GB_SVC_UNIPRO_FAST_MODE", GB_SVC_UNIPRO_FAST_MODE);
  ("GB_SVC_UNIPRO_SLOW_MODE", GB_SVC_UNIPRO_SLOW_MODE);
  ("GB_SVC_UNIPRO_FAST_AUTO_MODE", GB_SVC_UNIPRO_FAST_AUTO_MODE);
  ("GB_SVC_UNIPRO_SLOW_AUTO_MODE", GB_SVC_UNIPRO_SLOW_AUTO_MODE);
  ("GB_SVC_UNIPRO_MODE_UNCHANGED", GB_SVC_UNIPRO_MODE_UNCHANGED);
  ("GB_SVC_UNIPRO_HIBERNATE_MODE", GB_SVC_UNIPRO_HIBERNATE_MODE);
  ("GB_SVC_UNIPRO_OFF_MODE", GB_SVC_UNIPRO_OFF_MODE)].

Definition GB_SVC_AMPLITUDE : constants := [
  ("GB_SVC_SMALL_AMPLITUDE", 0x01);
  ("GB_SVC_LARGE_AMPLITUDE", 0x02)].

Definition GB_SVC_DE_EMPHASIS : constants := [
  ("GB_SVC_NO_DE_EMPHASIS", 0x00);
  ("GB_SVC_SMALL_DE_EMPHASIS", 0x01);
  ("GB_SVC_LARGE_DE_EMPHASIS", 0x02)].

Definition GB_SVC_PWRM : constants := [
  ("GB_SVC_PWRM_RXTERMINATION", 0x01);
  ("GB_SVC_PWRM_TXTERMINATION", 0x02);
  ("GB_SVC_PWRM_LINE_RESET", 0x04);
  ("GB_SVC_PWRM_SCRAMBLING", 0x20)].

Definition GB_SVC_PWRM_QUIRKS : constants := [
  ("GB_SVC_PWRM_QUIRK_HSSER", 0x00000001)].

Definition GB_SVC_UNIPRO_HS_SERIES : constants := [
  ("GB_SVC_UNIPRO_HS_SERIES_A", 0x01);
  ("GB_SVC_UNIPRO_HS_SERIES_B", 0x02)].

Definition GB_SVC_SETPWRM_PWR : constants := [
  ("GB_SVC_SETPWRM_PWR_OK", GB_SVC_SETPWRM_PWR_OK);
  ("GB_SVC_SETPWRM_PWR_LOCAL", GB_SVC_SETPWRM_PWR_LOCAL);
  ("GB_SVC_SETPWRM_PWR_REMOTE", GB_SVC_SETPWRM_PWR_REMOTE);
  ("GB_SVC_SETPWRM_PWR_BUSY", GB_SVC_SETPWRM_PWR_BUSY);
  ("GB_SVC_SETPWRM_PWR_ERROR_CAP", GB_SVC_SETPWRM_PWR_ERROR_CAP);
  ("GB_SVC_SETPWRM_PWR_FATAL_ERROR", GB_SVC_SETPWRM_PWR_FATAL_ERROR)].

Definition struct_gb_svc_l2_timer_cfg : ctype := Struct true [
  ("tsb_fc0_protection_timeout", __le16);
  ("tsb_tc0_replay_timeout", __le16);
  ("tsb_afc0_req_timeout", __le16);
  ("tsb_fc1_protection_timeout", __le16);
  ("tsb_tc1_replay_timeout", __le16);
  ("tsb_afc1_req_timeout", __le16);
  ("reserved_for_tc2", Array __le16 3);
  ("reserved_for_tc3", Array __le16 3)].

Definition struct_gb_svc_intf_set_pwrm_request : ctype := Struct true [
  ("intf_id", __u8);
  ("hs_series", __u8);
  ("tx_mode", __u8);
  ("tx_gear", __u8);
  ("tx_nlanes", __u8);
  ("tx_amplitude", __u8);
  ("tx_hs_equalizer", __u8);
  ("rx_mode", __u8);
  ("rx_gear", __u8);
  ("rx_nlanes", __u8);
  ("flags", __u8);
  ("quirks", __le32);
  ("local_l2timerdata", struct_gb_svc_l2_timer_cfg);
  ("remote_l2timerdata", struct_gb_svc_l2_timer_cfg)].

Definition struct_gb_svc_intf_set_pwrm_response : ctype := Struct true [("result_code", __u8)].

Definition GB_KEYCODE : constants := [
  ("GB_KEYCODE_ARA", 0x00)].

Definition GB_SVC_KEY_EVENT : constants := [
  ("GB_SVC_KEY_RELEASED", 0x00);
  ("GB_SVC_KEY_PRESSED", 0x01)].

Definition struct_gb_svc_key_event_request : ctype := Struct true [
  ("key_code", __le16);
  ("key_event", __u8)].

Definition GB_SVC_PWRMON_LIMITS : constants := [
  ("GB_SVC_PWRMON_MAX_RAIL_COUNT", 254)].

Definition struct_gb_svc_pwrmon_rail_count_get_response : ctype := Struct true [
  ("rail_count", __u8)].

Definition GB_SVC_PWRMON_RAIL_NAME_BUFSIZE : nat := 32.

Definition struct_gb_svc_pwrmon_rail_names_get_response : ctype := Struct true [
  ("status", __u8);
  ("name", Flexible (Array __u8 GB_SVC_PWRMON_RAIL_NAME_BUFSIZE))].

Definition GB_SVC_PWRMON_TYPE : constants := [
  ("GB_SVC_PWRMON_TYPE_CURR", 0x01);
  ("GB_SVC_PWRMON_TYPE_VOL", 0x02);
  ("GB_SVC_PWRMON_TYPE_PWR", 0x03)].

Definition GB_SVC_PWRMON_GET_SAMPLE : constants := [
  ("GB_SVC_PWRMON_GET_SAMPLE_OK", 0x00);
  ("GB_SVC_PWRMON_GET_SAMPLE_INVAL", 0x01);
  ("GB_SVC_PWRMON_GET_SAMPLE_NOSUPP", 0x02);
  ("GB_SVC_PWRMON_GET_SAMPLE_HWERR", 0x03)].

Definition struct_gb_svc_pwrmon_sample_get_request : ctype := Struct true [
  ("rail_id", __u8);
  ("measurement_type", __u8)].

Definition struct_gb_svc_pwrmon_sample_get_response : ctype := Struct true [
  ("result", __u8);
  ("measurement", __le32)].

Definition struct_gb_svc_pwrmon_intf_sample_get_request : ctype := Struct true [
  ("intf_id", __u8);
  ("measurement_type", __u8)].

Definition struct_gb_svc_pwrmon_intf_sample_get_response : ctype := Struct true [
  ("result", __u8);
  ("measurement", __le32)].

Definition GB_SVC_MODULE_INSERTED_FLAGS : constants := [
  ("GB_SVC_MODULE_INSERTED_FLAG_NO_PRIMARY", 0x0001)].

Definition struct_gb_svc_module_inserted_request : ctype := Struct true [
  ("primary_intf_id", __u8);
  ("intf_count", __u8);
  ("flags", __le16)].

Definition struct_gb_svc_module_removed_request : ctype := Struct true [("primary_intf_id", __u8)].

Definition struct_gb_svc_intf_activate_request : ctype := Struct true [("intf_id", __u8)].

Definition GB_SVC_INTF_TYPE : constants := [
  ("GB_SVC_INTF_TYPE_UNKNOWN", GB_SVC_INTF_TYPE_UNKNOWN);
  ("GB_SVC_INTF_TYPE_DUMMY", GB_SVC_INTF_TYPE_DUMMY);
  ("GB_SVC_INTF_TYPE_UNIPRO", GB_SVC_INTF_TYPE_UNIPRO);
  ("GB_SVC_INTF_TYPE_GREYBUS", GB_SVC_INTF_TYPE_GREYBUS)].

Definition struct_gb_svc_intf_activate_response : ctype := Struct true [
  ("status", __u8);
  ("intf_type", __u8)].

Definition struct_gb_svc_intf_resume_request : ctype := Struct true [("intf_id", __u8)].

Definition struct_gb_svc_intf_resume_response : ctype := Struct true [("status", __u8)].

Definition GB_SVC_INTF_MAILBOX : constants := [
  ("GB_SVC_INTF_MAILBOX_NONE", 0x00);
  ("GB_SVC_INTF_MAILBOX_AP", 0x01);
  ("GB_SVC_INTF_MAILBOX_GREYBUS", 0x02)].

Definition struct_gb_svc_intf_mailbox_event_request : ctype := Struct true [
  ("intf_id", __u8);
  ("result_code", __le16);
  ("mailbox", __le32)].

Definition struct_gb_svc_intf_oops_request : ctype := Struct true [
  ("intf_id", __u8);
  ("reason", __u8)].

Definition svc_structs : list (String.string * ctype) := [
  ("gb_svc_version_request", struct_gb_svc_version_request);
  ("gb_svc_version_response", struct_gb_svc_version_response);
  ("gb_svc_hello_request", struct_gb_svc_hello_request);
  ("gb_svc_intf_device_id_request", struct_gb_svc_intf_device_id_request);
  ("gb_svc_intf_reset_request", struct_gb_svc_intf_reset_request);
  ("gb_svc_intf_eject_request", struct_gb_svc_intf_eject_request);
  ("gb_svc_conn_create_request", struct_gb_svc_conn_create_request);
  ("gb_svc_conn_destroy_request", struct_gb_svc_conn_destroy_request);
  ("gb_svc_dme_peer_get_request", struct_gb_svc_dme_peer_get_request);
  ("gb_svc_dme_peer_get_response", struct_gb_svc_dme_peer_get_response);
  ("gb_svc_dme_peer_set_request", struct_gb_svc_dme_peer_set_request);
  ("gb_svc_dme_peer_set_response", struct_gb_svc_dme_peer_set_response);
  ("gb_svc_route_create_request", struct_gb_svc_route_create_request);
  ("gb_svc_route_destroy_request", struct_gb_svc_route_destroy_request);
  ("gb_svc_intf_vsys_request", struct_gb_svc_intf_vsys_request);
  ("gb_svc_intf_vsys_response", struct_gb_svc_intf_vsys_response);
  ("gb_svc_intf_refclk_request", struct_gb_svc_intf_refclk_request);
  ("gb_svc_intf_refclk_response", struct_gb_svc_intf_refclk_response);
  ("gb_svc_intf_unipro_request", struct_gb_svc_intf_unipro_request);
  ("gb_svc_intf_unipro_response", struct_gb_svc_intf_unipro_response);
  ("gb_svc_l2_timer_cfg", struct_gb_svc_l2_timer_cfg);
  ("gb_svc_intf_set_pwrm_request", struct_gb_svc_intf_set_pwrm_request);
  ("gb_svc_intf_set_pwrm_response", struct_gb_svc_intf_set_pwrm_response);
  ("gb_svc_key_event_request", struct_gb_svc_key_event_request);
  ("gb_svc_pwrmon_rail_count_get_response", struct_gb_svc_pwrmon_rail_count_get_response);
  ("gb_svc_pwrmon_rail_names_get_response", struct_gb_svc_pwrmon_rail_names_get_response);
  ("gb_svc_pwrmon_sample_get_request", struct_gb_svc_pwrmon_sample_get_request);
  ("gb_svc_pwrmon_sample_get_response", struct_gb_svc_pwrmon_sample_get_response);
  ("gb_svc_pwrmon_intf_sample_get_request", struct_gb_svc_pwrmon_intf_sample_get_request);
  ("gb_svc_pwrmon_intf_sample_get_response", struct_gb_svc_pwrmon_intf_sample_get_response);
  ("gb_svc_module_inserted_request", struct_gb_svc_module_inserted_request);
  ("gb_svc_module_removed_request", struct_gb_svc_module_removed_request);
  ("gb_svc_intf_activate_request", struct_gb_svc_intf_activate_request);
  ("gb_svc_intf_activate_response", struct_gb_svc_intf_activate_response);
  ("gb_svc_intf_resume_request", struct_gb_svc_intf_resume_request);
  ("gb_svc_intf_resume_response", struct_gb_svc_intf_resume_response);
  ("gb_svc_intf_mailbox_event_request", struct_gb_svc_intf_mailbox_event_request);
  ("gb_svc_intf_oops_request", struct_gb_svc_intf_oops_request)].
