(* ===== verification/WireSerial.v ===== *)
(** * Greybus wire protocol: raw, UART, loopback and SDIO

    Lines 1270 to 1542 of include/greybus_protocols.h: each structure as a
    [ctype], each group of macros as a table of names and values. *)

From S2P Require Import Prelude CTypes.

#[local] Open Scope string_scope.

Definition GB_RAW_TYPE : constants := [
  ("GB_RAW_TYPE_SEND", 0x02)].

Definition struct_gb_raw_send_request : ctype := Struct true [
  ("len", __le32);
  ("data", Flexible __u8)].

Definition GB_UART_TYPE : constants := [
  ("GB_UART_TYPE_SEND_DATA", 0x02);
  ("GB_UART_TYPE_RECEIVE_DATA", 0x03);
  ("GB_UART_TYPE_SET_LINE_CODING", 0x04);
  ("GB_UART_TYPE_SET_CONTROL_LINE_STATE", 0x05);
  ("GB_UART_TYPE_SEND_BREAK", 0x06);
  ("GB_UART_TYPE_SERIAL_STATE", 0x07);
  ("GB_UART_TYPE_RECEIVE_CREDITS", 0x08);
  ("GB_UART_TYPE_FLUSH_FIFOS", 0x09)].

Definition struct_gb_uart_send_data_request : ctype := Struct true [
  ("size", __le16);
  ("data", Flexible __u8)].

Definition GB_UART_RECV_FLAG : constants := [
  ("GB_UART_RECV_FLAG_FRAMING", 0x01);
  ("GB_UART_RECV_FLAG_PARITY", 0x02);
  ("GB_UART_RECV_FLAG_OVERRUN", 0x04);
  ("GB_UART_RECV_FLAG_BREAK", 0x08)].

Definition struct_gb_uart_recv_data_request : ctype := Struct true [
  ("size", __le16);
  ("flags", __u8);
  ("data", Flexible __u8)].

Definition struct_gb_uart_receive_credits_request : ctype := Struct true [("count", __le16)].

Definition GB_SERIAL_STOP_BITS : constants := [
  ("GB_SERIAL_1_STOP_BITS", 0);
  ("GB_SERIAL_1_5_STOP_BITS", 1);
  ("GB_SERIAL_2_STOP_BITS", 2)].

Definition GB_SERIAL_PARITY : constants := [
  ("GB_SERIAL_NO_PARITY", 0);
  ("GB_SERIAL_ODD_PARITY", 1);
  ("GB_SERIAL_EVEN_PARITY", 2);
  ("GB_SERIAL_MARK_PARITY", 3);
  ("GB_SERIAL_SPACE_PARITY", 4)].

Definition GB_SERIAL_FLOW_CONTROL : constants := [
  ("GB_SERIAL_AUTO_RTSCTS_EN", 0x1)].

Definition struct_gb_uart_set_line_coding_request : ctype := Struct true [
  ("rate", __le32);
  ("format", __u8);
  ("parity", __u8);
  ("data_bits", __u8);
  ("flow_control", __u8)].

Definition GB_UART_CTRL_OUT : constants := [
  ("GB_UART_CTRL_DTR", 0x01);
  ("GB_UART_CTRL_RTS", 0x02)].

Definition struct_gb_uart_set_control_line_state_request : ctype := Struct true [("control", __u8)].

Definition struct_gb_uart_set_break_request : ctype := Struct true [("state", __u8)].

Definition GB_UART_CTRL_IN : constants := [
  ("GB_UART_CTRL_DCD", 0x01);
  ("GB_UART_CTRL_DSR", 0x02);
  ("GB_UART_CTRL_RI", 0x04)].

Definition struct_gb_uart_serial_state_request : ctype := Struct true [("control", __u8)].

Definition GB_SERIAL_FLAG_FLUSH : constants := [
  ("GB_SERIAL_FLAG_FLUSH_TRANSMITTER", 0x01);
  ("GB_SERIAL_FLAG_FLUSH_RECEIVER", 0x02)].

Definition struct_gb_uart_serial_flush_request : ctype := Struct true [("flags", __u8)].

Definition GB_LOOPBACK_TYPE : constants := [
  ("GB_LOOPBACK_TYPE_PING", 0x02);
  ("GB_LOOPBACK_TYPE_TRANSFER", 0x03);
  ("GB_LOOPBACK_TYPE_SINK", 0x04)].

Definition struct_gb_loopback_transfer_request : ctype := Struct true [
  ("len", __le32);
  ("reserved0", __le32);
  ("reserved1", __le32);
  ("data", Flexible __u8)].

Definition struct_gb_loopback_transfer_response : ctype := Struct true [
  ("len", __le32);
  ("reserved0", __le32);
  ("reserved1", __le32);
  ("data", Flexible __u8)].

Definition GB_SDIO_TYPE : constants := [
  ("GB_SDIO_TYPE_GET_CAPABILITIES", 0x02);
  ("GB_SDIO_TYPE_SET_IOS", 0x03);
  ("GB_SDIO_TYPE_COMMAND", 0x04);
  ("GB_SDIO_TYPE_TRANSFER", 0x05);
  ("GB_SDIO_TYPE_EVENT", 0x06)].

Definition GB_SDIO_CAP : constants := [
  ("GB_SDIO_CAP_NONREMOVABLE", 0x00000001);
  ("GB_SDIO_CAP_4_BIT_DATA", 0x00000002);
  ("GB_SDIO_CAP_8_BIT_DATA", 0x00000004);
  ("GB_SDIO_CAP_MMC_HS", 0x00000008);
  ("GB_SDIO_CAP_SD_HS", 0x00000010);
  ("GB_SDIO_CAP_ERASE", 0x00000020);
  ("GB_SDIO_CAP_1_2V_DDR", 0x00000040);
  ("GB_SDIO_CAP_1_8V_DDR", 0x00000080);
  ("GB_SDIO_CAP_POWER_OFF_CARD", 0x00000100);
  ("GB_SDIO_CAP_UHS_SDR12", 0x00000200);
  ("GB_SDIO_CAP_UHS_SDR25", 0x00000400);
  ("GB_SDIO_CAP_UHS_SDR50", 0x00000800);
  ("GB_SDIO_CAP_UHS_SDR104", 0x00001000);
  ("GB_SDIO_CAP_UHS_DDR50", 0x00002000);
  ("GB_SDIO_CAP_DRIVER_TYPE_A", 0x00004000);
  ("GB_SDIO_CAP_DRIVER_TYPE_C", 0x00008000);
  ("GB_SDIO_CAP_DRIVER_TYPE_D", 0x00010000);
  ("GB_SDIO_CAP_HS200_1_2V", 0x00020000);
  ("GB_SDIO_CAP_HS200_1_8V", 0x00040000);
  ("GB_SDIO_CAP_HS400_1_2V", 0x00080000);
  ("GB_SDIO_CAP_HS400_1_8V", 0x00100000)].

Definition struct_gb_sdio_get_caps_response : ctype := Struct true [
  ("caps", __le32);
  ("ocr", __le32);
  ("f_min", __le32);
  ("f_max", __le32);
  ("max_blk_count", __le16);
  ("max_blk_size", __le16)].

Definition GB_SDIO_VDD : constants := [
  ("GB_SDIO_VDD_165_195", 0x00000001);
  ("GB_SDIO_VDD_20_21", 0x00000002);
  ("GB_SDIO_VDD_21_22", 0x00000004);
  ("GB_SDIO_VDD_22_23", 0x00000008);
  ("GB_SDIO_VDD_23_24", 0x00000010);
  ("GB_SDIO_VDD_24_25", 0x00000020);
  ("GB_SDIO_VDD_25_26", 0x00000040);
  ("GB_SDIO_VDD_26_27", 0x00000080);
  ("GB_SDIO_VDD_27_28", 0x00000100);
  ("GB_SDIO_VDD_28_29", 0x00000200);
  ("GB_SDIO_VDD_29_30", 0x00000400);
  ("GB_SDIO_VDD_30_31", 0x00000800);
  ("GB_SDIO_VDD_31_32", 0x00001000);
  ("GB_SDIO_VDD_32_33", 0x00002000);
  ("GB_SDIO_VDD_33_34", 0x00004000);
  ("GB_SDIO_VDD_34_35", 0x00008000);
  ("GB_SDIO_VDD_35_36", 0x00010000)].

Definition GB_SDIO_BUSMODE : constants := [
  ("GB_SDIO_BUSMODE_OPENDRAIN", 0x00);
  ("GB_SDIO_BUSMODE_PUSHPULL", 0x01)].

Definition GB_SDIO_POWER : constants := [
  ("GB_SDIO_POWER_OFF", 0x00);
  ("GB_SDIO_POWER_UP", 0x01);
  ("GB_SDIO_POWER_ON", 0x02);
  ("GB_SDIO_POWER_UNDEFINED", 0x03)].

Definition GB_SDIO_BUS_WIDTH : constants := [
  ("GB_SDIO_BUS_WIDTH_1", 0x00);
  ("GB_SDIO_BUS_WIDTH_4", 0x02);
  ("GB_SDIO_BUS_WIDTH_8", 0x03)].

Definition GB_SDIO_TIMING : constants := [
  ("GB_SDIO_TIMING_LEGACY", 0x00);
  ("GB_SDIO_TIMING_MMC_HS", 0x01);
  ("GB_SDIO_TIMING_SD_HS", 0x02);
  ("GB_SDIO_TIMING_UHS_SDR12", 0x03);
  ("GB_SDIO_TIMING_UHS_SDR25", 0x04);
  ("GB_SDIO_TIMING_UHS_SDR50", 0x05);
  ("GB_SDIO_TIMING_UHS_SDR104", 0x06);
  ("GB_SDIO_TIMING_UHS_DDR50", 0x07);
  ("GB_SDIO_TIMING_MMC_DDR52", 0x08);
  ("GB_SDIO_TIMING_MMC_HS200", 0x09);
  ("GB_SDIO_TIMING_MMC_HS400", 0x0A)].

Definition GB_SDIO_SIGNAL_VOLTAGE : constants := [
  ("GB_SDIO_SIGNAL_VOLTAGE_330", 0x00);
  ("GB_SDIO_SIGNAL_VOLTAGE_180", 0x01);
  ("GB_SDIO_SIGNAL_VOLTAGE_120", 0x02)].

Definition GB_SDIO_SET_DRIVER_TYPE : constants := [
  ("GB_SDIO_SET_DRIVER_TYPE_B", 0x00);
  ("GB_SDIO_SET_DRIVER_TYPE_A", 0x01);
  ("GB_SDIO_SET_DRIVER_TYPE_C", 0x02);
  ("GB_SDIO_SET_DRIVER_TYPE_D", 0x03)].

Definition struct_gb_sdio_set_ios_request : ctype := Struct true [
  ("clock", __le32);
  ("vdd", __le32);
  ("bus_mode", __u8);
  ("power_mode", __u8);
  ("bus_width", __u8);
  ("timing", __u8);
  ("signal_voltage", __u8);
  ("drv_type", __u8)].

Definition GB_SDIO_RSP : constants := [
  ("GB_SDIO_RSP_NONE", 0x00);
  ("GB_SDIO_RSP_PRESENT", 0x01);
  ("GB_SDIO_RSP_136", 0x02);
  ("GB_SDIO_RSP_CRC", 0x04);
  ("GB_SDIO_RSP_BUSY", 0x08);
  ("GB_SDIO_RSP_OPCODE", 0x10)].

Definition GB_SDIO_CMD : constants := [
  ("GB_SDIO_CMD_AC", 0x00);
  ("GB_SDIO_CMD_ADTC", 0x01);
  ("GB_SDIO_CMD_BC", 0x02);
  ("GB_SDIO_CMD_BCR", 0x03)].

Definition struct_gb_sdio_command_request : ctype := Struct true [
  ("cmd", __u8);
  ("cmd_flags", __u8);
  ("cmd_type", __u8);
  ("cmd_arg", __le32);
  ("data_blocks", __le16);
  ("data_blksz", __le16)].

Definition struct_gb_sdio_command_response : ctype := Struct true [("resp", Array __le32 4)].

Definition GB_SDIO_DATA : constants := [
  ("GB_SDIO_DATA_WRITE", 0x01);
  ("GB_SDIO_DATA_READ", 0x02);
  ("GB_SDIO_DATA_STREAM", 0x04)].

Definition struct_gb_sdio_transfer_request : ctype := Struct true [
  ("data_flags", __u8);
  ("data_blocks", __le16);
  ("data_blksz", __le16);
  ("data", Flexible __u8)].

Definition struct_gb_sdio_transfer_response : ctype := Struct true [
  ("data_blocks", __le16);
  ("data_blksz", __le16);
  ("data", Flexible __u8)].

Definition GB_SDIO_EVENTS : constants := [
  ("GB_SDIO_CARD_INSERTED", 0x01);
  ("GB_SDIO_CARD_REMOVED", 0x02);
  ("GB_SDIO_WP", 0x04)].

Definition struct_gb_sdio_event_request : ctype := Struct true [("event", __u8)].

Definition serial_structs : list (String.string * ctype) := [
  ("gb_raw_send_request", struct_gb_raw_send_request);
  ("gb_uart_send_data_request", struct_gb_uart_send_data_request);
  ("gb_uart_recv_data_request", struct_gb_uart_recv_data_request);
  ("gb_uart_receive_credits_request", struct_gb_uart_receive_credits_request);
  ("gb_uart_set_line_coding_request", struct_gb_uart_set_line_coding_request);
  ("gb_uart_set_control_line_state_request", struct_gb_uart_set_control_line_state_request);
  ("gb_uart_set_break_request", struct_gb_uart_set_break_request);
  ("gb_uart_serial_state_request", struct_gb_uart_serial_state_request);
  ("gb_uart_serial_flush_request", struct_gb_uart_serial_flush_request);
  ("gb_loopback_transfer_request", struct_gb_loopback_transfer_request);
  ("gb_loopback_transfer_response", struct_gb_loopback_transfer_response);
  ("gb_sdio_get_caps_response", struct_gb_sdio_get_caps_response);
  ("gb_sdio_set_ios_request", struct_gb_sdio_set_ios_request);
  ("gb_sdio_command_request", struct_gb_sdio_command_request);
  ("gb_sdio_command_response", struct_gb_sdio_command_response);
  ("gb_sdio_transfer_request", struct_gb_sdio_transfer_request);
  ("gb_sdio_transfer_response", struct_gb_sdio_transfer_response);
  ("gb_sdio_event_request", struct_gb_sdio_event_request)].
