(* ===== verification/WireMedia.v ===== *)
(** * Greybus wire protocol: camera, lights, audio and log

    Lines 1543 to 2166 of include/greybus_protocols.h: each structure as a
    [ctype], each group of macros as a table of names and values. *)

From S2P Require Import Prelude CTypes.

#[local] Open Scope string_scope.

Definition GB_CAMERA_TYPE : constants := [
  ("GB_CAMERA_TYPE_CAPABILITIES", 0x02);
  ("GB_CAMERA_TYPE_CONFIGURE_STREAMS", 0x03);
  ("GB_CAMERA_TYPE_CAPTURE", 0x04);
  ("GB_CAMERA_TYPE_FLUSH", 0x05);
  ("GB_CAMERA_TYPE_METADATA", 0x06)].

Definition GB_CAMERA_LIMITS : constants := [
  ("GB_CAMERA_MAX_STREAMS", 4);
  ("GB_CAMERA_MAX_SETTINGS_SIZE", 8192)].

Definition struct_gb_camera_stream_config_request : ctype := Struct true [
  ("width", __le16);
  ("height", __le16);
  ("format", __le16);
  ("padding", __le16)].

Definition GB_CAMERA_CONFIGURE_STREAMS_REQUEST_FLAGS : constants := [
  ("GB_CAMERA_CONFIGURE_STREAMS_TEST_ONLY", 0x01)].

Definition struct_gb_camera_configure_streams_request : ctype := Struct true [
  ("num_streams", __u8);
  ("flags", __u8);
  ("padding", __le16);
  ("config", Flexible struct_gb_camera_stream_config_request)].

Definition struct_gb_camera_stream_config_response : ctype := Struct true [
  ("width", __le16);
  ("height", __le16);
  ("format", __le16);
  ("virtual_channel", __u8);
  ("data_type", Array __u8 2);
  ("max_pkt_size", __le16);
  ("padding", __u8);
  ("max_size", __le32)].

Definition GB_CAMERA_CONFIGURE_STREAMS_RESPONSE_FLAGS : constants := [
  ("GB_CAMERA_CONFIGURE_STREAMS_ADJUSTED", 0x01)].

Definition struct_gb_camera_configure_streams_response : ctype := Struct false [
  ("num_streams", __u8);
  ("flags", __u8);
  ("padding", Array __u8 2);
  ("data_rate", __le32);
  ("config", Flexible struct_gb_camera_stream_config_response)].

Definition struct_gb_camera_capture_request : ctype := Struct true [
  ("request_id", __le32);
  ("streams", __u8);
  ("padding", __u8);
  ("num_frames", __le16);
  ("settings", Flexible __u8)].

Definition struct_gb_camera_flush_response : ctype := Struct true [("request_id", __le32)].

Definition struct_gb_camera_metadata_request : ctype := Struct true [
  ("request_id", __le32);
  ("frame_number", __le16);
  ("stream", __u8);
  ("padding", __u8);
  ("metadata", Flexible __u8)].

Definition GB_LIGHTS_TYPE : constants := [
  ("GB_LIGHTS_TYPE_GET_LIGHTS", 0x02);
  ("GB_LIGHTS_TYPE_GET_LIGHT_CONFIG", 0x03);
  ("GB_LIGHTS_TYPE_GET_CHANNEL_CONFIG", 0x04);
  ("GB_LIGHTS_TYPE_GET_CHANNEL_FLASH_CONFIG", 0x05);
  ("GB_LIGHTS_TYPE_SET_BRIGHTNESS", 0x06);
  ("GB_LIGHTS_TYPE_SET_BLINK", 0x07);
  ("GB_LIGHTS_TYPE_SET_COLOR", 0x08);
  ("GB_LIGHTS_TYPE_SET_FADE", 0x09);
  ("GB_LIGHTS_TYPE_EVENT", 0x0A);
  ("GB_LIGHTS_TYPE_SET_FLASH_INTENSITY", 0x0B);
  ("GB_LIGHTS_TYPE_SET_FLASH_STROBE", 0x0C);
  ("GB_LIGHTS_TYPE_SET_FLASH_TIMEOUT", 0x0D);
  ("GB_LIGHTS_TYPE_GET_FLASH_FAULT", 0x0E)].

Definition GB_CHANNEL_MODE : constants := [
  ("GB_CHANNEL_MODE_NONE", 0x00000000);
  ("GB_CHANNEL_MODE_BATTERY", 0x00000001);
  ("GB_CHANNEL_MODE_POWER", 0x00000002);
  ("GB_CHANNEL_MODE_WIRELESS", 0x00000004);
  ("GB_CHANNEL_MODE_BLUETOOTH", 0x00000008);
  ("GB_CHANNEL_MODE_KEYBOARD", 0x00000010);
  ("GB_CHANNEL_MODE_BUTTONS", 0x00000020);
  ("GB_CHANNEL_MODE_NOTIFICATION", 0x00000040);
  ("GB_CHANNEL_MODE_ATTENTION", 0x00000080);
  ("GB_CHANNEL_MODE_FLASH", 0x00000100);
  ("GB_CHANNEL_MODE_TORCH", 0x00000200);
  ("GB_CHANNEL_MODE_INDICATOR", 0x00000400)].

Definition GB_CHANNEL_MODE_RANGES : constants := [
  ("GB_CHANNEL_MODE_DEFINED_RANGE", 0x000004FF);
  ("GB_CHANNEL_MODE_VENDOR_RANGE", 0x00F00000)].

Definition GB_LIGHT_CHANNEL : constants := [
  ("GB_LIGHT_CHANNEL_MULTICOLOR", 0x00000001);
  ("GB_LIGHT_CHANNEL_FADER", 0x00000002);
  ("GB_LIGHT_CHANNEL_BLINK", 0x00000004)].

Definition struct_gb_lights_get_lights_response : ctype := Struct true [("lights_count", __u8)].

Definition struct_gb_lights_get_light_config_request : ctype := Struct true [("id", __u8)].

Definition struct_gb_lights_get_light_config_response : ctype := Struct true [
  ("channel_count", __u8);
  ("name", Array __u8 32)].

Definition struct_gb_lights_get_channel_config_request : ctype := Struct true [
  ("light_id", __u8);
  ("channel_id", __u8)].

Definition struct_gb_lights_get_channel_flash_config_request : ctype := Struct true [
  ("light_id", __u8);
  ("channel_id", __u8)].

Definition struct_gb_lights_get_channel_config_response : ctype := Struct true [
  ("max_brightness", __u8);
  ("flags", __le32);
  ("color", __le32);
  ("color_name", Array __u8 32);
  ("mode", __le32);
  ("mode_name", Array __u8 32)].

Definition struct_gb_lights_get_channel_flash_config_response : ctype := Struct true [
  ("intensity_min_uA", __le32);
  ("intensity_max_uA", __le32);
  ("intensity_step_uA", __le32);
  ("timeout_min_us", __le32);
  ("timeout_max_us", __le32);
  ("timeout_step_us", __le32)].

Definition struct_gb_lights_blink_request : ctype := Struct true [
  ("light_id", __u8);
  ("channel_id", __u8);
  ("time_on_ms", __le16);
  ("time_off_ms", __le16)].

Definition struct_gb_lights_set_brightness_request : ctype := Struct true [
  ("light_id", __u8);
  ("channel_id", __u8);
  ("brightness", __u8)].

Definition struct_gb_lights_set_color_request : ctype := Struct true [
  ("light_id", __u8);
  ("channel_id", __u8);
  ("color", __le32)].

Definition struct_gb_lights_set_fade_request : ctype := Struct true [
  ("light_id", __u8);
  ("channel_id", __u8);
  ("fade_in", __u8);
  ("fade_out", __u8)].

Definition GB_LIGHTS_EVENTS : constants := [
  ("GB_LIGHTS_LIGHT_CONFIG", 0x01)].

Definition struct_gb_lights_event_request : ctype := Struct true [
  ("light_id", __u8);
  ("event", __u8)].

Definition struct_gb_lights_set_flash_intensity_request : ctype := Struct true [
  ("light_id", __u8);
  ("channel_id", __u8);
  ("intensity_uA", __le32)].

Definition struct_gb_lights_set_flash_strobe_request : ctype := Struct true [
  ("light_id", __u8);
  ("channel_id", __u8);
  ("state", __u8)].

Definition struct_gb_lights_set_flash_timeout_request : ctype := Struct true [
  ("light_id", __u8);
  ("channel_id", __u8);
  ("timeout_us", __le32)].

Definition struct_gb_lights_get_flash_fault_request : ctype := Struct true [
  ("light_id", __u8);
  ("channel_id", __u8)].

Definition GB_LIGHTS_FLASH_FAULT : constants := [
  ("GB_LIGHTS_FLASH_FAULT_OVER_VOLTAGE", 0x00000000);
  ("GB_LIGHTS_FLASH_FAULT_TIMEOUT", 0x00000001);
  ("GB_LIGHTS_FLASH_FAULT_OVER_TEMPERATURE", 0x00000002);
  ("GB_LIGHTS_FLASH_FAULT_SHORT_CIRCUIT", 0x00000004);
  ("GB_LIGHTS_FLASH_FAULT_OVER_CURRENT", 0x00000008);
  ("GB_LIGHTS_FLASH_FAULT_INDICATOR", 0x00000010);
  ("GB_LIGHTS_FLASH_FAULT_UNDER_VOLTAGE", 0x00000020);
  ("GB_LIGHTS_FLASH_FAULT_INPUT_VOLTAGE", 0x00000040);
  ("GB_LIGHTS_FLASH_FAULT_LED_OVER_TEMPERATURE", 0x00000080)].

Definition struct_gb_lights_get_flash_fault_response : ctype := Struct true [("fault", __le32)].

Definition GB_AUDIO_TYPE : constants := [
  ("GB_AUDIO_TYPE_GET_TOPOLOGY_SIZE", 0x02);
  ("GB_AUDIO_TYPE_GET_TOPOLOGY", 0x03);
  ("GB_AUDIO_TYPE_GET_CONTROL", 0x04);
  ("GB_AUDIO_TYPE_SET_CONTROL", 0x05);
  ("GB_AUDIO_TYPE_ENABLE_WIDGET", 0x06);
  ("GB_AUDIO_TYPE_DISABLE_WIDGET", 0x07);
  ("GB_AUDIO_TYPE_GET_PCM", 0x08);
  ("GB_AUDIO_TYPE_SET_PCM", 0x09);
  ("GB_AUDIO_TYPE_SET_TX_DATA_SIZE", 0x0a);
  ("GB_AUDIO_TYPE_ACTIVATE_TX", 0x0c);
  ("GB_AUDIO_TYPE_DEACTIVATE_TX", 0x0d);
  ("GB_AUDIO_TYPE_SET_RX_DATA_SIZE", 0x0e);
  ("GB_AUDIO_TYPE_ACTIVATE_RX", 0x10);
  ("GB_AUDIO_TYPE_DEACTIVATE_RX", 0x11);
  ("GB_AUDIO_TYPE_JACK_EVENT", 0x12);
  ("GB_AUDIO_TYPE_BUTTON_EVENT", 0x13);
  ("GB_AUDIO_TYPE_STREAMING_EVENT", 0x14);
  ("GB_AUDIO_TYPE_SEND_DATA", 0x15)].

Definition GB_AUDIO_LIMITS : constants := [
  ("GB_AUDIO_SAMPLE_BUFFER_MIN_US", 10000)].

Definition GB_AUDIO_PCM_NAME_MAX : nat := 32.

Definition AUDIO_DAI_NAME_MAX : nat := 32.

Definition AUDIO_CONTROL_NAME_MAX : nat := 32.

Definition AUDIO_CTL_ELEM_NAME_MAX : nat := 44.

Definition AUDIO_ENUM_NAME_MAX : nat := 64.

Definition AUDIO_WIDGET_NAME_MAX : nat := 32.

Definition GB_AUDIO_PCM_FMT `{Bit} : constants := [
  ("GB_AUDIO_PCM_FMT_S8", BIT 0);
  ("GB_AUDIO_PCM_FMT_U8", BIT 1);
  ("GB_AUDIO_PCM_FMT_S16_LE", BIT 2);
  ("GB_AUDIO_PCM_FMT_S16_BE", BIT 3);
  ("GB_AUDIO_PCM_FMT_U16_LE", BIT 4);
  ("GB_AUDIO_PCM_FMT_U16_BE", BIT 5);
  ("GB_AUDIO_PCM_FMT_S24_LE", BIT 6);
  ("GB_AUDIO_PCM_FMT_S24_BE", BIT 7);
  ("GB_AUDIO_PCM_FMT_U24_LE", BIT 8);
  ("GB_AUDIO_PCM_FMT_U24_BE", BIT 9);
  ("GB_AUDIO_PCM_FMT_S32_LE", BIT 10);
  ("GB_AUDIO_PCM_FMT_S32_BE", BIT 11);
  ("GB_AUDIO_PCM_FMT_U32_LE", BIT 12);
  ("GB_AUDIO_PCM_FMT_U32_BE", BIT 13)].

Definition GB_AUDIO_PCM_RATE `{Bit} : constants := [
  ("GB_AUDIO_PCM_RATE_5512", BIT 0);
  ("GB_AUDIO_PCM_RATE_8000", BIT 1);
  ("GB_AUDIO_PCM_RATE_11025", BIT 2);
  ("GB_AUDIO_PCM_RATE_16000", BIT 3);
  ("GB_AUDIO_PCM_RATE_22050", BIT 4);
  ("GB_AUDIO_PCM_RATE_32000", BIT 5);
  ("GB_AUDIO_PCM_RATE_44100", BIT 6);
  ("GB_AUDIO_PCM_RATE_48000", BIT 7);
  ("GB_AUDIO_PCM_RATE_64000", BIT 8);
  ("GB_AUDIO_PCM_RATE_88200", BIT 9);
  ("GB_AUDIO_PCM_RATE_96000", BIT 10);
  ("GB_AUDIO_PCM_RATE_176400", BIT 11);
  ("GB_AUDIO_PCM_RATE_192000", BIT 12)].

Definition GB_AUDIO_STREAM_TYPE : constants := [
  ("GB_AUDIO_STREAM_TYPE_CAPTURE", 0x1);
  ("GB_AUDIO_STREAM_TYPE_PLAYBACK", 0x2)].

Definition GB_AUDIO_CTL_ELEM_ACCESS `{Bit} : constants := [
  ("GB_AUDIO_CTL_ELEM_ACCESS_READ", BIT 0);
  ("GB_AUDIO_CTL_ELEM_ACCESS_WRITE", BIT 1)].

Definition GB_AUDIO_CTL_ELEM_TYPE : constants := [
  ("GB_AUDIO_CTL_ELEM_TYPE_BOOLEAN", 0x01);
  ("GB_AUDIO_CTL_ELEM_TYPE_INTEGER", 0x02);
  ("GB_AUDIO_CTL_ELEM_TYPE_ENUMERATED", 0x03);
  ("GB_AUDIO_CTL_ELEM_TYPE_INTEGER64", 0x06)].

Definition GB_AUDIO_CTL_ELEM_IFACE : constants := [
  ("GB_AUDIO_CTL_ELEM_IFACE_CARD", 0x00);
  ("GB_AUDIO_CTL_ELEM_IFACE_HWDEP", 0x01);
  ("GB_AUDIO_CTL_ELEM_IFACE_MIXER", 0x02);
  ("GB_AUDIO_CTL_ELEM_IFACE_PCM", 0x03);
  ("GB_AUDIO_CTL_ELEM_IFACE_RAWMIDI", 0x04);
  ("GB_AUDIO_CTL_ELEM_IFACE_TIMER", 0x05);
  ("GB_AUDIO_CTL_ELEM_IFACE_SEQUENCER", 0x06)].

Definition GB_AUDIO_ACCESS `{Bit} : constants := [
  ("GB_AUDIO_ACCESS_READ", BIT 0);
  ("GB_AUDIO_ACCESS_WRITE", BIT 1);
  ("GB_AUDIO_ACCESS_VOLATILE", BIT 2);
  ("GB_AUDIO_ACCESS_TIMESTAMP", BIT 3);
  ("GB_AUDIO_ACCESS_TLV_READ", BIT 4);
  ("GB_AUDIO_ACCESS_TLV_WRITE", BIT 5);
  ("GB_AUDIO_ACCESS_TLV_COMMAND", BIT 6);
  ("GB_AUDIO_ACCESS_INACTIVE", BIT 7);
  ("GB_AUDIO_ACCESS_LOCK", BIT 8);
  ("GB_AUDIO_ACCESS_OWNER", BIT 9)].

Definition GB_AUDIO_WIDGET_TYPE : constants := [
  ("GB_AUDIO_WIDGET_TYPE_INPUT", 0x0);
  ("GB_AUDIO_WIDGET_TYPE_OUTPUT", 0x1);
  ("GB_AUDIO_WIDGET_TYPE_MUX", 0x2);
  ("GB_AUDIO_WIDGET_TYPE_VIRT_MUX", 0x3);
  ("GB_AUDIO_WIDGET_TYPE_VALUE_MUX", 0x4);
  ("GB_AUDIO_WIDGET_TYPE_MIXER", 0x5);
  ("GB_AUDIO_WIDGET_TYPE_MIXER_NAMED_CTL", 0x6);
  ("GB_AUDIO_WIDGET_TYPE_PGA", 0x7);
  ("GB_AUDIO_WIDGET_TYPE_OUT_DRV", 0x8);
  ("GB_AUDIO_WIDGET_TYPE_ADC", 0x9);
  ("GB_AUDIO_WIDGET_TYPE_DAC", 0xa);
  ("GB_AUDIO_WIDGET_TYPE_MICBIAS", 0xb);
  ("GB_AUDIO_WIDGET_TYPE_MIC", 0xc);
  ("GB_AUDIO_WIDGET_TYPE_HP", 0xd);
  ("GB_AUDIO_WIDGET_TYPE_SPK", 0xe);
  ("GB_AUDIO_WIDGET_TYPE_LINE", 0xf);
  ("GB_AUDIO_WIDGET_TYPE_SWITCH", 0x10);
  ("GB_AUDIO_WIDGET_TYPE_VMID", 0x11);
  ("GB_AUDIO_WIDGET_TYPE_PRE", 0x12);
  ("GB_AUDIO_WIDGET_TYPE_POST", 0x13);
  ("GB_AUDIO_WIDGET_TYPE_SUPPLY", 0x14);
  ("GB_AUDIO_WIDGET_TYPE_REGULATOR_SUPPLY", 0x15);
  ("GB_AUDIO_WIDGET_TYPE_CLOCK_SUPPLY", 0x16);
  ("GB_AUDIO_WIDGET_TYPE_AIF_IN", 0x17);
  ("GB_AUDIO_WIDGET_TYPE_AIF_OUT", 0x18);
  ("GB_AUDIO_WIDGET_TYPE_SIGGEN", 0x19);
  ("GB_AUDIO_WIDGET_TYPE_DAI_IN", 0x1a);
  ("GB_AUDIO_WIDGET_TYPE_DAI_OUT", 0x1b);
  ("GB_AUDIO_WIDGET_TYPE_DAI_LINK", 0x1c)].

Definition GB_AUDIO_WIDGET_STATE : constants := [
  ("GB_AUDIO_WIDGET_STATE_DISABLED", 0x01);
  ("GB_AUDIO_WIDGET_STATE_ENAABLED", 0x02)].

Definition GB_AUDIO_JACK_EVENT : constants := [
  ("GB_AUDIO_JACK_EVENT_INSERTION", 0x1);
  ("GB_AUDIO_JACK_EVENT_REMOVAL", 0x2)].

Definition GB_AUDIO_BUTTON_EVENT : constants := [
  ("GB_AUDIO_BUTTON_EVENT_PRESS", 0x1);
  ("GB_AUDIO_BUTTON_EVENT_RELEASE", 0x2)].

Definition GB_AUDIO_STREAMING_EVENT : constants := [
  ("GB_AUDIO_STREAMING_EVENT_UNSPECIFIED", 0x1);
  ("GB_AUDIO_STREAMING_EVENT_HALT", 0x2);
  ("GB_AUDIO_STREAMING_EVENT_INTERNAL_ERROR", 0x3);
  ("GB_AUDIO_STREAMING_EVENT_PROTOCOL_ERROR", 0x4);
  ("GB_AUDIO_STREAMING_EVENT_FAILURE", 0x5);
  ("GB_AUDIO_STREAMING_EVENT_UNDERRUN", 0x6);
  ("GB_AUDIO_STREAMING_EVENT_OVERRUN", 0x7);
  ("GB_AUDIO_STREAMING_EVENT_CLOCKING", 0x8);
  ("GB_AUDIO_STREAMING_EVENT_DATA_LEN", 0x9)].

Definition GB_AUDIO_INDEX : constants := [
  ("GB_AUDIO_INVALID_INDEX", 0xff)].

Definition GB_AUDIO_JACK : constants := [
  ("GB_AUDIO_JACK_HEADPHONE", 0x0000001);
  ("GB_AUDIO_JACK_MICROPHONE", 0x0000002);
  ("GB_AUDIO_JACK_HEADSET", Z.lor 0x0000001 0x0000002);
  ("GB_AUDIO_JACK_LINEOUT", 0x0000004);
  ("GB_AUDIO_JACK_MECHANICAL", 0x0000008);
  ("GB_AUDIO_JACK_VIDEOOUT", 0x0000010);
  ("GB_AUDIO_JACK_AVOUT", Z.lor 0x0000004 0x0000010);
  ("GB_AUDIO_JACK_LINEIN", 0x0000020);
  ("GB_AUDIO_JACK_OC_HPHL", 0x0000040);
  ("GB_AUDIO_JACK_OC_HPHR", 0x0000080);
  ("GB_AUDIO_JACK_MICROPHONE2", 0x0000200);
  ("GB_AUDIO_JACK_ANC_HEADPHONE", Z.lor (Z.lor 0x0000001 0x0000002) 0x0000200);
  ("GB_AUDIO_JACK_BTN_0", 0x4000000);
  ("GB_AUDIO_JACK_BTN_1", 0x2000000);
  ("GB_AUDIO_JACK_BTN_2", 0x1000000);
  ("GB_AUDIO_JACK_BTN_3", 0x0800000)].

Definition struct_gb_audio_pcm : ctype := Struct true [
  ("stream_name", Array __u8 GB_AUDIO_PCM_NAME_MAX);
  ("formats", __le32);
  ("rates", __le32);
  ("chan_min", __u8);
  ("chan_max", __u8);
  ("sig_bits", __u8)].

Definition struct_gb_audio_dai : ctype := Struct true [
  ("name", Array __u8 AUDIO_DAI_NAME_MAX);
  ("data_cport", __le16);
  ("capture", struct_gb_audio_pcm);
  ("playback", struct_gb_audio_pcm)].

Definition struct_gb_audio_integer : ctype := Struct true [
  ("min", __le32);
  ("max", __le32);
  ("step", __le32)].

Definition struct_gb_audio_integer64 : ctype := Struct true [
  ("min", __le64);
  ("max", __le64);
  ("step", __le64)].

Definition struct_gb_audio_enumerated : ctype := Struct true [
  ("items", __le32);
  ("names_length", __le16);
  ("names", Flexible __u8)].

Definition struct_gb_audio_ctl_elem_info : ctype := Struct true [
  ("type", __u8);
  ("dimen", Array __le16 4);
  ("value", Union [
    ("integer", struct_gb_audio_integer);
    ("integer64", struct_gb_audio_integer64);
    ("enumerated", struct_gb_audio_enumerated)])].

Definition struct_gb_audio_ctl_elem_value : ctype := Struct true [
  ("timestamp", __le64);
  ("value", Union [
    ("integer_value", Array __le32 2);
    ("integer64_value", Array __le64 2);
    ("enumerated_item", Array __le32 2)])].

Definition struct_gb_audio_control : ctype := Struct true [
  ("name", Array __u8 AUDIO_CONTROL_NAME_MAX);
  ("id", __u8);
  ("iface", __u8);
  ("data_cport", __le16);
  ("access", __le32);
  ("count", __u8);
  ("count_values", __u8);
  ("info", struct_gb_audio_ctl_elem_info)].

Definition struct_gb_audio_widget : ctype := Struct true [
  ("name", Array __u8 AUDIO_WIDGET_NAME_MAX);
  ("sname", Array __u8 AUDIO_WIDGET_NAME_MAX);
  ("id", __u8);
  ("type", __u8);
  ("state", __u8);
  ("ncontrols", __u8);
  ("ctl", Flexible struct_gb_audio_control)].

Definition struct_gb_audio_route : ctype := Struct true [
  ("source_id", __u8);
  ("destination_id", __u8);
  ("control_id", __u8);
  ("index", __u8)].

Definition struct_gb_audio_topology : ctype := Struct true [
  ("num_dais", __u8);
  ("num_controls", __u8);
  ("num_widgets", __u8);
  ("num_routes", __u8);
  ("size_dais", __le32);
  ("size_controls", __le32);
  ("size_widgets", __le32);
  ("size_routes", __le32);
  ("jack_type", __le32);
  ("data", Flexible __u8)].

Definition struct_gb_audio_get_topology_size_response : ctype := Struct true [("size", __le16)].

Definition struct_gb_audio_get_topology_response : ctype := Struct true [
  ("topology", struct_gb_audio_topology)].

Definition struct_gb_audio_get_control_request : ctype := Struct true [
  ("control_id", __u8);
  ("index", __u8)].

Definition struct_gb_audio_get_control_response : ctype := Struct true [
  ("value", struct_gb_audio_ctl_elem_value)].

Definition struct_gb_audio_set_control_request : ctype := Struct true [
  ("control_id", __u8);
  ("index", __u8);
  ("value", struct_gb_audio_ctl_elem_value)].

Definition struct_gb_audio_enable_widget_request : ctype := Struct true [("widget_id", __u8)].

Definition struct_gb_audio_disable_widget_request : ctype := Struct true [("widget_id", __u8)].

Definition struct_gb_audio_get_pcm_request : ctype := Struct true [("data_cport", __le16)].

Definition struct_gb_audio_get_pcm_response : ctype := Struct true [
  ("format", __le32);
  ("rate", __le32);
  ("channels", __u8);
  ("sig_bits", __u8)].

Definition struct_gb_audio_set_pcm_request : ctype := Struct true [
  ("data_cport", __le16);
  ("format", __le32);
  ("rate", __le32);
  ("channels", __u8);
  ("sig_bits", __u8)].

Definition struct_gb_audio_set_tx_data_size_request : ctype := Struct true [
  ("data_cport", __le16);
  ("size", __le16)].

Definition struct_gb_audio_activate_tx_request : ctype := Struct true [("data_cport", __le16)].

Definition struct_gb_audio_deactivate_tx_request : ctype := Struct true [("data_cport", __le16)].

Definition struct_gb_audio_set_rx_data_size_request : ctype := Struct true [
  ("data_cport", __le16);
  ("size", __le16)].

Definition struct_gb_audio_activate_rx_request : ctype := Struct true [("data_cport", __le16)].

Definition struct_gb_audio_deactivate_rx_request : ctype := Struct true [("data_cport", __le16)].

Definition struct_gb_audio_jack_event_request : ctype := Struct true [
  ("widget_id", __u8);
  ("jack_attribute", __u8);
  ("event", __u8)].

Definition struct_gb_audio_button_event_request : ctype := Struct true [
  ("widget_id", __u8);
  ("button_id", __u8);
  ("event", __u8)].

Definition struct_gb_audio_streaming_event_request : ctype := Struct true [
  ("data_cport", __le16);
  ("event", __u8)].

Definition struct_gb_audio_send_data_request : ctype := Struct true [
  ("timestamp", __le64);
  ("data", Flexible __u8)].

Definition GB_LOG_TYPE : constants := [
  ("GB_LOG_TYPE_SEND_LOG", 0x02)].

Definition GB_LOG_LIMITS : constants := [
  ("GB_LOG_MAX_LEN", 1024)].

Definition struct_gb_log_send_log_request : ctype := Struct true [
  ("len", __le16);
  ("msg", Flexible __u8)].

Definition media_structs : list (String.string * ctype) := [
  ("gb_camera_stream_config_request", struct_gb_camera_stream_config_request);
  ("gb_camera_configure_streams_request", struct_gb_camera_configure_streams_request);
  ("gb_camera_stream_config_response", struct_gb_camera_stream_config_response);
  ("gb_camera_configure_streams_response", struct_gb_camera_configure_streams_response);
  ("gb_camera_capture_request", struct_gb_camera_capture_request);
  ("gb_camera_flush_response", struct_gb_camera_flush_response);
  ("gb_camera_metadata_request", struct_gb_camera_metadata_request);
  ("gb_lights_get_lights_response", struct_gb_lights_get_lights_response);
  ("gb_lights_get_light_config_request", struct_gb_lights_get_light_config_request);
  ("gb_lights_get_light_config_response", struct_gb_lights_get_light_config_response);
  ("gb_lights_get_channel_config_request", struct_gb_lights_get_channel_config_request);
  ("gb_lights_get_channel_flash_config_request", struct_gb_lights_get_channel_flash_config_request);
  ("gb_lights_get_channel_config_response", struct_gb_lights_get_channel_config_response);
  ("gb_lights_get_channel_flash_config_response", struct_gb_lights_get_channel_flash_config_response);
  ("gb_lights_blink_request", struct_gb_lights_blink_request);
  ("gb_lights_set_brightness_request", struct_gb_lights_set_brightness_request);
  ("gb_lights_set_color_request", struct_gb_lights_set_color_request);
  ("gb_lights_set_fade_request", struct_gb_lights_set_fade_request);
  ("gb_lights_event_request", struct_gb_lights_event_request);
  ("gb_lights_set_flash_intensity_request", struct_gb_lights_set_flash_intensity_request);
  ("gb_lights_set_flash_strobe_request", struct_gb_lights_set_flash_strobe_request);
  ("gb_lights_set_flash_timeout_request", struct_gb_lights_set_flash_timeout_request);
  ("gb_lights_get_flash_fault_request", struct_gb_lights_get_flash_fault_request);
  ("gb_lights_get_flash_fault_response", struct_gb_lights_get_flash_fault_response);
  ("gb_audio_pcm", struct_gb_audio_pcm);
  ("gb_audio_dai", struct_gb_audio_dai);
  ("gb_audio_integer", struct_gb_audio_integer);
  ("gb_audio_integer64", struct_gb_audio_integer64);
  ("gb_audio_enumerated", struct_gb_audio_enumerated);
  ("gb_audio_ctl_elem_info", struct_gb_audio_ctl_elem_info);
  ("gb_audio_ctl_elem_value", struct_gb_audio_ctl_elem_value);
  ("gb_audio_control", struct_gb_audio_control);
  ("gb_audio_widget", struct_gb_audio_widget);
  ("gb_audio_route", struct_gb_audio_route);
  ("gb_audio_topology", struct_gb_audio_topology);
  ("gb_audio_get_topology_size_response", struct_gb_audio_get_topology_size_response);
  ("gb_audio_get_topology_response", struct_gb_audio_get_topology_response);
  ("gb_audio_get_control_request", struct_gb_audio_get_control_request);
  ("gb_audio_get_control_response", struct_gb_audio_get_control_response);
  ("gb_audio_set_control_request", struct_gb_audio_set_control_request);
  ("gb_audio_enable_widget_request", struct_gb_audio_enable_widget_request);
  ("gb_audio_disable_widget_request", struct_gb_audio_disable_widget_request);
  ("gb_audio_get_pcm_request", struct_gb_audio_get_pcm_request);
  ("gb_audio_get_pcm_response", struct_gb_audio_get_pcm_response);
  ("gb_audio_set_pcm_request", struct_gb_audio_set_pcm_request);
  ("gb_audio_set_tx_data_size_request", struct_gb_audio_set_tx_data_size_request);
  ("gb_audio_activate_tx_request", struct_gb_audio_activate_tx_request);
  ("gb_audio_deactivate_tx_request", struct_gb_audio_deactivate_tx_request);
  ("gb_audio_set_rx_data_size_request", struct_gb_audio_set_rx_data_size_request);
  ("gb_audio_activate_rx_request", struct_gb_audio_activate_rx_request);
  ("gb_audio_deactivate_rx_request", struct_gb_audio_deactivate_rx_request);
  ("gb_audio_jack_event_request", struct_gb_audio_jack_event_request);
  ("gb_audio_button_event_request", struct_gb_audio_button_event_request);
  ("gb_audio_streaming_event_request", struct_gb_audio_streaming_event_request);
  ("gb_audio_send_data_request", struct_gb_audio_send_data_request);
  ("gb_log_send_log_request", struct_gb_log_send_log_request)].
