(* ===== verification/WireTable.v ===== *)
(** * Where the members of the protocol's structures are

    A table of sizes and offsets in bytes: for each structure of
    include/greybus_protocols.h what [sizeof] and [offsetof] are for it under the
    C ABI (the target and a 64-bit host agree on them).  [WireFacts] compares the
    declarations with it. *)

From S2P Require Import Prelude.

#[local] Open Scope string_scope.

(** A member: its offset, how many elements it has (0 for an array of open
    length), and the size of one. *)
Record member_row := Row {
  row_name : String.string;
  row_offset : nat;
  row_count : nat;
  row_size : nat;
}.

Definition layout_table : list (String.string * nat * list member_row) := [
  ("gb_operation_msg_hdr", 8%nat, [Row "size" 0 1 2; Row "operation_id" 2 1 2; Row "type" 4 1 1;
    Row "result" 5 1 1; Row "pad" 6 2 1]);
  ("gb_cport_shutdown_request", 1%nat, [Row "phase" 0 1 1]);
  ("gb_control_version_request", 2%nat, [Row "major" 0 1 1; Row "minor" 1 1 1]);
  ("gb_control_version_response", 2%nat, [Row "major" 0 1 1; Row "minor" 1 1 1]);
  ("gb_control_bundle_version_request", 1%nat, [Row "bundle_id" 0 1 1]);
  ("gb_control_bundle_version_response", 2%nat, [Row "major" 0 1 1; Row "minor" 1 1 1]);
  ("gb_control_get_manifest_size_response", 2%nat, [Row "size" 0 1 2]);
  ("gb_control_get_manifest_response", 0%nat, [Row "data" 0 0 1]);
  ("gb_control_connected_request", 2%nat, [Row "cport_id" 0 1 2]);
  ("gb_control_disconnecting_request", 2%nat, [Row "cport_id" 0 1 2]);
  ("gb_control_disconnected_request", 2%nat, [Row "cport_id" 0 1 2]);
  ("gb_control_bundle_pm_request", 1%nat, [Row "bundle_id" 0 1 1]);
  ("gb_control_bundle_pm_response", 1%nat, [Row "status" 0 1 1]);
  ("gb_control_intf_pm_response", 1%nat, [Row "status" 0 1 1]);
  ("gb_apb_request_cport_flags", 4%nat, [Row "flags" 0 1 4]);
  ("gb_fw_download_find_firmware_request", 10%nat, [Row "firmware_tag" 0 10 1]);
  ("gb_fw_download_find_firmware_response", 5%nat, [Row "firmware_id" 0 1 1; Row "size" 1 1 4]);
  ("gb_fw_download_fetch_firmware_request", 9%nat, [Row "firmware_id" 0 1 1; Row "offset" 1 1 4;
    Row "size" 5 1 4]);
  ("gb_fw_download_release_firmware_request", 1%nat, [Row "firmware_id" 0 1 1]);
  ("gb_fw_mgmt_interface_fw_version_response", 14%nat, [Row "firmware_tag" 0 10 1;
    Row "major" 10 1 2; Row "minor" 12 1 2]);
  ("gb_fw_mgmt_load_and_validate_fw_request", 12%nat, [Row "request_id" 0 1 1;
    Row "load_method" 1 1 1; Row "firmware_tag" 2 10 1]);
  ("gb_fw_mgmt_loaded_fw_request", 6%nat, [Row "request_id" 0 1 1; Row "status" 1 1 1;
    Row "major" 2 1 2; Row "minor" 4 1 2]);
  ("gb_fw_mgmt_backend_fw_version_request", 10%nat, [Row "firmware_tag" 0 10 1]);
  ("gb_fw_mgmt_backend_fw_version_response", 5%nat, [Row "major" 0 1 2; Row "minor" 2 1 2;
    Row "status" 4 1 1]);
  ("gb_fw_mgmt_backend_fw_update_request", 11%nat, [Row "request_id" 0 1 1;
    Row "firmware_tag" 1 10 1]);
  ("gb_fw_mgmt_backend_fw_updated_request", 2%nat, [Row "request_id" 0 1 1; Row "status" 1 1 1]);
  ("gb_cap_get_endpoint_uid_response", 8%nat, [Row "uid" 0 8 1]);
  ("gb_cap_get_ims_certificate_request", 8%nat, [Row "certificate_class" 0 1 4;
    Row "certificate_id" 4 1 4]);
  ("gb_cap_get_ims_certificate_response", 1%nat, [Row "result_code" 0 1 1; Row "certificate" 1 0 1]);
  ("gb_cap_authenticate_request", 44%nat, [Row "auth_type" 0 1 4; Row "uid" 4 8 1;
    Row "challenge" 12 32 1]);
  ("gb_cap_authenticate_response", 65%nat, [Row "result_code" 0 1 1; Row "response" 1 64 1;
    Row "signature" 65 0 1]);
  ("gb_bootrom_version_request", 2%nat, [Row "major" 0 1 1; Row "minor" 1 1 1]);
  ("gb_bootrom_version_response", 2%nat, [Row "major" 0 1 1; Row "minor" 1 1 1]);
  ("gb_bootrom_firmware_size_request", 1%nat, [Row "stage" 0 1 1]);
  ("gb_bootrom_firmware_size_response", 4%nat, [Row "size" 0 1 4]);
  ("gb_bootrom_get_firmware_request", 8%nat, [Row "offset" 0 1 4; Row "size" 4 1 4]);
  ("gb_bootrom_ready_to_boot_request", 1%nat, [Row "status" 0 1 1]);
  ("gb_bootrom_get_vid_pid_response", 8%nat, [Row "vendor_id" 0 1 4; Row "product_id" 4 1 4]);
  ("gb_power_supply_get_supplies_response", 1%nat, [Row "supplies_count" 0 1 1]);
  ("gb_power_supply_get_description_request", 1%nat, [Row "psy_id" 0 1 1]);
  ("gb_power_supply_get_description_response", 99%nat, [Row "manufacturer" 0 32 1;
    Row "model" 32 32 1; Row "serial_number" 64 32 1; Row "type" 96 1 2;
    Row "properties_count" 98 1 1]);
  ("gb_power_supply_props_desc", 2%nat, [Row "property" 0 1 1; Row "is_writeable" 1 1 1]);
  ("gb_power_supply_get_property_descriptors_request", 1%nat, [Row "psy_id" 0 1 1]);
  ("gb_power_supply_get_property_descriptors_response", 1%nat, [Row "properties_count" 0 1 1;
    Row "props" 1 0 2]);
  ("gb_power_supply_get_property_request", 2%nat, [Row "psy_id" 0 1 1; Row "property" 1 1 1]);
  ("gb_power_supply_get_property_response", 4%nat, [Row "prop_val" 0 1 4]);
  ("gb_power_supply_set_property_request", 6%nat, [Row "psy_id" 0 1 1; Row "property" 1 1 1;
    Row "prop_val" 2 1 4]);
  ("gb_power_supply_event_request", 2%nat, [Row "psy_id" 0 1 1; Row "event" 1 1 1]);
  ("gb_hid_desc_response", 10%nat, [Row "bLength" 0 1 1; Row "wReportDescLength" 1 1 2;
    Row "bcdHID" 3 1 2; Row "wProductID" 5 1 2; Row "wVendorID" 7 1 2; Row "bCountryCode" 9 1 1]);
  ("gb_hid_get_report_request", 2%nat, [Row "report_type" 0 1 1; Row "report_id" 1 1 1]);
  ("gb_hid_set_report_request", 2%nat, [Row "report_type" 0 1 1; Row "report_id" 1 1 1;
    Row "report" 2 0 1]);
  ("gb_hid_input_report_request", 0%nat, [Row "report" 0 0 1]);
  ("gb_i2c_functionality_response", 4%nat, [Row "functionality" 0 1 4]);
  ("gb_i2c_transfer_op", 6%nat, [Row "addr" 0 1 2; Row "flags" 2 1 2; Row "size" 4 1 2]);
  ("gb_i2c_transfer_request", 2%nat, [Row "op_count" 0 1 2; Row "ops" 2 0 6]);
  ("gb_i2c_transfer_response", 0%nat, [Row "data" 0 0 1]);
  ("gb_gpio_line_count_response", 1%nat, [Row "count" 0 1 1]);
  ("gb_gpio_activate_request", 1%nat, [Row "which" 0 1 1]);
  ("gb_gpio_deactivate_request", 1%nat, [Row "which" 0 1 1]);
  ("gb_gpio_get_direction_request", 1%nat, [Row "which" 0 1 1]);
  ("gb_gpio_get_direction_response", 1%nat, [Row "direction" 0 1 1]);
  ("gb_gpio_direction_in_request", 1%nat, [Row "which" 0 1 1]);
  ("gb_gpio_direction_out_request", 2%nat, [Row "which" 0 1 1; Row "value" 1 1 1]);
  ("gb_gpio_get_value_request", 1%nat, [Row "which" 0 1 1]);
  ("gb_gpio_get_value_response", 1%nat, [Row "value" 0 1 1]);
  ("gb_gpio_set_value_request", 2%nat, [Row "which" 0 1 1; Row "value" 1 1 1]);
  ("gb_gpio_set_debounce_request", 3%nat, [Row "which" 0 1 1; Row "usec" 1 1 2]);
  ("gb_gpio_irq_type_request", 2%nat, [Row "which" 0 1 1; Row "type" 1 1 1]);
  ("gb_gpio_irq_mask_request", 1%nat, [Row "which" 0 1 1]);
  ("gb_gpio_irq_unmask_request", 1%nat, [Row "which" 0 1 1]);
  ("gb_gpio_irq_event_request", 1%nat, [Row "which" 0 1 1]);
  ("gb_pwm_count_response", 1%nat, [Row "count" 0 1 1]);
  ("gb_pwm_activate_request", 1%nat, [Row "which" 0 1 1]);
  ("gb_pwm_deactivate_request", 1%nat, [Row "which" 0 1 1]);
  ("gb_pwm_config_request", 9%nat, [Row "which" 0 1 1; Row "duty" 1 1 4; Row "period" 5 1 4]);
  ("gb_pwm_polarity_request", 2%nat, [Row "which" 0 1 1; Row "polarity" 1 1 1]);
  ("gb_pwm_enable_request", 1%nat, [Row "which" 0 1 1]);
  ("gb_pwm_disable_request", 1%nat, [Row "which" 0 1 1]);
  ("gb_spi_master_config_response", 17%nat, [Row "bits_per_word_mask" 0 1 4;
    Row "min_speed_hz" 4 1 4; Row "max_speed_hz" 8 1 4; Row "mode" 12 1 2; Row "flags" 14 1 2;
    Row "num_chipselect" 16 1 1]);
  ("gb_spi_device_config_request", 1%nat, [Row "chip_select" 0 1 1]);
  ("gb_spi_device_config_response", 40%nat, [Row "mode" 0 1 2; Row "bits_per_word" 2 1 1;
    Row "max_speed_hz" 3 1 4; Row "device_type" 7 1 1; Row "name" 8 32 1]);
  ("gb_spi_transfer", 13%nat, [Row "speed_hz" 0 1 4; Row "len" 4 1 4; Row "delay_usecs" 8 1 2;
    Row "cs_change" 10 1 1; Row "bits_per_word" 11 1 1; Row "xfer_flags" 12 1 1]);
  ("gb_spi_transfer_request", 4%nat, [Row "chip_select" 0 1 1; Row "mode" 1 1 1; Row "count" 2 1 2;
    Row "transfers" 4 0 13]);
  ("gb_spi_transfer_response", 0%nat, [Row "data" 0 0 1]);
  ("gb_svc_version_request", 2%nat, [Row "major" 0 1 1; Row "minor" 1 1 1]);
  ("gb_svc_version_response", 2%nat, [Row "major" 0 1 1; Row "minor" 1 1 1]);
  ("gb_svc_hello_request", 3%nat, [Row "endo_id" 0 1 2; Row "interface_id" 2 1 1]);
  ("gb_svc_intf_device_id_request", 2%nat, [Row "intf_id" 0 1 1; Row "device_id" 1 1 1]);
  ("gb_svc_intf_reset_request", 1%nat, [Row "intf_id" 0 1 1]);
  ("gb_svc_intf_eject_request", 1%nat, [Row "intf_id" 0 1 1]);
  ("gb_svc_conn_create_request", 8%nat, [Row "intf1_id" 0 1 1; Row "cport1_id" 1 1 2;
    Row "intf2_id" 3 1 1; Row "cport2_id" 4 1 2; Row "tc" 6 1 1; Row "flags" 7 1 1]);
  ("gb_svc_conn_destroy_request", 6%nat, [Row "intf1_id" 0 1 1; Row "cport1_id" 1 1 2;
    Row "intf2_id" 3 1 1; Row "cport2_id" 4 1 2]);
  ("gb_svc_dme_peer_get_request", 5%nat, [Row "intf_id" 0 1 1; Row "attr" 1 1 2;
    Row "selector" 3 1 2]);
  ("gb_svc_dme_peer_get_response", 6%nat, [Row "result_code" 0 1 2; Row "attr_value" 2 1 4]);
  ("gb_svc_dme_peer_set_request", 9%nat, [Row "intf_id" 0 1 1; Row "attr" 1 1 2;
    Row "selector" 3 1 2; Row "value" 5 1 4]);
  ("gb_svc_dme_peer_set_response", 2%nat, [Row "result_code" 0 1 2]);
  ("gb_svc_route_create_request", 4%nat, [Row "intf1_id" 0 1 1; Row "dev1_id" 1 1 1;
    Row "intf2_id" 2 1 1; Row "dev2_id" 3 1 1]);
  ("gb_svc_route_destroy_request", 2%nat, [Row "intf1_id" 0 1 1; Row "intf2_id" 1 1 1]);
  ("gb_svc_intf_vsys_request", 1%nat, [Row "intf_id" 0 1 1]);
  ("gb_svc_intf_vsys_response", 1%nat, [Row "result_code" 0 1 1]);
  ("gb_svc_intf_refclk_request", 1%nat, [Row "intf_id" 0 1 1]);
  ("gb_svc_intf_refclk_response", 1%nat, [Row "result_code" 0 1 1]);
  ("gb_svc_intf_unipro_request", 1%nat, [Row "intf_id" 0 1 1]);
  ("gb_svc_intf_unipro_response", 1%nat, [Row "result_code" 0 1 1]);
  ("gb_svc_l2_timer_cfg", 24%nat, [Row "tsb_fc0_protection_timeout" 0 1 2;
    Row "tsb_tc0_replay_timeout" 2 1 2; Row "tsb_afc0_req_timeout" 4 1 2;
    Row "tsb_fc1_protection_timeout" 6 1 2; Row "tsb_tc1_replay_timeout" 8 1 2;
    Row "tsb_afc1_req_timeout" 10 1 2; Row "reserved_for_tc2" 12 3 2;
    Row "reserved_for_tc3" 18 3 2]);
  ("gb_svc_intf_set_pwrm_request", 63%nat, [Row "intf_id" 0 1 1; Row "hs_series" 1 1 1;
    Row "tx_mode" 2 1 1; Row "tx_gear" 3 1 1; Row "tx_nlanes" 4 1 1; Row "tx_amplitude" 5 1 1;
    Row "tx_hs_equalizer" 6 1 1; Row "rx_mode" 7 1 1; Row "rx_gear" 8 1 1; Row "rx_nlanes" 9 1 1;
    Row "flags" 10 1 1; Row "quirks" 11 1 4; Row "local_l2timerdata" 15 1 24;
    Row "remote_l2timerdata" 39 1 24]);
  ("gb_svc_intf_set_pwrm_response", 1%nat, [Row "result_code" 0 1 1]);
  ("gb_svc_key_event_request", 3%nat, [Row "key_code" 0 1 2; Row "key_event" 2 1 1]);
  ("gb_svc_pwrmon_rail_count_get_response", 1%nat, [Row "rail_count" 0 1 1]);
  ("gb_svc_pwrmon_rail_names_get_response", 1%nat, [Row "status" 0 1 1; Row "name" 1 0 32]);
  ("gb_svc_pwrmon_sample_get_request", 2%nat, [Row "rail_id" 0 1 1; Row "measurement_type" 1 1 1]);
  ("gb_svc_pwrmon_sample_get_response", 5%nat, [Row "result" 0 1 1; Row "measurement" 1 1 4]);
  ("gb_svc_pwrmon_intf_sample_get_request", 2%nat, [Row "intf_id" 0 1 1;
    Row "measurement_type" 1 1 1]);
  ("gb_svc_pwrmon_intf_sample_get_response", 5%nat, [Row "result" 0 1 1; Row "measurement" 1 1 4]);
  ("gb_svc_module_inserted_request", 4%nat, [Row "primary_intf_id" 0 1 1; Row "intf_count" 1 1 1;
    Row "flags" 2 1 2]);
  ("gb_svc_module_removed_request", 1%nat, [Row "primary_intf_id" 0 1 1]);
  ("gb_svc_intf_activate_request", 1%nat, [Row "intf_id" 0 1 1]);
  ("gb_svc_intf_activate_response", 2%nat, [Row "status" 0 1 1; Row "intf_type" 1 1 1]);
  ("gb_svc_intf_resume_request", 1%nat, [Row "intf_id" 0 1 1]);
  ("gb_svc_intf_resume_response", 1%nat, [Row "status" 0 1 1]);
  ("gb_svc_intf_mailbox_event_request", 7%nat, [Row "intf_id" 0 1 1; Row "result_code" 1 1 2;
    Row "mailbox" 3 1 4]);
  ("gb_svc_intf_oops_request", 2%nat, [Row "intf_id" 0 1 1; Row "reason" 1 1 1]);
  ("gb_raw_send_request", 4%nat, [Row "len" 0 1 4; Row "data" 4 0 1]);
  ("gb_uart_send_data_request", 2%nat, [Row "size" 0 1 2; Row "data" 2 0 1]);
  ("gb_uart_recv_data_request", 3%nat, [Row "size" 0 1 2; Row "flags" 2 1 1; Row "data" 3 0 1]);
  ("gb_uart_receive_credits_request", 2%nat, [Row "count" 0 1 2]);
  ("gb_uart_set_line_coding_request", 8%nat, [Row "rate" 0 1 4; Row "format" 4 1 1;
    Row "parity" 5 1 1; Row "data_bits" 6 1 1; Row "flow_control" 7 1 1]);
  ("gb_uart_set_control_line_state_request", 1%nat, [Row "control" 0 1 1]);
  ("gb_uart_set_break_request", 1%nat, [Row "state" 0 1 1]);
  ("gb_uart_serial_state_request", 1%nat, [Row "control" 0 1 1]);
  ("gb_uart_serial_flush_request", 1%nat, [Row "flags" 0 1 1]);
  ("gb_loopback_transfer_request", 12%nat, [Row "len" 0 1 4; Row "reserved0" 4 1 4;
    Row "reserved1" 8 1 4; Row "data" 12 0 1]);
  ("gb_loopback_transfer_response", 12%nat, [Row "len" 0 1 4; Row "reserved0" 4 1 4;
    Row "reserved1" 8 1 4; Row "data" 12 0 1]);
  ("gb_sdio_get_caps_response", 20%nat, [Row "caps" 0 1 4; Row "ocr" 4 1 4; Row "f_min" 8 1 4;
    Row "f_max" 12 1 4; Row "max_blk_count" 16 1 2; Row "max_blk_size" 18 1 2]);
  ("gb_sdio_set_ios_request", 14%nat, [Row "clock" 0 1 4; Row "vdd" 4 1 4; Row "bus_mode" 8 1 1;
    Row "power_mode" 9 1 1; Row "bus_width" 10 1 1; Row "timing" 11 1 1; Row "signal_voltage" 12 1 1;
    Row "drv_type" 13 1 1]);
  ("gb_sdio_command_request", 11%nat, [Row "cmd" 0 1 1; Row "cmd_flags" 1 1 1; Row "cmd_type" 2 1 1;
    Row "cmd_arg" 3 1 4; Row "data_blocks" 7 1 2; Row "data_blksz" 9 1 2]);
  ("gb_sdio_command_response", 16%nat, [Row "resp" 0 4 4]);
  ("gb_sdio_transfer_request", 5%nat, [Row "data_flags" 0 1 1; Row "data_blocks" 1 1 2;
    Row "data_blksz" 3 1 2; Row "data" 5 0 1]);
  ("gb_sdio_transfer_response", 4%nat, [Row "data_blocks" 0 1 2; Row "data_blksz" 2 1 2;
    Row "data" 4 0 1]);
  ("gb_sdio_event_request", 1%nat, [Row "event" 0 1 1]);
  ("gb_camera_stream_config_request", 8%nat, [Row "width" 0 1 2; Row "height" 2 1 2;
    Row "format" 4 1 2; Row "padding" 6 1 2]);
  ("gb_camera_configure_streams_request", 4%nat, [Row "num_streams" 0 1 1; Row "flags" 1 1 1;
    Row "padding" 2 1 2; Row "config" 4 0 8]);
  ("gb_camera_stream_config_response", 16%nat, [Row "width" 0 1 2; Row "height" 2 1 2;
    Row "format" 4 1 2; Row "virtual_channel" 6 1 1; Row "data_type" 7 2 1; Row "max_pkt_size" 9 1 2;
    Row "padding" 11 1 1; Row "max_size" 12 1 4]);
  ("gb_camera_configure_streams_response", 8%nat, [Row "num_streams" 0 1 1; Row "flags" 1 1 1;
    Row "padding" 2 2 1; Row "data_rate" 4 1 4; Row "config" 8 0 16]);
  ("gb_camera_capture_request", 8%nat, [Row "request_id" 0 1 4; Row "streams" 4 1 1;
    Row "padding" 5 1 1; Row "num_frames" 6 1 2; Row "settings" 8 0 1]);
  ("gb_camera_flush_response", 4%nat, [Row "request_id" 0 1 4]);
  ("gb_camera_metadata_request", 8%nat, [Row "request_id" 0 1 4; Row "frame_number" 4 1 2;
    Row "stream" 6 1 1; Row "padding" 7 1 1; Row "metadata" 8 0 1]);
  ("gb_lights_get_lights_response", 1%nat, [Row "lights_count" 0 1 1]);
  ("gb_lights_get_light_config_request", 1%nat, [Row "id" 0 1 1]);
  ("gb_lights_get_light_config_response", 33%nat, [Row "channel_count" 0 1 1; Row "name" 1 32 1]);
  ("gb_lights_get_channel_config_request", 2%nat, [Row "light_id" 0 1 1; Row "channel_id" 1 1 1]);
  ("gb_lights_get_channel_flash_config_request", 2%nat, [Row "light_id" 0 1 1;
    Row "channel_id" 1 1 1]);
  ("gb_lights_get_channel_config_response", 77%nat, [Row "max_brightness" 0 1 1; Row "flags" 1 1 4;
    Row "color" 5 1 4; Row "color_name" 9 32 1; Row "mode" 41 1 4; Row "mode_name" 45 32 1]);
  ("gb_lights_get_channel_flash_config_response", 24%nat, [Row "intensity_min_uA" 0 1 4;
    Row "intensity_max_uA" 4 1 4; Row "intensity_step_uA" 8 1 4; Row "timeout_min_us" 12 1 4;
    Row "timeout_max_us" 16 1 4; Row "timeout_step_us" 20 1 4]);
  ("gb_lights_blink_request", 6%nat, [Row "light_id" 0 1 1; Row "channel_id" 1 1 1;
    Row "time_on_ms" 2 1 2; Row "time_off_ms" 4 1 2]);
  ("gb_lights_set_brightness_request", 3%nat, [Row "light_id" 0 1 1; Row "channel_id" 1 1 1;
    Row "brightness" 2 1 1]);
  ("gb_lights_set_color_request", 6%nat, [Row "light_id" 0 1 1; Row "channel_id" 1 1 1;
    Row "color" 2 1 4]);
  ("gb_lights_set_fade_request", 4%nat, [Row "light_id" 0 1 1; Row "channel_id" 1 1 1;
    Row "fade_in" 2 1 1; Row "fade_out" 3 1 1]);
  ("gb_lights_event_request", 2%nat, [Row "light_id" 0 1 1; Row "event" 1 1 1]);
  ("gb_lights_set_flash_intensity_request", 6%nat, [Row "light_id" 0 1 1; Row "channel_id" 1 1 1;
    Row "intensity_uA" 2 1 4]);
  ("gb_lights_set_flash_strobe_request", 3%nat, [Row "light_id" 0 1 1; Row "channel_id" 1 1 1;
    Row "state" 2 1 1]);
  ("gb_lights_set_flash_timeout_request", 6%nat, [Row "light_id" 0 1 1; Row "channel_id" 1 1 1;
    Row "timeout_us" 2 1 4]);
  ("gb_lights_get_flash_fault_request", 2%nat, [Row "light_id" 0 1 1; Row "channel_id" 1 1 1]);
  ("gb_lights_get_flash_fault_response", 4%nat, [Row "fault" 0 1 4]);
  ("gb_audio_pcm", 43%nat, [Row "stream_name" 0 32 1; Row "formats" 32 1 4; Row "rates" 36 1 4;
    Row "chan_min" 40 1 1; Row "chan_max" 41 1 1; Row "sig_bits" 42 1 1]);
  ("gb_audio_dai", 120%nat, [Row "name" 0 32 1; Row "data_cport" 32 1 2; Row "capture" 34 1 43;
    Row "playback" 77 1 43]);
  ("gb_audio_integer", 12%nat, [Row "min" 0 1 4; Row "max" 4 1 4; Row "step" 8 1 4]);
  ("gb_audio_integer64", 24%nat, [Row "min" 0 1 8; Row "max" 8 1 8; Row "step" 16 1 8]);
  ("gb_audio_enumerated", 6%nat, [Row "items" 0 1 4; Row "names_length" 4 1 2; Row "names" 6 0 1]);
  ("gb_audio_ctl_elem_info", 33%nat, [Row "type" 0 1 1; Row "dimen" 1 4 2; Row "value" 9 1 24]);
  ("gb_audio_ctl_elem_value", 24%nat, [Row "timestamp" 0 1 8; Row "value" 8 1 16]);
  ("gb_audio_control", 75%nat, [Row "name" 0 32 1; Row "id" 32 1 1; Row "iface" 33 1 1;
    Row "data_cport" 34 1 2; Row "access" 36 1 4; Row "count" 40 1 1; Row "count_values" 41 1 1;
    Row "info" 42 1 33]);
  ("gb_audio_widget", 68%nat, [Row "name" 0 32 1; Row "sname" 32 32 1; Row "id" 64 1 1;
    Row "type" 65 1 1; Row "state" 66 1 1; Row "ncontrols" 67 1 1; Row "ctl" 68 0 75]);
  ("gb_audio_route", 4%nat, [Row "source_id" 0 1 1; Row "destination_id" 1 1 1;
    Row "control_id" 2 1 1; Row "index" 3 1 1]);
  ("gb_audio_topology", 24%nat, [Row "num_dais" 0 1 1; Row "num_controls" 1 1 1;
    Row "num_widgets" 2 1 1; Row "num_routes" 3 1 1; Row "size_dais" 4 1 4;
    Row "size_controls" 8 1 4; Row "size_widgets" 12 1 4; Row "size_routes" 16 1 4;
    Row "jack_type" 20 1 4; Row "data" 24 0 1]);
  ("gb_audio_get_topology_size_response", 2%nat, [Row "size" 0 1 2]);
  ("gb_audio_get_topology_response", 24%nat, [Row "topology" 0 1 24]);
  ("gb_audio_get_control_request", 2%nat, [Row "control_id" 0 1 1; Row "index" 1 1 1]);
  ("gb_audio_get_control_response", 24%nat, [Row "value" 0 1 24]);
  ("gb_audio_set_control_request", 26%nat, [Row "control_id" 0 1 1; Row "index" 1 1 1;
    Row "value" 2 1 24]);
  ("gb_audio_enable_widget_request", 1%nat, [Row "widget_id" 0 1 1]);
  ("gb_audio_disable_widget_request", 1%nat, [Row "widget_id" 0 1 1]);
  ("gb_audio_get_pcm_request", 2%nat, [Row "data_cport" 0 1 2]);
  ("gb_audio_get_pcm_response", 10%nat, [Row "format" 0 1 4; Row "rate" 4 1 4; Row "channels" 8 1 1;
    Row "sig_bits" 9 1 1]);
  ("gb_audio_set_pcm_request", 12%nat, [Row "data_cport" 0 1 2; Row "format" 2 1 4; Row "rate" 6 1 4;
    Row "channels" 10 1 1; Row "sig_bits" 11 1 1]);
  ("gb_audio_set_tx_data_size_request", 4%nat, [Row "data_cport" 0 1 2; Row "size" 2 1 2]);
  ("gb_audio_activate_tx_request", 2%nat, [Row "data_cport" 0 1 2]);
  ("gb_audio_deactivate_tx_request", 2%nat, [Row "data_cport" 0 1 2]);
  ("gb_audio_set_rx_data_size_request", 4%nat, [Row "data_cport" 0 1 2; Row "size" 2 1 2]);
  ("gb_audio_activate_rx_request", 2%nat, [Row "data_cport" 0 1 2]);
  ("gb_audio_deactivate_rx_request", 2%nat, [Row "data_cport" 0 1 2]);
  ("gb_audio_jack_event_request", 3%nat, [Row "widget_id" 0 1 1; Row "jack_attribute" 1 1 1;
    Row "event" 2 1 1]);
  ("gb_audio_button_event_request", 3%nat, [Row "widget_id" 0 1 1; Row "button_id" 1 1 1;
    Row "event" 2 1 1]);
  ("gb_audio_streaming_event_request", 3%nat, [Row "data_cport" 0 1 2; Row "event" 2 1 1]);
  ("gb_audio_send_data_request", 8%nat, [Row "timestamp" 0 1 8; Row "data" 8 0 1]);
  ("gb_log_send_log_request", 2%nat, [Row "len" 0 1 2; Row "msg" 2 0 1])].
