(* ===== verification/WireFacts.v ===== *)
(** * The protocol's declarations

    Every structure of include/greybus_protocols.h has the layout its members'
    sizes add up to, so that the bytes of a message determine the values and
    members are where C looks for them; the records of [Protocols], which the
    firmware's operations use, read and write what the declarations say;
    operation types are unambiguous. *)

From stdpp Require Import pretty.
From S2P Require Import Prelude Config Protocols CTypes WireControl WirePhy WireSvc WireSerial WireMedia WireTable.

Definition all_structs : list (String.string * ctype) :=
  control_structs ++ phy_structs ++ svc_structs ++ serial_structs ++ media_structs.

(** A member the firmware reads or writes: its path in the declaration, the
    record's field for it, the byte it begins at and how many bytes it has. *)
Record member (A : Type) := Member {
  m_path : String.string;
  m_field : A → Z;
  m_offset : nat;
  m_size : nat;
}.
Arguments Member {_} _ _ _ _.
Arguments m_path {_} _.
Arguments m_field {_} _ _.
Arguments m_offset {_} _.
Arguments m_size {_} _.

(** The members of a structure that is itself a member. *)
Definition within {A B} (path : String.string) (get : A → B) (off : nat) (ms : list (member B)) : list (member A) :=
  map (λ m, Member (String.append path (m_path m)) (λ a, m_field m (get a)) (off + m_offset m) (m_size m)) ms.

#[local] Open Scope string_scope.

Definition operation_msg_hdr_members : list (member gb_operation_msg_hdr) := [
  Member "size" hdr_size 0 2; Member "operation_id" hdr_operation_id 2 2;
  Member "type" hdr_type 4 1; Member "result" hdr_result 5 1;
  Member "pad[0]" hdr_pad0 6 1; Member "pad[1]" hdr_pad1 7 1].

Definition control_version_response_members : list (member gb_control_version_response) := [
  Member "major" cvr_major 0 1; Member "minor" cvr_minor 1 1].

Definition control_get_manifest_size_response_members : list (member gb_control_get_manifest_size_response) :=
  [Member "size" gms_size 0 2].

Definition version_request_members : list (member gb_svc_version_request) := [
  Member "major" svr_major 0 1; Member "minor" svr_minor 1 1].

Definition hello_request_members : list (member gb_svc_hello_request) := [
  Member "endo_id" hello_endo_id 0 2; Member "interface_id" hello_interface_id 2 1].

Definition conn_create_request_members : list (member gb_svc_conn_create_request) := [
  Member "intf1_id" cc_intf1_id 0 1; Member "cport1_id" cc_cport1_id 1 2;
  Member "intf2_id" cc_intf2_id 3 1; Member "cport2_id" cc_cport2_id 4 2;
  Member "tc" cc_tc 6 1; Member "flags" cc_flags 7 1].

Definition conn_destroy_request_members : list (member gb_svc_conn_destroy_request) := [
  Member "intf1_id" cd_intf1_id 0 1; Member "cport1_id" cd_cport1_id 1 2;
  Member "intf2_id" cd_intf2_id 3 1; Member "cport2_id" cd_cport2_id 4 2].

Definition dme_peer_get_response_members : list (member gb_svc_dme_peer_get_response) := [
  Member "result_code" dpg_result_code 0 2; Member "attr_value" dpg_attr_value 2 4].

Definition dme_peer_set_response_members : list (member gb_svc_dme_peer_set_response) :=
  [Member "result_code" dps_result_code 0 2].

Definition intf_vsys_response_members : list (member gb_svc_intf_vsys_response) :=
  [Member "result_code" vsys_result_code 0 1].

Definition intf_refclk_response_members : list (member gb_svc_intf_refclk_response) :=
  [Member "result_code" refclk_result_code 0 1].

Definition intf_unipro_response_members : list (member gb_svc_intf_unipro_response) :=
  [Member "result_code" unipro_result_code 0 1].

Definition l2_timer_cfg_members : list (member gb_svc_l2_timer_cfg) := [
  Member "tsb_fc0_protection_timeout" l2_tsb_fc0_protection_timeout 0 2;
  Member "tsb_tc0_replay_timeout" l2_tsb_tc0_replay_timeout 2 2;
  Member "tsb_afc0_req_timeout" l2_tsb_afc0_req_timeout 4 2;
  Member "tsb_fc1_protection_timeout" l2_tsb_fc1_protection_timeout 6 2;
  Member "tsb_tc1_replay_timeout" l2_tsb_tc1_replay_timeout 8 2;
  Member "tsb_afc1_req_timeout" l2_tsb_afc1_req_timeout 10 2;
  Member "reserved_for_tc2[0]" l2_reserved_for_tc20 12 2;
  Member "reserved_for_tc2[1]" l2_reserved_for_tc21 14 2;
  Member "reserved_for_tc2[2]" l2_reserved_for_tc22 16 2;
  Member "reserved_for_tc3[0]" l2_reserved_for_tc30 18 2;
  Member "reserved_for_tc3[1]" l2_reserved_for_tc31 20 2;
  Member "reserved_for_tc3[2]" l2_reserved_for_tc32 22 2].

Definition intf_set_pwrm_request_members : list (member gb_svc_intf_set_pwrm_request) := [
  Member "intf_id" pwrm_intf_id 0 1; Member "hs_series" pwrm_hs_series 1 1;
  Member "tx_mode" pwrm_tx_mode 2 1; Member "tx_gear" pwrm_tx_gear 3 1;
  Member "tx_nlanes" pwrm_tx_nlanes 4 1; Member "tx_amplitude" pwrm_tx_amplitude 5 1;
  Member "tx_hs_equalizer" pwrm_tx_hs_equalizer 6 1; Member "rx_mode" pwrm_rx_mode 7 1;
  Member "rx_gear" pwrm_rx_gear 8 1; Member "rx_nlanes" pwrm_rx_nlanes 9 1;
  Member "flags" pwrm_flags 10 1; Member "quirks" pwrm_quirks 11 4]
  ++ within "local_l2timerdata." pwrm_local_l2timerdata 15 l2_timer_cfg_members
  ++ within "remote_l2timerdata." pwrm_remote_l2timerdata 39 l2_timer_cfg_members.

Definition intf_set_pwrm_response_members : list (member gb_svc_intf_set_pwrm_response) :=
  [Member "result_code" pwrm_resp_result_code 0 1].

Definition pwrmon_rail_count_get_response_members : list (member gb_svc_pwrmon_rail_count_get_response) :=
  [Member "rail_count" rail_rail_count 0 1].

Definition module_inserted_request_members : list (member gb_svc_module_inserted_request) := [
  Member "primary_intf_id" mi_primary_intf_id 0 1; Member "intf_count" mi_intf_count 1 1;
  Member "flags" mi_flags 2 2].

Definition module_removed_request_members : list (member gb_svc_module_removed_request) :=
  [Member "primary_intf_id" mr_primary_intf_id 0 1].

Definition intf_activate_response_members : list (member gb_svc_intf_activate_response) := [
  Member "status" act_status 0 1; Member "intf_type" act_intf_type 1 1].

Definition intf_resume_response_members : list (member gb_svc_intf_resume_response) :=
  [Member "status" res_status 0 1].

#[local] Close Scope string_scope.

(** The structures the firmware reads or writes, with the record that stands
    for each of them, its size and its members. *)
Record packed_struct := PackedStruct {
  ps_type : Type;
  ps_packed : Packed ps_type;
  ps_laws : PackedLaws ps_type;
  ps_size : nat;
  ps_members : list (member ps_type);
}.

#[local] Existing Instances ps_packed ps_laws.

Definition firmware_structs : list (ctype * packed_struct) := [
  (struct_gb_operation_msg_hdr, PackedStruct gb_operation_msg_hdr _ _ 8 operation_msg_hdr_members);
  (struct_gb_control_version_response,
    PackedStruct gb_control_version_response _ _ 2 control_version_response_members);
  (struct_gb_control_get_manifest_size_response,
    PackedStruct gb_control_get_manifest_size_response _ _ 2 control_get_manifest_size_response_members);
  (struct_gb_svc_version_request, PackedStruct gb_svc_version_request _ _ 2 version_request_members);
  (struct_gb_svc_hello_request, PackedStruct gb_svc_hello_request _ _ 3 hello_request_members);
  (struct_gb_svc_conn_create_request,
    PackedStruct gb_svc_conn_create_request _ _ 8 conn_create_request_members);
  (struct_gb_svc_conn_destroy_request,
    PackedStruct gb_svc_conn_destroy_request _ _ 6 conn_destroy_request_members);
  (struct_gb_svc_dme_peer_get_response,
    PackedStruct gb_svc_dme_peer_get_response _ _ 6 dme_peer_get_response_members);
  (struct_gb_svc_dme_peer_set_response,
    PackedStruct gb_svc_dme_peer_set_response _ _ 2 dme_peer_set_response_members);
  (struct_gb_svc_intf_vsys_response, PackedStruct gb_svc_intf_vsys_response _ _ 1 intf_vsys_response_members);
  (struct_gb_svc_intf_refclk_response,
    PackedStruct gb_svc_intf_refclk_response _ _ 1 intf_refclk_response_members);
  (struct_gb_svc_intf_unipro_response,
    PackedStruct gb_svc_intf_unipro_response _ _ 1 intf_unipro_response_members);
  (struct_gb_svc_l2_timer_cfg, PackedStruct gb_svc_l2_timer_cfg _ _ 24 l2_timer_cfg_members);
  (struct_gb_svc_intf_set_pwrm_request,
    PackedStruct gb_svc_intf_set_pwrm_request _ _ 63 intf_set_pwrm_request_members);
  (struct_gb_svc_intf_set_pwrm_response,
    PackedStruct gb_svc_intf_set_pwrm_response _ _ 1 intf_set_pwrm_response_members);
  (struct_gb_svc_pwrmon_rail_count_get_response,
    PackedStruct gb_svc_pwrmon_rail_count_get_response _ _ 1 pwrmon_rail_count_get_response_members);
  (struct_gb_svc_module_inserted_request,
    PackedStruct gb_svc_module_inserted_request _ _ 4 module_inserted_request_members);
  (struct_gb_svc_module_removed_request,
    PackedStruct gb_svc_module_removed_request _ _ 1 module_removed_request_members);
  (struct_gb_svc_intf_activate_response,
    PackedStruct gb_svc_intf_activate_response _ _ 2 intf_activate_response_members);
  (struct_gb_svc_intf_resume_response,
    PackedStruct gb_svc_intf_resume_response _ _ 1 intf_resume_response_members)].

(** The operation types of each protocol. *)
Definition operation_types : list constants := [
    GB_CONTROL_TYPE; GB_APB_REQUEST; GB_FW_DOWNLOAD_TYPE; GB_FW_MGMT_TYPE; GB_CAP_TYPE;
    GB_BOOTROM_TYPE; GB_POWER_SUPPLY_TYPE; GB_HID_TYPE; GB_I2C_TYPE; GB_GPIO_TYPE; GB_PWM_TYPE;
    GB_SPI_TYPE; GB_SVC_TYPE; GB_RAW_TYPE; GB_UART_TYPE; GB_LOOPBACK_TYPE; GB_SDIO_TYPE;
    GB_CAMERA_TYPE; GB_LIGHTS_TYPE; GB_AUDIO_TYPE; GB_LOG_TYPE].

(** ** Structures *)

Definition sound (t : ctype) : bool := declared t && unpadded t.

Lemma all_structs_sound : forallb (λ '(_, t), sound t) all_structs = true.
Proof. vm_compute. reflexivity. Qed.

Lemma struct_sound name t : (name, t) ∈ all_structs → declared t = true ∧ unpadded t = true.
Proof.
  intros Hin. pose proof all_structs_sound as Hall. rewrite forallb_forall in Hall.
  by apply list_elem_of_In, Hall, andb_true_iff in Hin.
Qed.

(** How many elements a member has, and the size of one. *)
Definition elements (t : ctype) : nat * nat :=
  match t with
  | Array t n => (n, CTypes.sizeof t)
  | Flexible t => (0%nat, CTypes.sizeof t)
  | t => (1%nat, CTypes.sizeof t)
  end.

Definition row_of (f : String.string * ctype) (off : nat) : member_row :=
  Row f.1 off (elements f.2).1 (elements f.2).2.

Definition struct_row (s : String.string * ctype) : String.string * nat * list member_row :=
  (s.1, CTypes.sizeof s.2,
   match s.2 with
   | Struct packed fs => zip_with row_of fs (field_offsets packed fs)
   | _ => []
   end).

Lemma layout_table_complete : layout_table = map struct_row all_structs.
Proof. vm_compute. reflexivity. Qed.

Lemma all_structs_struct name t : (name, t) ∈ all_structs → ∃ packed fs, t = Struct packed fs.
Proof.
  intros Hin. assert (Hall : forallb (λ s, match s.2 with Struct _ _ => true | _ => false end) all_structs = true)
    by (vm_compute; reflexivity).
  rewrite forallb_forall in Hall. apply list_elem_of_In, Hall in Hin. destruct t; try done. by eexists _, _.
Qed.

Lemma row_names packed fs :
  map row_name (zip_with row_of fs (field_offsets packed fs)) = map fst fs.
Proof.
  pose proof (field_offsets_length packed fs) as Hl. revert Hl. generalize (field_offsets packed fs).
  induction fs as [|f fs IH]; intros [|off offs] Hl; try done. cbn in *. f_equal. apply IH. lia.
Qed.

(** C37: Every structure the protocol header declares, the ones without __packed and with arrays
    of open length included: its size and its members' names, offsets, element counts and
    element sizes are those of the table of what sizeof and offsetof give; any value of its type
    is decoded from its encoding, of that size when it is fixed; whatever decodes is of the type
    and is what its encoding says; and in an encoded structure each member's encoding begins at
    its offset in the table. *)
Theorem wire_structures name t :
  (name, t) ∈ all_structs →
  ∃ packed fs rows, t = Struct packed fs ∧ (name, CTypes.sizeof t, rows) ∈ layout_table ∧
    map row_name rows = map fst fs ∧
    (∀ v, has_type t v = true → decode t (encode t v) = Some (v, []) ∧
       (fixed t = true → length (encode t v) = CTypes.sizeof t)) ∧
    (∀ bs v rest, bytes bs → decode t bs = Some (v, rest) → has_type t v = true ∧ bs = encode t v ++ rest) ∧
    (∀ vs i row tm vm, has_type t (VSeq vs) = true →
       rows !! i = Some row → fs !! i = Some (row_name row, tm) → vs !! i = Some vm →
       (row_count row, row_size row) = elements tm ∧
       ∃ rest, drop (row_offset row) (encode t (VSeq vs)) = encode tm vm ++ rest).
Proof.
  intros Hin. destruct (struct_sound name t Hin) as [Hd Hu].
  destruct (all_structs_struct name t Hin) as (packed & fs & ->).
  exists packed, fs, (zip_with row_of fs (field_offsets packed fs)). split; [done|]. split.
  { rewrite layout_table_complete. apply list_elem_of_In.
    apply (in_map struct_row _ (name, Struct packed fs)), list_elem_of_In, Hin. }
  split; [|split; [|split]].
  - apply row_names.
  - intros v Hv. split; [|intros Hf; by apply encode_length].
    rewrite <-(app_nil_r (encode (Struct packed fs) v)). apply decode_encode; [done..|by right].
  - intros bs v rest. apply decode_accepts.
  - intros vs i row tm vm Hty Hrow Hi Hv. apply lookup_zip_with_Some in Hrow as (f & off & -> & Hf & Hoff).
    rewrite Hf in Hi. injection Hi as Hi. split; [by destruct f; simplify_eq/=; destruct (elements tm)|].
    apply (field_bytes packed fs vs i f.1 tm vm off); try done. by rewrite Hf, Hi.
Qed.

(** ** The firmware's records *)

(** The integers of a declaration without unions and arrays of open length: the path of each,
    the byte it begins at, and its size. *)
Fixpoint leaves (path : String.string) (off : nat) (t : ctype) : list (String.string * nat * nat) :=
  match t with
  | Int w => [(path, off, w)]
  | Array t n =>
      concat (map (λ i, leaves (path +:+ "[" +:+ pretty i +:+ "]")%string (off + i * CTypes.sizeof t) t) (seq 0 n))
  | Struct packed fs =>
      concat (zip_with (λ f o, f (off + o)%nat)
        (map (λ '(name, t) o, leaves (if decide (path = "") then name else path +:+ "." +:+ name)%string o t) fs)
        (field_offsets packed fs))
  | Flexible _ | Union _ => []
  end.

(** Fields of the given sizes one after the other. *)
Fixpoint placed (off : nat) (ws : list nat) : list (nat * nat) :=
  match ws with
  | [] => []
  | w :: ws => (off, w) :: placed (off + w) ws
  end.

Lemma unpack_placed ws off bs :
  unpack ws (drop off bs) = map (λ '(o, w), of_le (take w (drop o bs))) (placed off ws).
Proof.
  revert off. induction ws as [|w ws IH]; intros off; cbn; [done|]. by rewrite drop_drop, IH.
Qed.

Lemma pack_placed ws vs pre :
  length vs = length ws →
  map (λ '(o, w), take w (drop o (pre ++ pack ws vs))) (placed (length pre) ws) = zip_with le_bytes ws vs.
Proof.
  revert vs pre. induction ws as [|w ws IH]; intros [|v vs] pre Hl; try done. cbn in Hl |- *. f_equal.
  - rewrite drop_app_length. by rewrite take_app_le, take_ge by (rewrite length_le_bytes; lia).
  - specialize (IH vs (pre ++ le_bytes w v)). rewrite length_app, length_le_bytes, <-app_assoc in IH.
    apply IH. lia.
Qed.

Lemma placed_sizes off ws : map snd (placed off ws) = ws.
Proof. revert off. induction ws as [|w ws IH]; intros off; cbn; [done|]. by rewrite IH. Qed.

Lemma length_unpack ws bs : length (unpack ws bs) = length ws.
Proof. revert bs. induction ws as [|w ws IH]; intros bs; cbn; [done|]. by rewrite IH. Qed.

(** The members are the declared ones, and their sizes the record's layout. *)
Definition agrees (t : ctype) (p : packed_struct) : bool :=
  (CTypes.sizeof t =? ps_size p)%nat
  && (ps_size p =? layout_size (@layout _ (ps_packed p)))%nat
  && bool_decide (leaves ""%string 0 t = map (λ m, (m_path m, m_offset m, m_size m)) (ps_members p))
  && bool_decide (map (λ m, (m_offset m, m_size m)) (ps_members p) = placed 0 (@layout _ (ps_packed p))).

Lemma firmware_structs_agree : forallb (λ '(t, p), agrees t p) firmware_structs = true.
Proof. vm_compute. reflexivity. Qed.

Lemma firmware_members_are_fields :
  Forall (λ '(_, p), ∀ s, map (λ m, m_field m s) (ps_members p) = @fields _ (ps_packed p) s) firmware_structs.
Proof. repeat constructor. Qed.

(** C34: The records through which the firmware's operations read and write messages are the
    header's structures, member by member: each integer the header declares (arrays element by
    element, nested structures by path) has the name, offset and width of the table of members,
    and the record's field for it reads exactly those bytes of a message, least significant
    first, and is written to exactly those bytes; the structure has the size given. Exchanging
    two members or changing a width breaks it. *)
Theorem firmware_structs_declared t p :
  (t, p) ∈ firmware_structs →
  CTypes.sizeof t = ps_size p ∧
  leaves ""%string 0 t = map (λ m, (m_path m, m_offset m, m_size m)) (ps_members p) ∧
  (∀ bs m, m ∈ ps_members p →
     m_field m (of_wire bs) = of_le (take (m_size m) (drop (m_offset m) bs))) ∧
  (∀ s : ps_type p, length (to_wire s) = ps_size p ∧
     ∀ m, m ∈ ps_members p →
       take (m_size m) (drop (m_offset m) (to_wire s)) = le_bytes (m_size m) (m_field m s)).
Proof.
  intros Hin. pose proof (proj1 (Forall_forall _ _) firmware_members_are_fields _ Hin) as Hfields.
  pose proof firmware_structs_agree as Hall. rewrite forallb_forall in Hall.
  apply list_elem_of_In, Hall in Hin. unfold agrees in Hin.
  apply andb_true_iff in Hin as [Hin Hplaced%bool_decide_eq_true].
  apply andb_true_iff in Hin as [[Hs%Nat.eqb_eq Hl%Nat.eqb_eq]%andb_true_iff Hleaves%bool_decide_eq_true].
  split; [done|]. split; [done|]. split.
  - intros bs m [i Hi]%list_elem_of_lookup.
    assert (Hu : fields (of_wire (A := ps_type p) bs) = unpack (layout (A := ps_type p)) bs)
      by (apply (fields_of_fields (A := ps_type p)), length_unpack).
    pose proof (Hfields (of_wire bs)) as Hf. rewrite Hu in Hf.
    pose proof (unpack_placed (layout (A := ps_type p)) 0 bs) as Hp. rewrite drop_0 in Hp.
    rewrite Hp, <-Hplaced, map_map in Hf.
    apply (f_equal (.!! i)) in Hf. rewrite !list_lookup_fmap, Hi in Hf. by injection Hf.
  - intros s. split; [by rewrite (length_to_wire (A := ps_type p)), Hl|].
    intros m [i Hi]%list_elem_of_lookup.
    pose proof (pack_placed layout (fields s) [] (fields_length s)) as Hp. cbn [app length] in Hp.
    rewrite <-Hplaced, map_map, <-Hfields in Hp. apply (f_equal (.!! i)) in Hp.
    rewrite list_lookup_fmap, Hi in Hp. symmetry in Hp. apply lookup_zip_with_Some in Hp as (w & v & Hw & Hlw & Hv).
    rewrite list_lookup_fmap, Hi in Hv. injection Hv as <-.
    assert (w = m_size m) as ->; [|cbv beta iota in Hfields; rewrite Hfields in Hw; exact Hw].
    apply (f_equal (map snd)) in Hplaced. rewrite map_map, placed_sizes in Hplaced.
    apply (f_equal (.!! i)) in Hplaced. rewrite list_lookup_fmap, Hi, Hlw in Hplaced. by injection Hplaced.
Qed.

(** ** Operation types *)

(** Within a protocol, no two operations have the same type; types are between
    the two reserved ones, and adding the response bit keeps them apart from
    each other and from all requests. *)
Theorem operation_types_distinct ops :
  ops ∈ operation_types →
  NoDup (map snd ops) ∧ NoDup (map (λ c, GB_RESPONSE c.2) ops) ∧
  Forall (λ c, GB_REQUEST_TYPE_CPORT_SHUTDOWN < c.2 < GB_REQUEST_TYPE_INVALID) ops ∧
  Forall (λ c, GB_OP_RESPONSE <= GB_RESPONSE c.2) ops.
Proof.
  intros Hin. assert (Hall : Forall (λ ops, NoDup (map snd ops) ∧ NoDup (map (λ c, GB_RESPONSE c.2) ops) ∧
    Forall (λ c, GB_REQUEST_TYPE_CPORT_SHUTDOWN < c.2 < GB_REQUEST_TYPE_INVALID) ops ∧
    Forall (λ c, GB_OP_RESPONSE <= GB_RESPONSE c.2) ops) operation_types).
  { refine (bool_decide_unpack _ _). vm_compute. exact I. }
  rewrite Forall_forall in Hall. by apply Hall.
Qed.

(** ** Values *)

(** [GB_CHANNEL_MODE_DEFINED_RANGE] is meant to have the bits of all modes, but
    lacks two of them. *)
Lemma channel_modes_out_of_range range :
  list_to_map (M := gmap String.string Z) GB_CHANNEL_MODE_RANGES !! "GB_CHANNEL_MODE_DEFINED_RANGE"%string = Some range →
  filter (λ c, Z.land c.2 range ≠ c.2) GB_CHANNEL_MODE
  = [("GB_CHANNEL_MODE_FLASH"%string, 0x100); ("GB_CHANNEL_MODE_TORCH"%string, 0x200)].
Proof. intros [= <-]. vm_compute. reflexivity. Qed.

(** With the configured block size, a message with any of the structures as its
    payload fits the buffer of [gb_message_hdlc_send], without the arrays of open length. *)
Lemma structures_fit_block :
  Forall (λ s, 10 + CTypes.sizeof s.2 <= @CONFIG_BEAGLEPLAY_HDLC_MAX_BLOCK_SIZE prj_conf) all_structs.
Proof. refine (bool_decide_unpack _ _). vm_compute. exact I. Qed.

(** ** Examples *)

(** Two transfers of an I2C request, the second a read of four bytes. *)
Definition w_i2c : list cvalue :=
  [VInt 2; VSeq [VSeq [VInt 0x50; VInt 0; VInt 1]; VSeq [VInt 0x50; VInt 1; VInt 4]]].

(** The second transfer begins at the eighth byte; [op_count] is at the first. *)
Lemma wire_structures_witness :
  decode struct_gb_i2c_transfer_request [2; 0; 0x50; 0; 0; 0; 1; 0; 0x50; 0; 1; 0; 4; 0]
  = Some (VSeq w_i2c, []).
Proof.
  assert (Hin : ("gb_i2c_transfer_request"%string, struct_gb_i2c_transfer_request) ∈ all_structs).
  { apply (list_elem_of_lookup_2 _ 54). reflexivity. }
  destruct (wire_structures _ _ Hin) as (packed & fs & rows & _ & _ & _ & Hround & _).
  exact (proj1 (Hround (VSeq w_i2c) eq_refl)).
Defined.

(** Interface 3 is the second one of the request, at its fourth byte. *)
Definition w_create : list Z := [0; 1; 0; 3; 2; 0; 0; 0].

Lemma firmware_structs_declared_witness :
  cc_intf2_id (of_wire w_create) = 3.
Proof.
  destruct (firmware_structs_declared struct_gb_svc_conn_create_request
    (PackedStruct gb_svc_conn_create_request _ _ 8 conn_create_request_members)) as (_ & _ & Hread & _);
    [by apply (list_elem_of_lookup_2 _ 5)|].
  exact (Hread w_create (Member "intf2_id" cc_intf2_id 3 1) (list_elem_of_lookup_2 conn_create_request_members 2 _ eq_refl)).
Defined.
