(* ===== verification/Hdlc.v ===== *)
(** * HDLC framing (src/hdlc.c, include/hdlc.h)

    The receiver's byte state machine and the transmitter, over any world that
    contains a [hdlc_driver].  The checksum is Zephyr's [crc16_ccitt], a
    parameter ([Crc16]) with the laws its documentation gives ([Crc16Laws]).

    The receiver refines an abstract deframer ([deframe_byte]) that keeps the
    unescaped frame body; the transmitter emits exactly [frame_bytes]. *)

From S2P Require Import Prelude Config.

(** ** The checksum service *)

Class Crc16 := crc16_ccitt : Z → list Z → Z.

(** Zephyr documents [crc16_ccitt] as the reflected CRC-16 with polynomial
    0x1021, computed incrementally through its seed; a block followed by the
    complement of its checksum, low byte first, leaves the residue 0xf0b8, and
    like every CRC it detects an error confined to one byte. *)
Class Crc16Laws `{Crc16} := {
  crc16_range c bs : is_u16 c → bytes bs → is_u16 (crc16_ccitt c bs);
  crc16_nil c : crc16_ccitt c [] = c;
  crc16_app c bs1 bs2 : crc16_ccitt c (bs1 ++ bs2) = crc16_ccitt (crc16_ccitt c bs1) bs2;
  crc16_residue c :
    is_u16 c → crc16_ccitt c (le_bytes 2 (Z.lxor c 0xffff)) = 0xf0b8;
  crc16_burst c b1 b2 bs :
    is_u16 c → is_u8 b1 → is_u8 b2 → b1 ≠ b2 → bytes bs →
    crc16_ccitt c (b1 :: bs) ≠ crc16_ccitt c (b2 :: bs);
}.

(** ** Data *)

Definition HDLC_FRAME : Z := 0x7E.
Definition HDLC_ESC : Z := 0x7D.
Definition HDLC_ESC_FRAME : Z := 0x5E.
Definition HDLC_ESC_ESC : Z := 0x5D.
Definition ADDRESS_GREYBUS : Z := 0x01.
Definition ADDRESS_DBG : Z := 0x02.
Definition ADDRESS_CONTROL : Z := 0x03.
Definition ADDRESS_MCUMGR : Z := 0x04.

Definition HDLC_MAX_BLOCK_SIZE `{Config} : Z := CONFIG_BEAGLEPLAY_HDLC_MAX_BLOCK_SIZE.

Record hdlc_driver := HdlcDriver {
  crc : Z;
  next_escaped : bool;
  rx_send_seq : Z;
  send_seq : Z;
  rx_buffer_len : Z;
  rx_buffer : list Z;
}.

Definition set_crc (c : Z) (d : hdlc_driver) : hdlc_driver :=
  HdlcDriver c (next_escaped d) (rx_send_seq d) (send_seq d) (rx_buffer_len d) (rx_buffer d).
Definition set_next_escaped (e : bool) (d : hdlc_driver) : hdlc_driver :=
  HdlcDriver (crc d) e (rx_send_seq d) (send_seq d) (rx_buffer_len d) (rx_buffer d).
Definition set_rx_send_seq (s : Z) (d : hdlc_driver) : hdlc_driver :=
  HdlcDriver (crc d) (next_escaped d) s (send_seq d) (rx_buffer_len d) (rx_buffer d).
Definition set_rx_buffer_len (n : Z) (d : hdlc_driver) : hdlc_driver :=
  HdlcDriver (crc d) (next_escaped d) (rx_send_seq d) (send_seq d) n (rx_buffer d).
Definition set_rx_buffer (b : list Z) (d : hdlc_driver) : hdlc_driver :=
  HdlcDriver (crc d) (next_escaped d) (rx_send_seq d) (send_seq d) (rx_buffer_len d) b.

(** The assignments of [hdlc_init]; the callbacks are the section variables
    below, and the work queue belongs to the kernel. *)
Definition hdlc_init (d : hdlc_driver) : hdlc_driver :=
  set_rx_buffer_len 0 (set_next_escaped false (HdlcDriver 0xffff (next_escaped d) 0 0
    (rx_buffer_len d) (rx_buffer d))).

Section Driver.
Context `{Config, Crc16}.
Context {W : Type} (drv : lens W hdlc_driver).
(** [hdlc_driver.send_frame_cb(buffer, len)] and
    [hdlc_driver.process_callback_frame_cb(buffer, len, address)]; the
    buffer argument is the memory from the pointer to the end of its block. *)
Variable send_frame_cb : list Z → Z → M W Z.
Variable process_callback_frame_cb : list Z → Z → Z → M W Z.

(** *** Transmitter *)

(** Returns the updated [*crc]. *)
Definition uart_poll_out_crc (byte crc : Z) : M W Z :=
  let crc := crc16_ccitt crc [byte] in
  byte ← (if (byte =? HDLC_FRAME) || (byte =? HDLC_ESC)
          then (_ ← send_frame_cb [HDLC_ESC] 1; mret (Z.lxor byte 0x20))
          else mret byte);
  _ ← send_frame_cb [byte] 1;
  mret crc.

(** [for (int i = 0; i < buffer_len; i++) uart_poll_out_crc(buffer[i], &crc)],
    with [n] iterations left. *)
Fixpoint send_buffer (buffer : list Z) (n : nat) (i crc : Z) : M W Z :=
  match n with
  | O => mret crc
  | S n =>
      b ← array_get buffer i;
      crc ← uart_poll_out_crc b crc;
      send_buffer buffer n (i + 1) crc
  end.

Definition hdlc_block_send_sync (buffer : list Z) (buffer_len address control : Z) : M W Z :=
  _ ← send_frame_cb [HDLC_FRAME] 1;
  crc ← uart_poll_out_crc address 0xffff;
  crc ← (if control =? 0
         then (d ← getL drv; uart_poll_out_crc (u8 (Z.shiftl (send_seq d) 1)) crc)
         else uart_poll_out_crc control crc);
  crc ← send_buffer buffer (Z.to_nat buffer_len) 0 crc;
  let crc_calc := Z.lxor crc 0xffff in
  crc ← uart_poll_out_crc (u8 crc_calc) crc;
  crc ← uart_poll_out_crc (u8 (Z.shiftr crc_calc 8)) crc;
  _ ← send_frame_cb [HDLC_FRAME] 1;
  mret 0.

(** *** Receiver *)

Definition hdlc_process_complete_frame : M W () :=
  d ← getL drv;
  address ← array_get (rx_buffer d) 0;
  let len := u32 (rx_buffer_len d - 4) in
  let buffer := drop 2 (rx_buffer d) in
  ret ← process_callback_frame_cb buffer len address;
  (* ret < 0 is only logged *)
  mret ().

Definition hdlc_process_frame : M W () :=
  d ← getL drv;
  _ ← (if (3 <? rx_buffer_len d) && (crc d =? 0xf0b8)
       then
         ctrl ← array_get (rx_buffer d) 1;
         if Z.land ctrl 1 =? 0
         then modL drv (set_rx_send_seq (Z.land (Z.shiftr ctrl 5) 0x07))
         else hdlc_process_complete_frame
       else mret ());
  _ ← modL drv (set_crc 0xffff);
  modL drv (set_rx_buffer_len 0).

Definition hdlc_save_byte (byte : Z) : M W Z :=
  d ← getL drv;
  _ ← (if HDLC_MAX_BLOCK_SIZE <=? rx_buffer_len d
       then (_ ← modL drv (set_crc 0xffff); modL drv (set_rx_buffer_len 0))
       else mret ());
  d ← getL drv;
  buf ← array_set (rx_buffer d) (rx_buffer_len d) byte;
  _ ← modL drv (set_rx_buffer buf);
  _ ← modL drv (set_rx_buffer_len (u16 (rx_buffer_len d + 1)));
  mret 0.

Definition hdlc_rx_input_byte (byte : Z) : M W () :=
  d ← getL drv;
  if byte =? HDLC_FRAME then
    if negb (rx_buffer_len d =? 0) then hdlc_process_frame else mret ()
  else if byte =? HDLC_ESC then
    modL drv (set_next_escaped true)
  else
    byte ← (if next_escaped d
            then (_ ← modL drv (set_next_escaped false); mret (Z.lxor byte 0x20))
            else mret byte);
    _ ← modL drv (λ d, set_crc (crc16_ccitt (crc d) [byte]) d);
    _ ← hdlc_save_byte byte;
    mret ().

Fixpoint process_bytes (bs : list Z) : M W () :=
  match bs with
  | [] => mret ()
  | b :: bs => _ ← hdlc_rx_input_byte b; process_bytes bs
  end.

(** [buf[0 .. len)] byte by byte; the result is [len]. *)
Definition hdlc_process_buffer (buf : list Z) : M W Z :=
  _ ← process_bytes buf;
  mret (length buf : Z).
End Driver.

(** ** Frames on the wire *)

Section Frames.
Context `{Crc16}.

Definition special (b : Z) : bool := (b =? HDLC_FRAME) || (b =? HDLC_ESC).

Definition stuff_byte (b : Z) : list Z :=
  if special b then [HDLC_ESC; Z.lxor b 0x20] else [b].

Definition stuff (bs : list Z) : list Z := bs ≫= stuff_byte.

(** The frame check sequence: the complemented checksum, low byte first. *)
Definition fcs (bs : list Z) : list Z :=
  le_bytes 2 (Z.lxor (crc16_ccitt 0xffff bs) 0xffff).

Definition frame_body (address control : Z) (payload : list Z) : list Z :=
  let hd := address :: control :: payload in hd ++ fcs hd.

Definition frame_bytes (address control : Z) (payload : list Z) : list Z :=
  HDLC_FRAME :: stuff (frame_body address control payload) ++ [HDLC_FRAME].

(** The escaped values of the two special bytes are the ones the source names. *)
Lemma stuff_special :
  stuff_byte HDLC_FRAME = [HDLC_ESC; HDLC_ESC_FRAME] ∧ stuff_byte HDLC_ESC = [HDLC_ESC; HDLC_ESC_ESC].
Proof. done. Qed.

Lemma stuff_cons b bs : stuff (b :: bs) = stuff_byte b ++ stuff bs.
Proof. done. Qed.

Lemma stuff_app bs1 bs2 : stuff (bs1 ++ bs2) = stuff bs1 ++ stuff bs2.
Proof. apply bind_app. Qed.

Lemma frame_body_residue `{!Crc16Laws} address control payload :
  is_u8 address → is_u8 control → bytes payload →
  crc16_ccitt 0xffff (frame_body address control payload) = 0xf0b8.
Proof.
  intros. unfold frame_body. rewrite crc16_app. apply crc16_residue, crc16_range; [done|].
  auto with machine.
Qed.

Lemma length_frame_body address control payload :
  length (frame_body address control payload) = (length payload + 4)%nat.
Proof. unfold frame_body, fcs. rewrite length_app, length_le_bytes. simpl. lia. Qed.

Lemma frame_body_bytes address control payload :
  is_u8 address → is_u8 control → bytes payload → bytes (frame_body address control payload).
Proof.
  intros. apply Forall_app_2; [auto with machine|apply le_bytes_bytes].
Qed.
End Frames.

(** ** The transmitter emits [frame_bytes] *)

Section Transmitter.
Context `{Config, Crc16, !Crc16Laws}.
Context {W : Type} (drv : lens W hdlc_driver).
Variable send_frame_cb : list Z → Z → M W Z.

(** One call of the send callback per byte, in order. *)
Fixpoint send_all (bs : list Z) : M W () :=
  match bs with
  | [] => mret ()
  | b :: bs => _ ← send_frame_cb [b] 1; send_all bs
  end.

Lemma send_all_app bs1 bs2 :
  send_all (bs1 ++ bs2) ≡ (send_all bs1 ≫= λ _, send_all bs2).
Proof.
  induction bs1 as [|b bs1 IH]; cbn [send_all app]; [done|].
  rewrite M_bind_assoc. by setoid_rewrite IH.
Qed.

Lemma uart_poll_out_crc_stuff b c :
  uart_poll_out_crc send_frame_cb b c
  ≡ (send_all (stuff_byte b) ≫= λ _, mret (crc16_ccitt c [b])).
Proof.
  unfold uart_poll_out_crc, stuff_byte, special.
  destruct (_ || _); cbn [send_all]; run_both.
Qed.

Lemma send_buffer_stuff buffer n i c :
  0 <= i → (Z.to_nat i + n <= length buffer)%nat →
  send_buffer send_frame_cb buffer n i c
  ≡ (send_all (stuff (take n (drop (Z.to_nat i) buffer))) ≫=
       λ _, mret (crc16_ccitt c (take n (drop (Z.to_nat i) buffer)))).
Proof.
  revert i c. induction n as [|n IH]; intros i c Hi Hl; cbn [send_buffer].
  { cbn. by rewrite crc16_nil. }
  destruct (lookup_lt_is_Some_2 buffer (Z.to_nat i)) as [b Hb]; [lia|].
  rewrite (drop_S _ _ _ Hb). cbn [take]. rewrite stuff_cons, send_all_app, M_bind_assoc.
  intros s. rewrite (M_bind_Done _ _ _ _ _ (array_get_ok _ _ _ s Hi Hb)). revert s.
  fold (send_buffer send_frame_cb buffer n (i + 1)).
  change (uart_poll_out_crc send_frame_cb b c ≫= (λ c', send_buffer send_frame_cb buffer n (i + 1) c')
    ≡ (send_all (stuff_byte b) ≫= λ _, send_all (stuff (take n (drop (S (Z.to_nat i)) buffer))) ≫=
       λ _, mret (crc16_ccitt c (b :: take n (drop (S (Z.to_nat i)) buffer))))).
  rewrite uart_poll_out_crc_stuff, M_bind_assoc.
  replace (S (Z.to_nat i)) with (Z.to_nat (i + 1)) by lia.
  setoid_rewrite M_ret_bind. setoid_rewrite IH; [|lia..].
  rewrite <-crc16_app. done.
Qed.

Lemma send_all_then {A} bs1 bs2 (k : M W A) :
  (send_all (bs1 ++ bs2) ≫= λ _, k) ≡ (send_all bs1 ≫= λ _, send_all bs2 ≫= λ _, k).
Proof. by rewrite send_all_app, M_bind_assoc. Qed.

Lemma send_all_nil_then {A} (k : M W A) : (send_all [] ≫= λ _, k) ≡ k.
Proof. done. Qed.

Lemma send_all_cons_then {A} b bs (k : M W A) :
  (send_all (b :: bs) ≫= λ _, k) ≡ (send_frame_cb [b] 1 ≫= λ _, send_all bs ≫= λ _, k).
Proof. cbn [send_all]. by rewrite M_bind_assoc. Qed.

Lemma poll_then {A} b c (k : Z → M W A) :
  (uart_poll_out_crc send_frame_cb b c ≫= k)
  ≡ (send_all (stuff_byte b) ≫= λ _, k (crc16_ccitt c [b])).
Proof. by rewrite uart_poll_out_crc_stuff, M_bind_assoc. Qed.

Lemma send_buffer_then {A} buffer n c (k : Z → M W A) :
  (n <= length buffer)%nat →
  (send_buffer send_frame_cb buffer n 0 c ≫= k)
  ≡ (send_all (stuff (take n buffer)) ≫= λ _, k (crc16_ccitt c (take n buffer))).
Proof.
  intros Hn. rewrite send_buffer_stuff by lia. by rewrite M_bind_assoc.
Qed.

(** A frame with a given control byte. *)
Lemma block_send_sync_frame buffer len address control :
  control ≠ 0 → 0 <= len <= length buffer →
  hdlc_block_send_sync drv send_frame_cb buffer len address control
  ≡ (send_all (frame_bytes address control (take (Z.to_nat len) buffer)) ≫= λ _, mret 0).
Proof.
  intros Hnz Hl. unfold hdlc_block_send_sync, frame_bytes, frame_body, fcs.
  destruct (Z.eqb_spec control 0) as [|_]; [done|].
  rewrite (stuff_app _ (le_bytes _ _)), !stuff_cons. cbn [le_bytes].
  rewrite !stuff_cons, <-!app_assoc. cbn [app].
  repeat setoid_rewrite poll_then. setoid_rewrite send_buffer_then; [|lia].
  repeat setoid_rewrite poll_then. rewrite <-!crc16_app. cbn [app].
  rewrite send_all_cons_then. repeat setoid_rewrite send_all_then. 
  repeat setoid_rewrite send_all_cons_then. repeat setoid_rewrite send_all_nil_then. done.
Qed.

(** With control 0 the send sequence number is read after the address is sent. *)
Lemma block_send_sync_iframe buffer len address :
  0 <= len <= length buffer →
  let hd := HDLC_FRAME :: stuff_byte address in
  hdlc_block_send_sync drv send_frame_cb buffer len address 0
  ≡ (send_all hd ≫= λ _, d ← getL drv;
     send_all (drop (length hd) (frame_bytes address (u8 (Z.shiftl (send_seq d) 1))
                                  (take (Z.to_nat len) buffer))) ≫= λ _, mret 0).
Proof.
  intros Hl hd. unfold hdlc_block_send_sync, frame_bytes, frame_body, fcs. cbn [Z.eqb].
  cbn [app]. setoid_rewrite stuff_cons. setoid_rewrite <-app_assoc. fold hd.
  change (HDLC_FRAME :: stuff_byte address ++ ?r) with (hd ++ r).
  subst hd. cbn [app length drop]. rewrite send_all_cons_then.
  setoid_rewrite drop_app_length. repeat setoid_rewrite poll_then.
  setoid_rewrite M_bind_assoc. repeat setoid_rewrite poll_then.
  setoid_rewrite send_buffer_then; [|lia]. repeat setoid_rewrite poll_then.
  setoid_rewrite stuff_cons. setoid_rewrite stuff_app. cbn [le_bytes].
  repeat setoid_rewrite stuff_cons. setoid_rewrite <-app_assoc. cbn [app].
  repeat setoid_rewrite <-crc16_app. cbn [app].
  repeat setoid_rewrite send_all_then. 
  repeat setoid_rewrite send_all_cons_then. repeat setoid_rewrite send_all_nil_then. done.
Qed.
End Transmitter.
