(* ===== verification/HdlcRx.v ===== *)
(** * The HDLC receiver against its specification

    [deframe_byte] is the abstract receiver: it keeps the unescaped bytes of
    the frame being received ([body]), the bytes its running checksum covers
    ([covered]) and the escape flag, and it emits the frames it accepts.  The
    concrete receiver of src/hdlc.c refines it on every byte stream, which
    gives the absence of out-of-bounds accesses, and the round trip with the
    transmitter, resynchronisation and the overflow behaviour follow from the
    abstract receiver. *)

From S2P Require Import Prelude Config Hdlc.

(** ** The abstract receiver *)

Record deframer := Deframer { body : list Z; covered : list Z; esc : bool; peer_seq : Z }.

(** A delivered frame: the address byte and the payload. *)
Definition frame : Type := Z * list Z.

Definition idle (a : deframer) : Prop := body a = [] ∧ covered a = [] ∧ esc a = false.

Section Deframer.
Context `{Config, Crc16}.

Definition accepts (a : deframer) : bool :=
  (3 <? length (body a)) && (crc16_ccitt 0xffff (covered a) =? 0xf0b8).

Definition deframe_byte (a : deframer) (b : Z) : deframer * list frame :=
  if b =? HDLC_FRAME then
    match body a with
    | address :: control :: rest =>
        if accepts a then
          if Z.land control 1 =? 0
          then (Deframer [] [] (esc a) (Z.land (Z.shiftr control 5) 0x07), [])
          else (Deframer [] [] (esc a) (peer_seq a),
                [(address, take (length rest - 2) rest)])
        else (Deframer [] [] (esc a) (peer_seq a), [])
    | [] => (a, [])
    | _ => (Deframer [] [] (esc a) (peer_seq a), [])
    end
  else if b =? HDLC_ESC then (Deframer (body a) (covered a) true (peer_seq a), [])
  else
    let b := if esc a then Z.lxor b 0x20 else b in
    if HDLC_MAX_BLOCK_SIZE <=? length (body a)
    then (Deframer [b] [] false (peer_seq a), [])
    else (Deframer (body a ++ [b]) (covered a ++ [b]) false (peer_seq a), []).

Fixpoint deframe (a : deframer) (bs : list Z) : deframer * list frame :=
  match bs with
  | [] => (a, [])
  | b :: bs =>
      let '(a1, fs1) := deframe_byte a b in
      let '(a2, fs2) := deframe a1 bs in
      (a2, fs1 ++ fs2)
  end.

Lemma deframe_app a bs1 bs2 :
  deframe a (bs1 ++ bs2)
  = let '(a1, fs1) := deframe a bs1 in
    let '(a2, fs2) := deframe a1 bs2 in (a2, fs1 ++ fs2).
Proof.
  revert a. induction bs1 as [|b bs1 IH]; intros a; cbn [deframe app].
  { by destruct (deframe a bs2). }
  destruct (deframe_byte a b) as [a1 fs1]. rewrite IH.
  destruct (deframe a1 bs1) as [a2 fs2]. destruct (deframe a2 bs2) as [a3 fs3].
  by rewrite app_assoc.
Qed.

(** A byte that completes no frame. *)
Lemma deframe_quiet a b bs a1 :
  deframe_byte a b = (a1, []) → deframe a (b :: bs) = deframe a1 bs.
Proof. intros Hb. cbn [deframe]. rewrite Hb. by destruct (deframe a1 bs). Qed.

Lemma deframe_one a b : deframe a [b] = deframe_byte a b.
Proof. cbn. destruct (deframe_byte a b). by rewrite app_nil_r. Qed.
End Deframer.

(** ** Refinement *)

(** The abstract state a driver's fields stand for. *)
Record sim `{Config, Crc16} (d : hdlc_driver) (a : deframer) : Prop := {
  sim_len : rx_buffer_len d = length (body a);
  sim_max : length (body a) <= HDLC_MAX_BLOCK_SIZE;
  sim_buffer : (length (rx_buffer d) : Z) = HDLC_MAX_BLOCK_SIZE;
  sim_body : take (length (body a)) (rx_buffer d) = body a;
  sim_crc : crc d = crc16_ccitt 0xffff (covered a);
  sim_esc : next_escaped d = esc a;
  sim_seq : rx_send_seq d = peer_seq a;
  sim_empty : body a = [] → covered a = [];
}.

Section Sim.
Context `{Config, !ConfigOk _, Crc16, !Crc16Laws}.

Lemma sim_init d :
  (length (rx_buffer d) : Z) = HDLC_MAX_BLOCK_SIZE →
  sim (hdlc_init d) (Deframer [] [] false 0).
Proof.
  intros Hl. pose proof hdlc_block_ok. split; simpl; try done.
  - unfold HDLC_MAX_BLOCK_SIZE. lia.
  - by rewrite crc16_nil.
Qed.

Lemma sim_lookup d a i b : sim d a → body a !! i = Some b → rx_buffer d !! i = Some b.
Proof.
  intros Hs Hb. rewrite <-(sim_body _ _ Hs), lookup_take in Hb.
  by case_decide.
Qed.

Lemma sim_frame d a address control rest :
  sim d a → body a = address :: control :: rest → (2 <= length rest)%nat →
  take (Z.to_nat (u32 (rx_buffer_len d - 4))) (drop 2 (rx_buffer d))
  = take (length rest - 2) rest.
Proof.
  intros Hs Hb Hr. pose proof hdlc_block_ok. pose proof (sim_max _ _ Hs) as Hmax.
  rewrite (sim_len _ _ Hs), Hb in *. cbn [length] in *. unfold HDLC_MAX_BLOCK_SIZE in *.
  rewrite u32_id by (unfold is_u32; lia).
  replace (Z.to_nat _) with (length rest - 2)%nat by lia.
  pose proof (sim_body _ _ Hs) as Hbody. rewrite Hb in Hbody.
  destruct (rx_buffer d) as [|x [|y buf]]; try done. cbn [take drop] in *.
  injection Hbody as _ _ Hrest.
  transitivity (take (length rest - 2) (take (length rest) buf)).
  - rewrite take_take. f_equal. lia.
  - by rewrite Hrest.
Qed.

(** The length the callback is told is within the buffer. *)
Lemma sim_frame_length d a address control rest :
  sim d a → body a = address :: control :: rest → (2 <= length rest)%nat →
  0 <= u32 (rx_buffer_len d - 4) <= length (drop 2 (rx_buffer d)).
Proof.
  intros Hs Hb Hr. pose proof hdlc_block_ok. pose proof (sim_max _ _ Hs) as Hmax.
  pose proof (sim_buffer _ _ Hs). rewrite (sim_len _ _ Hs), Hb in *. cbn [length] in *.
  unfold HDLC_MAX_BLOCK_SIZE in *. rewrite u32_id by (unfold is_u32; lia).
  rewrite length_drop. lia.
Qed.

Lemma sim_idle d a s :
  sim d a →
  sim (set_rx_buffer_len 0 (set_crc 0xffff (set_rx_send_seq s d))) (Deframer [] [] (esc a) s).
Proof.
  intros []. pose proof hdlc_block_ok. split; simpl; try done.
  - unfold HDLC_MAX_BLOCK_SIZE. lia.
  - by rewrite crc16_nil.
Qed.
End Sim.

Section Refinement.
Context `{Config, !ConfigOk _, Crc16, !Crc16Laws}.
Context {W : Type} (drv : lens W hdlc_driver) `{!LensLaws drv}.
Variable cb : list Z → Z → Z → M W Z.

(** What the callback does with a frame, for the frames in [good]; it does
    not touch the driver. *)
Variable good : frame → Prop.
Variable deliver : frame → M W ().
Hypothesis cb_deliver : ∀ buffer len address w,
  0 <= len <= length buffer → good (address, take (Z.to_nat len) buffer) →
  (cb buffer len address ≫= λ _, mret ()) w = deliver (address, take (Z.to_nat len) buffer) w.
Hypothesis deliver_store : ∀ f d w,
  deliver f (store drv d w) = (deliver f ≫= λ _, modS (store drv d)) w.

Fixpoint deliver_all (fs : list frame) : M W () :=
  match fs with
  | [] => mret ()
  | f :: fs => _ ← deliver f; deliver_all fs
  end.

(** Deliver [fs], then leave the driver as [d]. *)
Definition outcome (fs : list frame) (d : hdlc_driver) : M W () :=
  _ ← deliver_all fs; modS (store drv d).

Lemma deliver_all_store fs d w :
  deliver_all fs (store drv d w) = outcome fs d w.
Proof.
  unfold outcome. revert w. induction fs as [|f fs IH]; intros w; [done|]. cbn [deliver_all].
  unfold mbind, M_bind in *. rewrite deliver_store. unfold mbind, M_bind.
  destruct (deliver f w) as [[] w1|e]; [|done]. cbn. apply IH.
Qed.

Lemma deliver_all_app fs1 fs2 :
  deliver_all (fs1 ++ fs2) ≡ (deliver_all fs1 ≫= λ _, deliver_all fs2).
Proof.
  induction fs1 as [|f fs1 IH]; cbn [deliver_all app]; [done|].
  rewrite M_bind_assoc. by setoid_rewrite IH.
Qed.

Lemma outcome_nil d w m :
  m w = Done () (store drv d w) → m w = outcome [] d w.
Proof. done. Qed.

(** *** One byte *)

Lemma frame_step w a :
  sim (view drv w) a → body a ≠ [] → Forall good (snd (deframe_byte a HDLC_FRAME)) →
  ∃ d', hdlc_process_frame drv cb w = outcome (snd (deframe_byte a HDLC_FRAME)) d' w
      ∧ sim d' (fst (deframe_byte a HDLC_FRAME)).
Proof.
  intros Hs Hne. set (d := view drv w) in *.
  unfold hdlc_process_frame. step_with (getL_spec drv w). fold d.
  rewrite (sim_len _ _ Hs), (sim_crc _ _ Hs). fold (accepts a).
  unfold deframe_byte. cbn [Z.eqb HDLC_FRAME Pos.eqb].
  destruct (accepts a) eqn:Hacc; cycle 1.
  { intros _. exists (set_rx_buffer_len 0 (set_crc 0xffff (set_rx_send_seq (peer_seq a) d))).
    destruct (body a) as [|? []]; [done|..]; cbn [fst snd];
    (split; [|by apply sim_idle]; apply outcome_nil; unfold modL, zoom, modS;
     cbv [mbind M_bind mret M_ret]; rewrite !view_store, !store_store; fold d;
     rewrite <-(sim_seq _ _ Hs); by destruct d). }
  destruct (body a) as [|address [|control rest]] eqn:Hb;
    unfold accepts in Hacc; rewrite Hb in Hacc; [done..|].
  assert (2 <= length rest)%nat as Hrest.
  { apply andb_true_iff in Hacc as [Hlen%Z.ltb_lt _]. cbn in Hlen. lia. }
  rewrite M_bind_assoc. step_with (array_get_ok (rx_buffer d) 1 control w ltac:(done)
    (sim_lookup d a 1 control Hs ltac:(by rewrite Hb))).
  destruct (Z.land control 1 =? 0) eqn:Hctl; cbn [fst snd]; intros Hgood.
  { exists (set_rx_buffer_len 0 (set_crc 0xffff (set_rx_send_seq (Z.land (Z.shiftr control 5) 0x07) d))).
    split; [|by apply sim_idle]. apply outcome_nil. unfold modL, zoom, modS.
    cbv [mbind M_bind mret M_ret]. rewrite !view_store, !store_store. by fold d. }
  exists (set_rx_buffer_len 0 (set_crc 0xffff (set_rx_send_seq (peer_seq a) d))).
  split; [|by apply sim_idle].
  unfold hdlc_process_complete_frame. rewrite !M_bind_assoc.
  step_with (getL_spec drv w). fold d. rewrite !M_bind_assoc.
  step_with (array_get_ok (rx_buffer d) 0 address w ltac:(done)
    (sim_lookup d a 0 address Hs ltac:(by rewrite Hb))).
  pose proof (sim_frame_length _ _ _ _ _ Hs Hb Hrest) as Hlen.
  rewrite <-(sim_frame _ _ _ _ _ Hs Hb Hrest) in *. rewrite Forall_singleton in Hgood.
  unfold outcome. cbn [deliver_all]. unfold mbind at 1, M_bind at 1. rewrite cb_deliver by done.
  unfold mbind, M_bind.
  pose proof (deliver_store (address, take (Z.to_nat (u32 (rx_buffer_len d - 4))) (drop 2 (rx_buffer d)))
    d w) as Hst. subst d. rewrite store_view in Hst. revert Hst. unfold mbind, M_bind.
  set (f := (address, _)). destruct (deliver f w) as [[] w1|e]; [|done].
  intros [= Hw1]. unfold modL, zoom, modS. cbn.
  assert (view drv w1 = view drv w) as Hv by (rewrite Hw1 at 1; apply view_store).
  rewrite !view_store, !store_store, Hv. rewrite <-(sim_seq _ _ Hs). by destruct (view drv w).
Qed.

(** Storing a byte, when the checksum has already taken it in. *)
Lemma save_step w d a b :
  sim d a → view drv w = set_crc (crc16_ccitt (crc d) [b]) d →
  ∃ d', hdlc_save_byte drv b w = Done 0 (store drv d' w)
      ∧ sim (set_next_escaped false d')
            (if HDLC_MAX_BLOCK_SIZE <=? length (body a)
             then Deframer [b] [] false (peer_seq a)
             else Deframer (body a ++ [b]) (covered a ++ [b]) false (peer_seq a))
      ∧ next_escaped d' = next_escaped d.
Proof.
  intros [] Hw. pose proof hdlc_block_ok. unfold HDLC_MAX_BLOCK_SIZE in *.
  unfold hdlc_save_byte, modL, zoom, modS, HDLC_MAX_BLOCK_SIZE.
  step_with (getL_spec drv w). rewrite Hw. cbn [rx_buffer_len set_crc]. rewrite sim_len0.
  destruct (Z.leb_spec CONFIG_BEAGLEPLAY_HDLC_MAX_BLOCK_SIZE (length (body a))) as [Hfull|Hroom];
    cbv [mbind M_bind mret M_ret]; rewrite (getL_spec drv), ?view_store, Hw;
    cbn [rx_buffer rx_buffer_len set_rx_buffer_len set_crc]; rewrite ?sim_len0.
  - rewrite array_set_ok by lia. rewrite !view_store, !store_store.
    eexists. split; [reflexivity|]. split; [|done].
    destruct (rx_buffer d) as [|x buf] eqn:Hbuf; [cbn in *; lia|].
    split; cbn; rewrite ?crc16_nil; try done.
    unfold HDLC_MAX_BLOCK_SIZE. lia.
  - rewrite array_set_ok by lia. rewrite !view_store, !store_store.
    eexists. split; [reflexivity|]. split; [|by rewrite Hw].
    rewrite Hw. split; cbn [rx_buffer_len rx_buffer set_rx_buffer_len set_rx_buffer set_crc
      set_next_escaped crc next_escaped rx_send_seq body covered esc peer_seq]; try done.
    + rewrite u16_id by (unfold is_u16; lia). rewrite length_app. cbn. lia.
    + unfold HDLC_MAX_BLOCK_SIZE. rewrite length_app. cbn. lia.
    + by rewrite length_insert.
    + rewrite length_app, Nat2Z.id, Nat.add_1_r.
      erewrite take_S_r; [|apply list_lookup_insert_eq; lia].
      by rewrite take_insert_ge, sim_body0 by lia.
    + by rewrite sim_crc0, crc16_app.
    + by destruct (body a).
Qed.

Lemma byte_step w a b :
  sim (view drv w) a → Forall good (snd (deframe_byte a b)) →
  ∃ d', hdlc_rx_input_byte drv cb b w = outcome (snd (deframe_byte a b)) d' w
      ∧ sim d' (fst (deframe_byte a b)).
Proof.
  intros Hs Hgood. unfold hdlc_rx_input_byte. step_with (getL_spec drv w).
  rewrite (sim_len _ _ Hs).
  destruct (Z.eqb_spec b HDLC_FRAME) as [->|Hnf].
  { destruct (body a) as [|x l] eqn:Hbody.
    - unfold deframe_byte. cbn. rewrite Hbody. cbn. exists (view drv w). split; [|done].
      apply outcome_nil. by rewrite store_view.
    - cbn [length]. destruct (Z.eqb_spec (S (length l)) 0); [lia|]. cbn [negb].
      apply frame_step; [done|by rewrite Hbody|done]. }
  clear Hgood. unfold deframe_byte. destruct (Z.eqb_spec b HDLC_FRAME); [done|].
  destruct (Z.eqb_spec b HDLC_ESC) as [->|Hne]; cbn [fst snd].
  { eexists. split; [apply outcome_nil; reflexivity|]. by destruct Hs. }
  match goal with |- context [snd ?p] =>
    replace (snd p) with (@nil frame) by (by destruct (_ <=? _)) end.
  rewrite (sim_esc _ _ Hs). set (d := view drv w) in *.
  set (d1 := if esc a then set_next_escaped false d else d).
  set (b1 := if esc a then Z.lxor b 0x20 else b).
  assert (Hs1 : sim d1 (Deframer (body a) (covered a) false (peer_seq a))).
  { subst d1. destruct (esc a) eqn:Hesc, Hs; split; cbn; congruence || done. }
  set (w1 := store drv (set_crc (crc16_ccitt (crc d1) [b1]) d1) w).
  destruct (save_step w1 d1 _ b1 Hs1) as (d' & Hsave & Hs' & Hn); [apply view_store|].
  exists d'. split.
  - transitivity ((hdlc_save_byte drv b1 ≫= λ _, mret ()) w1).
    { subst d1 b1 w1. unfold modL, zoom, modS. cbv [mbind M_bind mret M_ret].
      destruct (esc a); by rewrite ?view_store, ?store_store. }
    step_with Hsave. subst w1. by rewrite store_store.
  - cbn [body covered peer_seq] in Hs'. rewrite (sim_esc _ _ Hs1) in Hn. cbn in Hn.
    replace d' with (set_next_escaped false d') by (rewrite <-Hn; by destruct d').
    revert Hs'. subst b1. by destruct (_ <=? _).
Qed.

(** *** A buffer *)

Lemma process_bytes_refines bs w a :
  sim (view drv w) a → Forall good (snd (deframe a bs)) →
  ∃ d', process_bytes drv cb bs w = outcome (snd (deframe a bs)) d' w
      ∧ sim d' (fst (deframe a bs)).
Proof.
  revert w a. induction bs as [|b bs IH]; intros w a Hs; cbn [process_bytes deframe].
  { intros _. exists (view drv w). split; [|done]. apply outcome_nil. by rewrite store_view. }
  pose proof (byte_step w a b Hs) as Hstep.
  destruct (deframe_byte a b) as [a1 fs1]. destruct (deframe a1 bs) as [a2 fs2] eqn:Hrest.
  cbn [fst snd] in *. intros [Hg1 Hg2]%Forall_app.
  destruct (Hstep Hg1) as (d1 & Hrun & Hs1).
  unfold mbind, M_bind. rewrite Hrun. unfold outcome, mbind, M_bind.
  rewrite (deliver_all_app fs1 fs2 w). unfold mbind, M_bind.
  destruct (deliver_all fs1 w) as [[] w1|e].
  - destruct (IH (store drv d1 w1) a1) as (d2 & Hrun2 & Hs2);
      [by rewrite view_store|by rewrite Hrest|]. rewrite Hrest in *.
    exists d2. split; [|done]. unfold modS at 1. rewrite Hrun2.
    unfold outcome, mbind, M_bind. cbn [snd]. rewrite deliver_all_store.
    unfold outcome, mbind, M_bind.
    destruct (deliver_all fs2 w1) as [[] w2|e]; [|done]. unfold modS. by rewrite store_store.
  - destruct (IH (store drv d1 w) a1) as (d2 & _ & Hs2);
      [by rewrite view_store|by rewrite Hrest|]. rewrite Hrest in Hs2. eauto.
Qed.

Lemma hdlc_process_buffer_outcome bs w a :
  sim (view drv w) a → Forall good (snd (deframe a bs)) →
  ∃ d', hdlc_process_buffer drv cb bs w
        = (outcome (snd (deframe a bs)) d' ≫= λ _, mret (length bs : Z)) w
      ∧ sim d' (fst (deframe a bs)).
Proof.
  intros Hs Hg. destruct (process_bytes_refines bs w a Hs Hg) as (d' & Hrun & Hs').
  exists d'. split; [|done]. unfold hdlc_process_buffer, mbind, M_bind. by rewrite Hrun.
Qed.
End Refinement.

(** *** The receiver on its own *)

Section Recording.
Context `{Config, !ConfigOk _, Crc16, !Crc16Laws}.

(** The driver and the frames handed to [process_callback_frame_cb], each cut
    to the length it is told. *)
Definition rx_world : Type := hdlc_driver * list frame.

Definition rx_driver : lens rx_world hdlc_driver :=
  Lens fst (λ d w, (d, snd w)).

#[export] Instance rx_driver_laws : LensLaws rx_driver.
Proof. by split; [|intros []|]. Qed.

Definition record_frame (buffer : list Z) (len address : Z) : M rx_world Z :=
  _ ← modS (λ w, (fst w, snd w ++ [(address, take (Z.to_nat len) buffer)]));
  mret 0.

Definition record (f : frame) : M rx_world () := modS (λ w, (fst w, snd w ++ [f])).

Lemma record_all fs d d' tr :
  outcome rx_driver record fs d' (d, tr) = Done () (d', tr ++ fs).
Proof.
  revert tr. induction fs as [|f fs IH]; intros tr; [by rewrite app_nil_r|].
  specialize (IH (tr ++ [f])). by rewrite <-app_assoc in IH.
Qed.

(** The receiver hands over exactly the frames of the abstract deframer. *)
Lemma hdlc_process_buffer_refines d a fs bs :
  sim d a →
  ∃ d', hdlc_process_buffer rx_driver record_frame bs (d, fs)
        = Done (length bs : Z) (d', fs ++ snd (deframe a bs))
      ∧ sim d' (fst (deframe a bs)).
Proof.
  intros Hs.
  destruct (hdlc_process_buffer_outcome rx_driver record_frame (λ _, True) record
    ltac:(done) ltac:(done) bs (d, fs) a Hs) as (d' & Hrun & Hs').
  { by apply Forall_true. }
  exists d'. split; [|done]. rewrite Hrun. by step_with (record_all (snd (deframe a bs)) d d' fs).
Qed.
End Recording.

(** ** What the abstract receiver guarantees *)

Section Guarantees.
Context `{Config, !ConfigOk _, Crc16, !Crc16Laws}.

Lemma special_stuffed b :
  special b = true → Z.lxor b 0x20 ≠ HDLC_FRAME ∧ Z.lxor b 0x20 ≠ HDLC_ESC.
Proof.
  unfold special. intros [Hb%Z.eqb_eq|Hb%Z.eqb_eq]%orb_true_iff; subst b; by split.
Qed.

Lemma deframe_plain a b :
  b ≠ HDLC_FRAME → b ≠ HDLC_ESC → length (body a) < HDLC_MAX_BLOCK_SIZE →
  let b' := if esc a then Z.lxor b 0x20 else b in
  deframe_byte a b = (Deframer (body a ++ [b']) (covered a ++ [b']) false (peer_seq a), []).
Proof.
  intros Hf He Hl. unfold deframe_byte.
  destruct (Z.eqb_spec b HDLC_FRAME); [done|]. destruct (Z.eqb_spec b HDLC_ESC); [done|].
  destruct (Z.leb_spec HDLC_MAX_BLOCK_SIZE (length (body a))); [lia|done].
Qed.

Lemma deframe_stuff_byte a b :
  esc a = false → length (body a) < HDLC_MAX_BLOCK_SIZE →
  deframe a (stuff_byte b) = (Deframer (body a ++ [b]) (covered a ++ [b]) false (peer_seq a), []).
Proof.
  intros He Hl. unfold stuff_byte. destruct (special b) eqn:Hs.
  - destruct (special_stuffed _ Hs).
    rewrite (deframe_quiet _ HDLC_ESC _ (Deframer (body a) (covered a) true (peer_seq a))) by done.
    rewrite deframe_one, deframe_plain by done. cbn. by rewrite lxor_cancel.
  - unfold special in Hs. apply orb_false_iff in Hs as [?%Z.eqb_neq ?%Z.eqb_neq].
    rewrite deframe_one, deframe_plain by done. by rewrite He.
Qed.

Lemma deframe_stuff a bs :
  esc a = false → length (body a) + length bs <= HDLC_MAX_BLOCK_SIZE →
  deframe a (stuff bs) = (Deframer (body a ++ bs) (covered a ++ bs) false (peer_seq a), []).
Proof.
  revert a. induction bs as [|b bs IH]; intros a He Hl.
  { cbn. rewrite !app_nil_r, <-He. by destruct a. }
  cbn [length] in Hl. rewrite stuff_cons, deframe_app, deframe_stuff_byte by (done || lia).
  rewrite IH; cbn; [by rewrite <-!app_assoc|done|]. rewrite length_app. cbn. lia.
Qed.

(** The receiver is at a frame boundary: only the peer's sequence number is kept. *)
Definition at_boundary (q : Z) : deframer := Deframer [] [] false q.

Lemma accepts_body a :
  body a ≠ [] → 3 < length (body a) → crc16_ccitt 0xffff (covered a) = 0xf0b8 → accepts a = true.
Proof.
  intros _ Hl Hc. unfold accepts. rewrite Hc. apply andb_true_iff. split; [|done].
  by apply Z.ltb_lt.
Qed.

(** An information frame (odd control byte) is delivered, and the receiver is
    back at the boundary. *)
Lemma deframe_frame q address control payload :
  is_u8 address → is_u8 control → bytes payload →
  length payload + 4 <= HDLC_MAX_BLOCK_SIZE →
  deframe (at_boundary q) (frame_bytes address control payload)
  = if Z.land control 1 =? 0
    then (at_boundary (Z.land (Z.shiftr control 5) 0x07), [])
    else (at_boundary q, [(address, payload)]).
Proof.
  intros Ha Hc Hp Hl. unfold frame_bytes.
  rewrite (deframe_quiet _ HDLC_FRAME _ (at_boundary q)) by done.
  rewrite deframe_app, deframe_stuff;
    [|done|cbn [at_boundary body length]; rewrite length_frame_body; lia].
  cbn [at_boundary body covered peer_seq app].
  rewrite deframe_one. set (a := Deframer _ _ _ _).
  assert (Hacc : accepts a = true).
  { apply accepts_body; cbn [a body covered].
    - done.
    - rewrite length_frame_body. lia.
    - by apply frame_body_residue. }
  unfold deframe_byte. rewrite Hacc. cbn [Z.eqb HDLC_FRAME Pos.eqb a body frame_body app esc peer_seq].
  destruct (_ =? 0); [done|]. cbn [app]. repeat f_equal.
  rewrite length_app. unfold fcs. rewrite length_le_bytes, Nat.add_sub. by apply take_app_length.
Qed.

(** *** A stream of frames *)

Record packet := Packet { p_address : Z; p_control : Z; p_payload : list Z }.

Definition packet_ok (p : packet) : Prop :=
  is_u8 (p_address p) ∧ is_u8 (p_control p) ∧ Z.odd (p_control p) = true ∧
  bytes (p_payload p) ∧ length (p_payload p) + 4 <= HDLC_MAX_BLOCK_SIZE.

Definition packet_wire (p : packet) : list Z :=
  frame_bytes (p_address p) (p_control p) (p_payload p).

Definition packet_frame (p : packet) : frame := (p_address p, p_payload p).

Lemma land_1_odd z : (Z.land z 1 =? 0) = negb (Z.odd z).
Proof.
  change 1 with (Z.ones 1). rewrite Z.land_ones by lia.
  change (2 ^ 1) with 2. rewrite Zmod_odd. by destruct (Z.odd z).
Qed.

Lemma deframe_packets q ps :
  Forall packet_ok ps →
  deframe (at_boundary q) (ps ≫= packet_wire) = (at_boundary q, packet_frame <$> ps).
Proof.
  induction 1 as [|p ps (Ha & Hc & Ho & Hp & Hl) Hps IH]; [done|].
  cbn [mbind list_bind]. rewrite deframe_app. unfold packet_wire at 1.
  rewrite deframe_frame by done. rewrite land_1_odd, Ho. cbn [negb].
  change (list_bind _ _ packet_wire ps) with (ps ≫= packet_wire). by rewrite IH.
Qed.

(** C16: Received after one another, the transmitter's frames for any packets that fit the
    buffer (any bytes, flags and escapes included) are delivered exactly once each, in order,
    with their addresses and payloads, and leave the receiver between frames. *)
Theorem hdlc_roundtrip d q fs ps :
  sim d (at_boundary q) → Forall packet_ok ps →
  ∃ d', hdlc_process_buffer rx_driver record_frame (ps ≫= packet_wire) (d, fs)
        = Done (length (ps ≫= packet_wire) : Z) (d', fs ++ (packet_frame <$> ps))
      ∧ sim d' (at_boundary q).
Proof.
  intros Hs Hps.
  destruct (hdlc_process_buffer_refines d _ fs (ps ≫= packet_wire) Hs) as (d' & Hrun & Hs').
  rewrite deframe_packets in Hrun, Hs' by done. eauto.
Qed.

(** *** Integrity and resynchronisation *)

(** What the checksum covers: the whole body, or, after an overflow, all of
    it but the first byte. *)
Definition coverage (a : deframer) : Prop :=
  (covered a = body a ∨ ∃ b, body a = b :: covered a).

Lemma coverage_byte a b : coverage a → coverage (fst (deframe_byte a b)).
Proof.
  intros Ha. unfold deframe_byte.
  destruct (b =? HDLC_FRAME).
  { destruct (body a) as [|x [|y rest]] eqn:Hb; cbn [fst]; [done|by left|].
    destruct (accepts a); [|by left]. destruct (_ =? 0); by left. }
  destruct (b =? HDLC_ESC); [done|].
  destruct (_ <=? _); cbn [fst]; [right; by eexists|].
  destruct Ha as [Ha|[x Ha]]; [left|right; exists x]; cbn; by rewrite Ha.
Qed.

Lemma coverage_deframe a bs : coverage a → coverage (fst (deframe a bs)).
Proof.
  revert a. induction bs as [|b bs IH]; intros a Ha; cbn [deframe]; [done|].
  apply (coverage_byte a b) in Ha. destruct (deframe_byte a b) as [a1 fs1].
  specialize (IH a1 Ha). by destruct (deframe a1 bs).
Qed.

Lemma deframe_byte_emits a b address payload :
  (address, payload) ∈ snd (deframe_byte a b) →
  ∃ control check,
    body a = address :: control :: payload ++ check ∧ length check = 2%nat ∧
    Z.odd control = true ∧ crc16_ccitt 0xffff (covered a) = 0xf0b8.
Proof.
  unfold deframe_byte. destruct (b =? HDLC_FRAME); cycle 1.
  { destruct (b =? HDLC_ESC); [intros []%elem_of_nil|]. destruct (_ <=? _); intros []%elem_of_nil. }
  destruct (body a) as [|x [|y rest]] eqn:Hb; [intros []%elem_of_nil..|].
  destruct (accepts a) eqn:Hacc; [|intros []%elem_of_nil].
  rewrite land_1_odd. destruct (Z.odd y) eqn:Ho; [|intros []%elem_of_nil].
  intros [= -> ->]%list_elem_of_singleton. unfold accepts in Hacc. rewrite Hb in Hacc.
  apply andb_true_iff in Hacc as [Hl%Z.ltb_lt Hc%Z.eqb_eq]. cbn in Hl.
  exists y, (drop (length rest - 2) rest). rewrite take_drop, length_drop.
  repeat split; [lia|done..].
Qed.

(** What the check bytes of a delivered frame vouch for. *)
Definition checked (f : frame) : Prop :=
  ∃ control check,
    length check = 2%nat ∧ Z.odd control = true ∧
    (crc16_ccitt 0xffff (fst f :: control :: snd f ++ check) = 0xf0b8
     ∨ crc16_ccitt 0xffff (control :: snd f ++ check) = 0xf0b8).

Lemma deframe_checked a bs : coverage a → Forall checked (snd (deframe a bs)).
Proof.
  revert a. induction bs as [|b bs IH]; intros a Ha; cbn [deframe]; [constructor|].
  pose proof (deframe_byte_emits a b) as Hemit.
  pose proof (coverage_byte a b Ha) as Ha1.
  destruct (deframe_byte a b) as [a1 fs1]. specialize (IH a1 Ha1).
  destruct (deframe a1 bs) as [a2 fs2]. cbn [snd] in *. apply Forall_app. split; [|done].
  apply Forall_forall. intros [address payload] (control & check & Hb & Hl & Ho & Hc)%Hemit.
  exists control, check. split; [done|]. split; [done|].
  destruct Ha as [Ha|[x Ha]]; rewrite Hb in Ha; rewrite ?Ha in *; [by left|].
  injection Ha as -> Ha. rewrite <-Ha in Hc. by right.
Qed.

(** C18: Whatever bytes arrive, the receiver handles them without a fault and delivers only
    frames whose check bytes match: the checksum of its control byte, payload and check bytes is
    the residue 0xf0b8, over its address too unless the frame followed a buffer overflow. *)
Theorem hdlc_delivers_checked d q bs :
  sim d (at_boundary q) →
  ∃ d' fs, hdlc_process_buffer rx_driver record_frame bs (d, []) = Done (length bs : Z) (d', fs) ∧
    Forall checked fs.
Proof.
  intros (d' & Hrun & _)%(λ H, hdlc_process_buffer_refines d _ [] bs H).
  exists d', (snd (deframe (at_boundary q) bs)). split; [done|].
  apply deframe_checked. by left.
Qed.

(** A flag ends whatever was being received. *)
Lemma deframe_flag a :
  esc a = false → (body a = [] → covered a = []) →
  ∃ q, fst (deframe_byte a HDLC_FRAME) = at_boundary q.
Proof.
  intros He Hc. unfold deframe_byte. cbn [Z.eqb HDLC_FRAME Pos.eqb]. rewrite He.
  destruct (body a) as [|x [|y rest]] eqn:Hb; cbn [fst].
  - exists (peer_seq a). specialize (Hc eq_refl). destruct a. cbn in *. by subst.
  - by eexists.
  - destruct (accepts a); [|by eexists]. by destruct (_ =? 0); eexists.
Qed.

(** C21: After any noise that does not end in the middle of an escape, the next well-formed
    frame is delivered: the receiver never stays out of step. *)
Theorem hdlc_resynchronises d a fs noise p :
  sim d a → packet_ok p → esc (fst (deframe a noise)) = false →
  ∃ d' fs' q, hdlc_process_buffer rx_driver record_frame (noise ++ packet_wire p) (d, fs)
              = Done (length (noise ++ packet_wire p) : Z) (d', fs' ++ [packet_frame p])
            ∧ sim d' (at_boundary q).
Proof.
  intros Hs (Ha & Hc & Ho & Hp & Hl) He.
  destruct (hdlc_process_buffer_refines d a fs noise Hs) as (d1 & _ & Hs1).
  destruct (hdlc_process_buffer_refines d a fs (noise ++ packet_wire p) Hs) as (d' & Hrun & Hs').
  rewrite deframe_app in Hrun, Hs'. destruct (deframe a noise) as [a1 fs1]. cbn [fst] in *.
  destruct (deframe_flag a1 He (sim_empty _ _ Hs1)) as [q Hq].
  assert (Hp1 : ∃ fs2, deframe a1 (packet_wire p) = (at_boundary q, fs2 ++ [packet_frame p])).
  { destruct (deframe_byte a1 HDLC_FRAME) as [a2 fs2] eqn:Hflag. cbn in Hq. subst a2.
    exists fs2. pose proof (deframe_frame q _ _ _ Ha Hc Hp Hl) as Hframe.
    rewrite land_1_odd, Ho in Hframe. unfold packet_wire, frame_bytes in *.
    rewrite (deframe_quiet _ HDLC_FRAME _ (at_boundary q)) in Hframe by done.
    cbn [deframe]. by rewrite Hflag, Hframe. }
  destruct Hp1 as [fs2 Hp1]. rewrite Hp1 in Hrun, Hs'. cbn [fst snd] in *.
  exists d', (fs ++ fs1 ++ fs2), q. by rewrite <-!app_assoc.
Qed.

(** With the escape flag set, a well-formed frame is received with its first byte changed,
    so its checksum fails. *)
Lemma deframe_escaped_packet q p :
  packet_ok p → special (p_address p) = false →
  deframe (Deframer [] [] true q) (packet_wire p) = (at_boundary q, []).
Proof.
  intros (Ha & Hc & Ho & Hp & Hl) Hsp.
  unfold packet_wire, frame_bytes, frame_body. destruct p as [addr ctl pay].
  cbn [p_address p_control p_payload app] in *. set (hd := addr :: ctl :: pay).
  change (hd ++ fcs hd) with (addr :: (ctl :: pay) ++ fcs hd). set (tl := (ctl :: pay) ++ fcs hd).
  assert (Hlen : length tl = (length pay + 3)%nat).
  { subst tl. rewrite length_app. unfold fcs. rewrite length_le_bytes. cbn. lia. }
  set (a1 := Deframer [] [] true q).
  rewrite (deframe_quiet _ _ _ a1) by done.
  rewrite stuff_cons. unfold stuff_byte. rewrite Hsp.
  unfold special in Hsp. apply orb_false_iff in Hsp as [Hf%Z.eqb_neq Hne%Z.eqb_neq].
  cbn [app]. rewrite (deframe_quiet a1 addr _ (Deframer [Z.lxor addr 0x20] [Z.lxor addr 0x20] false q)).
  2:{ rewrite deframe_plain; [done..|]. cbn. pose proof hdlc_block_ok. unfold HDLC_MAX_BLOCK_SIZE. lia. }
  rewrite deframe_app, (deframe_stuff _ tl); [|done|cbn [body]; rewrite Hlen; cbn; lia].
  cbn [body covered peer_seq app]. rewrite deframe_one.
  assert (Hacc : accepts (Deframer (Z.lxor addr 0x20 :: tl) (Z.lxor addr 0x20 :: tl) false q) = false).
  { unfold accepts. cbn [covered body]. apply andb_false_iff. right. apply Z.eqb_neq.
    rewrite <-(frame_body_residue addr ctl pay) by done. apply crc16_burst; [done| |done| |].
    - apply lxor_is_u8; [done|]. by unfold is_u8.
    - intros Heq. assert (Z.lxor addr (Z.lxor addr 0x20) = 0) as H0' by (rewrite Heq; apply Z.lxor_nilpotent).
      rewrite <-Z.lxor_assoc, Z.lxor_nilpotent in H0'. done.
    - change (bytes ((ctl :: pay) ++ fcs hd)). apply Forall_app_2; [auto with machine|apply le_bytes_bytes]. }
  unfold deframe_byte. rewrite Hacc. cbn [Z.eqb HDLC_FRAME Pos.eqb body esc peer_seq].
  by destruct tl as [|y rest].
Qed.

(** An escape directly before a flag outlives it: the following well-formed frame is not
    delivered. *)
Theorem hdlc_abort_drops_next_frame d q fs p :
  sim d (at_boundary q) → packet_ok p → special (p_address p) = false →
  ∃ d', hdlc_process_buffer rx_driver record_frame
          ([HDLC_ESC; HDLC_FRAME] ++ packet_wire p) (d, fs)
        = Done (length ([HDLC_ESC; HDLC_FRAME] ++ packet_wire p) : Z) (d', fs)
      ∧ sim d' (at_boundary q).
Proof.
  intros Hs Hp Hsp.
  destruct (hdlc_process_buffer_refines d _ fs ([HDLC_ESC; HDLC_FRAME] ++ packet_wire p) Hs)
    as (d' & Hrun & Hs').
  cut (deframe (at_boundary q) ([HDLC_ESC; HDLC_FRAME] ++ packet_wire p) = (at_boundary q, [])).
  { intros Heq. rewrite Heq in Hrun, Hs'. cbn [fst snd] in *. rewrite app_nil_r in Hrun. eauto. }
  cbn [app]. do 2 rewrite (deframe_quiet _ _ _ (Deframer [] [] true q)) by done.
  by apply deframe_escaped_packet.
Qed.

(** When the buffer is full, the byte that does not fit becomes the first of the next frame
    and is not covered by the checksum: a frame inside an overlong one is delivered to that byte
    as its address. *)
Theorem hdlc_overflow_shifts_frame d a fs b address control payload :
  sim d a → length (body a) = HDLC_MAX_BLOCK_SIZE :> Z → esc a = false → is_u8 b →
  is_u8 address → is_u8 control → bytes payload → Z.odd address = true →
  length payload + 5 <= HDLC_MAX_BLOCK_SIZE →
  let stream := stuff (b :: frame_body address control payload) ++ [HDLC_FRAME] in
  ∃ d', hdlc_process_buffer rx_driver record_frame stream (d, fs)
        = Done (length stream : Z) (d', fs ++ [(b, control :: payload)]).
Proof.
  intros Hs Hfull He Hb Ha Hc Hp Ho Hl stream.
  destruct (hdlc_process_buffer_refines d a fs stream Hs) as (d' & Hrun & _).
  exists d'. rewrite Hrun. do 3 f_equal. subst stream. clear Hrun.
  assert (Hover : deframe a (stuff_byte b) = (Deframer [b] [] false (peer_seq a), [])).
  { unfold stuff_byte. destruct (special b) eqn:Hsp.
    - destruct (special_stuffed _ Hsp) as [Hf Hne].
      rewrite (deframe_quiet _ HDLC_ESC _ (Deframer (body a) (covered a) true (peer_seq a))) by done.
      rewrite deframe_one. unfold deframe_byte.
      rewrite (proj2 (Z.eqb_neq _ _) Hf), (proj2 (Z.eqb_neq _ _) Hne). cbn [body esc].
      rewrite (proj2 (Z.leb_le _ _)) by lia. by rewrite lxor_cancel.
    - unfold special in Hsp. apply orb_false_iff in Hsp as [Hf Hne].
      rewrite deframe_one. unfold deframe_byte. rewrite Hf, Hne, He.
      by rewrite (proj2 (Z.leb_le _ _)) by lia. }
  rewrite stuff_cons, <-app_assoc, deframe_app, Hover, deframe_app.
  rewrite deframe_stuff; [|done|cbn [body length]; rewrite length_frame_body; lia].
  cbn [body covered peer_seq app]. rewrite deframe_one. set (a1 := Deframer _ _ _ _).
  assert (Hacc : accepts a1 = true).
  { apply accepts_body; cbn [a1 body covered].
    - done.
    - cbn [length]. rewrite length_frame_body. lia.
    - by apply frame_body_residue. }
  unfold deframe_byte. rewrite Hacc. cbn [Z.eqb HDLC_FRAME Pos.eqb a1 body frame_body app].
  rewrite land_1_odd, Ho. cbn [negb snd app]. repeat f_equal.
  cbn [length]. rewrite length_app. unfold fcs. rewrite length_le_bytes.
  rewrite app_comm_cons. replace (S _ - 2)%nat with (length (control :: payload)) by (cbn; lia).
  by apply take_app_length.
Qed.
End Guarantees.
