(* ===== verification/Crc.v ===== *)
(** * A checksum satisfying the laws of [crc16_ccitt]

    The bit-serial form of the reflected CRC-16 with polynomial 0x1021
    (0x8408 reflected), at which the theorems that assume [Crc16Laws] are
    instantiated. *)

From S2P Require Import Prelude Config Hdlc HdlcRx.

Definition crc_bit (c : Z) : Z :=
  if Z.odd c then Z.lxor (Z.shiftr c 1) 0x8408 else Z.shiftr c 1.

Definition crc_bits (c : Z) : Z := Nat.iter 8 crc_bit c.

Definition crc_byte (c b : Z) : Z := crc_bits (Z.lxor c b).

Definition reflected_crc16 : Crc16 := λ c bs, fold_left crc_byte bs c.

Lemma odd_lxor a b : Z.odd (Z.lxor a b) = xorb (Z.odd a) (Z.odd b).
Proof. by rewrite <-!Z.bit0_odd, Z.lxor_spec. Qed.

Lemma crc_bit_lxor a b : crc_bit (Z.lxor a b) = Z.lxor (crc_bit a) (crc_bit b).
Proof.
  unfold crc_bit. rewrite odd_lxor, Z.shiftr_lxor.
  destruct (Z.odd a), (Z.odd b); cbn [xorb]; apply Z.bits_inj'; intros i Hi;
    rewrite !Z.lxor_spec; by repeat destruct (Z.testbit _ i).
Qed.

Lemma iter_crc_bit_lxor n a b :
  Nat.iter n crc_bit (Z.lxor a b) = Z.lxor (Nat.iter n crc_bit a) (Nat.iter n crc_bit b).
Proof. induction n as [|n IH]; [done|]. rewrite !Nat.iter_succ. by rewrite IH, crc_bit_lxor. Qed.

Lemma iter_crc_bit_shiftl n h : Nat.iter n crc_bit (Z.shiftl h n) = h.
Proof.
  revert h. induction n as [|n IH]; intros h; [by rewrite Z.shiftl_0_r|].
  rewrite Nat.iter_succ_r. unfold crc_bit at 2.
  replace (Z.shiftl h (S n)) with (2 * Z.shiftl h n).
  - rewrite Z.odd_mul. cbn [andb Z.odd]. rewrite Z.shiftr_div_pow2 by lia.
    change (2 ^ 1) with 2. rewrite Z.mul_comm, Z.div_mul by done. apply IH.
  - rewrite !Z.shiftl_mul_pow2 by lia. rewrite Nat2Z.inj_succ, Z.pow_succ_r by lia. lia.
Qed.

Lemma crc_bit_range c : is_u16 c → is_u16 (crc_bit c).
Proof.
  intros Hc. unfold crc_bit. assert (is_u16 (Z.shiftr c 1)).
  { rewrite Z.shiftr_div_pow2 by lia. mlia. }
  destruct (Z.odd c); [|done]. by apply lxor_is_u16.
Qed.

Lemma u8_lxor a b : u8 (Z.lxor a b) = Z.lxor (u8 a) (u8 b).
Proof.
  unfold u8. rewrite <-!Z.land_ones by lia. apply Z.bits_inj'. intros i Hi.
  rewrite !Z.lxor_spec, !Z.land_spec, Z.lxor_spec. by repeat destruct (Z.testbit _ i).
Qed.

Lemma u16_halves c : is_u16 c → c = Z.lxor (Z.shiftl (Z.shiftr c 8) 8) (u8 c).
Proof.
  intros Hc. unfold u8. rewrite <-Z.land_ones by lia. apply Z.bits_inj'. intros i Hi.
  rewrite Z.lxor_spec, Z.land_spec, Z.shiftl_spec, Z.testbit_ones_nonneg by lia.
  destruct (Z.ltb_spec i 8).
  - rewrite (Z.testbit_neg_r _ (i - 8)) by lia. by rewrite andb_true_r, xorb_false_l.
  - rewrite Z.shiftr_spec, Z.sub_add by lia. by rewrite andb_false_r, xorb_false_r.
Qed.

(** Complementing and appending the checksum leaves a constant. *)
Lemma crc_residue c :
  is_u16 c →
  crc_byte (crc_byte c (u8 (Z.lxor c 0xffff))) (u8 (Z.shiftr (Z.lxor c 0xffff) 8)) = 0xf0b8.
Proof.
  intros Hc. set (h := Z.shiftr c 8).
  assert (Hh : is_u8 h) by (subst h; rewrite Z.shiftr_div_pow2 by lia; mlia).
  assert (Hlo : Z.lxor c (u8 (Z.lxor c 0xffff)) = Z.lxor (Z.shiftl h 8) 0xff).
  { rewrite u8_lxor. rewrite (u16_halves c Hc) at 1. fold h.
    rewrite Z.lxor_assoc, <-(Z.lxor_assoc (u8 c)), Z.lxor_nilpotent, Z.lxor_0_l. done. }
  assert (Hhi : u8 (Z.shiftr (Z.lxor c 0xffff) 8) = Z.lxor h 0xff).
  { rewrite Z.shiftr_lxor. fold h. by rewrite u8_lxor, (u8_id h). }
  unfold crc_byte. rewrite Hlo, Hhi. unfold crc_bits at 2.
  rewrite iter_crc_bit_lxor. change 8 with (Z.of_nat 8).
  rewrite iter_crc_bit_shiftl, (Z.lxor_comm h (Nat.iter _ _ _)), Z.lxor_assoc.
  rewrite <-(Z.lxor_assoc h), Z.lxor_nilpotent, Z.lxor_0_l. done.
Qed.

(** The step is injective, so an error in one byte survives. *)
Lemma crc_bit_zero x : is_u16 x → crc_bit x = 0 → x = 0.
Proof.
  unfold crc_bit. intros Hx H0. destruct (Z.odd x) eqn:Ho.
  - apply Z.lxor_eq in H0. rewrite Z.shiftr_div_pow2 in H0 by lia. mlia.
  - rewrite Z.shiftr_div_pow2 in H0 by lia. pose proof (Zmod_odd x). rewrite Ho in *. mlia.
Qed.

Lemma crc_bits_inj x y : is_u16 x → is_u16 y → crc_bits x = crc_bits y → x = y.
Proof.
  unfold crc_bits. generalize 8%nat. intros n. revert x y.
  induction n as [|n IH]; intros x y Hx Hy; [done|].
  rewrite !Nat.iter_succ_r. intros Heq.
  apply IH in Heq; [|by apply crc_bit_range..].
  apply Z.lxor_eq, crc_bit_zero; [by apply lxor_is_u16|].
  by rewrite crc_bit_lxor, Heq, Z.lxor_nilpotent.
Qed.

Lemma crc_byte_inj c1 c2 b1 b2 :
  is_u16 (Z.lxor c1 b1) → is_u16 (Z.lxor c2 b2) → crc_byte c1 b1 = crc_byte c2 b2 →
  Z.lxor c1 b1 = Z.lxor c2 b2.
Proof. apply crc_bits_inj. Qed.

Lemma u8_u16 b : is_u8 b → is_u16 b.
Proof. mlia. Qed.

Lemma crc_byte_range c b : is_u16 c → is_u8 b → is_u16 (crc_byte c b).
Proof.
  intros Hc Hb. unfold crc_byte, crc_bits. apply Nat.iter_invariant.
  - intros; by apply crc_bit_range.
  - apply lxor_is_u16; [done|by apply u8_u16].
Qed.

Lemma fold_crc_inj c1 c2 bs :
  is_u16 c1 → is_u16 c2 → bytes bs → fold_left crc_byte bs c1 = fold_left crc_byte bs c2 → c1 = c2.
Proof.
  intros Hc1 Hc2 Hbs. revert c1 c2 Hc1 Hc2.
  induction Hbs as [|b bs Hb Hbs IH]; intros c1 c2 Hc1 Hc2; [done|]. cbn [fold_left].
  intros Heq%IH; [|by apply crc_byte_range..].
  apply crc_byte_inj in Heq; [|by apply lxor_is_u16; [|apply u8_u16]..].
  by rewrite <-(lxor_cancel c1 b), Heq, lxor_cancel.
Qed.

#[export] Instance reflected_crc16_laws : @Crc16Laws reflected_crc16.
Proof.
  split; unfold crc16_ccitt, reflected_crc16.
  - intros c bs Hc Hbs. revert c Hc. induction Hbs as [|b bs Hb Hbs IH]; intros c Hc; [done|].
    cbn [fold_left]. by apply IH, crc_byte_range.
  - done.
  - intros. apply fold_left_app.
  - intros c Hc. cbn [le_bytes fold_left]. by apply crc_residue.
  - intros c b1 b2 bs Hc Hb1 Hb2 Hne Hbs. cbn [fold_left]. contradict Hne.
    apply fold_crc_inj in Hne; [|by apply crc_byte_range..|done].
    apply crc_byte_inj in Hne; [|by apply lxor_is_u16; [|apply u8_u16]..].
    by rewrite <-(lxor_cancel b1 c), (Z.lxor_comm b1), Hne, (Z.lxor_comm c), lxor_cancel.
Qed.

(** The published check value of this checksum (CRC-16/X-25 of "123456789"). *)
Example reflected_crc16_check :
  Z.lxor (reflected_crc16 0xffff [0x31; 0x32; 0x33; 0x34; 0x35; 0x36; 0x37; 0x38; 0x39]) 0xffff
  = 0x906e.
Proof. reflexivity. Qed.
