(* ===== verification/RxQueue.v ===== *)
(** * From the UART interrupt to the HDLC receiver (src/main.c, src/hdlc.c)

    The interrupt handler [serial_callback] moves bytes from the UART FIFO into
    a ring buffer and submits a work item; the work queue runs
    [hdlc_rx_handler], which feeds the receiver.  The ring buffer is Zephyr's,
    an interface ([RingBuf]) with the documented laws ([RingBufLaws]).  The two
    contexts interleave as the step relation [rx_step]. *)

From S2P Require Import Prelude Config Hdlc HdlcRx.

(** ** The ring buffer service *)

Class RingBuf := {
  ring : Type;
  (** [ring_buf_put_claim(rb, &data, size)]: the number of bytes that may be
      written at [data], which is given as an offset in the claimed space. *)
  ring_buf_put_claim : ring → Z → Z * Z * ring;
  (** The caller stores bytes in the claimed space. *)
  ring_buf_store : ring → Z → list Z → ring;
  (** [ring_buf_put_finish(rb, n)]: the first [n] claimed bytes are data now. *)
  ring_buf_put_finish : ring → Z → Z * ring;
  (** [ring_buf_get_claim(rb, &data, size)]: the contiguous data at the head. *)
  ring_buf_get_claim : ring → Z → list Z * ring;
  ring_buf_get_finish : ring → Z → Z * ring;
  (** Observers for the laws: the queued bytes, the bytes in the space claimed
      for writing, and the size of an open claim for reading. *)
  ring_contents : ring → list Z;
  ring_claimed : ring → list Z;
  ring_get_claimed : ring → Z;
}.

(** Claims for writing add up until they are finished: the next one starts where
    the last one ended, and finishing starts at the first one.  A claim for reading
    is described when no other one is open. *)
Class RingBufLaws `{RingBuf} := {
  put_claim_law r size off n r' :
    0 <= size → ring_buf_put_claim r size = (off, n, r') →
    0 <= n <= size ∧ off = length (ring_claimed r) ∧ ring_contents r' = ring_contents r ∧
    ring_get_claimed r' = ring_get_claimed r ∧
    ∃ area, length area = n :> Z ∧ ring_claimed r' = ring_claimed r ++ area;
  store_law r pre old post bs :
    ring_claimed r = pre ++ old ++ post → length old = length bs →
    ring_contents (ring_buf_store r (length pre) bs) = ring_contents r ∧
    ring_get_claimed (ring_buf_store r (length pre) bs) = ring_get_claimed r ∧
    ring_claimed (ring_buf_store r (length pre) bs) = pre ++ bs ++ post;
  put_finish_law r n :
    0 <= n <= length (ring_claimed r) →
    ∃ r', ring_buf_put_finish r n = (0, r') ∧
      ring_contents r' = ring_contents r ++ take (Z.to_nat n) (ring_claimed r) ∧ ring_claimed r' = [] ∧
      ring_get_claimed r' = ring_get_claimed r;
  get_claim_law r size data r' :
    0 <= size → ring_get_claimed r = 0 → ring_buf_get_claim r size = (data, r') →
    length data <= size ∧ ring_get_claimed r' = length data ∧
    ring_contents r' = ring_contents r ∧ ring_claimed r' = ring_claimed r ∧
    take (length data) (ring_contents r) = data ∧
    (0 < size → ring_contents r ≠ [] → data ≠ []);
  get_finish_law r n :
    0 <= n <= ring_get_claimed r → n <= length (ring_contents r) →
    ∃ r', ring_buf_get_finish r n = (0, r') ∧
      ring_contents r' = drop (Z.to_nat n) (ring_contents r) ∧ ring_claimed r' = ring_claimed r ∧
      ring_get_claimed r' = 0;
}.

Definition HDLC_RX_BUF_SIZE : Z := 1024.

(** ** Data and operations *)

(** [hdlc_rx_ringbuf] and whether [hdlc_rx_work] is queued. *)
Record rx_queue `{RingBuf} := RxQueue { hdlc_rx_ringbuf : ring; hdlc_rx_work : bool }.

Section Queue.
Context `{Config, Crc16, RingBuf}.

(** [*buf], the size that may be written there, and the state with the claim open. *)
Definition hdlc_rx_start (q : rx_queue) : Z * Z * rx_queue :=
  let '(buf, n, r) := ring_buf_put_claim (hdlc_rx_ringbuf q) HDLC_RX_BUF_SIZE in
  (buf, n, RxQueue _ r (hdlc_rx_work q)).

Definition hdlc_rx_finish (q : rx_queue) (written : Z) : Z * rx_queue :=
  let '(ret, r) := ring_buf_put_finish (hdlc_rx_ringbuf q) written in
  (ret, RxQueue _ r true).

(** What the UART driver answers in one interrupt: [uart_irq_update],
    [uart_irq_rx_ready], and [uart_fifo_read] as a function of the size. *)
Record uart := Uart {
  uart_irq_update : bool;
  uart_irq_rx_ready : bool;
  uart_fifo_read : Z → Z * list Z;
}.

(** The driver stores what it returns, and no more than it was asked for; it
    stores nothing when it fails. *)
Definition uart_ok (u : uart) : Prop :=
  ∀ size, 0 <= size →
    let '(ret, data) := uart_fifo_read u size in
    ret <= size ∧ (0 <= ret → length data = ret :> Z) ∧ (ret < 0 → data = []).

(** It never fails. *)
Definition uart_reads (u : uart) : Prop :=
  uart_ok u ∧ ∀ size, 0 <= size → 0 <= fst (uart_fifo_read u size).

(** The interrupt handler; the second result is what it took from the FIFO. *)
Definition serial_callback (u : uart) (q : rx_queue) : rx_queue * list Z :=
  if negb (uart_irq_update u) && negb (uart_irq_rx_ready u) then (q, [])
  else
    let '(buf, ret, q) := hdlc_rx_start q in
    if ret =? 0 then (q, [])
    else
      let '(ret, data) := uart_fifo_read u ret in
      let q := RxQueue _ (ring_buf_store (hdlc_rx_ringbuf q) buf data) (hdlc_rx_work q) in
      if ret <? 0 then (q, data)
      else
        let '(_, q) := hdlc_rx_finish q ret in
        (q, data).

Section Handler.
Context {W : Type} (drv : lens W hdlc_driver) (queue : lens W rx_queue).
Variable process_callback_frame_cb : list Z → Z → Z → M W Z.

Definition hdlc_rx_handler : M W () :=
  q ← getL queue;
  let '(data, r) := ring_buf_get_claim (hdlc_rx_ringbuf q) HDLC_RX_BUF_SIZE in
  _ ← modL queue (λ q, RxQueue _ r (hdlc_rx_work q));
  ret ← hdlc_process_buffer drv process_callback_frame_cb data;
  q ← getL queue;
  let '(_, r) := ring_buf_get_finish (hdlc_rx_ringbuf q) ret in
  modL queue (λ q, RxQueue _ r (hdlc_rx_work q)).
End Handler.
End Queue.

(** ** Interrupts and work interleaved *)

Section Interleaving.
Context `{Config, !ConfigOk _, Crc16, !Crc16Laws, RingBuf, !RingBufLaws}.

(** The receive path on its own: the queue, the driver with the frames it
    has delivered, and a history variable with the bytes read from the UART. *)
Record rx_sys := RxSys { s_queue : rx_queue; s_rx : rx_world; s_received : list Z }.

Definition sys_driver : lens rx_sys hdlc_driver :=
  Lens (λ s, fst (s_rx s)) (λ d s, RxSys (s_queue s) (d, snd (s_rx s)) (s_received s)).
Definition sys_queue : lens rx_sys rx_queue :=
  Lens s_queue (λ q s, RxSys q (s_rx s) (s_received s)).

Definition deliver (buffer : list Z) (len address : Z) : M rx_sys Z :=
  _ ← modS (λ s, RxSys (s_queue s)
              (fst (s_rx s), snd (s_rx s) ++ [(address, take (Z.to_nat len) buffer)])
              (s_received s));
  mret 0.

(** [P] says what the UART driver does. *)
Inductive rx_step (P : uart → Prop) : rx_sys → rx_sys → Prop :=
| step_interrupt s u q data :
    P u →
    serial_callback u (s_queue s) = (q, data) →
    rx_step P s (RxSys q (s_rx s) (s_received s ++ data))
| step_work s s' :
    hdlc_rx_work (s_queue s) = true →
    hdlc_rx_handler sys_driver sys_queue deliver
      (RxSys (RxQueue _ (hdlc_rx_ringbuf (s_queue s)) false) (s_rx s) (s_received s))
    = Done () s' →
    rx_step P s s'.

(** *** Nothing is lost, duplicated or reordered *)

#[export] Instance sys_driver_laws : LensLaws sys_driver.
Proof. split; [done|by intros [? [] ?]|done]. Qed.

#[export] Instance sys_queue_laws : LensLaws sys_queue.
Proof. split; [done|by intros []|done]. Qed.

Definition log_frame (f : frame) : M rx_sys () :=
  modS (λ s, RxSys (s_queue s) (fst (s_rx s), snd (s_rx s) ++ [f]) (s_received s)).

Lemma log_all fs d q d0 tr h :
  outcome sys_driver log_frame fs d (RxSys q (d0, tr) h)
  = Done () (RxSys q (d, tr ++ fs) h).
Proof.
  revert tr. induction fs as [|f fs IH]; intros tr; [by rewrite app_nil_r|].
  specialize (IH (tr ++ [f])). by rewrite <-app_assoc in IH.
Qed.

Definition no_claim (r : ring) : Prop := ring_claimed r = [] ∧ ring_get_claimed r = 0.

(** The frames delivered are those of the bytes [consumed] so far, and
    everything else received is still queued, in order; no claim is open. *)
Definition stream_inv (s : rx_sys) : Prop :=
  no_claim (hdlc_rx_ringbuf (s_queue s)) ∧
  ∃ consumed,
    s_received s = consumed ++ ring_contents (hdlc_rx_ringbuf (s_queue s)) ∧
    sim (fst (s_rx s)) (fst (deframe (at_boundary 0) consumed)) ∧
    snd (s_rx s) = snd (deframe (at_boundary 0) consumed).

Definition rx_initial (s : rx_sys) : Prop :=
  no_claim (hdlc_rx_ringbuf (s_queue s)) ∧
  ring_contents (hdlc_rx_ringbuf (s_queue s)) = [] ∧ s_received s = [] ∧
  snd (s_rx s) = [] ∧
  ∃ d, (length (rx_buffer d) : Z) = HDLC_MAX_BLOCK_SIZE ∧ fst (s_rx s) = hdlc_init d.

Lemma rx_initial_inv s : rx_initial s → stream_inv s.
Proof.
  intros (Hopen & Hc & Hr & Hf & d & Hd & Hi). split; [done|]. exists []. rewrite Hc, Hr, Hf, Hi.
  split; [done|split; [by apply sim_init|done]].
Qed.

(** One run of the handler consumes the contiguous data at the head. *)
Lemma hdlc_rx_handler_run q d tr h a :
  sim d a → ring_get_claimed (hdlc_rx_ringbuf q) = 0 →
  ∃ data q' d',
    hdlc_rx_handler sys_driver sys_queue deliver (RxSys q (d, tr) h)
      = Done () (RxSys q' (d', tr ++ snd (deframe a data)) h) ∧
    sim d' (fst (deframe a data)) ∧
    ring_contents (hdlc_rx_ringbuf q) = data ++ ring_contents (hdlc_rx_ringbuf q') ∧
    ring_claimed (hdlc_rx_ringbuf q') = ring_claimed (hdlc_rx_ringbuf q) ∧
    ring_get_claimed (hdlc_rx_ringbuf q') = 0 ∧
    hdlc_rx_work q' = hdlc_rx_work q ∧
    (ring_contents (hdlc_rx_ringbuf q) ≠ [] → data ≠ []) ∧
    data = fst (ring_buf_get_claim (hdlc_rx_ringbuf q) HDLC_RX_BUF_SIZE).
Proof.
  intros Hs Hnone. unfold hdlc_rx_handler. step_with (getL_spec sys_queue (RxSys q (d, tr) h)).
  cbn [view sys_queue s_queue].
  destruct (ring_buf_get_claim (hdlc_rx_ringbuf q) HDLC_RX_BUF_SIZE) as [data r] eqn:Hclaim.
  apply get_claim_law in Hclaim as (Hlen & Hopen & Hcont & Hcl & Hdata & Hprog); [|done..].
  set (w := RxSys (RxQueue _ r (hdlc_rx_work q)) (d, tr) h).
  destruct (hdlc_process_buffer_outcome sys_driver deliver (λ _, True) log_frame
    ltac:(done) ltac:(done) data w a Hs) as (d' & Hrun & Hs').
  { by apply Forall_true. }
  unfold mbind, M_bind in Hrun. unfold w at 2 in Hrun. rewrite log_all in Hrun. cbn in Hrun.
  assert (length data <= length (ring_contents r))%nat as Hle.
  { rewrite Hcont, <-Hdata at 1. rewrite length_take. lia. }
  destruct (get_finish_law r (length data)) as (r' & Hfin & Hrest & Hcl' & Hget'); [lia..|].
  exists data, (RxQueue _ r' (hdlc_rx_work q)), d'.
  split; [|split; [done|]]; cycle 1.
  { cbn [hdlc_rx_ringbuf hdlc_rx_work]. rewrite Hrest, Hcl', Nat2Z.id, Hcont.
    split; [|split_and!; [done|done|done|by apply Hprog|done]].
    rewrite <-Hdata at 1. by rewrite take_drop. }
  unfold mbind, M_bind, modL at 1, zoom, modS. cbn [view store sys_queue s_queue].
  cbn [s_rx s_received]. fold w. rewrite Hrun. unfold mret, M_ret.
  rewrite (getL_spec sys_queue). cbn [view sys_queue s_queue hdlc_rx_ringbuf]. by rewrite Hfin.
Qed.

(** A claim, and what the driver stores at it. *)
Lemma claim_and_store q buf n q1 bs :
  hdlc_rx_start q = (buf, n, q1) → length bs <= n →
  ∃ area rest, ring_claimed (hdlc_rx_ringbuf q1) = ring_claimed (hdlc_rx_ringbuf q) ++ area ∧
    length area = n :> Z ∧ rest = drop (length bs) area ∧
    ring_contents (hdlc_rx_ringbuf q1) = ring_contents (hdlc_rx_ringbuf q) ∧
    ring_contents (ring_buf_store (hdlc_rx_ringbuf q1) buf bs) = ring_contents (hdlc_rx_ringbuf q) ∧
    ring_claimed (ring_buf_store (hdlc_rx_ringbuf q1) buf bs)
    = ring_claimed (hdlc_rx_ringbuf q) ++ bs ++ rest ∧
    ring_get_claimed (hdlc_rx_ringbuf q1) = ring_get_claimed (hdlc_rx_ringbuf q) ∧
    ring_get_claimed (ring_buf_store (hdlc_rx_ringbuf q1) buf bs) = ring_get_claimed (hdlc_rx_ringbuf q).
Proof.
  unfold hdlc_rx_start.
  destruct (ring_buf_put_claim (hdlc_rx_ringbuf q) HDLC_RX_BUF_SIZE) as [[off n'] r] eqn:Hclaim.
  intros [= -> -> <-] Hle. cbn [hdlc_rx_ringbuf].
  apply put_claim_law in Hclaim as (Hn & -> & Hcont & Hg & area & Hlen & Hcl); [|done].
  destruct (store_law r (ring_claimed (hdlc_rx_ringbuf q)) (take (length bs) area) (drop (length bs) area) bs)
    as (Hcont' & Hg' & Hcl'); [by rewrite take_drop|rewrite length_take; lia|].
  exists area, (drop (length bs) area). split_and!; try done; [by rewrite Hcont'|by rewrite Hg'].
Qed.

Lemma serial_callback_received u q q' data :
  uart_reads u → no_claim (hdlc_rx_ringbuf q) → serial_callback u q = (q', data) →
  ring_contents (hdlc_rx_ringbuf q') = ring_contents (hdlc_rx_ringbuf q) ++ data ∧
  no_claim (hdlc_rx_ringbuf q') ∧ (data ≠ [] → hdlc_rx_work q' = true).
Proof.
  intros [Hu Hreads] [Hopen Hget]. unfold serial_callback.
  destruct (_ && _); [intros [= <- <-]; by rewrite app_nil_r|].
  destruct (hdlc_rx_start q) as [[buf n] q1] eqn:Hstart.
  destruct (claim_and_store q buf n q1 [] Hstart) as (area & _ & Hcl & Hlen & _ & Hcont & _ & _ & Hget1 & _).
  { unfold hdlc_rx_start in Hstart. destruct (ring_buf_put_claim _ _) as [[? ?] ?] eqn:Hc.
    injection Hstart as -> -> <-. apply put_claim_law in Hc as (? & _); [cbn; lia|done]. }
  rewrite Hopen in Hcl. destruct (Z.eqb_spec n 0) as [->|Hn].
  { intros [= <- <-]. unfold no_claim. rewrite app_nil_r, Hcl, Hget1, Hget. by destruct area. }
  specialize (Hu n ltac:(lia)). specialize (Hreads n ltac:(lia)).
  destruct (uart_fifo_read u n) as [ret bs]. cbn [fst] in Hreads. destruct Hu as (Hle & Hbs & _).
  specialize (Hbs Hreads). destruct (Z.ltb_spec ret 0); [lia|].
  destruct (claim_and_store q buf n q1 bs Hstart) as (area' & rest & _ & _ & _ & _ & Hcont' & Hcl' & _ & Hget'); [lia|].
  unfold hdlc_rx_finish. cbn [hdlc_rx_ringbuf]. rewrite Hopen in Hcl'. cbn [app] in Hcl'.
  destruct (put_finish_law (ring_buf_store (hdlc_rx_ringbuf q1) buf bs) ret) as (r' & Hfin & Hcont2 & Hcl2 & Hget2).
  { rewrite Hcl', length_app. lia. }
  rewrite Hfin. intros [= <- <-]. cbn [hdlc_rx_ringbuf hdlc_rx_work].
  split; [|split; [split; [done|]|done]]; [|by rewrite Hget2, Hget'].
  rewrite Hcont2, Hcont', Hcl', <-Hbs, Nat2Z.id. by rewrite take_app_length.
Qed.

Lemma stream_inv_step s s' : stream_inv s → rx_step uart_reads s s' → stream_inv s'.
Proof.
  intros ([Hopen Hget] & consumed & Hr & Hs & Hf) Hstep.
  destruct Hstep as [s u q data Hu Hcb|s s' _ Hrun].
  - apply serial_callback_received in Hcb as (Hc & Hopen' & _); [|done|by split].
    split; [done|]. exists consumed. cbn. by rewrite Hr, Hc, app_assoc.
  - destruct s as [q [d tr] h]. cbn [s_queue s_rx s_received fst snd] in *.
    destruct (hdlc_rx_handler_run (RxQueue _ (hdlc_rx_ringbuf q) false) d tr h _ Hs Hget)
      as (data & q' & d' & Hrun' & Hs' & Hc & Hcl & Hg & _).
    rewrite Hrun' in Hrun. injection Hrun as <-. cbn [hdlc_rx_ringbuf] in Hc, Hcl.
    split; [by split; [cbn; rewrite Hcl|]|].
    exists (consumed ++ data). cbn [s_queue s_rx s_received fst snd].
    rewrite deframe_app, Hr, Hc, app_assoc, Hf.
    destruct (deframe (at_boundary 0) consumed) as [a1 fs1]. cbn [fst snd] in *.
    by destruct (deframe a1 data).
Qed.

(** C22: In every interleaving of UART interrupts and work items in which no read of the UART
    fails, the bytes read from the UART are the bytes the receiver has consumed followed by the
    bytes in the ring buffer, and the frames delivered are those of the consumed bytes: nothing
    is lost, duplicated or reordered. (After a read that failed the claim stays open and stale
    bytes are committed: failed_read_commits_stale.) *)
Theorem rx_stream_exact s0 s :
  rx_initial s0 → rtc (rx_step uart_reads) s0 s → stream_inv s.
Proof.
  intros Hi%rx_initial_inv Hsteps. induction Hsteps as [|s1 s2 s3 Hstep _ IH]; [done|].
  apply IH. by apply (stream_inv_step s1).
Qed.

(** After a read that failed the handler leaves its claim open: the next interrupt's bytes are
    stored behind it, and what is handed to the receiver instead is what the abandoned space
    happens to hold ([area] does not depend on what is read). *)
Theorem failed_read_commits_stale u1 q :
  ring_claimed (hdlc_rx_ringbuf q) = [] → uart_ok u1 → uart_irq_rx_ready u1 = true →
  (∀ size, 0 <= size → fst (uart_fifo_read u1 size) < 0) →
  ∃ q1 area, serial_callback u1 q = (q1, []) ∧ ring_claimed (hdlc_rx_ringbuf q1) = area ∧
    ∀ u2 q2 data, uart_reads u2 → serial_callback u2 q1 = (q2, data) → data ≠ [] →
      length data <= length area →
      ring_contents (hdlc_rx_ringbuf q2) = ring_contents (hdlc_rx_ringbuf q) ++ take (length data) area.
Proof.
  intros Hopen Hu1 Hready Hfails. unfold serial_callback at 1. rewrite Hready, andb_false_r.
  destruct (hdlc_rx_start q) as [[buf n] q1] eqn:Hstart.
  destruct (claim_and_store q buf n q1 [] Hstart) as (area & rest & Hcl & Hlen & -> & Hcont & Hcont' & Hcl' & _).
  { unfold hdlc_rx_start in Hstart. destruct (ring_buf_put_claim _ _) as [[? ?] ?] eqn:Hc.
    injection Hstart as -> -> <-. apply put_claim_law in Hc as (? & _); [cbn; lia|done]. }
  rewrite Hopen in Hcl, Hcl'. cbn [app length drop] in Hcl, Hcl'.
  set (q1' := if n =? 0 then q1 else RxQueue _ (ring_buf_store (hdlc_rx_ringbuf q1) buf []) (hdlc_rx_work q1)).
  assert (Hq1 : ring_claimed (hdlc_rx_ringbuf q1') = area ∧
    ring_contents (hdlc_rx_ringbuf q1') = ring_contents (hdlc_rx_ringbuf q)).
  { subst q1'. destruct (n =? 0); [by split|]. by rewrite drop_0 in Hcl'. }
  exists q1', area. split.
  { subst q1'. destruct (Z.eqb_spec n 0); [done|]. specialize (Hu1 n ltac:(lia)). specialize (Hfails n ltac:(lia)).
    destruct (uart_fifo_read u1 n) as [ret bs]. cbn [fst] in Hfails. destruct Hu1 as (_ & _ & ->); [|done].
    by destruct (Z.ltb_spec ret 0); [|lia]. }
  destruct Hq1 as [Hcl1 Hcont1]. split; [done|]. clearbody q1'. clear Hstart Hcl' Hcont'.
  intros u2 q2 data [Hu2 Hreads] Hcb Hne Hfit. revert Hcb. unfold serial_callback.
  destruct (_ && _); [by intros [= _ <-]|].
  destruct (hdlc_rx_start q1') as [[buf2 n2] q3] eqn:Hstart2.
  destruct (Z.eqb_spec n2 0); [by intros [= _ <-]|].
  assert (Hn2 : 0 <= n2).
  { unfold hdlc_rx_start in Hstart2. destruct (ring_buf_put_claim _ _) as [[? ?] ?] eqn:Hc.
    injection Hstart2 as -> -> <-. apply put_claim_law in Hc as (? & _); [lia|done]. }
  specialize (Hu2 n2 Hn2). specialize (Hreads n2 Hn2). destruct (uart_fifo_read u2 n2) as [ret bs].
  cbn [fst] in Hreads. destruct Hu2 as (Hle & Hbs & _). specialize (Hbs Hreads).
  destruct (Z.ltb_spec ret 0); [lia|]. unfold hdlc_rx_finish. cbn [hdlc_rx_ringbuf].
  destruct (claim_and_store q1' buf2 n2 q3 bs Hstart2) as (area2 & rest2 & _ & _ & _ & _ & Hcont2 & Hcl2 & _); [lia|].
  destruct (put_finish_law (ring_buf_store (hdlc_rx_ringbuf q3) buf2 bs) ret) as (r' & Hfin & Hcont3 & _).
  { rewrite Hcl2, !length_app. lia. }
  rewrite Hfin. intros [= <- <-]. cbn [hdlc_rx_ringbuf].
  rewrite Hcont3, Hcont2, Hcl2, Hcont1, Hcl1, <-Hbs, Nat2Z.id. by rewrite take_app_le by lia.
Qed.

(** C23: A queued work item always runs to completion and, if the ring buffer holds bytes,
    consumes at least one of them. *)
Theorem rx_work_progress s :
  stream_inv s → hdlc_rx_work (s_queue s) = true →
  ∃ s', rx_step uart_ok s s' ∧ hdlc_rx_work (s_queue s') = false ∧
    (ring_contents (hdlc_rx_ringbuf (s_queue s)) ≠ [] →
     length (ring_contents (hdlc_rx_ringbuf (s_queue s')))
     < length (ring_contents (hdlc_rx_ringbuf (s_queue s))))%nat.
Proof.
  intros ([_ Hget] & consumed & _ & Hs & _) Hw. destruct s as [q [d tr] h]. cbn [s_queue s_rx fst] in *.
  destruct (hdlc_rx_handler_run (RxQueue _ (hdlc_rx_ringbuf q) false) d tr h _ Hs Hget)
    as (data & q' & d' & Hrun & _ & Hc & _ & _ & Hq & Hprog & _).
  eexists. split; [by apply (step_work _ (RxSys q (d, tr) h))|]. cbn [s_queue hdlc_rx_ringbuf hdlc_rx_work] in *.
  split; [done|]. intros Hne%Hprog. rewrite Hc, length_app.
  destruct data; [done|cbn; lia].
Qed.

(** When the ring buffer's contents wrap around its end, the work item consumes only the
    part before the end and is not queued again: the rest waits for the next interrupt. *)
Theorem rx_work_leaves_bytes s data r :
  stream_inv s → hdlc_rx_work (s_queue s) = true →
  ring_buf_get_claim (hdlc_rx_ringbuf (s_queue s)) HDLC_RX_BUF_SIZE = (data, r) →
  (length data < length (ring_contents (hdlc_rx_ringbuf (s_queue s))))%nat →
  ∃ s', rx_step uart_ok s s' ∧ hdlc_rx_work (s_queue s') = false ∧
    ring_contents (hdlc_rx_ringbuf (s_queue s'))
    = drop (length data) (ring_contents (hdlc_rx_ringbuf (s_queue s))) ∧
    ring_contents (hdlc_rx_ringbuf (s_queue s')) ≠ [].
Proof.
  intros ([_ Hget] & consumed & _ & Hs & _) Hw Hclaim Hlt. destruct s as [q [d tr] h].
  cbn [s_queue s_rx fst] in *.
  destruct (hdlc_rx_handler_run (RxQueue _ (hdlc_rx_ringbuf q) false) d tr h _ Hs Hget)
    as (data' & q' & d' & Hrun & _ & Hc & _ & _ & Hq & _ & Hdata).
  cbn [hdlc_rx_ringbuf hdlc_rx_work] in *. rewrite Hclaim in Hdata. cbn in Hdata. subst data'.
  eexists. split; [by apply (step_work _ (RxSys q (d, tr) h))|]. cbn [s_queue].
  split; [done|]. rewrite Hc, drop_app_length. split; [done|].
  intros Hnil. rewrite Hc, Hnil, app_nil_r in Hlt. lia.
Qed.
End Interleaving.
