(* ===== verification/Kernel.v ===== *)
(** * Zephyr services the firmware calls

    The kernel heap, memory slabs and BSD sockets are not part of the
    repository: each is a class of operations over an abstract state, with a
    class of the documented laws the proofs rely on. *)

From S2P Require Import Prelude.

(** ** Kernel heap ([k_heap_alloc] with [K_NO_WAIT], [k_heap_free]) *)

Class KHeap := {
  kheap : Type;
  (** [None] is NULL; otherwise the address and the memory as it is found. *)
  k_heap_alloc : kheap → Z → option (Z * list Z * kheap);
  k_heap_free : kheap → Z → kheap;
  (** The 16-bit value at an offset of a block that has been freed. *)
  k_heap_stale : kheap → Z → Z → Z;
  (** Observer: the blocks in use. *)
  k_heap_live : kheap → gset Z;
}.

Class KHeapLaws `{KHeap} := {
  k_heap_alloc_law h n p mem h' :
    0 <= n → k_heap_alloc h n = Some (p, mem, h') →
    p ≠ 0 ∧ (p ∉ k_heap_live h) ∧ k_heap_live h' = {[p]} ∪ k_heap_live h ∧
    (length mem : Z) = n ∧ bytes mem;
  k_heap_free_law h p : k_heap_live (k_heap_free h p) = k_heap_live h ∖ {[p]};
  k_heap_stale_law h p i : is_u16 (k_heap_stale h p i);
}.

(** ** Memory slabs ([k_mem_slab_alloc] with [K_NO_WAIT], [k_mem_slab_free])

    [k_mem_slab_free(slab, void *mem)] puts [mem] itself on the slab's list of
    free blocks and counts one block less in use.  Given the address of the
    variable that holds the block (what Zephyr's interface asked for before it
    took the block) it therefore frees nothing: the block stays in use, and the
    variable's place on the stack becomes a free block. *)

(** What [mem] points to: a block of the slab, or a local variable. *)
Inductive slab_mem := BlockPtr (p : Z) | LocalVariable.

Class KSlab := {
  kslab : Type;
  (** [None] is a negative result: no block is free. *)
  k_mem_slab_alloc : kslab → option (Z * kslab);
  k_mem_slab_free : kslab → slab_mem → kslab;
  k_mem_slab_num_used_get : kslab → Z;
  (** Observers: the number of blocks, the ones in use, and whether an address
      that is none of the slab's blocks is on its list of free blocks. *)
  slab_blocks : kslab → Z;
  slab_live : kslab → gset Z;
  slab_stray : kslab → bool;
}.

(** Nothing is said of allocating from a slab with a stray address. *)
Class KSlabLaws `{KSlab} := {
  slab_alloc_law s p s' :
    slab_stray s = false → k_mem_slab_alloc s = Some (p, s') →
    p ≠ 0 ∧ (p ∉ slab_live s) ∧ slab_live s' = {[p]} ∪ slab_live s ∧
    slab_blocks s' = slab_blocks s ∧ size (slab_live s) < slab_blocks s ∧
    slab_stray s' = false ∧ k_mem_slab_num_used_get s' = k_mem_slab_num_used_get s + 1;
  slab_alloc_none_law s :
    slab_stray s = false → k_mem_slab_alloc s = None → slab_blocks s <= size (slab_live s);
  slab_free_law s p :
    p ∈ slab_live s →
    slab_live (k_mem_slab_free s (BlockPtr p)) = slab_live s ∖ {[p]} ∧
    slab_stray (k_mem_slab_free s (BlockPtr p)) = slab_stray s;
  slab_free_local_law s :
    slab_live (k_mem_slab_free s LocalVariable) = slab_live s ∧
    slab_stray (k_mem_slab_free s LocalVariable) = true;
  slab_free_blocks_law s mem : slab_blocks (k_mem_slab_free s mem) = slab_blocks s;
  slab_free_used_law s mem :
    0 < k_mem_slab_num_used_get s →
    k_mem_slab_num_used_get (k_mem_slab_free s mem) = k_mem_slab_num_used_get s - 1;
}.

(** Allocating a block; from a slab with a stray address the "block" may be that
    address, in a stack frame that is gone. *)
Definition slab_alloc {S} `{KSlab} (slab : kslab) : M S (option (Z * kslab)) :=
  if slab_stray slab then crash StackBlock else mret (k_mem_slab_alloc slab).

(** ** Sockets *)

Definition AF_INET : Z := 1.
Definition AF_INET6 : Z := 2.
Definition SOCK_STREAM : Z := 1.
Definition SOCK_DGRAM : Z := 2.
Definition IPPROTO_TCP : Z := 6.
Definition IPPROTO_UDP : Z := 17.
Definition SO_REUSEADDR : Z := 2.
Definition SO_REUSEPORT : Z := 15.
Definition ZSOCK_POLLIN : Z := 0x01.
Definition ZSOCK_POLLERR : Z := 0x08.
Definition ZSOCK_POLLHUP : Z := 0x10.
Definition ZSOCK_POLLNVAL : Z := 0x20.

(** [struct sockaddr] of either family; the port in host order. *)
Record sockaddr := Sockaddr { sa_family : Z; sa_addr : list Z; sa_port : Z }.

Class Sockets := {
  net : Type;
  zsock_socket : net → Z → Z → Z → Z * net;
  zsock_connect : net → Z → sockaddr → Z * net;
  zsock_close : net → Z → net;
  zsock_send : net → Z → list Z → Z * net;
  (** The result and the bytes stored. *)
  zsock_recv : net → Z → Z → Z * list Z * net;
  (** The result, the two ends, and the state. *)
  zsock_socketpair : net → Z * (Z * Z) * net;
  (** The result and the [revents] of the sockets polled, all for [ZSOCK_POLLIN]. *)
  zsock_poll : net → list Z → Z → Z * list Z * net;
  (** The options that are only ever set, with the result ignored. *)
  zsock_setsockopt : net → Z → Z → net;
  zsock_bind : net → Z → sockaddr → Z * net;
  (** Whether there is a default interface; adding and joining a multicast
      address on it, [false] for NULL. *)
  net_if_get_default : net → bool;
  net_if_ipv6_maddr_add : net → list Z → bool * net;
  net_if_ipv6_maddr_join : net → list Z → net;
  (** [None] is an error. *)
  zsock_getsockname : net → Z → option sockaddr;
  zsock_sendto : net → Z → list Z → sockaddr → Z * net;
  (** The result, the bytes stored and the sender. *)
  zsock_recvfrom : net → Z → Z → Z * list Z * list Z * net;
  (** Observers: what has been sent on a socket, and what is still to arrive. *)
  net_sent : net → Z → list Z;
  net_incoming : net → Z → list Z;
  (** The datagrams sent, with their destinations, and those that are waiting
      to be received, with their senders. *)
  net_sent_to : net → Z → list (sockaddr * list Z);
  net_datagrams : net → Z → list (list Z * list Z);
}.

Class SocketsLaws `{Sockets} := {
  (** A stream socket takes a non-empty prefix of the data or fails. *)
  zsock_send_law n sock data r n' :
    zsock_send n sock data = (r, n') → data ≠ [] →
    (r < 0 ∧ net_sent n' = net_sent n ∨
     0 < r <= length data ∧
     net_sent n' sock = net_sent n sock ++ take (Z.to_nat r) data ∧
     ∀ sock', sock' ≠ sock → net_sent n' sock' = net_sent n sock');
  zsock_connect_law n sock addr r n' : zsock_connect n sock addr = (r, n') → r <= 0;
  (** It delivers a prefix of what is to arrive, and nothing at its end. *)
  zsock_recv_law n sock len r data n' :
    zsock_recv n sock len = (r, data, n') → 0 < len →
    (r < 0 ∨ 0 <= r <= len ∧ (length data : Z) = r) ∧ bytes data ∧
    (0 <= r → net_incoming n sock = data ++ net_incoming n' sock);
  (** A datagram is sent whole or not at all. *)
  zsock_sendto_law n sock data addr r n' :
    zsock_sendto n sock data addr = (r, n') →
    (r < 0 ∧ net_sent_to n' sock = net_sent_to n sock ∨
     0 <= r ∧ net_sent_to n' sock = net_sent_to n sock ++ [(addr, data)]) ∧
    net_datagrams n' = net_datagrams n;
  (** It stores the beginning of the first datagram waiting, and drops the rest. *)
  zsock_recvfrom_law n sock len r data addr n' :
    zsock_recvfrom n sock len = (r, data, addr, n') → 0 <= len →
    r < 0 ∧ data = [] ∨
    r = length data ∧ length data <= len ∧ bytes data ∧
    ∃ whole, net_datagrams n sock = (addr, whole) :: net_datagrams n' sock ∧
             data = take (Z.to_nat len) whole;
}.

(** ** Uninitialised local arrays: what [n] bytes of stack happen to hold *)

Class Stack := stack_bytes : nat → list Z.

Class StackLaws `{Stack} := {
  length_stack_bytes n : length (stack_bytes n) = n;
  stack_bytes_bytes n : bytes (stack_bytes n);
}.

(** ** The UART device *)

Class UartDevice := {
  device_is_ready : bool;
  (** The result of installing the interrupt handler. *)
  uart_irq_callback_user_data_set : Z;
}.

(** ** Formatting log messages

    Zephyr formats a message into the buffer it is given and passes it, full or
    complete, to the backend's output function: the blocks it passes, in order. *)

Class LogOutput := {
  log_msg : Type;
  log_backend_std_get_flags : Z;
  log_output_msg_process : log_msg → Z → list (list Z);
  log_backend_std_dropped : Z → list (list Z);
  log_backend_std_panic : list (list Z);
}.

(** The blocks hold bytes and fit a buffer of [n]. *)
Definition blocks_fit (n : Z) (blocks : list (list Z)) : Prop :=
  Forall (λ block, bytes block ∧ length block <= n) blocks.

Class LogOutputLaws `{LogOutput} (buffer_len : Z) := {
  log_process_law msg flags : blocks_fit buffer_len (log_output_msg_process msg flags);
  log_dropped_law cnt : blocks_fit buffer_len (log_backend_std_dropped cnt);
  log_panic_law : blocks_fit buffer_len log_backend_std_panic;
}.
