(* ===== verification/Zephyr.v ===== *)
(** * An executable instance of the kernel services

    Small implementations of the interfaces the development is parametric in
    (heap, slabs, sockets, stack, ring buffer), with their laws: the theorems
    are about something, and the concrete runs of [Witnesses] can be computed. *)

From S2P Require Import Prelude Config Kernel Hdlc HdlcRx Crc RxQueue.

(** An address that is not in use: one more than every one that is. *)
Definition fresh_address (live : gset Z) : Z := 1 + foldr Z.max 0 (elements live).

Lemma fresh_address_spec live : fresh_address live ≠ 0 ∧ fresh_address live ∉ live.
Proof.
  assert (Hmax : ∀ l : list Z, 0 <= foldr Z.max 0 l ∧ ∀ x, x ∈ l → x <= foldr Z.max 0 l).
  { induction l as [|y l [IH0 IH]]; cbn [foldr]; [split; [lia|by intros x ?%elem_of_nil]|].
    split; [lia|]. intros x [->|Hx%IH]%elem_of_cons; lia. }
  unfold fresh_address. destruct (Hmax (elements live)) as [H0 Hall]. split; [lia|].
  intros Hin%elem_of_elements%Hall. lia.
Qed.

(** ** Heap: any number of blocks of at most 4096 bytes *)

Definition heap_alloc (live : gset Z) (n : Z) : option (Z * list Z * gset Z) :=
  if n <=? 4096 then
    let p := fresh_address live in Some (p, replicate (Z.to_nat n) 0, {[p]} ∪ live)
  else None.

#[export] Instance simple_heap : KHeap := {
  kheap := gset Z;
  k_heap_alloc := heap_alloc;
  k_heap_free live p := live ∖ {[p]};
  k_heap_stale live p i := 0xbeef;
  k_heap_live live := live;
}.

#[export] Instance simple_heap_laws : KHeapLaws.
Proof.
  split.
  - intros live n p mem live' Hn. cbn. unfold heap_alloc.
    destruct (n <=? 4096); [|done]. intros [= <- <- <-].
    destruct (fresh_address_spec live). split; [done|]. split; [done|]. split; [done|].
    rewrite length_replicate. split; [lia|]. apply Forall_replicate. by unfold is_u8.
  - done.
  - by unfold is_u16.
Qed.

(** ** Slabs *)

Record simple_slab_state := SimpleSlab {
  ss_blocks : Z;
  ss_live : gset Z;
  ss_used : Z;
  ss_stray : bool;
}.

Definition simple_slab_free (s : simple_slab_state) (mem : slab_mem) : simple_slab_state :=
  match mem with
  | BlockPtr p => SimpleSlab (ss_blocks s) (ss_live s ∖ {[p]}) (ss_used s - 1) (ss_stray s)
  | LocalVariable => SimpleSlab (ss_blocks s) (ss_live s) (ss_used s - 1) true
  end.

#[export] Instance simple_slab : KSlab := {
  kslab := simple_slab_state;
  k_mem_slab_alloc s :=
    if ss_blocks s <=? size (ss_live s) then None
    else
      let p := fresh_address (ss_live s) in
      Some (p, SimpleSlab (ss_blocks s) ({[p]} ∪ ss_live s) (ss_used s + 1) (ss_stray s));
  k_mem_slab_free := simple_slab_free;
  k_mem_slab_num_used_get := ss_used;
  slab_blocks := ss_blocks;
  slab_live := ss_live;
  slab_stray := ss_stray;
}.

(** A slab of [n] blocks with [live] in use. *)
Definition slab_with (n : Z) (live : gset Z) : kslab := SimpleSlab n live (size live) false.

#[export] Instance simple_slab_laws : KSlabLaws.
Proof.
  split; cbn.
  - intros [n live used stray] p s'. cbn. intros ->. destruct (Z.leb_spec n (size live)); [done|].
    intros [= <- <-]. by destruct (fresh_address_spec live).
  - intros [n live used stray] _. cbn. by destruct (Z.leb_spec n (size live)).
  - done.
  - done.
  - by intros s [].
  - by intros s [].
Qed.

(** ** Sockets: streams that take three bytes at a time and deliver four *)

Record simple_net := SimpleNet {
  sn_sent : gmap Z (list Z);
  sn_incoming : gmap Z (list Z);
  sn_next : Z;
  sn_sent_to : gmap Z (list (sockaddr * list Z));
  sn_datagrams : gmap Z (list (list Z * list Z));
}.

Definition simple_send (n : simple_net) (sock : Z) (data : list Z) : Z * simple_net :=
  if sock <? 0 then (-1, n)
  else
    let r := Z.min 3 (length data) in
    (r, SimpleNet (<[sock := default [] (sn_sent n !! sock) ++ take (Z.to_nat r) data]> (sn_sent n))
         (sn_incoming n) (sn_next n) (sn_sent_to n) (sn_datagrams n)).

Definition simple_recv (n : simple_net) (sock len : Z) : Z * list Z * simple_net :=
  let stream := default [] (sn_incoming n !! sock) in
  let data := u8 <$> take (Z.to_nat (Z.min 4 len)) stream in
  (length data : Z, data,
   SimpleNet (sn_sent n) (<[sock := drop (Z.to_nat (Z.min 4 len)) stream]> (sn_incoming n)) (sn_next n)
     (sn_sent_to n) (sn_datagrams n)).

Definition simple_sendto (n : simple_net) (sock : Z) (data : list Z) (addr : sockaddr) : Z * simple_net :=
  if sock <? 0 then (-1, n)
  else
    (length data : Z,
     SimpleNet (sn_sent n) (sn_incoming n) (sn_next n)
       (<[sock := default [] (sn_sent_to n !! sock) ++ [(addr, data)]]> (sn_sent_to n)) (sn_datagrams n)).

Definition simple_datagrams (n : simple_net) (sock : Z) : list (list Z * list Z) :=
  default [] (sn_datagrams n !! sock).

Definition simple_recvfrom (n : simple_net) (sock len : Z) : Z * list Z * list Z * simple_net :=
  match simple_datagrams n sock with
  | [] => (-1, [], [], n)
  | (addr, whole) :: rest =>
      let data := u8 <$> take (Z.to_nat len) whole in
      (length data : Z, data, addr,
       SimpleNet (sn_sent n) (sn_incoming n) (sn_next n) (sn_sent_to n)
         (<[sock := rest]> (sn_datagrams n)))
  end.

(** A new socket, numbered by [sn_next]; [k] of them. *)
Definition simple_open (n : simple_net) (k : Z) : simple_net :=
  SimpleNet (sn_sent n) (sn_incoming n) (sn_next n + k) (sn_sent_to n) (sn_datagrams n).

Definition u8_datagram (d : list Z * list Z) : list Z * list Z := (fst d, u8 <$> snd d).

(** A stream or a datagram is waiting. *)
Definition simple_ready (n : simple_net) (sock : Z) : bool :=
  negb (bool_decide (default [] (sn_incoming n !! sock) = []))
  || negb (bool_decide (simple_datagrams n sock = [])).

#[export] Instance simple_sockets : Sockets := {
  net := simple_net;
  zsock_socket n _ _ _ := (sn_next n, simple_open n 1);
  zsock_connect n sock addr := (0, n);
  zsock_close n sock := n;
  zsock_send := simple_send;
  zsock_recv := simple_recv;
  zsock_socketpair n :=
    (0, (sn_next n, sn_next n + 1), simple_open n 2);
  zsock_poll n fds timeout :=
    (length (filter (λ fd, simple_ready n fd = true) fds) : Z,
     (λ fd, if simple_ready n fd then ZSOCK_POLLIN else 0) <$> fds, n);
  zsock_setsockopt n sock opt := n;
  zsock_bind n sock addr := (0, n);
  net_if_get_default n := true;
  net_if_ipv6_maddr_add n addr := (true, n);
  net_if_ipv6_maddr_join n addr := n;
  zsock_getsockname n sock := Some (Sockaddr AF_INET6 [] 5353);
  zsock_sendto := simple_sendto;
  zsock_recvfrom := simple_recvfrom;
  net_sent n sock := default [] (sn_sent n !! sock);
  net_incoming n sock := u8 <$> default [] (sn_incoming n !! sock);
  net_sent_to n sock := default [] (sn_sent_to n !! sock);
  net_datagrams n sock := u8_datagram <$> simple_datagrams n sock;
}.

#[export] Instance simple_sockets_laws : SocketsLaws.
Proof.
  split; cbn.
  - intros n sock data r n'. unfold simple_send. destruct (Z.ltb_spec sock 0).
    { intros [= <- <-] _. left. by split. }
    intros [= <- <-] Hne. right. cbn [sn_sent]. split.
    { destruct data; [done|cbn [length] in *; lia]. }
    split; [by rewrite lookup_insert_eq|].
    intros sock' Hs. by rewrite lookup_insert_ne by done.
  - by intros n sock addr r n' [= <- <-].
  - intros n sock len r data n'. unfold simple_recv. intros [= <- <- <-] Hlen.
    split; [right; split; [rewrite length_fmap, length_take; lia|done]|]. split.
    { apply Forall_fmap, Forall_true. intros x. cbn. auto with machine. }
    intros _. cbn [sn_incoming]. rewrite lookup_insert_eq. cbn. by rewrite <-fmap_app, take_drop.
  - intros n sock data addr r n'. unfold simple_sendto.
    destruct (sock <? 0); intros [= <- <-]; (split; [|done]); [by left|]. right.
    split; [lia|]. cbn. by rewrite lookup_insert_eq.
  - intros n sock len r data addr n'. unfold simple_recvfrom.
    destruct (simple_datagrams n sock) as [|[from whole] rest] eqn:Hd; intros [= <- <- <- <-] Hlen; [by left|].
    right. split; [done|]. split; [rewrite length_fmap, length_take; lia|]. split.
    { apply Forall_fmap, Forall_true. intros x. cbn. auto with machine. }
    exists (u8 <$> whole). split; [|by rewrite fmap_take].
    unfold simple_datagrams. cbn. by rewrite lookup_insert_eq.
Qed.

#[export] Instance zero_stack : Stack := λ n, replicate n 0.

#[export] Instance zero_stack_laws : StackLaws.
Proof.
  split; intros n; unfold stack_bytes, zero_stack; [apply length_replicate|].
  apply Forall_replicate. by unfold is_u8.
Qed.

(** ** The UART and the log: every byte is put out on its own *)

#[export] Instance working_uart : UartDevice := {
  device_is_ready := true;
  uart_irq_callback_user_data_set := 0;
}.

Definition byte_blocks (text : list Z) : list (list Z) := (λ b, [u8 b]) <$> text.

#[export] Instance unbuffered_log : LogOutput := {
  log_msg := list Z;
  log_backend_std_get_flags := 0;
  log_output_msg_process text flags := byte_blocks text;
  log_backend_std_dropped cnt := byte_blocks [cnt];
  log_backend_std_panic := [];
}.

Lemma byte_blocks_fit n text : 1 <= n → blocks_fit n (byte_blocks text).
Proof.
  intros Hn. apply Forall_fmap, Forall_true. intros b. split; [|done].
  apply Forall_singleton, u8_is_u8.
Qed.

#[export] Instance unbuffered_log_laws : LogOutputLaws 200.
Proof.
  split; intros; try apply Forall_nil_2; by apply (byte_blocks_fit 200).
Qed.

(** ** A circular buffer: claims stop where the array wraps around *)

Record circular := Circular {
  c_contents : list Z; c_claimed : list Z; c_head : Z; c_get : Z
}.

(** The space claimed is taken to hold zeros until bytes are stored in it. *)
Definition circular_put_claim (r : circular) (size : Z) : Z * Z * circular :=
  let used := length (c_contents r) + length (c_claimed r) in
  let wrap := HDLC_RX_BUF_SIZE - (c_head r + used) mod HDLC_RX_BUF_SIZE in
  let n := Z.max 0 (Z.min (Z.min size wrap) (HDLC_RX_BUF_SIZE - used)) in
  (length (c_claimed r) : Z, n,
   Circular (c_contents r) (c_claimed r ++ replicate (Z.to_nat n) 0) (c_head r) (c_get r)).

Definition circular_store (r : circular) (off : Z) (bs : list Z) : circular :=
  Circular (c_contents r)
    (take (Z.to_nat off) (c_claimed r) ++ bs ++ drop (Z.to_nat off + length bs) (c_claimed r))
    (c_head r) (c_get r).

Definition circular_put_finish (r : circular) (n : Z) : Z * circular :=
  if length (c_claimed r) <? n then (- 22, r)
  else (0, Circular (c_contents r ++ take (Z.to_nat n) (c_claimed r)) [] (c_head r) (c_get r)).

Definition circular_get_claim (r : circular) (size : Z) : list Z * circular :=
  let start := c_head r + c_get r in
  let n := Z.min size (HDLC_RX_BUF_SIZE - start mod HDLC_RX_BUF_SIZE) in
  let data := take (Z.to_nat n) (drop (Z.to_nat (c_get r)) (c_contents r)) in
  (data, Circular (c_contents r) (c_claimed r) (c_head r) (c_get r + length data)).

Definition circular_get_finish (r : circular) (n : Z) : Z * circular :=
  if c_get r <? n then (- 22, r)
  else (0, Circular (drop (Z.to_nat n) (c_contents r)) (c_claimed r) (c_head r + n) 0).

#[export] Instance circular_ring : RingBuf := {
  ring := circular;
  ring_buf_put_claim := circular_put_claim;
  ring_buf_store := circular_store;
  ring_buf_put_finish := circular_put_finish;
  ring_buf_get_claim := circular_get_claim;
  ring_buf_get_finish := circular_get_finish;
  ring_contents := c_contents;
  ring_claimed := c_claimed;
  ring_get_claimed := c_get;
}.

#[export] Instance circular_ring_laws : RingBufLaws.
Proof.
  split; cbn.
  - intros r size off n r' Hs. unfold circular_put_claim. set (k := Z.max _ _).
    assert (Hk : 0 <= k <= size).
    { subst k. pose proof (Z.mod_pos_bound (c_head r + (length (c_contents r) + length (c_claimed r)))
        HDLC_RX_BUF_SIZE ltac:(done)). lia. }
    clearbody k. intros [= <- <- <-]. split_and!; [lia|lia|done|done|done|].
    exists (replicate (Z.to_nat k) 0). by rewrite length_replicate, Z2Nat.id by lia.
  - intros r pre old post bs Hcl Hlen. rewrite Hcl, Nat2Z.id, take_app_length, <-Hlen.
    by rewrite <-drop_drop, drop_app_length, drop_app_length.
  - intros r n Hn. unfold circular_put_finish. destruct (Z.ltb_spec (length (c_claimed r)) n); [lia|].
    by eexists.
  - intros r size data r' Hs Hg. unfold circular_get_claim. rewrite Hg, Z.add_0_r, drop_0.
    pose proof (Z.mod_pos_bound (c_head r) HDLC_RX_BUF_SIZE ltac:(done)) as Hm.
    set (k := Z.min size _) in *. assert (Hk : 0 <= k <= size) by lia.
    assert (Hpos : 0 < size → 0 < k) by lia. clearbody k. intros [= <- <-]. cbn.
    rewrite length_take. split_and!; [lia|done|done|done| |].
    + rewrite <-(take_take (c_contents r)), (take_ge (c_contents r)) by lia. done.
    + intros Hs'%Hpos Hne. destruct (c_contents r); [done|].
      destruct (Z.to_nat k) eqn:Hz; [lia|done].
  - intros r n Hn _. unfold circular_get_finish. destruct (Z.ltb_spec (c_get r) n); [lia|].
    by eexists.
Qed.
