(* ===== verification/Mdns.v ===== *)
(** * mDNS client (src/mdns.c)

    Sending a DNS-SD query and picking the answering nodes out of the
    responses.  A pointer into a buffer is an offset ([MDNS_POINTER_OFFSET]
    adds, [MDNS_POINTER_DIFF] subtracts), a NULL pointer is [None]; functions
    that write return the buffer; [size_t] has 32 bits. *)

From S2P Require Import Prelude Config Kernel.

Definition MDNS_PORT : Z := 5353.
Definition MDNS_UNICAST_RESPONSE : Z := 0x8000.
Definition MDNS_MAX_SUBSTRINGS : Z := 64.
Definition MDNS_RESPONSE_BUFFER_SIZE : Z := 100.
Definition MDNS_REQUEST_BUFFER_SIZE : Z := 100.
Definition MDNS_PTR_NAME_SIZE : Z := 100.
Definition MDNS_INVALID_POS : Z := 2 ^ 32 - 1.

(** [enum mdns_record_type] *)
Definition MDNS_RECORDTYPE_IGNORE : Z := 0.
Definition MDNS_RECORDTYPE_A : Z := 1.
Definition MDNS_RECORDTYPE_PTR : Z := 12.
Definition MDNS_RECORDTYPE_TXT : Z := 16.
Definition MDNS_RECORDTYPE_AAAA : Z := 28.
Definition MDNS_RECORDTYPE_SRV : Z := 33.
Definition MDNS_RECORDTYPE_ANY : Z := 255.

(** [enum mdns_class] *)
Definition MDNS_CLASS_IN : Z := 1.
Definition MDNS_CLASS_ANY : Z := 255.

(** [enum mdns_entry_type] *)
Definition MDNS_ENTRYTYPE_QUESTION : Z := 0.
Definition MDNS_ENTRYTYPE_ANSWER : Z := 1.
Definition MDNS_ENTRYTYPE_AUTHORITY : Z := 2.
Definition MDNS_ENTRYTYPE_ADDITIONAL : Z := 3.

(** [mdns_addr] of include/mdns.h *)
Definition mdns_addr : list Z := [0xff; 0x02; 0; 0; 0; 0; 0; 0; 0; 0; 0; 0; 0; 0; 0; 0xfb].

Definition DOT : Z := 0x2e.

(** ** Data *)

Record mdns_string_pair_t := MdnsPair { pair_offset : Z; pair_length : Z; pair_ref : bool }.

(** The two pointers a [mdns_string_t] ever holds. *)
Inductive str_ptr := StrNull | StrBuffer.
Record mdns_string_t := MdnsString { str : str_ptr; str_length : Z }.

Record mdns_query_t := MdnsQuery { query_type : Z; query_name : list Z; query_length : Z }.

Record mdns_string_table_t := MdnsTable { table_offset : list Z; table_count : Z; table_next : Z }.

(** ** Memory *)

Section Memory.
Context {S : Type}.

(** [memcmp(a, b, n) == 0]: both blocks are read up to [n]. *)
Definition memcmp (a b : list Z) (n : Z) : M S bool :=
  if decide (n <= length a ∧ n <= length b)
  then mret (bool_decide (take (Z.to_nat n) a = take (Z.to_nat n) b))
  else crash OutOfBounds.

(** [memchr(s, c, n) - s], [None] for NULL; it stops reading where it finds [c]. *)
Fixpoint memchr (s : list Z) (c : Z) (n : nat) : M S (option Z) :=
  match n, s with
  | O, _ => mret None
  | _, [] => crash OutOfBounds
  | Datatypes.S n, x :: s =>
      if x =? c then mret (Some 0)
      else (found ← memchr s c n; mret ((Z.add 1) <$> found))
  end.

Definition mdns_ntohs (buffer : list Z) (offset : Z) : M S Z :=
  hi ← array_get buffer offset;
  lo ← array_get buffer (offset + 1);
  mret (of_be16 hi lo).

(** The advanced pointer and the buffer. *)
Definition mdns_htons (buffer : list Z) (data val : Z) : M S (Z * list Z) :=
  buffer ← memcpy_at buffer (Z.to_nat data) (be16 val) 2;
  mret (data + 2, buffer).
End Memory.

(** ** Names in packets *)

Definition mdns_is_string_ref (val : Z) : bool := Z.land val 0xC0 =? 0xC0.

Section Names.
Context {S : Type}.

(** [while (mdns_is_string_ref(buffer[offset]))]: [None] is one of the early
    returns of [pair]; the second component is [pair.ref]. *)
Fixpoint follow_refs (n : nat) (buffer : list Z) (size offset recursion : Z) (ref : bool)
    : M S (option Z * bool) :=
  b ← array_get buffer offset;
  if mdns_is_string_ref b then
    match n with
    | O => crash Diverge
    | Datatypes.S n =>
        if size <? u32 (offset + 2) then mret (None, ref)
        else
          v ← mdns_ntohs buffer offset;
          let offset := Z.land v 0x3fff in
          if size <=? offset then mret (None, ref)
          else
            let recursion := recursion + 1 in
            if 16 <? recursion then mret (None, true)
            else follow_refs n buffer size offset recursion true
    end
  else mret (Some offset, ref).

Definition mdns_get_next_substring (rawdata : list Z) (size offset : Z) : M S mdns_string_pair_t :=
  if size <=? offset then mret (MdnsPair MDNS_INVALID_POS 0 false)
  else
    b ← array_get rawdata offset;
    if b =? 0 then mret (MdnsPair offset 0 false)
    else
      '(found, ref) ← follow_refs 17 rawdata size offset 0 false;
      match found with
      | None => mret (MdnsPair MDNS_INVALID_POS 0 ref)
      | Some offset =>
          length ← array_get rawdata offset;
          let offset := u32 (offset + 1) in
          if size <? u32 (offset + length) then mret (MdnsPair MDNS_INVALID_POS 0 ref)
          else mret (MdnsPair offset length ref)
      end.

Definition mdns_string_find (s : list Z) (length c offset : Z) : M S Z :=
  if length <=? offset then mret MDNS_INVALID_POS
  else
    found ← memchr (drop (Z.to_nat offset) s) c (Z.to_nat (length - offset));
    mret (match found with Some i => offset + i | None => MDNS_INVALID_POS end).

(** [do { ... } while (substr.length)] of [mdns_string_skip]: whether it
    succeeds and the new [*offset]. *)
Fixpoint skip_loop (n : nat) (buffer : list Z) (size offset cur counter : Z) : M S (bool * Z) :=
  match n with
  | O => crash Diverge
  | Datatypes.S n =>
      substr ← mdns_get_next_substring buffer size cur;
      if (pair_offset substr =? MDNS_INVALID_POS) || (MDNS_MAX_SUBSTRINGS <? counter)
      then mret (false, offset)
      else if pair_ref substr then mret (true, u32 (cur + 2))
      else
        let cur := u32 (pair_offset substr + pair_length substr) in
        if pair_length substr =? 0 then mret (true, u32 (cur + 1))
        else skip_loop n buffer size offset cur (counter + 1)
  end.

Definition mdns_string_skip (buffer : list Z) (size offset : Z) : M S (bool * Z) :=
  skip_loop 66 buffer size offset offset 0.

(** [if (substr.length)] of [mdns_string_extract], where [dst] is [written]
    characters into the array: the array, and how far [dst] and [remain] get. *)
Definition append_label (buffer str : list Z) (written remain : Z) (substr : mdns_string_pair_t)
    : M S (list Z * Z * Z) :=
  let to_copy := if pair_length substr <? remain then pair_length substr else remain in
  str ← memcpy_at str (Z.to_nat written) (drop (Z.to_nat (pair_offset substr)) buffer) to_copy;
  let written := written + to_copy in
  let remain := remain - to_copy in
  if remain =? 0 then mret (str, written, remain)
  else (str ← array_set str written DOT; mret (str, written + 1, remain - 1)).

(** The loop of [mdns_string_extract]; the result is [None] for the early
    return, or the new [end] and [remain], and the array. *)
Fixpoint extract_loop (n : nat) (buffer : list Z) (size : Z) (str : list Z) (cur end_ written remain
    counter : Z) : M S (option (Z * Z) * list Z) :=
  match n with
  | O => crash Diverge
  | Datatypes.S n =>
      substr ← mdns_get_next_substring buffer size cur;
      if (pair_offset substr =? MDNS_INVALID_POS) || (MDNS_MAX_SUBSTRINGS <? counter)
      then mret (None, str)
      else
        let end_ := if pair_ref substr && (end_ =? MDNS_INVALID_POS) then u32 (cur + 2) else end_ in
        let next := u32 (pair_offset substr + pair_length substr) in
        if pair_length substr =? 0 then
          mret (Some (if end_ =? MDNS_INVALID_POS then u32 (next + 1) else end_, remain), str)
        else
          '(str, written, remain) ← append_label buffer str written remain substr;
          extract_loop n buffer size str next end_ written remain (counter + 1)
  end.

(** The result, the new [*offset] and the memory at [str]. *)
Definition mdns_string_extract (buffer : list Z) (size offset : Z) (str : list Z) (capacity : Z)
    : M S (mdns_string_t * Z * list Z) :=
  '(res, str) ← extract_loop 66 buffer size str offset MDNS_INVALID_POS 0 capacity 0;
  mret (match res with
        | None => (MdnsString StrBuffer 0, offset, str)
        | Some (end_, remain) => (MdnsString StrBuffer (capacity - remain), end_, str)
        end).

Definition mdns_record_parse_ptr (buffer : list Z) (size offset length : Z) (strbuffer : list Z)
    (capacity : Z) : M S (mdns_string_t * list Z) :=
  if (u32 (offset + length) <=? size) && (2 <=? length) then
    '(s, _, strbuffer) ← mdns_string_extract buffer size offset strbuffer capacity;
    mret (s, strbuffer)
  else mret (MdnsString StrNull 0, strbuffer).
End Names.

(** ** Writing names *)

Section Making.
Context {S : Type}.

(** The inner loop of [mdns_string_table_find], after the first label: the
    [offset] in [s] where it stops. *)
Fixpoint match_loop (n : nat) (buffer : list Z) (capacity : Z) (s : list Z) (total_length offset : Z)
    (sub_string : mdns_string_pair_t) : M S Z :=
  if offset <? total_length then
    match n with
    | O => crash Diverge
    | Datatypes.S n =>
        dot_pos ← mdns_string_find s total_length DOT offset;
        let dot_pos := if dot_pos =? MDNS_INVALID_POS then total_length else dot_pos in
        let current_length := dot_pos - offset in
        sub_string ← mdns_get_next_substring buffer capacity
                       (u32 (pair_offset sub_string + pair_length sub_string));
        if (pair_length sub_string =? 0) || negb (pair_length sub_string =? current_length)
        then mret offset
        else
          same ← memcmp (drop (Z.to_nat offset) s) (drop (Z.to_nat (pair_offset sub_string)) buffer)
                   (pair_length sub_string);
          if same : bool
          then match_loop n buffer capacity s total_length (u32 (dot_pos + 1)) sub_string
          else mret offset
    end
  else mret offset.

(** The loop over the table, with [n] entries left. *)
Fixpoint table_find_from (n : nat) (istr : Z) (table : mdns_string_table_t) (buffer : list Z)
    (capacity : Z) (s : list Z) (first_length total_length : Z) : M S Z :=
  match n with
  | O => mret MDNS_INVALID_POS
  | Datatypes.S n =>
      let continue := table_find_from n (istr + 1) table buffer capacity s first_length total_length in
      entry ← array_get (table_offset table) istr;
      if capacity <=? entry then continue
      else
        sub_string ← mdns_get_next_substring buffer capacity entry;
        if (pair_length sub_string =? 0) || negb (pair_length sub_string =? first_length) then continue
        else
          same ← memcmp s (drop (Z.to_nat (pair_offset sub_string)) buffer) (pair_length sub_string);
          if same : bool then
            offset ← match_loop (Z.to_nat total_length) buffer capacity s total_length
                       (u32 (first_length + 1)) sub_string;
            if total_length <=? offset then mret entry else continue
          else continue
  end.

Definition mdns_string_table_find (string_table : option mdns_string_table_t) (buffer : list Z)
    (capacity : Z) (s : list Z) (first_length total_length : Z) : M S Z :=
  match string_table with
  | None => mret MDNS_INVALID_POS
  | Some table =>
      table_find_from (Z.to_nat (table_count table)) 0 table buffer capacity s first_length total_length
  end.

Definition mdns_string_make_ref (buffer : list Z) (data capacity ref_offset : Z)
    : M S (option Z * list Z) :=
  if capacity <? 2 then mret (None, buffer)
  else
    '(data, buffer) ← mdns_htons buffer data (Z.lor 0xC000 (u16 ref_offset));
    mret (Some data, buffer).

(** [ARRAY_SIZE(string_table->offset)] *)
Definition table_capacity : Z := 16.

Definition mdns_string_table_add (string_table : option mdns_string_table_t) (offset : Z)
    : M S (option mdns_string_table_t) :=
  match string_table with
  | None => mret None
  | Some table =>
      offsets ← array_set (table_offset table) (table_next table) offset;
      let count := u32 (table_count table + 1) in
      let count := if table_capacity <? count then table_capacity else count in
      let next := u32 (table_next table + 1) in
      let next := if table_capacity <=? next then 0 else next in
      mret (Some (MdnsTable offsets count next))
  end.

(** [while (last_pos < length)] and what follows it. *)
Fixpoint make_loop (n : nat) (buffer : list Z) (capacity data : Z) (name : list Z)
    (length last_pos : Z) (string_table : option mdns_string_table_t)
    : M S (option Z * list Z * option mdns_string_table_t) :=
  let remain := u32 (capacity - data) in
  if last_pos <? length then
    match n with
    | O => crash Diverge
    | Datatypes.S n =>
        pos ← mdns_string_find name length DOT last_pos;
        let sub_length := (if pos =? MDNS_INVALID_POS then length else pos) - last_pos in
        let total_length := length - last_pos in
        ref_offset ← mdns_string_table_find string_table buffer capacity
                       (drop (Z.to_nat last_pos) name) sub_length total_length;
        if negb (ref_offset =? MDNS_INVALID_POS) then
          '(data, buffer) ← mdns_string_make_ref buffer data remain ref_offset;
          mret (data, buffer, string_table)
        else if remain <=? u32 (sub_length + 1) then mret (None, buffer, string_table)
        else
          buffer ← array_set buffer data (u8 sub_length);
          buffer ← memcpy_at buffer (Z.to_nat (data + 1)) (drop (Z.to_nat last_pos) name) sub_length;
          string_table ← mdns_string_table_add string_table data;
          make_loop n buffer capacity (data + sub_length + 1) name length
            (if pos =? MDNS_INVALID_POS then length else u32 (pos + 1)) string_table
    end
  else if remain =? 0 then mret (None, buffer, string_table)
  else
    buffer ← array_set buffer data 0;
    mret (Some (data + 1), buffer, string_table).

Definition mdns_string_make (buffer : list Z) (capacity data : Z) (name : list Z) (length : Z)
    (string_table : option mdns_string_table_t)
    : M S (option Z * list Z * option mdns_string_table_t) :=
  last ← array_get name (length - 1);
  let length := if last =? DOT then length - 1 else length in
  make_loop (Z.to_nat length) buffer capacity data name length 0 string_table.
End Making.

(** ** Queries *)

(** [htons] and [memcpy] of [struct mdns_header_t] *)
Definition mdns_header (query_id questions : Z) : list Z :=
  be16 query_id ++ [0; 0] ++ be16 questions ++ [0; 0] ++ [0; 0] ++ [0; 0].
Definition mdns_header_size : Z := 12.

Section Queries.
Context `{Sockets, Stack}.

Definition multicast6 : sockaddr := Sockaddr AF_INET6 mdns_addr MDNS_PORT.
Definition multicast4 : sockaddr := Sockaddr AF_INET [224; 0; 0; 251] MDNS_PORT.

Definition mdns_multicast_send (sock : Z) (buffer : list Z) (size : Z) : M net Z :=
  n ← getS;
  match zsock_getsockname n sock with
  | None => mret (-1)
  | Some saddr =>
      let saddr := if sa_family saddr =? AF_INET6 then multicast6 else multicast4 in
      let '(ret, n) := zsock_sendto n sock (take (Z.to_nat size) buffer) saddr in
      _ ← putS n;
      if ret <? 0 then mret (-1) else mret 0
  end.

(** The loop over [query]; the result is [data], or [None] for the return
    of -1. *)
Fixpoint fill_questions (query : list mdns_query_t) (buffer : list Z) (capacity data rclass : Z)
    : M net (option Z * list Z) :=
  match query with
  | [] => mret (Some data, buffer)
  | q :: query =>
      '(made, buffer, _) ← mdns_string_make buffer capacity data (query_name q) (query_length q) None;
      match made with
      | None => mret (None, buffer)
      | Some data =>
          '(data, buffer) ← mdns_htons buffer data (query_type q);
          '(data, buffer) ← mdns_htons buffer data rclass;
          fill_questions query buffer capacity data rclass
      end
  end.

Definition mdns_multiquery_send (sock : Z) (query : list mdns_query_t) (buffer : list Z)
    (capacity query_id : Z) : M net Z :=
  let count : Z := length query in
  if (count =? 0) || (capacity <? mdns_header_size + 6 * count) then mret (-1)
  else
    n ← getS;
    let rclass := MDNS_CLASS_IN in
    let rclass :=
      match zsock_getsockname n sock with
      | Some saddr =>
          if ((sa_family saddr =? AF_INET) || (sa_family saddr =? AF_INET6))
             && (sa_port saddr =? MDNS_PORT)
          then Z.land rclass (Z.lnot MDNS_UNICAST_RESPONSE) else rclass
      | None => rclass
      end in
    buffer ← memcpy_at buffer 0 (mdns_header query_id (u16 count)) mdns_header_size;
    '(data, buffer) ← fill_questions query buffer capacity mdns_header_size rclass;
    match data with
    | None => mret (-1)
    | Some tosend =>
        ret ← mdns_multicast_send sock buffer tosend;
        if negb (ret =? 0) then mret (-1) else mret query_id
    end.

Definition mdns_query_send (sock : Z) (name : list Z) (length : Z) : M net Z :=
  let query := MdnsQuery MDNS_RECORDTYPE_PTR name length in
  let buffer := stack_bytes (Z.to_nat MDNS_REQUEST_BUFFER_SIZE) in
  mdns_multiquery_send sock [query] buffer MDNS_REQUEST_BUFFER_SIZE 0.
End Queries.

(** ** Responses *)

Section Responses.
Context `{Sockets, Stack}.

Definition expected : list Z := chars "zephyr.".

(** [memcmp(a, s.str + off, n) == 0] *)
Definition memcmp_str {S} (a : list Z) (s : mdns_string_t) (namebuffer : list Z) (off : nat) (n : Z)
    : M S bool :=
  match str s with
  | StrNull => crash NullDeref
  | StrBuffer => memcmp a (drop off namebuffer) n
  end.

(** The condition for an answer: two comparisons, the second only if the first
    holds. *)
Definition record_matches {S} (query : list Z) (query_len : Z) (namestr : mdns_string_t)
    (namebuffer : list Z) : M S bool :=
  same ← memcmp_str expected namestr namebuffer 0 (length expected);
  if same : bool then memcmp_str query namestr namebuffer (length expected) query_len
  else mret false.

(** The loop over the records, with [records] left; the results are whether
    an answer matches, and the new [*offset]. *)
Fixpoint answer_loop {S} (records : nat) (buffer : list Z) (size offset : Z) (query : list Z)
    (query_len : Z) (namebuffer : list Z) : M S (bool * Z) :=
  match records with
  | O => mret (false, offset)
  | Datatypes.S records =>
      '(_, offset) ← mdns_string_skip buffer size offset;
      if size <? u32 (offset + 10) then mret (false, offset)
      else
        record_length ← mdns_ntohs buffer (offset + 8);
        let offset := u32 (offset + 10) in
        let next namebuffer :=
          answer_loop records buffer size (u32 (offset + record_length)) query query_len namebuffer in
        if record_length <=? u32 (size - offset) then
          '(namestr, namebuffer) ←
            mdns_record_parse_ptr buffer size offset record_length namebuffer MDNS_PTR_NAME_SIZE;
          same ← record_matches query query_len namestr namebuffer;
          if same : bool then mret (true, offset) else next namebuffer
        else next namebuffer
  end.

Definition mdns_answer_check {S} (buffer : list Z) (size offset records : Z) (query : list Z)
    (query_len : Z) : M S (bool * Z) :=
  answer_loop (Z.to_nat records) buffer size offset query query_len
    (stack_bytes (Z.to_nat MDNS_PTR_NAME_SIZE)).

(** [for (int i = 0; i < questions; ++i)]: [None] is the early exit. *)
Fixpoint skip_questions {S} (questions : nat) (buffer : list Z) (size data : Z) : M S (option Z) :=
  match questions with
  | O => mret (Some data)
  | Datatypes.S questions =>
      '(ok, offset) ← mdns_string_skip buffer size data;
      if ok : bool then skip_questions questions buffer size (offset + 4) else mret None
  end.

(** What is done with a datagram of [data_size] bytes: whether it answers. *)
Definition response_check {S} (buffer : list Z) (data_size : Z) (query : list Z) (query_len : Z)
    : M S bool :=
  questions ← mdns_ntohs buffer 4;
  answer_rrs ← mdns_ntohs buffer 6;
  data ← skip_questions (Z.to_nat questions) buffer data_size mdns_header_size;
  match data with
  | None => mret false
  | Some offset =>
      '(found, _) ← mdns_answer_check buffer data_size offset answer_rrs query query_len;
      mret found
  end.

(** The array a datagram is received into. *)
Definition response_buffer (data : list Z) : list Z :=
  data ++ drop (length data) (stack_bytes (Z.to_nat MDNS_RESPONSE_BUFFER_SIZE)).

(** The sender's address when 1 is returned, [None] when 0 is. *)
Definition mdns_query_recv_internal (sock : Z) (query : list Z) (query_len : Z)
    : M net (option (list Z)) :=
  n ← getS;
  let '(ret, data, addr, n) := zsock_recvfrom n sock MDNS_RESPONSE_BUFFER_SIZE in
  _ ← putS n;
  if ret <=? 0 then mret None
  else
    found ← response_check (response_buffer data) ret query query_len;
    mret (if found : bool then Some addr else None).

(** [while (ret > 0 && total < addr_list_len)] *)
Fixpoint recv_loop (fuel : nat) (sock ret total : Z) (addr_list : list (list Z)) (addr_list_len : Z)
    (query : list Z) (query_len : Z) : M net (Z * list (list Z)) :=
  if (0 <? ret) && (total <? addr_list_len) then
    match fuel with
    | O => crash Diverge
    | Datatypes.S fuel =>
        found ← mdns_query_recv_internal sock query query_len;
        '(addr_list, total) ←
          match found with
          | Some addr => (addr_list ← array_set addr_list total addr; mret (addr_list, u32 (total + 1)))
          | None => mret (addr_list, total)
          end;
        n ← getS;
        let '(ret, _, n) := zsock_poll n [sock] 0 in
        _ ← putS n;
        recv_loop fuel sock ret total addr_list addr_list_len query query_len
    end
  else mret (total, addr_list).

(** The result and the list; the loop goes on as long as datagrams arrive,
    [fuel] bounds its rounds. *)
Definition mdns_query_recv (fuel : nat) (sock : Z) (addr_list : list (list Z)) (addr_list_len : Z)
    (query : list Z) (query_len timeout : Z) : M net (Z * list (list Z)) :=
  n ← getS;
  let '(ret, _, n) := zsock_poll n [sock] timeout in
  _ ← putS n;
  recv_loop fuel sock ret 0 addr_list addr_list_len query query_len.
End Responses.

(** ** The socket *)

Section Socket.
Context `{Sockets}.

Definition join_multicast_group (mcast_addr : list Z) : M net bool :=
  n ← getS;
  if negb (net_if_get_default n) then mret false
  else
    let '(mcast, n) := net_if_ipv6_maddr_add n mcast_addr in
    _ ← putS n;
    if negb mcast then mret false
    else (_ ← modS (λ n, net_if_ipv6_maddr_join n mcast_addr); mret true).

(** [in6addr_any] *)
Definition in6addr_any : list Z := replicate 16 0.

Definition mdns_socket_setup_ipv6 (sock : Z) (jaddr : list Z) : M net Z :=
  joined ← join_multicast_group jaddr;
  if negb joined then mret (-1)
  else
    _ ← modS (λ n, zsock_setsockopt n sock SO_REUSEADDR);
    _ ← modS (λ n, zsock_setsockopt n sock SO_REUSEPORT);
    n ← getS;
    let '(ret, n) := zsock_bind n sock (Sockaddr AF_INET6 in6addr_any MDNS_PORT) in
    _ ← putS n;
    if negb (ret =? 0) then mret (-1) else mret 0.

Definition mdns_socket_close (sock : Z) : M net () := modS (λ n, zsock_close n sock).

Definition mdns_socket_open_ipv6 (jaddr : list Z) : M net Z :=
  n ← getS;
  let '(sock, n) := zsock_socket n AF_INET6 SOCK_DGRAM IPPROTO_UDP in
  _ ← putS n;
  if sock <? 0 then mret (-1)
  else
    ret ← mdns_socket_setup_ipv6 sock jaddr;
    if negb (ret =? 0) then (_ ← mdns_socket_close sock; mret (-1))
    else mret sock.
End Socket.
