(* ===== verification/MdnsNames.v ===== *)
(** * Names in DNS packets (src/mdns.c)

    [name_at] says what RFC 1035 makes of the bytes at an offset, with the
    limits the code puts on compression; [mdns_string_skip] and
    [mdns_string_extract] implement it.  On packets that hold no name there they
    still end, inside the packet. *)

From S2P Require Import Prelude Config Kernel Mdns.

(** ** Reading bytes *)

Lemma lookup_in_buffer (buffer : list Z) (i : Z) :
  0 <= i < length buffer → ∃ b, buffer !! Z.to_nat i = Some b.
Proof. intros Hi. apply lookup_lt_is_Some. lia. Qed.

Lemma mdns_ntohs_ok {S} (buffer : list Z) off hi lo (s : S) :
  0 <= off → buffer !! Z.to_nat off = Some hi → buffer !! Z.to_nat (off + 1) = Some lo →
  mdns_ntohs buffer off s = Done (of_be16 hi lo) s.
Proof.
  intros Ho Hhi Hlo. unfold mdns_ntohs.
  step_with (array_get_ok buffer off hi s Ho Hhi).
  by step_with (array_get_ok buffer (off + 1) lo s ltac:(lia) Hlo).
Qed.

Lemma mdns_ntohs_in {S} (buffer : list Z) off (s : S) :
  bytes buffer → 0 <= off → off + 2 <= length buffer →
  ∃ v, mdns_ntohs buffer off s = Done v s ∧ is_u16 v.
Proof.
  intros Hb Ho Hl.
  destruct (lookup_in_buffer buffer off) as [hi Hhi]; [lia|].
  destruct (lookup_in_buffer buffer (off + 1)) as [lo Hlo]; [lia|].
  exists (of_be16 hi lo). split; [by apply mdns_ntohs_ok|].
  apply of_be16_is_u16; by eapply Forall_lookup_1.
Qed.

Lemma string_ref_nonzero b : mdns_is_string_ref b = true → b <> 0.
Proof. by intros Hb ->. Qed.

(** ** The labels of a name *)

Section NameAt.
Context (b : list Z) (size : Z).

(** [k] compression pointers lead from one offset to another. *)
Inductive resolves : nat → Z → Z → Prop :=
| resolves_here o c :
    0 <= o < size → b !! Z.to_nat o = Some c → mdns_is_string_ref c = false →
    resolves 0 o o
| resolves_hop k off hi lo o :
    0 <= off → off + 2 <= size →
    b !! Z.to_nat off = Some hi → b !! Z.to_nat (off + 1) = Some lo →
    mdns_is_string_ref hi = true →
    resolves k (Z.land (of_be16 hi lo) 0x3fff) o →
    resolves (S k) off o.

(** The name at an offset: its labels, and the offset after it. *)
Inductive name_at : Z → list (list Z) → Z → Prop :=
| name_end k off o :
    resolves k off o → (k <= 16)%nat → b !! Z.to_nat o = Some 0 →
    name_at off [] (match k with O => off + 1 | S _ => off + 2 end)
| name_label k off o l ls e :
    resolves k off o → (k <= 16)%nat →
    b !! Z.to_nat o = Some (length l : Z) → l ≠ [] →
    o + 1 + length l <= size → take (length l) (drop (Z.to_nat (o + 1)) b) = l →
    name_at (o + 1 + length l) ls e →
    name_at off (l :: ls) (match k with O => e | S _ => off + 2 end).

Lemma resolves_range k off o : resolves k off o → 0 <= off < size ∧ 0 <= o < size.
Proof.
  induction 1 as [|k off hi lo o Hoff Hsize Hhi Hlo Href Hres IH]; [lia|]. lia.
Qed.

Lemma resolves_target k off o :
  resolves k off o → ∃ c, b !! Z.to_nat o = Some c ∧ mdns_is_string_ref c = false.
Proof. induction 1 as [o c|]; [by exists c|done]. Qed.

Lemma resolves_0 off o : resolves 0 off o → o = off.
Proof. by inversion 1. Qed.

Lemma resolves_S k off o : resolves (S k) off o → off + 2 <= size.
Proof. by inversion 1. Qed.

(** A name ends after its offset, inside the packet. *)
Lemma name_at_range off ls e : name_at off ls e → 0 <= off < size ∧ off < e <= size.
Proof.
  induction 1 as [k off o Hres Hk Hz|k off o l ls e Hres Hk Hl Hne Hend Htext Hname IH];
    pose proof (resolves_range _ _ _ Hres) as [Hoff Ho]; destruct k as [|k].
  - lia.
  - apply resolves_S in Hres. lia.
  - apply resolves_0 in Hres. lia.
  - apply resolves_S in Hres. lia.
Qed.
End NameAt.

(** The text [mdns_string_extract] makes of a name: a dot after every label. *)
Definition dotted (ls : list (list Z)) : list Z := ls ≫= λ l, l ++ [DOT].

Section Reading.
Context {W : Type} (b : list Z) (size : Z).
Context (Hb : bytes b) (Hsize : 0 <= size < 2 ^ 31) (Hlen : size <= length b).
Implicit Types (s : W) (n : nat).

(** ** Safety on arbitrary bytes *)

Lemma follow_refs_in n offset recursion ref s :
  0 <= offset < size → n + recursion = 17 → recursion <= 16 →
  ∃ found ref', follow_refs n b size offset recursion ref s = Done (found, ref') s ∧
    match found with
    | Some o => 0 <= o < size ∧ ∃ c, b !! Z.to_nat o = Some c ∧ mdns_is_string_ref c = false
    | None => True
    end.
Proof.
  revert offset recursion ref. induction n as [|n IH]; intros offset recursion ref Ho Hn Hr; [lia|].
  destruct (lookup_in_buffer b offset) as [c Hc]; [lia|].
  cbn [follow_refs]. step_with (array_get_ok b offset c s ltac:(lia) Hc).
  destruct (mdns_is_string_ref c) eqn:Href; cycle 1.
  { exists (Some offset), ref. split; [done|]. split; [done|]. by exists c. }
  rewrite u32_id by (unfold is_u32; lia).
  destruct (Z.ltb_spec size (offset + 2)); [by exists None, ref|].
  destruct (mdns_ntohs_in b offset s) as (v & Hv & _); [done|lia|lia|]. step_with Hv.
  set (target := Z.land v 0x3fff).
  assert (0 <= target) by (apply Z.land_nonneg; lia). clearbody target.
  destruct (Z.leb_spec size target); [by exists None, ref|].
  destruct (Z.ltb_spec 16 (recursion + 1)); [by exists None, true|].
  apply IH; lia.
Qed.

(** What the code relies on of a substring: it lies in the packet. *)
Definition pair_ok (p : mdns_string_pair_t) : Prop :=
  pair_offset p = MDNS_INVALID_POS ∧ pair_length p = 0 ∨
  0 <= pair_offset p ∧ 0 <= pair_length p < 2 ^ 8 ∧ pair_offset p + pair_length p <= size.

Lemma mdns_get_next_substring_in offset s :
  0 <= offset →
  ∃ p, mdns_get_next_substring b size offset s = Done p s ∧ pair_ok p ∧
    (pair_offset p ≠ MDNS_INVALID_POS → offset < size).
Proof.
  intros Ho. unfold mdns_get_next_substring.
  destruct (Z.leb_spec size offset).
  { eexists. split; [done|]. split; [by left|done]. }
  destruct (lookup_in_buffer b offset) as [c Hc]; [lia|].
  step_with (array_get_ok b offset c s Ho Hc).
  destruct (Z.eqb_spec c 0).
  { eexists. split; [done|]. split; [right; cbn|]; lia. }
  destruct (follow_refs_in 17 offset 0 false s) as (found & ref & Hrun & Hfound); [lia|lia|lia|].
  step_with Hrun. destruct found as [o|]; cycle 1.
  { eexists. split; [done|]. split; [by left|done]. }
  destruct Hfound as [Ho' (len & Hl & _)].
  step_with (array_get_ok b o len s ltac:(lia) Hl).
  assert (Hlb : is_u8 len) by (by eapply Forall_lookup_1). unfold is_u8 in Hlb.
  rewrite (u32_id (o + 1)) by (unfold is_u32; lia).
  rewrite u32_id by (unfold is_u32; lia).
  destruct (Z.ltb_spec size (o + 1 + len)).
  { eexists. split; [done|]. split; [by left|done]. }
  eexists. split; [done|]. split; [right; cbn|]; lia.
Qed.

(** A substring that is not INVALID stays below it. *)
Lemma pair_ok_end p :
  pair_ok p → pair_offset p ≠ MDNS_INVALID_POS →
  0 <= pair_offset p ∧ 0 <= pair_length p < 2 ^ 8 ∧ pair_offset p + pair_length p <= size ∧
  u32 (pair_offset p + pair_length p) = pair_offset p + pair_length p.
Proof.
  intros [[Hi _]|(H1 & H2 & H3)] Hne; [done|]. split_and!; try lia.
  apply u32_id. unfold is_u32. lia.
Qed.

Lemma skip_loop_in n offset cur counter s :
  0 <= cur → 0 <= counter → n + counter = 66 → counter <= 65 →
  ∃ ok offset', skip_loop n b size offset cur counter s = Done (ok, offset') s ∧
    if ok : bool then 0 <= offset' <= size + 2 else offset' = offset.
Proof.
  revert cur counter. induction n as [|n IH]; intros cur counter Hcur Hc Hn Hc'; [lia|].
  cbn [skip_loop].
  destruct (mdns_get_next_substring_in cur s) as (p & Hrun & Hp & Hin); [lia|]. step_with Hrun.
  destruct (Z.eqb_spec (pair_offset p) MDNS_INVALID_POS) as [|Hne]; [by exists false, offset|].
  specialize (Hin Hne).
  apply pair_ok_end in Hp as (Ho & Hl & He & Hu); [|done]. rewrite Hu.
  unfold MDNS_MAX_SUBSTRINGS. destruct (Z.ltb_spec 64 counter); [by exists false, offset|]. cbn [orb].
  destruct (pair_ref p).
  { eexists true, _. split; [done|]. rewrite u32_id by (unfold is_u32; lia). lia. }
  destruct (Z.eqb_spec (pair_length p) 0).
  { eexists true, _. split; [done|]. rewrite u32_id by (unfold is_u32; lia). lia. }
  apply IH; lia.
Qed.

Lemma mdns_string_skip_in offset s :
  0 <= offset →
  ∃ ok offset', mdns_string_skip b size offset s = Done (ok, offset') s ∧
    if ok : bool then 0 <= offset' <= size + 2 else offset' = offset.
Proof.
  intros Ho. by apply skip_loop_in.
Qed.

(** Room for what is still to be written, and the text written this round. *)
Definition clip (remain : Z) (text : list Z) : list Z := take (Z.to_nat remain) text.

(** A label is copied with its dot, as far as there is room. *)
Lemma append_label_ok (dst : list Z) p text (written remain : Z) s :
  pair_ok p → 0 < pair_length p → pair_length p = length text →
  take (length text) (drop (Z.to_nat (pair_offset p)) b) = text →
  0 <= written → 0 <= remain → written + remain <= length dst →
  let out := clip remain (text ++ [DOT]) in
  append_label b dst written remain p s
  = Done (write_at dst (Z.to_nat written) out, written + length out, remain - length out) s.
Proof.
  intros Hp Hpos Hl Htext Hw Hr Hroom. cbv zeta.
  assert (Hoff : 0 <= pair_offset p ∧ pair_offset p + pair_length p <= size).
  { destruct Hp as [[_ ?]|?]; lia. }
  unfold append_label. set (to_copy := if _ <? _ then _ else _).
  assert (Hcopy : to_copy = Z.min (length text) remain).
  { unfold to_copy. rewrite Hl. destruct (Z.ltb_spec (length text) remain); lia. }
  clearbody to_copy. subst to_copy.
  assert (Hsrc : take (Z.to_nat (Z.min (length text) remain)) (drop (Z.to_nat (pair_offset p)) b)
                 = take (Z.to_nat remain) text).
  { rewrite <-Htext at 2. rewrite take_take. f_equal. lia. }
  step_with (memcpy_at_write dst (Z.to_nat written) (drop (Z.to_nat (pair_offset p)) b)
    (Z.min (length text) remain) s ltac:(lia) ltac:(lia) ltac:(rewrite length_drop; lia)).
  rewrite Hsrc. unfold clip. destruct (Z.eqb_spec (remain - Z.min (length text) remain) 0) as [Hz|Hz].
  - assert (take (Z.to_nat remain) (text ++ [DOT]) = take (Z.to_nat remain) text) as ->.
    { apply take_app_le. lia. }
    rewrite length_take. unfold mret, M_ret. f_equal. f_equal; [f_equal|]; lia.
  - assert (take (Z.to_nat remain) text = text) as -> by (apply take_ge; lia).
    assert (take (Z.to_nat remain) (text ++ [DOT]) = text ++ [DOT]) as ->.
    { apply take_ge. rewrite length_app. cbn [length]. lia. }
    step_with (array_set_write (write_at dst (Z.to_nat written) text)
      (written + Z.min (length text) remain) DOT s
      ltac:(rewrite length_write_at by lia; lia)).
    unfold mret, M_ret. rewrite length_app. cbn [length].
    replace (Z.to_nat (written + Z.min (length text) remain)) with (Z.to_nat written + length text)%nat
      by lia.
    rewrite write_at_app by lia. f_equal. f_equal; [f_equal|]; lia.
Qed.

(** The text of a substring, as it lies in the packet. *)
Lemma pair_text p :
  pair_ok p → pair_offset p ≠ MDNS_INVALID_POS →
  ∃ text, (length text : Z) = pair_length p ∧
    take (length text) (drop (Z.to_nat (pair_offset p)) b) = text.
Proof.
  intros Hp Hne. apply pair_ok_end in Hp as (Ho & Hl & He & _); [|done].
  exists (take (Z.to_nat (pair_length p)) (drop (Z.to_nat (pair_offset p)) b)).
  rewrite length_take, length_drop. split; [lia|]. f_equal. lia.
Qed.

Lemma clip_le remain text : 0 <= remain → length (clip remain text) <= remain.
Proof. intros Hr. unfold clip. rewrite length_take. lia. Qed.

Lemma extract_loop_in n str cur end_ written remain counter s :
  0 <= cur → 0 <= counter → n + counter = 66 → counter <= 65 →
  0 <= written → 0 <= remain → written + remain <= length str →
  ∃ res str', extract_loop n b size str cur end_ written remain counter s = Done (res, str') s ∧
    length str' = length str ∧
    match res with Some (_, remain') => 0 <= remain' <= remain | None => True end.
Proof.
  revert str cur end_ written remain counter. induction n as [|n IH];
    intros str cur end_ written remain counter Hcur Hc Hn Hc' Hw Hr Hroom; [lia|].
  cbn [extract_loop].
  destruct (mdns_get_next_substring_in cur s) as (p & Hrun & Hp & _); [done|]. step_with Hrun.
  destruct (Z.eqb_spec (pair_offset p) MDNS_INVALID_POS) as [|Hne]; [by eexists None, _|].
  destruct (pair_text p Hp Hne) as (text & Hl & Htext).
  pose proof (pair_ok_end p Hp Hne) as (Ho & Hlen' & He & Hu). rewrite Hu.
  unfold MDNS_MAX_SUBSTRINGS. destruct (Z.ltb_spec 64 counter); [by eexists None, _|]. cbn [orb].
  destruct (Z.eqb_spec (pair_length p) 0).
  { eexists (Some _), str. split; [done|]. split; [done|]. cbn. lia. }
  step_with (append_label_ok str p text written remain s Hp ltac:(lia) ltac:(done) Htext Hw Hr Hroom).
  pose proof (clip_le remain (text ++ [DOT]) Hr) as Hclip. set (out := clip _ _) in *. clearbody out.
  edestruct (IH (write_at str (Z.to_nat written) out)) as (res & str' & Hrun' & Hlen'' & Hres);
    [..|exists res, str'; split; [exact Hrun'|]]; try lia.
  - rewrite length_write_at by lia. lia.
  - rewrite length_write_at in Hlen'' by lia. split; [done|]. destruct res as [[]|]; lia.
Qed.

(** *** The functions implement [name_at] *)

Lemma follow_refs_resolves n k off o recursion ref s :
  resolves b size k off o → k + recursion <= 16 → n + recursion = 17 → 0 <= recursion →
  follow_refs n b size off recursion ref s = Done (Some o, match k with O => ref | S _ => true end) s.
Proof.
  intros Hres. revert n recursion ref. induction Hres as [o c Ho Hc Href|k off hi lo o Hoff Hend Hhi Hlo Href Hres IH];
    intros n recursion ref Hk Hn Hr.
  - destruct n as [|n]; [lia|]. cbn [follow_refs]. step_with (array_get_ok b o c s ltac:(lia) Hc).
    by rewrite Href.
  - destruct n as [|n]; [lia|]. cbn [follow_refs]. step_with (array_get_ok b off hi s Hoff Hhi). rewrite Href.
    rewrite u32_id by (unfold is_u32; lia). destruct (Z.ltb_spec size (off + 2)); [lia|].
    step_with (mdns_ntohs_ok b off hi lo s Hoff Hhi Hlo).
    apply resolves_range in Hres as Hrange. set (target := Z.land _ _) in *. clearbody target.
    destruct (Z.leb_spec size target); [lia|]. destruct (Z.ltb_spec 16 (recursion + 1)); [lia|].
    rewrite IH by lia. by destruct k.
Qed.

(** What a resolved offset holds, as a substring. *)
Lemma next_substring_resolves k off o c s :
  resolves b size k off o → (k <= 16)%nat → b !! Z.to_nat o = Some c → o + 1 + c <= size →
  mdns_get_next_substring b size off s
  = Done (match k with
          | O => if c =? 0 then MdnsPair off 0 false else MdnsPair (o + 1) c false
          | S _ => MdnsPair (o + 1) c true
          end) s.
Proof.
  intros Hres Hk Hc Hend. pose proof (resolves_range _ _ _ _ _ Hres) as [Hoff Ho].
  assert (Hcb : is_u8 c) by (by eapply Forall_lookup_1). unfold is_u8 in Hcb.
  unfold mdns_get_next_substring. destruct (Z.leb_spec size off); [lia|].
  destruct (lookup_in_buffer b off) as [c0 Hc0]; [lia|].
  step_with (array_get_ok b off c0 s ltac:(lia) Hc0).
  assert (Hfirst : c0 = 0 ↔ k = 0%nat ∧ c = 0).
  { destruct Hres as [o c' _ Hc' _|k off hi lo o _ _ Hhi _ Href _].
    - assert (c' = c) as -> by congruence. assert (c0 = c) as -> by congruence. split; [done|by intros [_ ?]].
    - apply string_ref_nonzero in Href. assert (c0 = hi) as -> by congruence. split; [done|by intros [? _]]. }
  destruct (Z.eqb_spec c0 0) as [->|Hnz].
  { destruct Hfirst as [Hfirst _]. destruct (Hfirst eq_refl) as [-> ->]. done. }
  step_with (follow_refs_resolves 17 k off o 0 false s Hres ltac:(lia) ltac:(lia) ltac:(lia)).
  step_with (array_get_ok b o c s ltac:(lia) Hc).
  rewrite (u32_id (o + 1)) by (unfold is_u32; lia).
  rewrite u32_id by (unfold is_u32; lia).
  destruct (Z.ltb_spec size (o + 1 + c)); [lia|]. destruct k; [|done].
  destruct (Z.eqb_spec c 0); [|done]. exfalso. by apply Hnz, Hfirst.
Qed.

Lemma skip_loop_name n offset cur ls e counter s :
  name_at b size cur ls e → counter + length ls <= 64 → 0 <= counter → n + counter = 66 →
  skip_loop n b size offset cur counter s = Done (true, e) s.
Proof.
  intros Hname. revert n counter.
  induction Hname as [k off o Hres Hk Hz|k off o l ls e Hres Hk Hl Hne Hend Htext Hname IH];
    intros n counter Hc Hc0 Hn; (destruct n as [|n]; [lia|]); cbn [skip_loop];
    pose proof (resolves_range _ _ _ _ _ Hres) as [Hoff Ho].
  - step_with (next_substring_resolves k off o 0 s Hres Hk Hz ltac:(lia)).
    unfold MDNS_MAX_SUBSTRINGS. destruct k as [|k]; cbn [Z.eqb andb pair_offset pair_ref pair_length].
    + destruct (Z.eqb_spec off MDNS_INVALID_POS); [unfold MDNS_INVALID_POS in *; lia|].
      destruct (Z.ltb_spec 64 counter); [lia|]. cbn [orb].
      rewrite Z.add_0_r, (u32_id off) by (unfold is_u32; lia). by rewrite u32_id by (unfold is_u32; lia).
    + destruct (Z.eqb_spec (o + 1) MDNS_INVALID_POS); [unfold MDNS_INVALID_POS in *; lia|].
      destruct (Z.ltb_spec 64 counter); [cbn [length] in *; lia|]. cbn [orb].
      by rewrite u32_id by (unfold is_u32; lia).
  - step_with (next_substring_resolves k off o (length l) s Hres Hk Hl ltac:(lia)).
    assert (Hlpos : 0 < length l) by (destruct l; [done|cbn [length]; lia]).
    destruct (Z.eqb_spec (length l) 0); [lia|].
    set (p := match k with O => _ | S _ => _ end).
    assert (Hp : pair_offset p = o + 1 ∧ pair_length p = length l
                 ∧ pair_ref p = match k with O => false | S _ => true end) by (by destruct k).
    clearbody p. destruct Hp as (Hpo & Hpl & Hpr). rewrite Hpo, Hpl, Hpr.
    unfold MDNS_MAX_SUBSTRINGS. cbn [length] in *.
    destruct (Z.eqb_spec (o + 1) MDNS_INVALID_POS); [unfold MDNS_INVALID_POS in *; lia|].
    destruct (Z.ltb_spec 64 counter); [lia|]. cbn [orb].
    destruct k as [|k].
    + destruct (Z.eqb_spec (length l) 0); [lia|]. rewrite u32_id by (unfold is_u32; lia).
      apply IH; lia.
    + by rewrite u32_id by (unfold is_u32; lia).
Qed.

Lemma mdns_string_skip_name offset ls e s :
  name_at b size offset ls e → (length ls <= 64)%nat →
  mdns_string_skip b size offset s = Done (true, e) s.
Proof. intros Hname Hl. apply (skip_loop_name _ _ _ ls); [done|lia|lia|lia]. Qed.

Lemma clip_app remain xs ys : 0 <= remain →
  clip remain (xs ++ ys) = clip remain xs ++ clip (remain - length (clip remain xs)) ys.
Proof.
  intros Hr. unfold clip. rewrite take_app. f_equal. rewrite length_take. f_equal. lia.
Qed.

(** The empty label ends the name. *)
Lemma extract_loop_end n str k off o end_ written remain counter s :
  resolves b size k off o → (k <= 16)%nat → b !! Z.to_nat o = Some 0 → counter <= 64 →
  extract_loop (S n) b size str off end_ written remain counter s
  = Done (Some (if end_ =? MDNS_INVALID_POS then match k with O => off + 1 | S _ => off + 2 end else end_, remain),
          str) s.
Proof.
  intros Hres Hk Hz Hc. cbn [extract_loop]. pose proof (resolves_range _ _ _ _ _ Hres) as [Hoff Ho].
  step_with (next_substring_resolves k off o 0 s Hres Hk Hz ltac:(lia)). unfold MDNS_MAX_SUBSTRINGS.
  destruct k as [|k]; cbn [Z.eqb andb pair_offset pair_ref pair_length].
  - destruct (Z.eqb_spec off MDNS_INVALID_POS); [unfold MDNS_INVALID_POS in *; lia|].
    destruct (Z.ltb_spec 64 counter); [lia|]. cbn [orb].
    rewrite Z.add_0_r, (u32_id off) by (unfold is_u32; lia). by rewrite u32_id by (unfold is_u32; lia).
  - destruct (Z.eqb_spec (o + 1) MDNS_INVALID_POS); [unfold MDNS_INVALID_POS in *; lia|].
    destruct (Z.ltb_spec 64 counter); [lia|]. cbn [orb]. rewrite (u32_id (off + 2)) by (unfold is_u32; lia).
    destruct (Z.eqb_spec end_ MDNS_INVALID_POS) as [He|He].
    + destruct (Z.eqb_spec (off + 2) MDNS_INVALID_POS); [unfold MDNS_INVALID_POS in *; lia|done].
    + by destruct (Z.eqb_spec end_ MDNS_INVALID_POS).
Qed.

Lemma extract_loop_name n str cur ls e end_ written remain counter s :
  name_at b size cur ls e → counter + length ls <= 64 → 0 <= counter → n + counter = 66 →
  0 <= written → 0 <= remain → written + remain <= length str →
  extract_loop n b size str cur end_ written remain counter s
  = Done (Some (if end_ =? MDNS_INVALID_POS then e else end_, remain - length (clip remain (dotted ls))),
          write_at str (Z.to_nat written) (clip remain (dotted ls))) s.
Proof.
  intros Hname. revert n str end_ written remain counter.
  induction Hname as [k off o Hres Hk Hz|k off o l ls e Hres Hk Hl Hne Hend Htext Hname IH];
    intros n str end_ written remain counter Hc Hc0 Hn Hw Hr Hroom; (destruct n as [|n]; [lia|]).
  - rewrite (extract_loop_end n str k off o) by (cbn [length] in *; done || lia).
    cbn [dotted mbind list_bind length]. unfold clip. rewrite take_nil, write_at_nil. cbn [length].
    by rewrite Z.sub_0_r.
  - cbn [extract_loop]. pose proof (resolves_range _ _ _ _ _ Hres) as [Hoff Ho].
    step_with (next_substring_resolves k off o (length l) s Hres Hk Hl ltac:(lia)).
    assert (Hlpos : 0 < length l) by (destruct l; [done|cbn [length]; lia]).
    assert (Hlb : is_u8 (length l)) by (by eapply (Forall_lookup_1 is_u8 b)).
    destruct (Z.eqb_spec (length l) 0); [lia|].
    set (p := match k with O => _ | S _ => _ end).
    assert (Hp : pair_offset p = o + 1 ∧ pair_length p = length l
                 ∧ pair_ref p = match k with O => false | S _ => true end) by (by destruct k).
    clearbody p. destruct Hp as (Hpo & Hpl & Hpr). rewrite Hpo, Hpl, Hpr.
    unfold MDNS_MAX_SUBSTRINGS. cbn [length] in *.
    destruct (Z.eqb_spec (o + 1) MDNS_INVALID_POS); [unfold MDNS_INVALID_POS in *; lia|].
    destruct (Z.ltb_spec 64 counter); [lia|]. cbn [orb].
    destruct (Z.eqb_spec (length l) 0); [lia|].
    rewrite (u32_id (o + 1 + length l)) by (unfold is_u32; lia).
    assert (Hp : pair_ok p) by (right; rewrite Hpo, Hpl; unfold is_u8 in Hlb; lia).
    rewrite <-Hpo in Htext. rewrite <-Hpl in Hlpos.
    step_with (append_label_ok str p l written remain s Hp Hlpos Hpl Htext Hw Hr Hroom).
    pose proof (clip_le remain (l ++ [DOT]) Hr) as Hclip.
    change (dotted (l :: ls)) with ((l ++ [DOT]) ++ dotted ls). rewrite (clip_app remain (l ++ [DOT])) by done.
    set (out := clip remain (l ++ [DOT])) in *. clearbody out.
    rewrite (IH n); [|lia..|rewrite length_write_at by lia; lia].
    rewrite Z2Nat.inj_add, Nat2Z.id, write_at_app by lia. rewrite length_app. f_equal. f_equal. f_equal.
    destruct k as [|k]; cbn [andb].
    + f_equal. lia.
    + rewrite (u32_id (off + 2)) by (unfold is_u32; lia).
      destruct (Z.eqb_spec end_ MDNS_INVALID_POS) as [He|He].
      * destruct (Z.eqb_spec (off + 2) MDNS_INVALID_POS); [unfold MDNS_INVALID_POS in *; lia|]. f_equal. lia.
      * destruct (Z.eqb_spec end_ MDNS_INVALID_POS); [done|]. f_equal. lia.
Qed.

Lemma mdns_string_extract_in offset str capacity s :
  0 <= offset → 0 <= capacity <= length str →
  ∃ r offset' str', mdns_string_extract b size offset str capacity s = Done (r, offset', str') s ∧
    Mdns.str r = StrBuffer ∧ 0 <= str_length r <= capacity ∧ length str' = length str.
Proof.
  intros Ho Hcap. unfold mdns_string_extract.
  destruct (extract_loop_in 66 str offset MDNS_INVALID_POS 0 capacity 0 s)
    as (res & str' & Hrun & Hlen' & Hres); [lia..|]. step_with Hrun.
  destruct res as [[end_ remain]|]; eexists _, _, str'; (split; [done|]); (split; [done|]); cbn;
    (split; [lia|done]).
Qed.

Lemma mdns_string_extract_name offset ls e str capacity s :
  name_at b size offset ls e → (length ls <= 64)%nat → 0 <= capacity <= length str →
  mdns_string_extract b size offset str capacity s
  = Done (MdnsString StrBuffer (length (clip capacity (dotted ls))), e,
          write_at str 0 (clip capacity (dotted ls))) s.
Proof.
  intros Hname Hls Hcap. unfold mdns_string_extract.
  step_with (extract_loop_name 66 str offset ls e MDNS_INVALID_POS 0 capacity 0 s Hname
    ltac:(lia) ltac:(lia) ltac:(lia) ltac:(lia) ltac:(lia) ltac:(lia)).
  rewrite Z.eqb_refl. unfold mret, M_ret. do 4 f_equal. lia.
Qed.

Lemma mdns_record_parse_ptr_in offset len nb capacity s :
  0 <= offset → offset + len <= size → 2 <= len → 0 <= capacity <= length nb →
  ∃ r nb', mdns_record_parse_ptr b size offset len nb capacity s = Done (r, nb') s ∧
    Mdns.str r = StrBuffer ∧ length nb' = length nb.
Proof.
  intros Ho Hend H2 Hcap. unfold mdns_record_parse_ptr. rewrite (u32_id (offset + len)) by (unfold is_u32; lia).
  destruct (Z.leb_spec (offset + len) size); [|lia]. destruct (Z.leb_spec 2 len); [|lia]. cbn [andb].
  destruct (mdns_string_extract_in offset nb capacity s Ho Hcap) as (r & o & nb' & Hrun & Hr & _ & Hl).
  step_with Hrun. by exists r, nb'.
Qed.

Lemma mdns_record_parse_ptr_name offset len ls e nb capacity s :
  name_at b size offset ls e → (length ls <= 64)%nat → offset + len <= size → 2 <= len →
  0 <= capacity <= length nb →
  ∃ r, mdns_record_parse_ptr b size offset len nb capacity s
       = Done (r, write_at nb 0 (clip capacity (dotted ls))) s ∧ Mdns.str r = StrBuffer.
Proof.
  intros Hname Hls Hend H2 Hcap. apply name_at_range in Hname as Hrange.
  unfold mdns_record_parse_ptr. rewrite (u32_id (offset + len)) by (unfold is_u32; lia).
  destruct (Z.leb_spec (offset + len) size); [|lia]. destruct (Z.leb_spec 2 len); [|lia]. cbn [andb].
  step_with (mdns_string_extract_name offset ls e nb capacity s Hname Hls Hcap).
  by eexists.
Qed.

(** C19: Wherever a packet holds a name of at most 64 labels, in the relational sense of RFC
    1035 with compression pointers, mdns_string_skip ends behind it and mdns_string_extract
    writes its labels, each followed by a dot, cut off at the capacity, and ends behind it too. *)
Theorem mdns_names_decoded offset ls e str capacity s :
  name_at b size offset ls e → (length ls <= 64)%nat → 0 <= capacity <= length str →
  let text := take (Z.to_nat capacity) (dotted ls) in
  mdns_string_skip b size offset s = Done (true, e) s ∧
  mdns_string_extract b size offset str capacity s
  = Done (MdnsString StrBuffer (length text), e, text ++ drop (length text) str) s.
Proof.
  intros Hname Hls Hcap text. split; [by apply (mdns_string_skip_name _ ls)|].
  by apply mdns_string_extract_name.
Qed.

(** On arbitrary bytes, loops of compression pointers included, skipping and extracting a
    name end without an access out of bounds: the bounds of 16 pointers and 64 labels suffice,
    and no more than the capacity is written. *)
Theorem mdns_names_total offset str capacity s :
  0 <= offset → 0 <= capacity <= length str →
  (∃ ok offset', mdns_string_skip b size offset s = Done (ok, offset') s ∧
     if ok : bool then 0 <= offset' <= size + 2 else offset' = offset) ∧
  (∃ r offset' str', mdns_string_extract b size offset str capacity s = Done (r, offset', str') s ∧
     str_length r <= capacity ∧ length str' = length str).
Proof.
  intros Ho Hcap. split; [by apply mdns_string_skip_in|].
  destruct (mdns_string_extract_in offset str capacity s Ho Hcap)
    as (r & offset' & str' & Hrun & _ & Hr & Hl). exists r, offset', str'. split_and!; [done|lia|done].
Qed.
End Reading.
