(* ===== verification/MdnsQuery.v ===== *)
(** * The query that is sent (src/mdns.c)

    Without a compression table [mdns_string_make] is RFC 1035's encoding of a
    name ([wire]), which [name_at] reads back.  [mdns_query_send] multicasts the
    packet [query_packet], if the name leaves room for it. *)

From S2P Require Import Prelude Config Kernel Mdns MdnsNames.

(** ** Names and their encoding *)

Definition label_ok (l : list Z) : Prop := l ≠ [] ∧ length l <= 63 ∧ bytes l ∧ DOT ∉ l.

(** The labels with dots between them. *)
Fixpoint joined (ls : list (list Z)) : list Z :=
  match ls with
  | [] => []
  | [l] => l
  | l :: ls => l ++ DOT :: joined ls
  end.

Definition wire_label (l : list Z) : list Z := (length l : Z) :: l.
Definition wire (ls : list (list Z)) : list Z := (ls ≫= wire_label) ++ [0].

Lemma joined_cons l ls : ls ≠ [] → joined (l :: ls) = l ++ DOT :: joined ls.
Proof. by destruct ls. Qed.

Lemma joined_prefix l ls : ∃ rest, joined (l :: ls) = l ++ rest.
Proof. destruct ls as [|l' ls]; [exists []; by rewrite app_nil_r|by eexists]. Qed.

Lemma wire_cons l ls : wire (l :: ls) = wire_label l ++ wire ls.
Proof. unfold wire. cbn. by rewrite app_comm_cons, app_assoc. Qed.

Lemma length_wire_label l : length (wire_label l) = S (length l).
Proof. done. Qed.

(** A name is encoded in two more bytes than it has characters. *)
Lemma length_wire ls : ls ≠ [] → length (wire ls) = (length (joined ls) + 2)%nat.
Proof.
  induction ls as [|l ls IH]; [done|]. intros _. rewrite wire_cons, length_app, length_wire_label.
  destruct (decide (ls = [])) as [->|Hne]; [cbn; lia|].
  rewrite IH, joined_cons, length_app by done. cbn [length]. lia.
Qed.

Lemma wire_bytes ls : Forall label_ok ls → bytes (wire ls).
Proof.
  induction 1 as [|l ls (_ & Hl & Hb & _) Hls IH]; [by constructor|]. rewrite wire_cons.
  apply Forall_app. split; [|done]. constructor; [unfold is_u8; lia|done].
Qed.

(** The last character of a name is not a dot. *)
Lemma joined_last ls :
  ls ≠ [] → Forall label_ok ls →
  ∃ c, joined ls !! (length (joined ls) - 1)%nat = Some c ∧ c ≠ DOT ∧ (0 < length (joined ls))%nat.
Proof.
  intros Hne Hok. induction Hok as [|l ls (Hl & _ & _ & Hd) Hls IH]; [done|].
  assert (Hpos : (0 < length l)%nat) by (destruct l; [done|cbn; lia]).
  destruct (decide (ls = [])) as [->|Hls'].
  - cbn [joined]. destruct (lookup_lt_is_Some_2 l (length l - 1)) as [c Hc]; [lia|].
    exists c. split; [done|]. split; [|done]. intros ->. by apply Hd, (list_elem_of_lookup_2 _ _ _ Hc).
  - destruct (IH Hls') as (c & Hc & Hcd & Hlen). exists c. rewrite joined_cons, length_app by done.
    cbn [length]. split; [|split; [done|lia]].
    rewrite lookup_app_r by lia.
    replace (length l + S (length (joined ls)) - 1 - length l)%nat with (S (length (joined ls) - 1)) by lia.
    done.
Qed.

(** ** Finding dots *)

Lemma memchr_found {S} l rest (n : nat) (s : S) :
  DOT ∉ l → (length l < n)%nat → memchr (l ++ DOT :: rest) DOT n s = Done (Some (length l : Z)) s.
Proof.
  revert n. induction l as [|x l IH]; intros n Hd Hn; (destruct n as [|n]; [cbn in Hn; lia|]); [done|].
  apply not_elem_of_cons in Hd as [Hx Hd]. cbn [memchr app].
  destruct (Z.eqb_spec x DOT); [done|]. cbn [length] in Hn.
  step_with (IH n Hd ltac:(lia)). cbn [length]. unfold mret, M_ret. cbn. do 2 f_equal. lia.
Qed.

Lemma memchr_none {S} l rest (s : S) :
  DOT ∉ l → memchr (l ++ rest) DOT (length l) s = Done None s.
Proof.
  induction l as [|x l IH]; intros Hd; [by destruct rest|].
  apply not_elem_of_cons in Hd as [Hx Hd]. cbn [memchr app length].
  destruct (Z.eqb_spec x DOT); [done|]. by step_with (IH Hd).
Qed.

(** Where the first of the labels that are left ends. *)
Lemma mdns_string_find_label {S} pre l ls post len (s : S) :
  label_ok l → len = (length pre + length (joined (l :: ls)) : Z) → len < MDNS_INVALID_POS →
  mdns_string_find (pre ++ joined (l :: ls) ++ post) len DOT (length pre) s
  = Done (if decide (ls = []) then MDNS_INVALID_POS else (length pre + length l : Z)) s.
Proof.
  intros (Hne & _ & _ & Hd) Hlen Hmax. unfold mdns_string_find.
  assert (Hpos : (0 < length l)%nat) by (destruct l; [done|cbn; lia]).
  destruct (joined_prefix l ls) as [rest Hrest].
  destruct (Z.leb_spec len (length pre)) as [Hle|_]; [rewrite Hlen, Hrest, length_app in Hle; lia|].
  rewrite Nat2Z.id, drop_app_length.
  replace (Z.to_nat (len - length pre)) with (length (joined (l :: ls))) by lia.
  destruct (decide (ls = [])) as [->|Hls].
  - cbn [joined]. by step_with (memchr_none l post s Hd).
  - rewrite joined_cons, <-app_assoc, <-app_comm_cons by done.
    step_with (memchr_found l (joined ls ++ post) (length (l ++ DOT :: joined ls)) s Hd
      ltac:(rewrite length_app; cbn [length]; lia)). done.
Qed.

(** ** Encoding *)

Section Encoding.
Context {W : Type}.
Implicit Types (s : W) (n : nat).

(** The outcome of encoding [ls] at [data]: the pointer after it, or NULL. *)
Definition encoded (buffer : list Z) (capacity data : Z) (ls : list (list Z)) s
    (r : result W (option Z * list Z * option mdns_string_table_t)) : Prop :=
  if decide (data + length (wire ls) <= capacity)
  then r = Done (Some (data + length (wire ls)), write_at buffer (Z.to_nat data) (wire ls), None) s
  else ∃ buffer', r = Done (None, buffer', None) s ∧ length buffer' = length buffer.

(** Where the loop goes on behind the first of the labels that are left. *)
Definition next_pos (pre l : list Z) (ls : list (list Z)) : Z :=
  if decide (ls = []) then length (pre ++ l) else length (pre ++ l ++ [DOT]).

(** The loop's end writes the empty label. *)
Lemma make_loop_end n buffer capacity data name (last : nat) s :
  0 <= data <= capacity → capacity <= length buffer → capacity < 2 ^ 31 →
  encoded buffer capacity data [] s (make_loop n buffer capacity data name last last None s).
Proof.
  intros Hdata Hcap Hcmax.
  assert (make_loop n buffer capacity data name last last None
          = if u32 (capacity - data) =? 0 then mret (None, buffer, None)
            else (buffer ← array_set buffer data 0; mret (Some (data + 1), buffer, None) : M W _)) as ->.
  { destruct n; cbn [make_loop]; by rewrite Z.ltb_irrefl. }
  rewrite u32_id by (unfold is_u32; lia). unfold encoded. cbn [wire mbind list_bind app length].
  destruct (Z.eqb_spec (capacity - data) 0); case_decide; try lia; [by eexists|].
  step_with (array_set_write buffer data 0 s ltac:(lia)). done.
Qed.

(** A round writes one label, when there is room for more than it. *)
Lemma make_loop_label n buffer capacity data pre l ls post len s :
  label_ok l → len = length pre + length (joined (l :: ls)) →
  0 <= data <= capacity → capacity <= length buffer → capacity < 2 ^ 31 → len < 2 ^ 31 →
  make_loop (S n) buffer capacity data (pre ++ joined (l :: ls) ++ post) len (length pre) None s
  = if capacity - data <=? length l + 1 then Done (None, buffer, None) s
    else make_loop n (write_at buffer (Z.to_nat data) (wire_label l)) capacity (data + length l + 1)
           (pre ++ joined (l :: ls) ++ post) len (next_pos pre l ls) None s.
Proof.
  intros Hl Hlen Hdata Hcap Hcmax Hlmax. pose proof Hl as (Hne & Hl63 & Hlb & Hd).
  assert (Hpos : (0 < length l)%nat) by (destruct l; [done|cbn; lia]).
  destruct (joined_prefix l ls) as [rest Hrest].
  pose proof (f_equal length Hrest) as Hrestlen. rewrite length_app in Hrestlen.
  cbn [make_loop]. destruct (Z.ltb_spec (length pre) len) as [_|]; [|lia].
  step_with (mdns_string_find_label pre l ls post len s Hl Hlen ltac:(unfold MDNS_INVALID_POS; lia)).
  unfold mdns_string_table_find. rewrite M_bind_mret.
  change (MDNS_INVALID_POS =? MDNS_INVALID_POS) with true. cbn [negb]. set (pos := if decide (ls = []) then _ else _).
  assert ((if pos =? MDNS_INVALID_POS then len else pos) - length pre = length l ∧
    (if pos =? MDNS_INVALID_POS then len else u32 (pos + 1)) = next_pos pre l ls) as [Hsub Hnext].
  { unfold pos, next_pos. destruct (decide (ls = [])) as [->|Hls].
    - rewrite Z.eqb_refl, length_app. cbn [joined] in Hlen. lia.
    - rewrite joined_cons in Hrestlen by done. rewrite !length_app in *. cbn [length] in *.
      destruct (Z.eqb_spec (length pre + length l) MDNS_INVALID_POS); [unfold MDNS_INVALID_POS in *; lia|].
      rewrite u32_id by (unfold is_u32; lia). lia. }
  rewrite Hsub, Hnext. clear Hsub Hnext. clearbody pos.
  rewrite (u32_id (capacity - data)), (u32_id (length l + 1)) by (unfold is_u32; lia).
  destruct (Z.leb_spec (capacity - data) (length l + 1)) as [Hfull|Hroom]; [done|].
  step_with (array_set_write buffer data (u8 (length l)) s ltac:(lia)).
  rewrite (u8_id (length l)) by (unfold is_u8; lia).
  assert (Hsrc : take (length l) (drop (Z.to_nat (length pre)) (pre ++ joined (l :: ls) ++ post)) = l).
  { rewrite Nat2Z.id, drop_app_length, Hrest, <-app_assoc. apply take_app_length. }
  step_with (memcpy_at_write (write_at buffer (Z.to_nat data) [length l : Z]) (Z.to_nat (data + 1))
    (drop (Z.to_nat (length pre)) (pre ++ joined (l :: ls) ++ post)) (length l) s ltac:(lia)
    ltac:(rewrite length_write_at by (cbn [length]; lia); lia)
    ltac:(rewrite length_drop, !length_app, Hrestlen; lia)).
  rewrite Nat2Z.id, Hsrc.
  replace (Z.to_nat (data + 1)) with (Z.to_nat data + length [length l : Z])%nat by (cbn [length]; lia).
  rewrite write_at_app by (cbn [length]; lia). done.
Qed.

(** Writing a label and then the others is writing them all. *)
Lemma encoded_cons buffer capacity data l ls s r :
  0 <= data → data + length l + 1 < capacity → capacity <= length buffer →
  encoded (write_at buffer (Z.to_nat data) (wire_label l)) capacity (data + length l + 1) ls s r →
  encoded buffer capacity data (l :: ls) s r.
Proof.
  intros Hdata Hroom Hcap. unfold encoded. rewrite wire_cons, length_app, length_wire_label.
  rewrite length_write_at by (rewrite length_wire_label; lia).
  case_decide as Hfits; [rewrite decide_True by lia|by rewrite decide_False by lia]. intros ->.
  replace (Z.to_nat (data + length l + 1)) with (Z.to_nat data + length (wire_label l))%nat
    by (rewrite length_wire_label; lia).
  rewrite write_at_app by (rewrite length_wire_label; lia). do 4 f_equal. lia.
Qed.

Lemma make_loop_wire n buffer capacity data pre ls post len s :
  Forall label_ok ls → len = (length pre + length (joined ls) : Z) → (length (joined ls) <= n)%nat →
  0 <= data <= capacity → capacity <= length buffer → capacity < 2 ^ 31 → len < 2 ^ 31 →
  encoded buffer capacity data ls s
    (make_loop n buffer capacity data (pre ++ joined ls ++ post) len (length pre) None s).
Proof.
  intros Hok. revert n buffer data pre. induction Hok as [|l ls Hl Hls IH];
    intros n buffer data pre Hlen Hn Hdata Hcap Hcmax Hlmax.
  { replace len with (length pre : Z) by (cbn in Hlen; lia). by apply make_loop_end. }
  pose proof Hl as (Hne & Hl63 & _). assert (Hpos : (0 < length l)%nat) by (destruct l; [done|cbn; lia]).
  destruct (joined_prefix l ls) as [rest Hrest].
  pose proof (f_equal length Hrest) as Hrestlen. rewrite length_app in Hrestlen.
  destruct n as [|n]; [lia|]. rewrite make_loop_label by done.
  destruct (Z.leb_spec (capacity - data) (length l + 1)) as [Hfull|Hroom].
  { assert (Hwire : (1 <= length (wire ls))%nat) by (unfold wire; rewrite length_app; cbn; lia).
    unfold encoded. rewrite wire_cons, length_app, length_wire_label. rewrite decide_False by lia. by eexists. }
  apply encoded_cons; [lia..|]. unfold next_pos.
  assert (Hl' : length (write_at buffer (Z.to_nat data) (wire_label l)) = length buffer).
  { apply length_write_at. rewrite length_wire_label. lia. }
  destruct (decide (ls = [])) as [->|Hls'].
  - replace (pre ++ joined [l] ++ post) with ((pre ++ l) ++ joined [] ++ post)
      by (cbn [joined app]; by rewrite <-app_assoc).
    apply IH; rewrite ?length_app, ?Hl'; cbn [joined length] in *; lia.
  - rewrite joined_cons in * by done.
    replace (pre ++ (l ++ DOT :: joined ls) ++ post) with ((pre ++ l ++ [DOT]) ++ joined ls ++ post)
      by (by rewrite <-!app_assoc).
    apply IH; rewrite ?Hl', ?length_app in *; cbn [length] in *; lia.
Qed.
End Encoding.

(** ** The encoding of a name is a name *)

Lemma not_string_ref c : 0 <= c < 64 → mdns_is_string_ref c = false.
Proof.
  intros Hc. unfold mdns_is_string_ref.
  replace c with (Z.land c (Z.ones 6)) by (rewrite Z.land_ones by lia; apply Z.mod_small; lia).
  by rewrite <-Z.land_assoc, Z.land_0_r.
Qed.

Lemma wire_name_at b size off ls :
  Forall label_ok ls → 0 <= off → off + length (wire ls) <= size → size <= length b →
  take (length (wire ls)) (drop (Z.to_nat off) b) = wire ls →
  name_at b size off ls (off + length (wire ls)).
Proof.
  intros Hok. revert off. induction Hok as [|l ls (Hne & Hl & Hlb & _) Hls IH];
    intros off Hoff Hend Hsize Hwire.
  - cbn in Hend, Hwire. change (length (wire [])) with 1%nat.
    assert (Hz : b !! Z.to_nat off = Some 0).
    { rewrite <-(Nat.add_0_r (Z.to_nat off)), <-lookup_drop, <-(lookup_take_lt _ 1) by lia. by rewrite Hwire. }
    by apply (name_end b size 0 off off); [eapply resolves_here; [lia|done|]|lia|].
  - rewrite wire_cons in *. rewrite length_app, length_wire_label in *.
    assert (Hcut : ∀ i, (i < S (length l) + length (wire ls))%nat →
      b !! (Z.to_nat off + i)%nat = (wire_label l ++ wire ls) !! i).
    { intros i Hi. by rewrite <-Hwire, lookup_take_lt, lookup_drop by lia. }
    assert (Hhead : b !! Z.to_nat off = Some (length l : Z)).
    { rewrite <-(Nat.add_0_r (Z.to_nat off)), Hcut by lia. done. }
    replace (off + (S (length l) + length (wire ls))%nat) with (off + 1 + length l + length (wire ls)) by lia.
    apply (name_label b size 0 off off l ls); [|lia|done|done|lia| |].
    + apply (resolves_here b size off (length l)); [lia|done|apply not_string_ref; lia].
    + replace (Z.to_nat (off + 1)) with (Z.to_nat off + 1)%nat by lia.
      rewrite <-drop_drop. replace (length l) with (S (length l) - 1)%nat by lia.
      rewrite take_drop_commute. replace (1 + (S (length l) - 1))%nat with (S (length l)) by lia.
      assert (take (S (length l)) (drop (Z.to_nat off) b) = wire_label l) as ->; [|done].
      apply (f_equal (take (S (length l)))) in Hwire. rewrite take_take in Hwire.
      rewrite Nat.min_l in Hwire by lia. rewrite Hwire. by apply (take_app_length (wire_label l)).
    + apply IH; [lia|lia|done|].
      replace (Z.to_nat (off + 1 + length l)) with (Z.to_nat off + S (length l))%nat by lia.
      rewrite <-drop_drop, take_drop_commute, Hwire. by apply (drop_app_length (wire_label l)).
Qed.

Section Making.
Context {W : Type}.
Implicit Types (s : W).

(** The name, or the name with a dot at its end. *)
Lemma mdns_string_make_wire buffer capacity data ls post (len : Z) s :
  ls ≠ [] → Forall label_ok ls →
  len = length (joined ls) ∨ len = length (joined ls) + 1 ∧ post !! 0%nat = Some DOT →
  0 <= data <= capacity → capacity <= length buffer → capacity < 2 ^ 31 → length (joined ls) < 2 ^ 31 →
  encoded buffer capacity data ls s
    (mdns_string_make buffer capacity data (joined ls ++ post) len None s).
Proof.
  intros Hne Hok Hlen Hdata Hcap Hcmax Hlmax. destruct (joined_last ls Hne Hok) as (c & Hc & Hcd & Hpos).
  assert (Hloop : ∀ n : nat, n = length (joined ls) → encoded buffer capacity data ls s
    (make_loop n buffer capacity data (joined ls ++ post) (length (joined ls)) 0 None s)).
  { intros n ->. by apply (make_loop_wire _ buffer capacity data [] ls post). }
  unfold mdns_string_make. destruct Hlen as [->|[-> Hdot]].
  - step_with (array_get_ok (joined ls ++ post) (length (joined ls) - 1) c s ltac:(lia)
      ltac:(rewrite lookup_app_l by lia; by replace (Z.to_nat _) with (length (joined ls) - 1)%nat by lia)).
    destruct (Z.eqb_spec c DOT); [done|]. apply Hloop. lia.
  - step_with (array_get_ok (joined ls ++ post) (length (joined ls) + 1 - 1) DOT s ltac:(lia)
      ltac:(rewrite lookup_app_r by lia; by replace (_ - _)%nat with 0%nat by lia)).
    rewrite Z.eqb_refl. replace (length (joined ls) + 1 - 1) with (length (joined ls) : Z) by lia.
    apply Hloop. lia.
Qed.

(** C20: A dotted name of at most 64 labels, none empty or longer than 63 bytes, that
    mdns_string_make writes into a buffer with room for it is extracted from that buffer as the
    same labels, ending where the writer stopped. *)
Theorem mdns_name_roundtrip buffer capacity data ls str cap s :
  ls ≠ [] → (length ls <= 64)%nat → Forall label_ok ls → bytes buffer →
  0 <= data → data + length (joined ls) + 2 <= capacity → capacity <= length buffer →
  capacity < 2 ^ 31 → 0 <= cap <= length str →
  let e := data + length (joined ls) + 2 in
  let text := take (Z.to_nat cap) (dotted ls) in
  ∃ buffer',
    mdns_string_make buffer capacity data (joined ls) (length (joined ls)) None s
    = Done (Some e, buffer', None) s ∧
    length buffer' = length buffer ∧
    mdns_string_extract buffer' capacity data str cap s
    = Done (MdnsString StrBuffer (length text), e, text ++ drop (length text) str) s.
Proof.
  intros Hne Hls Hok Hb Hdata Hfit Hcap Hcmax Hstr e text.
  pose proof (length_wire ls Hne) as Hwire.
  pose proof (mdns_string_make_wire buffer capacity data ls [] (length (joined ls)) s Hne Hok
    ltac:(by left) ltac:(lia) Hcap Hcmax ltac:(lia)) as Hmake.
  rewrite app_nil_r in Hmake. unfold encoded in Hmake. rewrite decide_True in Hmake by lia.
  eexists. split; [rewrite Hmake; do 4 f_equal; unfold e; lia|].
  assert (Hl : length (write_at buffer (Z.to_nat data) (wire ls)) = length buffer)
    by (apply length_write_at; lia).
  split; [done|]. replace e with (data + length (wire ls)) by (unfold e; lia).
  apply mdns_string_extract_name; [| |lia| |done|done].
  - apply bytes_write_at; [done|by apply wire_bytes].
  - lia.
  - apply wire_name_at; [done|done|lia|lia|]. apply drop_take_write_at. lia.
Qed.
End Making.

(** ** The query packet *)

(** One question: the name, a PTR record, class IN. *)
Definition query_packet (ls : list (list Z)) : list Z :=
  mdns_header 0 1 ++ wire ls ++ be16 MDNS_RECORDTYPE_PTR ++ be16 MDNS_CLASS_IN.

Section Query.
Context `{Sockets, !SocketsLaws, Stack, !StackLaws}.

(** Where queries on a socket go, by the family it is bound to. *)
Definition multicast_group (n : net) (sock : Z) : option sockaddr :=
  saddr ← zsock_getsockname n sock;
  Some (if sa_family saddr =? AF_INET6 then multicast6 else multicast4).

(** The packet was sent, or the network refused it. *)
Definition query_sent (ls : list (list Z)) (sock : Z) (n : net) (ret : Z) (n' : net) : Prop :=
  net_datagrams n' = net_datagrams n ∧
  (n' = n ∨ ∃ group r, zsock_sendto n sock (query_packet ls) group = (r, n')) ∧
  (ret = -1 ∧ net_sent_to n' sock = net_sent_to n sock ∨
   ret = 0 ∧ ∃ group, multicast_group n sock = Some group ∧
     net_sent_to n' sock = net_sent_to n sock ++ [(group, query_packet ls)]).

Lemma mdns_htons_ok buffer data val (n : net) :
  0 <= data → data + 2 <= length buffer →
  mdns_htons buffer data val n = Done (data + 2, write_at buffer (Z.to_nat data) (be16 val)) n.
Proof.
  intros Hd Hl. unfold mdns_htons.
  by step_with (memcpy_at_write buffer (Z.to_nat data) (be16 val) 2 n ltac:(done) ltac:(lia) ltac:(done)).
Qed.

Lemma mdns_htons_oob buffer data val (n : net) :
  0 <= data → length buffer < data + 2 → mdns_htons buffer data val n = Crash OutOfBounds.
Proof.
  intros Hd Hl. unfold mdns_htons, mbind, M_bind. by rewrite memcpy_at_oob by lia.
Qed.

Lemma mdns_multicast_send_spec sock buffer size packet ls n :
  take (Z.to_nat size) buffer = packet → packet = query_packet ls →
  ∃ ret n', mdns_multicast_send sock buffer size n = Done ret n' ∧ query_sent ls sock n ret n'.
Proof.
  intros Hsize ->. unfold mdns_multicast_send, query_sent, multicast_group, mbind, M_bind, getS.
  destruct (zsock_getsockname n sock) as [saddr|]; cbn.
  2:{ exists (-1), n. split; [done|]. split; [done|]. split; [by left|by left]. }
  rewrite Hsize. set (group := if _ =? _ then _ else _).
  destruct (zsock_sendto n sock (query_packet ls) group) as [r n'] eqn:Hsend.
  pose proof Hsend as Hcall. apply zsock_sendto_law in Hsend as [Hsend Hd]. cbn.
  assert (Hstate : n' = n ∨ ∃ group r, zsock_sendto n sock (query_packet ls) group = (r, n')).
  { right. by eexists _, _. }
  destruct (Z.ltb_spec r 0) as [Hr|Hr].
  - exists (-1), n'. split; [done|]. split; [done|]. split; [done|]. left. destruct Hsend as [[_ ?]|[? _]]; [done|lia].
  - exists 0, n'. split; [done|]. split; [done|]. split; [done|]. right. split; [done|].
    destruct Hsend as [[? _]|[_ ?]]; [lia|]. by exists group.
Qed.

(** The buffer once the header is in it. *)
Definition headed : list Z :=
  write_at (stack_bytes (Z.to_nat MDNS_REQUEST_BUFFER_SIZE)) 0 (mdns_header 0 1).

Lemma length_headed : length headed = 100%nat.
Proof. unfold headed. rewrite length_write_at; rewrite length_stack_bytes; [done|vm_compute; lia]. Qed.

(** [mdns_query_send] up to the question's type and class. *)
Lemma mdns_query_send_unfold sock name len n :
  ∃ rclass, rclass = MDNS_CLASS_IN ∧
  mdns_query_send sock name len n
  = ('(data, buffer) ← fill_questions [MdnsQuery MDNS_RECORDTYPE_PTR name len] headed
                          MDNS_REQUEST_BUFFER_SIZE mdns_header_size rclass;
     match data with
     | None => mret (-1)
     | Some tosend =>
         ret ← mdns_multicast_send sock buffer tosend;
         if negb (ret =? 0) then mret (-1) else mret 0
     end) n.
Proof.
  eexists. split; cycle 1.
  - unfold mdns_query_send, mdns_multiquery_send. cbn [length].
    change ((1%nat : Z) =? 0) with false. change (MDNS_REQUEST_BUFFER_SIZE <? _) with false. cbn [orb].
    unfold mbind at 1, M_bind at 1, getS.
    step_with (memcpy_at_write (stack_bytes (Z.to_nat MDNS_REQUEST_BUFFER_SIZE)) 0
      (mdns_header 0 (u16 1)) mdns_header_size n ltac:(done)
      ltac:(rewrite length_stack_bytes; done) ltac:(done)). reflexivity.
  - by destruct (zsock_getsockname n sock) as [saddr|]; [case_match|].
Qed.

(** What the name's place in the buffer leaves for the type and the class. *)
Lemma fill_question_spec name post (len : Z) ls rclass (n : net) :
  ls ≠ [] → Forall label_ok ls → name = joined ls ++ post →
  len = length (joined ls) ∨ len = length (joined ls) + 1 ∧ post !! 0%nat = Some DOT →
  length (joined ls) < 2 ^ 31 →
  let run := fill_questions [MdnsQuery MDNS_RECORDTYPE_PTR name len] headed
               MDNS_REQUEST_BUFFER_SIZE mdns_header_size rclass n in
  (length (joined ls) <= 82 →
   ∃ data buffer, run = Done (Some data, buffer) n ∧
     take (Z.to_nat data) buffer
     = mdns_header 0 1 ++ wire ls ++ be16 MDNS_RECORDTYPE_PTR ++ be16 rclass) ∧
  (82 < length (joined ls) <= 86 → run = Crash OutOfBounds) ∧
  (86 < length (joined ls) → ∃ buffer, run = Done (None, buffer) n).
Proof.
  intros Hne Hok -> Hlen Hmax run. pose proof (length_wire ls Hne) as Hwire. pose proof length_headed as Hh.
  pose proof (mdns_string_make_wire headed MDNS_REQUEST_BUFFER_SIZE mdns_header_size ls post len n Hne Hok
    Hlen ltac:(done) ltac:(rewrite Hh; done) ltac:(done) Hmax) as Hmake.
  unfold run. cbn [fill_questions query_name query_length query_type]. unfold encoded in Hmake.
  change MDNS_REQUEST_BUFFER_SIZE with 100 in *. change mdns_header_size with 12 in *. case_decide as Hfit.
  - split; [|split; [|lia]].
    + intros Hroom. step_with Hmake. set (b1 := write_at headed _ _).
      assert (Hb1 : length b1 = 100%nat) by (unfold b1; rewrite length_write_at; lia).
      step_with (mdns_htons_ok b1 (12 + length (wire ls)) MDNS_RECORDTYPE_PTR n ltac:(lia) ltac:(lia)).
      set (b2 := write_at b1 _ _).
      assert (Hb2 : length b2 = 100%nat) by (unfold b2; rewrite length_write_at; cbn [length be16]; lia).
      step_with (mdns_htons_ok b2 (12 + length (wire ls) + 2) rclass n ltac:(lia) ltac:(lia)).
      eexists _, _. split; [done|]. unfold b2, b1.
      replace (Z.to_nat (12 + length (wire ls))) with (Z.to_nat 12 + length (wire ls))%nat by lia.
      rewrite write_at_app by lia.
      replace (Z.to_nat (12 + length (wire ls) + 2))
        with (Z.to_nat 12 + length (wire ls ++ be16 MDNS_RECORDTYPE_PTR))%nat
        by (rewrite length_app; cbn [length be16]; lia).
      rewrite write_at_app by (rewrite length_app; cbn [length be16]; lia).
      rewrite take_write_at by (rewrite !length_app; cbn [length be16]; lia).
      unfold headed. rewrite take_write_at by (rewrite ?length_stack_bytes; vm_compute; lia).
      by rewrite <-!app_assoc.
    + intros Hover. step_with Hmake. set (b1 := write_at headed _ _).
      assert (Hb1 : length b1 = 100%nat) by (unfold b1; rewrite length_write_at; lia).
      destruct (decide (12 + length (wire ls) + 2 <= 100)).
      * step_with (mdns_htons_ok b1 (12 + length (wire ls)) MDNS_RECORDTYPE_PTR n ltac:(lia) ltac:(lia)).
        unfold mbind, M_bind. rewrite mdns_htons_oob; [done|lia|].
        rewrite length_write_at; cbn [length be16]; lia.
      * unfold mbind, M_bind. rewrite mdns_htons_oob; [done|lia|lia].
  - destruct Hmake as (buffer & Hmake & _). split; [lia|]. split; [lia|]. intros _.
    exists buffer. by step_with Hmake.
Qed.

Lemma query_send_outcome sock ls post (len : Z) n :
  ls ≠ [] → Forall label_ok ls →
  len = length (joined ls) ∨ len = length (joined ls) + 1 ∧ post !! 0%nat = Some DOT →
  length (joined ls) < 2 ^ 31 →
  let run := mdns_query_send sock (joined ls ++ post) len n in
  (length (joined ls) <= 82 → ∃ ret n', run = Done ret n' ∧ query_sent ls sock n ret n') ∧
  (82 < length (joined ls) <= 86 → run = Crash OutOfBounds) ∧
  (86 < length (joined ls) → run = Done (-1) n).
Proof.
  intros Hne Hok Hlen Hmax run. unfold run.
  destruct (mdns_query_send_unfold sock (joined ls ++ post) len n) as (rclass & -> & ->).
  destruct (fill_question_spec _ post len ls MDNS_CLASS_IN n Hne Hok eq_refl Hlen Hmax)
    as (Hsmall & Hover & Hlong).
  split; [|split].
  - intros (data & buffer & Hfill & Hpacket)%Hsmall. step_with Hfill.
    destruct (mdns_multicast_send_spec sock buffer data _ ls n Hpacket eq_refl) as (ret & n' & Hsend & Hsent).
    step_with Hsend. destruct Hsent as (Hd & Hwhere & [[-> Hs]|[-> Hs]]).
    + exists (-1), n'. split; [done|]. split; [done|]. split; [done|]. by left.
    + exists 0, n'. split; [done|]. split; [done|]. split; [done|]. by right.
  - intros Hfill%Hover. unfold mbind, M_bind. by rewrite Hfill.
  - intros (buffer & Hfill)%Hlong. by step_with Hfill.
Qed.

(** C24: For names of up to 82 characters (with or without a dot at the end) mdns_query_send
    sends the one packet DNS prescribes for a PTR question to the multicast group of the
    socket's family, or reports the network's refusal; for 83 to 86 characters it writes past
    the end of the request buffer; for longer ones it fails without sending. *)
Theorem mdns_query_send_packet sock ls post (len : Z) n :
  ls ≠ [] → Forall label_ok ls →
  len = length (joined ls) ∨ len = length (joined ls) + 1 ∧ post !! 0%nat = Some DOT →
  length (joined ls) < 2 ^ 31 →
  let run := mdns_query_send sock (joined ls ++ post) len n in
  (length (joined ls) <= 82 → ∃ ret n', run = Done ret n' ∧ query_sent ls sock n ret n') ∧
  (82 < length (joined ls) <= 86 → run = Crash OutOfBounds) ∧
  (86 < length (joined ls) → run = Done (-1) n).
Proof. apply query_send_outcome. Qed.
End Query.
