(* ===== verification/MdnsTable.v ===== *)
(** * The table of names already written (src/mdns.c)

    [mdns_string_make] can replace the end of a name by a reference to where
    the same labels were written before; the table remembers the last sixteen
    places.  The firmware passes no table, so its queries are never compressed;
    the facts here say what the table's operations do when there is one. *)

From S2P Require Import Prelude Config Kernel Mdns MdnsNames MdnsQuery.

(** The indices stay inside [offset[16]]. *)
Record table_wf (t : mdns_string_table_t) : Prop := {
  tw_length : (length (table_offset t) : Z) = table_capacity;
  tw_count : 0 <= table_count t <= table_capacity;
  tw_next : 0 <= table_next t < table_capacity;
  (** Until it has wrapped around, the next place is the first unused one. *)
  tw_fill : table_count t < table_capacity → table_next t = table_count t;
}.

(** The offsets the search visits. *)
Definition remembered (t : mdns_string_table_t) : list Z :=
  take (Z.to_nat (table_count t)) (table_offset t).

Section Table.
Context {W : Type}.
Implicit Types s : W.

(** Adding stays inside the array, and the offset is found from then on. *)
Lemma mdns_string_table_add_wf t off s :
  table_wf t →
  ∃ t', mdns_string_table_add (Some t) off s = Done (Some t') s ∧ table_wf t' ∧ off ∈ remembered t'.
Proof.
  intros [Hl Hc Hn Hf]. unfold mdns_string_table_add, table_capacity in *.
  step_with (array_set_ok (table_offset t) (table_next t) off s ltac:(lia)).
  rewrite !u32_id by (unfold is_u32; lia). eexists. split; [done|].
  set (count := if 16 <? table_count t + 1 then 16 else table_count t + 1).
  set (next := if 16 <=? table_next t + 1 then 0 else table_next t + 1).
  assert (Hcount : count = Z.min 16 (table_count t + 1)).
  { subst count. destruct (Z.ltb_spec 16 (table_count t + 1)); lia. }
  assert (Hnext : 0 <= next < 16 ∧ (table_count t < 15 → next = table_count t + 1)).
  { subst next. destruct (Z.leb_spec 16 (table_next t + 1)); lia. }
  split.
  - split; cbn [table_offset table_count table_next]; rewrite ?length_insert; unfold table_capacity; lia.
  - unfold remembered. cbn [table_offset table_count].
    apply (list_elem_of_lookup_2 _ (Z.to_nat (table_next t))).
    rewrite lookup_take_lt by lia. apply list_lookup_insert_eq. lia.
Qed.

(** What the search finds was remembered. *)
Lemma table_find_from_sound n (i : nat) t buffer capacity name first total s r s' :
  table_find_from n i t buffer capacity name first total s = Done r s' →
  r = MDNS_INVALID_POS ∨
  ∃ j, (i <= j < i + n)%nat ∧ table_offset t !! j = Some r ∧ r < capacity.
Proof.
  revert i s. induction n as [|n IH]; intros i s; cbn [table_find_from]; [by intros [= <- _]; left|].
  assert (Hcont : ∀ s, table_find_from n (i + 1) t buffer capacity name first total s = Done r s' →
    r = MDNS_INVALID_POS ∨ ∃ j, (i <= j < i + S n)%nat ∧ table_offset t !! j = Some r ∧ r < capacity).
  { intros s0 Hrun. replace (i + 1) with (Z.of_nat (S i)) in Hrun by lia.
    destruct (IH _ _ Hrun) as [|(j & Hj & Hlook & Hr)]; [by left|right]. exists j. by split; [lia|]. }
  intros Hrun. apply M_bind_inv in Hrun as (entry & s1 & Hget & Hrun).
  destruct (Z.leb_spec capacity entry) as [|Hentry]; [by apply (Hcont s1)|].
  apply M_bind_inv in Hrun as (sub & s2 & _ & Hrun).
  destruct (_ || _); [by apply (Hcont s2)|].
  apply M_bind_inv in Hrun as ([] & s3 & _ & Hrun); [|by apply (Hcont s3)].
  apply M_bind_inv in Hrun as (offset & s4 & _ & Hrun).
  destruct (total <=? offset); [|by apply (Hcont s4)]. injection Hrun as <- _. right. exists i.
  split; [lia|]. split; [|done]. unfold array_get in Hget.
  destruct (Z.ltb_spec i 0); [done|]. rewrite Nat2Z.id in Hget.
  destruct (table_offset t !! i) as [e|]; [|done]. by injection Hget as ->.
Qed.

Lemma mdns_string_table_find_sound t buffer capacity name first total s r s' :
  mdns_string_table_find (Some t) buffer capacity name first total s = Done r s' →
  r = MDNS_INVALID_POS ∨ r ∈ remembered t ∧ r < capacity.
Proof.
  cbn [mdns_string_table_find]. intros Hrun.
  apply (table_find_from_sound _ 0%nat) in Hrun as [|(j & Hj & Hlook & Hr)]; [by left|right].
  split; [|done]. apply (list_elem_of_lookup_2 _ j). unfold remembered. rewrite lookup_take_lt by lia. done.
Qed.
End Table.

(** *** A prefix is taken for the whole name *)

Definition empty_table : mdns_string_table_t := MdnsTable (replicate 16 0) 0 0.

Lemma empty_table_wf : table_wf empty_table.
Proof. by split. Qed.

(** "a.b.c" and then "a.b" written into one buffer with a table. *)
Definition two_names : M () (option Z * list Z) :=
  '(data, buffer, table) ← mdns_string_make (replicate 32 0) 32 0 (chars "a.b.c") 5 (Some empty_table);
  match data with
  | None => mret (None, buffer)
  | Some data =>
      '(data, buffer, _) ← mdns_string_make buffer 32 data (chars "a.b") 3 table;
      mret (data, buffer)
  end.

(** The second name is written as a reference to the first, and so it is read
    as "a.b.c." too. *)
Lemma prefix_becomes_whole_name :
  (p ← two_names; mret (take 9 (snd p))) () = Done [1; 97; 1; 98; 1; 99; 0; 0xc0; 0] () ∧
  (p ← two_names; r ← mdns_string_extract (snd p) 32 7 (replicate 8 0) 8; mret (snd r)) ()
  = Done (chars "a.b.c." ++ [0; 0]) ().
Proof. split; vm_compute; reflexivity. Qed.
