(* ===== verification/MdnsRecv.v ===== *)
(** * The responses that are received (src/mdns.c)

    Which datagrams [mdns_query_recv] takes for answers.  On well-formed
    packets the verdict is [answers]; it compares the text of each record with
    what is wanted and also sees what an earlier record left in the buffer. *)

From S2P Require Import Prelude Config Kernel Mdns MdnsNames.

(** ** Well-formed packets *)

Section Packet.
Context (b : list Z) (size : Z).

(** The questions from an offset on, and where they end. *)
Inductive questions_at : Z → nat → Z → Prop :=
| questions_nil off : questions_at off 0 off
| questions_cons off ls e n next :
    name_at b size off ls e → (length ls <= 64)%nat →
    questions_at (e + 4) n next →
    questions_at off (S n) next.

(** Records whose data is a name, of which [r] are the labels. *)
Inductive records_at : Z → list (list (list Z)) → Prop :=
| records_nil off : records_at off []
| records_cons off ls e hi lo r e' rs :
    name_at b size off ls e → (length ls <= 64)%nat →
    b !! Z.to_nat (e + 8) = Some hi → b !! Z.to_nat (e + 9) = Some lo →
    2 <= of_be16 hi lo → e + 10 + of_be16 hi lo <= size →
    name_at b size (e + 10) r e' → (length r <= 64)%nat →
    records_at (e + 10 + of_be16 hi lo) rs →
    records_at off (r :: rs).
End Packet.

(** ** The verdict *)

(** Records read in turn into the same buffer [nb], each compared up to the
    length of [wanted]. *)
Fixpoint answers (wanted nb : list Z) (rs : list (list (list Z))) : bool :=
  match rs with
  | [] => false
  | r :: rs =>
      let nb := write_at nb 0 (clip MDNS_PTR_NAME_SIZE (dotted r)) in
      bool_decide (take (length wanted) nb = wanted) || answers wanted nb rs
  end.

(** The text of a name decides by itself: it is not cut short inside [wanted]. *)
Definition settled (wanted : list Z) (r : list (list Z)) : Prop :=
  dotted r `prefix_of` wanted → dotted r = wanted.

Lemma length_clip n text : 0 <= n → (length (clip n text) : Z) = Z.min n (length text).
Proof. intros Hn. unfold clip. rewrite length_take. lia. Qed.

Lemma write_at_0 (dst xs : list Z) : write_at dst 0 xs = xs ++ drop (length xs) dst.
Proof. done. Qed.

Lemma settled_compare wanted nb r :
  settled wanted r → (length wanted <= Z.to_nat MDNS_PTR_NAME_SIZE)%nat →
  length nb = Z.to_nat MDNS_PTR_NAME_SIZE →
  take (length wanted) (write_at nb 0 (clip MDNS_PTR_NAME_SIZE (dotted r))) = wanted
  ↔ wanted `prefix_of` dotted r.
Proof.
  intros Hset Hw Hnb. rewrite write_at_0. unfold clip.
  destruct (decide (length wanted <= length (dotted r))%nat) as [Hlong|Hshort].
  - rewrite take_app_le by (rewrite length_take; lia). rewrite take_take, Nat.min_l by done. split.
    + intros <-. apply prefix_take.
    + intros [k ->]. by rewrite take_app_length.
  - rewrite (take_ge (dotted r)) by lia. split.
    + intros Heq. exfalso. apply Hshort. rewrite Hset; [done|]. rewrite <-Heq.
      rewrite take_app_ge by lia. by eexists.
    + intros Hp%prefix_length. lia.
Qed.

Lemma answers_settled wanted nb rs :
  Forall (settled wanted) rs → (length wanted <= Z.to_nat MDNS_PTR_NAME_SIZE)%nat →
  length nb = Z.to_nat MDNS_PTR_NAME_SIZE →
  answers wanted nb rs = existsb (λ r, bool_decide (wanted `prefix_of` dotted r)) rs.
Proof.
  intros Hset Hw. revert nb. induction Hset as [|r rs Hr Hrs IH]; intros nb Hnb; [done|].
  cbn [answers existsb]. rewrite IH.
  - f_equal. apply bool_decide_ext. by apply settled_compare.
  - rewrite length_write_at; [done|]. rewrite Hnb. unfold clip. rewrite length_take. lia.
Qed.

Section Checking.
Context `{Sockets, Stack, !StackLaws} {W : Type}.
Context (b : list Z) (size : Z).
Context (Hb : bytes b) (Hsize : 0 <= size <= Z.to_nat MDNS_RESPONSE_BUFFER_SIZE) (Hlen : size <= length b).
Implicit Types s : W.

(** *** Questions *)

Lemma skip_questions_safe n data s :
  0 <= data < 2 ^ 10 →
  ∃ r, skip_questions n b size data s = Done r s ∧
    match r with Some offset => 0 <= offset < 2 ^ 10 | None => True end.
Proof.
  change (Z.to_nat MDNS_RESPONSE_BUFFER_SIZE : Z) with 100 in Hsize.
  revert data. induction n as [|n IH]; intros data Hd; [by exists (Some data)|].
  cbn [skip_questions].
  destruct (mdns_string_skip_in b size Hb ltac:(lia) Hlen data s ltac:(lia)) as (ok & o1 & Hskip & Ho1).
  step_with Hskip. destruct ok; [apply IH; lia|by exists None].
Qed.

Lemma skip_questions_names off n next s :
  questions_at b size off n next → skip_questions n b size off s = Done (Some next) s.
Proof.
  change (Z.to_nat MDNS_RESPONSE_BUFFER_SIZE : Z) with 100 in Hsize.
  induction 1 as [|off ls e n next Hname Hls Hqs IH]; [done|]. cbn [skip_questions].
  by step_with (mdns_string_skip_name b size Hb ltac:(lia) Hlen off ls e s Hname Hls).
Qed.

Context (q : list Z) (Hq : (length (expected ++ q) <= Z.to_nat MDNS_PTR_NAME_SIZE)%nat).

(** *** Any packet *)

(** Comparing with the name buffer. *)
Lemma memcmp_str_buffer (a nb : list Z) namestr (off : nat) s :
  str namestr = StrBuffer → (off + length a <= length nb)%nat →
  memcmp_str a namestr nb off (length a) s
  = Done (bool_decide (take (length a) (drop off nb) = a)) s.
Proof.
  intros Hs Hl. unfold memcmp_str, memcmp. rewrite Hs, decide_True by (rewrite length_drop; lia).
  unfold mret, M_ret. rewrite Nat2Z.id, firstn_all. f_equal.
  apply bool_decide_ext. by split.
Qed.

(** The two comparisons of a record with its buffer are one. *)
Lemma record_matches_ok namestr nb s :
  str namestr = StrBuffer → length nb = Z.to_nat MDNS_PTR_NAME_SIZE →
  record_matches q (length q) namestr nb s
  = Done (bool_decide (take (length (expected ++ q)) nb = expected ++ q)) s.
Proof.
  intros Hs Hnb. pose proof Hq as Hq'. rewrite length_app in Hq'. unfold record_matches.
  step_with (memcmp_str_buffer expected nb namestr 0 s Hs ltac:(lia)). rewrite drop_0, length_app.
  rewrite <-take_take_drop. case_bool_decide as Hexp.
  - rewrite (memcmp_str_buffer q nb namestr (length expected) s Hs) by lia. f_equal.
    apply bool_decide_ext. rewrite Hexp. split; [by intros ->|by intros ?%app_inv_head].
  - unfold mret, M_ret. f_equal. symmetry. apply bool_decide_eq_false_2.
    intros [Heq _]%app_inj_1; [done|].
    rewrite length_take. lia.
Qed.

(** Offsets stay small: past the packet by a record's length at most. *)
Lemma answer_loop_safe n offset nb s :
  0 <= offset < 2 ^ 20 → length nb = Z.to_nat MDNS_PTR_NAME_SIZE →
  (∃ r, answer_loop n b size offset q (length q) nb s = Done r s) ∨
  answer_loop n b size offset q (length q) nb s = Crash NullDeref.
Proof.
  revert offset nb. induction n as [|n IH]; intros offset nb Ho Hnb; [left; by eexists|].
  cbn [answer_loop]. change (Z.to_nat MDNS_RESPONSE_BUFFER_SIZE : Z) with 100 in Hsize.
  destruct (mdns_string_skip_in b size Hb ltac:(lia) Hlen offset s ltac:(lia)) as (ok & o1 & Hskip & Ho1).
  step_with Hskip. assert (Ho1' : 0 <= o1 < 2 ^ 20) by (destruct ok; lia). clear Ho1 Hskip.
  rewrite (u32_id (o1 + 10)) by (unfold is_u32; lia).
  destruct (Z.ltb_spec size (o1 + 10)); [left; by eexists|].
  destruct (mdns_ntohs_in b (o1 + 8) s Hb ltac:(lia) ltac:(lia)) as (len & Hntohs & Hl).
  step_with Hntohs. unfold is_u16 in Hl.
  rewrite (u32_id (size - (o1 + 10))), (u32_id (o1 + 10 + len)) by (unfold is_u32; lia).
  destruct (Z.leb_spec len (size - (o1 + 10))); [|apply IH; [lia|done]].
  destruct (Z.leb_spec 2 len) as [Hmin|Hmin]; cycle 1.
  { right. unfold mdns_record_parse_ptr. rewrite (proj2 (Z.leb_gt 2 len) Hmin), andb_false_r. done. }
  destruct (mdns_record_parse_ptr_in b size Hb ltac:(lia) Hlen (o1 + 10) len nb MDNS_PTR_NAME_SIZE s ltac:(lia)
    ltac:(lia) Hmin ltac:(rewrite Hnb; done)) as (r & nb' & Hparse & Hstr & Hnb').
  rewrite Hnb in Hnb'. step_with Hparse. step_with (record_matches_ok r nb' s Hstr Hnb').
  case_bool_decide; [left; by eexists|]. apply IH; [lia|done].
Qed.

Lemma mdns_answer_check_safe offset records s :
  0 <= offset < 2 ^ 20 →
  (∃ r, mdns_answer_check b size offset records q (length q) s = Done r s) ∨
  mdns_answer_check b size offset records q (length q) s = Crash NullDeref.
Proof. intros Ho. apply answer_loop_safe; [done|apply length_stack_bytes]. Qed.

(** *** Well-formed packets *)

Lemma answer_loop_records offset rs nb s :
  records_at b size offset rs → length nb = Z.to_nat MDNS_PTR_NAME_SIZE →
  ∃ offset', answer_loop (length rs) b size offset q (length q) nb s
             = Done (answers (expected ++ q) nb rs, offset') s.
Proof.
  intros Hrs. change (Z.to_nat MDNS_RESPONSE_BUFFER_SIZE : Z) with 100 in Hsize.
  revert nb. induction Hrs as [|off ls e hi lo r e' rs Hname Hls Hhi Hlo Hmin Hend Hr Hrl Hrs IH];
    intros nb Hnb; [by eexists|].
  cbn [length answer_loop answers]. apply name_at_range in Hname as Hrange.
  step_with (mdns_string_skip_name b size Hb ltac:(lia) Hlen off ls e s Hname Hls).
  rewrite (u32_id (e + 10)) by (unfold is_u32; lia). destruct (Z.ltb_spec size (e + 10)); [lia|].
  step_with (mdns_ntohs_ok b (e + 8) hi lo s ltac:(lia) Hhi
    ltac:(by replace (e + 8 + 1) with (e + 9) by lia)).
  rewrite (u32_id (size - (e + 10))), (u32_id (e + 10 + of_be16 hi lo)) by (unfold is_u32; lia).
  destruct (Z.leb_spec (of_be16 hi lo) (size - (e + 10))); [|lia].
  destruct (mdns_record_parse_ptr_name b size Hb ltac:(lia) Hlen (e + 10) (of_be16 hi lo) r e' nb
    MDNS_PTR_NAME_SIZE s Hr Hrl Hend Hmin ltac:(rewrite Hnb; done)) as (p & Hparse & Hp).
  step_with Hparse. set (nb' := write_at nb 0 _).
  assert (Hnb' : length nb' = Z.to_nat MDNS_PTR_NAME_SIZE).
  { unfold nb'. rewrite length_write_at; [done|]. rewrite Hnb. unfold clip. rewrite length_take. lia. }
  step_with (record_matches_ok p nb' s Hp Hnb').
  case_bool_decide; cbn [orb]; [by eexists|]. by apply IH.
Qed.

End Checking.

(** ** One datagram *)

Section Response.
Context `{Sockets, Stack, !StackLaws} {W : Type}.
Context (q : list Z) (Hq : (length (expected ++ q) <= Z.to_nat MDNS_PTR_NAME_SIZE)%nat).
Implicit Types s : W.

(** A datagram that fits the array it is received into. *)
Definition received_ok (data : list Z) : Prop :=
  data ≠ [] ∧ bytes data ∧ (length data <= Z.to_nat MDNS_RESPONSE_BUFFER_SIZE)%nat.

(** The header's counts, the questions and the records of a response. *)
Definition well_formed (data : list Z) (rs : list (list (list Z))) : Prop :=
  received_ok data ∧
  ∃ q1 q0 a1 a0 next,
    data !! 4%nat = Some q1 ∧ data !! 5%nat = Some q0 ∧ data !! 6%nat = Some a1 ∧ data !! 7%nat = Some a0 ∧
    of_be16 a1 a0 = length rs ∧
    questions_at (response_buffer data) (length data) mdns_header_size (Z.to_nat (of_be16 q1 q0)) next ∧
    records_at (response_buffer data) (length data) next rs.

Lemma length_response_buffer data :
  received_ok data → length (response_buffer data) = Z.to_nat MDNS_RESPONSE_BUFFER_SIZE.
Proof.
  intros (_ & _ & Hl). unfold response_buffer.
  rewrite length_app, length_drop, length_stack_bytes. lia.
Qed.

Lemma response_buffer_bytes data : received_ok data → bytes (response_buffer data).
Proof.
  intros (_ & Hb & _). apply Forall_app. split; [done|]. apply Forall_drop, stack_bytes_bytes.
Qed.

Lemma received_size data :
  received_ok data →
  0 <= length data <= Z.to_nat MDNS_RESPONSE_BUFFER_SIZE ∧ length data <= length (response_buffer data).
Proof. intros Hd. rewrite length_response_buffer by done. destruct Hd as (_ & _ & Hl). lia. Qed.

Lemma response_check_safe data s :
  received_ok data →
  (∃ found, response_check (response_buffer data) (length data) q (length q) s = Done found s) ∨
  response_check (response_buffer data) (length data) q (length q) s = Crash NullDeref.
Proof.
  intros Hd. pose proof (length_response_buffer data Hd) as Hl. pose proof (response_buffer_bytes data Hd) as Hb.
  destruct (received_size data Hd) as [Hsize Hlen].
  change (Z.to_nat MDNS_RESPONSE_BUFFER_SIZE) with 100%nat in Hl. unfold response_check.
  destruct (mdns_ntohs_in (response_buffer data) 4 s Hb ltac:(done) ltac:(lia)) as (nq & Hnq & _).
  destruct (mdns_ntohs_in (response_buffer data) 6 s Hb ltac:(done) ltac:(lia)) as (na & Hna & _).
  step_with Hnq. step_with Hna.
  destruct (skip_questions_safe (response_buffer data) (length data) Hb Hsize Hlen (Z.to_nat nq)
    mdns_header_size s ltac:(done)) as (r & Hskip & Hr).
  step_with Hskip. destruct r as [next|]; [|left; by eexists].
  assert (Hnext : 0 <= next < 2 ^ 20) by lia.
  unfold mbind, M_bind.
  destruct (mdns_answer_check_safe (response_buffer data) (length data) Hb Hsize Hlen q Hq next na s Hnext)
    as [[[found o] Hrun]|Hrun]; rewrite Hrun; [left; by eexists|by right].
Qed.

(** C30: Whatever datagram arrives, checking it ends with a verdict, or it dereferences the null
    name of a record too short to hold one; it never reads outside the receive buffer and never
    loops for ever. *)
Theorem mdns_response_safe data s :
  received_ok data →
  (∃ found, response_check (response_buffer data) (length data) q (length q) s = Done found s) ∨
  response_check (response_buffer data) (length data) q (length q) s = Crash NullDeref.
Proof. apply response_check_safe. Qed.

Lemma response_check_answers data rs s :
  well_formed data rs →
  response_check (response_buffer data) (length data) q (length q) s
  = Done (answers (expected ++ q) (stack_bytes (Z.to_nat MDNS_PTR_NAME_SIZE)) rs) s.
Proof.
  intros (Hd & q1 & q0 & a1 & a0 & next & Hq1 & Hq0 & Ha1 & Ha0 & Ha & Hqs & Hrs).
  pose proof (response_buffer_bytes data Hd) as Hb. destruct (received_size data Hd) as [Hsize Hlen].
  assert (Hin : ∀ (i : nat) v, data !! i = Some v → response_buffer data !! i = Some v).
  { intros i v Hi. by apply lookup_app_l_Some. }
  unfold response_check.
  step_with (mdns_ntohs_ok (response_buffer data) 4 q1 q0 s ltac:(done) (Hin 4%nat _ Hq1) (Hin 5%nat _ Hq0)).
  step_with (mdns_ntohs_ok (response_buffer data) 6 a1 a0 s ltac:(done) (Hin 6%nat _ Ha1) (Hin 7%nat _ Ha0)).
  step_with (skip_questions_names (response_buffer data) (length data) Hb Hsize Hlen mdns_header_size
    (Z.to_nat (of_be16 q1 q0)) next s Hqs).
  unfold mdns_answer_check. rewrite Ha, Nat2Z.id.
  destruct (answer_loop_records (response_buffer data) (length data) Hb Hsize Hlen q Hq next rs
    (stack_bytes (Z.to_nat MDNS_PTR_NAME_SIZE)) s Hrs (length_stack_bytes _)) as (o & Hrun).
  by step_with Hrun.
Qed.

Lemma response_check_settled data rs s :
  well_formed data rs → Forall (settled (expected ++ q)) rs →
  response_check (response_buffer data) (length data) q (length q) s
  = Done (existsb (λ r, bool_decide ((expected ++ q) `prefix_of` dotted r)) rs) s.
Proof.
  intros Hwf Hset. rewrite (response_check_answers data rs s Hwf). f_equal.
  apply answers_settled; [done|done|]. apply length_stack_bytes.
Qed.

(** C25: On a well-formed response whose names are long enough to settle the comparison, the
    verdict equals the reference definition: one of the records' names, written with dots,
    begins with zephyr. and the query. *)
Theorem mdns_response_verdict data rs s :
  well_formed data rs → Forall (settled (expected ++ q)) rs →
  response_check (response_buffer data) (length data) q (length q) s
  = Done (existsb (λ r, bool_decide ((expected ++ q) `prefix_of` dotted r)) rs) s.
Proof. apply response_check_settled. Qed.

(** The length of a name is not looked at: after a name of which only the part
    behind [expected] is right, [expected] alone passes for an answer. *)
Theorem stale_name_answers data p tail r1 r2 s :
  well_formed data [r1; r2] → dotted r1 = p ++ q ++ tail → length p = length expected →
  p ≠ expected → dotted r2 = expected → q ≠ [] →
  response_check (response_buffer data) (length data) q (length q) s = Done true s ∧
  ¬ (expected ++ q) `prefix_of` dotted r1 ∧ ¬ (expected ++ q) `prefix_of` dotted r2.
Proof.
  intros Hwf Hr1 Hp Hne Hr2 Hqne. split; [|split].
  - rewrite (response_check_answers data [r1; r2] s Hwf). f_equal. cbn [answers].
    apply orb_true_iff. right. apply orb_true_iff. left. apply bool_decide_eq_true_2.
    rewrite Hr1, Hr2. pose proof Hq as Hq'. rewrite length_app in Hq'.
    set (nb := stack_bytes _). clearbody nb.
    assert (∃ rest, write_at nb 0 (clip MDNS_PTR_NAME_SIZE (p ++ q ++ tail)) = p ++ q ++ rest) as [rest ->].
    { rewrite write_at_0. unfold clip. rewrite (app_assoc p q tail), take_app_ge by (rewrite length_app; lia).
      rewrite <-!app_assoc. by eexists. }
    change (clip MDNS_PTR_NAME_SIZE expected) with expected.
    rewrite write_at_0, <-Hp, drop_app_length, (app_assoc expected q rest). apply take_app_length.
  - rewrite Hr1. intros [k Hk]. rewrite <-app_assoc in Hk. apply app_inj_1 in Hk as [Hk _]; [by apply Hne|done].
  - rewrite Hr2. intros Hk%prefix_length. rewrite length_app in Hk. destruct q; [done|cbn [length] in Hk; lia].
Qed.
End Response.

(** A record without room for a name leaves no string to compare. *)
Section ShortRecord.
Context `{Stack} {W : Type} (b : list Z) (size : Z).
Context (Hb : bytes b) (Hsize : 0 <= size < 2 ^ 31) (Hlen : size <= length b).

(** A record with less than two bytes of data makes the check read a null name. *)
Theorem short_record_null offset ls e hi lo records q (s : W) :
  name_at b size offset ls e → (length ls <= 64)%nat →
  b !! Z.to_nat (e + 8) = Some hi → b !! Z.to_nat (e + 9) = Some lo →
  of_be16 hi lo < 2 → e + 10 + of_be16 hi lo <= size → 0 < records →
  mdns_answer_check b size offset records q (length q) s = Crash NullDeref.
Proof.
  intros Hname Hls Hhi Hlo Hshort Hend Hrec. apply name_at_range in Hname as Hrange.
  assert (Hl : is_u16 (of_be16 hi lo)).
  { apply of_be16_is_u16; by eapply (Forall_lookup_1 is_u8 b). }
  unfold is_u16 in Hl. unfold mdns_answer_check. destruct (Z.to_nat records) as [|n] eqn:Hn; [lia|].
  cbn [answer_loop].
  step_with (mdns_string_skip_name b size Hb Hsize Hlen offset ls e s Hname Hls).
  rewrite (u32_id (e + 10)) by (unfold is_u32; lia). destruct (Z.ltb_spec size (e + 10)); [lia|].
  step_with (mdns_ntohs_ok b (e + 8) hi lo s ltac:(lia) Hhi ltac:(by replace (e + 8 + 1) with (e + 9) by lia)).
  rewrite (u32_id (size - (e + 10))) by (unfold is_u32; lia).
  destruct (Z.leb_spec (of_be16 hi lo) (size - (e + 10))); [|lia].
  unfold mdns_record_parse_ptr. rewrite (proj2 (Z.leb_gt 2 _) Hshort), andb_false_r. done.
Qed.
End ShortRecord.

(** ** All datagrams *)

Section Receiving.
Context `{Sockets, !SocketsLaws, Stack, !StackLaws}.
Context (q : list Z) (Hq : (length (expected ++ q) <= Z.to_nat MDNS_PTR_NAME_SIZE)%nat).
Implicit Types n : net.

Lemma recv_internal_outcome sock n :
  (∃ found n', mdns_query_recv_internal sock q (length q) n = Done found n') ∨
  mdns_query_recv_internal sock q (length q) n = Crash NullDeref.
Proof.
  unfold mdns_query_recv_internal, mbind, M_bind, getS, putS.
  destruct (zsock_recvfrom n sock MDNS_RESPONSE_BUFFER_SIZE) as [[[r data] addr] n'] eqn:Hrecv.
  apply zsock_recvfrom_law in Hrecv; [|done]. cbv beta iota.
  destruct (Z.leb_spec r 0) as [|Hpos]; [left; by eexists _, _|].
  destruct Hrecv as [[? _]|(Hr & Hmax & Hb & _)]; [lia|].
  assert (Hok : received_ok data).
  { split; [intros ->; cbn in Hr; lia|]. split; [done|]. unfold MDNS_RESPONSE_BUFFER_SIZE in *. lia. }
  rewrite Hr. destruct (response_check_safe q Hq data n' Hok) as [[found Hrun]|Hrun]; rewrite Hrun;
    [left; by eexists _, _|by right].
Qed.

(** What a round of the loop leaves: the number of answers and the list. *)
Definition noted (found : option (list Z)) (total : Z) (addr_list : list (list Z)) : Z * list (list Z) :=
  match found with
  | Some addr => (total + 1, <[Z.to_nat total := addr]> addr_list)
  | None => (total, addr_list)
  end.

Lemma recv_round fuel sock ret total addr_list (len : Z) found n n1 ret' rev n2 :
  0 < ret → 0 <= total < length addr_list → len = length addr_list → len < 2 ^ 31 →
  mdns_query_recv_internal sock q (length q) n = Done found n1 →
  zsock_poll n1 [sock] 0 = (ret', rev, n2) →
  recv_loop (Datatypes.S fuel) sock ret total addr_list len q (length q) n
  = recv_loop fuel sock ret' (noted found total addr_list).1 (noted found total addr_list).2
      len q (length q) n2.
Proof.
  intros Hret Ht -> Hmax Hrun Hpoll. cbn [recv_loop].
  rewrite (proj2 (Z.ltb_lt 0 ret) Hret), (proj2 (Z.ltb_lt total _) (proj2 Ht)). cbn [andb].
  step_with Hrun. destruct found as [addr|]; cbn [noted fst snd].
  - assert (Hset : (addr_list ← array_set addr_list total addr; mret (addr_list, u32 (total + 1))) n1
      = Done (<[Z.to_nat total := addr]> addr_list, total + 1) n1).
    { step_with (array_set_ok addr_list total addr n1 Ht). by rewrite u32_id by (unfold is_u32; lia). }
    step_with Hset. unfold mbind, M_bind, getS, putS. by rewrite Hpoll.
  - unfold mbind, M_bind, mret, M_ret, getS, putS. by rewrite Hpoll.
Qed.

Lemma noted_range found total addr_list :
  0 <= total < length addr_list →
  total <= (noted found total addr_list).1 <= length addr_list ∧
  length (noted found total addr_list).2 = length addr_list.
Proof. intros Ht. destruct found; cbn; [rewrite length_insert|]; lia. Qed.

Lemma recv_loop_safe fuel sock ret total addr_list (len : Z) n :
  0 <= total <= len → len = length addr_list → len < 2 ^ 31 →
  let run := recv_loop fuel sock ret total addr_list len q (length q) n in
  (∃ total' addr_list' n', run = Done (total', addr_list') n' ∧
     total <= total' <= len ∧ (length addr_list' : Z) = len) ∨
  run = Crash NullDeref ∨ run = Crash Diverge.
Proof.
  revert ret total addr_list n. induction fuel as [|fuel IH]; intros ret total addr_list n Ht Hlen Hmax.
  { cbn [recv_loop]. destruct (_ && _); [right; by right|]. left. eexists _, _, _. split; [done|]. lia. }
  destruct ((0 <? ret) && (total <? len)) eqn:Hgo; cycle 1.
  { left. cbn [recv_loop]. rewrite Hgo. eexists _, _, _. split; [done|]. lia. }
  apply andb_true_iff in Hgo as Hgo'. destruct Hgo' as [Hret%Z.ltb_lt Hroom%Z.ltb_lt].
  destruct (recv_internal_outcome sock n) as [(found & n1 & Hrun)|Hrun]; cycle 1.
  { right. left. cbn [recv_loop]. rewrite Hgo. unfold mbind, M_bind. by rewrite Hrun. }
  destruct (zsock_poll n1 [sock] 0) as [[ret' rev] n2] eqn:Hpoll.
  destruct (noted_range found total addr_list ltac:(lia)) as [Hn Hl].
  rewrite (recv_round fuel sock ret total addr_list (len : Z) found n n1 ret' rev n2 Hret ltac:(lia) Hlen Hmax Hrun Hpoll).
  destruct (IH ret' (noted found total addr_list).1 (noted found total addr_list).2 n2)
    as [(t' & l' & n' & Hrun' & Ht' & Hl')|Hrun']; [lia|lia|lia| |by right].
  left. exists t', l', n'. split; [done|]. lia.
Qed.

(** Whatever the network sends and reports, receiving answers stays within the
    list, or faults on a record without a name, or never ends. *)
Lemma query_recv_outcome fuel sock addr_list timeout n :
  length addr_list < 2 ^ 31 →
  let run := mdns_query_recv fuel sock addr_list (length addr_list) q (length q) timeout n in
  (∃ total addr_list' n', run = Done (total, addr_list') n' ∧
     0 <= total <= length addr_list ∧ (length addr_list' : Z) = length addr_list) ∨
  run = Crash NullDeref ∨ run = Crash Diverge.
Proof.
  intros Hmax run. unfold run, mdns_query_recv, mbind, M_bind, getS, putS.
  destruct (zsock_poll n [sock] timeout) as [[ret rev] n1]. apply recv_loop_safe; lia.
Qed.

(** *** What is collected *)

(** A socket that is not disturbed: polling it tells whether datagrams are
    waiting and without delay takes none away, those waiting can be received, and
    it stays like that. *)
Definition undisturbed (sock : Z) (open : net → Prop) : Prop :=
  (∀ n timeout ret rev n',
     open n → zsock_poll n [sock] timeout = (ret, rev, n') →
     open n' ∧ (0 < ret ↔ net_datagrams n' sock ≠ []) ∧
     (timeout = 0 → net_datagrams n' sock = net_datagrams n sock)) ∧
  (∀ n len r data addr n',
     open n → net_datagrams n sock ≠ [] → zsock_recvfrom n sock len = (r, data, addr, n') →
     open n' ∧ 0 <= r) ∧
  (∀ n data addr r n', open n → zsock_sendto n sock data addr = (r, n') → open n').

(** The verdict on a datagram, of which the beginning is received. *)
Definition judged (d : list Z * list Z) (verdict : bool) : Prop :=
  ∃ rs, well_formed (take (Z.to_nat MDNS_RESPONSE_BUFFER_SIZE) d.2) rs ∧
        Forall (settled (expected ++ q)) rs ∧
        verdict = existsb (λ r, bool_decide ((expected ++ q) `prefix_of` dotted r)) rs.

(** The senders of the datagrams that are answers. *)
Fixpoint senders (ds : list (list Z * list Z)) (verdicts : list bool) : list (list Z) :=
  match ds, verdicts with
  | d :: ds, v :: verdicts => if v : bool then d.1 :: senders ds verdicts else senders ds verdicts
  | _, _ => []
  end.

Context (sock : Z) (open : net → Prop) (Hopen : undisturbed sock open).

Lemma recv_internal_judged addr whole ds verdict n :
  open n → net_datagrams n sock = (addr, whole) :: ds → judged (addr, whole) verdict →
  ∃ n', mdns_query_recv_internal sock q (length q) n
        = Done (if verdict then Some addr else None) n' ∧
        open n' ∧ net_datagrams n' sock = ds.
Proof.
  intros Ho Hds (rs & Hwf & Hset & ->). unfold mdns_query_recv_internal, mbind, M_bind, getS, putS.
  destruct (zsock_recvfrom n sock MDNS_RESPONSE_BUFFER_SIZE) as [[[r data] from] n'] eqn:Hrecv.
  assert (Hr : open n' ∧ 0 <= r) by (eapply (proj1 (proj2 Hopen)); [done|by rewrite Hds|done]).
  destruct Hr as [Ho' Hr]. apply zsock_recvfrom_law in Hrecv; [|done].
  destruct Hrecv as [[? _]|(-> & _ & _ & whole' & Hq' & Hdata)]; [lia|].
  rewrite Hds in Hq'. injection Hq' as <- <- Hrest. cbn [snd] in Hwf. rewrite <-Hdata in Hwf.
  pose proof (proj1 Hwf) as (Hne & _). destruct (Z.leb_spec (length data) 0) as [Hl|_].
  { destruct data; [done|cbn [length] in Hl; lia]. }
  rewrite (response_check_settled q Hq data rs n' Hwf Hset).
  exists n'. split; [by destruct (existsb _ _)|]. by split.
Qed.

(** A datagram is taken, whatever it holds. *)
Lemma recv_internal_takes d ds found n n' :
  open n → net_datagrams n sock = d :: ds → mdns_query_recv_internal sock q (length q) n = Done found n' →
  open n' ∧ net_datagrams n' sock = ds.
Proof.
  intros Ho Hds. unfold mdns_query_recv_internal, mbind, M_bind, getS, putS.
  destruct (zsock_recvfrom n sock MDNS_RESPONSE_BUFFER_SIZE) as [[[r data] from] n1] eqn:Hrecv.
  assert (Hr : open n1 ∧ 0 <= r) by (eapply (proj1 (proj2 Hopen)); [done|by rewrite Hds|done]).
  destruct Hr as [Ho1 Hr]. apply zsock_recvfrom_law in Hrecv; [|done].
  destruct Hrecv as [[? _]|(-> & Hmax & Hb & whole & Hq' & _)]; [lia|].
  rewrite Hds in Hq'. injection Hq' as -> Hrest. destruct (Z.leb_spec (length data) 0) as [|Hpos].
  { by intros [= _ <-]. }
  assert (Hok : received_ok data).
  { split; [intros ->; cbn in Hpos; lia|]. split; [done|]. unfold MDNS_RESPONSE_BUFFER_SIZE in *. lia. }
  destruct (response_check_safe q Hq data n1 Hok) as [[b Hrun]|Hrun]; rewrite Hrun; [by intros [= _ <-]|done].
Qed.

Lemma recv_loop_ends fuel ret total addr_list (len : Z) n :
  open n → (0 < ret ↔ net_datagrams n sock ≠ []) → (length (net_datagrams n sock) <= fuel)%nat →
  0 <= total <= len → len = length addr_list → len < 2 ^ 31 →
  recv_loop fuel sock ret total addr_list len q (length q) n ≠ Crash Diverge.
Proof.
  revert ret total addr_list n. induction fuel as [|fuel IH]; intros ret total addr_list n Ho Hret Hfuel Ht Hlen Hmax.
  { destruct (net_datagrams n sock) as [|d ds]; [|cbn in Hfuel; lia].
    assert (Hno : (0 <? ret) = false) by (apply Z.ltb_ge, Z.nlt_ge; rewrite Hret; by intros []).
    cbn [recv_loop]. by rewrite Hno. }
  destruct ((0 <? ret) && (total <? len)) eqn:Hgo; cycle 1. { cbn [recv_loop]. by rewrite Hgo. }
  pose proof Hgo as [Hpos%Z.ltb_lt Hroom%Z.ltb_lt]%andb_true_iff.
  destruct (net_datagrams n sock) as [|d ds] eqn:Hds; [by apply Hret in Hpos|].
  destruct (recv_internal_outcome sock n) as [(found & n1 & Hrun)|Hrun]; cycle 1.
  { cbn [recv_loop]. rewrite Hgo. unfold mbind, M_bind. by rewrite Hrun. }
  destruct (recv_internal_takes d ds found n n1 Ho Hds Hrun) as [Ho1 Hds1].
  destruct (zsock_poll n1 [sock] 0) as [[ret' rev] n2] eqn:Hpoll.
  destruct (proj1 Hopen n1 0 ret' rev n2 Ho1 Hpoll) as (Ho2 & Hret' & Hsame). specialize (Hsame eq_refl).
  rewrite (recv_round fuel sock ret total addr_list len found n n1 ret' rev n2 Hpos ltac:(lia) Hlen Hmax Hrun Hpoll).
  destruct (noted_range found total addr_list ltac:(lia)) as [Hn Hl].
  apply IH; [done|done| |lia|lia|done]. rewrite Hsame, Hds1. cbn in Hfuel. lia.
Qed.

(** With as much fuel as datagrams arrive, receiving ends, whatever they hold. *)
Lemma query_recv_ends fuel addr_list timeout ret rev n1 n :
  open n → zsock_poll n [sock] timeout = (ret, rev, n1) →
  (length (net_datagrams n1 sock) <= fuel)%nat → length addr_list < 2 ^ 31 →
  mdns_query_recv fuel sock addr_list (length addr_list) q (length q) timeout n ≠ Crash Diverge.
Proof.
  intros Ho Hpoll Hfuel Hmax. destruct (proj1 Hopen n timeout ret rev n1 Ho Hpoll) as (Ho1 & Hret & _).
  unfold mdns_query_recv, mbind, M_bind, getS, putS. rewrite Hpoll. apply recv_loop_ends; [done..|lia|done|done].
Qed.

Lemma recv_loop_collects fuel ret total addr_list (len : Z) verdicts n :
  open n → (0 < ret ↔ net_datagrams n sock ≠ []) → (length (net_datagrams n sock) <= fuel)%nat →
  Forall2 judged (net_datagrams n sock) verdicts →
  0 <= total <= len → len = length addr_list → len < 2 ^ 31 →
  let addrs := take (Z.to_nat (len - total)) (senders (net_datagrams n sock) verdicts) in
  ∃ n', recv_loop fuel sock ret total addr_list len q (length q) n
        = Done (total + length addrs, write_at addr_list (Z.to_nat total) addrs) n'.
Proof.
  revert ret total addr_list verdicts n.
  induction fuel as [|fuel IH]; intros ret total addr_list verdicts n Ho Hret Hfuel Hv Ht Hlen Hmax addrs.
  - destruct (net_datagrams n sock) as [|d ds] eqn:Hds; [|cbn in Hfuel; lia].
    assert (Hno : (0 <? ret) = false) by (apply Z.ltb_ge, Z.nlt_ge; rewrite Hret; by intros []).
    exists n. subst addrs. cbn [recv_loop senders]. rewrite Hno, take_nil, write_at_nil. cbn. by rewrite Z.add_0_r.
  - destruct (net_datagrams n sock) as [|d ds] eqn:Hds.
    { assert (Hno : (0 <? ret) = false) by (apply Z.ltb_ge, Z.nlt_ge; rewrite Hret; by intros []).
      exists n. subst addrs. cbn [recv_loop senders]. rewrite Hno, take_nil, write_at_nil. cbn. by rewrite Z.add_0_r. }
    destruct (decide (total = len)) as [->|Hroom].
    { exists n. subst addrs. cbn [recv_loop]. rewrite Z.ltb_irrefl, andb_false_r, Z.sub_diag, take_0, write_at_nil.
      cbn. by rewrite Z.add_0_r. }
    destruct d as [addr whole]. inversion Hv as [|? verdict ? verdicts' Hd Hv']; subst.
    destruct (recv_internal_judged addr whole ds verdict n Ho Hds Hd) as (n1 & Hrun & Ho1 & Hds1).
    destruct (zsock_poll n1 [sock] 0) as [[ret' rev] n2] eqn:Hpoll.
    destruct (proj1 Hopen n1 0 ret' rev n2 Ho1 Hpoll) as (Ho2 & Hret' & Hsame). specialize (Hsame eq_refl).
    rewrite (recv_round fuel sock ret total addr_list _ _ n n1 ret' rev n2 ltac:(by apply Hret) ltac:(lia) eq_refl Hmax Hrun Hpoll).
    assert (Hds2 : net_datagrams n2 sock = ds) by congruence. subst addrs.
    cbn [senders]. destruct verdict; cbn [noted fst snd].
    + destruct (IH ret' (total + 1) (<[Z.to_nat total := addr]> addr_list) verdicts' n2) as [n' Hrun'];
        rewrite ?Hds2, ?length_insert; [done|by rewrite <-Hds2|cbn in Hfuel; lia|done|lia|done|lia|].
      rewrite Hds2 in Hrun'. exists n'. rewrite Hrun'.
      replace (Z.to_nat (length addr_list - total)) with (S (Z.to_nat (length addr_list - (total + 1)))) by lia.
      cbn [take length]. replace (Z.to_nat (total + 1)) with (S (Z.to_nat total)) by lia.
      rewrite write_at_cons by lia. do 2 f_equal. lia.
    + destruct (IH ret' total addr_list verdicts' n2) as [n' Hrun'];
        rewrite ?Hds2; [done|by rewrite <-Hds2|cbn in Hfuel; lia|done|lia|done|lia|].
      rewrite Hds2 in Hrun'. by exists n'.
Qed.

Lemma query_recv_answers fuel addr_list timeout ret rev n1 verdicts n :
  open n → zsock_poll n [sock] timeout = (ret, rev, n1) →
  Forall2 judged (net_datagrams n1 sock) verdicts →
  (length (net_datagrams n1 sock) <= fuel)%nat → length addr_list < 2 ^ 31 →
  let addrs := take (length addr_list) (senders (net_datagrams n1 sock) verdicts) in
  ∃ n', mdns_query_recv fuel sock addr_list (length addr_list) q (length q) timeout n
        = Done (length addrs : Z, addrs ++ drop (length addrs) addr_list) n'.
Proof.
  intros Ho Hpoll Hv Hfuel Hmax addrs. destruct (proj1 Hopen n timeout ret rev n1 Ho Hpoll) as (Ho1 & Hret & _).
  unfold mdns_query_recv, mbind, M_bind, getS, putS. rewrite Hpoll.
  destruct (recv_loop_collects fuel ret 0 addr_list (length addr_list) verdicts n1 Ho1 Hret Hfuel Hv ltac:(lia) eq_refl Hmax) as [n' Hrun].
  exists n'. rewrite Hrun, Z.sub_0_r, Nat2Z.id. done.
Qed.

(** C17: While responses that parse arrive on a working socket, mdns_query_recv stores the
    addresses of exactly the senders whose answers name zephyr.<query>, in order of arrival,
    until the list is full or no datagram is left, and returns how many they are; the rest of
    the list stays as it was. *)
Theorem mdns_query_recv_collects fuel addr_list timeout ret rev n1 verdicts n :
  open n → zsock_poll n [sock] timeout = (ret, rev, n1) →
  Forall2 judged (net_datagrams n1 sock) verdicts →
  (length (net_datagrams n1 sock) <= fuel)%nat → length addr_list < 2 ^ 31 →
  let addrs := take (length addr_list) (senders (net_datagrams n1 sock) verdicts) in
  ∃ n', mdns_query_recv fuel sock addr_list (length addr_list) q (length q) timeout n
        = Done (length addrs : Z, addrs ++ drop (length addrs) addr_list) n'.
Proof. apply query_recv_answers. Qed.
End Receiving.
