(* ===== verification/MdnsWitness.v ===== *)
(** * Concrete packets for the mDNS client (src/mdns.c)

    The properties of [MdnsNames], [MdnsQuery] and [MdnsRecv], applied to the
    packets of one query and its answers. *)

From S2P Require Import Prelude Config Kernel Zephyr Mdns MdnsNames MdnsQuery MdnsRecv.

(** ** Packets *)

Definition w_service : list (list Z) :=
  Eval vm_compute in [chars "_greybus"; chars "_tcp"; chars "local"].
Definition w_query : list Z := Eval vm_compute in chars "_greybus._tcp.local".

(** A response with one record for the service: its instance is [instance]
    followed by a pointer back to the service's name. *)
Definition w_response (instance : list Z) : list Z :=
  mdns_header 0 0 ++ wire w_service ++ be16 12 ++ be16 1 ++ [0; 0; 0; 120]
  ++ be16 (length instance + 3) ++ wire_label instance ++ [0xc0; 12].

(** The answer count is the fourth field of the header. *)
Definition w_answers (n : Z) (packet : list Z) : list Z := <[7%nat := n]> packet.

Definition w_zephyr : list Z := Eval vm_compute in chars "zephyr".
Definition w_other : list Z := Eval vm_compute in chars "printr".

Definition w_answer : list Z := Eval vm_compute in w_answers 1 (w_response w_zephyr).
Definition w_foreign : list Z := Eval vm_compute in w_answers 1 (w_response w_other).

(** Another service's instance, then a record for the name "zephyr". *)
Definition w_stale : list Z := Eval vm_compute in
  w_answers 2 (w_response w_other) ++ [0xc0; 12] ++ be16 12 ++ be16 1 ++ [0; 0; 0; 120]
  ++ be16 8 ++ wire [w_zephyr].

(** A record whose data is a single byte. *)
Definition w_short : list Z := Eval vm_compute in
  w_answers 1 (mdns_header 0 0) ++ wire [w_zephyr] ++ be16 12 ++ be16 1 ++ [0; 0; 0; 120]
  ++ be16 1 ++ [0].

Definition w_waiting : net :=
  SimpleNet ∅ ∅ 8 ∅ {[5 := [([1], w_answer); ([2], w_foreign); ([3], w_answer)]]}.

(** ** They are well formed *)

Lemma w_label (b : list Z) size off l ls e :
  0 <= off → b !! Z.to_nat off = Some (length l : Z) → l ≠ [] → mdns_is_string_ref (length l) = false →
  off + 1 + length l <= size → take (length l) (drop (Z.to_nat (off + 1)) b) = l →
  name_at b size (off + 1 + length l) ls e → name_at b size off (l :: ls) e.
Proof.
  intros Ho Hl Hne Href Hend Htext Hname.
  apply (name_label b size 0 off off l ls e); [|lia|done..].
  apply (resolves_here b size off (length l)); [lia|done..].
Qed.

Lemma w_end (b : list Z) size off : 0 <= off < size → b !! Z.to_nat off = Some 0 → name_at b size off [] (off + 1).
Proof. intros Ho Hz. apply (name_end b size 0 off off); [|lia|done]. by apply (resolves_here b size off 0). Qed.

(** A pointer to a label. *)
Lemma w_pointer (b : list Z) size off lo target l ls e :
  0 <= off → off + 2 <= size → b !! Z.to_nat off = Some 0xc0 → b !! Z.to_nat (off + 1) = Some lo →
  Z.land (of_be16 0xc0 lo) 0x3fff = target → 0 <= target →
  b !! Z.to_nat target = Some (length l : Z) → l ≠ [] → mdns_is_string_ref (length l) = false →
  target + 1 + length l <= size → take (length l) (drop (Z.to_nat (target + 1)) b) = l →
  name_at b size (target + 1 + length l) ls e → name_at b size off (l :: ls) (off + 2).
Proof.
  intros Ho Hs Hhi Hlo Ht Htp Hl Hne Href Hend Htext Hname.
  apply (name_label b size 1 off target l ls e); [|lia|done..].
  apply (resolves_hop b size 0 off 0xc0 lo target); [done..|]. rewrite Ht.
  apply (resolves_here b size target (length l)); [lia|done..].
Qed.

Ltac solve_name :=
  first
    [ apply w_end; solve_closed
    | eapply w_label; [solve_closed..|solve_name]
    | eapply w_pointer; [solve_closed..|solve_name] ].

Lemma w_service_name : name_at w_answer 52 12 w_service 33.
Proof. solve_name. Qed.

Lemma w_instance_name : name_at w_answer 52 43 (w_zephyr :: w_service) 52.
Proof. solve_name. Qed.

Lemma w_bytes_answer : bytes w_answer.
Proof. solve_bytes. Qed.

(** ** The properties at these packets *)

Lemma mdns_names_decoded_witness :
  mdns_string_skip w_answer 52 43 tt = Done (true, 52) tt ∧
  mdns_string_extract w_answer 52 43 (replicate 8 0) 8 tt
  = Done (MdnsString StrBuffer 8, 52, w_zephyr ++ [DOT; 0x5f]) tt.
Proof.
  apply (mdns_names_decoded w_answer 52 w_bytes_answer ltac:(solve_closed) ltac:(solve_closed)
    43 (w_zephyr :: w_service) 52 (replicate 8 0) 8 tt w_instance_name);
    [repeat constructor|solve_closed].
Defined.

Lemma mdns_names_total_witness :
  (∃ ok offset', mdns_string_skip w_stale 20 15 tt = Done (ok, offset') tt ∧
     if ok : bool then 0 <= offset' <= 20 + 2 else offset' = 15) ∧
  (∃ r offset' str', mdns_string_extract w_stale 20 15 (replicate 8 0) 8 tt = Done (r, offset', str') tt ∧
     str_length r <= 8 ∧ length str' = 8%nat).
Proof.
  apply (mdns_names_total w_stale 20 ltac:(solve_bytes) ltac:(solve_closed) ltac:(solve_closed)
    15 (replicate 8 0) 8 tt); solve_closed.
Defined.

Lemma w_service_ok : Forall label_ok w_service.
Proof.
  repeat (apply Forall_cons_2;
    [split_and!; [discriminate|solve_closed|solve_bytes|rewrite !elem_of_cons, elem_of_nil; cbv; lia]|]).
  apply Forall_nil_2.
Qed.

Lemma mdns_name_roundtrip_witness :
  ∃ buffer',
    mdns_string_make (replicate 30 0) 30 4 w_query 19 None tt = Done (Some 25, buffer', None) tt ∧
    length buffer' = 30%nat ∧
    mdns_string_extract buffer' 30 4 (replicate 32 0) 32 tt
    = Done (MdnsString StrBuffer 20, 25, w_query ++ [DOT] ++ replicate 12 0) tt.
Proof.
  apply (mdns_name_roundtrip (replicate 30 0) 30 4 w_service (replicate 32 0) 32 tt);
    first [apply w_service_ok|solve_closed|solve_bytes].
Defined.

Lemma mdns_query_send_packet_witness :
  ∃ ret n', mdns_query_send 5 (w_query ++ []) 19 w_waiting = Done ret n' ∧
    query_sent w_service 5 w_waiting ret n'.
Proof.
  apply (mdns_query_send_packet 5 w_service [] 19 w_waiting); [discriminate|apply w_service_ok|by left|solve_closed..].
Defined.

Lemma w_expected_fits : (length (expected ++ w_query) <= Z.to_nat MDNS_PTR_NAME_SIZE)%nat.
Proof. solve_closed. Qed.

Lemma w_received (data : list Z) : bytes data → data ≠ [] → (length data <= 100)%nat → received_ok data.
Proof. intros Hb Hne Hl. split; [done|]. by split. Qed.

Ltac solve_records :=
  first
    [ apply records_nil
    | eapply (records_cons _ _ _ w_service);
        [solve_name|solve_closed|reflexivity|reflexivity|solve_closed|solve_closed|solve_name
        |solve_closed|solve_records] ].

Lemma w_answer_well_formed : well_formed w_answer [w_zephyr :: w_service].
Proof.
  split; [apply w_received; [solve_bytes|discriminate|solve_closed]|].
  exists 0, 0, 0, 1, 12. split_and!; [reflexivity..|apply questions_nil|solve_records].
Qed.

Lemma w_foreign_well_formed : well_formed w_foreign [w_other :: w_service].
Proof.
  split; [apply w_received; [solve_bytes|discriminate|solve_closed]|].
  exists 0, 0, 0, 1, 12. split_and!; [reflexivity..|apply questions_nil|solve_records].
Qed.

Lemma w_stale_well_formed : well_formed w_stale [w_other :: w_service; [w_zephyr]].
Proof.
  split; [apply w_received; [solve_bytes|discriminate|solve_closed]|].
  exists 0, 0, 0, 2, 12. split_and!; [reflexivity..|apply questions_nil|solve_records].
Qed.

Lemma mdns_response_safe_witness :
  (∃ found, response_check (response_buffer w_short) 31 w_query 19 tt = Done found tt) ∨
  response_check (response_buffer w_short) 31 w_query 19 tt = Crash NullDeref.
Proof.
  apply (mdns_response_safe w_query w_expected_fits w_short tt), w_received;
    [solve_bytes|discriminate|solve_closed].
Defined.

(** What is looked for is not cut short by a name. *)
Ltac solve_settled := intros Hp%prefix_length; exfalso; revert Hp; vm_compute; lia.

Lemma w_answer_settled : Forall (settled (expected ++ w_query)) [w_zephyr :: w_service].
Proof. apply Forall_singleton. solve_settled. Qed.

Lemma w_foreign_settled : Forall (settled (expected ++ w_query)) [w_other :: w_service].
Proof. apply Forall_singleton. solve_settled. Qed.

Lemma mdns_response_verdict_witness :
  response_check (response_buffer w_answer) 52 w_query 19 tt = Done true tt ∧
  response_check (response_buffer w_foreign) 52 w_query 19 tt = Done false tt.
Proof.
  split.
  - apply (mdns_response_verdict w_query w_expected_fits w_answer _ tt w_answer_well_formed w_answer_settled).
  - apply (mdns_response_verdict w_query w_expected_fits w_foreign _ tt w_foreign_well_formed w_foreign_settled).
Defined.

Lemma stale_name_answers_witness :
  response_check (response_buffer w_stale) 72 w_query 19 tt = Done true tt ∧
  ¬ (expected ++ w_query) `prefix_of` dotted (w_other :: w_service) ∧
  ¬ (expected ++ w_query) `prefix_of` dotted [w_zephyr].
Proof.
  apply (stale_name_answers w_query w_expected_fits w_stale (w_other ++ [DOT]) [DOT] _ _ tt w_stale_well_formed);
    solve_closed.
Defined.

Lemma w_short_name : name_at w_short 31 12 [w_zephyr] 20.
Proof. solve_name. Qed.

Lemma short_record_null_witness :
  mdns_answer_check w_short 31 12 1 w_query 19 tt = Crash NullDeref.
Proof.
  apply (short_record_null w_short 31 ltac:(solve_bytes) ltac:(solve_closed) ltac:(solve_closed)
    12 [w_zephyr] 20 0 1 1 w_query tt w_short_name); solve_closed.
Defined.

(** ** A round of queries *)

(** No stream is delivered on the socket. *)
Definition w_open (n : net) : Prop := sn_incoming n !! 5 = None.

Lemma w_undisturbed : undisturbed 5 w_open.
Proof.
  split; [|split].
  - intros n timeout ret rev n' Hopen [= <- _ <-]. split; [done|]. split; [|done].
    unfold net_datagrams, simple_sockets. destruct (simple_datagrams n 5) as [|d ds] eqn:Hd.
    + assert (Hr : simple_ready n 5 = false) by (unfold simple_ready; by rewrite Hopen, Hd).
      rewrite filter_cons_False, filter_nil by (by rewrite Hr). split; [cbn; lia|done].
    + assert (Hr : simple_ready n 5 = true) by (unfold simple_ready; by rewrite Hopen, Hd).
      rewrite filter_cons_True, filter_nil by done. split; [done|cbn; lia].
  - intros n len r data addr n' Hopen Hne. cbn. unfold simple_recvfrom.
    destruct (simple_datagrams n 5) as [|[from whole] rest] eqn:Hd.
    { unfold net_datagrams in Hne. cbn in Hne. by rewrite Hd in Hne. }
    intros [= <- <- <- <-]. split; [done|lia].
  - intros n data addr r n' Hopen. cbn. unfold simple_sendto. by intros [= <- <-].
Qed.

Lemma w_judged : Forall2 (judged w_query) [([1], w_answer); ([2], w_foreign); ([3], w_answer)] [true; false; true].
Proof.
  assert (Ha : ∀ a, judged w_query (a, w_answer) true).
  { intros a. exists [w_zephyr :: w_service]. split; [apply w_answer_well_formed|]. by split; [apply w_answer_settled|]. }
  assert (Hf : ∀ a, judged w_query (a, w_foreign) false).
  { intros a. exists [w_other :: w_service]. split; [apply w_foreign_well_formed|]. by split; [apply w_foreign_settled|]. }
  repeat constructor; done.
Qed.

Lemma mdns_query_recv_collects_witness :
  ∃ n', mdns_query_recv 3 5 (replicate 4 []) 4 w_query 19 2000 w_waiting
        = Done (2, [[1]; [3]; []; []]) n'.
Proof.
  apply (mdns_query_recv_collects w_query w_expected_fits 5 w_open w_undisturbed 3 (replicate 4 []) 2000
    1 [ZSOCK_POLLIN] w_waiting [true; false; true] w_waiting);
    [reflexivity|reflexivity|apply w_judged|solve_closed|solve_closed].
Defined.
