(* ===== verification/Messages.v ===== *)
(** * Greybus messages (include/greybus_messages.h, src/greybus_messages.c)

    Messages live in a kernel heap; the store maps the address of every block
    in use to its contents.  Reading or freeing an address that is not in the
    store is a fault, and so is an access past the end of a block. *)

From S2P Require Import Prelude Protocols Kernel.

(** ** Data *)

(** A block: the header, and the payload up to the end of the allocation. *)
Record gb_message := GbMessage { header : gb_operation_msg_hdr; payload : list Z }.

Definition NULL : Z := 0.

Definition gb_hdr_payload_len (hdr : gb_operation_msg_hdr) : Z :=
  u32 (hdr_size hdr - sizeof gb_operation_msg_hdr).

Definition gb_message_payload_len (msg : gb_message) : Z := gb_hdr_payload_len (header msg).

Definition gb_hdr_is_response (hdr : gb_operation_msg_hdr) : bool :=
  negb (Z.land (hdr_type hdr) GB_OP_RESPONSE =? 0).

Definition gb_hdr_is_success (hdr : gb_operation_msg_hdr) : bool := hdr_result hdr =? 0x00.

Definition gb_message_is_response (msg : gb_message) : bool := gb_hdr_is_response (header msg).

Definition gb_message_is_success (msg : gb_message) : bool := gb_hdr_is_success (header msg).

Definition gb_message_type (msg : gb_message) : Z := hdr_type (header msg).

(** ** Operation ids *)

Definition OPERATION_ID_START : Z := 1.
Definition UINT16_MAX : Z := 0xffff.

(** The id and the new value of [operation_id_counter]. *)
Definition new_operation_id (counter : Z) : Z * Z :=
  let temp := counter in
  let counter := counter + 1 in
  (u16 temp, if temp =? UINT16_MAX then OPERATION_ID_START else counter).

(** ** State and operations *)

Record messages `{KHeap} := Messages {
  greybus_messages_heap : kheap;
  msg_store : gmap Z gb_message;
  operation_id_counter : Z;
  (** History: blocks read after they were freed. *)
  stale_reads : list Z;
}.

Section Messages.
Context `{KHeap}.

Definition set_store (st : gmap Z gb_message) (m : messages) : messages :=
  Messages _ (greybus_messages_heap m) st (operation_id_counter m) (stale_reads m).

(** [*msg] *)
Definition msg_deref (p : Z) : M messages gb_message :=
  m ← getS;
  if p =? NULL then crash NullDeref
  else match msg_store m !! p with
       | Some msg => mret msg
       | None => crash UseAfterFree
       end.

Definition gb_message_alloc (payload_len message_type operation_id status : Z) : M messages Z :=
  m ← getS;
  match k_heap_alloc (greybus_messages_heap m) (u32 (sizeof gb_operation_msg_hdr + payload_len)) with
  | None => mret NULL
  | Some (msg, mem, heap) =>
      if decide (sizeof gb_operation_msg_hdr <= length mem)%nat then
        let old : gb_operation_msg_hdr := of_wire mem in
        let hdr := {|
          hdr_size := u16 (sizeof gb_operation_msg_hdr + payload_len);
          hdr_operation_id := operation_id;
          hdr_type := message_type;
          hdr_result := status;
          hdr_pad0 := hdr_pad0 old;
          hdr_pad1 := hdr_pad1 old;
        |} in
        let block := GbMessage hdr (drop (sizeof gb_operation_msg_hdr) mem) in
        _ ← putS (Messages _ heap (<[msg := block]> (msg_store m)) (operation_id_counter m)
                    (stale_reads m));
        mret msg
      else crash OutOfBounds
  end.

Definition gb_message_dealloc (msg : Z) : M messages () :=
  m ← getS;
  if msg =? NULL then mret ()
  else match msg_store m !! msg with
       | Some _ =>
           putS (Messages _ (k_heap_free (greybus_messages_heap m) msg)
                   (delete msg (msg_store m)) (operation_id_counter m) (stale_reads m))
       | None => crash DoubleFree
       end.

(** [memcpy(msg->payload, src, n)] *)
Definition msg_write_payload (msg : Z) (src : list Z) (n : Z) : M messages () :=
  if n =? 0 then mret ()
  else
    block ← msg_deref msg;
    pl ← memcpy (payload block) src n;
    modS (λ m, set_store (<[msg := GbMessage (header block) pl]> (msg_store m)) m).

Definition take_operation_id : M messages Z :=
  m ← getS;
  let '(id, counter) := new_operation_id (operation_id_counter m) in
  _ ← putS (Messages _ (greybus_messages_heap m) (msg_store m) counter (stale_reads m));
  mret id.

Definition gb_message_request_alloc (pl : list Z) (payload_len request_type : Z)
    (is_oneshot : bool) : M messages Z :=
  operation_id ← (if is_oneshot then mret 0 else take_operation_id);
  msg ← gb_message_alloc payload_len request_type operation_id 0;
  _ ← msg_write_payload msg pl payload_len;
  mret msg.

Definition gb_message_response_alloc (pl : list Z) (payload_len request_type operation_id status : Z)
    : M messages Z :=
  msg ← gb_message_alloc payload_len (Z.lor GB_OP_RESPONSE request_type) operation_id status;
  _ ← msg_write_payload msg pl payload_len;
  mret msg.

(** [msg->header.operation_id]: from a block that has been freed the read
    yields what the heap left there. *)
Definition msg_operation_id (msg : Z) : M messages Z :=
  m ← getS;
  match msg_store m !! msg with
  | Some block => mret (hdr_operation_id (header block))
  | None =>
      _ ← putS (Messages _ (greybus_messages_heap m) (msg_store m) (operation_id_counter m)
                  (stale_reads m ++ [msg]));
      mret (k_heap_stale (greybus_messages_heap m) msg 2)
  end.
End Messages.

(** ** Well-formedness, and what the operations do to it *)

(** The size field of a block tells its payload's length. *)
Definition block_ok (b : gb_message) : Prop :=
  in_range (header b) ∧ bytes (payload b) ∧
  hdr_size (header b) = u16 (sizeof gb_operation_msg_hdr + length (payload b)).

Record messages_wf `{KHeap} (m : messages) : Prop := {
  wf_live : dom (msg_store m) = k_heap_live (greybus_messages_heap m);
  wf_null : msg_store m !! NULL = None;
  wf_blocks : map_Forall (λ _, block_ok) (msg_store m);
  wf_counter : OPERATION_ID_START <= operation_id_counter m <= UINT16_MAX;
}.

(** A block that [gb_message_alloc] returns for the given arguments. *)
Record fresh_block (payload_len message_type operation_id status : Z) (b : gb_message) : Prop := {
  fb_len : (length (payload b) : Z) = payload_len;
  fb_size : hdr_size (header b) = u16 (sizeof gb_operation_msg_hdr + payload_len);
  fb_id : hdr_operation_id (header b) = operation_id;
  fb_type : hdr_type (header b) = message_type;
  fb_result : hdr_result (header b) = status;
}.

Section Facts.
Context `{KHeap, !KHeapLaws}.

Lemma in_range_header size id type result pad0 pad1 :
  in_range {| hdr_size := size; hdr_operation_id := id; hdr_type := type;
              hdr_result := result; hdr_pad0 := pad0; hdr_pad1 := pad1 |}
  ↔ is_u16 size ∧ is_u16 id ∧ is_u8 type ∧ is_u8 result ∧ is_u8 pad0 ∧ is_u8 pad1.
Proof.
  unfold in_range. cbn. rewrite !Forall2_cons, Forall2_nil. unfold fits, is_u16, is_u8.
  cbn. tauto.
Qed.

Lemma of_wire_header_range mem :
  bytes mem → (8 <= length mem)%nat → in_range (of_wire mem : gb_operation_msg_hdr).
Proof.
  intros Hb Hl. unfold in_range, of_wire. rewrite fields_of_fields by done.
  by apply unpack_fits.
Qed.

Lemma gb_message_alloc_spec m payload_len message_type operation_id status :
  messages_wf m → 0 <= payload_len < 2 ^ 32 - 8 →
  is_u8 message_type → is_u16 operation_id → is_u8 status →
  wp (gb_message_alloc payload_len message_type operation_id status)
    (λ p m', (p = NULL ∧ m' = m ∧ k_heap_alloc (greybus_messages_heap m) (8 + payload_len) = None) ∨
      ∃ b heap, p ≠ NULL ∧ msg_store m !! p = None ∧ messages_wf m' ∧
        m' = Messages _ heap (<[p := b]> (msg_store m)) (operation_id_counter m) (stale_reads m) ∧
        fresh_block payload_len message_type operation_id status b) m.
Proof.
  intros [Hlive Hnull Hblocks Hctr] Hlen Ht Hid Hst. unfold gb_message_alloc.
  unfold wp, getS, mbind, M_bind. change (sizeof gb_operation_msg_hdr) with 8%nat.
  rewrite u32_id by (unfold is_u32; lia). change (Z.of_nat 8) with 8.
  destruct (k_heap_alloc _ _) as [[[p mem] heap]|] eqn:Halloc; [|by left].
  apply k_heap_alloc_law in Halloc as (Hp & Hfresh & Hlive' & Hmem & Hbytes); [|lia].
  rewrite decide_True by lia. right. unfold putS.
  assert (Hnone : msg_store m !! p = None).
  { apply not_elem_of_dom. by rewrite Hlive. }
  pose proof (of_wire_header_range mem Hbytes ltac:(lia)) as Hold.
  destruct (of_wire mem) as [s0 i0 t0 r0 pad0 pad1]. cbn [hdr_pad0 hdr_pad1].
  apply in_range_header in Hold as (_ & _ & _ & _ & Hpad0 & Hpad1).
  eexists _, heap. split; [done|]. split; [done|]. split; [|split; [done|]].
  - split; cbn [msg_store greybus_messages_heap operation_id_counter].
    + by rewrite dom_insert_L, Hlive, Hlive'.
    + by rewrite lookup_insert_ne.
    + apply map_Forall_insert_2; [|done]. unfold block_ok. cbn [header payload hdr_size].
      rewrite in_range_header, length_drop. split; [|split].
      * auto 10 with machine.
      * by apply Forall_drop.
      * f_equal. change (sizeof gb_operation_msg_hdr) with 8%nat. lia.
    + done.
  - split; cbn [header payload hdr_size hdr_operation_id hdr_type hdr_result]; try done.
    rewrite length_drop. lia.
Qed.

(** A header whose size field is less than the header's own length makes the allocation
    wrap around: the header is written past the end of the block. *)
Theorem gb_message_alloc_short_header m size message_type operation_id status p mem heap :
  0 <= size < 8 →
  k_heap_alloc (greybus_messages_heap m) size = Some (p, mem, heap) →
  gb_message_alloc (gb_hdr_payload_len {| hdr_size := size; hdr_operation_id := operation_id;
    hdr_type := message_type; hdr_result := status; hdr_pad0 := 0; hdr_pad1 := 0 |})
    message_type operation_id status m = Crash OutOfBounds.
Proof.
  intros Hs Halloc. unfold gb_message_alloc, gb_hdr_payload_len, getS, mbind, M_bind.
  cbn [hdr_size]. change (Z.of_nat (sizeof gb_operation_msg_hdr)) with 8.
  replace (u32 (8 + u32 (size - 8))) with size.
  - rewrite Halloc. apply k_heap_alloc_law in Halloc as (_ & _ & _ & Hmem & _); [|lia].
    rewrite decide_False; [done|]. change (sizeof gb_operation_msg_hdr) with 8%nat. lia.
  - unfold u32. rewrite Zplus_mod_idemp_r. replace (8 + (size - 8)) with size by lia.
    rewrite Z.mod_small; lia.
Qed.

(** *** Payloads *)

Lemma block_ok_payload b pl :
  block_ok b → bytes pl → length pl = length (payload b) → block_ok (GbMessage (header b) pl).
Proof. intros (Hr & _ & Hs) Hpl Hl. unfold block_ok. cbn. by rewrite Hl. Qed.

Lemma messages_wf_update m p b b' :
  messages_wf m → msg_store m !! p = Some b → block_ok b' →
  messages_wf (set_store (<[p := b']> (msg_store m)) m).
Proof.
  intros [Hlive Hnull Hblocks Hctr] Hp Hb'. split; cbn; [|..|done].
  - rewrite dom_insert_lookup_L; [done|by eexists].
  - rewrite lookup_insert_ne; [done|]. intros ->. by rewrite Hnull in Hp.
  - by apply map_Forall_insert_2.
Qed.

Lemma msg_deref_ok m p b :
  messages_wf m → msg_store m !! p = Some b → msg_deref p m = Done b m.
Proof.
  intros Hwf Hp. unfold msg_deref, mbind, M_bind, getS.
  destruct (Z.eqb_spec p NULL) as [->|_]; [by rewrite (wf_null _ Hwf) in Hp|]. by rewrite Hp.
Qed.

Lemma msg_write_payload_ok m p b src :
  messages_wf m → msg_store m !! p = Some b → bytes src → length src = length (payload b) →
  msg_write_payload p src (length src) m
    = Done () (set_store (<[p := GbMessage (header b) src]> (msg_store m)) m)
  ∧ messages_wf (set_store (<[p := GbMessage (header b) src]> (msg_store m)) m).
Proof.
  intros Hwf Hp Hsrc Hl.
  assert (Hok : block_ok b) by apply (wf_blocks _ Hwf _ _ Hp).
  split; [|by eapply messages_wf_update, block_ok_payload].
  unfold msg_write_payload. destruct (Z.eqb_spec (length src) 0) as [Hz|_].
  - destruct src; [|done]. destruct b as [h [|]]; [|done]. cbn [header].
    rewrite insert_id by done. by destruct m.
  - step_with (msg_deref_ok m p b Hwf Hp).
    step_with (memcpy_ok (payload b) src (length src) m ltac:(lia) ltac:(lia)).
    rewrite Nat2Z.id, take_ge, drop_ge, app_nil_r by lia. done.
Qed.

Lemma msg_write_payload_null m src n :
  n ≠ 0 → msg_write_payload NULL src n m = Crash NullDeref.
Proof. intros Hn. unfold msg_write_payload. by destruct (Z.eqb_spec n 0). Qed.

(** A block allocated to hold exactly [pl]. *)
Definition message_is (pl : list Z) (type id status : Z) (b : gb_message) : Prop :=
  payload b = pl ∧ fresh_block (length pl) type id status b.

(** The state after a successful allocation of [b] at [p] from [m]. *)
Definition allocated (m : messages) (p : Z) (b : gb_message) (m' : messages) : Prop :=
  ∃ heap, p ≠ NULL ∧ msg_store m !! p = None ∧ messages_wf m' ∧
    m' = Messages _ heap (<[p := b]> (msg_store m)) (operation_id_counter m) (stale_reads m).

(** Allocating and filling: the result is NULL only when there is nothing to
    copy, since the copy goes through the pointer before it is tested. *)
Lemma alloc_fill_spec m pl type id status :
  messages_wf m → bytes pl → length pl < 2 ^ 32 - 8 →
  is_u8 type → is_u16 id → is_u8 status →
  (k_heap_alloc (greybus_messages_heap m) (8 + length pl) ≠ None ∨ pl = []) →
  wp (msg ← gb_message_alloc (length pl) type id status;
      _ ← msg_write_payload msg pl (length pl); mret msg)
    (λ p m', (p = NULL ∧ m' = m ∧ pl = [] ∧
              k_heap_alloc (greybus_messages_heap m) (8 + length pl) = None) ∨
      ∃ b, allocated m p b m' ∧ message_is pl type id status b) m.
Proof.
  intros Hwf Hpl Hl Ht Hid Hst Hcase. apply wp_bind.
  pose proof (gb_message_alloc_spec m (length pl) type id status Hwf ltac:(lia) Ht Hid Hst) as Halloc.
  unfold wp in *. destruct (gb_message_alloc _ _ _ _ m) as [p m1|]; [|done].
  destruct Halloc as [(-> & -> & Hnone)|(b & heap & Hp & Hfresh & Hwf1 & -> & Hb)].
  - destruct Hcase as [?| ->]; [done|]. left. by rewrite Hnone.
  - set (m1 := Messages _ _ _ _ _) in *.
    assert (Hlook : msg_store m1 !! p = Some b) by apply lookup_insert_eq.
    destruct (msg_write_payload_ok m1 p b pl Hwf1 Hlook Hpl) as [Hw Hwf2].
    { pose proof (fb_len _ _ _ _ _ Hb). lia. }
    unfold mbind, M_bind. rewrite Hw. cbn. right. exists (GbMessage (header b) pl).
    split; [exists heap; repeat split_and!; try done|].
    + unfold m1, set_store. cbn. by rewrite insert_insert_eq.
    + destruct Hb. split; [done|]. by split.
Qed.

(** Allocating a response gives either nothing, or a fresh block with the request's id, the
    response bit, the status and the payload, recognised as a response; it never touches memory
    out of bounds when the heap has room. *)
Theorem gb_message_response_alloc_spec m pl request_type id status :
  messages_wf m → bytes pl → length pl < 2 ^ 32 - 8 →
  is_u8 request_type → is_u16 id → is_u8 status →
  (k_heap_alloc (greybus_messages_heap m) (8 + length pl) ≠ None ∨ pl = []) →
  wp (gb_message_response_alloc pl (length pl) request_type id status)
    (λ p m', (p = NULL ∧ m' = m) ∨
      ∃ b, allocated m p b m' ∧
           message_is pl (Z.lor GB_OP_RESPONSE request_type) id status b ∧
           gb_message_is_response b = true ∧ gb_message_payload_len b = u32 (u16 (8 + length pl) - 8)) m.
Proof.
  intros Hwf Hpl Hl Ht Hid Hst Hcase.
  assert (Hty : is_u8 (Z.lor GB_OP_RESPONSE request_type)) by (by apply lor_is_u8).
  eapply wp_mono; [by apply (alloc_fill_spec m pl _ id status)|].
  intros p m' [(-> & -> & _)|(b & Ha & Hb)]; [by left|right].
  exists b. split; [done|]. split; [done|]. destruct Hb as [_ []].
  unfold gb_message_is_response, gb_hdr_is_response, gb_message_payload_len, gb_hdr_payload_len.
  rewrite fb_type0, fb_size0. split; [|done].
  apply negb_true_iff, Z.eqb_neq. intros Hz. apply (f_equal (λ z, Z.testbit z 7)) in Hz.
  rewrite Z.land_spec, Z.lor_spec in Hz. done.
Qed.

(** Before the response is tested against NULL the payload is copied into it. *)
Lemma gb_message_response_alloc_oom m pl request_type id status :
  length pl < 2 ^ 32 - 8 → pl ≠ [] →
  k_heap_alloc (greybus_messages_heap m) (8 + length pl) = None →
  gb_message_response_alloc pl (length pl) request_type id status m = Crash NullDeref.
Proof.
  intros Hl Hne Hnone. unfold gb_message_response_alloc, gb_message_alloc, getS, mbind, M_bind.
  change (Z.of_nat (sizeof gb_operation_msg_hdr)) with 8.
  rewrite u32_id by (unfold is_u32; lia). rewrite Hnone. cbn.
  rewrite msg_write_payload_null; [done|]. destruct pl; [done|cbn; lia].
Qed.

Lemma gb_message_dealloc_spec m p b :
  messages_wf m → msg_store m !! p = Some b →
  ∃ heap, gb_message_dealloc p m
          = Done () (Messages _ heap (delete p (msg_store m)) (operation_id_counter m) (stale_reads m))
        ∧ messages_wf (Messages _ heap (delete p (msg_store m)) (operation_id_counter m) (stale_reads m)).
Proof.
  intros [Hlive Hnull Hblocks Hctr] Hp. unfold gb_message_dealloc, getS, mbind, M_bind.
  destruct (Z.eqb_spec p NULL) as [->|_]; [by rewrite Hnull in Hp|]. rewrite Hp.
  eexists. split; [done|]. split; cbn; [| | |done].
  - by rewrite dom_delete_L, k_heap_free_law, Hlive.
  - by rewrite lookup_delete_None, Hnull; right.
  - by apply map_Forall_delete.
Qed.

Lemma gb_message_dealloc_twice m p :
  p ≠ NULL → msg_store m !! p = None → gb_message_dealloc p m = Crash DoubleFree.
Proof.
  intros Hp Hnone. unfold gb_message_dealloc, getS, mbind, M_bind.
  destruct (Z.eqb_spec p NULL); [done|]. by rewrite Hnone.
Qed.
End Facts.

(** The heap satisfies a sequence of allocations. *)
Fixpoint heap_takes `{KHeap} (h : kheap) (ns : list Z) : Prop :=
  match ns with
  | [] => True
  | n :: ns => match k_heap_alloc h n with Some (_, _, h) => heap_takes h ns | None => False end
  end.

Lemma heap_takes_head `{KHeap} h n ns : heap_takes h (n :: ns) → k_heap_alloc h n ≠ None.
Proof. cbn. by destruct (k_heap_alloc h n). Qed.

Lemma heap_takes_one `{KHeap} h n : k_heap_alloc h n ≠ None → heap_takes h [n].
Proof. cbn. by destruct (k_heap_alloc h n) as [[[]]|]. Qed.

(** A successful allocation, whatever the state. *)
Lemma gb_message_alloc_Done `{KHeap} m m' payload_len message_type operation_id status p :
  gb_message_alloc payload_len message_type operation_id status m = Done p m' →
  p = NULL ∨ ∃ b, msg_store m' !! p = Some b ∧ hdr_size (header b) = u16 (8 + payload_len).
Proof.
  unfold gb_message_alloc, getS, mbind, M_bind.
  destruct (k_heap_alloc _ _) as [[[q mem] heap]|]; [|intros [= <-]; by left].
  case_decide; [|done]. unfold putS, mret, M_ret. intros [= <- <-]. right.
  eexists. split; [apply lookup_insert_eq|done].
Qed.

(** A header that is shorter than itself makes no message. *)
Lemma gb_message_alloc_short `{KHeapLaws} m m' size message_type operation_id status p :
  0 <= size < 8 →
  gb_message_alloc (u32 (size - 8)) message_type operation_id status m = Done p m' → p = NULL.
Proof.
  intros Hs. unfold gb_message_alloc, getS, mbind, M_bind.
  change (Z.of_nat (sizeof gb_operation_msg_hdr)) with 8.
  assert (Hsize : u32 (8 + u32 (size - 8)) = size).
  { unfold u32. rewrite Zplus_mod_idemp_r. replace (8 + (size - 8)) with size by lia.
    rewrite Z.mod_small; lia. }
  rewrite Hsize. destruct (k_heap_alloc _ _) as [[[q mem] heap]|] eqn:Halloc; [|by intros [= <-]].
  apply k_heap_alloc_law in Halloc as (_ & _ & _ & Hmem & _); [|lia].
  rewrite decide_False; [done|]. change (sizeof gb_operation_msg_hdr) with 8%nat. lia.
Qed.

Lemma gb_message_alloc_takes `{KHeapLaws} m payload_len message_type operation_id status ns :
  messages_wf m → 0 <= payload_len < 2 ^ 32 - 8 →
  is_u8 message_type → is_u16 operation_id → is_u8 status →
  heap_takes (greybus_messages_heap m) (8 + payload_len :: ns) →
  ∃ p b m', gb_message_alloc payload_len message_type operation_id status m = Done p m' ∧
    allocated m p b m' ∧ fresh_block payload_len message_type operation_id status b ∧
    heap_takes (greybus_messages_heap m') ns.
Proof.
  intros Hwf Hl Ht Hid Hst Htakes.
  pose proof (gb_message_alloc_spec m _ _ _ _ Hwf Hl Ht Hid Hst) as Hspec.
  apply wp_Done in Hspec as (p & m' & Hrun & Hcase). exists p. revert Hrun. unfold gb_message_alloc.
  change (Z.of_nat (sizeof gb_operation_msg_hdr)) with 8.
  rewrite u32_id by (unfold is_u32; lia). unfold getS, mbind, M_bind.
  cbn [heap_takes] in Htakes. destruct (k_heap_alloc _ _) as [[[q mem] h]|] eqn:Halloc; [|done].
  case_decide; [|done]. unfold putS, mret, M_ret. intros [= -> <-].
  destruct Hcase as [[-> _]|(b & heap & Hp & Hnone & Hwf' & Hm2 & Hb)].
  { apply k_heap_alloc_law in Halloc as (? & _); [done|lia]. }
  eexists b, _. split; [done|]. split; [by exists heap|]. by split.
Qed.

(** ** Messages on the wire

    The AP's link and a node's socket carry the same bytes. *)

(** The bytes of a message: its cport, the header and the payload. *)
Definition message_wire (cport : Z) (b : gb_message) : list Z :=
  le_bytes 2 cport ++ to_wire (header b) ++ payload b.

(** The two agree, except for the padding of the header. *)
Definition same_message (b b' : gb_message) : Prop :=
  hdr_size (header b) = hdr_size (header b') ∧
  hdr_operation_id (header b) = hdr_operation_id (header b') ∧
  hdr_type (header b) = hdr_type (header b') ∧
  hdr_result (header b) = hdr_result (header b') ∧
  payload b = payload b'.

(** A message whose size field, wide enough, counts the header and the payload. *)
Record sendable (b : gb_message) : Prop := {
  sb_range : in_range (header b);
  sb_bytes : bytes (payload b);
  sb_size : hdr_size (header b) = 8 + length (payload b);
}.

(** A block with the contents of a message that can be sent can be sent. *)
Lemma same_message_sendable `{KHeap} ms p b b' :
  messages_wf ms → msg_store ms !! p = Some b' → sendable b → same_message b b' → sendable b'.
Proof.
  intros Hwf Hlook Hb (Hsz & _ & _ & _ & Hpl). destruct (wf_blocks _ Hwf p b' Hlook) as (Hr & Hby & _).
  split; [done|done|]. rewrite <-Hsz, <-Hpl. apply Hb.
Qed.

Lemma sendable_payload_len b : sendable b → gb_message_payload_len b = length (payload b).
Proof.
  intros [Hr _ Hs]. unfold gb_message_payload_len, gb_hdr_payload_len.
  destruct (header b) as [sz i t r p0 p1]. apply in_range_header in Hr as (Hsz & _).
  cbn [hdr_size] in *. change (Z.of_nat (sizeof gb_operation_msg_hdr)) with 8.
  rewrite Hs. unfold is_u16 in Hsz.
  rewrite u32_id by (unfold is_u32; lia). lia.
Qed.

Lemma sendable_size b : sendable b → is_u16 (8 + length (payload b)).
Proof. intros [Hr _ Hs]. rewrite <-Hs. destruct (header b). by apply in_range_header in Hr as (? & _). Qed.

(** The payload length the header of an allocated block gives. *)
Lemma sized_payload_len b n :
  hdr_size (header b) = u16 (sizeof gb_operation_msg_hdr + n) → 0 <= n → is_u16 (8 + n) →
  gb_message_payload_len b = n.
Proof.
  change (Z.of_nat (sizeof gb_operation_msg_hdr)) with 8. intros Hs Hn Hu.
  unfold gb_message_payload_len, gb_hdr_payload_len. change (Z.of_nat (sizeof gb_operation_msg_hdr)) with 8.
  rewrite Hs, u16_id by done. unfold is_u16 in Hu. rewrite u32_id by (unfold is_u32; lia). lia.
Qed.

(** A block allocated for a message, with its payload filled in, is the message. *)
Lemma filled_same b b0 :
  sendable b →
  fresh_block (length (payload b)) (hdr_type (header b)) (hdr_operation_id (header b)) (hdr_result (header b)) b0 →
  same_message b (GbMessage (header b0) (payload b)).
Proof.
  intros Hb [_ Hsz Hid Hty Hres]. unfold same_message. cbn [header payload].
  rewrite Hsz, Hid, Hty, Hres, (sb_size _ Hb). change (Z.of_nat (sizeof gb_operation_msg_hdr)) with 8.
  rewrite u16_id by by apply sendable_size. by split_and!.
Qed.

(** Only the bytes that are copied matter. *)
Lemma msg_write_payload_take `{KHeap} p src n (k : nat) m :
  n <= k → (k <= length src)%nat → msg_write_payload p (take k src) n m = msg_write_payload p src n m.
Proof.
  intros Hn Hk. unfold msg_write_payload. case_match; [done|]. unfold mbind, M_bind.
  destruct (msg_deref p m) as [blk m1|]; [|done]. unfold memcpy.
  rewrite length_take, take_take, (Nat.min_l (Z.to_nat n)) by lia. do 2 case_decide; (done || lia).
Qed.

(** [p] was freed, and nothing else changed. *)
Record freed `{KHeap} (p : Z) (m m' : messages) : Prop := {
  fr_wf : messages_wf m';
  fr_store : msg_store m' = delete p (msg_store m);
  fr_counter : operation_id_counter m' = operation_id_counter m;
  fr_stale : stale_reads m' = stale_reads m;
}.

Lemma gb_message_dealloc_freed `{KHeapLaws} m p b :
  messages_wf m → msg_store m !! p = Some b →
  ∃ m', gb_message_dealloc p m = Done () m' ∧ freed p m m'.
Proof.
  intros Hwf Hp. destruct (gb_message_dealloc_spec m p b Hwf Hp) as (heap & Hrun & Hwf').
  eexists. split; [done|]. by split.
Qed.

(** ** The sequence of operation ids *)

Lemma new_operation_id_range counter :
  OPERATION_ID_START <= counter <= UINT16_MAX →
  fst (new_operation_id counter) = counter ∧
  OPERATION_ID_START <= snd (new_operation_id counter) <= UINT16_MAX.
Proof.
  unfold new_operation_id, OPERATION_ID_START, UINT16_MAX. intros Hc. cbn [fst snd].
  split; [apply u16_id; unfold is_u16; lia|]. destruct (Z.eqb_spec counter 0xffff); lia.
Qed.

(** The id of the [n]-th call since the counter was initialised. *)
Definition nth_operation_id (n : nat) : Z :=
  fst (new_operation_id (Nat.iter n (λ c, snd (new_operation_id c)) OPERATION_ID_START)).

Lemma operation_counter_iter n :
  Nat.iter n (λ c, snd (new_operation_id c)) OPERATION_ID_START = 1 + n mod 65535.
Proof.
  induction n as [|n IH]; [done|]. rewrite Nat.iter_succ, IH.
  unfold new_operation_id, UINT16_MAX, OPERATION_ID_START. cbn [snd].
  destruct (Z.eqb_spec (1 + n mod 65535) 0xffff); Z.div_mod_to_equations; lia.
Qed.

(** Called one at a time, new_operation_id runs through 1 to 65535 and starts over: an id
    comes back only after all others, and 0, the id of requests that want no response, is never
    given out. *)
Theorem nth_operation_id_cycle n :
  nth_operation_id n = 1 + n mod 65535 ∧ nth_operation_id n ≠ 0.
Proof.
  unfold nth_operation_id. rewrite operation_counter_iter.
  assert (0 <= n mod 65535 < 65535) by (apply Z.mod_pos_bound; lia).
  destruct (new_operation_id_range (1 + n mod 65535)) as [-> _];
    unfold OPERATION_ID_START, UINT16_MAX; lia.
Qed.

(** ** What each operation does, on any arguments *)

Section Outcomes.
Context `{KHeap}.
Context (n type id status : Z) (ms : messages).

(** The heap's answer to an allocation for a payload of [n] bytes; [size_t] has 32 bits. *)
Definition heap_answer : option (Z * list Z * kheap) :=
  k_heap_alloc (greybus_messages_heap ms) (u32 (8 + n)).

(** [gb_message_alloc]: NULL when the heap is full, a write behind the block when the size wraps
    around, and otherwise a fresh block. *)
Inductive alloc_outcome : result messages Z → Prop :=
| alloc_null :
    heap_answer = None →
    alloc_outcome (Done NULL ms)
| alloc_short a :
    heap_answer = Some a → 2 ^ 32 - 8 <= n →
    alloc_outcome (Crash OutOfBounds)
| alloc_block p mem heap b ms' :
    heap_answer = Some (p, mem, heap) → n < 2 ^ 32 - 8 →
    allocated ms p b ms' → greybus_messages_heap ms' = heap → fresh_block n type id status b →
    alloc_outcome (Done p ms').

(** The allocators that copy [n] bytes of [pl]: the copy is made before the result is tested
    against NULL. *)
Inductive fill_outcome (pl : list Z) : result messages Z → Prop :=
| fill_null :
    heap_answer = None → n = 0 →
    fill_outcome pl (Done NULL ms)
| fill_null_write :
    heap_answer = None → n ≠ 0 →
    fill_outcome pl (Crash NullDeref)
| fill_short a :
    heap_answer = Some a → 2 ^ 32 - 8 <= n →
    fill_outcome pl (Crash OutOfBounds)
| fill_long a :
    heap_answer = Some a → n < 2 ^ 32 - 8 → length pl < n →
    fill_outcome pl (Crash OutOfBounds)
| fill_block p mem heap b ms' :
    heap_answer = Some (p, mem, heap) → n < 2 ^ 32 - 8 → n <= length pl →
    allocated ms p b ms' → greybus_messages_heap ms' = heap → fresh_block n type id status b →
    payload b = take (Z.to_nat n) pl →
    fill_outcome pl (Done p ms').
End Outcomes.

Section Typed.
Context `{KHeap, !KHeapLaws}.

Lemma gb_message_alloc_outcome n type id status ms :
  messages_wf ms → is_u32 n → is_u8 type → is_u16 id → is_u8 status →
  alloc_outcome n type id status ms (gb_message_alloc n type id status ms).
Proof.
  intros Hwf Hn Ht Hid Hst. unfold is_u32 in Hn.
  destruct (Z.le_gt_cases (2 ^ 32 - 8) n) as [Hbig|Hsmall].
  - destruct (heap_answer n ms) as [[[p mem] heap]|] eqn:Hans.
    + pose proof Hans as Halloc. unfold heap_answer in Halloc.
      assert (Hu : u32 (8 + n) = 8 + n - 2 ^ 32).
      { unfold u32. symmetry. apply Z.mod_unique_pos with 1; lia. }
      rewrite Hu in Halloc. pose proof Halloc as (_ & _ & _ & Hmem & _)%k_heap_alloc_law; [|lia].
      replace (gb_message_alloc n type id status ms) with (Crash (S := messages) (A := Z) OutOfBounds);
        [by eapply alloc_short|].
      unfold gb_message_alloc, getS, mbind, M_bind. change (Z.of_nat (sizeof gb_operation_msg_hdr)) with 8.
      rewrite Hu, Halloc, decide_False; [done|]. change (sizeof gb_operation_msg_hdr) with 8%nat. lia.
    + pose proof Hans as Hnone. unfold heap_answer in Hnone.
      replace (gb_message_alloc n type id status ms) with (Done NULL ms); [by apply alloc_null|].
      unfold gb_message_alloc, getS, mbind, M_bind. change (Z.of_nat (sizeof gb_operation_msg_hdr)) with 8.
      by rewrite Hnone.
  - pose proof (gb_message_alloc_spec ms n type id status Hwf ltac:(lia) Ht Hid Hst) as Hspec.
    apply wp_Done in Hspec as (p & ms' & Hrun & Hcase). rewrite Hrun.
    assert (Hu : u32 (8 + n) = 8 + n) by (apply u32_id; unfold is_u32; lia).
    destruct Hcase as [(-> & -> & Hnone)|(b & heap & Hp & Hfresh & Hwf' & -> & Hb)].
    { apply alloc_null. unfold heap_answer. by rewrite Hu. }
    destruct (k_heap_alloc (greybus_messages_heap ms) (8 + n)) as [[[q mem] heap']|] eqn:Halloc.
    + eapply (alloc_block n type id status ms p mem heap b).
      * unfold heap_answer. rewrite Hu, Halloc. revert Hrun. unfold gb_message_alloc, getS, mbind, M_bind.
        change (Z.of_nat (sizeof gb_operation_msg_hdr)) with 8. rewrite Hu, Halloc.
        case_decide; [|done]. unfold putS, mret, M_ret. by intros [= -> -> _].
      * done.
      * by exists heap.
      * done.
      * done.
    + exfalso. revert Hrun. unfold gb_message_alloc, getS, mbind, M_bind.
      change (Z.of_nat (sizeof gb_operation_msg_hdr)) with 8. rewrite Hu, Halloc.
      unfold mret, M_ret. intros [= <- _]. done.
Qed.

(** A block whose payload is overwritten from its beginning. *)
Lemma msg_write_payload_copies ms p b src n :
  messages_wf ms → msg_store ms !! p = Some b → bytes src →
  0 <= n <= length (payload b) → n <= length src →
  let b' := GbMessage (header b) (take (Z.to_nat n) src ++ drop (Z.to_nat n) (payload b)) in
  msg_write_payload p src n ms = Done () (set_store (<[p := b']> (msg_store ms)) ms) ∧
  messages_wf (set_store (<[p := b']> (msg_store ms)) ms).
Proof.
  intros Hwf Hp Hsrc Hn Hl b'. assert (Hok : block_ok b) by apply (wf_blocks _ Hwf _ _ Hp). split.
  - unfold msg_write_payload. destruct (Z.eqb_spec n 0) as [->|_].
    { unfold b'. rewrite take_0, drop_0. destruct b. cbn [header payload app]. rewrite insert_id by done.
      by destruct ms. }
    step_with (msg_deref_ok ms p b Hwf Hp). by step_with (memcpy_ok (payload b) src n ms ltac:(lia) ltac:(lia)).
  - eapply messages_wf_update; [done|done|]. apply block_ok_payload; [done| |].
    + apply Forall_app_2; [by apply Forall_take|]. apply Forall_drop. apply Hok.
    + rewrite length_app, length_take, length_drop. lia.
Qed.

Lemma alloc_fill_outcome pl n type id status ms :
  messages_wf ms → bytes pl → is_u32 n → is_u8 type → is_u16 id → is_u8 status →
  fill_outcome n type id status ms pl
    ((msg ← gb_message_alloc n type id status; _ ← msg_write_payload msg pl n; mret msg) ms).
Proof.
  intros Hwf Hpl Hn Ht Hid Hst. unfold mbind, M_bind.
  pose proof (gb_message_alloc_outcome n type id status ms Hwf Hn Ht Hid Hst) as Halloc.
  destruct Halloc as [Hnone|a Hans Hbig|p mem heap b ms' Hans Hsmall Ha Hheap Hb].
  - destruct (Z.eq_dec n 0) as [->|Hne]; [by apply fill_null|].
    rewrite msg_write_payload_null by done. by apply fill_null_write.
  - by eapply fill_short.
  - destruct Ha as (heap' & Hp & Hfresh & Hwf' & ->). pose proof (fb_len _ _ _ _ _ Hb) as Hlen.
    unfold is_u32 in Hn. set (ms' := Messages _ _ _ _ _) in *.
    assert (Hlook : msg_store ms' !! p = Some b) by apply lookup_insert_eq.
    destruct (Z.le_gt_cases n (length pl)) as [Hfit|Hlong].
    + destruct (msg_write_payload_copies ms' p b pl n Hwf' Hlook Hpl ltac:(lia) Hfit) as [-> Hwf2].
      rewrite (drop_ge (payload b) (Z.to_nat n)), app_nil_r in Hwf2 |- * by lia.
      apply (fill_block n type id status ms pl p mem heap (GbMessage (header b) (take (Z.to_nat n) pl)));
        [done|done|done| |done| |done].
      * exists heap'. split; [done|]. split; [done|]. split; [done|].
        unfold ms', set_store. cbn. by rewrite insert_insert_eq.
      * destruct Hb. split; try done. cbn [payload]. rewrite length_take. lia.
    + assert (Hbad : msg_write_payload p pl n ms' = Crash OutOfBounds).
      { unfold msg_write_payload. destruct (Z.eqb_spec n 0); [lia|].
        step_with (msg_deref_ok ms' p b Hwf' Hlook). unfold memcpy, mbind, M_bind.
        rewrite decide_False by lia. done. }
      rewrite Hbad. by eapply fill_long.
Qed.

(** C38: What each operation on messages does, on any arguments of the declared widths and any
    state of the heap. Allocation: NULL if the heap is full; a write behind the block if the
    32-bit size wraps around; otherwise a fresh block with the given header and a store that
    stays well formed. The allocators that copy a payload: with a full heap NULL for an empty
    payload and a write through NULL for any other; a read behind the source if it is too short;
    otherwise the block holds the payload. Request ids run from the counter, 1 to 65535. An id
    is read from a live message's header, or is whatever 16 bits a freed one left. Freeing a
    live message removes exactly it, freeing NULL nothing, and freeing anything else is a double
    free. *)
Theorem message_operations_outcome ms p pl n type id status :
  messages_wf ms → bytes pl → is_u32 n → is_u8 type → is_u16 id → is_u8 status →
  alloc_outcome n type id status ms (gb_message_alloc n type id status ms) ∧
  fill_outcome n (Z.lor GB_OP_RESPONSE type) id status ms pl
    (gb_message_response_alloc pl n type id status ms) ∧
  fill_outcome n type 0 0 ms pl (gb_message_request_alloc pl n type true ms) ∧
  (let oid := operation_id_counter ms in
   let next := if oid =? UINT16_MAX then OPERATION_ID_START else oid + 1 in
   fill_outcome n type oid 0
     (Messages _ (greybus_messages_heap ms) (msg_store ms) next (stale_reads ms)) pl
     (gb_message_request_alloc pl n type false ms)) ∧
  match msg_store ms !! p with
  | Some b =>
      msg_operation_id p ms = Done (hdr_operation_id (header b)) ms ∧
      is_u16 (hdr_operation_id (header b)) ∧
      ∃ ms', gb_message_dealloc p ms = Done () ms' ∧ freed p ms ms'
  | None =>
      (∃ oid ms', msg_operation_id p ms = Done oid ms' ∧ is_u16 oid ∧ messages_wf ms' ∧
         stale_reads ms' = stale_reads ms ++ [p]) ∧
      gb_message_dealloc p ms = if p =? NULL then Done () ms else Crash DoubleFree
  end.
Proof.
  intros Hwf Hpl Hn Ht Hid Hst. split; [by apply gb_message_alloc_outcome|].
  split; [apply alloc_fill_outcome; try done; by apply lor_is_u8|].
  split; [by apply (alloc_fill_outcome pl n type 0 0)|]. split.
  - destruct (new_operation_id_range _ (wf_counter _ Hwf)) as [Hoid Hnext].
    set (oid := operation_id_counter ms) in *. cbv zeta.
    set (next := if oid =? _ then _ else _). set (ms0 := Messages _ _ _ next _).
    assert (Htake : take_operation_id ms = Done oid ms0).
    { unfold take_operation_id, getS, mbind, M_bind. fold oid. unfold new_operation_id in *. cbn [fst] in Hoid.
      by rewrite Hoid. }
    unfold gb_message_request_alloc. unfold mbind at 1, M_bind at 1. rewrite Htake.
    apply (alloc_fill_outcome pl n type oid 0 ms0); try done.
    + destruct Hwf. by split.
    + pose proof (wf_counter _ Hwf) as Hc. fold oid in Hc. unfold is_u16, OPERATION_ID_START, UINT16_MAX in *. lia.
  - destruct (msg_store ms !! p) as [b|] eqn:Hp.
    + destruct (wf_blocks _ Hwf p b Hp) as (Hr & _). unfold msg_operation_id, getS, mbind, M_bind. rewrite Hp.
      split; [done|]. split; [destruct (header b); apply in_range_header in Hr; tauto|].
      by eapply gb_message_dealloc_freed.
    + split.
      * unfold msg_operation_id, getS, putS, mbind, M_bind. rewrite Hp. eexists _, _. split; [done|].
        split; [apply k_heap_stale_law|]. split; [by destruct Hwf|done].
      * unfold gb_message_dealloc, getS, mbind, M_bind. destruct (p =? NULL); [done|]. by rewrite Hp.
Qed.
End Typed.
