(* ===== verification/FrameLayout.v ===== *)
(** * The payload of a Greybus frame (src/main.c)

    [struct hdlc_greybus_frame] as a C type.  The model reads a received frame
    at offsets 0, 2 and 10 and writes a sent one as [message_wire]; both are
    what the declaration says. *)

From S2P Require Import Prelude Config Protocols CTypes WireControl Kernel Messages.

#[local] Open Scope string_scope.
#[local] Open Scope Z_scope.

Definition struct_hdlc_greybus_frame : ctype := Struct true [
  ("cport", __le16);
  ("hdr", struct_gb_operation_msg_hdr);
  ("payload", Flexible __u8)].

(** A message for a cport as a value of the structure. *)
Definition header_value (h : gb_operation_msg_hdr) : cvalue :=
  VSeq [VInt (hdr_size h); VInt (hdr_operation_id h); VInt (hdr_type h); VInt (hdr_result h);
        VSeq [VInt (hdr_pad0 h); VInt (hdr_pad1 h)]].

Definition frame_value (cport : Z) (b : gb_message) : cvalue :=
  VSeq [VInt cport; header_value (header b); VSeq (map VInt (payload b))].

Lemma frame_members :
  field_offsets true [("cport", __le16); ("hdr", struct_gb_operation_msg_hdr); ("payload", Flexible __u8)]%string
  = [0; 2; 10]%nat.
Proof. reflexivity. Qed.

Lemma encode_bytes bs : bytes bs → concat (map (encode __u8) (map VInt bs)) = bs.
Proof.
  induction 1 as [|b bs Hb Hbs IH]; [done|]. cbn [map concat]. rewrite IH. cbn [encode __u8 le_bytes app].
  by rewrite (u8_id b Hb).
Qed.

(** What is sent is the structure's encoding. *)
Lemma encode_frame cport b :
  bytes (payload b) → encode struct_hdlc_greybus_frame (frame_value cport b) = message_wire cport b.
Proof.
  intros Hb. unfold message_wire, frame_value, header_value, struct_hdlc_greybus_frame.
  cbn [encode map encode_all]. rewrite encode_bytes, app_nil_r by done.
  by destruct (header b).
Qed.

Lemma int_typed w z : 0 <= z < 2 ^ (8 * Z.of_nat w) → has_type (Int w) (VInt z) = true.
Proof.
  intros Hz. cbn [has_type]. apply andb_true_iff. split; [apply Z.leb_le|apply Z.ltb_lt]; lia.
Qed.

Lemma frame_typed cport b :
  is_u16 cport → in_range (header b) → bytes (payload b) →
  has_type struct_hdlc_greybus_frame (frame_value cport b) = true.
Proof.
  intros Hc Hh Hb. destruct (header b) as [size id type result pad0 pad1] eqn:Hhd.
  apply in_range_header in Hh as (? & ? & ? & ? & ? & ?).
  assert (H16 : ∀ z, is_u16 z → has_type __le16 (VInt z) = true) by (intros; by apply int_typed).
  assert (H8 : ∀ z, is_u8 z → has_type __u8 (VInt z) = true) by (intros; by apply int_typed).
  assert (Hpl : forallb (has_type __u8) (map VInt (payload b)) = true).
  { clear Hhd. induction Hb as [|x l Hx Hl IH]; [done|]. cbn [map forallb]. by rewrite H8, IH. }
  unfold frame_value, header_value, struct_hdlc_greybus_frame, struct_gb_operation_msg_hdr.
  rewrite Hhd. cbn [hdr_size hdr_operation_id hdr_type hdr_result hdr_pad0 hdr_pad1].
  cbn -[__le16 __u8]. change (has_type (Int 1)) with (has_type __u8). by rewrite Hpl, !H16, !H8.
Qed.

(** A frame's payload is the encoding of the declared structure, and is decoded
    as it, with the cport, the header and the payload as its members. *)
Theorem hdlc_greybus_frame_declared cport b :
  is_u16 cport → in_range (header b) → bytes (payload b) →
  encode struct_hdlc_greybus_frame (frame_value cport b) = message_wire cport b ∧
  decode struct_hdlc_greybus_frame (message_wire cport b) = Some (frame_value cport b, []).
Proof.
  intros Hc Hh Hb. pose proof (encode_frame cport b Hb) as Henc. split; [done|]. rewrite <-Henc.
  rewrite <-(app_nil_r (encode _ _)). apply decode_encode; [done|by apply frame_typed|by right].
Qed.
