(* ===== verification/Interfaces.v ===== *)
(** * Greybus interfaces (include/greybus_interfaces.h, src/greybus_interfaces.c)

    An interface is a record of callbacks.  The SVC's and the local node's are
    static objects (src/svc.c, src/local_node.c); those of remote nodes come
    from a memory slab. *)

From S2P Require Import Prelude Config Kernel.

Definition AP_INF_ID : Z := 1.
Definition AP_SVC_CPORT_ID : Z := 0.
Definition SVC_INF_ID : Z := 0.
Definition LOCAL_NODE_ID : Z := 2.
Definition INTERFACE_ID_START : Z := 3.
Definition UINT8_MAX : Z := 0xff.

Definition MAX_GREYBUS_INTERFACES `{Config} : Z := CONFIG_BEAGLEPLAY_GREYBUS_MAX_INTERFACES.

(** ** Data *)

(** The functions stored in the callback fields. *)
Inductive write_cb := svc_inf_write_cb | local_intf_write_cb | node_inf_write_cb.
Inductive create_cb := svc_create_cb | local_create_cb | node_create_cb.
Inductive destroy_cb := svc_destroy_cb | local_destroy_cb | node_destroy_cb.

(** A [struct gb_interface *]: NULL, one of the static objects, or a slab block. *)
Inductive intf_ptr := NullIntf | SvcIntf | LocalIntf | SlabIntf (p : Z).

#[export] Instance intf_ptr_eq_dec : EqDecision intf_ptr.
Proof. solve_decision. Defined.

Record gb_interface := GbInterface {
  id : Z;
  write : write_cb;
  create_connection : create_cb;
  destroy_connection : destroy_cb;
  (** The address of the [struct node_control_data], 0 for NULL. *)
  ctrl_data : Z;
}.

(** [static struct gb_interface intf] of src/svc.c *)
Definition svc_intf : gb_interface :=
  GbInterface SVC_INF_ID svc_inf_write_cb svc_create_cb svc_destroy_cb 0.

(** [static struct gb_interface intf] of src/local_node.c *)
Definition local_intf : gb_interface :=
  GbInterface LOCAL_NODE_ID local_intf_write_cb local_create_cb local_destroy_cb 0.

Definition local_node_interface : intf_ptr := LocalIntf.

(** ** State and operations *)

Record interfaces `{KSlab} := Interfaces {
  gb_interface_slab : kslab;
  intf_store : gmap Z gb_interface;
  interface_id_counter : Z;
}.

(** The id and the new value of [interface_id_counter]. *)
Definition new_interface_id (counter : Z) : Z * Z :=
  let temp := counter in
  let counter := counter + 1 in
  (u8 temp, if temp =? UINT8_MAX then INTERFACE_ID_START else counter).

Section Interfaces.
Context `{KSlab}.

(** [*intf] *)
Definition intf_deref (p : intf_ptr) : M interfaces gb_interface :=
  match p with
  | NullIntf => crash NullDeref
  | SvcIntf => mret svc_intf
  | LocalIntf => mret local_intf
  | SlabIntf p =>
      s ← getS;
      match intf_store s !! p with
      | Some intf => mret intf
      | None => crash UseAfterFree
      end
  end.

Definition gb_interface_alloc (write : write_cb) (create : create_cb) (destroy : destroy_cb)
    (ctrl_data : Z) : M interfaces intf_ptr :=
  s ← getS;
  block ← slab_alloc (gb_interface_slab s);
  match block with
  | None => mret NullIntf
  | Some (p, slab) =>
      let '(id, counter) := new_interface_id (interface_id_counter s) in
      let intf := GbInterface id write create destroy ctrl_data in
      _ ← putS (Interfaces _ slab (<[p := intf]> (intf_store s)) counter);
      mret (SlabIntf p)
  end.

(** [k_mem_slab_free(&gb_interface_slab, &intf)]: what is freed is the
    address of the parameter, whatever it points to. *)
Definition gb_interface_dealloc (intf : intf_ptr) : M interfaces () :=
  modS (λ s, Interfaces _ (k_mem_slab_free (gb_interface_slab s) LocalVariable)
               (intf_store s) (interface_id_counter s)).
End Interfaces.

(** ** The sequence of interface ids *)

Lemma new_interface_id_range counter :
  INTERFACE_ID_START <= counter <= UINT8_MAX →
  fst (new_interface_id counter) = counter ∧
  INTERFACE_ID_START <= snd (new_interface_id counter) <= UINT8_MAX.
Proof.
  unfold new_interface_id, INTERFACE_ID_START, UINT8_MAX. intros Hc. cbn [fst snd].
  split; [apply u8_id; unfold is_u8; lia|]. destruct (Z.eqb_spec counter 0xff); lia.
Qed.

(** The ids that the next [n] interfaces get. *)
Fixpoint next_ids (n : nat) (counter : Z) : list Z :=
  match n with
  | O => []
  | S n => fst (new_interface_id counter) :: next_ids n (snd (new_interface_id counter))
  end.

Definition nth_interface_id (n : nat) : Z :=
  fst (new_interface_id (Nat.iter n (λ c, snd (new_interface_id c)) INTERFACE_ID_START)).

Lemma interface_counter_iter n :
  Nat.iter n (λ c, snd (new_interface_id c)) INTERFACE_ID_START = 3 + n mod 253.
Proof.
  induction n as [|n IH]; [done|]. rewrite Nat.iter_succ, IH.
  unfold new_interface_id, UINT8_MAX, INTERFACE_ID_START. cbn [snd].
  destruct (Z.eqb_spec (3 + n mod 253) 0xff); Z.div_mod_to_equations; lia.
Qed.

(** Called one at a time, new_interface_id runs through 3 to 255 and starts over, never
    giving out the ids of the SVC, the AP and the local node. *)
Theorem nth_interface_id_cycle n :
  nth_interface_id n = 3 + n mod 253 ∧
  nth_interface_id n ∉ [SVC_INF_ID; AP_INF_ID; LOCAL_NODE_ID].
Proof.
  unfold nth_interface_id. rewrite interface_counter_iter.
  assert (0 <= n mod 253 < 253) by (apply Z.mod_pos_bound; lia).
  destruct (new_interface_id_range (3 + n mod 253)) as [-> _];
    [unfold INTERFACE_ID_START, UINT8_MAX; lia|].
  split; [done|]. rewrite !elem_of_cons, elem_of_nil.
  unfold SVC_INF_ID, AP_INF_ID, LOCAL_NODE_ID. lia.
Qed.

(** ** Invariant *)

Record interfaces_wf `{KSlab} (s : interfaces) : Prop := {
  iwf_live : dom (intf_store s) = slab_live (gb_interface_slab s);
  iwf_ids : map_Forall (λ _ i, INTERFACE_ID_START <= id i <= UINT8_MAX) (intf_store s);
  iwf_counter : INTERFACE_ID_START <= interface_id_counter s <= UINT8_MAX;
}.

Section Facts.
Context `{KSlab, !KSlabLaws}.

Lemma gb_interface_alloc_stray s w c d ctrl :
  slab_stray (gb_interface_slab s) = true → gb_interface_alloc w c d ctrl s = Crash StackBlock.
Proof. intros Hs. unfold gb_interface_alloc, slab_alloc, getS, mbind, M_bind. by rewrite Hs. Qed.

Lemma gb_interface_alloc_spec s w c d ctrl :
  interfaces_wf s → slab_stray (gb_interface_slab s) = false →
  wp (gb_interface_alloc w c d ctrl)
    (λ r s', (r = NullIntf ∧ s' = s ∧ slab_blocks (gb_interface_slab s) <= size (intf_store s)) ∨
      ∃ p slab, r = SlabIntf p ∧ intf_store s !! p = None ∧ interfaces_wf s' ∧
        slab_blocks slab = slab_blocks (gb_interface_slab s) ∧ slab_stray slab = false ∧
        s' = Interfaces _ slab
               (<[p := GbInterface (interface_id_counter s) w c d ctrl]> (intf_store s))
               (snd (new_interface_id (interface_id_counter s)))) s.
Proof.
  intros [Hlive Hids Hctr] Hstray. unfold gb_interface_alloc, slab_alloc, wp, getS, mbind, M_bind, mret, M_ret.
  rewrite Hstray. destruct (k_mem_slab_alloc _) as [[p slab]|] eqn:Halloc; cycle 1.
  { left. apply slab_alloc_none_law in Halloc; [|done]. rewrite <-Hlive, size_dom in Halloc. done. }
  apply slab_alloc_law in Halloc as (Hp & Hfresh & Hlive' & Hblocks & _ & Hstray' & _); [|done].
  destruct (new_interface_id_range _ Hctr) as [Hid Hctr'].
  destruct (new_interface_id _) as [i c'] eqn:Hnew. cbn in Hid, Hctr'. subst i. right.
  exists p, slab. split; [done|]. split; [by apply not_elem_of_dom; rewrite Hlive|].
  split; [|done]. split; cbn; [| |done].
  - by rewrite dom_insert_L, Hlive, Hlive'.
  - by apply map_Forall_insert_2.
Qed.

(** No interface is freed. *)
Lemma gb_interface_dealloc_spec s intf :
  interfaces_wf s →
  ∃ slab, gb_interface_dealloc intf s
          = Done () (Interfaces _ slab (intf_store s) (interface_id_counter s))
        ∧ interfaces_wf (Interfaces _ slab (intf_store s) (interface_id_counter s))
        ∧ slab_stray slab = true.
Proof.
  intros [Hlive Hids Hctr]. destruct (slab_free_local_law (gb_interface_slab s)) as [Hl Hs].
  eexists. split; [done|]. split; [|done]. split; cbn; [by rewrite Hl|done..].
Qed.
End Facts.
