(* ===== verification/IdCounter.v ===== *)
(** * Id counters under preemption

    [new_operation_id] and [new_interface_id] read and advance their counter
    with [atomic_inc] and wrap it with a separate [atomic_set].  Threads that
    run the function at once are interleaved at these two accesses. *)

From S2P Require Import Prelude Messages Interfaces.

Section Race.
(** The first id, the last id and the width the id is returned at:
    [OPERATION_ID_START], [UINT16_MAX], [u16], or [INTERFACE_ID_START],
    [UINT8_MAX], [u8]. *)
Variables (start last : Z) (narrow : Z → Z).

(** Where a thread is in the function. *)
Inductive pc :=
| before_inc              (** about to run [temp = atomic_inc(&counter)] *)
| after_inc (temp : Z)    (** about to test [temp] and reset the counter *)
| returned (value : Z).

Record race_state := Race { counter : Z; threads : list pc }.

Inductive race_step : race_state → race_state → Prop :=
| race_inc c ts i :
    ts !! i = Some before_inc →
    race_step (Race c ts) (Race (c + 1) (<[i := after_inc c]> ts))
| race_wrap c ts i temp :
    ts !! i = Some (after_inc temp) → temp = last →
    race_step (Race c ts) (Race start (<[i := returned (narrow temp)]> ts))
| race_return c ts i temp :
    ts !! i = Some (after_inc temp) → temp ≠ last →
    race_step (Race c ts) (Race c (<[i := returned (narrow temp)]> ts)).

(** One thread at a time computes [new_operation_id]/[new_interface_id]. *)
Lemma race_sequential c :
  rtc race_step (Race c [before_inc])
    (Race (if c =? last then start else c + 1) [returned (narrow c)]).
Proof.
  eapply rtc_l; [by apply (race_inc _ _ 0)|]. cbn. apply rtc_once.
  destruct (Z.eqb_spec c last) as [->|Hne].
  - by apply (race_wrap _ [after_inc last] 0 last).
  - by apply (race_return _ [after_inc c] 0 c).
Qed.

(** A thread preempted at the wrap lets the next one run past the last id. *)
Lemma race_past_last :
  rtc race_step (Race last [before_inc; before_inc])
    (Race start [returned (narrow last); returned (narrow (last + 1))]).
Proof.
  eapply rtc_l; [by apply (race_inc _ _ 0)|]. cbn.
  eapply rtc_l; [by apply (race_inc _ _ 1)|]. cbn.
  eapply rtc_l; [apply (race_return _ [after_inc last; after_inc (last + 1)] 1 (last + 1)); [done|lia]|].
  apply rtc_once. by apply (race_wrap _ [after_inc last; returned (narrow (last + 1))] 0 last).
Qed.
End Race.

(** Two threads that take an operation id at the wrap-around can interleave so that one of
    them gets 0, the id of requests without a response. *)
Theorem operation_id_race :
  rtc (race_step OPERATION_ID_START UINT16_MAX u16)
    (Race UINT16_MAX [before_inc; before_inc])
    (Race OPERATION_ID_START [returned UINT16_MAX; returned 0]).
Proof. apply (race_past_last OPERATION_ID_START UINT16_MAX u16). Qed.

(** Two threads that take an interface id at the wrap-around can interleave so that a node
    gets 0, the SVC's id. *)
Theorem interface_id_race :
  rtc (race_step INTERFACE_ID_START UINT8_MAX u8)
    (Race UINT8_MAX [before_inc; before_inc])
    (Race INTERFACE_ID_START [returned UINT8_MAX; returned SVC_INF_ID]).
Proof. apply (race_past_last INTERFACE_ID_START UINT8_MAX u8). Qed.
