(* ===== verification/NodeCache.v ===== *)
(** * The node cache (src/node.c)

    A fixed array of which the first [node_cache_pos] entries are in use.  It
    implements a finite map from interface ids to nodes ([cache_map]). *)

From S2P Require Import Prelude Config Kernel Interfaces.

Definition MAX_GREYBUS_NODES `{Config} : Z := CONFIG_BEAGLEPLAY_GREYBUS_MAX_NODES.

Record node_item := NodeItem {
  ni_sock : Z;
  ni_id : Z;
  ni_addr : list Z;
  ni_inf : intf_ptr;
  ni_fail_count : Z;
}.

#[export] Instance node_item_eq_dec : EqDecision node_item.
Proof. solve_decision. Defined.

Record node_cache := NodeCache { nc_items : list node_item; node_cache_pos : Z }.

(** [net_ipv6_addr_cmp] *)
Definition net_ipv6_addr_cmp (a b : list Z) : bool := bool_decide (a = b).

(** The loop [for (i = 0; i < node_cache_pos; ++i) if (test) return i;] with
    [n] iterations left, and the [return -1] after it. *)
Fixpoint find_from (test : node_item → bool) (n : nat) (i : Z) : M node_cache Z :=
  match n with
  | O => mret (-1)
  | S n =>
      c ← getS;
      it ← array_get (nc_items c) i;
      if test it then mret i else find_from test n (i + 1)
  end.

Definition find_loop (test : node_item → bool) : M node_cache Z :=
  c ← getS; find_from test (Z.to_nat (node_cache_pos c)) 0.

Definition node_cache_find_by_addr (addr : list Z) : M node_cache Z :=
  find_loop (λ it, net_ipv6_addr_cmp (ni_addr it) addr).

Definition node_cache_find_by_sock (sock : Z) : M node_cache Z :=
  find_loop (λ it, ni_sock it =? sock).

Definition node_cache_find_by_id (id : Z) : M node_cache Z :=
  find_loop (λ it, ni_id it =? id).

Definition node_cache_add `{Config} (sock id : Z) (addr : list Z) (intf : intf_ptr)
    : M node_cache Z :=
  c ← getS;
  if MAX_GREYBUS_NODES <=? node_cache_pos c then mret (- ENOMEM)
  else
    items ← array_set (nc_items c) (node_cache_pos c) (NodeItem sock id addr intf 0);
    _ ← putS (NodeCache items (node_cache_pos c + 1));
    mret 0.

Definition node_cache_remove_at (pos : Z) : M node_cache () :=
  c ← getS;
  let last := u32 (node_cache_pos c - 1) in
  if pos =? last then putS (NodeCache (nc_items c) last)
  else
    it ← array_get (nc_items c) last;
    items ← array_set (nc_items c) pos it;
    putS (NodeCache items last).

Definition node_cache_remove_by_id (id : Z) : M node_cache Z :=
  ret ← node_cache_find_by_id id;
  _ ← (if 0 <=? ret then node_cache_remove_at ret else mret ());
  mret ret.

(** [node_cache[i]] *)
Definition node_cache_at (i : Z) : M node_cache node_item :=
  c ← getS; array_get (nc_items c) i.

(** [node_cache[i].sock = sock] *)
Definition node_cache_set_sock (i sock : Z) : M node_cache () :=
  c ← getS;
  it ← array_get (nc_items c) i;
  items ← array_set (nc_items c) i
    (NodeItem sock (ni_id it) (ni_addr it) (ni_inf it) (ni_fail_count it));
  putS (NodeCache items (node_cache_pos c)).

(** ** The entries in use *)

Definition entries (c : node_cache) : list node_item :=
  take (Z.to_nat (node_cache_pos c)) (nc_items c).

Record cache_wf `{Config} (c : node_cache) : Prop := {
  cwf_array : (length (nc_items c) : Z) = MAX_GREYBUS_NODES;
  cwf_pos : 0 <= node_cache_pos c <= MAX_GREYBUS_NODES;
  cwf_ids : NoDup (ni_id <$> entries c);
}.

(** The map the array implements. *)
Definition cache_map (c : node_cache) : gmap Z node_item :=
  list_to_map ((λ it, (ni_id it, it)) <$> entries c).

(** The index of the first entry that passes the test, -1 when there is none. *)
Definition find_index (test : node_item → bool) (l : list node_item) : Z :=
  match list_find test l with Some (i, _) => i | None => -1 end.

Section Facts.
Context `{Config, !ConfigOk _}.

Lemma length_entries c : cache_wf c → (length (entries c) : Z) = node_cache_pos c.
Proof. intros []. unfold entries. rewrite length_take. lia. Qed.

Lemma entries_lookup c (i : nat) it :
  cache_wf c → entries c !! i = Some it → nc_items c !! i = Some it ∧ i < node_cache_pos c.
Proof.
  intros Hwf Hi. split.
  - unfold entries in Hi. rewrite lookup_take in Hi. by case_decide.
  - apply lookup_lt_Some in Hi. pose proof (length_entries c Hwf). lia.
Qed.

Lemma find_from_spec test c n (i : nat) :
  cache_wf c → (i + n)%nat = length (entries c) →
  find_from test n i c
  = Done (match list_find test (drop i (entries c)) with
          | Some (j, _) => (i + j)%nat : Z | None => -1 end) c.
Proof.
  intros Hwf. revert i. induction n as [|n IH]; intros i Hi; cbn [find_from].
  { by rewrite drop_ge by lia. }
  destruct (lookup_lt_is_Some_2 (entries c) i) as [it Hit]; [lia|].
  destruct (entries_lookup c i it Hwf Hit) as [Harr _].
  rewrite (drop_S _ _ _ Hit). cbn [list_find]. unfold getS, mbind at 1, M_bind at 1.
  rewrite <-(Nat2Z.id i) in Harr. step_with (array_get_ok (nc_items c) i it c ltac:(lia) Harr).
  destruct (test it) eqn:Ht.
  - rewrite decide_True by done. cbn. by rewrite Nat.add_0_r.
  - rewrite decide_False by (by intros []). replace (i + 1) with (Z.of_nat (S i)) by lia. rewrite IH by lia.
    destruct (list_find test (drop (S i) (entries c))) as [[j x]|]; cbn; [|done].
    do 2 f_equal. lia.
Qed.

(** The search loops run inside the array and find the first match. *)
Lemma find_loop_spec test c :
  cache_wf c → find_loop test c = Done (find_index test (entries c)) c.
Proof.
  intros Hwf. unfold find_loop, getS, mbind, M_bind.
  pose proof (length_entries c Hwf).
  pose proof (find_from_spec test c (Z.to_nat (node_cache_pos c)) 0 Hwf ltac:(lia)) as Hfind.
  change (Z.of_nat 0) with 0 in Hfind. rewrite Hfind, drop_0.
  unfold find_index. by destruct (list_find test (entries c)) as [[]|].
Qed.

Lemma find_index_range test l :
  find_index test l = -1 ∨
  ∃ i it, find_index test l = Z.of_nat i ∧ l !! i = Some it ∧ test it = true ∧
          ∀ j it', l !! j = Some it' → (j < i)%nat → test it' = false.
Proof.
  unfold find_index. destruct (list_find test l) as [[i it]|] eqn:Hf; [right|by left].
  apply list_find_Some in Hf as (Hi & Ht & Hfirst). exists i, it.
  repeat split; [done|by apply Is_true_true|].
  intros j it' Hj Hlt. specialize (Hfirst j it' Hj Hlt).
  by destruct (test it').
Qed.

Lemma find_index_none test l :
  find_index test l = -1 ↔ Forall (λ it, test it = false) l.
Proof.
  unfold find_index. destruct (list_find test l) as [[i it]|] eqn:Hf.
  - split; [lia|]. apply list_find_Some in Hf as (Hi & Ht & _). rewrite Forall_lookup.
    intros Hall. specialize (Hall i it Hi). by rewrite Hall in Ht.
  - split; [|done]. intros _. apply list_find_None in Hf. eapply Forall_impl; [done|].
    intros it Ht. cbn in Ht. by destruct (test it).
Qed.

(** *** Removal moves the last entry into the hole *)

Definition swap_remove (i : nat) (l : list node_item) : list node_item :=
  take (length l - 1) (match last l with Some x => <[i := x]> l | None => l end).

Lemma swap_remove_perm i l it : l !! i = Some it → it :: swap_remove i l ≡ₚ l.
Proof.
  intros Hi. unfold swap_remove. destruct l as [|x l _] using rev_ind; [done|].
  rewrite last_snoc, length_app, Nat.add_sub.
  destruct (decide (i < length l)%nat) as [Hlt|Hge].
  - rewrite lookup_app_l in Hi by done. apply list_elem_of_split_length in Hi as (l1 & l2 & -> & ->).
    rewrite insert_app_l, take_app_length' by (rewrite ?length_insert; done).
    rewrite insert_app_r_alt, Nat.sub_diag by lia. cbn. solve_Permutation.
  - apply lookup_lt_Some in Hi as Hlen. rewrite length_app in Hlen. cbn in Hlen.
    assert (i = length l) as -> by lia. rewrite list_lookup_middle in Hi by done.
    injection Hi as ->. rewrite list_insert_id by (by rewrite list_lookup_middle).
    rewrite take_app_length. solve_Permutation.
Qed.

Lemma length_swap_remove i l : length (swap_remove i l) = (length l - 1)%nat.
Proof.
  unfold swap_remove. destruct (last l); rewrite length_take, ?length_insert; lia.
Qed.

Lemma node_cache_remove_at_run c (i : nat) x :
  cache_wf c → (i < length (entries c))%nat → last (entries c) = Some x →
  node_cache_remove_at i c = Done () (NodeCache (<[i := x]> (nc_items c)) (node_cache_pos c - 1)).
Proof.
  intros Hwf Hi Hlast. pose proof (length_entries c Hwf) as Hlen. pose proof max_nodes_ok.
  rewrite last_lookup in Hlast. replace (pred _) with (length (entries c) - 1)%nat in Hlast by lia.
  destruct (entries_lookup c _ x Hwf Hlast) as [Hx' _].
  destruct Hwf as [Harr Hpos Hids]. unfold MAX_GREYBUS_NODES in *.
  assert (u32 (node_cache_pos c - 1) = node_cache_pos c - 1) as Hu.
  { apply u32_id. unfold is_u32. lia. }
  unfold node_cache_remove_at, getS, mbind at 1, M_bind at 1. rewrite Hu.
  destruct (Z.eqb_spec i (node_cache_pos c - 1)) as [He|Hne].
  - assert (i = length (entries c) - 1)%nat as Hi' by lia. by rewrite list_insert_id by (by rewrite Hi').
  - step_with (array_get_ok (nc_items c) (node_cache_pos c - 1) x c ltac:(lia)
      ltac:(by replace (Z.to_nat _) with (length (entries c) - 1)%nat by lia)).
    step_with (array_set_ok (nc_items c) i x c ltac:(lia)). by rewrite Nat2Z.id.
Qed.

Lemma node_cache_remove_at_spec c (i : nat) it :
  cache_wf c → entries c !! i = Some it →
  ∃ c', node_cache_remove_at i c = Done () c' ∧ cache_wf c' ∧
        entries c' = swap_remove i (entries c).
Proof.
  intros Hwf Hi. pose proof (length_entries c Hwf) as Hlen. pose proof (lookup_lt_Some _ _ _ Hi) as Hlt.
  pose proof max_nodes_ok. destruct (last (entries c)) as [x|] eqn:Hlast; cycle 1.
  { apply last_None in Hlast. rewrite Hlast in Hlt. cbn in Hlt. lia. }
  pose proof (node_cache_remove_at_run c i x Hwf Hlt Hlast) as Hrun.
  destruct Hwf as [Harr Hpos Hids]. unfold MAX_GREYBUS_NODES in *.
  set (c' := NodeCache (<[i := x]> (nc_items c)) (node_cache_pos c - 1)) in *.
  assert (Hent : entries c' = swap_remove i (entries c)).
  { unfold entries at 1, swap_remove, c'. cbn [nc_items node_cache_pos]. rewrite Hlast.
    unfold entries at 2. rewrite <-take_insert_lt by lia. rewrite take_take. f_equal. lia. }
  exists c'. split; [done|]. split; [|done]. split; cbn [c' nc_items node_cache_pos].
  - by rewrite length_insert.
  - unfold MAX_GREYBUS_NODES. lia.
  - rewrite Hent. rewrite <-(swap_remove_perm i (entries c) it Hi) in Hids.
    by apply NoDup_cons in Hids as [_ ?].
Qed.

(** *** The cache as a map *)

Lemma keyed_fst (l : list node_item) :
  ((λ it, (ni_id it, it)) <$> l).*1 = ni_id <$> l.
Proof. induction l; cbn; congruence. Qed.

Lemma cache_map_perm c l :
  NoDup (ni_id <$> entries c) → entries c ≡ₚ l →
  cache_map c = list_to_map ((λ it, (ni_id it, it)) <$> l).
Proof.
  intros Hnd Hp. unfold cache_map. apply list_to_map_proper; [|by rewrite Hp].
  by rewrite keyed_fst.
Qed.

Lemma cache_map_lookup c id it :
  cache_wf c → cache_map c !! id = Some it ↔ it ∈ entries c ∧ ni_id it = id.
Proof.
  intros Hwf. unfold cache_map. rewrite <-elem_of_list_to_map.
  - rewrite list_elem_of_fmap. split; [intros (? & [= -> ->] & ?)|intros [? <-]]; eauto.
  - rewrite keyed_fst. apply Hwf.
Qed.

Lemma cache_map_lookup_None c id :
  cache_map c !! id = None ↔ Forall (λ it, (ni_id it =? id) = false) (entries c).
Proof.
  unfold cache_map. rewrite <-not_elem_of_list_to_map, keyed_fst, Forall_forall.
  rewrite list_elem_of_fmap. split.
  - intros Hn it Hit. apply Z.eqb_neq. intros <-. apply Hn. by exists it.
  - intros Hall (it & -> & Hit). specialize (Hall it Hit). cbn in Hall. by rewrite Z.eqb_refl in Hall.
Qed.

(** Looking an id up in the node cache is a lookup in the finite map the cache represents:
    the index of the node with that id, or -1. *)
Theorem node_cache_find_by_id_map c id :
  cache_wf c →
  ∃ ret, node_cache_find_by_id id c = Done ret c ∧
    match cache_map c !! id with
    | Some it => 0 <= ret < node_cache_pos c ∧ node_cache_at ret c = Done it c
    | None => ret = -1
    end.
Proof.
  intros Hwf. unfold node_cache_find_by_id. rewrite find_loop_spec by done.
  eexists; split; [done|].
  destruct (find_index_range (λ it, ni_id it =? id) (entries c))
    as [Hm|(i & it & Hf & Hi & Ht%Z.eqb_eq & _)].
  - pose proof Hm as Hn. apply find_index_none in Hn. apply cache_map_lookup_None in Hn.
    by rewrite Hn.
  - rewrite Hf. rewrite (proj2 (cache_map_lookup c id it Hwf)).
    + destruct (entries_lookup c i it Hwf Hi) as [Hi' Hlt]. split; [lia|].
      unfold node_cache_at, getS, mbind, M_bind.
      apply array_get_ok; [lia|]. by rewrite Nat2Z.id.
    + split; [|done]. by eapply list_elem_of_lookup_2.
Qed.

(** The id of an entry is found at its index. *)
Lemma find_by_id_at c (i : nat) it :
  cache_wf c → entries c !! i = Some it → find_index (λ it', ni_id it' =? ni_id it) (entries c) = i.
Proof.
  intros Hwf Hi. destruct (find_index_range (λ it', ni_id it' =? ni_id it) (entries c))
    as [Hm|(j & it' & Hf & Hj & Ht%Z.eqb_eq & _)].
  - apply find_index_none in Hm. rewrite Forall_forall in Hm. apply list_elem_of_lookup_2 in Hi.
    specialize (Hm it Hi). by rewrite Z.eqb_refl in Hm.
  - rewrite Hf. f_equal. pose proof (cwf_ids _ Hwf) as Hnd.
    apply (NoDup_lookup _ j i (ni_id it) Hnd); rewrite list_lookup_fmap; [by rewrite Hj, <-Ht|by rewrite Hi].
Qed.

(** Removing an id from the node cache, which moves the last entry into the gap, is
    deletion from the map it represents, and reports whether the id was there. *)
Theorem node_cache_remove_by_id_map c id :
  cache_wf c →
  ∃ ret c', node_cache_remove_by_id id c = Done ret c' ∧ cache_wf c' ∧
    cache_map c' = delete id (cache_map c) ∧
    (0 <= ret ↔ is_Some (cache_map c !! id)).
Proof.
  intros Hwf. unfold node_cache_remove_by_id, node_cache_find_by_id.
  step_with (find_loop_spec (λ it, ni_id it =? id) c Hwf).
  destruct (find_index_range (λ it, ni_id it =? id) (entries c))
    as [Hm|(i & it & Hf & Hi & Ht%Z.eqb_eq & _)].
  - exists (-1), c. rewrite Hm. cbn. split; [done|]. split; [done|].
    apply find_index_none, cache_map_lookup_None in Hm. rewrite delete_id by done.
    split; [done|]. rewrite Hm. split; [lia|by intros []].
  - rewrite Hf. destruct (Z.leb_spec 0 i); [|lia].
    destruct (node_cache_remove_at_spec c i it Hwf Hi) as (c' & Hrun & Hwf' & Hent).
    exists i, c'. step_with Hrun. split; [done|]. split; [done|].
    pose proof (swap_remove_perm i (entries c) it Hi) as Hperm. rewrite <-Hent in Hperm.
    assert (Hin : cache_map c !! id = Some it).
    { apply cache_map_lookup; [done|]. split; [|done]. by eapply list_elem_of_lookup_2. }
    split; [|rewrite Hin; split; [done|lia]].
    rewrite (cache_map_perm c (it :: entries c')) by (done || apply Hwf).
    rewrite fmap_cons, list_to_map_cons, Ht. symmetry. apply delete_insert_id.
    apply cache_map_lookup_None. rewrite Forall_forall. intros it' Hit'. apply Z.eqb_neq.
    pose proof (cwf_ids _ Hwf) as Hnd. rewrite <-Hperm in Hnd.
    apply NoDup_cons in Hnd as [Hnot _]. intros He. apply Hnot. rewrite Ht, <-He.
    by apply list_elem_of_fmap_2.
Qed.

Lemma node_cache_add_spec c sock id addr intf :
  cache_wf c → cache_map c !! id = None →
  ∃ ret c', node_cache_add sock id addr intf c = Done ret c' ∧ cache_wf c' ∧
    if MAX_GREYBUS_NODES <=? node_cache_pos c
    then ret = - ENOMEM ∧ c' = c
    else ret = 0 ∧ cache_map c' = <[id := NodeItem sock id addr intf 0]> (cache_map c) ∧
         entries c' = entries c ++ [NodeItem sock id addr intf 0].
Proof.
  intros Hwf Hnone. unfold node_cache_add, getS, mbind at 1, M_bind at 1.
  destruct (Z.leb_spec MAX_GREYBUS_NODES (node_cache_pos c)) as [Hfull|Hroom].
  { by exists (- ENOMEM), c. }
  pose proof (cwf_array _ Hwf). pose proof (cwf_pos _ Hwf).
  step_with (array_set_ok (nc_items c) (node_cache_pos c) (NodeItem sock id addr intf 0) c ltac:(lia)).
  set (it := NodeItem _ _ _ _ _). set (c' := NodeCache _ _).
  assert (Hent : entries c' = entries c ++ [it]).
  { unfold entries, c'. cbn [nc_items node_cache_pos].
    replace (Z.to_nat (node_cache_pos c + 1)) with (S (Z.to_nat (node_cache_pos c))) by lia.
    erewrite take_S_r by (apply list_lookup_insert_eq; lia). by rewrite take_insert_ge by lia. }
  assert (Hnd : NoDup (ni_id <$> entries c')).
  { rewrite Hent, fmap_app. apply NoDup_app. split; [apply Hwf|]. split.
    - intros x (it' & -> & Hit')%list_elem_of_fmap Hx%list_elem_of_singleton.
      apply cache_map_lookup_None in Hnone. rewrite Forall_forall in Hnone.
      specialize (Hnone it' Hit'). by apply Z.eqb_neq in Hnone.
    - apply NoDup_singleton. }
  exists 0, c'. split; [done|]. split; [|split; [done|split; [|done]]].
  - split; [..|done]; unfold c'; cbn [nc_items node_cache_pos]; rewrite ?length_insert; lia.
  - rewrite (cache_map_perm c' (it :: entries c)); [done..|].
    rewrite Hent. solve_Permutation.
Qed.

(** *** Updating a socket *)

Definition with_sock (sock : Z) (it : node_item) : node_item :=
  NodeItem sock (ni_id it) (ni_addr it) (ni_inf it) (ni_fail_count it).

Lemma node_cache_set_sock_spec c (i : nat) it sock :
  cache_wf c → entries c !! i = Some it →
  ∃ c', node_cache_set_sock i sock c = Done () c' ∧ cache_wf c' ∧
    entries c' = <[i := with_sock sock it]> (entries c).
Proof.
  intros Hwf Hi. destruct (entries_lookup c i it Hwf Hi) as [Hi' Hlt].
  pose proof (cwf_array _ Hwf). pose proof (cwf_pos _ Hwf).
  unfold node_cache_set_sock, getS, mbind at 1, M_bind at 1.
  step_with (array_get_ok (nc_items c) i it c ltac:(lia) ltac:(by rewrite Nat2Z.id)).
  fold (with_sock sock it).
  step_with (array_set_ok (nc_items c) i (with_sock sock it) c ltac:(lia)). rewrite Nat2Z.id.
  set (c' := NodeCache _ _). exists c'. split; [done|].
  assert (Hent : entries c' = <[i := with_sock sock it]> (entries c)).
  { unfold entries, c'. cbn [nc_items node_cache_pos]. by rewrite take_insert_lt by lia. }
  split; [|done]. split; [| |].
  - unfold c'. cbn [nc_items]. by rewrite length_insert.
  - done.
  - rewrite Hent, list_fmap_insert. rewrite list_insert_id; [apply Hwf|].
    cbn [with_sock ni_id]. by rewrite list_lookup_fmap, Hi.
Qed.

(** The position [node_cache_find_by_id] returns. *)
Lemma node_cache_find_by_id_entry c it :
  cache_wf c → it ∈ entries c →
  ∃ i : nat, node_cache_find_by_id (ni_id it) c = Done (i : Z) c ∧ entries c !! i = Some it ∧
    node_cache_at i c = Done it c.
Proof.
  intros Hwf Hit. unfold node_cache_find_by_id. rewrite find_loop_spec by done.
  destruct (find_index_range (λ x, ni_id x =? ni_id it) (entries c))
    as [Hm|(i & x & Hf & Hi & Ht%Z.eqb_eq & _)].
  { apply find_index_none in Hm. rewrite Forall_forall in Hm. specialize (Hm it Hit).
    cbn in Hm. by rewrite Z.eqb_refl in Hm. }
  assert (x = it) as ->.
  { apply list_elem_of_lookup_2 in Hi as Hx.
    pose proof (proj2 (cache_map_lookup c (ni_id x) x Hwf) (conj Hx eq_refl)) as Hl1.
    pose proof (proj2 (cache_map_lookup c (ni_id it) it Hwf) (conj Hit eq_refl)) as Hl2.
    rewrite Ht in Hl1. congruence. }
  exists i. rewrite Hf. split; [done|]. split; [done|].
  destruct (entries_lookup c i it Hwf Hi) as [Hi' _].
  unfold node_cache_at, getS, mbind, M_bind. apply array_get_ok; [lia|by rewrite Nat2Z.id].
Qed.
End Facts.
