(* ===== verification/CacheRace.v ===== *)
(** * The node cache under preemption (src/node.c)

    [node_cache_add] runs on the discovery thread, [node_cache_remove_by_id] on
    the receive thread and in the work item that handles control frames; nothing
    keeps one from running in the middle of the other.  Here the statements of
    [node_cache_add] are steps between which another computation may run. *)

From S2P Require Import Prelude Config Kernel Interfaces NodeCache.

Section Race.
Context `{Config}.

(** The thread's state: the cache it shares, and the register in which
    [node_cache_pos++] keeps the old value. *)
Definition shared : lens (node_cache * Z) node_cache := Lens fst (λ c s, (c, snd s)).

(** An assignment to a member of [node_cache[node_cache_pos]]. *)
Definition assign_entry (f : node_item → node_item) : M node_cache () :=
  c ← getS;
  it ← array_get (nc_items c) (node_cache_pos c);
  items ← array_set (nc_items c) (node_cache_pos c) (f it);
  putS (NodeCache items (node_cache_pos c)).

Definition assign (f : node_item → node_item) : M (node_cache * Z) () := zoom shared (assign_entry f).

(** The members. *)
Definition entry_sock (sock : Z) (it : node_item) : node_item :=
  NodeItem sock (ni_id it) (ni_addr it) (ni_inf it) (ni_fail_count it).

Definition entry_id (id : Z) (it : node_item) : node_item :=
  NodeItem (ni_sock it) id (ni_addr it) (ni_inf it) (ni_fail_count it).

Definition entry_addr (addr : list Z) (it : node_item) : node_item :=
  NodeItem (ni_sock it) (ni_id it) addr (ni_inf it) (ni_fail_count it).

Definition entry_inf (intf : intf_ptr) (it : node_item) : node_item :=
  NodeItem (ni_sock it) (ni_id it) (ni_addr it) intf (ni_fail_count it).

Definition entry_fail_count (n : Z) (it : node_item) : node_item :=
  NodeItem (ni_sock it) (ni_id it) (ni_addr it) (ni_inf it) n.

(** The statements of [node_cache_add] after its check; the increment is a load
    and a store. *)
Definition add_steps (sock id : Z) (addr : list Z) (intf : intf_ptr) : list (M (node_cache * Z) ()) := [
  assign (entry_sock sock);
  assign (entry_id id);
  assign (entry_addr addr);
  assign (entry_inf intf);
  assign (entry_fail_count 0);
  s ← getS; putS (fst s, node_cache_pos (fst s));
  s ← getS; putS (NodeCache (nc_items (fst s)) (snd s + 1), snd s)].

Fixpoint run_steps (steps : list (M (node_cache * Z) ())) : M (node_cache * Z) () :=
  match steps with
  | [] => mret ()
  | step :: steps => _ ← step; run_steps steps
  end.

(** [node_cache_add], preempted after [n] statements by [other]. *)
Definition add_preempted {A} (n : nat) (other : M node_cache A) (sock id : Z) (addr : list Z)
    (intf : intf_ptr) : M (node_cache * Z) Z :=
  s ← getS;
  if MAX_GREYBUS_NODES <=? node_cache_pos (fst s) then mret (- ENOMEM)
  else
    _ ← run_steps (take n (add_steps sock id addr intf));
    _ ← zoom shared other;
    _ ← run_steps (drop n (add_steps sock id addr intf));
    mret 0.
End Race.

Section Facts.
Context `{Config, !ConfigOk _}.

Lemma assign_ok f items pos r it :
  0 <= pos → items !! Z.to_nat pos = Some it →
  assign f (NodeCache items pos, r) = Done () (NodeCache (<[Z.to_nat pos := f it]> items) pos, r).
Proof.
  intros Hpos Hit. unfold assign, assign_entry, zoom. cbn [view store shared]. unfold getS, mbind at 1, M_bind at 1.
  step_with (array_get_ok items pos it (NodeCache items pos) Hpos Hit).
  pose proof (lookup_lt_Some _ _ _ Hit) as Hlen.
  by step_with (array_set_ok items pos (f it) (NodeCache items pos) ltac:(lia)).
Qed.

(** The assignments together store the new entry behind those in use. *)
Lemma assigns_ok sock id addr intf c r :
  cache_wf c → node_cache_pos c < MAX_GREYBUS_NODES →
  run_steps (take 5 (add_steps sock id addr intf)) (c, r)
  = Done () (NodeCache (<[Z.to_nat (node_cache_pos c) := NodeItem sock id addr intf 0]> (nc_items c))
               (node_cache_pos c), r).
Proof.
  intros [Harr Hpos _] Hroom. cbn [add_steps take run_steps].
  destruct (lookup_lt_is_Some_2 (nc_items c) (Z.to_nat (node_cache_pos c))) as [it Hit]; [lia|].
  pose proof (lookup_lt_Some _ _ _ Hit) as Hlen. destruct c as [items pos]. cbn [nc_items node_cache_pos] in *.
  step_with (assign_ok (entry_sock sock) items pos r it (proj1 Hpos) Hit).
  do 4 (erewrite M_bind_Done; [|apply assign_ok; [apply Hpos|apply list_lookup_insert_eq; rewrite ?length_insert; exact Hlen]]).
  cbn [nc_items node_cache_pos ni_sock ni_id ni_addr ni_inf ni_fail_count].
  by rewrite !list_insert_insert_eq.
Qed.

Lemma run_steps_app steps1 steps2 s :
  run_steps (steps1 ++ steps2) s = (_ ← run_steps steps1; run_steps steps2) s.
Proof.
  revert s. induction steps1 as [|step steps1 IH]; intros s; [done|]. cbn [app run_steps].
  rewrite M_bind_assoc. unfold mbind, M_bind. destruct (step s) as [[] s'|f]; [apply IH|done].
Qed.

(** The register is loaded, and the position stored. *)
Lemma increment_ok sock id addr intf c r :
  run_steps (drop 5 (add_steps sock id addr intf)) (c, r)
  = Done () (NodeCache (nc_items c) (node_cache_pos c + 1), node_cache_pos c).
Proof. done. Qed.

(** With nothing in between, the steps are [node_cache_add]. *)
Lemma add_undisturbed n sock id addr intf c r :
  cache_wf c →
  ∃ r', add_preempted n (mret ()) sock id addr intf (c, r)
        = match node_cache_add sock id addr intf c with
          | Done ret c' => Done ret (c', r')
          | Crash f => Crash f
          end.
Proof.
  intros Hwf. pose proof (cwf_array _ Hwf). pose proof (cwf_pos _ Hwf).
  unfold add_preempted, node_cache_add, getS, mbind at 1, M_bind at 1, mbind at 4, M_bind at 4. cbn [fst].
  destruct (Z.leb_spec MAX_GREYBUS_NODES (node_cache_pos c)) as [|Hroom]; [by exists r|].
  exists (node_cache_pos c).
  step_with (array_set_ok (nc_items c) (node_cache_pos c) (NodeItem sock id addr intf 0) c ltac:(lia)).
  assert (Hall : (_ ← run_steps (take n (add_steps sock id addr intf)); run_steps (drop n (add_steps sock id addr intf))) (c, r)
    = Done () (NodeCache (<[Z.to_nat (node_cache_pos c) := NodeItem sock id addr intf 0]> (nc_items c))
                 (node_cache_pos c + 1), node_cache_pos c)).
  { rewrite <-run_steps_app, take_drop, <-(take_drop 5 (add_steps sock id addr intf)), run_steps_app.
    step_with (assigns_ok sock id addr intf c r Hwf Hroom). done. }
  revert Hall. unfold mbind, M_bind. destruct (run_steps (take n _) (c, r)) as [[] [c1 r1]|f]; [|done].
  unfold zoom. cbn. by intros ->.
Qed.

(** What a preempting [node_cache_remove_by_id] leaves of the cache while a new
    entry waits behind those in use. *)
Lemma remove_meanwhile c l x (i : nat) it new :
  cache_wf c → node_cache_pos c < MAX_GREYBUS_NODES → entries c = l ++ [x] → l !! i = Some it →
  let c1 := NodeCache (<[Z.to_nat (node_cache_pos c) := new]> (nc_items c)) (node_cache_pos c) in
  ∃ c2, node_cache_remove_by_id (ni_id it) c1 = Done (Z.of_nat i) c2 ∧
    node_cache_pos c2 = node_cache_pos c - 1 ∧ (length (nc_items c2) : Z) = MAX_GREYBUS_NODES ∧
    take (Z.to_nat (node_cache_pos c)) (nc_items c2) = <[i := x]> l ++ [x] ∧
    nc_items c2 !! Z.to_nat (node_cache_pos c) = Some new.
Proof.
  intros Hwf Hroom Hent Hi c1. pose proof (length_entries c Hwf) as Hlen. pose proof Hwf as [Harr Hpos Hids].
  assert (Hk : Z.to_nat (node_cache_pos c) = S (length l)).
  { rewrite Hent, length_app in Hlen. cbn in Hlen. lia. }
  pose proof (lookup_lt_Some _ _ _ Hi) as Hil.
  assert (Hent1 : entries c1 = l ++ [x]).
  { rewrite <-Hent. unfold entries. cbn [c1 nc_items node_cache_pos]. by rewrite take_insert_ge by lia. }
  assert (Hwf1 : cache_wf c1).
  { split; cbn [c1 nc_items node_cache_pos]; [by rewrite length_insert|done|]. by rewrite Hent1, <-Hent. }
  assert (Hi1 : entries c1 !! i = Some it) by (rewrite Hent1; by apply lookup_app_l_Some).
  exists (NodeCache (<[i := x]> (nc_items c1)) (node_cache_pos c - 1)). split; [|split; [done|]].
  - unfold node_cache_remove_by_id, node_cache_find_by_id. step_with (find_loop_spec (λ it', ni_id it' =? ni_id it) c1 Hwf1).
    rewrite (find_by_id_at c1 i it Hwf1 Hi1). destruct (Z.leb_spec 0 i); [|lia].
    step_with (node_cache_remove_at_run c1 i x Hwf1 (lookup_lt_Some _ _ _ Hi1) ltac:(by rewrite Hent1, last_snoc)). done.
  - cbn [nc_items c1]. rewrite !length_insert. split; [done|]. split.
    + rewrite take_insert_lt, take_insert_ge by lia. change (take _ (nc_items c)) with (entries c).
      by rewrite Hent, insert_app_l by lia.
    + rewrite list_lookup_insert_ne by lia. apply list_lookup_insert_eq. lia.
Qed.

(** A cache in which an entry occurs twice. *)
Lemma twice_not_wf l x (i : nat) rest c :
  (i < length l)%nat → entries c = <[i := x]> l ++ x :: rest → ¬ cache_wf c.
Proof.
  intros Hi Hent [_ _ Hnd]. rewrite Hent in Hnd.
  assert (i = length l); [|lia]. apply (NoDup_lookup _ i (length l) (ni_id x) Hnd); rewrite list_lookup_fmap.
  - by rewrite lookup_app_l, list_lookup_insert_eq by (rewrite ?length_insert; lia).
  - by rewrite lookup_app_r, length_insert, Nat.sub_diag by (rewrite length_insert; lia).
Qed.

(** C39: node_cache_add is not protected against other threads: if a node other than the last is
    removed after the new entry's members were assigned, the last node is in the cache twice
    afterwards, and the new node is lost although 0 was returned when the increment of
    node_cache_pos had not begun; the cache is no longer well formed. *)
Theorem node_cache_add_race c l x (i : nat) it sock id addr intf r :
  cache_wf c → node_cache_pos c < MAX_GREYBUS_NODES → entries c = l ++ [x] → l !! i = Some it →
  let new := NodeItem sock id addr intf 0 in
  (∃ c', add_preempted 5 (node_cache_remove_by_id (ni_id it)) sock id addr intf (c, r)
         = Done 0 (c', node_cache_pos c - 1) ∧ entries c' = <[i := x]> l ++ [x] ∧ ¬ cache_wf c') ∧
  (∃ c', add_preempted 6 (node_cache_remove_by_id (ni_id it)) sock id addr intf (c, r)
         = Done 0 (c', node_cache_pos c) ∧ entries c' = <[i := x]> l ++ [x; new] ∧ ¬ cache_wf c').
Proof.
  intros Hwf Hroom Hent Hi new. pose proof (lookup_lt_Some _ _ _ Hi) as Hil. pose proof Hwf as [Harr Hpos _].
  destruct (remove_meanwhile c l x i it new Hwf Hroom Hent Hi) as (c2 & Hrem & Hp & Hl & Htake & Hnew).
  assert (Hcheck : (MAX_GREYBUS_NODES <=? node_cache_pos c) = false) by (apply Z.leb_gt; lia).
  split.
  - exists (NodeCache (nc_items c2) (node_cache_pos c)).
    assert (He : entries (NodeCache (nc_items c2) (node_cache_pos c)) = <[i := x]> l ++ [x]) by done.
    split; [|split; [done|by apply (twice_not_wf l x i [])]].
    unfold add_preempted, getS, mbind at 1, M_bind at 1. cbn [fst]. rewrite Hcheck.
    step_with (assigns_ok sock id addr intf c r Hwf Hroom).
    step_zoom shared (Hrem : _ (view shared (_, r)) = _). cbn [store shared snd].
    step_with (increment_ok sock id addr intf c2 r). rewrite Hp. unfold mret, M_ret. do 3 f_equal. lia.
  - exists (NodeCache (nc_items c2) (node_cache_pos c + 1)).
    assert (He : entries (NodeCache (nc_items c2) (node_cache_pos c + 1)) = <[i := x]> l ++ [x; new]).
    { unfold entries. cbn [nc_items node_cache_pos].
      replace (Z.to_nat (node_cache_pos c + 1)) with (S (Z.to_nat (node_cache_pos c))) by lia.
      rewrite (take_S_r _ _ new) by done. by rewrite Htake, <-app_assoc. }
    split; [|split; [done|by apply (twice_not_wf l x i [new])]].
    unfold add_preempted, getS, mbind at 1, M_bind at 1. cbn [fst]. rewrite Hcheck.
    change (take 6 (add_steps sock id addr intf)) with (take 5 (add_steps sock id addr intf) ++
      [s ← getS; putS (fst s, node_cache_pos (fst s))]).
    rewrite (M_bind_Done _ _ (c, r) () (NodeCache (<[Z.to_nat (node_cache_pos c) := new]> (nc_items c)) (node_cache_pos c), node_cache_pos c));
      cycle 1. { rewrite run_steps_app. by step_with (assigns_ok sock id addr intf c r Hwf Hroom). }
    by step_zoom shared (Hrem : _ (view shared (_, node_cache_pos c)) = _).
Qed.
End Facts.

(** ** Example *)

#[local] Existing Instance prj_conf.

Definition w_first : node_item := NodeItem 7 3 (replicate 16 1) (SlabIntf 1) 0.
Definition w_second : node_item := NodeItem 8 4 (replicate 16 2) (SlabIntf 2) 0.
Definition w_two : node_cache :=
  NodeCache ([w_first; w_second] ++ replicate 30 (NodeItem 0 0 [] NullIntf 0)) 2.

Lemma w_two_wf : cache_wf w_two.
Proof. split; [done|by split|]. refine (bool_decide_unpack _ _). exact I. Qed.

(** The first node is removed while a third is added: the second is there
    twice, the third not at all. *)
Lemma node_cache_add_race_witness :
  ∃ c', add_preempted 5 (node_cache_remove_by_id 3) (-1) 5 (replicate 16 3) (SlabIntf 3) (w_two, 0)
        = Done 0 (c', 1) ∧ entries c' = [w_second; w_second].
Proof.
  destruct (node_cache_add_race w_two [w_first] w_second 0 w_first (-1) 5 (replicate 16 3) (SlabIntf 3) 0
    w_two_wf) as [(c' & Hrun & Hent & _) _]; [reflexivity|reflexivity|reflexivity|].
  by exists c'.
Defined.
