(* ===== verification/State.v ===== *)
(** * The firmware's global state

    The static variables of src/ in one record, with a lens for each
    component.  [fw_uart] is a history variable: the bytes written to the UART. *)

From S2P Require Import Prelude Config Protocols Hdlc Kernel Messages Interfaces NodeCache.

(** [struct node_ap_item] of src/apbridge.c *)
Record node_ap_item := NodeApItem { node_intf : intf_ptr; node_cport : Z; node_id : Z }.

(** [node_control_data_slab] of src/node.c, and the [sock] field of every
    [struct node_control_data] in use. *)
Record controls `{KSlab} := Controls { node_control_data_slab : kslab; ctrl_store : gmap Z Z }.

Record fw `{KHeap, KSlab, Sockets} := Fw {
  fw_hdlc : hdlc_driver;
  fw_uart : list Z;
  fw_messages : messages;
  fw_interfaces : interfaces;
  fw_controls : controls;
  fw_nodes : node_cache;
  fw_ap_map : list node_ap_item;
  svc_is_read_flag : bool;
  local_pipe_writer : Z;
  fw_net : net;
  tcp_discovery_sock : Z;
  tcp_discovery_running : bool;
}.

Section Lenses.
Context `{KHeap, KSlab, Sockets}.

Definition L_hdlc : lens fw hdlc_driver := Lens fw_hdlc (λ x s,
  Fw _ _ _ x (fw_uart s) (fw_messages s) (fw_interfaces s) (fw_controls s) (fw_nodes s)
    (fw_ap_map s) (svc_is_read_flag s) (local_pipe_writer s) (fw_net s)
    (tcp_discovery_sock s) (tcp_discovery_running s)).
Definition L_uart : lens fw (list Z) := Lens fw_uart (λ x s,
  Fw _ _ _ (fw_hdlc s) x (fw_messages s) (fw_interfaces s) (fw_controls s) (fw_nodes s)
    (fw_ap_map s) (svc_is_read_flag s) (local_pipe_writer s) (fw_net s)
    (tcp_discovery_sock s) (tcp_discovery_running s)).
Definition L_messages : lens fw messages := Lens fw_messages (λ x s,
  Fw _ _ _ (fw_hdlc s) (fw_uart s) x (fw_interfaces s) (fw_controls s) (fw_nodes s)
    (fw_ap_map s) (svc_is_read_flag s) (local_pipe_writer s) (fw_net s)
    (tcp_discovery_sock s) (tcp_discovery_running s)).
Definition L_interfaces : lens fw interfaces := Lens fw_interfaces (λ x s,
  Fw _ _ _ (fw_hdlc s) (fw_uart s) (fw_messages s) x (fw_controls s) (fw_nodes s)
    (fw_ap_map s) (svc_is_read_flag s) (local_pipe_writer s) (fw_net s)
    (tcp_discovery_sock s) (tcp_discovery_running s)).
Definition L_controls : lens fw controls := Lens fw_controls (λ x s,
  Fw _ _ _ (fw_hdlc s) (fw_uart s) (fw_messages s) (fw_interfaces s) x (fw_nodes s)
    (fw_ap_map s) (svc_is_read_flag s) (local_pipe_writer s) (fw_net s)
    (tcp_discovery_sock s) (tcp_discovery_running s)).
Definition L_nodes : lens fw node_cache := Lens fw_nodes (λ x s,
  Fw _ _ _ (fw_hdlc s) (fw_uart s) (fw_messages s) (fw_interfaces s) (fw_controls s) x
    (fw_ap_map s) (svc_is_read_flag s) (local_pipe_writer s) (fw_net s)
    (tcp_discovery_sock s) (tcp_discovery_running s)).
Definition L_ap_map : lens fw (list node_ap_item) := Lens fw_ap_map (λ x s,
  Fw _ _ _ (fw_hdlc s) (fw_uart s) (fw_messages s) (fw_interfaces s) (fw_controls s)
    (fw_nodes s) x (svc_is_read_flag s) (local_pipe_writer s) (fw_net s)
    (tcp_discovery_sock s) (tcp_discovery_running s)).
Definition L_svc : lens fw bool := Lens svc_is_read_flag (λ x s,
  Fw _ _ _ (fw_hdlc s) (fw_uart s) (fw_messages s) (fw_interfaces s) (fw_controls s)
    (fw_nodes s) (fw_ap_map s) x (local_pipe_writer s) (fw_net s)
    (tcp_discovery_sock s) (tcp_discovery_running s)).
Definition L_pipe : lens fw Z := Lens local_pipe_writer (λ x s,
  Fw _ _ _ (fw_hdlc s) (fw_uart s) (fw_messages s) (fw_interfaces s) (fw_controls s)
    (fw_nodes s) (fw_ap_map s) (svc_is_read_flag s) x (fw_net s)
    (tcp_discovery_sock s) (tcp_discovery_running s)).
Definition L_net : lens fw net := Lens fw_net (λ x s,
  Fw _ _ _ (fw_hdlc s) (fw_uart s) (fw_messages s) (fw_interfaces s) (fw_controls s)
    (fw_nodes s) (fw_ap_map s) (svc_is_read_flag s) (local_pipe_writer s) x
    (tcp_discovery_sock s) (tcp_discovery_running s)).
Definition L_discovery_sock : lens fw Z := Lens tcp_discovery_sock (λ x s,
  Fw _ _ _ (fw_hdlc s) (fw_uart s) (fw_messages s) (fw_interfaces s) (fw_controls s)
    (fw_nodes s) (fw_ap_map s) (svc_is_read_flag s) (local_pipe_writer s) (fw_net s)
    x (tcp_discovery_running s)).
Definition L_discovery_running : lens fw bool := Lens tcp_discovery_running (λ x s,
  Fw _ _ _ (fw_hdlc s) (fw_uart s) (fw_messages s) (fw_interfaces s) (fw_controls s)
    (fw_nodes s) (fw_ap_map s) (svc_is_read_flag s) (local_pipe_writer s) (fw_net s)
    (tcp_discovery_sock s) x).
End Lenses.

Ltac solve_lens := intros; split; [done|by intros []|done].

#[export] Instance L_hdlc_laws `{KHeap, KSlab, Sockets} : LensLaws L_hdlc. Proof. solve_lens. Qed.
#[export] Instance L_uart_laws `{KHeap, KSlab, Sockets} : LensLaws L_uart. Proof. solve_lens. Qed.
#[export] Instance L_messages_laws `{KHeap, KSlab, Sockets} : LensLaws L_messages.
Proof. solve_lens. Qed.
#[export] Instance L_interfaces_laws `{KHeap, KSlab, Sockets} : LensLaws L_interfaces.
Proof. solve_lens. Qed.
#[export] Instance L_controls_laws `{KHeap, KSlab, Sockets} : LensLaws L_controls.
Proof. solve_lens. Qed.
#[export] Instance L_nodes_laws `{KHeap, KSlab, Sockets} : LensLaws L_nodes. Proof. solve_lens. Qed.
#[export] Instance L_ap_map_laws `{KHeap, KSlab, Sockets} : LensLaws L_ap_map. Proof. solve_lens. Qed.
#[export] Instance L_svc_laws `{KHeap, KSlab, Sockets} : LensLaws L_svc. Proof. solve_lens. Qed.
#[export] Instance L_pipe_laws `{KHeap, KSlab, Sockets} : LensLaws L_pipe. Proof. solve_lens. Qed.
#[export] Instance L_net_laws `{KHeap, KSlab, Sockets} : LensLaws L_net. Proof. solve_lens. Qed.
#[export] Instance L_discovery_sock_laws `{KHeap, KSlab, Sockets} : LensLaws L_discovery_sock.
Proof. solve_lens. Qed.
#[export] Instance L_discovery_running_laws `{KHeap, KSlab, Sockets} : LensLaws L_discovery_running.
Proof. solve_lens. Qed.

(** Reduce the reads of a component ([view]), also after writes. *)
Ltac fw_cbn t :=
  eval cbn [view store L_hdlc L_uart L_messages L_interfaces L_controls L_nodes L_ap_map L_svc
            L_pipe L_net L_discovery_sock L_discovery_running fw_hdlc fw_uart fw_messages
            fw_interfaces fw_controls fw_nodes fw_ap_map svc_is_read_flag local_pipe_writer fw_net
            tcp_discovery_sock tcp_discovery_running] in t.

Ltac lens_simpl ::=
  repeat match goal with
    | |- context [view ?l ?s] => let x := fw_cbn (view l s) in change (view l s) with x
    end.
