(* ===== verification/ApMap.v ===== *)
(** * The AP bridge's table (src/apbridge.c)

    [node_ap_map], indexed by AP cport, tells which interface and cport an AP
    cport is connected to. *)

From S2P Require Import Prelude Config Kernel Messages Interfaces State.

Definition AP_MAX_NODES `{Config} : Z := CONFIG_BEAGLEPLAY_GREYBUS_MAX_NODES.

(** An entry as static initialisation and [node_ap_remove] leave it. *)
Definition empty_item : node_ap_item := NodeApItem NullIntf 0 0.

Section ApMap.
Context `{Config, KHeap, KSlab, Sockets}.

Definition node_ap_add (ap_cport cport : Z) (intf : intf_ptr) : M fw Z :=
  if AP_MAX_NODES <=? ap_cport then mret (- E2BIG)
  else
    map ← getL L_ap_map;
    it ← array_get map ap_cport;
    if decide (node_intf it ≠ NullIntf) then mret (- EALREADY)
    else
      i ← zoom L_interfaces (intf_deref intf);
      map ← array_set map ap_cport (NodeApItem intf cport (id i));
      _ ← modL L_ap_map (λ _, map);
      mret 0.

Definition node_ap_remove (ap_cport : Z) : M fw Z :=
  if AP_MAX_NODES <=? ap_cport then mret (- E2BIG)
  else
    map ← getL L_ap_map;
    map ← array_set map ap_cport empty_item;
    _ ← modL L_ap_map (λ _, map);
    mret 0.

(** The search loop with [n] entries left. *)
Fixpoint ap_cport_from (nid cport : Z) (n : nat) (i : Z) : M fw Z :=
  match n with
  | O => mret (- EINVAL)
  | S n =>
      map ← getL L_ap_map;
      it ← array_get map i;
      if (node_id it =? nid) && (node_cport it =? cport) then mret i
      else ap_cport_from nid cport n (i + 1)
  end.

Definition node_to_ap_cport (nid cport : Z) : M fw Z :=
  ap_cport_from nid cport (Z.to_nat AP_MAX_NODES) 0.

Definition apbridge_init : M fw () := mret ().

Fixpoint deinit_from (n : nat) (i : Z) : M fw () :=
  match n with
  | O => mret ()
  | S n =>
      map ← getL L_ap_map;
      map ← array_set map i empty_item;
      _ ← modL L_ap_map (λ _, map);
      deinit_from n (i + 1)
  end.

Definition apbridge_deinit : M fw () := deinit_from (Z.to_nat AP_MAX_NODES) 0.
End ApMap.

(** ** What the operations do *)

(** The first entry that answers to an interface's cport. *)
Definition ap_cport_of (nid cport : Z) (map : list node_ap_item) : option nat :=
  fst <$> list_find (λ it, (node_id it =? nid) && (node_cport it =? cport)) map.

Definition ap_map_wf `{Config} (map : list node_ap_item) : Prop :=
  (length map : Z) = AP_MAX_NODES.

Section Facts.
Context `{Config, !ConfigOk _, KHeap, KSlab, Sockets}.
Implicit Types s : fw.

Lemma ap_cport_from_spec nid cport n (i : nat) s :
  (i + n)%nat = length (fw_ap_map s) →
  ap_cport_from nid cport n i s
  = Done (match ap_cport_of nid cport (drop i (fw_ap_map s)) with
          | Some j => (i + j)%nat : Z | None => - EINVAL end) s.
Proof.
  revert i. induction n as [|n IH]; intros i Hi; cbn [ap_cport_from].
  { by rewrite drop_ge by lia. }
  destruct (lookup_lt_is_Some_2 (fw_ap_map s) i) as [it Hit]; [lia|].
  step_with (getL_spec L_ap_map s). cbn [view L_ap_map].
  rewrite (drop_S _ _ _ Hit). unfold ap_cport_of. cbn [list_find].
  step_with (array_get_ok (fw_ap_map s) i it s ltac:(lia) ltac:(by rewrite Nat2Z.id)).
  destruct ((node_id it =? nid) && (node_cport it =? cport)) eqn:Ht.
  - rewrite decide_True by done. cbn. by rewrite Nat.add_0_r.
  - rewrite decide_False by (by intros []).
    replace (i + 1) with (Z.of_nat (S i)) by lia. rewrite IH by lia. unfold ap_cport_of.
    destruct (list_find _ (drop (S i) (fw_ap_map s))) as [[j x]|]; cbn; [|done].
    do 2 f_equal. lia.
Qed.

(** The lookup stays inside the table and finds the first match. *)
Lemma node_to_ap_cport_spec nid cport s :
  ap_map_wf (fw_ap_map s) →
  node_to_ap_cport nid cport s
  = Done (match ap_cport_of nid cport (fw_ap_map s) with
          | Some j => j : Z | None => - EINVAL end) s.
Proof.
  intros Hwf. unfold node_to_ap_cport. unfold ap_map_wf in Hwf.
  pose proof (ap_cport_from_spec nid cport (Z.to_nat AP_MAX_NODES) 0 s) as Hspec.
  change (Z.of_nat 0) with 0 in Hspec. rewrite Hspec by lia. by rewrite drop_0.
Qed.

Lemma ap_cport_of_Some nid cport map j :
  ap_cport_of nid cport map = Some j ↔
  (∃ it, map !! j = Some it ∧ node_id it = nid ∧ node_cport it = cport) ∧
  ∀ k it, (k < j)%nat → map !! k = Some it → node_id it ≠ nid ∨ node_cport it ≠ cport.
Proof.
  unfold ap_cport_of. rewrite fmap_Some. split.
  - intros ([k it] & (Hit & Ht & Hfirst)%list_find_Some & ->). cbn.
    apply Is_true_true, andb_true_iff in Ht as [?%Z.eqb_eq ?%Z.eqb_eq].
    split; [eauto|]. intros k' it' Hlt Hk'. specialize (Hfirst k' it' Hk' Hlt). cbn beta in Hfirst.
    destruct (Z.eqb_spec (node_id it') nid); [|by left].
    destruct (Z.eqb_spec (node_cport it') cport); [done|by right].
  - intros [(it & Hit & <- & <-) Hfirst]. exists (j, it). split; [|done].
    apply list_find_Some. split; [done|]. split; [by rewrite !Z.eqb_refl|].
    intros k' it' Hk' Hlt. destruct (Hfirst k' it' Hlt Hk') as [Hne|Hne];
      apply Z.eqb_neq in Hne; rewrite Hne, ?andb_false_r; by intros [].
Qed.

(** Connecting an unconnected cport makes the lookup find the new slot. *)
Lemma ap_cport_of_insert nid cport map (j : nat) intf :
  ap_cport_of nid cport map = None → (j < length map)%nat →
  ap_cport_of nid cport (<[j := NodeApItem intf cport nid]> map) = Some j.
Proof.
  intros Hnone Hj. apply ap_cport_of_Some. split.
  { eexists. split; [by apply list_lookup_insert_eq|done]. }
  intros k it Hk Hit. rewrite list_lookup_insert_ne in Hit by lia.
  unfold ap_cport_of in Hnone. apply fmap_None, list_find_None in Hnone.
  rewrite Forall_forall in Hnone. specialize (Hnone it ltac:(by eapply list_elem_of_lookup_2)). cbn beta in Hnone.
  destruct (Z.eqb_spec (node_id it) nid); [|by left]. right. intros Hc.
  apply Z.eqb_eq in Hc. apply Hnone. by rewrite Hc.
Qed.

Lemma node_ap_add_spec ap_cport cport intf i it s :
  ap_map_wf (fw_ap_map s) → 0 <= ap_cport →
  fw_ap_map s !! Z.to_nat ap_cport = Some it → node_intf it = NullIntf →
  intf_deref intf (fw_interfaces s) = Done i (fw_interfaces s) →
  node_ap_add ap_cport cport intf s
  = Done 0 (store L_ap_map (<[Z.to_nat ap_cport := NodeApItem intf cport (id i)]> (fw_ap_map s)) s).
Proof.
  intros Hwf Hc Hit Hfree Hi. unfold ap_map_wf in Hwf. unfold node_ap_add.
  apply lookup_lt_Some in Hit as Hlt. destruct (Z.leb_spec AP_MAX_NODES ap_cport); [lia|].
  step_with (getL_spec L_ap_map s). cbn [view L_ap_map].
  step_with (array_get_ok (fw_ap_map s) ap_cport it s Hc Hit).
  rewrite decide_False by auto.
  assert (zoom L_interfaces (intf_deref intf) s = Done i s) as Hz.
  { unfold zoom. cbn [view L_interfaces]. rewrite Hi. by destruct s. }
  step_with Hz. step_with (array_set_ok (fw_ap_map s) ap_cport (NodeApItem intf cport (id i)) s ltac:(lia)).
  done.
Qed.

Lemma node_ap_add_busy ap_cport cport intf it s :
  ap_map_wf (fw_ap_map s) → 0 <= ap_cport →
  fw_ap_map s !! Z.to_nat ap_cport = Some it → node_intf it ≠ NullIntf →
  node_ap_add ap_cport cport intf s = Done (- EALREADY) s.
Proof.
  intros Hwf Hc Hit Hbusy. unfold ap_map_wf in Hwf. unfold node_ap_add.
  apply lookup_lt_Some in Hit as Hlt. destruct (Z.leb_spec AP_MAX_NODES ap_cport); [lia|].
  step_with (getL_spec L_ap_map s). cbn [view L_ap_map].
  step_with (array_get_ok (fw_ap_map s) ap_cport it s Hc Hit).
  by rewrite decide_True by done.
Qed.

Lemma node_ap_add_range ap_cport cport intf s :
  AP_MAX_NODES <= ap_cport → node_ap_add ap_cport cport intf s = Done (- E2BIG) s.
Proof. intros ?. unfold node_ap_add. by destruct (Z.leb_spec AP_MAX_NODES ap_cport); [|lia]. Qed.

(** Removal, whatever the entry held; out of range it does nothing. *)
Lemma node_ap_remove_spec ap_cport s :
  ap_map_wf (fw_ap_map s) → 0 <= ap_cport →
  node_ap_remove ap_cport s
  = Done (if AP_MAX_NODES <=? ap_cport then - E2BIG else 0)
      (store L_ap_map (<[Z.to_nat ap_cport := empty_item]> (fw_ap_map s)) s).
Proof.
  intros Hwf Hc. unfold ap_map_wf in Hwf. unfold node_ap_remove.
  destruct (Z.leb_spec AP_MAX_NODES ap_cport).
  - rewrite list_insert_ge by lia. by destruct s.
  - step_with (getL_spec L_ap_map s). cbn [view L_ap_map].
    by step_with (array_set_ok (fw_ap_map s) ap_cport empty_item s ltac:(lia)).
Qed.

Lemma deinit_from_spec n (i : nat) s :
  (i + n)%nat = length (fw_ap_map s) →
  deinit_from n i s
  = Done () (store L_ap_map (take i (fw_ap_map s) ++ replicate n empty_item) s).
Proof.
  revert i s. induction n as [|n IH]; intros i s Hi; cbn [deinit_from].
  { cbn [replicate]. rewrite app_nil_r, take_ge by lia. by destruct s. }
  step_with (getL_spec L_ap_map s). cbn [view L_ap_map].
  step_with (array_set_ok (fw_ap_map s) i empty_item s ltac:(lia)). rewrite Nat2Z.id.
  unfold mbind at 1, M_bind at 1, modL, zoom, modS.
  replace (i + 1) with (Z.of_nat (S i)) by lia. rewrite IH.
  - f_equal. cbn [store view L_ap_map fw_ap_map]. f_equal.
    erewrite take_S_r by (apply list_lookup_insert_eq; lia).
    rewrite take_insert_ge by lia. by rewrite <-app_assoc.
  - cbn [store view L_ap_map fw_ap_map]. rewrite length_insert. lia.
Qed.

Lemma apbridge_deinit_spec s :
  ap_map_wf (fw_ap_map s) →
  apbridge_deinit s = Done () (store L_ap_map (replicate (Z.to_nat AP_MAX_NODES) empty_item) s).
Proof.
  intros Hwf. unfold ap_map_wf in Hwf.
  pose proof (deinit_from_spec (Z.to_nat AP_MAX_NODES) 0 s) as Hspec.
  change (Z.of_nat 0) with 0 in Hspec. unfold apbridge_deinit. by rewrite Hspec by lia.
Qed.
End Facts.
