(* ===== verification/NodeLink.v ===== *)
(** * Remote nodes: transport and lifetime (src/node.c)

    The part of src/node.c that does not call the SVC: reading and writing
    messages on a node's TCP socket, connecting to a node, and creating and
    destroying its interface.  The loops of [write_data] and [read_data] carry
    fuel; a send or receive that makes progress never uses more than the length. *)

From S2P Require Import Prelude Config Protocols Kernel Messages Interfaces NodeCache State.

Definition GB_TRANSPORT_TCPIP_BASE_PORT : Z := 4242.
Definition AF_UNIX : Z := 3.

Section NodeLink.
Context `{Config, KHeap, KSlab, Sockets}.

(** *** Sockets and control data *)

Definition sock_send (sock : Z) (data : list Z) : M fw Z :=
  n ← getL L_net;
  let '(ret, n) := zsock_send n sock data in
  _ ← modL L_net (λ _, n);
  mret ret.

Definition sock_recv (sock len : Z) : M fw (Z * list Z) :=
  n ← getL L_net;
  let '(ret, data, n) := zsock_recv n sock len in
  _ ← modL L_net (λ _, n);
  mret (ret, data).

Definition sock_close (sock : Z) : M fw () := modL L_net (λ n, zsock_close n sock).

(** [ctrl_data->sock] *)
Definition ctrl_sock (p : Z) : M fw Z :=
  c ← getL L_controls;
  if p =? NULL then crash NullDeref
  else match ctrl_store c !! p with
       | Some sock => mret sock
       | None => crash UseAfterFree
       end.

Definition ctrl_set_sock (p sock : Z) : M fw () :=
  _ ← ctrl_sock p;
  modL L_controls (λ c, Controls _ (node_control_data_slab c) (<[p := sock]> (ctrl_store c))).

(** [k_mem_slab_alloc] followed by [ctrl_data->sock = -1] *)
Definition ctrl_alloc : M fw (option Z) :=
  c ← getL L_controls;
  block ← slab_alloc (node_control_data_slab c);
  match block with
  | None => mret None
  | Some (p, slab) =>
      _ ← modL L_controls (λ c, Controls _ slab (<[p := -1]> (ctrl_store c)));
      mret (Some p)
  end.

(** [k_mem_slab_free(&node_control_data_slab, &ctrl_data)]: what is freed
    is the address of the variable, whatever it points to. *)
Definition ctrl_free : M fw () :=
  modL L_controls (λ c, Controls _ (k_mem_slab_free (node_control_data_slab c) LocalVariable)
                          (ctrl_store c)).

Definition pipe_send : M fw () :=
  w ← getL L_pipe;
  ret ← sock_send w [0];
  (* ret < 0 is only logged *)
  mret ().

(** *** Reading and writing whole buffers *)

(** [while (transmitted < len)] *)
Fixpoint write_loop (sock : Z) (data : list Z) (len : Z) (fuel : nat) (transmitted : Z)
    : M fw Z :=
  if transmitted <? len then
    match fuel with
    | O => crash Diverge
    | S fuel =>
        ret ← sock_send sock
                (take (Z.to_nat (len - transmitted)) (drop (Z.to_nat transmitted) data));
        if ret <? 0 then mret ret
        else write_loop sock data len fuel (transmitted + ret)
    end
  else mret transmitted.

Definition write_data (sock : Z) (data : list Z) (len : Z) : M fw Z :=
  if decide (len <= length data) then write_loop sock data len (Z.to_nat len) 0
  else crash OutOfBounds.

(** [while (received < len)]; the second result is what was stored. *)
Fixpoint read_loop (sock : Z) (len : Z) (fuel : nat) (received : Z) (data : list Z)
    : M fw (Z * list Z) :=
  if received <? len then
    match fuel with
    | O => crash Diverge
    | S fuel =>
        '(ret, more) ← sock_recv sock (len - received);
        if ret <=? 0 then mret (ret, data)
        else read_loop sock len fuel (received + ret) (data ++ more)
    end
  else mret (received, data).

Definition read_data (sock len : Z) : M fw (Z * list Z) :=
  read_loop sock len (Z.to_nat len) 0 [].

(** [struct gb_message_in_transport], and the [flag] argument as the code
    leaves it: it is only written when a read falls short. *)
Record gb_message_in_transport := InTransport { cport_id : Z; msg : Z }.

Definition gb_message_receive (sock : Z) (flag : bool)
    : M fw (gb_message_in_transport * bool) :=
  let early_exit flag := mret (InTransport 0 NULL, flag) in
  '(ret, cport) ← read_data sock 2;
  if negb (ret =? 2) then early_exit (ret =? 0)
  else
    let cport := of_le cport in
    '(ret, hdr) ← read_data sock (sizeof gb_operation_msg_hdr);
    if negb (ret =? sizeof gb_operation_msg_hdr) then early_exit (ret =? 0)
    else
      let hdr : gb_operation_msg_hdr := of_wire hdr in
      msg ← zoom L_messages (gb_message_alloc (gb_hdr_payload_len hdr) (hdr_type hdr)
                               (hdr_operation_id hdr) (hdr_result hdr));
      if msg =? NULL then early_exit flag
      else
        m ← zoom L_messages (msg_deref msg);
        '(ret, payload) ← read_data sock (gb_message_payload_len m);
        if negb (ret =? gb_message_payload_len m) then
          _ ← zoom L_messages (gb_message_dealloc msg);
          early_exit (ret =? 0)
        else
          _ ← zoom L_messages (msg_write_payload msg payload ret);
          mret (InTransport cport msg, flag).

(** *** Connections *)

Definition connect_to_node (addr : sockaddr) : M fw Z :=
  n ← getL L_net;
  let '(sock, n) :=
    if sa_family addr =? AF_INET6 then zsock_socket n AF_INET6 SOCK_STREAM IPPROTO_TCP
    else zsock_socket n AF_INET SOCK_STREAM IPPROTO_TCP in
  _ ← modL L_net (λ _, n);
  if sock <? 0 then mret sock
  else
    n ← getL L_net;
    let '(ret, n) := zsock_connect n sock addr in
    _ ← modL L_net (λ _, n);
    if negb (ret =? 0) then (_ ← sock_close sock; mret ret)
    else mret sock.

Definition node_intf_create_connection (ctrl : intf_ptr) (cport : Z) : M fw Z :=
  i ← zoom L_interfaces (intf_deref ctrl);
  if negb (cport =? 0) then mret 0
  else
    sock ← ctrl_sock (ctrl_data i);
    if 0 <=? sock then mret sock
    else
      ret ← zoom L_nodes (node_cache_find_by_id (id i));
      if ret <? 0 then mret (- EINVAL)
      else
        it ← zoom L_nodes (node_cache_at ret);
        sock ← connect_to_node (Sockaddr AF_INET6 (ni_addr it) GB_TRANSPORT_TCPIP_BASE_PORT);
        if sock <? 0 then mret sock
        else
          _ ← zoom L_nodes (node_cache_set_sock ret sock);
          _ ← ctrl_set_sock (ctrl_data i) sock;
          _ ← pipe_send;
          mret sock.

Definition node_intf_destroy_connection (ctrl : intf_ptr) (cport : Z) : M fw () := mret ().

(** *** Interfaces of nodes *)

Definition node_create_interface (addr : list Z) : M fw intf_ptr :=
  ctrl_data ← ctrl_alloc;
  match ctrl_data with
  | None => mret NullIntf
  | Some ctrl_data =>
      inf ← zoom L_interfaces (gb_interface_alloc node_inf_write_cb node_create_cb
                                 node_destroy_cb ctrl_data);
      if decide (inf = NullIntf) then (_ ← ctrl_free; mret NullIntf)
      else
        i ← zoom L_interfaces (intf_deref inf);
        ret ← zoom L_nodes (node_cache_add (-1) (id i) addr inf);
        if ret <? 0 then (_ ← ctrl_free; mret NullIntf)
        else mret inf
  end.

Definition node_destroy_interface (inf : intf_ptr) : M fw () :=
  if decide (inf = NullIntf) then mret ()
  else
    i ← zoom L_interfaces (intf_deref inf);
    sock ← ctrl_sock (ctrl_data i);
    _ ← (if 0 <=? sock then sock_close sock else mret ());
    _ ← zoom L_nodes (node_cache_remove_by_id (id i));
    _ ← ctrl_free;
    zoom L_interfaces (gb_interface_dealloc inf).

Definition node_find_by_id (nid : Z) : M fw intf_ptr :=
  ret ← zoom L_nodes (node_cache_find_by_id nid);
  if 0 <=? ret then (it ← zoom L_nodes (node_cache_at ret); mret (ni_inf it))
  else mret NullIntf.
End NodeLink.

(** ** Whole buffers *)

(** [bs] was sent on [sock], and nothing on any other socket. *)
Definition sent_on `{Sockets} (sock : Z) (bs : list Z) (n n' : net) : Prop :=
  net_sent n' sock = net_sent n sock ++ bs ∧
  ∀ sock', sock' ≠ sock → net_sent n' sock' = net_sent n sock'.

(** A send on [sock] failed with [ret] after [bs] had gone out on it. *)
Definition send_failed `{Sockets} (sock : Z) (bs : list Z) (ret : Z) (n n' : net) : Prop :=
  ret < 0 ∧ ∃ n1 piece, sent_on sock bs n n1 ∧ piece ≠ [] ∧ zsock_send n1 sock piece = (ret, n').

(** A receive on [sock] failed, or found the stream at its end. *)
Definition recv_failed `{Sockets} (sock : Z) (n n' : net) : Prop :=
  ∃ n1 got len ret data, net_incoming n sock = got ++ net_incoming n1 sock ∧ 0 < len ∧
    zsock_recv n1 sock len = (ret, data, n') ∧ ret <= 0.

Section Buffers.
Context `{Config, KHeap, KSlab, Sockets, !SocketsLaws}.
Implicit Types s : fw.

Lemma sent_on_nil sock n : sent_on sock [] n n.
Proof. split; [by rewrite app_nil_r|done]. Qed.

Lemma sent_on_app sock bs1 bs2 n1 n2 n3 :
  sent_on sock bs1 n1 n2 → sent_on sock bs2 n2 n3 → sent_on sock (bs1 ++ bs2) n1 n3.
Proof.
  intros [Ha Ho] [Hb Ho']. split; [by rewrite Hb, Ha, app_assoc|].
  intros sock' Hne. by rewrite Ho', Ho.
Qed.

Lemma send_failed_app sock bs1 bs2 ret n1 n2 n3 :
  sent_on sock bs1 n1 n2 → send_failed sock bs2 ret n2 n3 → send_failed sock (bs1 ++ bs2) ret n1 n3.
Proof.
  intros Hs [Hr (n & piece & Hs2 & Hp & Hsend)]. split; [done|]. exists n, piece.
  split; [by eapply sent_on_app|done].
Qed.

Lemma recv_failed_app sock got n1 n2 n3 :
  net_incoming n1 sock = got ++ net_incoming n2 sock → recv_failed sock n2 n3 → recv_failed sock n1 n3.
Proof.
  intros Hin (n & got2 & len & ret & data & Hin2 & Hr). exists n, (got ++ got2), len, ret, data.
  by rewrite Hin, Hin2, app_assoc.
Qed.

Lemma write_loop_spec sock data len (fuel : nat) t s :
  0 <= t <= len → len <= length data → len - t <= fuel →
  ∃ ret n' bs, write_loop sock data len fuel t s = Done ret (store L_net n' s) ∧
    sent_on sock bs (fw_net s) n' ∧
    (ret = len ∧ bs = take (Z.to_nat (len - t)) (drop (Z.to_nat t) data) ∨
     send_failed sock bs ret (fw_net s) n' ∧
     bs `prefix_of` take (Z.to_nat (len - t)) (drop (Z.to_nat t) data)).
Proof.
  revert t s. induction fuel as [|fuel IH]; intros t s Ht Hlen Hfuel; cbn [write_loop].
  { destruct (Z.ltb_spec t len); [lia|]. exists t, (fw_net s), [].
    split; [by destruct s|]. split; [apply sent_on_nil|]. left. split; [lia|].
    by replace (Z.to_nat (len - t)) with 0%nat by lia. }
  destruct (Z.ltb_spec t len) as [Hlt|Hge]; cycle 1.
  { exists t, (fw_net s), []. split; [by destruct s|]. split; [apply sent_on_nil|]. left.
    split; [lia|]. by replace (Z.to_nat (len - t)) with 0%nat by lia. }
  set (todo := take _ (drop _ data)).
  assert (Htodo : (length todo : Z) = len - t).
  { subst todo. rewrite length_take, length_drop. lia. }
  unfold sock_send at 1. rewrite M_bind_assoc. step_getL L_net.
  destruct (zsock_send (fw_net s) sock todo) as [r n1] eqn:Hsend.
  assert (Hne : todo ≠ []) by (intros Hnil; rewrite Hnil in Htodo; cbn in Htodo; lia).
  pose proof (zsock_send_law _ _ _ _ _ Hsend Hne) as Hlaw.
  rewrite M_bind_assoc. step_modL L_net. unfold mbind at 1, M_bind at 1, mret at 1, M_ret at 1.
  destruct (Z.ltb_spec r 0) as [Hneg|Hpos].
  - destruct Hlaw as [[_ Hs]|]; [|lia]. exists r, n1, [].
    split; [done|]. split; [split; [by rewrite Hs, app_nil_r|by rewrite Hs]|].
    right. split; [|apply prefix_nil]. split; [done|]. exists (fw_net s), todo.
    split; [apply sent_on_nil|done].
  - destruct Hlaw as [[]|(Hr & Hsent)]; [lia|].
    destruct (IH (t + r) (store L_net n1 s)) as (ret & n' & bs & Hrun & Hbs & Hcase); [lia..|].
    exists ret, n', (take (Z.to_nat r) todo ++ bs). split; [by rewrite Hrun|].
    split; [by eapply sent_on_app|].
    assert (Hsplit : todo = take (Z.to_nat r) todo
      ++ take (Z.to_nat (len - (t + r))) (drop (Z.to_nat (t + r)) data)).
    { rewrite <-(take_drop (Z.to_nat r) todo) at 1. f_equal. subst todo.
      rewrite skipn_firstn_comm, drop_drop. f_equal; [lia|]. f_equal. lia. }
    destruct Hcase as [[-> ->]|[Hn Hp]]; [by left|right].
    split; [by eapply send_failed_app|]. rewrite Hsplit at 2. by apply prefix_app.
Qed.

(** [write_data] ends; it sends everything, or a prefix and fails. *)
Lemma write_data_spec sock data s :
  ∃ ret n' bs, write_data sock data (length data) s = Done ret (store L_net n' s) ∧
    sent_on sock bs (fw_net s) n' ∧
    (ret = length data ∧ bs = data ∨ send_failed sock bs ret (fw_net s) n' ∧ bs `prefix_of` data).
Proof.
  unfold write_data. rewrite decide_True by lia.
  destruct (write_loop_spec sock data (length data) (Z.to_nat (length data)) 0 s)
    as (ret & n' & bs & Hrun & Hbs & Hcase); [lia..|].
  change (Z.to_nat 0) with 0%nat in Hcase. rewrite drop_0, take_ge in Hcase by lia. eauto 10.
Qed.

Lemma read_loop_spec sock len (fuel : nat) t data s :
  0 <= t <= len → len - t <= fuel → (length data : Z) = t → bytes data →
  ∃ ret more n', read_loop sock len fuel t data s = Done (ret, data ++ more) (store L_net n' s) ∧
    bytes more ∧
    (ret = len ∧ t + length more = len ∧
       net_incoming (fw_net s) sock = more ++ net_incoming n' sock ∨
     ret <= 0 ∧ t < len ∧ recv_failed sock (fw_net s) n').
Proof.
  revert t data s. induction fuel as [|fuel IH]; intros t data s Ht Hfuel Hd Hb; cbn [read_loop].
  { destruct (Z.ltb_spec t len); [lia|]. exists t, [], (fw_net s). rewrite app_nil_r.
    split; [by destruct s|]. split; [constructor|]. left. cbn. split; [lia|]. split; [lia|done]. }
  destruct (Z.ltb_spec t len) as [Hlt|Hge]; cycle 1.
  { exists t, [], (fw_net s). rewrite app_nil_r.
    split; [by destruct s|]. split; [constructor|]. left. cbn. split; [lia|]. split; [lia|done]. }
  unfold sock_recv at 1. rewrite M_bind_assoc. step_getL L_net.
  destruct (zsock_recv (fw_net s) sock (len - t)) as [[r more] n1] eqn:Hrecv.
  destruct (zsock_recv_law _ _ _ _ _ _ Hrecv) as (Hr & Hmore & Hin); [lia|].
  rewrite M_bind_assoc. step_modL L_net. unfold mbind at 1, M_bind at 1, mret at 1, M_ret at 1.
  destruct (Z.leb_spec r 0) as [Hneg|Hpos].
  - exists r, [], n1. rewrite app_nil_r. split; [done|]. split; [constructor|]. right.
    split; [done|]. split; [lia|]. exists (fw_net s), [], (len - t), r, more. by split_and!; [|lia|..].
  - destruct Hr as [|[Hr Hl]]; [lia|].
    destruct (IH (t + r) (data ++ more) (store L_net n1 s)) as (ret & more' & n' & Hrun & Hb' & Hcase).
    { lia. } { lia. } { rewrite length_app. lia. } { by apply Forall_app_2. }
    exists ret, (more ++ more'), n'. rewrite Hrun, app_assoc.
    split; [done|]. split; [by apply Forall_app_2|].
    destruct Hcase as [(-> & Hl' & Hin')|(Hr' & Ht' & Hfail)]; [left|right]; cycle 1.
    { split; [done|]. split; [lia|]. eapply recv_failed_app; [apply Hin; lia|exact Hfail]. }
    split; [done|]. rewrite length_app, Hin by lia. split; [lia|].
    cbn in Hin'. by rewrite Hin', app_assoc.
Qed.

(** [read_data] ends; it has read the next [len] bytes of the stream, or it
    fails with a result that is not [len]. *)
Lemma read_data_spec sock len s :
  0 <= len →
  ∃ ret data n', read_data sock len s = Done (ret, data) (store L_net n' s) ∧ bytes data ∧
    (ret = len ∧ (length data : Z) = len ∧
       net_incoming (fw_net s) sock = data ++ net_incoming n' sock ∨
     ret <= 0 ∧ 0 < len ∧ recv_failed sock (fw_net s) n').
Proof.
  intros Hlen. unfold read_data.
  destruct (read_loop_spec sock len (Z.to_nat len) 0 [] s) as (ret & more & n' & Hrun & Hb & Hcase);
    [lia|lia|done|constructor|].
  exists ret, more, n'. by rewrite Hrun.
Qed.
End Buffers.

(** ** Messages on a node's socket *)

Section Receive.
Context `{Config, KHeap, !KHeapLaws, KSlab, Sockets, !SocketsLaws}.
Implicit Types s : fw.

(** What [gb_message_receive] may do to the state. *)
Definition received (sock : Z) (b : gb_message) (rest : list Z) (flag : bool) s
    (r : gb_message_in_transport * bool) s' : Prop :=
  ∃ n' m', s' = store L_messages m' (store L_net n' s) ∧ messages_wf m' ∧
  (msg (fst r) = NULL ∧ cport_id (fst r) = 0 ∧ msg_store m' = msg_store (fw_messages s) ∧
     (recv_failed sock (fw_net s) n' ∨
      k_heap_alloc (greybus_messages_heap (fw_messages s)) (8 + length (payload b)) = None) ∨
   ∃ b' p, msg (fst r) = p ∧ snd r = flag ∧ p ≠ NULL ∧
     msg_store (fw_messages s) !! p = None ∧
     msg_store m' = <[p := b']> (msg_store (fw_messages s)) ∧
     same_message b b' ∧ net_incoming n' sock = rest).

Lemma received_early sock b rest flag flag' s s' :
  messages_wf (fw_messages s) → (∃ n', s' = store L_net n' s ∧ recv_failed sock (fw_net s) n') →
  received sock b rest flag s (InTransport 0 NULL, flag') s'.
Proof.
  intros Hwf (n' & -> & Hfail). exists n', (fw_messages s). split; [done|]. split; [done|]. left. auto.
Qed.

(** The memory of a fresh message, once its payload has been read. *)
Lemma receive_payload sock cport b b0 p flag rest s s0 :
  messages_wf (fw_messages s) → sendable b → messages_wf (fw_messages s0) →
  (∃ n0 m0 got, s0 = store L_messages m0 (store L_net n0 s) ∧
     net_incoming (fw_net s) sock = got ++ net_incoming n0 sock) →
  p ≠ NULL → msg_store (fw_messages s) !! p = None →
  msg_store (fw_messages s0) = <[p := b0]> (msg_store (fw_messages s)) →
  fresh_block (length (payload b)) (hdr_type (header b)) (hdr_operation_id (header b))
    (hdr_result (header b)) b0 →
  net_incoming (fw_net s0) sock = payload b ++ rest →
  wp (m ← zoom L_messages (msg_deref p);
      '(ret, pl) ← read_data sock (gb_message_payload_len m);
      if negb (ret =? gb_message_payload_len m) then
        _ ← zoom L_messages (gb_message_dealloc p);
        mret (InTransport 0 NULL, ret =? 0)
      else
        _ ← zoom L_messages (msg_write_payload p pl ret);
        mret (InTransport cport p, flag))
    (λ r s', received sock b rest flag s r s' ∧ (msg (fst r) ≠ NULL → cport_id (fst r) = cport)) s0.
Proof.
  intros Hwf Hb Hwf0 (n0 & m0 & got & -> & Hgot) Hp Hnone Hstore Hfresh Hin. cbn in Hwf0, Hstore, Hin.
  set (s0 := store L_messages m0 (store L_net n0 s)).
  assert (Hlook : msg_store m0 !! p = Some b0) by (rewrite Hstore; apply lookup_insert_eq).
  pose proof (sized_payload_len b0 _ (fb_size _ _ _ _ _ Hfresh) ltac:(lia) (sendable_size b Hb)) as Hlen.
  apply wp_Done. step_read L_messages (msg_deref_ok m0 p b0 Hwf0 Hlook : _ (view L_messages s0) = _).
  rewrite Hlen. destruct (read_data_spec sock (length (payload b)) s0) as
    (ret & data & n' & Hrun & Hbytes & Hcase); [lia|]. step_with Hrun.
  destruct Hcase as [(-> & Hl & Hin')|(Hr & Hpos & Hfail)].
  - rewrite Z.eqb_refl. cbn [negb]. cbn in Hin'. rewrite Hin in Hin'.
    apply app_inj_1 in Hin' as [<- Hrest]; [|lia].
    destruct (msg_write_payload_ok m0 p b0 (payload b) Hwf0 Hlook Hbytes) as [Hw Hwf'].
    { pose proof (fb_len _ _ _ _ _ Hfresh). lia. }
    step_zoom L_messages (Hw : _ (view L_messages (store L_net n' s0)) = _).
    eexists _, _. split; [done|]. split; [|done].
    eexists n', _. split; [done|]. split; [done|]. right.
    eexists _, p. split; [done|]. split; [done|]. split; [done|]. split; [done|].
    cbn [set_store msg_store]. rewrite Hstore, insert_insert_eq. split; [done|].
    split; [by apply filled_same|done].
  - destruct (Z.eqb_spec ret (length (payload b))); [lia|]. cbn [negb].
    destruct (gb_message_dealloc_spec m0 p b0 Hwf0 Hlook) as (heap & Hfree & Hwf').
    step_zoom L_messages (Hfree : _ (view L_messages (store L_net n' s0)) = _).
    eexists _, _. split; [done|]. split; [|done].
    eexists n', _. split; [done|]. split; [done|]. left. split; [done|]. split; [done|].
    cbn [msg_store]. rewrite Hstore. split; [by rewrite delete_insert_id|].
    left. eapply recv_failed_app; [exact Hgot|exact Hfail].
Qed.

(** Receiving reads exactly one message off the stream; every failure is
    reported as NULL with the messages as they were. *)
Lemma gb_message_receive_spec sock flag cport b rest s :
  messages_wf (fw_messages s) → sendable b → is_u16 cport →
  net_incoming (fw_net s) sock = message_wire cport b ++ rest →
  wp (gb_message_receive sock flag)
    (λ r s', received sock b rest flag s r s' ∧ (msg (fst r) ≠ NULL → cport_id (fst r) = cport)) s.
Proof.
  intros Hwf Hb Hc Hin. unfold message_wire in Hin. rewrite <-!app_assoc in Hin.
  apply wp_Done. unfold gb_message_receive.
  destruct (read_data_spec sock 2 s) as (ret & data & n1 & Hrun & _ & Hcase); [lia|].
  step_with Hrun. destruct Hcase as [(-> & Hl & Hin1)|(Hr & _ & Hfail)]; cycle 1.
  { destruct (Z.eqb_spec ret 2); [lia|]. cbn [negb].
    eexists _, _. split; [done|]. split; [apply received_early; [done|by eexists]|done]. }
  cbn [negb Z.eqb Pos.eqb]. pose proof Hin1 as Hgot1. rewrite Hin in Hin1.
  apply app_inj_1 in Hin1 as [<- Hin1]; [|rewrite length_le_bytes; lia].
  replace (of_le (le_bytes 2 cport)) with cport; cycle 1.
  { rewrite of_le_le_bytes. symmetry. by apply Z.mod_small. }
  change (Z.of_nat (sizeof gb_operation_msg_hdr)) with 8.
  destruct (read_data_spec sock 8 (store L_net n1 s)) as (ret & data & n2 & Hrun2 & _ & Hcase); [lia|].
  step_with Hrun2. destruct Hcase as [(-> & Hl2 & Hin2)|(Hr & _ & Hfail)]; cycle 1.
  { destruct (Z.eqb_spec ret 8); [lia|]. cbn [negb].
    eexists _, _. split; [done|]. split; [apply received_early; [done|]|done].
    exists n2. split; [done|]. eapply recv_failed_app; [exact Hgot1|exact Hfail]. }
  cbn [negb Z.eqb Pos.eqb]. cbn in Hin2. pose proof Hin2 as Hgot2. rewrite <-Hin1 in Hin2.
  apply app_inj_1 in Hin2 as [<- Hin2]; [|rewrite length_to_wire; change (sizeof _) with 8%nat; lia].
  pose proof (of_wire_to_wire (header b) [] (sb_range _ Hb)) as Hhdr. rewrite app_nil_r in Hhdr.
  rewrite Hhdr. pose proof (sendable_payload_len b Hb) as Hplen.
  unfold gb_message_payload_len in Hplen. rewrite Hplen.
  pose proof (sb_range _ Hb) as Hrange. pose proof (sb_size _ Hb) as Hsize.
  destruct (header b) as [sz i t r q0 q1] eqn:Hheader. cbn [hdr_type hdr_operation_id hdr_result hdr_size] in *.
  apply in_range_header in Hrange as (Hsz & Hi & Ht & Hr & _).
  pose proof (gb_message_alloc_spec (fw_messages s) (length (payload b)) t i r Hwf
    ltac:(unfold is_u16 in Hsz; lia) Ht Hi Hr) as Halloc.
  apply wp_Done in Halloc as (p & m' & Hrun3 & Halloc).
  step_zoom L_messages (Hrun3 : _ (view L_messages (store L_net n2 (store L_net n1 s))) = _).
  destruct Halloc as [(-> & -> & Hfull)|(b0 & heap & Hp & Hnone & Hwf' & -> & Hfresh)].
  { eexists _, _. split; [done|]. split; [|done]. exists n2, (fw_messages s).
    split; [by destruct s|]. split; [done|]. left. auto. }
  destruct (Z.eqb_spec p NULL) as [|_]; [done|].
  apply wp_Done. eapply (receive_payload sock cport b b0); try done.
  - eexists n2, _, _. split; [done|]. rewrite Hgot1, Hgot2. apply app_assoc.
  - by rewrite Hheader.
Qed.
End Receive.
