(* ===== verification/NodeLife.v ===== *)
(** * Creating and destroying nodes keeps the tables consistent (src/node.c)

    [nodes_wf] ties the node cache to the interfaces and control data its
    entries point to.  Those of destroyed nodes are never freed: the stores only
    grow, and from the first removal on the slabs hold addresses that are none
    of their blocks ([slabs_clean] no longer holds). *)

From S2P Require Import Prelude Config Protocols Kernel Messages Interfaces NodeCache State.
From S2P Require Import NodeLink.

(** An entry of the cache belongs to a live interface of a node, whose control
    data has the same socket. *)
Definition entry_ok `{KHeap, KSlab, Sockets} (s : fw) (it : node_item) (p : Z) (i : gb_interface)
    : Prop :=
  ni_inf it = SlabIntf p ∧ intf_store (fw_interfaces s) !! p = Some i ∧
  i = GbInterface (ni_id it) node_inf_write_cb node_create_cb node_destroy_cb (ctrl_data i) ∧
  ctrl_store (fw_controls s) !! ctrl_data i = Some (ni_sock it).

Record controls_wf `{Config, KSlab} (c : controls) : Prop := {
  ctw_live : dom (ctrl_store c) = slab_live (node_control_data_slab c);
  ctw_null : ctrl_store c !! NULL = None;
  ctw_blocks : slab_blocks (node_control_data_slab c) = MAX_GREYBUS_NODES;
}.

(** An interface of a node, in the cache or destroyed, with its control data. *)
Definition node_interface `{KHeap, KSlab, Sockets} (s : fw) (i : gb_interface) : Prop :=
  i = GbInterface (id i) node_inf_write_cb node_create_cb node_destroy_cb (ctrl_data i) ∧
  is_Some (ctrl_store (fw_controls s) !! ctrl_data i).

Record nodes_wf `{Config, KHeap, KSlab, Sockets} (s : fw) : Prop := {
  nw_cache : cache_wf (fw_nodes s);
  nw_interfaces : interfaces_wf (fw_interfaces s);
  nw_controls : controls_wf (fw_controls s);
  nw_entries it : it ∈ entries (fw_nodes s) → ∃ p i, entry_ok s it p i;
  nw_distinct it1 it2 p1 p2 i1 i2 :
    it1 ∈ entries (fw_nodes s) → it2 ∈ entries (fw_nodes s) →
    entry_ok s it1 p1 i1 → entry_ok s it2 p2 i2 → ctrl_data i1 = ctrl_data i2 → it1 = it2;
  nw_stored p i : intf_store (fw_interfaces s) !! p = Some i → node_interface s i;
  nw_count : (length (entries (fw_nodes s)) <= size (ctrl_store (fw_controls s)))%nat;
}.

(** Only blocks have been freed to the slabs: no node was ever removed. *)
Definition slabs_clean `{KHeap, KSlab, Sockets} (s : fw) : Prop :=
  slab_stray (node_control_data_slab (fw_controls s)) = false ∧
  slab_stray (gb_interface_slab (fw_interfaces s)) = false.

(** The control blocks that count as used. *)
Definition controls_used `{KHeap, KSlab, Sockets} (s : fw) : Z :=
  k_mem_slab_num_used_get (node_control_data_slab (fw_controls s)).

(** The parts of the state nodes do not touch. *)
Record same_elsewhere `{KHeap, KSlab, Sockets} (s s' : fw) : Prop := {
  se_hdlc : fw_hdlc s' = fw_hdlc s;
  se_uart : fw_uart s' = fw_uart s;
  se_messages : fw_messages s' = fw_messages s;
  se_ap_map : fw_ap_map s' = fw_ap_map s;
  se_svc : svc_is_read_flag s' = svc_is_read_flag s;
  se_pipe : local_pipe_writer s' = local_pipe_writer s;
  se_sock : tcp_discovery_sock s' = tcp_discovery_sock s;
  se_running : tcp_discovery_running s' = tcp_discovery_running s;
}.

Section NodeLife.
Context `{Config, !ConfigOk _, KHeap, KSlab, !KSlabLaws, Sockets}.
Implicit Types s : fw.

Lemma ctrl_sock_ok s p sock :
  controls_wf (fw_controls s) → ctrl_store (fw_controls s) !! p = Some sock →
  ctrl_sock p s = Done sock s.
Proof.
  intros Hwf Hp. unfold ctrl_sock. step_getL L_controls.
  destruct (Z.eqb_spec p NULL) as [->|_]; [by rewrite (ctw_null _ Hwf) in Hp|]. by rewrite Hp.
Qed.

(** Two entries with the same id are the same entry. *)
Lemma entries_id_inj s it1 it2 :
  cache_wf (fw_nodes s) → it1 ∈ entries (fw_nodes s) → it2 ∈ entries (fw_nodes s) →
  ni_id it1 = ni_id it2 → it1 = it2.
Proof.
  intros Hwf Hin1 Hin2 Hid.
  pose proof (proj2 (cache_map_lookup (fw_nodes s) (ni_id it1) it1 Hwf) (conj Hin1 eq_refl)) as Hl1.
  pose proof (proj2 (cache_map_lookup (fw_nodes s) (ni_id it2) it2 Hwf) (conj Hin2 eq_refl)) as Hl2.
  rewrite Hid in Hl1. congruence.
Qed.

Lemma entry_ok_inj s it1 it2 p i1 i2 :
  nodes_wf s → it1 ∈ entries (fw_nodes s) → it2 ∈ entries (fw_nodes s) →
  entry_ok s it1 p i1 → entry_ok s it2 p i2 → it1 = it2.
Proof.
  intros Hwf Hin1 Hin2 (_ & Hp1 & Hi1 & _) (_ & Hp2 & Hi2 & _).
  apply (entries_id_inj s); [apply Hwf|done|done|].
  rewrite Hp1 in Hp2. injection Hp2 as ->. rewrite Hi1 in Hi2. by injection Hi2.
Qed.

(** Removal takes out the entry with that id, if there is one. *)
Lemma node_cache_remove_by_id_cases c nid :
  cache_wf c →
  ∃ ret c', node_cache_remove_by_id nid c = Done ret c' ∧ cache_wf c' ∧
    ((∃ it, it ∈ entries c ∧ ni_id it = nid ∧ entries c ≡ₚ it :: entries c') ∨
     Forall (λ it, ni_id it ≠ nid) (entries c) ∧ entries c' = entries c).
Proof.
  intros Hwf. unfold node_cache_remove_by_id, node_cache_find_by_id.
  pose proof (find_loop_spec (λ it, ni_id it =? nid) c Hwf) as Hfind.
  destruct (find_index_range (λ it, ni_id it =? nid) (entries c))
    as [Hm|(i & it & Hf & Hi & Ht%Z.eqb_eq & _)].
  - rewrite Hm in Hfind. step_with Hfind. exists (-1), c. split; [done|]. split; [done|]. right.
    split; [|done]. apply find_index_none in Hm. eapply Forall_impl; [done|]. intros it. cbn. lia.
  - rewrite Hf in Hfind. step_with Hfind. destruct (Z.leb_spec 0 i); [|lia].
    destruct (node_cache_remove_at_spec c i it Hwf Hi) as (c' & Hrun & Hwf' & Hent).
    exists i, c'. step_with Hrun. split; [done|]. split; [done|]. left. exists it.
    split; [by eapply list_elem_of_lookup_2|]. split; [done|].
    rewrite Hent. symmetry. by apply swap_remove_perm.
Qed.

(** Following the pointer to a live interface. *)
Lemma slab_deref s p i :
  intf_store (fw_interfaces s) !! p = Some i →
  intf_deref (SlabIntf p) (view L_interfaces s) = Done i (view L_interfaces s).
Proof. intros Hp. unfold intf_deref, getS, mbind, M_bind. cbn [view L_interfaces]. by rewrite Hp. Qed.

Lemma entry_deref s it p i :
  entry_ok s it p i → intf_deref (ni_inf it) (view L_interfaces s) = Done i (view L_interfaces s).
Proof. intros (-> & Hp & _). by apply slab_deref. Qed.

Lemma ctrl_alloc_stray s :
  slab_stray (node_control_data_slab (fw_controls s)) = true → ctrl_alloc s = Crash StackBlock.
Proof.
  intros Hs. unfold ctrl_alloc. step_getL L_controls. unfold slab_alloc. by rewrite Hs.
Qed.

Lemma ctrl_alloc_spec s :
  controls_wf (fw_controls s) → slab_stray (node_control_data_slab (fw_controls s)) = false →
  (ctrl_alloc s = Done None s ∧
     slab_blocks (node_control_data_slab (fw_controls s)) <= size (ctrl_store (fw_controls s))) ∨
  ∃ c ct, ctrl_alloc s = Done (Some c) (store L_controls ct s) ∧ controls_wf ct ∧
    ctrl_store (fw_controls s) !! c = None ∧
    ctrl_store ct = <[c := -1]> (ctrl_store (fw_controls s)) ∧
    size (ctrl_store (fw_controls s)) < MAX_GREYBUS_NODES ∧
    slab_stray (node_control_data_slab ct) = false ∧
    k_mem_slab_num_used_get (node_control_data_slab ct) = controls_used s + 1.
Proof.
  intros [Hlive Hnull Hblocks] Hstray. unfold ctrl_alloc. step_getL L_controls.
  unfold slab_alloc. rewrite Hstray. rewrite M_bind_mret.
  destruct (k_mem_slab_alloc _) as [[c slab]|] eqn:Halloc.
  - right. apply slab_alloc_law in Halloc as (Hc & Hfresh & Hlive' & Hblocks' & Hroom & Hst & Hused); [|done].
    exists c. eexists. split; [done|]. cbn. split; [split; cbn|split; [|split; [done|split; [|done]]]].
    + by rewrite dom_insert_L, Hlive, Hlive'.
    + by rewrite lookup_insert_ne.
    + by rewrite Hblocks'.
    + apply not_elem_of_dom. by rewrite Hlive.
    + by rewrite <-Hlive, size_dom, Hblocks in Hroom.
  - left. split; [done|]. apply slab_alloc_none_law in Halloc; [|done].
    by rewrite <-Hlive, size_dom in Halloc.
Qed.

(** No control data is freed; the slab counts one block less and keeps the
    address of the variable. *)
Lemma ctrl_free_spec s :
  controls_wf (fw_controls s) →
  ∃ ct, ctrl_free s = Done () (store L_controls ct s) ∧ controls_wf ct ∧
    ctrl_store ct = ctrl_store (fw_controls s) ∧ slab_stray (node_control_data_slab ct) = true ∧
    (0 < controls_used s → k_mem_slab_num_used_get (node_control_data_slab ct) = controls_used s - 1).
Proof.
  intros [Hlive Hnull Hblocks]. destruct (slab_free_local_law (node_control_data_slab (fw_controls s))) as [Hl Hs].
  eexists. split; [done|]. split; [split; cbn; [by rewrite Hl|done|by rewrite slab_free_blocks_law]|].
  split; [done|]. split; [done|]. apply slab_free_used_law.
Qed.

(** *** Shrinking the cache *)

Lemma entry_ok_stores s s' it p i :
  intf_store (fw_interfaces s') = intf_store (fw_interfaces s) →
  ctrl_store (fw_controls s') = ctrl_store (fw_controls s) →
  entry_ok s it p i ↔ entry_ok s' it p i.
Proof. unfold entry_ok. by intros -> ->. Qed.

Lemma nodes_wf_shrink s s' :
  nodes_wf s → cache_wf (fw_nodes s') → interfaces_wf (fw_interfaces s') → controls_wf (fw_controls s') →
  (∀ it, it ∈ entries (fw_nodes s') → it ∈ entries (fw_nodes s)) →
  (length (entries (fw_nodes s')) <= length (entries (fw_nodes s)))%nat →
  intf_store (fw_interfaces s') = intf_store (fw_interfaces s) →
  ctrl_store (fw_controls s') = ctrl_store (fw_controls s) →
  nodes_wf s'.
Proof.
  intros Hwf Hcwf Hiwf Hctwf Hsub Hlen Hi Hc. pose proof (nw_count _ Hwf) as Hcount.
  split; [done|done|done| | | |rewrite Hc; lia].
  - intros it (p & i & Hok)%Hsub%(nw_entries _ Hwf). exists p, i. by apply (entry_ok_stores s).
  - intros it1 it2 p1 p2 i1 i2 Hit1%Hsub Hit2%Hsub Hok1 Hok2.
    by apply (nw_distinct _ Hwf it1 it2 p1 p2); [..|apply (entry_ok_stores s s')|apply (entry_ok_stores s s')].
  - intros p i. rewrite Hi. intros Hp%(nw_stored _ Hwf). unfold node_interface. by rewrite Hc.
Qed.

(** The state when the interface with id [nid] and socket [sock] has been destroyed. *)
Record destroyed (nid sock : Z) s s' : Prop := {
  dn_wf : nodes_wf s';
  dn_same : same_elsewhere s s';
  dn_intf : intf_store (fw_interfaces s') = intf_store (fw_interfaces s);
  dn_ctrl : ctrl_store (fw_controls s') = ctrl_store (fw_controls s);
  dn_stray : slab_stray (node_control_data_slab (fw_controls s')) = true;
  dn_used : 0 < controls_used s → controls_used s' = controls_used s - 1;
  dn_net : fw_net s' = if 0 <=? sock then zsock_close (fw_net s) sock else fw_net s;
}.

(** Destroying an interface, whether its node is still in the cache or not:
    nothing is freed. *)
Lemma node_destroy_stored s p i sock :
  nodes_wf s → intf_store (fw_interfaces s) !! p = Some i →
  ctrl_store (fw_controls s) !! ctrl_data i = Some sock →
  ∃ s', node_destroy_interface (SlabIntf p) s = Done () s' ∧ destroyed (id i) sock s s' ∧
    ((∃ it, it ∈ entries (fw_nodes s) ∧ ni_id it = id i ∧
        entries (fw_nodes s) ≡ₚ it :: entries (fw_nodes s')) ∨
     Forall (λ it, ni_id it ≠ id i) (entries (fw_nodes s)) ∧
     entries (fw_nodes s') = entries (fw_nodes s)).
Proof.
  intros Hwf Hp Hc. unfold node_destroy_interface. rewrite decide_False by done.
  step_read L_interfaces (slab_deref s p i Hp).
  step_with (ctrl_sock_ok s (ctrl_data i) sock (nw_controls _ Hwf) Hc).
  set (n1 := if 0 <=? sock then zsock_close (fw_net s) sock else fw_net s).
  assert (Hclose : (if 0 <=? sock then sock_close sock else mret ()) s = Done () (store L_net n1 s)).
  { subst n1. destruct (0 <=? sock); [done|]. by destruct s. }
  step_with Hclose.
  destruct (node_cache_remove_by_id_cases (fw_nodes s) (id i) (nw_cache _ Hwf))
    as (ret & c' & Hrem & Hcwf & Hcase).
  step_zoom L_nodes (Hrem : _ (view L_nodes (store L_net n1 s)) = _).
  destruct (ctrl_free_spec (store L_nodes c' (store L_net n1 s)) (nw_controls _ Hwf))
    as (ct & Hctrl & Hctwf & Hcts & Hstray & Hused).
  step_with Hctrl.
  destruct (gb_interface_dealloc_spec (fw_interfaces s) (SlabIntf p) (nw_interfaces _ Hwf))
    as (slab & Hfree & Hiwf & _).
  rewrite (zoom_Done L_interfaces _ (store L_controls ct (store L_nodes c' (store L_net n1 s))) _ _ Hfree).
  eexists. split; [done|]. split; [|exact Hcase]. split; [|by split|done..].
  apply (nodes_wf_shrink s); try done.
  - intros it Hit. destruct Hcase as [(it' & _ & _ & ->)|[_ <-]]; [by apply list_elem_of_further|done].
  - destruct Hcase as [(it' & _ & _ & ->)|[_ <-]]; cbn; lia.
Qed.

Lemma node_destroy_interface_spec s it p i :
  nodes_wf s → it ∈ entries (fw_nodes s) → entry_ok s it p i →
  ∃ s', node_destroy_interface (ni_inf it) s = Done () s' ∧ destroyed (ni_id it) (ni_sock it) s s' ∧
    entries (fw_nodes s) ≡ₚ it :: entries (fw_nodes s').
Proof.
  intros Hwf Hit (-> & Hp & Hi & Hc).
  destruct (node_destroy_stored s p i (ni_sock it) Hwf Hp Hc) as (s' & Hrun & Hd & Hcase).
  rewrite Hi in Hd, Hcase. exists s'. split; [done|]. split; [done|].
  destruct Hcase as [(it' & Hit' & Hid & Hperm)|[Hnone _]].
  - by rewrite <-(entries_id_inj s it' it (nw_cache _ Hwf) Hit' Hit Hid).
  - rewrite Forall_forall in Hnone. by destruct (Hnone it Hit).
Qed.

(** *** Growing the tables *)

Lemma entry_ok_mono s s' it p i :
  intf_store (fw_interfaces s) ⊆ intf_store (fw_interfaces s') →
  ctrl_store (fw_controls s) ⊆ ctrl_store (fw_controls s') →
  entry_ok s it p i → entry_ok s' it p i.
Proof.
  intros Hi Hc (Ha & Hb & Hd & He). split; [done|]. split; [by eapply lookup_weaken|].
  split; [done|by eapply lookup_weaken].
Qed.

Lemma entry_ok_det s it p i p' i' : entry_ok s it p i → entry_ok s it p' i' → p = p' ∧ i = i'.
Proof. 
  intros (Ha & Hb & _) (Ha' & Hb' & _). rewrite Ha in Ha'. injection Ha' as <-.
  rewrite Hb in Hb'. by injection Hb'.
Qed.

(** The invariant survives when the tables grow, and when one entry with
    control data of its own is added. *)
Lemma nodes_wf_grow s s' (new : option node_item) :
  nodes_wf s → cache_wf (fw_nodes s') → interfaces_wf (fw_interfaces s') →
  controls_wf (fw_controls s') →
  intf_store (fw_interfaces s) ⊆ intf_store (fw_interfaces s') →
  ctrl_store (fw_controls s) ⊆ ctrl_store (fw_controls s') →
  (∀ it, it ∈ entries (fw_nodes s') → it ∈ entries (fw_nodes s) ∨
     new = Some it ∧ ∃ p i, entry_ok s' it p i ∧ ctrl_store (fw_controls s) !! ctrl_data i = None) →
  (∀ p i, intf_store (fw_interfaces s') !! p = Some i →
     intf_store (fw_interfaces s) !! p = Some i ∨ node_interface s' i) →
  (length (entries (fw_nodes s')) <= size (ctrl_store (fw_controls s')))%nat →
  nodes_wf s'.
Proof.
  intros Hwf Hc Hi Hct Hsi Hsc Hent Hstored Hcount. split; [done..| | | |done].
  - intros it [Hold|(_ & p & i & Hok & _)]%Hent; [|by exists p, i].
    destruct (nw_entries _ Hwf it Hold) as (p & i & Hok). exists p, i. by eapply entry_ok_mono.
  - intros it1 it2 p1 p2 i1 i2 Hit1 Hit2 Hok1 Hok2 Heq.
    assert (Hcase : ∀ it p i, it ∈ entries (fw_nodes s') → entry_ok s' it p i →
      (it ∈ entries (fw_nodes s) ∧ entry_ok s it p i) ∨
      new = Some it ∧ ctrl_store (fw_controls s) !! ctrl_data i = None).
    { intros it p i [Hold|(Hn & p' & i' & Hok' & Hnone)]%Hent Hok.
      - left. split; [done|]. destruct (nw_entries _ Hwf it Hold) as (p' & i' & Hok').
        pose proof (entry_ok_mono s s' it p' i' Hsi Hsc Hok') as Hok''.
        by destruct (entry_ok_det s' it p i p' i' Hok Hok'') as [-> ->].
      - right. by destruct (entry_ok_det s' it p i p' i' Hok Hok') as [-> ->]. }
    destruct (Hcase it1 p1 i1 Hit1 Hok1) as [[Ho1 Hk1]|[Hn1 Hf1]],
      (Hcase it2 p2 i2 Hit2 Hok2) as [[Ho2 Hk2]|[Hn2 Hf2]].
    + by apply (nw_distinct _ Hwf it1 it2 p1 p2 i1 i2).
    + destruct Hk1 as (_ & _ & _ & Hl). rewrite <-Heq in Hf2. by rewrite Hf2 in Hl.
    + destruct Hk2 as (_ & _ & _ & Hl). rewrite Heq in Hf1. by rewrite Hf1 in Hl.
    + congruence.
  - intros p i [[Hl [sock Hsock]]%(nw_stored _ Hwf)|Hnew]%Hstored; [|done].
    split; [done|]. exists sock. by eapply lookup_weaken.
Qed.

(** The entry [node_create_interface] makes. *)
Definition new_entry s (addr : list Z) (p : Z) : node_item :=
  NodeItem (-1) (interface_id_counter (fw_interfaces s)) addr (SlabIntf p) 0.

(** What creating a node for [addr] may end in, as long as no node was removed. *)
Inductive create_outcome s (addr : list Z) : intf_ptr → fw → Prop :=
| no_memory :
    slab_blocks (node_control_data_slab (fw_controls s)) <= size (ctrl_store (fw_controls s)) →
    create_outcome s addr NullIntf s
(** The control data is not freed. *)
| no_interface s' c :
    slab_blocks (gb_interface_slab (fw_interfaces s)) <= size (intf_store (fw_interfaces s)) →
    fw_nodes s' = fw_nodes s → fw_interfaces s' = fw_interfaces s →
    ctrl_store (fw_controls s) !! c = None →
    ctrl_store (fw_controls s') = <[c := -1]> (ctrl_store (fw_controls s)) →
    slab_stray (node_control_data_slab (fw_controls s')) = true →
    create_outcome s addr NullIntf s'
| node_created s' p c :
    entries (fw_nodes s') = entries (fw_nodes s) ++ [new_entry s addr p] →
    intf_store (fw_interfaces s) !! p = None →
    intf_store (fw_interfaces s')
    = <[p := GbInterface (interface_id_counter (fw_interfaces s)) node_inf_write_cb node_create_cb
               node_destroy_cb c]> (intf_store (fw_interfaces s)) →
    ctrl_store (fw_controls s) !! c = None →
    ctrl_store (fw_controls s') = <[c := -1]> (ctrl_store (fw_controls s)) →
    interface_id_counter (fw_interfaces s')
    = snd (new_interface_id (interface_id_counter (fw_interfaces s))) →
    slabs_clean s' → controls_used s' = controls_used s + 1 →
    create_outcome s addr (SlabIntf p) s'.

(** The tables with one more node. *)
Lemma nodes_wf_add s s' addr p c :
  nodes_wf s → cache_wf (fw_nodes s') → interfaces_wf (fw_interfaces s') → controls_wf (fw_controls s') →
  entries (fw_nodes s') = entries (fw_nodes s) ++ [new_entry s addr p] →
  intf_store (fw_interfaces s) !! p = None →
  intf_store (fw_interfaces s')
  = <[p := GbInterface (interface_id_counter (fw_interfaces s)) node_inf_write_cb node_create_cb
             node_destroy_cb c]> (intf_store (fw_interfaces s)) →
  ctrl_store (fw_controls s) !! c = None →
  ctrl_store (fw_controls s') = <[c := -1]> (ctrl_store (fw_controls s)) →
  nodes_wf s'.
Proof.
  intros Hwf Hcwf Hiwf Hct Hent Hpf His Hcf Hcs. set (i := GbInterface _ _ _ _ c) in *.
  assert (Hnew : entry_ok s' (new_entry s addr p) p i).
  { split; [done|]. rewrite His, Hcs. split; [apply lookup_insert_eq|]. split; [done|]. apply lookup_insert_eq. }
  apply (nodes_wf_grow s _ (Some (new_entry s addr p)) Hwf); rewrite ?His, ?Hcs, ?Hent; try done.
  - by apply insert_subseteq.
  - by apply insert_subseteq.
  - intros it. rewrite elem_of_app, list_elem_of_singleton.
    intros [Hold| ->]; [by left|right]. split; [done|]. by exists p, i.
  - intros p' i' [[<- <-]|[_ Hl]]%lookup_insert_Some; [right|by left].
    split; [done|]. rewrite Hcs. exists (-1). apply lookup_insert_eq.
  - rewrite map_size_insert_None, length_app by done. cbn. pose proof (nw_count _ Hwf). lia.
Qed.

(** Once a node has been removed no node can be created: the slab hands out an
    address on the stack of the removal. *)
Lemma node_create_interface_stray s addr :
  slab_stray (node_control_data_slab (fw_controls s)) = true →
  node_create_interface addr s = Crash StackBlock.
Proof. intros Hs. unfold node_create_interface. by apply M_bind_Crash, ctrl_alloc_stray. Qed.

(** Creating a node, whatever the slabs. *)
Lemma node_create_interface_cases s addr :
  nodes_wf s → cache_map (fw_nodes s) !! interface_id_counter (fw_interfaces s) = None →
  node_create_interface addr s = Crash StackBlock ∧ ¬ slabs_clean s ∨
  ∃ r s', node_create_interface addr s = Done r s' ∧ nodes_wf s' ∧ same_elsewhere s s' ∧
    fw_net s' = fw_net s ∧ create_outcome s addr r s'.
Proof.
  intros Hwf Hid. destruct (slab_stray (node_control_data_slab (fw_controls s))) eqn:Hstray.
  { left. split; [by apply node_create_interface_stray|]. intros [Hs _]. by rewrite Hstray in Hs. }
  unfold node_create_interface.
  destruct (ctrl_alloc_spec s (nw_controls _ Hwf) Hstray)
    as [[Hrun Hfull]|(c & ct & Hrun & Hct & Hcf & Hcs & Hspare & Hcst & Hused)].
  { right. step_with Hrun. exists NullIntf, s. split; [done|]. split; [done|]. split; [by split|].
    split; [done|]. by apply no_memory. }
  step_with Hrun. set (s1 := store L_controls ct s).
  destruct (slab_stray (gb_interface_slab (fw_interfaces s))) eqn:Histray.
  { left. split; [|intros [_ Hs]; by rewrite Histray in Hs]. apply M_bind_Crash, zoom_Crash.
    by apply gb_interface_alloc_stray. }
  right. pose proof (gb_interface_alloc_spec (fw_interfaces s) node_inf_write_cb node_create_cb
    node_destroy_cb c (nw_interfaces _ Hwf) Histray) as Halloc.
  apply wp_Done in Halloc as (r & is' & Hrun2 & Halloc).
  step_zoom L_interfaces (Hrun2 : _ (view L_interfaces s1) = _).
  assert (Hsc : ctrl_store (fw_controls s) ⊆ ctrl_store ct).
  { rewrite Hcs. by apply insert_subseteq. }
  assert (Hsize : size (ctrl_store ct) = S (size (ctrl_store (fw_controls s)))).
  { by rewrite Hcs, map_size_insert_None. }
  destruct Halloc as [(-> & -> & Hfull)|(p & slab & -> & Hpf & Hiwf & _ & Hist & His)].
  { rewrite decide_True by done. set (s2 := store L_interfaces _ s1).
    destruct (ctrl_free_spec s2 Hct) as (ct' & Hfree & Hct' & Hcs' & Hst' & _).
    step_with Hfree. cbn in Hcs'.
    exists NullIntf. eexists. split; [done|]. split; [|split; [by split|split; [done|]]].
    - apply (nodes_wf_grow s _ None Hwf); cbn; rewrite ?Hcs'; try apply Hwf; try done; [by auto..|].
      pose proof (nw_count _ Hwf). lia.
    - apply (no_interface s addr _ c); try done. cbn. by rewrite Hcs'. }
  rewrite decide_False by done.
  set (i := GbInterface (interface_id_counter (fw_interfaces s)) node_inf_write_cb node_create_cb
              node_destroy_cb c) in *.
  set (s2 := store L_interfaces is' s1).
  assert (Hp : intf_store is' !! p = Some i) by (rewrite His; apply lookup_insert_eq).
  step_read L_interfaces (slab_deref s2 p i Hp).
  destruct (node_cache_add_spec (fw_nodes s) (-1) (id i) addr (SlabIntf p) (nw_cache _ Hwf) Hid)
    as (ret & c' & Hadd & Hcwf & Hcase).
  step_zoom L_nodes (Hadd : _ (view L_nodes s2) = _). set (s3 := store L_nodes c' s2).
  (* Every node has a control block, so the cache is not full. *)
  pose proof (nw_count _ Hwf) as Hcount. pose proof (length_entries _ (nw_cache _ Hwf)) as Hlen.
  destruct (Z.leb_spec MAX_GREYBUS_NODES (node_cache_pos (fw_nodes s))) as [Hfull|Hroom]; [lia|].
  destruct Hcase as (-> & _ & Hent). cbn [Z.ltb Z.compare].
  exists (SlabIntf p), s3. split; [done|]. split; [|split; [by split|split; [done|]]].
  - exact (nodes_wf_add s s3 addr p c Hwf Hcwf Hiwf Hct Hent Hpf (f_equal intf_store His) Hcf Hcs).
  - apply (node_created s addr _ p c); cbn; try done; [by rewrite His..|].
    split; [done|]. cbn. by rewrite His.
Qed.

Lemma node_create_interface_spec s addr :
  nodes_wf s → slabs_clean s →
  cache_map (fw_nodes s) !! interface_id_counter (fw_interfaces s) = None →
  ∃ r s', node_create_interface addr s = Done r s' ∧ nodes_wf s' ∧ same_elsewhere s s' ∧
    fw_net s' = fw_net s ∧ create_outcome s addr r s'.
Proof.
  intros Hwf Hclean Hid. by destruct (node_create_interface_cases s addr Hwf Hid) as [[_ []]|].
Qed.

(** C29: Creating a node maps its interface id to it in the cache and takes an interface and
    control data from the slabs. Destroying it restores the cache and touches nothing else, but
    frees neither: the slabs are given the addresses of local variables instead, both blocks
    stay allocated with the node's id and a control socket of -1, and the next node to be
    created gets an interface on a stack that has been left. *)
Theorem node_create_destroy s addr p s' :
  nodes_wf s → cache_map (fw_nodes s) !! interface_id_counter (fw_interfaces s) = None →
  node_create_interface addr s = Done (SlabIntf p) s' →
  cache_map (fw_nodes s')
  = <[interface_id_counter (fw_interfaces s) := new_entry s addr p]> (cache_map (fw_nodes s)) ∧
  ∃ c s'', node_destroy_interface (SlabIntf p) s' = Done () s'' ∧ nodes_wf s'' ∧
    same_elsewhere s s'' ∧ fw_net s'' = fw_net s ∧
    cache_map (fw_nodes s'') = cache_map (fw_nodes s) ∧
    intf_store (fw_interfaces s) !! p = None ∧
    intf_store (fw_interfaces s'')
    = <[p := GbInterface (interface_id_counter (fw_interfaces s)) node_inf_write_cb node_create_cb
               node_destroy_cb c]> (intf_store (fw_interfaces s)) ∧
    ctrl_store (fw_controls s) !! c = None ∧
    ctrl_store (fw_controls s'') = <[c := -1]> (ctrl_store (fw_controls s)) ∧
    ∀ addr', node_create_interface addr' s'' = Crash StackBlock.
Proof.
  intros Hwf Hid Hcreate.
  destruct (node_create_interface_cases s addr Hwf Hid) as [[Hrun _]|(r & s1 & Hrun & Hwf1 & Hsame & Hnet & Hout)];
    rewrite Hcreate in Hrun; [done|]. injection Hrun as <- <-.
  inversion Hout as [| |? ? c Hent Hpf Hi Hcf Hc]; subst. set (it := new_entry s addr p) in *.
  assert (Hin : it ∈ entries (fw_nodes s')).
  { rewrite Hent, elem_of_app, list_elem_of_singleton. by right. }
  assert (Hadd : cache_map (fw_nodes s')
    = <[interface_id_counter (fw_interfaces s) := it]> (cache_map (fw_nodes s))).
  { rewrite (cache_map_perm (fw_nodes s') (it :: entries (fw_nodes s))); [done|apply Hwf1|].
    rewrite Hent. solve_Permutation. }
  split; [done|]. set (i := GbInterface _ _ _ _ c) in *.
  assert (Hok : entry_ok s' it p i).
  { split; [done|]. rewrite Hi, Hc. split; [apply lookup_insert_eq|]. split; [done|].
    apply lookup_insert_eq. }
  destruct (node_destroy_interface_spec s' it p i Hwf1 Hin Hok)
    as (s2 & Hdestroy & [Hwf2 Hsame2 Hi2 Hc2 Hst2 _ Hnet2] & Hperm).
  exists c, s2. split; [done|]. split; [done|]. split; [by destruct Hsame, Hsame2; split; congruence|].
  split; [by rewrite Hnet2|]. split; [|by split_and!; rewrite ?Hi2, ?Hc2;
    try (intros addr'; apply node_create_interface_stray)].
  assert (Hlist : entries (fw_nodes s2) ≡ₚ entries (fw_nodes s)).
  { apply (Permutation_cons_inv (a := it)). rewrite <-Hperm, Hent. solve_Permutation. }
  unfold cache_map at 2. by rewrite (cache_map_perm (fw_nodes s2) (entries (fw_nodes s))) by
    (done || apply Hwf2).
Qed.

(** *** Connecting a node *)

Lemma connect_to_node_spec `{!SocketsLaws} addr s :
  ∃ ret n', connect_to_node addr s = Done ret (store L_net n' s).
Proof.
  unfold connect_to_node. step_getL L_net.
  destruct (if sa_family addr =? AF_INET6 then _ else _) as [sock n1]. step_modL L_net.
  destruct (sock <? 0); [by eexists _, _|]. step_getL L_net.
  destruct (zsock_connect n1 sock addr) as [r n2]. step_modL L_net.
  destruct (r =? 0); by eexists _, _.
Qed.

Lemma entry_index_unique s (j k : nat) it :
  nodes_wf s → entries (fw_nodes s) !! j = Some it → entries (fw_nodes s) !! k = Some it → j = k.
Proof.
  intros Hwf Hj Hk. eapply (NoDup_lookup (ni_id <$> entries (fw_nodes s))); [apply Hwf| |];
    by rewrite list_lookup_fmap, ?Hj, ?Hk.
Qed.

(** The other entries keep what belongs to them. *)
Lemma entry_ok_set_sock s s' it p i sock it0 p0 i0 :
  nodes_wf s → it ∈ entries (fw_nodes s) → entry_ok s it p i →
  fw_interfaces s' = fw_interfaces s →
  ctrl_store (fw_controls s') = <[ctrl_data i := sock]> (ctrl_store (fw_controls s)) →
  it0 ∈ entries (fw_nodes s) → entry_ok s it0 p0 i0 →
  entry_ok s' (if decide (it0 = it) then with_sock sock it else it0) p0 i0.
Proof.
  intros Hwf Hin Hok Hi Hcs Hin0 Hok0. pose proof Hok0 as (Ha & Hb & Hd & He). unfold entry_ok. rewrite Hi, Hcs.
  case_decide as Heq; [subst it0|].
  - destruct (entry_ok_det s it p i p0 i0 Hok Hok0) as [-> ->].
    split; [done|]. split; [done|]. split; [done|]. apply lookup_insert_eq.
  - split; [done|]. split; [done|]. split; [done|]. rewrite lookup_insert_ne; [done|].
    intros Hsame. apply Heq. symmetry. by apply (nw_distinct _ Hwf it it0 p p0 i i0).
Qed.

(** The tables with [it]'s socket set in both places. *)
Lemma nodes_wf_set_sock s s' (k : nat) it p i sock :
  nodes_wf s → entries (fw_nodes s) !! k = Some it → entry_ok s it p i →
  cache_wf (fw_nodes s') → entries (fw_nodes s') = <[k := with_sock sock it]> (entries (fw_nodes s)) →
  fw_interfaces s' = fw_interfaces s → controls_wf (fw_controls s') →
  ctrl_store (fw_controls s') = <[ctrl_data i := sock]> (ctrl_store (fw_controls s)) →
  nodes_wf s'.
Proof.
  intros Hwf Hk Hok Hc Hent Hi Hct Hcs. apply list_elem_of_lookup_2 in Hk as Hin.
  pose proof (lookup_lt_Some _ _ _ Hk) as Hlt. set (change it0 := if decide (it0 = it) then with_sock sock it else it0).
  assert (Hold : ∀ it', it' ∈ entries (fw_nodes s') → ∃ it0, it0 ∈ entries (fw_nodes s) ∧ it' = change it0).
  { intros it' [j Hj]%list_elem_of_lookup. rewrite Hent in Hj. unfold change.
    apply list_lookup_insert_Some in Hj as [(-> & -> & _)|[Hne Hj]]; [exists it; by rewrite decide_True|].
    exists it'. split; [by eapply list_elem_of_lookup_2|]. case_decide as Heq; [|done]. subst it'.
    by destruct Hne; apply (entry_index_unique s k j it). }
  assert (Hnew : ∀ it0, it0 ∈ entries (fw_nodes s) → change it0 ∈ entries (fw_nodes s')).
  { intros it0 [j Hj]%list_elem_of_lookup. unfold change. rewrite Hent.
    case_decide as Heq; [by apply list_elem_of_insert|]. apply (list_elem_of_lookup_2 _ j).
    rewrite list_lookup_insert_ne; [done|]. intros <-. rewrite Hk in Hj. by injection Hj. }
  assert (Hback : ∀ it0 p' i', it0 ∈ entries (fw_nodes s) → entry_ok s' (change it0) p' i' → entry_ok s it0 p' i').
  { intros it0 p' i' Hin0 (Ha & Hb & _). rewrite Hi in Hb.
    destruct (nw_entries _ Hwf it0 Hin0) as (p0 & i0 & Hok0). pose proof Hok0 as (Ha0 & Hb0 & _).
    assert (ni_inf (change it0) = ni_inf it0) as Heq by (unfold change; by case_decide; subst).
    rewrite Heq, Ha0 in Ha. injection Ha as ->. rewrite Hb in Hb0. by injection Hb0 as ->. }
  split; [done|by rewrite Hi; apply Hwf|done| | | |].
  - intros it' (it0 & Hin0 & ->)%Hold. destruct (nw_entries _ Hwf it0 Hin0) as (p' & i' & Hok').
    exists p', i'. by apply (entry_ok_set_sock s s' it p i).
  - intros it1 it2 p1 p2 i1 i2 (o1 & Ho1 & ->)%Hold (o2 & Ho2 & ->)%Hold Hok1%Hback Hok2%Hback Heq; [|done..].
    f_equal. by apply (nw_distinct _ Hwf o1 o2 p1 p2 i1 i2).
  - intros p' i'. rewrite Hi. intros [Hl Hsock]%(nw_stored _ Hwf). split; [done|].
    rewrite Hcs. by apply lookup_insert_is_Some'; right.
  - rewrite Hcs, Hent, length_insert, map_size_insert_Some; [by apply Hwf|].
    destruct Hok as (_ & _ & _ & He). by eexists.
Qed.

Lemma node_intf_create_connection_spec `{!SocketsLaws} s it p i cport :
  nodes_wf s → it ∈ entries (fw_nodes s) → entry_ok s it p i →
  ∃ ret s', node_intf_create_connection (ni_inf it) cport s = Done ret s' ∧
    nodes_wf s' ∧ same_elsewhere s s' ∧ fw_interfaces s' = fw_interfaces s ∧
    if decide (cport ≠ 0) then ret = 0 ∧ s' = s
    else if decide (0 <= ni_sock it) then ret = ni_sock it ∧ s' = s
    else if decide (ret < 0) then fw_nodes s' = fw_nodes s ∧ fw_controls s' = fw_controls s
    else ∃ k : nat, entries (fw_nodes s) !! k = Some it ∧
           entries (fw_nodes s') = <[k := with_sock ret it]> (entries (fw_nodes s)) ∧
           ctrl_store (fw_controls s') = <[ctrl_data i := ret]> (ctrl_store (fw_controls s)).
Proof.
  intros Hwf Hit Hok. pose proof Hok as (Hinf & Hp & Hi & Hc). unfold node_intf_create_connection.
  step_read L_interfaces (entry_deref s it p i Hok).
  destruct (Z.eqb_spec cport 0) as [->|Hcp]; cbn [negb]; cycle 1.
  { exists 0, s. rewrite decide_True by done. by split_and!. }
  destruct (decide (0 ≠ 0)) as [Hz|_]; [by destruct Hz|].
  step_with (ctrl_sock_ok s (ctrl_data i) (ni_sock it) (nw_controls _ Hwf) Hc).
  destruct (Z.leb_spec 0 (ni_sock it)).
  { exists (ni_sock it), s. rewrite decide_True by done. by split_and!. }
  destruct (decide (0 <= ni_sock it)); [lia|]. assert (Hid : id i = ni_id it) by (by rewrite Hi). rewrite Hid.
  destruct (node_cache_find_by_id_entry (fw_nodes s) it (nw_cache _ Hwf) Hit) as (k & Hfind & Hk & Hat).
  step_read L_nodes (Hfind : _ (view L_nodes s) = _). destruct (Z.ltb_spec k 0); [lia|].
  step_read L_nodes (Hat : _ (view L_nodes s) = _).
  destruct (connect_to_node_spec (Sockaddr AF_INET6 (ni_addr it) GB_TRANSPORT_TCPIP_BASE_PORT) s)
    as (ret & n' & Hconn). step_with Hconn.
  destruct (Z.ltb_spec ret 0) as [Hneg|Hpos].
  { exists ret. eexists. split; [done|]. rewrite decide_True by done. split; [by destruct Hwf|].
    by split_and!. }
  destruct (node_cache_set_sock_spec (fw_nodes s) k it ret (nw_cache _ Hwf) Hk)
    as (c' & Hset & Hcwf & Hent).
  step_zoom L_nodes (Hset : _ (view L_nodes (store L_net n' s)) = _).
  unfold ctrl_set_sock. rewrite M_bind_assoc.
  match goal with |- ∃ _ _, mbind _ _ ?s1 = _ ∧ _ => set (s1' := s1) end.
  step_with (ctrl_sock_ok s1' (ctrl_data i) (ni_sock it) (nw_controls _ Hwf) Hc).
  step_modL L_controls. unfold pipe_send. rewrite M_bind_assoc. step_getL L_pipe.
  unfold sock_send. rewrite !M_bind_assoc. step_getL L_net.
  destruct (zsock_send _ _ _) as [r n2]. rewrite !M_bind_assoc. step_modL L_net.
  exists ret. eexists. split; [done|]. rewrite decide_False by lia.
  split; [|split; [by split|split; [done|by exists k]]].
  apply (nodes_wf_set_sock s _ k it p i ret); try done.
  destruct (nw_controls _ Hwf) as [Hlive Hnull Hblocks]. split; cbn; [| |done].
  - rewrite dom_insert_lookup_L; [done|by eexists].
  - rewrite lookup_insert_ne; [done|]. intros Heq. rewrite Heq in Hc. by rewrite Hnull in Hc.
Qed.
End NodeLife.
