(* ===== verification/Ap.v ===== *)
(** * Messages to the AP (src/ap.c, include/hdlc.h, src/main.c)

    [ap_send] copies a message into a stack buffer, sends it as one HDLC frame
    through [hdlc_send_callback], and frees it. *)

From S2P Require Import Prelude Config Protocols Hdlc Kernel Messages Interfaces NodeCache State.
From S2P Require Import ApMap.

Section Ap.
Context `{Config, Crc16, KHeap, KSlab, Sockets, Stack}.

Definition ap_init : M fw () := mret ().
Definition ap_deinit : M fw () := mret ().

(** [uart_poll_out(uart_dev, byte)] *)
Definition uart_poll_out (byte : Z) : M fw () := modL L_uart (λ out, out ++ [byte]).

Fixpoint poll_out_from (buffer : list Z) (n : nat) (i : Z) : M fw Z :=
  match n with
  | O => mret i
  | S n => b ← array_get buffer i; _ ← uart_poll_out b; poll_out_from buffer n (i + 1)
  end.

Definition hdlc_send_callback (buffer : list Z) (buffer_len : Z) : M fw Z :=
  poll_out_from buffer (Z.to_nat buffer_len) 0.

Definition gb_message_hdlc_send (msg cport : Z) : M fw Z :=
  let buffer := stack_bytes (Z.to_nat HDLC_MAX_BLOCK_SIZE) in
  buffer ← memcpy_at buffer 0 (le_bytes 2 cport) 2;
  m ← zoom L_messages (msg_deref msg);
  buffer ← memcpy_at buffer 2 (to_wire (header m)) (sizeof gb_operation_msg_hdr);
  buffer ← memcpy_at buffer (sizeof gb_operation_msg_hdr + 2) (payload m)
             (gb_message_payload_len m);
  _ ← hdlc_block_send_sync L_hdlc hdlc_send_callback buffer (hdr_size (header m) + 2)
        ADDRESS_GREYBUS 0x03;
  mret 0.

Definition ap_send (msg cport : Z) : M fw Z :=
  ret ← gb_message_hdlc_send msg cport;
  _ ← zoom L_messages (gb_message_dealloc msg);
  mret ret.
End Ap.

(** ** One frame per message *)

Section Facts.
Context `{Config, !ConfigOk _, Crc16, !Crc16Laws, KHeap, !KHeapLaws, KSlab, Sockets,
          Stack, !StackLaws}.
Implicit Types s : fw.

Lemma poll_out_from_spec buffer n (i : nat) s :
  (i + n <= length buffer)%nat →
  poll_out_from buffer n i s
  = Done (i + n) (store L_uart (fw_uart s ++ take n (drop i buffer)) s).
Proof.
  revert i s. induction n as [|n IH]; intros i s Hi; cbn [poll_out_from].
  { rewrite take_0, app_nil_r, Z.add_0_r. by destruct s. }
  destruct (lookup_lt_is_Some_2 buffer i) as [b Hb]; [lia|].
  step_with (array_get_ok buffer i b s ltac:(lia) ltac:(by rewrite Nat2Z.id)).
  unfold uart_poll_out. step_modL L_uart.
  replace (i + 1) with (Z.of_nat (S i)) by lia. rewrite IH by lia. f_equal; [lia|].
  cbn [store L_uart fw_uart]. rewrite (drop_S _ _ _ Hb). cbn [take]. by rewrite <-app_assoc.
Qed.

Lemma hdlc_send_callback_spec buffer n s :
  0 <= n <= length buffer →
  hdlc_send_callback buffer n s
  = Done n (store L_uart (fw_uart s ++ take (Z.to_nat n) buffer) s).
Proof.
  intros Hn. unfold hdlc_send_callback.
  pose proof (poll_out_from_spec buffer (Z.to_nat n) 0 s) as Hp.
  change (Z.of_nat 0) with 0 in Hp. rewrite Hp, drop_0 by lia. f_equal. lia.
Qed.

Lemma send_all_uart bs s :
  send_all hdlc_send_callback bs s = Done () (store L_uart (fw_uart s ++ bs) s).
Proof.
  revert s. induction bs as [|b bs IH]; intros s; cbn [send_all].
  { rewrite app_nil_r. by destruct s. }
  step_with (hdlc_send_callback_spec [b] 1 s ltac:(done)). rewrite IH.
  cbn. by rewrite <-app_assoc.
Qed.

Lemma block_send_sync_uart buffer len address control s :
  control ≠ 0 → 0 <= len <= length buffer →
  hdlc_block_send_sync L_hdlc hdlc_send_callback buffer len address control s
  = Done 0 (store L_uart (fw_uart s ++ frame_bytes address control (take (Z.to_nat len) buffer)) s).
Proof.
  intros Hc Hl. rewrite (block_send_sync_frame L_hdlc hdlc_send_callback buffer len address control Hc Hl s).
  by step_with (send_all_uart (frame_bytes address control (take (Z.to_nat len) buffer)) s).
Qed.

(** C12: Sending a block appends to the UART exactly one frame: the flag, the address, the
    control byte (the driver's sequence number when it is 0), the block and the complemented
    checksum with flag and escape bytes escaped, and the flag. *)
Theorem hdlc_block_send_sync_frame buffer len address control s :
  0 <= len <= length buffer →
  let control' := if control =? 0 then u8 (Z.shiftl (send_seq (fw_hdlc s)) 1) else control in
  hdlc_block_send_sync L_hdlc hdlc_send_callback buffer len address control s
  = Done 0 (store L_uart (fw_uart s ++ frame_bytes address control' (take (Z.to_nat len) buffer)) s).
Proof.
  intros Hl control'. subst control'. destruct (Z.eqb_spec control 0) as [->|Hc]; cycle 1.
  { by apply block_send_sync_uart. }
  rewrite (block_send_sync_iframe L_hdlc hdlc_send_callback buffer len address Hl s).
  set (hd := HDLC_FRAME :: stuff_byte address).
  step_with (send_all_uart hd s). step_getL L_hdlc.
  step_with (send_all_uart (drop (length hd) (frame_bytes address
    (u8 (Z.shiftl (send_seq (fw_hdlc s)) 1)) (take (Z.to_nat len) buffer)))
    (store L_uart (fw_uart s ++ hd) s)).
  cbn [store L_uart fw_uart]. unfold mret, M_ret. do 2 f_equal. rewrite <-app_assoc. f_equal.
  unfold frame_bytes, frame_body. cbn [app]. rewrite stuff_cons, <-app_assoc.
  change (HDLC_FRAME :: stuff_byte address ++ ?r) with (hd ++ r). by rewrite drop_app_length.
Qed.

(** *** Whole messages *)

Definition ap_frame (cport : Z) (b : gb_message) : list Z :=
  frame_bytes ADDRESS_GREYBUS 0x03 (message_wire cport b).

Lemma length_message_wire cport b :
  (length (message_wire cport b) : Z) = 10 + length (payload b).
Proof.
  unfold message_wire. rewrite !length_app, length_le_bytes, length_to_wire.
  change (sizeof gb_operation_msg_hdr) with 8%nat. lia.
Qed.

Lemma message_wire_bytes cport b : sendable b → bytes (message_wire cport b).
Proof.
  intros Hb. unfold message_wire. apply Forall_app_2; [apply le_bytes_bytes|].
  apply Forall_app_2; [apply to_wire_bytes|apply Hb].
Qed.

(** The stack buffer after the three copies. *)
Lemma hdlc_buffer_filled cport b s :
  let cap := Z.to_nat HDLC_MAX_BLOCK_SIZE in
  10 + length (payload b) <= HDLC_MAX_BLOCK_SIZE →
  (buffer ← memcpy_at (stack_bytes cap) 0 (le_bytes 2 cport) 2;
   buffer ← memcpy_at buffer 2 (to_wire (header b)) (sizeof gb_operation_msg_hdr);
   memcpy_at buffer (sizeof gb_operation_msg_hdr + 2) (payload b) (length (payload b))) s
  = Done (message_wire cport b ++ drop (10 + length (payload b)) (stack_bytes cap)) s.
Proof.
  intros cap Hl. change (sizeof gb_operation_msg_hdr) with 8%nat.
  assert (Hcap : (length (stack_bytes cap) : Z) = HDLC_MAX_BLOCK_SIZE).
  { rewrite length_stack_bytes. unfold cap. lia. }
  assert (Hle : length (le_bytes 2 cport) = 2%nat) by apply length_le_bytes.
  assert (Hw : length (to_wire (header b)) = 8%nat) by (by rewrite length_to_wire).
  step_with (memcpy_at_ok (stack_bytes cap) 0 (le_bytes 2 cport) 2 s ltac:(lia) ltac:(lia) ltac:(lia)).
  rewrite take_0. cbn [app]. change (Z.to_nat 2) with 2%nat. rewrite take_ge by lia.
  set (buf1 := le_bytes 2 cport ++ drop (0 + 2) (stack_bytes cap)).
  assert (length buf1 = length (stack_bytes cap)) as Hb1.
  { unfold buf1. rewrite length_app, length_drop. lia. }
  step_with (memcpy_at_ok buf1 2 (to_wire (header b)) 8%nat s ltac:(lia) ltac:(lia) ltac:(lia)).
  rewrite Nat2Z.id, (take_ge (to_wire _)) by lia.
  assert (Ht1 : take 2 buf1 = le_bytes 2 cport) by (unfold buf1; by rewrite <-Hle, take_app_length).
  assert (Hd1 : drop (2 + 8) buf1 = drop 10 (stack_bytes cap)).
  { unfold buf1. rewrite drop_app_ge by (rewrite Hle; lia). rewrite Hle, drop_drop. done. }
  rewrite Ht1, Hd1, app_assoc. set (hd := le_bytes 2 cport ++ to_wire (header b)).
  assert (length hd = 10%nat) as Hhd by (unfold hd; rewrite length_app; lia).
  rewrite (memcpy_at_ok (hd ++ _) (8 + 2)%nat (payload b) (length (payload b)) s) by
    (rewrite ?length_app, ?length_drop; lia).
  rewrite Nat2Z.id, (take_ge (payload b)) by lia.
  replace (8 + 2)%nat with (length hd) by lia. rewrite take_app_length.
  rewrite drop_app_ge by lia. rewrite drop_drop. unfold message_wire.
  replace (10 + _)%nat with (10 + length (payload b))%nat by lia.
  unfold hd. by rewrite <-!app_assoc.
Qed.

(** [ap_send] emits the message as one frame and frees it. *)
Lemma ap_send_spec p cport b s :
  messages_wf (fw_messages s) → msg_store (fw_messages s) !! p = Some b → sendable b →
  10 + length (payload b) <= HDLC_MAX_BLOCK_SIZE →
  ∃ m', freed p (fw_messages s) m' ∧
    ap_send p cport s
    = Done 0 (store L_messages m' (store L_uart (fw_uart s ++ ap_frame cport b) s)).
Proof.
  intros Hwf Hp Hb Hl.
  destruct (gb_message_dealloc_freed (fw_messages s) p b Hwf Hp) as (m' & Hfree & Hm').
  exists m'. split; [done|]. unfold ap_send, gb_message_hdlc_send.
  pose proof (hdlc_buffer_filled cport b s Hl) as Hfill. cbv zeta in Hfill.
  apply M_bind_inv in Hfill as (buf1 & s1 & Hrun1 & Hfill).
  apply M_bind_inv in Hfill as (buf2 & s2 & Hrun2 & Hrun3).
  apply memcpy_at_state in Hrun1 as Hs1. subst s1. apply memcpy_at_state in Hrun2 as Hs2. subst s2.
  rewrite !M_bind_assoc. step_with Hrun1. rewrite !M_bind_assoc.
  step_read L_messages (msg_deref_ok (fw_messages s) p b Hwf Hp : _ (view L_messages s) = _).
  rewrite M_bind_assoc. step_with Hrun2.
  rewrite (sendable_payload_len b Hb), M_bind_assoc. step_with Hrun3. rewrite M_bind_assoc.
  pose proof (length_message_wire cport b) as Hlen. rewrite (sb_size _ Hb).
  set (buf := message_wire cport b ++ _).
  assert (Hbuf : 0 <= 8 + length (payload b) + 2 <= length buf) by (unfold buf; rewrite length_app; lia).
  step_with (block_send_sync_uart buf _ ADDRESS_GREYBUS 0x03 s ltac:(done) Hbuf).
  assert (Htake : take (Z.to_nat (8 + length (payload b) + 2)) buf = message_wire cport b).
  { unfold buf. rewrite take_app_le, take_ge by lia. done. }
  rewrite Htake. unfold mret, M_ret, mbind at 1, M_bind at 1.
  by step_zoom L_messages (Hfree : _ (view L_messages (store L_uart (fw_uart s ++ ap_frame cport b) s)) = _).
Qed.

(** Sending the AP a message longer than the block size less ten writes past the end of the
    stack buffer. *)
Theorem ap_send_overflow p cport b s :
  messages_wf (fw_messages s) → msg_store (fw_messages s) !! p = Some b → sendable b →
  HDLC_MAX_BLOCK_SIZE < 10 + length (payload b) →
  ap_send p cport s = Crash OutOfBounds.
Proof.
  intros Hwf Hp Hb Hl. unfold ap_send, gb_message_hdlc_send. apply M_bind_Crash.
  pose proof hdlc_block_ok as Hok. unfold HDLC_MAX_BLOCK_SIZE in *.
  set (cap := Z.to_nat CONFIG_BEAGLEPLAY_HDLC_MAX_BLOCK_SIZE).
  pose proof (length_stack_bytes cap) as Hcap. unfold cap in Hcap at 2.
  change (sizeof gb_operation_msg_hdr) with 8%nat.
  assert (Hle : length (le_bytes 2 cport) = 2%nat) by apply length_le_bytes.
  assert (Hw : length (to_wire (header b)) = 8%nat) by (by rewrite length_to_wire).
  step_with (memcpy_at_ok (stack_bytes cap) 0 (le_bytes 2 cport) 2 s ltac:(lia) ltac:(lia) ltac:(lia)).
  step_read L_messages (msg_deref_ok (fw_messages s) p b Hwf Hp : _ (view L_messages s) = _).
  rewrite take_0. cbn [app]. set (buf1 := take _ (le_bytes 2 cport) ++ _).
  assert (length buf1 = length (stack_bytes cap)) as Hb1.
  { unfold buf1. rewrite length_app, length_take, length_drop. lia. }
  step_with (memcpy_at_ok buf1 2 (to_wire (header b)) 8%nat s ltac:(lia) ltac:(lia) ltac:(lia)).
  rewrite (sendable_payload_len b Hb). apply M_bind_Crash, memcpy_at_oob.
  rewrite !length_app, !length_take, length_drop. lia.
Qed.
End Facts.

(** ** What the AP bridge promises its clients

    The SVC and the local node are verified against this interface; the bridge
    provides it for messages that go to the AP. *)

(** [p] was sent to the AP as [out]. *)
Definition sent_to_ap `{KHeap, KSlab, Sockets} (p : Z) (out : list Z) (s s' : fw) : Prop :=
  ∃ m', freed p (fw_messages s) m' ∧
    s' = store L_messages m' (store L_uart (fw_uart s ++ out) s).

(** The state of the link: the table is whole and the messages are consistent. *)
Record link_wf `{Config, KHeap, KSlab, Sockets} (s : fw) : Prop := {
  lw_map : ap_map_wf (fw_ap_map s);
  lw_messages : messages_wf (fw_messages s);
}.

Class ApLink `{Config, Crc16, KHeap, KSlab, Sockets} (cs : Z → Z → Z → M fw Z) := {
  ap_link_send intf_id cport p b j s :
    link_wf s → intf_id ≠ AP_INF_ID → msg_store (fw_messages s) !! p = Some b → sendable b →
    10 + length (payload b) <= HDLC_MAX_BLOCK_SIZE →
    ap_cport_of intf_id cport (fw_ap_map s) = Some j →
    ∃ s', cs intf_id cport p s = Done 0 s' ∧ sent_to_ap p (ap_frame j b) s s';
  ap_link_unknown intf_id cport p s :
    link_wf s → intf_id ≠ AP_INF_ID → ap_cport_of intf_id cport (fw_ap_map s) = None →
    cs intf_id cport p s = Done (- EINVAL) s;
}.

(** *** Responses

    A client answers a request by allocating a response and sending it. *)

(** [out] was sent and the messages are what they were. *)
Definition answered `{KHeap, KSlab, Sockets} (out : list Z) (s s' : fw) : Prop :=
  ∃ m', messages_wf m' ∧ msg_store m' = msg_store (fw_messages s) ∧
    operation_id_counter m' = operation_id_counter (fw_messages s) ∧
    stale_reads m' = stale_reads (fw_messages s) ∧
    s' = store L_messages m' (store L_uart (fw_uart s ++ out) s).

Section Clients.
Context `{Config, !ConfigOk _, Crc16, KHeap, !KHeapLaws, KSlab, Sockets}.
Context (cs : Z → Z → Z → M fw Z) `{!ApLink cs}.
Implicit Types s : fw.

Lemma message_is_sendable pl type id status r :
  block_ok r → message_is pl type id status r → 8 + length pl < 2 ^ 16 → sendable r.
Proof.
  intros (Hr & Hb & _) [Hpl Hf] Hl. split; [done|done|].
  rewrite (fb_size _ _ _ _ _ Hf), Hpl. change (Z.of_nat (sizeof gb_operation_msg_hdr)) with 8.
  apply u16_id. unfold is_u16. lia.
Qed.

(** The body both response helpers share. *)
Lemma respond_spec nid cport p b pl status j s :
  link_wf s → nid ≠ AP_INF_ID → msg_store (fw_messages s) !! p = Some b →
  bytes pl → 10 + length pl <= HDLC_MAX_BLOCK_SIZE → is_u8 status →
  ap_cport_of nid cport (fw_ap_map s) = Some j →
  k_heap_alloc (greybus_messages_heap (fw_messages s)) (8 + length pl) ≠ None →
  ∃ r s', (m ← zoom L_messages (msg_deref p);
           resp ← zoom L_messages (gb_message_response_alloc pl (length pl)
                     (hdr_type (header m)) (hdr_operation_id (header m)) status);
           if resp =? NULL then mret ()
           else (ret ← cs nid cport resp; mret ())) s = Done () s' ∧
    message_is pl (Z.lor GB_OP_RESPONSE (hdr_type (header b))) (hdr_operation_id (header b)) status r ∧
    answered (ap_frame j r) s s'.
Proof.
  intros [Hmap Hwf] Hn Hp Hpl Hl Hst Hj Hroom. pose proof hdlc_block_ok as Hok.
  unfold HDLC_MAX_BLOCK_SIZE in Hl.
  step_read L_messages (msg_deref_ok (fw_messages s) p b Hwf Hp : _ (view L_messages s) = _).
  destruct (wf_blocks _ Hwf p b Hp) as (Hr & _ & _).
  assert (Hrange : is_u8 (hdr_type (header b)) ∧ is_u16 (hdr_operation_id (header b))).
  { destruct (header b). apply in_range_header in Hr. tauto. }
  destruct Hrange as [Hty Hid].
  pose proof (alloc_fill_spec (fw_messages s) pl (Z.lor GB_OP_RESPONSE (hdr_type (header b)))
    (hdr_operation_id (header b)) status Hwf Hpl ltac:(lia) ltac:(by apply lor_is_u8) Hid Hst
    (or_introl Hroom)) as Halloc.
  apply wp_Done in Halloc as (resp & m1 & Hrun & [(_ & _ & _ & Hnone)|(r & Ha & Hmsg)]); [done|].
  destruct Ha as (heap & Hresp & Hfresh & Hwf1 & Hm1).
  step_zoom L_messages (Hrun : _ (view L_messages s) = _).
  destruct (Z.eqb_spec resp NULL); [done|].
  set (s1 := store L_messages m1 s).
  assert (Hlook : msg_store m1 !! resp = Some r) by (rewrite Hm1; apply lookup_insert_eq).
  assert (Hsend : sendable r).
  { eapply message_is_sendable; [by apply (wf_blocks _ Hwf1 resp)|done|lia]. }
  destruct (ap_link_send nid cport resp r j s1) as (s2 & Hcs & m2 & Hm2 & Hs2); try done.
  { rewrite (proj1 Hmsg). unfold HDLC_MAX_BLOCK_SIZE. lia. }
  exists r, s2. split; [by step_with Hcs|]. split; [done|]. exists m2. destruct Hm2 as [Hw Hst2 Hc Hsr].
  split; [done|]. rewrite Hst2, Hc, Hsr. cbn [fw_messages store L_messages s1].
  rewrite Hm1. cbn [msg_store operation_id_counter stale_reads].
  split; [by rewrite delete_insert_id|]. by rewrite Hs2.
Qed.
End Clients.
