(* ===== verification/TxRace.v ===== *)
(** * The transmitter under preemption (src/hdlc.c, include/hdlc.h)

    [hdlc_block_send_sync] writes a frame byte by byte through
    [uart_poll_out] and takes no lock.  The work queue (priority 5) sends the
    SVC's responses, the receive and discovery threads (priority 6) forward
    the nodes' messages and the SVC's requests, and any thread's log calls send
    debug frames, so one frame may begin in the middle of another.

    Here the send callback lets other threads run before each byte of a frame:
    the program is [Hdlc.hdlc_block_send_sync] itself, run over the firmware's
    state and the number of bytes the call has written. *)

From S2P Require Import Prelude Config Protocols Hdlc HdlcRx Kernel Messages Interfaces NodeCache State ApMap Ap.

(** A thread inside [hdlc_block_send_sync]: what it shares with the others, and
    how many bytes of its frame are out. *)
Record sender `{KHeap, KSlab, Sockets} := Sender { bytes_out : nat; shared_state : fw }.

Section Preempted.
Context `{Config, Crc16, KHeap, KSlab, Sockets}.

Definition L_shared : lens sender fw := Lens shared_state (λ s w, Sender _ _ _ (bytes_out w) s).
Definition L_bytes_out : lens sender nat :=
  Lens bytes_out (λ n w, Sender _ _ _ n (shared_state w)).

#[export] Instance L_shared_laws : LensLaws L_shared.
Proof. by split; [|intros []|]. Qed.
#[export] Instance L_bytes_out_laws : LensLaws L_bytes_out.
Proof. by split; [|intros []|]. Qed.

(** [hdlc_driver.send_frame_cb]: before the call's [n]-th byte, [others n]
    runs. *)
Definition preempted_callback (others : nat → M fw ()) (buffer : list Z) (buffer_len : Z)
    : M sender Z :=
  n ← getL L_bytes_out;
  _ ← zoom L_shared (others n);
  _ ← modL L_bytes_out S;
  zoom L_shared (hdlc_send_callback buffer buffer_len).

Definition hdlc_block_send_preempted (others : nat → M fw ())
    (buffer : list Z) (buffer_len address control : Z) : M fw Z := λ s,
  match hdlc_block_send_sync (lens_comp L_shared L_hdlc) (preempted_callback others)
          buffer buffer_len address control (Sender _ _ _ 0 s) with
  | Done r w => Done r (shared_state w)
  | Crash f => Crash f
  end.

(** One other thread runs, before byte [k]. *)
Definition at_byte (k : nat) (other : M fw ()) : nat → M fw () :=
  λ n, if decide (n = k) then other else mret ().

(** What is on the wire when others write [outs n] before byte [n]. *)
Fixpoint interleave (outs : nat → list Z) (n : nat) (bs : list Z) : list Z :=
  match bs with
  | [] => []
  | b :: bs => outs n ++ b :: interleave outs (S n) bs
  end.
End Preempted.

(** ** The bytes on the wire *)

Section Interleaving.
Context `{Config, !ConfigOk _, Crc16, !Crc16Laws, KHeap, !KHeapLaws, KSlab, Sockets,
          Stack, !StackLaws}.
Implicit Types s : fw.

Lemma preempted_send (others : nat → M fw ()) b n s s1 :
  others n s = Done () s1 →
  preempted_callback others [b] 1 (Sender _ _ _ n s)
  = Done 1 (Sender _ _ _ (S n) (store L_uart (fw_uart s1 ++ [b]) s1)).
Proof.
  intros Hother. unfold preempted_callback. step_getL L_bytes_out.
  cbn [bytes_out].
  step_zoom L_shared (Hother : others n (view L_shared (Sender _ _ _ n s)) = _).
  step_modL L_bytes_out. unfold zoom. cbn [view L_shared store L_bytes_out shared_state bytes_out].
  by rewrite (hdlc_send_callback_spec [b] 1 s1 ltac:(done)).
Qed.

(** What the others do: they take [I n] to [I (S n)], which do not depend on the
    UART's history, and add [outs n] to the UART before byte [n]. *)
Record well_behaved (I : nat → fw → Prop) (others : nat → M fw ()) (outs : nat → list Z)
    : Prop := {
  wb_run n s :
    I n s → ∃ s', others n s = Done () s' ∧ I (S n) s' ∧ fw_uart s' = fw_uart s ++ outs n;
  wb_uart n out s : I n s → I n (store L_uart out s);
}.

Lemma send_all_preempted I others outs bs n s :
  well_behaved I others outs → I n s →
  ∃ s', send_all (preempted_callback others) bs (Sender _ _ _ n s)
        = Done () (Sender _ _ _ (n + length bs) s') ∧
    I (n + length bs)%nat s' ∧ fw_uart s' = fw_uart s ++ interleave outs n bs.
Proof.
  intros Hwb. revert n s. induction bs as [|b bs IH]; intros n s Hs; cbn [send_all interleave length].
  { exists s. by rewrite Nat.add_0_r, app_nil_r. }
  destruct (wb_run _ _ _ Hwb n s Hs) as (s1 & Hother & Hs1 & Hu1).
  step_with (preempted_send others b n s s1 Hother).
  destruct (IH (S n) (store L_uart (fw_uart s1 ++ [b]) s1) (wb_uart _ _ _ Hwb _ _ _ Hs1))
    as (s' & Hrun & Hs' & Hu').
  exists s'. rewrite Nat.add_succ_r. split; [exact Hrun|]. split; [exact Hs'|].
  rewrite Hu'. cbn. by rewrite Hu1, <-!app_assoc.
Qed.

Lemma block_send_preempted_run I others outs buffer len address control s :
  well_behaved I others outs → I 0%nat s → control ≠ 0 → 0 <= len <= length buffer →
  let wire := frame_bytes address control (take (Z.to_nat len) buffer) in
  ∃ s', hdlc_block_send_preempted others buffer len address control s = Done 0 s' ∧
    I (length wire) s' ∧ fw_uart s' = fw_uart s ++ interleave outs 0 wire.
Proof.
  intros Hwb Hs Hc Hl wire.
  destruct (send_all_preempted I others outs wire 0 s Hwb Hs) as (s' & Hrun & Hs' & Hu).
  exists s'. split; [|by split]. unfold hdlc_block_send_preempted.
  rewrite (block_send_sync_frame (lens_comp L_shared L_hdlc) (preempted_callback others)
    buffer len address control Hc Hl (Sender _ _ _ 0 s)).
  by step_with Hrun.
Qed.

(** C13: Whatever other threads do before each byte of a frame with a control byte other than 0,
    as long as they end and only add to the UART, sending the frame ends and leaves on the UART
    the frame's bytes in order, with what the others wrote in between at exactly the places
    where they ran: no byte is lost or changed, but nothing keeps frames apart. *)
Theorem tx_preempted_interleaves I others outs buffer len address control s :
  well_behaved I others outs → I 0%nat s → control ≠ 0 → 0 <= len <= length buffer →
  let wire := frame_bytes address control (take (Z.to_nat len) buffer) in
  ∃ s', hdlc_block_send_preempted others buffer len address control s = Done 0 s' ∧
    I (length wire) s' ∧ fw_uart s' = fw_uart s ++ interleave outs 0 wire.
Proof. apply block_send_preempted_run. Qed.

Lemma interleave_nil n bs : interleave (λ _, []) n bs = bs.
Proof. revert n. induction bs as [|b bs IH]; intros n; cbn; [done|by rewrite IH]. Qed.

(** Nothing runs: the undisturbed transmitter. *)
Lemma interleave_ext outs1 outs2 n bs :
  (∀ i, (n <= i < n + length bs)%nat → outs1 i = outs2 i) →
  interleave outs1 n bs = interleave outs2 n bs.
Proof.
  revert n. induction bs as [|b bs IH]; intros n Hext; cbn [interleave]; [done|].
  rewrite Hext by (cbn; lia). f_equal. f_equal. apply IH. intros i Hi. apply Hext. cbn. lia.
Qed.

Lemma interleave_at k out n bs :
  (n <= k < n + length bs)%nat →
  interleave (λ i, if decide (i = k) then out else []) n bs
  = take (k - n) bs ++ out ++ drop (k - n) bs.
Proof.
  revert n. induction bs as [|b bs IH]; intros n Hk; cbn [interleave length] in *; [lia|].
  destruct (decide (n = k)) as [<-|Hne].
  - rewrite Nat.sub_diag. cbn [take drop app]. do 2 f_equal.
    rewrite <-(interleave_nil (S n) bs) at 2. apply interleave_ext. intros i Hi.
    by rewrite decide_False by lia.
  - rewrite IH by lia. replace (k - n)%nat with (S (k - S n)) by lia. done.
Qed.
End Interleaving.

(** ** What the receiver makes of it *)

Section Frames.
Context `{Config, !ConfigOk _, Crc16, !Crc16Laws}.

(** What a flag delivers when the bytes [bs] have been received. *)
Definition closes (bs : list Z) : list frame :=
  snd (deframe_byte (Deframer bs bs false 0) HDLC_FRAME).

Lemma deframe_closes bs e q :
  ∃ q', deframe_byte (Deframer bs bs e q) HDLC_FRAME = (Deframer [] [] e q', closes bs).
Proof.
  unfold closes, deframe_byte, accepts. cbn [Z.eqb HDLC_FRAME Pos.eqb body covered esc peer_seq].
  destruct bs as [|x [|y rest]]; [by eexists..|].
  destruct (_ && _); [|by eexists]. destruct (_ =? 0); by eexists.
Qed.

Lemma closes_shorter f bs : f ∈ closes bs → (length (snd f) + 4 = length bs)%nat.
Proof.
  destruct f as [address payload]. intros (control & check & Hb & Hl & _)%deframe_byte_emits.
  cbn [body] in Hb. rewrite Hb. cbn [snd length]. rewrite length_app. lia.
Qed.

Lemma closes_body p :
  packet_ok p → closes (frame_body (p_address p) (p_control p) (p_payload p)) = [packet_frame p].
Proof.
  intros (Ha & Hc & Ho & Hp & Hl).
  pose proof (deframe_frame 0 _ _ _ Ha Hc Hp Hl) as Hframe. rewrite land_1_odd, Ho in Hframe.
  unfold frame_bytes in Hframe. cbn [negb] in Hframe.
  rewrite (deframe_quiet _ HDLC_FRAME _ (at_boundary 0)) in Hframe by done.
  rewrite deframe_app, deframe_stuff in Hframe;
    [|done|cbn [at_boundary body length]; rewrite length_frame_body; lia].
  cbn [at_boundary body covered peer_seq app] in Hframe. rewrite deframe_one in Hframe.
  destruct (deframe_closes (frame_body (p_address p) (p_control p) (p_payload p)) false 0) as [q' Heq].
  rewrite Heq in Hframe. by injection Hframe.
Qed.

(** *** Where a frame can be cut *)

(** A cut falls between two escaped bytes or, with [e], behind an escape. *)
Lemma stuff_cut bs k :
  ∃ (e : bool) bs1 bs2,
    take k (stuff bs) = stuff bs1 ++ (if e then [HDLC_ESC] else []) ∧
    drop k (stuff bs) = stuff bs2 ∧
    if e then ∃ b bs', special b = true ∧ bs = bs1 ++ b :: bs' ∧ length bs2 = S (length bs')
    else bs = bs1 ++ bs2.
Proof.
  revert k. induction bs as [|b bs IH]; intros k.
  { exists false, [], []. cbn. by rewrite take_nil, drop_nil. }
  destruct k as [|k]; [by exists false, [], (b :: bs)|].
  assert (Hcons : ∀ k', take (length (stuff_byte b) + k') (stuff (b :: bs))
                        = stuff_byte b ++ take k' (stuff bs) ∧
                        drop (length (stuff_byte b) + k') (stuff (b :: bs)) = drop k' (stuff bs)).
  { intros k'. by rewrite stuff_cons, take_app_add, drop_app_add. }
  assert (Hsplit : (S k < length (stuff_byte b))%nat ∨ ∃ k', S k = (length (stuff_byte b) + k')%nat).
  { destruct (decide (S k < length (stuff_byte b))%nat); [by left|]. right.
    exists (S k - length (stuff_byte b))%nat. lia. }
  destruct Hsplit as [Hin|[k' ->]].
  - unfold stuff_byte in Hin. destruct (special b) eqn:Hsp; cbn in Hin; [|lia].
    assert (k = 0%nat) as -> by lia. exists true, [], (Z.lxor b 0x20 :: bs).
    rewrite !stuff_cons. destruct (special_stuffed b Hsp) as [Hf%Z.eqb_neq He%Z.eqb_neq].
    unfold stuff_byte at 1 2 3. rewrite Hsp. unfold special at 1. rewrite Hf, He.
    cbn. split_and!; [done..|]. by exists b, bs.
  - destruct (Hcons k') as [-> ->]. destruct (IH k') as (e & bs1 & bs2 & Ht & Hd & He).
    exists e, (b :: bs1), bs2. rewrite Ht, Hd, stuff_cons, app_assoc. split_and!; [done..|].
    destruct e; [|by rewrite He]. destruct He as (c & bs' & Hc & -> & Hl). by exists c, bs'.
Qed.

(** Escaped bytes never end in an escape. *)
Lemma stuff_last bs b : last (stuff bs) = Some b → b ≠ HDLC_ESC.
Proof.
  destruct bs as [|c bs _] using rev_ind; [done|]. rewrite stuff_app. unfold stuff at 2. cbn [mbind list_bind].
  rewrite app_nil_r. unfold stuff_byte. destruct (special c) eqn:Hsp.
  - change [HDLC_ESC; Z.lxor c 0x20] with ([HDLC_ESC] ++ [Z.lxor c 0x20]).
    rewrite app_assoc, last_snoc. intros [= <-]. by apply special_stuffed.
  - rewrite last_snoc. intros [= <-]. unfold special in Hsp.
    by apply orb_false_iff in Hsp as [_ ?%Z.eqb_neq].
Qed.

(** *** A frame inside a frame *)

(** [w2] was sent when [k] bytes of [w1] were out. *)
Definition cut_in (k : nat) (w1 w2 : list Z) : list Z := take k w1 ++ w2 ++ drop k w1.

(** An unfinished frame, and the frame that interrupts it. *)
Lemma deframe_interrupting bs e q p :
  packet_ok p → special (p_address p) = false →
  ∃ q', deframe (Deframer bs bs e q) (packet_wire p)
        = (at_boundary q', closes bs ++ (if e then [] else [packet_frame p])).
Proof.
  intros Hp Hsp. destruct (deframe_closes bs e q) as [q' Hflag]. exists q'.
  assert (Hrest : deframe (Deframer [] [] e q') (packet_wire p)
    = (at_boundary q', if e then [] else [packet_frame p])).
  { destruct e; [by apply deframe_escaped_packet|].
    destruct Hp as (Ha & Hc & Ho & Hb & Hl).
    pose proof (deframe_frame q' _ _ _ Ha Hc Hb Hl) as Hframe. by rewrite land_1_odd, Ho in Hframe. }
  unfold packet_wire, frame_bytes in *.
  rewrite (deframe_quiet _ HDLC_FRAME _ (Deframer [] [] e q')) in Hrest by done.
  cbn [deframe]. by rewrite Hflag, Hrest.
Qed.

Lemma deframe_tail bs q :
  length bs <= HDLC_MAX_BLOCK_SIZE →
  ∃ q', deframe (at_boundary q) (stuff bs ++ [HDLC_FRAME]) = (at_boundary q', closes bs).
Proof.
  intros Hl. destruct (deframe_closes bs false q) as [q' Hflag]. exists q'.
  rewrite deframe_app, deframe_stuff by done. cbn [at_boundary body covered peer_seq app].
  by rewrite deframe_one, Hflag.
Qed.

Lemma deframe_head bs (e : bool) q :
  length bs <= HDLC_MAX_BLOCK_SIZE →
  deframe (at_boundary q) (HDLC_FRAME :: stuff bs ++ (if e then [HDLC_ESC] else []))
  = (Deframer bs bs e q, []).
Proof.
  intros Hl. rewrite (deframe_quiet _ HDLC_FRAME _ (at_boundary q)) by done.
  rewrite deframe_app, deframe_stuff by done. cbn [at_boundary body covered peer_seq app].
  by destruct e.
Qed.

Lemma deframe_cut q bs1 (e : bool) bs2 p :
  packet_ok p → special (p_address p) = false →
  length bs1 <= HDLC_MAX_BLOCK_SIZE → length bs2 <= HDLC_MAX_BLOCK_SIZE →
  ∃ q', deframe (at_boundary q) ((HDLC_FRAME :: stuff bs1 ++ (if e then [HDLC_ESC] else []))
                                 ++ packet_wire p ++ (stuff bs2 ++ [HDLC_FRAME]))
        = (at_boundary q', closes bs1 ++ (if e then [] else [packet_frame p]) ++ closes bs2).
Proof.
  intros Hp Hsp H1l H2l. rewrite deframe_app, deframe_head by done.
  destruct (deframe_interrupting bs1 e q p Hp Hsp) as [q1 Hin].
  destruct (deframe_tail bs2 q1 H2l) as [q' Htail]. exists q'.
  rewrite deframe_app, Hin, Htail. by rewrite <-app_assoc.
Qed.

Lemma last_head bs (e : bool) :
  last (HDLC_FRAME :: stuff bs ++ (if e then [HDLC_ESC] else [])) = Some HDLC_ESC ↔ e = true.
Proof.
  destruct e.
  - by rewrite app_comm_cons, last_snoc.
  - rewrite app_nil_r, last_cons. split; [|done].
    destruct (last (stuff bs)) as [b|] eqn:Hb; [|done]. intros [= ->].
    by apply stuff_last in Hb.
Qed.

(** The frames the receiver gets when [p2] is sent after [k] bytes of [p1]. *)
Definition cut_frames (k : nat) (p1 p2 : packet) (fs : list frame) : Prop :=
  if decide (k <= 1)%nat then fs = [packet_frame p2; packet_frame p1]
  else if decide (length (packet_wire p1) <= k + 1)%nat
  then fs = [packet_frame p1; packet_frame p2]
  else ∃ fs1 fs2,
    fs = fs1 ++ (if decide (last (take k (packet_wire p1)) = Some HDLC_ESC) then []
                 else [packet_frame p2]) ++ fs2 ∧
    Forall (λ f, length (snd f) < length (p_payload p1))%nat (fs1 ++ fs2).

Lemma stuff_nil_inv bs : stuff bs = [] → bs = [].
Proof.
  destruct bs as [|b bs]; [done|]. rewrite stuff_cons. unfold stuff_byte. by destruct (special b).
Qed.

Lemma length_stuff bs : (length bs <= length (stuff bs))%nat.
Proof.
  induction bs as [|b bs IH]; [done|]. rewrite stuff_cons, length_app. unfold stuff_byte.
  destruct (special b); cbn; lia.
Qed.

(** The parts of a body that is cut strictly inside its encoding are both
    shorter than it, since its first byte is not escaped. *)
Lemma cut_parts (e : bool) (address : Z) (tl bs1 bs2 : list Z) k :
  special address = false → (0 < k < length (stuff (address :: tl)))%nat →
  take k (stuff (address :: tl)) = stuff bs1 ++ (if e then [HDLC_ESC] else []) →
  drop k (stuff (address :: tl)) = stuff bs2 →
  (if e then ∃ b bs', special b = true ∧ address :: tl = bs1 ++ b :: bs' ∧ length bs2 = S (length bs')
   else address :: tl = bs1 ++ bs2) →
  (length bs1 < length (address :: tl))%nat ∧ (length bs2 < length (address :: tl))%nat.
Proof.
  intros Hsp Hk Ht Hd. destruct e.
  - intros (b & bs' & Hb & Heq & Hl). destruct bs1 as [|x bs1]; [injection Heq as -> _; congruence|].
    rewrite Heq, length_app. cbn. lia.
  - intros Heq. apply (f_equal length) in Ht, Hd. rewrite length_take in Ht. rewrite length_drop in Hd.
    set (n := length (stuff _)) in *. clearbody n. rewrite Heq, length_app.
    destruct bs1; [cbn in Ht; lia|]. destruct bs2; [cbn in Hd; lia|]. cbn. lia.
Qed.

Lemma closes_all_shorter bs n : (length bs < n + 4)%nat → Forall (λ f, length (snd f) < n)%nat (closes bs).
Proof. intros Hl. apply Forall_forall. intros f Hf%closes_shorter. lia. Qed.

Lemma cut_frames_spec q k p1 p2 :
  packet_ok p1 → packet_ok p2 → special (p_address p1) = false → special (p_address p2) = false →
  (k <= length (packet_wire p1))%nat →
  ∃ q' fs, deframe (at_boundary q) (cut_in k (packet_wire p1) (packet_wire p2))
           = (at_boundary q', fs) ∧ cut_frames k p1 p2 fs.
Proof.
  intros Hp1 Hp2 Hsp1 Hsp2 Hk. unfold cut_in, cut_frames.
  pose proof (deframe_packets q [p2; p1] (ltac:(repeat apply Forall_cons_2; auto))) as H21.
  pose proof (deframe_packets q [p1; p2] (ltac:(repeat apply Forall_cons_2; auto))) as H12.
  cbn [mbind list_bind fmap list_fmap] in H21, H12. rewrite !app_nil_r in H21, H12.
  set (bd := frame_body (p_address p1) (p_control p1) (p_payload p1)).
  assert (Hw : packet_wire p1 = HDLC_FRAME :: stuff bd ++ [HDLC_FRAME]) by done.
  assert (Hbd : length bd = (length (p_payload p1) + 4)%nat) by apply length_frame_body.
  pose proof (length_stuff bd) as Hst. pose proof (closes_body p1 Hp1) as Hwhole. fold bd in Hwhole.
  assert (Hwl : length (packet_wire p1) = (length (stuff bd) + 2)%nat).
  { rewrite Hw. cbn [length]. rewrite length_app. cbn. lia. }
  destruct k as [|k]; [case_decide; [|lia]; cbn [take drop app]; by eexists _, _|].
  destruct (decide (S k = length (packet_wire p1))) as [Heq|Hne].
  { do 2 (case_decide; [try lia|try lia]). rewrite take_ge, drop_ge, app_nil_r by lia.
    by eexists _, _. }
  rewrite Hw. cbn [take drop]. rewrite take_app_le, drop_app_le by lia.
  destruct (stuff_cut bd k) as (e & bs1 & bs2 & Ht & Hd & He). rewrite Ht, Hd, <-Hw.
  destruct Hp1 as (_ & _ & _ & _ & Hmax).
  assert (Hlens : (length bs1 + length bs2 <= length bd)%nat).
  { destruct e; [destruct He as (b & bs' & _ & -> & Hl)|rewrite He]; rewrite length_app; cbn; lia. }
  destruct (deframe_cut q bs1 e bs2 p2 Hp2 Hsp2 ltac:(lia) ltac:(lia)) as [q' Hcut].
  exists q', (closes bs1 ++ (if e then [] else [packet_frame p2]) ++ closes bs2).
  split; [exact Hcut|].
  assert (Hclosed : closes [] = []) by done.
  case_decide as Hk1.
  { assert (k = 0%nat) as -> by lia. rewrite take_0 in Ht.
    symmetry in Ht. apply app_eq_nil in Ht as [->%stuff_nil_inv Hesc]. destruct e; [done|].
    cbn [app] in He. subst bs2. by rewrite Hwhole. }
  case_decide as Hk2.
  { rewrite drop_ge in Hd by lia. symmetry in Hd. apply stuff_nil_inv in Hd as ->.
    destruct e; [by destruct He as (? & ? & _ & _ & ?)|]. rewrite app_nil_r in He. subst bs1.
    by rewrite Hwhole. }
  exists (closes bs1), (closes bs2). split.
  - pose proof (last_head bs1 e) as Hlast.
    case_decide as Hesc; [by rewrite (proj1 Hlast Hesc)|].
    destruct e; [by destruct Hesc; apply Hlast|done].
  - assert (Hk' : (0 < k < length (stuff bd))%nat) by lia.
    destruct (cut_parts e (p_address p1) (p_control p1 :: p_payload p1 ++ fcs (p_address p1 :: p_control p1 :: p_payload p1))
      bs1 bs2 k Hsp1 Hk' Ht Hd He) as [H1l H2l].
    change (p_address p1 :: _) with bd in H1l, H2l. rewrite Hbd in H1l, H2l.
    apply Forall_app. split; by apply closes_all_shorter.
Qed.
End Frames.

(** ** Two messages at once *)

Section Race.
Context `{Config, !ConfigOk _, Crc16, !Crc16Laws, KHeap, !KHeapLaws, KSlab, Sockets,
          Stack, !StackLaws}.
Implicit Types s : fw.

(** Undisturbed, the preempted transmitter is the transmitter. *)
Lemma block_send_undisturbed buffer len address control s :
  control ≠ 0 → 0 <= len <= length buffer →
  hdlc_block_send_preempted (λ _, mret ()) buffer len address control s
  = hdlc_block_send_sync L_hdlc hdlc_send_callback buffer len address control s.
Proof.
  intros Hc Hl. rewrite block_send_sync_uart by done.
  set (I (n : nat) s' := s' = store L_uart (fw_uart s') s).
  destruct (block_send_preempted_run I (λ _, mret ()) (λ _, []) buffer len address control s)
    as (s' & Hrun & Hs' & Hu); [|by destruct s|done|done|].
  { split; [|intros n out s1; unfold I; by intros ->].
    intros n s1 Hs1. exists s1. by rewrite app_nil_r. }
  rewrite interleave_nil in Hu. by rewrite Hrun, Hs', Hu.
Qed.

Definition message_packet (cport : Z) (b : gb_message) : packet :=
  Packet ADDRESS_GREYBUS 0x03 (message_wire cport b).

Lemma message_packet_ok cport b :
  sendable b → 14 + length (payload b) <= HDLC_MAX_BLOCK_SIZE → packet_ok (message_packet cport b).
Proof.
  intros Hb Hl. unfold packet_ok. cbn [message_packet p_address p_control p_payload].
  pose proof (length_message_wire cport b).
  split; [done|]. split; [done|]. split; [done|]. split; [by apply message_wire_bytes|lia].
Qed.

(** The other thread sends its message before byte [k]. *)
Lemma ap_send_well_behaved k p cport b s :
  messages_wf (fw_messages s) → msg_store (fw_messages s) !! p = Some b → sendable b →
  10 + length (payload b) <= HDLC_MAX_BLOCK_SIZE →
  well_behaved
    (λ n s', if decide (n <= k)%nat then fw_messages s' = fw_messages s
             else freed p (fw_messages s) (fw_messages s'))
    (at_byte k (_ ← ap_send p cport; mret ()))
    (λ n, if decide (n = k) then ap_frame cport b else []).
Proof.
  intros Hwf Hp Hb Hl. split; [|done]. intros n s1. unfold at_byte.
  destruct (decide (n = k)) as [->|Hne].
  - destruct (decide (k <= k)%nat); [|lia]. destruct (decide (S k <= k)%nat); [lia|].
    intros Hm. rewrite <-Hm in Hwf, Hp.
    destruct (ap_send_spec p cport b s1 Hwf Hp Hb Hl) as (m' & Hfree & Hrun).
    eexists. split; [by step_with Hrun|]. by rewrite <-Hm.
  - intros Hs1. exists s1. split; [done|]. rewrite app_nil_r. split; [|done].
    do 2 case_decide; (done || lia).
Qed.

(** C5: While a thread sends a frame, another sends a message before byte k of it. Unless k is
    at most 1 or the frame's last byte, the receiver never gets the first frame: it gets the
    message, preceded and followed at most by fragments shorter than the first frame's payload;
    and when the byte before k was an escape it does not get the message either. The send of the
    first frame reports success. *)
Theorem tx_race_loses_frames k p cport b buffer len address control q s :
  messages_wf (fw_messages s) → msg_store (fw_messages s) !! p = Some b → sendable b →
  14 + length (payload b) <= HDLC_MAX_BLOCK_SIZE → 0 <= len <= length buffer →
  let packet := Packet address control (take (Z.to_nat len) buffer) in
  packet_ok packet → special address = false → (k < length (packet_wire packet))%nat →
  ∃ s' q' fs,
    hdlc_block_send_preempted (at_byte k (_ ← ap_send p cport; mret ())) buffer len address control s
    = Done 0 s' ∧
    freed p (fw_messages s) (fw_messages s') ∧
    fw_uart s' = fw_uart s ++ cut_in k (packet_wire packet) (ap_frame cport b) ∧
    deframe (at_boundary q) (cut_in k (packet_wire packet) (ap_frame cport b))
    = (at_boundary q', fs) ∧
    cut_frames k packet (message_packet cport b) fs.
Proof.
  intros Hwf Hp Hb Hl Hlen packet Hpk Hsp Hk.
  pose proof (ap_send_well_behaved k p cport b s Hwf Hp Hb ltac:(lia)) as Hwb.
  assert (Hc : control ≠ 0) by (intros ->; by destruct Hpk as (_ & _ & ? & _)).
  destruct (block_send_preempted_run _ _ _ buffer len address control s Hwb)
    as (s' & Hrun & Hs' & Hu); [cbv beta; case_decide; [done|lia]|done|done|].
  destruct (cut_frames_spec q k packet (message_packet cport b) Hpk (message_packet_ok cport b Hb Hl)
    Hsp eq_refl ltac:(lia)) as (q' & fs & Hde & Hcut).
  exists s', q', fs. split; [exact Hrun|]. split.
  { revert Hs'. unfold packet_wire in Hk. cbn [p_address p_control p_payload packet] in Hk.
    case_decide; [lia|done]. }
  split; [|by split].
  rewrite Hu, (interleave_at k (ap_frame cport b)) by (cbn [Nat.add]; split; [lia|exact Hk]).
  by rewrite Nat.sub_0_r.
Qed.
End Race.
