(* ===== verification/LocalNode.v ===== *)
(** * The local node (src/local_node.c)

    The interface of the board itself: the control protocol on cport 0, with
    the manifest it answers with.  [connection_send] is the AP bridge's. *)

From S2P Require Import Prelude Config Protocols Hdlc Kernel Messages Interfaces NodeCache State.
From S2P Require Import ApMap Ap.

Definition CPORTS_NUM : Z := 1.
Definition CONTROL_PROTOCOL_CPORT : Z := 0.

Definition manifest : list Z := [
  0x3c; 0x00; 0x00; 0x01; 0x08; 0x00; 0x01; 0x00; 0x01; 0x02; 0x00; 0x00; 0x18; 0x00; 0x02;
  0x00; 0x11; 0x01; 0x42; 0x65; 0x61; 0x67; 0x6c; 0x65; 0x50; 0x6c; 0x61; 0x79; 0x20; 0x43;
  0x43; 0x31; 0x33; 0x35; 0x32; 0x00; 0x18; 0x00; 0x02; 0x00; 0x11; 0x02; 0x42; 0x65; 0x61;
  0x67; 0x6c; 0x65; 0x50; 0x6c; 0x61; 0x79; 0x20; 0x43; 0x43; 0x31; 0x33; 0x35; 0x32; 0x00].

Section LocalNode.
Context `{KHeap, KSlab, Sockets}.
Variable connection_send : Z → Z → Z → M fw Z.

Definition response_helper (ctrl : intf_ptr) (msg : Z) (pl : list Z)
    (payload_len status cport_id : Z) : M fw () :=
  m ← zoom L_messages (msg_deref msg);
  resp ← zoom L_messages (gb_message_response_alloc pl payload_len (hdr_type (header m))
                            (hdr_operation_id (header m)) status);
  if resp =? NULL then mret ()
  else
    ret ← connection_send LOCAL_NODE_ID cport_id resp;
    (* ret < 0 is only logged *)
    mret ().

Definition control_protocol_cport_shutdown_handler (ctrl : intf_ptr) (msg : Z) : M fw () :=
  response_helper ctrl msg [] 0 0 CONTROL_PROTOCOL_CPORT.

Definition control_protocol_version_handler (ctrl : intf_ptr) (msg : Z) : M fw () :=
  let response := {| cvr_major := 0; cvr_minor := 1 |} in
  response_helper ctrl msg (to_wire response) (sizeof gb_control_version_response) 0
    CONTROL_PROTOCOL_CPORT.

Definition control_protocol_get_manifest_size_handler (ctrl : intf_ptr) (msg : Z) : M fw () :=
  let response := {| gms_size := u16 (length manifest) |} in
  response_helper ctrl msg (to_wire response) (sizeof gb_control_get_manifest_size_response) 0
    CONTROL_PROTOCOL_CPORT.

Definition control_protocol_get_manifest_handler (ctrl : intf_ptr) (msg : Z) : M fw () :=
  response_helper ctrl msg manifest (length manifest) 0 CONTROL_PROTOCOL_CPORT.

Definition control_protocol_empty_handler (ctrl : intf_ptr) (msg : Z) : M fw () :=
  response_helper ctrl msg [] 0 0 CONTROL_PROTOCOL_CPORT.

Definition control_protocol_handle (ctrl : intf_ptr) (msg : Z) : M fw () :=
  m ← zoom L_messages (msg_deref msg);
  let type := gb_message_type m in
  if type =? GB_REQUEST_TYPE_CPORT_SHUTDOWN then
    control_protocol_cport_shutdown_handler ctrl msg
  else if type =? GB_CONTROL_TYPE_VERSION then
    control_protocol_version_handler ctrl msg
  else if type =? GB_CONTROL_TYPE_GET_MANIFEST_SIZE then
    control_protocol_get_manifest_size_handler ctrl msg
  else if type =? GB_CONTROL_TYPE_GET_MANIFEST then
    control_protocol_get_manifest_handler ctrl msg
  else if bool_decide (type ∈ [GB_CONTROL_TYPE_CONNECTED; GB_CONTROL_TYPE_DISCONNECTING;
              GB_CONTROL_TYPE_DISCONNECTED; GB_CONTROL_TYPE_TIMESYNC_ENABLE;
              GB_CONTROL_TYPE_TIMESYNC_DISABLE; GB_CONTROL_TYPE_TIMESYNC_AUTHORITATIVE;
              GB_CONTROL_TYPE_INTF_HIBERNATE_ABORT]) then
    control_protocol_empty_handler ctrl msg
  else mret ().

Definition intf_write (ctrl : intf_ptr) (msg cport_id : Z) : M fw Z :=
  m ← zoom L_messages (msg_deref msg);
  _ ← (if cport_id =? CONTROL_PROTOCOL_CPORT then control_protocol_handle ctrl msg else mret ());
  _ ← zoom L_messages (gb_message_dealloc msg);
  mret 0.

Definition intf_create_connection (ctrl : intf_ptr) (cport_id : Z) : M fw Z := mret 0.

Definition intf_destroy_connection (ctrl : intf_ptr) (cport_id : Z) : M fw () := mret ().
End LocalNode.

(** ** The control protocol's answers

    [control_reply] is the specification: the payload of the response to every
    request type the local node knows. *)

Definition control_reply (type : Z) : option (list Z) :=
  match type with
  | 0x00 | 0x05 | 0x0c | 0x06 | 0x07 | 0x08 | 0x09 | 0x15 => Some []
  | 0x01 => Some [0; 1]
  | 0x03 => Some [60; 0]
  | 0x04 => Some manifest
  | _ => None
  end.

(** The manifest announces its own length, also to GET_MANIFEST_SIZE. *)
Lemma manifest_size : of_le (take 2 manifest) = length manifest.
Proof. reflexivity. Qed.

Section Facts.
Context `{Config, !ConfigOk _, Crc16, KHeap, !KHeapLaws, KSlab, Sockets}.
Context (cs : Z → Z → Z → M fw Z) `{!ApLink cs}.
Implicit Types s : fw.

Lemma control_reply_cases type rp :
  control_reply type = Some rp →
  type ∈ [0x00; 0x05; 0x0c; 0x06; 0x07; 0x08; 0x09; 0x15; 0x01; 0x03; 0x04].
Proof.
  unfold control_reply. intros Hr.
  repeat (case_match; try discriminate Hr); apply (bool_decide_unpack _); vm_compute; exact I.
Qed.

Lemma control_reply_ok type rp : control_reply type = Some rp → bytes rp ∧ length rp <= 60.
Proof.
  intros Hr. apply control_reply_cases in Hr as Ht. rewrite !elem_of_cons, elem_of_nil in Ht.
  repeat destruct Ht as [->|Ht]; try done; cbn in Hr; simplify_eq/=;
    (split; [apply (bool_decide_unpack _); vm_compute; exact I|cbn; lia]).
Qed.

Lemma control_protocol_handle_reply ctrl p b rp s :
  messages_wf (fw_messages s) → msg_store (fw_messages s) !! p = Some b →
  control_reply (hdr_type (header b)) = Some rp →
  control_protocol_handle cs ctrl p s
  = response_helper cs ctrl p rp (length rp) 0 CONTROL_PROTOCOL_CPORT s.
Proof.
  intros Hwf Hp Hr.
  pose proof (msg_deref_ok (fw_messages s) p b Hwf Hp : _ (view L_messages s) = _) as Hderef.
  unfold control_protocol_handle. step_read L_messages Hderef. unfold gb_message_type.
  apply control_reply_cases in Hr as Ht. set (type := hdr_type (header b)) in *. clearbody type.
  rewrite !elem_of_cons, elem_of_nil in Ht.
  repeat destruct Ht as [->|Ht]; try done; eval_dispatch; cbn [control_reply] in Hr;
    injection Hr as <-; reflexivity.
Qed.

(** A control request is answered on the AP's cport and freed. *)
Lemma local_request_answered ctrl p b rp j s :
  link_wf s → msg_store (fw_messages s) !! p = Some b →
  10 + length rp <= HDLC_MAX_BLOCK_SIZE →
  control_reply (hdr_type (header b)) = Some rp →
  ap_cport_of LOCAL_NODE_ID CONTROL_PROTOCOL_CPORT (fw_ap_map s) = Some j →
  k_heap_alloc (greybus_messages_heap (fw_messages s)) (8 + length rp) ≠ None →
  ∃ r s', intf_write cs ctrl p CONTROL_PROTOCOL_CPORT s = Done 0 s' ∧
    message_is rp (Z.lor GB_OP_RESPONSE (hdr_type (header b))) (hdr_operation_id (header b)) 0 r ∧
    sent_to_ap p (ap_frame j r) s s'.
Proof.
  intros [Hmap Hwf] Hp Hl Hr Hj Hroom. destruct (control_reply_ok _ _ Hr) as [Hb _].
  unfold intf_write.
  step_read L_messages (msg_deref_ok (fw_messages s) p b Hwf Hp : _ (view L_messages s) = _).
  cbn [Z.eqb CONTROL_PROTOCOL_CPORT].
  destruct (respond_spec cs LOCAL_NODE_ID CONTROL_PROTOCOL_CPORT p b rp 0 j s) as
    (r & s1 & Hrun & Hmsg & m1 & Hwf1 & Hst & Hc & Hsr & ->); try done.
  step_with (eq_trans (control_protocol_handle_reply ctrl p b rp s Hwf Hp Hr) Hrun).
  destruct (gb_message_dealloc_freed m1 p b Hwf1 ltac:(by rewrite Hst)) as (m2 & Hfree & [Hw Hs Hc2 Hsr2]).
  set (s1 := store L_messages m1 _).
  step_zoom L_messages (Hfree : _ (view L_messages s1) = _).
  eexists r, _. split; [done|]. split; [done|]. exists m2. split; [|done].
  split; [done|by rewrite Hs, Hst|by rewrite Hc2|by rewrite Hsr2].
Qed.

(** Other requests, and other cports, are dropped without an answer. *)
Lemma local_request_dropped ctrl p b cport s :
  messages_wf (fw_messages s) → msg_store (fw_messages s) !! p = Some b →
  cport ≠ CONTROL_PROTOCOL_CPORT ∨ control_reply (hdr_type (header b)) = None →
  ∃ m', freed p (fw_messages s) m' ∧
    intf_write cs ctrl p cport s = Done 0 (store L_messages m' s).
Proof.
  intros Hwf Hp Hcase.
  pose proof (msg_deref_ok (fw_messages s) p b Hwf Hp : _ (view L_messages s) = _) as Hderef.
  destruct (gb_message_dealloc_freed (fw_messages s) p b Hwf Hp) as (m' & Hfree & Hm').
  exists m'. split; [done|]. unfold intf_write. step_read L_messages Hderef.
  assert (Hskip : (if cport =? CONTROL_PROTOCOL_CPORT then control_protocol_handle cs ctrl p
                   else mret ()) s = Done () s).
  { destruct (Z.eqb_spec cport CONTROL_PROTOCOL_CPORT) as [->|_]; [|done].
    destruct Hcase as [|Hnone]; [done|].
    unfold control_protocol_handle. step_read L_messages Hderef. unfold gb_message_type.
    set (type := hdr_type (header b)) in *. clearbody type.
    repeat (case_match; [exfalso|]); try done;
      repeat match goal with
      | Hb : (type =? _) = true |- _ => apply Z.eqb_eq in Hb; rewrite Hb in Hnone; done
      | Hb : bool_decide _ = true |- _ => apply bool_decide_eq_true in Hb
      end.
    rewrite !elem_of_cons, elem_of_nil in *.
    repeat match goal with
      | Hd : type = _ ∨ _ |- _ => destruct Hd as [Hd|Hd]; [by rewrite Hd in Hnone|]
      end; done. }
  step_with Hskip. by step_zoom L_messages (Hfree : _ (view L_messages s) = _).
Qed.
End Facts.
