(* ===== verification/Routes.v ===== *)
(** * Connections (src/apbridge.c, src/greybus_interfaces.c, src/svc.c)

    Finding an interface by its id, creating and destroying connections between
    the AP and an interface, and the SVC's own connection state. *)

From S2P Require Import Prelude Config Kernel Messages Interfaces NodeCache State ApMap NodeLink.
From S2P Require Import NodeLife LocalNode.

Section Routes.
Context `{Config, KHeap, KSlab, Sockets}.

(** *** SVC state (src/svc.c) *)

Definition svc_init : M fw () := modL L_svc (λ _, true).

Definition svc_deinit : M fw () := modL L_svc (λ _, false).

Definition svc_is_ready : M fw bool := getL L_svc.

Definition svc_interface : M fw intf_ptr :=
  ready ← svc_is_ready;
  if ready : bool then mret SvcIntf else mret NullIntf.

Definition svc_inf_create_connection (ctrl : intf_ptr) (cport : Z) : M fw Z :=
  if cport =? 0 then (ready ← svc_is_ready; mret (if ready : bool then 0 else 1))
  else mret 0.

Definition svc_inf_destroy_connection (ctrl : intf_ptr) (cport : Z) : M fw () :=
  if negb (cport =? 0) then mret ()
  else modL L_svc (λ _, false).

(** *** Interfaces by id (src/greybus_interfaces.c) *)

Definition gb_interface_find_by_id (intf_id : Z) : M fw intf_ptr :=
  if intf_id =? SVC_INF_ID then svc_interface
  else if intf_id =? LOCAL_NODE_ID then mret local_node_interface
  else node_find_by_id intf_id.

(** *** Calls through the interface's callbacks *)

(** [intf->create_connection(intf, cport)] *)
Definition call_create_connection (intf : intf_ptr) (cport : Z) : M fw Z :=
  i ← zoom L_interfaces (intf_deref intf);
  match create_connection i with
  | svc_create_cb => svc_inf_create_connection intf cport
  | local_create_cb => intf_create_connection intf cport
  | node_create_cb => node_intf_create_connection intf cport
  end.

(** [intf->destroy_connection(intf, cport)] *)
Definition call_destroy_connection (intf : intf_ptr) (cport : Z) : M fw () :=
  i ← zoom L_interfaces (intf_deref intf);
  match destroy_connection i with
  | svc_destroy_cb => svc_inf_destroy_connection intf cport
  | local_destroy_cb => intf_destroy_connection intf cport
  | node_destroy_cb => node_intf_destroy_connection intf cport
  end.

(** *** Connections (src/apbridge.c) *)

(** The non-AP end and the AP's cport: [(node_id, node_cport, ap_cport)]. *)
Definition connection_ends (intf1_id intf1_cport intf2_id intf2_cport : Z)
    : option (Z * Z * Z) :=
  if intf1_id =? AP_INF_ID then Some (intf2_id, intf2_cport, intf1_cport)
  else if intf2_id =? AP_INF_ID then Some (intf1_id, intf1_cport, intf2_cport)
  else None.

Definition connection_create (intf1_id intf1_cport intf2_id intf2_cport : Z) : M fw Z :=
  match connection_ends intf1_id intf1_cport intf2_id intf2_cport with
  | None => mret (- EINVAL)
  | Some (nid, cport, ap_cport) =>
      intf ← gb_interface_find_by_id nid;
      if decide (intf = NullIntf) then mret (- EINVAL)
      else
        ret ← call_create_connection intf cport;
        if ret <? 0 then mret ret
        else
          ret ← node_ap_add ap_cport cport intf;
          if ret <? 0 then mret ret
          else mret 0
  end.

Definition connection_destroy (intf1_id intf1_cport intf2_id intf2_cport : Z) : M fw Z :=
  match connection_ends intf1_id intf1_cport intf2_id intf2_cport with
  | None => mret (- EINVAL)
  | Some (nid, cport, ap_cport) =>
      intf ← gb_interface_find_by_id nid;
      _ ← (if decide (intf = NullIntf) then mret () else call_destroy_connection intf cport);
      _ ← node_ap_remove ap_cport;
      mret 0
  end.
End Routes.

(** ** What connections do to the table *)

(** The interface an id names. *)
Definition interface_of `{KHeap, KSlab, Sockets} (s : fw) (nid : Z) : intf_ptr :=
  if nid =? SVC_INF_ID then (if svc_is_read_flag s then SvcIntf else NullIntf)
  else if nid =? LOCAL_NODE_ID then LocalIntf
  else match cache_map (fw_nodes s) !! nid with Some it => ni_inf it | None => NullIntf end.

Section Facts.
Context `{Config, !ConfigOk _, KHeap, KSlab, !KSlabLaws, Sockets, !SocketsLaws}.
Implicit Types s : fw.

Lemma gb_interface_find_by_id_spec nid s :
  cache_wf (fw_nodes s) → gb_interface_find_by_id nid s = Done (interface_of s nid) s.
Proof.
  intros Hwf. unfold gb_interface_find_by_id, interface_of.
  destruct (nid =? SVC_INF_ID).
  { unfold svc_interface, svc_is_ready. step_getL L_svc. by destruct (svc_is_read_flag s). }
  destruct (nid =? LOCAL_NODE_ID); [done|]. unfold node_find_by_id.
  destruct (cache_map (fw_nodes s) !! nid) as [it|] eqn:Hl.
  - apply cache_map_lookup in Hl as [Hit <-]; [|done].
    destruct (node_cache_find_by_id_entry _ it Hwf Hit) as (k & Hfind & _ & Hat).
    step_read L_nodes (Hfind : _ (view L_nodes s) = _). destruct (Z.leb_spec 0 k); [|lia].
    by step_read L_nodes (Hat : _ (view L_nodes s) = _).
  - apply cache_map_lookup_None, find_index_none in Hl.
    pose proof (find_loop_spec (λ it, ni_id it =? nid) (fw_nodes s) Hwf) as Hfind. rewrite Hl in Hfind.
    by step_read L_nodes (Hfind : node_cache_find_by_id nid (view L_nodes s) = _).
Qed.

(** An id's interface carries that id. *)
Lemma interface_of_deref nid s :
  nodes_wf s → interface_of s nid ≠ NullIntf →
  ∃ i, intf_deref (interface_of s nid) (fw_interfaces s) = Done i (fw_interfaces s) ∧ id i = nid.
Proof.
  intros Hwf. unfold interface_of.
  destruct (Z.eqb_spec nid SVC_INF_ID) as [->|_].
  { destruct (svc_is_read_flag s); [|done]. intros _. by exists svc_intf. }
  destruct (Z.eqb_spec nid LOCAL_NODE_ID) as [->|_]; [intros _; by exists local_intf|].
  destruct (cache_map (fw_nodes s) !! nid) as [it|] eqn:Hl; [|done]. intros _.
  apply cache_map_lookup in Hl as [Hit <-]; [|by apply nw_cache].
  destruct (nw_entries _ Hwf it Hit) as (p & i & Hinf & Hp & Hi & _). exists i. rewrite Hinf.
  split; [|by rewrite Hi]. unfold intf_deref, getS, mbind, M_bind. by rewrite Hp.
Qed.

Lemma interface_of_node s it :
  nodes_wf s → it ∈ entries (fw_nodes s) → ni_id it ∉ [SVC_INF_ID; LOCAL_NODE_ID] →
  interface_of s (ni_id it) = ni_inf it.
Proof.
  rewrite !elem_of_cons. intros Hwf Hit Hn. unfold interface_of.
  destruct (Z.eqb_spec (ni_id it) SVC_INF_ID); [tauto|].
  destruct (Z.eqb_spec (ni_id it) LOCAL_NODE_ID); [tauto|].
  by rewrite (proj2 (cache_map_lookup (fw_nodes s) (ni_id it) it (nw_cache _ Hwf)) (conj Hit eq_refl)).
Qed.

(** The create callbacks keep the tables consistent and touch neither the
    bridge's table nor the messages. *)
Lemma call_create_connection_spec nid cport s :
  nodes_wf s → interface_of s nid ≠ NullIntf →
  ∃ ret s', call_create_connection (interface_of s nid) cport s = Done ret s' ∧
    nodes_wf s' ∧ same_elsewhere s s' ∧ interface_of s' nid = interface_of s nid.
Proof.
  intros Hwf Hne. destruct (interface_of_deref nid s Hwf Hne) as (i & Hderef & Hid).
  unfold call_create_connection.
  step_read L_interfaces (Hderef : _ (view L_interfaces s) = _). revert Hderef Hid Hne.
  destruct (Z.eqb_spec nid SVC_INF_ID) as [->|Hn0].
  { unfold interface_of. cbn [Z.eqb SVC_INF_ID]. destruct (svc_is_read_flag s) eqn:Hready; [|done].
    intros [= <-] _ _. cbn [create_connection svc_intf]. unfold svc_inf_create_connection.
    destruct (cport =? 0); [|by exists 0, s; rewrite Hready].
    unfold svc_is_ready. rewrite (M_bind_Done _ _ _ _ _ (getL_spec L_svc s)).
    eexists _, s. split; [done|]. by rewrite Hready. }
  destruct (Z.eqb_spec nid LOCAL_NODE_ID) as [->|Hn2].
  { unfold interface_of. cbn [Z.eqb Pos.eqb SVC_INF_ID LOCAL_NODE_ID].
    intros [= <-] _ _. by exists 0, s. }
  intros Hderef Hid Hne. unfold interface_of in Hne.
  rewrite (proj2 (Z.eqb_neq _ _) Hn0), (proj2 (Z.eqb_neq _ _) Hn2) in Hne.
  destruct (cache_map (fw_nodes s) !! nid) as [it|] eqn:Hl; [|done].
  apply cache_map_lookup in Hl as [Hit Hitid]; [|by apply nw_cache]. subst nid.
  assert (Hnode : ni_id it ∉ [SVC_INF_ID; LOCAL_NODE_ID]).
  { rewrite Hitid. rewrite !elem_of_cons, elem_of_nil. tauto. }
  rewrite Hitid in *.
  assert (Hof : interface_of s (id i) = ni_inf it) by (rewrite <-Hitid in *; by apply interface_of_node).
  rewrite Hof in *. destruct (nw_entries _ Hwf it Hit) as (p & i' & Hok).
  assert (i' = i) as ->.
  { destruct Hok as (Hinf & Hp & _). rewrite Hinf in Hderef.
    unfold intf_deref, getS, mbind, M_bind in Hderef. rewrite Hp in Hderef. by injection Hderef. }
  destruct Hok as (Hinf & Hp & Hi & Hc). assert (Hcb : create_connection i = node_create_cb) by (by rewrite Hi).
  rewrite Hcb.
  destruct (node_intf_create_connection_spec s it p i cport Hwf Hit) as
    (ret & s' & Hrun & Hwf' & Hsame & _ & Hcase); [done|].
  exists ret, s'. split; [done|]. split; [done|]. split; [done|].
  destruct (decide (cport ≠ 0)); [by destruct Hcase as [_ ->]|].
  destruct (decide (0 <= ni_sock it)); [by destruct Hcase as [_ ->]|].
  destruct (decide (ret < 0)).
  - destruct Hcase as [Hn _]. rewrite <-Hitid in *.
    unfold interface_of in *. rewrite (proj2 (Z.eqb_neq _ _) Hn0), (proj2 (Z.eqb_neq _ _) Hn2) in *.
    by rewrite Hn.
  - destruct Hcase as (k & Hk & Hent & _).
    assert (Hit' : with_sock ret it ∈ entries (fw_nodes s')).
    { rewrite Hent. apply list_elem_of_insert. by eapply lookup_lt_Some. }
    rewrite <-Hitid in Hnode |- *. by apply (interface_of_node s' (with_sock ret it)).
Qed.

(** What [connection_create] does between the AP's [ap_cport] and cport
    [cport] of interface [nid]. *)
Definition connect_outcome ap_cport nid cport s (ret : Z) (s' : fw) : Prop :=
  if decide (interface_of s nid = NullIntf) then ret = - EINVAL ∧ s' = s
  else ∃ cret s1,
    call_create_connection (interface_of s nid) cport s = Done cret s1 ∧ same_elsewhere s s1 ∧
    if cret <? 0 then ret = cret ∧ s' = s1
    else match fw_ap_map s !! Z.to_nat ap_cport with
         | None => ret = - E2BIG ∧ s' = s1
         | Some it =>
             if decide (node_intf it = NullIntf)
             then ret = 0 ∧ s' = store L_ap_map (<[Z.to_nat ap_cport :=
                                   NodeApItem (interface_of s nid) cport nid]> (fw_ap_map s)) s1
             else ret = - EALREADY ∧ s' = s1
         end.

Lemma connection_create_outcome ap_cport nid cport s :
  ap_map_wf (fw_ap_map s) → nodes_wf s → 0 <= ap_cport → nid ≠ AP_INF_ID →
  ∃ ret s', connection_create AP_INF_ID ap_cport nid cport s = Done ret s' ∧
    connection_create nid cport AP_INF_ID ap_cport s = Done ret s' ∧
    nodes_wf s' ∧ connect_outcome ap_cport nid cport s ret s'.
Proof.
  intros Hmap Hwf Hap Hn. unfold connection_create, connection_ends, connect_outcome.
  destruct (Z.eqb_spec nid AP_INF_ID); [done|]. rewrite Z.eqb_refl.
  step_with (gb_interface_find_by_id_spec nid s (nw_cache _ Hwf)).
  destruct (decide (interface_of s nid = NullIntf)) as [Hnull|Hnull]; [by exists (- EINVAL), s|].
  destruct (call_create_connection_spec nid cport s Hwf Hnull) as (cret & s1 & Hcall & Hwf1 & Hsame & Hof).
  step_with Hcall. destruct (cret <? 0) eqn:Hcret.
  { exists cret, s1. split_and!; try done. exists cret, s1. by rewrite Hcret. }
  rewrite <-(se_ap_map _ _ Hsame). rewrite <-(se_ap_map _ _ Hsame) in Hmap.
  destruct (fw_ap_map s1 !! Z.to_nat ap_cport) as [it|] eqn:Hit; cycle 1.
  { assert (AP_MAX_NODES <= ap_cport).
    { apply lookup_ge_None in Hit. unfold ap_map_wf in Hmap. lia. }
    step_with (node_ap_add_range ap_cport cport (interface_of s nid) s1 ltac:(done)).
    exists (- E2BIG), s1. split_and!; try done. exists cret, s1. by rewrite Hcret. }
  destruct (decide (node_intf it = NullIntf)) as [Hfree|Hbusy]; cycle 1.
  { step_with (node_ap_add_busy ap_cport cport (interface_of s nid) it s1 Hmap Hap Hit Hbusy).
    exists (- EALREADY), s1. split_and!; try done. exists cret, s1. by rewrite Hcret. }
  destruct (interface_of_deref nid s1 Hwf1) as (i & Hderef & Hid); [by rewrite Hof|].
  rewrite Hof in Hderef.
  step_with (node_ap_add_spec ap_cport cport (interface_of s nid) i it s1 Hmap Hap Hit Hfree Hderef).
  rewrite Hid. eexists _, _. split; [done|]. split; [done|]. split; [by destruct Hwf1|].
  exists cret, s1. by rewrite Hcret.
Qed.

(** Creating a connection between the AP and an interface never faults and treats the two
    argument orders alike; it fails without changing the table when the interface does not
    exist, its callback refuses or the AP cport is out of range, and otherwise stores the
    interface and its cport in the AP cport's slot; the node tables stay consistent. *)
Theorem connection_create_spec ap_cport nid cport s :
  ap_map_wf (fw_ap_map s) → nodes_wf s → 0 <= ap_cport → nid ≠ AP_INF_ID →
  ∃ ret s', connection_create AP_INF_ID ap_cport nid cport s = Done ret s' ∧
    connection_create nid cport AP_INF_ID ap_cport s = Done ret s' ∧
    nodes_wf s' ∧ connect_outcome ap_cport nid cport s ret s'.
Proof. apply connection_create_outcome. Qed.

(** The destroy callbacks: only the SVC's does something. *)
Lemma call_destroy_connection_spec nid cport s :
  nodes_wf s → interface_of s nid ≠ NullIntf →
  call_destroy_connection (interface_of s nid) cport s
  = Done () (if (nid =? SVC_INF_ID) && (cport =? 0) then store L_svc false s else s).
Proof.
  intros Hwf Hne. destruct (interface_of_deref nid s Hwf Hne) as (i & Hderef & Hid).
  unfold call_destroy_connection. step_read L_interfaces (Hderef : _ (view L_interfaces s) = _).
  revert Hderef Hid Hne. unfold interface_of.
  destruct (Z.eqb_spec nid SVC_INF_ID) as [->|Hn0].
  { destruct (svc_is_read_flag s); [|done]. intros [= <-] _ _. cbn [destroy_connection svc_intf].
    unfold svc_inf_destroy_connection. by destruct (cport =? 0). }
  destruct (nid =? LOCAL_NODE_ID); [by intros [= <-]|].
  destruct (cache_map (fw_nodes s) !! nid) as [it|] eqn:Hl; [|done].
  apply cache_map_lookup in Hl as [Hit Hitid]; [|by apply nw_cache].
  destruct (nw_entries _ Hwf it Hit) as (p & i' & Hinf & Hp & Hi & _).
  intros Hderef _ _. rewrite Hinf in Hderef.
  unfold intf_deref, getS, mbind, M_bind in Hderef. rewrite Hp in Hderef. injection Hderef as <-.
  assert (Hcb : destroy_connection i' = node_destroy_cb) by (by rewrite Hi). by rewrite Hcb.
Qed.

(** The slot is emptied whether or not the interface still exists. *)
Lemma connection_destroy_outcome ap_cport nid cport s :
  ap_map_wf (fw_ap_map s) → nodes_wf s → 0 <= ap_cport → nid ≠ AP_INF_ID →
  ∃ s', connection_destroy AP_INF_ID ap_cport nid cport s = Done 0 s' ∧
    connection_destroy nid cport AP_INF_ID ap_cport s = Done 0 s' ∧
    s' = store L_ap_map (<[Z.to_nat ap_cport := empty_item]> (fw_ap_map s))
           (store L_svc (svc_is_read_flag s && negb ((nid =? SVC_INF_ID) && (cport =? 0))) s).
Proof.
  intros Hmap Hwf Hap Hn. unfold connection_destroy, connection_ends.
  destruct (Z.eqb_spec nid AP_INF_ID); [done|]. rewrite Z.eqb_refl.
  step_with (gb_interface_find_by_id_spec nid s (nw_cache _ Hwf)).
  set (s1 := store L_svc _ s).
  assert (Hcall : (if decide (interface_of s nid = NullIntf) then mret ()
                   else call_destroy_connection (interface_of s nid) cport) s = Done () s1).
  { subst s1. destruct (decide (interface_of s nid = NullIntf)) as [Hnull|Hne].
    - unfold interface_of in Hnull. destruct (nid =? SVC_INF_ID).
      + destruct (svc_is_read_flag s) eqn:Hf; [done|]. cbn [andb]. rewrite <-Hf. by destruct s.
      + cbn [andb negb]. rewrite andb_true_r. by destruct s.
    - rewrite (call_destroy_connection_spec nid cport s Hwf Hne).
      destruct ((nid =? SVC_INF_ID) && (cport =? 0)); cbn [negb];
        [by rewrite andb_false_r|rewrite andb_true_r; by destruct s]. }
  step_with Hcall. step_with (node_ap_remove_spec ap_cport s1 Hmap Hap).
  eexists. by split_and!.
Qed.

(** A connection created on a free AP cport routes it to the interface, and destroying it
    succeeds and restores the table exactly; only the SVC's connection clears the SVC's ready
    flag. *)
Theorem connection_create_destroy ap_cport nid cport s s' :
  ap_map_wf (fw_ap_map s) → nodes_wf s → 0 <= ap_cport → nid ≠ AP_INF_ID →
  fw_ap_map s !! Z.to_nat ap_cport = Some empty_item →
  connection_create AP_INF_ID ap_cport nid cport s = Done 0 s' →
  fw_ap_map s' !! Z.to_nat ap_cport = Some (NodeApItem (interface_of s nid) cport nid) ∧
  ∃ s'', connection_destroy AP_INF_ID ap_cport nid cport s' = Done 0 s'' ∧
    fw_ap_map s'' = fw_ap_map s ∧ nodes_wf s'' ∧
    svc_is_read_flag s''
    = svc_is_read_flag s && negb ((nid =? SVC_INF_ID) && (cport =? 0)).
Proof.
  intros Hmap Hwf Hap Hn Hempty Hcreate.
  destruct (connection_create_outcome ap_cport nid cport s Hmap Hwf Hap Hn)
    as (ret & s1 & Hrun & _ & Hwf' & Hout).
  rewrite Hcreate in Hrun. injection Hrun as <- <-. unfold connect_outcome in Hout.
  destruct (decide _) as [|_]; [by destruct Hout|]. destruct Hout as (cret & s1 & _ & Hsame & Hout).
  destruct (Z.ltb_spec cret 0); [lia|]. rewrite Hempty in Hout.
  rewrite decide_True in Hout by done. destruct Hout as [_ ->].
  apply lookup_lt_Some in Hempty as Hlt.
  split; [cbn; by apply list_lookup_insert_eq|].
  set (s1' := store L_ap_map _ s1).
  destruct (connection_destroy_outcome ap_cport nid cport s1') as (s2 & Hrun & _ & ->); try done.
  { unfold ap_map_wf. cbn. by rewrite length_insert. }
  eexists. split; [done|]. cbn. rewrite list_insert_insert_eq, list_insert_id by done.
  split; [done|]. split; [by destruct Hwf'|]. by rewrite (se_svc _ _ Hsame).
Qed.

(** Creating or destroying a connection neither end of which is the AP is refused with
    -EINVAL, with nothing changed. *)
Theorem connection_needs_ap intf1_id cport1 intf2_id cport2 s :
  intf1_id ≠ AP_INF_ID → intf2_id ≠ AP_INF_ID →
  connection_create intf1_id cport1 intf2_id cport2 s = Done (- EINVAL) s ∧
  connection_destroy intf1_id cport1 intf2_id cport2 s = Done (- EINVAL) s.
Proof.
  intros Hn1%Z.eqb_neq Hn2%Z.eqb_neq. unfold connection_create, connection_destroy, connection_ends.
  by rewrite Hn1, Hn2.
Qed.
End Facts.
