(* ===== verification/Svc.v ===== *)
(** * The supervisory controller (src/svc.c)

    Handlers for the SVC protocol and the requests the SVC sends to the AP.
    [connection_send] is the AP bridge's. *)

From S2P Require Import Prelude Config Protocols Kernel Messages Interfaces NodeCache State ApMap.
From S2P Require Import NodeLink Routes.

Definition ENDO_ID : Z := 0x4755.

Section Svc.
Context `{Config, KHeap, KSlab, Sockets}.
Variable connection_send : Z → Z → Z → M fw Z.

(** *** Requests *)

Definition control_send_request (pl : list Z) (payload_len request_type : Z) : M fw Z :=
  msg ← zoom L_messages (gb_message_request_alloc pl payload_len request_type false);
  if msg =? NULL then mret (- ENOMEM)
  else
    ret ← connection_send SVC_INF_ID 0 msg;
    if ret <? 0 then mret ret
    else zoom L_messages (msg_operation_id msg).

Definition svc_send_hello : M fw Z :=
  let req := {| hello_endo_id := ENDO_ID; hello_interface_id := AP_INF_ID |} in
  control_send_request (to_wire req) (sizeof gb_svc_hello_request) GB_SVC_TYPE_SVC_HELLO.

Definition svc_send_module_inserted (primary_intf_id : Z) : M fw Z :=
  let req := {| mi_primary_intf_id := primary_intf_id; mi_intf_count := 1; mi_flags := 0 |} in
  control_send_request (to_wire req) (sizeof gb_svc_module_inserted_request)
    GB_SVC_TYPE_MODULE_INSERTED.

Definition svc_send_module_removed (intf : intf_ptr) : M fw Z :=
  i ← zoom L_interfaces (intf_deref intf);
  let req := {| mr_primary_intf_id := u8 (u16 (id i)) |} in
  ret ← control_send_request (to_wire req) (sizeof gb_svc_module_removed_request)
          GB_SVC_TYPE_MODULE_REMOVED;
  if ret <? 0 then mret ret
  else (_ ← node_destroy_interface intf; mret ret).

Definition svc_send_version : M fw Z :=
  let req := {| svr_major := GB_SVC_VERSION_MAJOR; svr_minor := GB_SVC_VERSION_MINOR |} in
  control_send_request (to_wire req) (sizeof gb_svc_version_request)
    GB_SVC_TYPE_PROTOCOL_VERSION.

(** *** Responses *)

Definition svc_response_helper (msg : Z) (pl : list Z) (payload_len status : Z) : M fw () :=
  m ← zoom L_messages (msg_deref msg);
  resp ← zoom L_messages (gb_message_response_alloc pl payload_len (hdr_type (header m))
                            (hdr_operation_id (header m)) status);
  if resp =? NULL then mret ()
  else
    ret ← connection_send SVC_INF_ID 0 resp;
    (* ret < 0 is only logged *)
    mret ().

Definition svc_version_response_handler (msg : Z) : M fw () :=
  m ← zoom L_messages (msg_deref msg);
  (* logged: *)
  response ← (read_struct (payload m) : M fw gb_svc_version_request);
  _ ← svc_send_hello;
  mret ().

Definition svc_hello_response_handler (msg : Z) : M fw () := mret ().

Definition svc_empty_request_handler (msg : Z) : M fw () :=
  svc_response_helper msg [] 0 GB_SVC_OP_SUCCESS.

Definition svc_pwrm_get_rail_count_handler (msg : Z) : M fw () :=
  let req := {| rail_rail_count := 0 |} in
  svc_response_helper msg (to_wire req) (sizeof gb_svc_pwrmon_rail_count_get_response)
    GB_SVC_OP_SUCCESS.

(** [tx_mode] is at offset 2 of the request and [rx_mode] at offset 7. *)
Definition svc_intf_set_pwrm_handler (msg : Z) : M fw () :=
  m ← zoom L_messages (msg_deref msg);
  req ← (read_fields 8 (payload m) : M fw gb_svc_intf_set_pwrm_request);
  let resp := {| pwrm_resp_result_code :=
    if (pwrm_tx_mode req =? GB_SVC_UNIPRO_HIBERNATE_MODE)
       && (pwrm_rx_mode req =? GB_SVC_UNIPRO_HIBERNATE_MODE)
    then GB_SVC_SETPWRM_PWR_OK else GB_SVC_SETPWRM_PWR_LOCAL |} in
  svc_response_helper msg (to_wire resp) (sizeof gb_svc_intf_set_pwrm_response)
    GB_SVC_OP_SUCCESS.

Definition svc_intf_vsys_enable_disable_handler (msg : Z) : M fw () :=
  let resp := {| vsys_result_code := GB_SVC_INTF_VSYS_OK |} in
  svc_response_helper msg (to_wire resp) (sizeof gb_svc_intf_vsys_response) GB_SVC_OP_SUCCESS.

Definition svc_interface_refclk_enable_disable_handler (msg : Z) : M fw () :=
  let resp := {| refclk_result_code := GB_SVC_INTF_REFCLK_OK |} in
  svc_response_helper msg (to_wire resp) (sizeof gb_svc_intf_refclk_response) GB_SVC_OP_SUCCESS.

Definition svc_interface_unipro_enable_disable_handler (msg : Z) : M fw () :=
  let resp := {| unipro_result_code := GB_SVC_INTF_UNIPRO_OK |} in
  svc_response_helper msg (to_wire resp) (sizeof gb_svc_intf_unipro_response) GB_SVC_OP_SUCCESS.

Definition svc_interface_activate_handler (msg : Z) : M fw () :=
  let resp := {| act_status := GB_SVC_OP_SUCCESS; act_intf_type := GB_SVC_INTF_TYPE_GREYBUS |} in
  svc_response_helper msg (to_wire resp) (sizeof gb_svc_intf_activate_response)
    GB_SVC_OP_SUCCESS.

Definition svc_dme_peer_get_handler (msg : Z) : M fw () :=
  let resp := {| dpg_result_code := 0; dpg_attr_value := 0x0126 |} in
  svc_response_helper msg (to_wire resp) (sizeof gb_svc_dme_peer_get_response)
    GB_SVC_OP_SUCCESS.

Definition svc_dme_peer_set_handler (msg : Z) : M fw () :=
  let resp := {| dps_result_code := 0 |} in
  svc_response_helper msg (to_wire resp) (sizeof gb_svc_dme_peer_set_response)
    GB_SVC_OP_SUCCESS.

(** The first four fields, six bytes, are read. *)
Definition svc_connection_create_handler (msg : Z) : M fw () :=
  m ← zoom L_messages (msg_deref msg);
  req ← (read_fields 6 (payload m) : M fw gb_svc_conn_create_request);
  if (cc_intf1_id req =? cc_intf2_id req) && (cc_cport1_id req =? cc_cport2_id req) then
    svc_response_helper msg [] 0 GB_SVC_OP_UNKNOWN_ERROR
  else
    ret ← connection_create (cc_intf1_id req) (cc_cport1_id req) (cc_intf2_id req)
            (cc_cport2_id req);
    if ret <? 0 then svc_response_helper msg [] 0 GB_SVC_OP_UNKNOWN_ERROR
    else svc_response_helper msg [] 0 GB_SVC_OP_SUCCESS.

Definition svc_connection_destroy_handler (msg : Z) : M fw () :=
  m ← zoom L_messages (msg_deref msg);
  req ← (read_struct (payload m) : M fw gb_svc_conn_destroy_request);
  ret ← connection_destroy (cd_intf1_id req) (cd_cport1_id req) (cd_intf2_id req)
          (cd_cport2_id req);
  if ret <? 0 then svc_response_helper msg [] 0 GB_SVC_OP_UNKNOWN_ERROR
  else svc_response_helper msg [] 0 GB_SVC_OP_SUCCESS.

Definition svc_interface_resume_handler (msg : Z) : M fw () :=
  let resp := {| res_status := GB_SVC_OP_SUCCESS |} in
  svc_response_helper msg (to_wire resp) (sizeof gb_svc_intf_resume_response) GB_SVC_OP_SUCCESS.

(** Both only log the result. *)
Definition svc_module_inserted_response_handler (msg : Z) : M fw () :=
  m ← zoom L_messages (msg_deref msg);
  if negb (gb_message_is_success m) then mret () else mret ().

Definition svc_module_removed_response_handler (msg : Z) : M fw () :=
  m ← zoom L_messages (msg_deref msg);
  if negb (gb_message_is_success m) then mret () else mret ().

(** *** Dispatch *)

Definition gb_handle_msg (msg : Z) : M fw () :=
  m ← zoom L_messages (msg_deref msg);
  let type := gb_message_type m in
  if bool_decide (type ∈ [GB_SVC_TYPE_INTF_DEVICE_ID; GB_SVC_TYPE_ROUTE_CREATE;
                          GB_SVC_TYPE_ROUTE_DESTROY; GB_SVC_TYPE_PING]) then
    svc_empty_request_handler msg
  else if type =? GB_SVC_TYPE_CONN_CREATE then svc_connection_create_handler msg
  else if type =? GB_SVC_TYPE_CONN_DESTROY then svc_connection_destroy_handler msg
  else if type =? GB_SVC_TYPE_DME_PEER_GET then svc_dme_peer_get_handler msg
  else if type =? GB_SVC_TYPE_DME_PEER_SET then svc_dme_peer_set_handler msg
  else if type =? GB_SVC_TYPE_INTF_SET_PWRM then svc_intf_set_pwrm_handler msg
  else if type =? GB_SVC_TYPE_PWRMON_RAIL_COUNT_GET then svc_pwrm_get_rail_count_handler msg
  else if bool_decide (type ∈ [GB_SVC_TYPE_INTF_VSYS_ENABLE; GB_SVC_TYPE_INTF_VSYS_DISABLE]) then
    svc_intf_vsys_enable_disable_handler msg
  else if bool_decide (type ∈ [GB_SVC_TYPE_INTF_REFCLK_ENABLE; GB_SVC_TYPE_INTF_REFCLK_DISABLE])
  then svc_interface_refclk_enable_disable_handler msg
  else if bool_decide (type ∈ [GB_SVC_TYPE_INTF_UNIPRO_ENABLE; GB_SVC_TYPE_INTF_UNIPRO_DISABLE])
  then svc_interface_unipro_enable_disable_handler msg
  else if type =? GB_SVC_TYPE_INTF_ACTIVATE then svc_interface_activate_handler msg
  else if type =? GB_SVC_TYPE_INTF_RESUME then svc_interface_resume_handler msg
  else if type =? GB_RESPONSE GB_SVC_TYPE_PROTOCOL_VERSION then svc_version_response_handler msg
  else if type =? GB_RESPONSE GB_SVC_TYPE_SVC_HELLO then svc_hello_response_handler msg
  else if type =? GB_RESPONSE GB_SVC_TYPE_MODULE_INSERTED then
    svc_module_inserted_response_handler msg
  else if type =? GB_RESPONSE GB_SVC_TYPE_MODULE_REMOVED then
    svc_module_removed_response_handler msg
  else mret ().

Definition svc_inf_write (ctrl : intf_ptr) (msg cport_id : Z) : M fw Z :=
  if negb (cport_id =? 0) then mret (-1)
  else
    _ ← gb_handle_msg msg;
    _ ← zoom L_messages (gb_message_dealloc msg);
    mret 0.
End Svc.
