(* ===== verification/Quiet.v ===== *)
(** * Steps that leave the tables alone

    Most of what the firmware does only allocates and frees messages, writes to
    the UART and uses sockets.  [quiet] says so of a program: from well-formed
    messages it keeps them well formed, changes no table, and ends, if only in
    a fault.  Programs are taken apart by [quiet_step] down to the operations
    proved here. *)

From S2P Require Import Prelude Config Protocols Hdlc Kernel Messages Interfaces NodeCache State.
From S2P Require Import ApMap NodeLink NodeLife Ap LocalNode Routes Svc.

(** Partial correctness: faults are allowed, endless loops are not. *)
Definition wlp {S A} (m : M S A) (Q : A → S → Prop) (s : S) : Prop :=
  match m s with Done a s' => Q a s' | Crash f => f ≠ Diverge end.

Lemma wlp_bind {S A B} (m : M S A) (k : A → M S B) Q s :
  wlp m (λ a, wlp (k a) Q) s → wlp (m ≫= k) Q s.
Proof. unfold wlp, mbind, M_bind. by destruct (m s). Qed.

Lemma wlp_mono {S A} (m : M S A) (Q Q' : A → S → Prop) s :
  wlp m Q s → (∀ a s', Q a s' → Q' a s') → wlp m Q' s.
Proof. unfold wlp. destruct (m s); eauto. Qed.

(** A program that ends had a first part that ended. *)
Lemma bind_ends {S A B} (m : M S A) (k : A → M S B) s : (m ≫= k) s ≠ Crash Diverge → m s ≠ Crash Diverge.
Proof. unfold mbind, M_bind. destruct (m s) as [a s1|f]; [done|]. intros Hf [=->]. by apply Hf. Qed.

(** A program that only reads. *)
Definition reads {S A} (m : M S A) (Q : A → Prop) : Prop := ∀ s, wlp m (λ a s', s' = s ∧ Q a) s.

Lemma reads_ret {S A} (a : A) (Q : A → Prop) : Q a → reads (mret a : M S A) Q.
Proof. by intros Ha s. Qed.

Lemma reads_bind {S A B} (m : M S A) (k : A → M S B) Q R :
  reads m Q → (∀ a, Q a → reads (k a) R) → reads (m ≫= k) R.
Proof.
  intros Hm Hk s. apply wlp_bind. apply (wlp_mono _ _ _ _ (Hm s)). intros a s' [-> Ha]. by apply Hk.
Qed.

Lemma reads_mono {S A} (m : M S A) (Q Q' : A → Prop) : reads m Q → (∀ a, Q a → Q' a) → reads m Q'.
Proof. intros Hm HQ s. apply (wlp_mono _ _ _ _ (Hm s)). intros a s' [-> Ha]. by auto. Qed.

Lemma reads_getS {S} : reads (getS : M S S) (λ _, True). Proof. done. Qed.

Lemma reads_crash {S A} f (Q : A → Prop) : f ≠ Diverge → reads (crash f : M S A) Q.
Proof. by intros Hf s. Qed.

Lemma reads_array_get {S A} (l : list A) i :
  reads (array_get l i : M S A) (λ a, a ∈ l).
Proof.
  unfold array_get. destruct (i <? 0); [by apply reads_crash|].
  destruct (l !! Z.to_nat i) as [a|] eqn:Ha; [|by apply reads_crash].
  apply reads_ret. by eapply list_elem_of_lookup_2.
Qed.

Lemma reads_array_set {S A} (l : list A) i a :
  reads (array_set l i a : M S (list A)) (λ l', 0 <= i < length l ∧ l' = <[Z.to_nat i := a]> l).
Proof.
  unfold array_set. destruct (Z.ltb_spec i 0); [by apply reads_crash|].
  case_decide; [|by apply reads_crash]. apply reads_ret. split; [lia|done].
Qed.

Lemma reads_memcpy {S} dst src n :
  bytes dst → bytes src → reads (memcpy dst src n : M S _) (λ l, bytes l ∧ length l = length dst).
Proof.
  intros Hd Hs. unfold memcpy. case_decide as Hn; [|by apply reads_crash]. apply reads_ret. split.
  - apply Forall_app_2; [by apply Forall_take|by apply Forall_drop].
  - rewrite length_app, length_take, length_drop. lia.
Qed.

Lemma reads_memcpy_at {S} dst off src n :
  reads (memcpy_at dst off src n : M S _) (λ _, True).
Proof.
  unfold memcpy_at, memcpy. case_decide; [|by apply reads_crash].
  case_decide; [|by apply (reads_bind _ _ (λ _, True)); [apply reads_crash|]].
  by apply reads_ret.
Qed.

Lemma reads_read_struct {S A} `{Packed A} bs :
  reads (read_struct bs : M S A) (λ a, (sizeof A <= length bs)%nat ∧ a = of_wire bs).
Proof. unfold read_struct. case_decide; [by apply reads_ret|by apply reads_crash]. Qed.

Lemma reads_read_fields {S A} `{Packed A} n bs : reads (read_fields n bs : M S A) (λ _, True).
Proof. unfold read_fields. case_decide; [by apply reads_ret|by apply reads_crash]. Qed.

(** ** Reads of the components *)

Lemma reads_find_from test n i : reads (find_from test n i) (λ _, True).
Proof.
  revert i. induction n as [|n IH]; intros i; cbn [find_from]; [by apply reads_ret|].
  eapply reads_bind; [apply reads_getS|intros c _]. eapply reads_bind; [apply reads_array_get|intros it _].
  destruct (test it); [by apply reads_ret|apply IH].
Qed.

Lemma reads_find_loop test : reads (find_loop test) (λ _, True).
Proof. eapply reads_bind; [apply reads_getS|intros c _]. apply reads_find_from. Qed.

Lemma reads_cache_at i : reads (node_cache_at i) (λ _, True).
Proof.
  eapply reads_bind; [apply reads_getS|intros c _].
  apply (reads_mono _ _ _ (reads_array_get _ _)). done.
Qed.

Lemma reads_intf_deref `{KSlab} p : reads (intf_deref p) (λ _, True).
Proof.
  destruct p; try (by apply reads_crash); try (by apply reads_ret).
  eapply reads_bind; [apply reads_getS|intros s _].
  destruct (intf_store s !! p); [by apply reads_ret|by apply reads_crash].
Qed.

(** ** Quiet programs *)

Create HintDb quiet discriminated.

Section Quiet.
Context `{Config, Crc16, KHeap, KSlab, Sockets, Stack}.
Implicit Types s : fw.

(** The state but for the messages, the UART and the network. *)
Definition fw_tables s :=
  (fw_hdlc s, fw_interfaces s, fw_controls s, fw_nodes s, fw_ap_map s,
   (svc_is_read_flag s, local_pipe_writer s, tcp_discovery_sock s, tcp_discovery_running s)).

Definition quiet {A} (m : M fw A) (Q : A → Prop) : Prop :=
  ∀ s, messages_wf (fw_messages s) →
    wlp m (λ a s', messages_wf (fw_messages s') ∧ fw_tables s' = fw_tables s ∧ Q a) s.

Lemma quiet_ret {A} (a : A) (Q : A → Prop) : Q a → quiet (mret a) Q.
Proof. by intros Ha s Hs. Qed.

Lemma quiet_bind {A B} (m : M fw A) (k : A → M fw B) Q R :
  quiet m Q → (∀ a, Q a → quiet (k a) R) → quiet (m ≫= k) R.
Proof.
  intros Hm Hk s Hs. apply wlp_bind. apply (wlp_mono _ _ _ _ (Hm s Hs)).
  intros a s' (Hs' & Ht & Ha). rewrite <-Ht. apply (Hk a Ha s' Hs').
Qed.

Lemma quiet_mono {A} (m : M fw A) (Q Q' : A → Prop) : quiet m Q → (∀ a, Q a → Q' a) → quiet m Q'.
Proof.
  intros Hm HQ s Hs. apply (wlp_mono _ _ _ _ (Hm s Hs)). intros a s' (Hs' & Ht & Ha). by auto.
Qed.

Lemma quiet_weaken {A} (m : M fw A) (Q : A → Prop) : quiet m Q → quiet m (λ _, True).
Proof. intros Hm. by apply (quiet_mono _ _ _ Hm). Qed.

Lemma quiet_crash {A} f (Q : A → Prop) : f ≠ Diverge → quiet (crash f) Q.
Proof. by intros Hf s Hs. Qed.

Lemma quiet_reads {A} (m : M fw A) Q : reads m Q → quiet m Q.
Proof. intros Hm s Hs. apply (wlp_mono _ _ _ _ (Hm s)). by intros a s' [-> Ha]. Qed.

Lemma quiet_zoom_reads {T A} (l : lens fw T) `{!LensLaws l} (m : M T A) Q : reads m Q → quiet (zoom l m) Q.
Proof.
  intros Hm. apply quiet_reads. intros s. pose proof (Hm (view l s)) as Hv. unfold wlp, zoom in *.
  destruct (m (view l s)) as [a t|f]; [|done]. destruct Hv as [-> Ha]. by rewrite store_view.
Qed.

Lemma quiet_messages {A} (m : M messages A) (Q : A → Prop) :
  (∀ ms, messages_wf ms → wlp m (λ a ms', messages_wf ms' ∧ Q a) ms) → quiet (zoom L_messages m) Q.
Proof.
  intros Hm s Hs. pose proof (Hm (fw_messages s) Hs) as Hv. unfold wlp, zoom in *.
  cbn [view L_messages]. destruct (m (fw_messages s)) as [a ms|f]; [|done]. by destruct Hv.
Qed.

Lemma quiet_net (f : net → net) : quiet (modL L_net f) (λ _, True).
Proof. by intros s Hs. Qed.

Lemma quiet_zoom_net {A} (m : M net A) : (∀ n, wlp m (λ _ _, True) n) → quiet (zoom L_net m) (λ _, True).
Proof.
  intros Hm s Hs. pose proof (Hm (fw_net s)) as Hv. unfold wlp, zoom in *.
  cbn [view L_net]. by destruct (m (fw_net s)).
Qed.

Lemma quiet_uart (f : list Z → list Z) : quiet (modL L_uart f) (λ _, True).
Proof. by intros s Hs. Qed.

Lemma quiet_getL {T} (l : lens fw T) `{!LensLaws l} : quiet (getL l) (λ _, True).
Proof. by apply quiet_zoom_reads. Qed.
End Quiet.

(** Take a program apart; what is known of a result is kept. *)
Ltac quiet_step :=
  match goal with
  | |- quiet (mret _) _ => apply quiet_ret; (exact I || done || idtac)
  | |- quiet (crash _) _ => by apply quiet_crash
  | |- quiet (getL _) _ => refine (quiet_getL _)
  | |- quiet (modL L_net _) _ => apply quiet_net
  | |- quiet (modL L_uart _) _ => apply quiet_uart
  | |- quiet (zoom _ (intf_deref _)) _ => refine (quiet_zoom_reads _ _ _ _); apply reads_intf_deref
  | |- quiet (zoom _ (node_cache_at _)) _ => refine (quiet_zoom_reads _ _ _ _); apply reads_cache_at
  | |- quiet (zoom _ (node_cache_find_by_addr _)) _ => refine (quiet_zoom_reads _ _ _ _); apply reads_find_loop
  | |- quiet (zoom _ (node_cache_find_by_id _)) _ => refine (quiet_zoom_reads _ _ _ _); apply reads_find_loop
  | |- quiet (zoom _ (node_cache_find_by_sock _)) _ => refine (quiet_zoom_reads _ _ _ _); apply reads_find_loop
  | |- quiet (array_get _ _) _ => eapply quiet_mono; [apply quiet_reads, reads_array_get|done]
  | |- quiet (memcpy_at _ _ _ _) _ => eapply quiet_mono; [apply quiet_reads, reads_memcpy_at|done]
  | |- quiet (read_struct _) _ => eapply quiet_mono; [apply quiet_reads, reads_read_struct|done]
  | |- quiet (read_fields _ _) _ => apply quiet_reads, reads_read_fields
  | |- quiet (_ ≫= _) _ =>
      first [eapply quiet_bind; [solve [eauto 3 with quiet]|intros ? ?]
            |apply (quiet_bind _ _ (λ _, True)); [|intros ? _]]
  | |- quiet (if ?b then _ else _) _ => destruct b
  | |- quiet (match ?x with _ => _ end) _ => destruct x
  | |- quiet (let _ := _ in _) _ => cbv zeta
  | |- quiet _ _ => first [solve [eauto 3 with quiet]|progress cbv beta]
  end.
Ltac solve_quiet := repeat quiet_step.

(** ** Messages *)

Section Messages.
Context `{Config, Crc16, KHeap, !KHeapLaws, KSlab, Sockets, !SocketsLaws, Stack, !StackLaws}.

Lemma wlp_msg_deref p ms :
  messages_wf ms → wlp (msg_deref p) (λ b ms', ms' = ms ∧ msg_store ms !! p = Some b ∧ block_ok b) ms.
Proof.
  intros Hwf. unfold wlp, msg_deref, getS, mbind, M_bind. destruct (p =? NULL); [done|].
  destruct (msg_store ms !! p) as [b|] eqn:Hp; [|done]. split; [done|]. split; [done|].
  by apply (wf_blocks _ Hwf p).
Qed.

Lemma quiet_msg_deref p : quiet (zoom L_messages (msg_deref p)) block_ok.
Proof.
  apply quiet_messages. intros ms Hwf. apply (wlp_mono _ _ _ _ (wlp_msg_deref p ms Hwf)).
  by intros b ms' (-> & _ & Hb).
Qed.

(** Any length: the block's size field tells the length of its payload. *)
Lemma wlp_alloc payload_len type id status ms :
  messages_wf ms → is_u8 type → is_u16 id → is_u8 status →
  wlp (gb_message_alloc payload_len type id status) (λ _ ms', messages_wf ms') ms.
Proof.
  intros [Hlive Hnull Hblocks Hctr] Ht Hid Hst. unfold wlp, gb_message_alloc, getS, mbind, M_bind.
  set (n := u32 _). assert (Hn : is_u32 n) by apply u32_is_u32. unfold is_u32 in Hn.
  destruct (k_heap_alloc _ n) as [[[p mem] heap]|] eqn:Halloc; [|by split].
  apply k_heap_alloc_law in Halloc as (Hp & Hfresh & Hlive' & Hmem & Hbytes); [|lia].
  change (sizeof gb_operation_msg_hdr) with 8%nat in *.
  destruct (decide (8 <= length mem)%nat) as [Hl|]; [|done]. cbn [putS mret M_ret].
  assert (Hnone : msg_store ms !! p = None).
  { apply not_elem_of_dom. by rewrite Hlive. }
  split; cbn [msg_store greybus_messages_heap operation_id_counter];
    [|by rewrite lookup_insert_ne| |done].
  - by rewrite dom_insert_L, Hlive, Hlive'.
  - apply map_Forall_insert_2; [|done]. split; [|split]; cbn [header payload hdr_size].
    + pose proof (of_wire_header_range mem Hbytes Hl) as Hr. destruct (of_wire mem) as [a b c d e f].
      apply in_range_header in Hr as (_ & _ & _ & _ & He & Hf). apply in_range_header.
      auto 10 with machine.
    + by apply Forall_drop.
    + rewrite length_drop. unfold n, u32 in *. change (Z.of_nat 8) with 8 in *.
      change (Z.of_nat (sizeof gb_operation_msg_hdr)) with 8.
      replace (8 + (length mem - 8)%nat) with (length mem : Z) by lia. rewrite Hmem.
      unfold u16. symmetry. apply Z.mod_mod_divide. by exists (2 ^ 16).
Qed.

Lemma wlp_write_payload p src n ms :
  messages_wf ms → bytes src → wlp (msg_write_payload p src n) (λ _ ms', messages_wf ms') ms.
Proof.
  intros Hwf Hsrc. unfold msg_write_payload. destruct (n =? 0); [done|].
  apply wlp_bind, (wlp_mono _ _ _ _ (wlp_msg_deref p ms Hwf)). intros b ms' (-> & Hp & Hb).
  apply wlp_bind, (wlp_mono _ _ _ _ (reads_memcpy (payload b) src n (proj1 (proj2 Hb)) Hsrc ms)).
  intros pl ms' (-> & Hpl & Hl). apply (messages_wf_update ms p b _ Hwf Hp). by apply block_ok_payload.
Qed.

Lemma wlp_dealloc p ms : messages_wf ms → wlp (gb_message_dealloc p) (λ _ ms', messages_wf ms') ms.
Proof.
  intros Hwf. unfold wlp. destruct (msg_store ms !! p) as [b|] eqn:Hp.
  - by destruct (gb_message_dealloc_spec ms p b Hwf Hp) as (heap & -> & Hwf').
  - unfold gb_message_dealloc, getS, mbind, M_bind. destruct (p =? NULL); [done|]. by rewrite Hp.
Qed.

Lemma wlp_response_alloc pl n type id status ms :
  messages_wf ms → bytes pl → is_u8 type → is_u16 id → is_u8 status →
  wlp (gb_message_response_alloc pl n type id status) (λ _ ms', messages_wf ms') ms.
Proof.
  intros Hwf Hpl Ht Hid Hst. unfold gb_message_response_alloc. apply wlp_bind.
  apply (wlp_mono _ _ _ _ (wlp_alloc n (Z.lor GB_OP_RESPONSE type) id status ms Hwf
    ltac:(by apply lor_is_u8) Hid Hst)).
  intros p ms1 Hwf1. apply wlp_bind, (wlp_mono _ _ _ _ (wlp_write_payload p pl n ms1 Hwf1 Hpl)). done.
Qed.

Lemma wlp_request_alloc pl n type oneshot ms :
  messages_wf ms → bytes pl → is_u8 type →
  wlp (gb_message_request_alloc pl n type oneshot) (λ _ ms', messages_wf ms') ms.
Proof.
  intros Hwf Hpl Ht. unfold gb_message_request_alloc. apply wlp_bind.
  apply (wlp_mono _ (λ oid ms', messages_wf ms' ∧ is_u16 oid)).
  - destruct oneshot; [by split|]. destruct Hwf as [Hlive Hnull Hblocks Hctr].
    destruct (new_operation_id_range (operation_id_counter ms) Hctr) as [Hid Hctr'].
    unfold wlp, take_operation_id, getS, putS, mbind, M_bind.
    destruct (new_operation_id _) as [oid counter]. cbn in Hid, Hctr'. split; [by split|].
    unfold is_u16, OPERATION_ID_START, UINT16_MAX in *. lia.
  - intros oid ms0 [Hwf0 Hoid].
    apply wlp_bind, (wlp_mono _ _ _ _ (wlp_alloc n type oid 0 ms0 Hwf0 Ht Hoid ltac:(done))).
    intros p ms1 Hwf1. apply wlp_bind, (wlp_mono _ _ _ _ (wlp_write_payload p pl n ms1 Hwf1 Hpl)). done.
Qed.

Lemma wlp_operation_id p ms :
  messages_wf ms → wlp (msg_operation_id p) (λ id ms', messages_wf ms' ∧ is_u16 id) ms.
Proof.
  intros Hwf. unfold wlp, msg_operation_id, getS, mbind, M_bind.
  destruct (msg_store ms !! p) as [b|] eqn:Hp.
  - split; [done|]. destruct (wf_blocks _ Hwf p b Hp) as (Hr & _).
    destruct (header b). apply in_range_header in Hr. tauto.
  - split; [by destruct Hwf|]. apply k_heap_stale_law.
Qed.

(** Operations that only keep the messages well formed. *)
Lemma quiet_messages_wf {A} (m : M messages A) :
  (∀ ms, messages_wf ms → wlp m (λ _ ms', messages_wf ms') ms) → quiet (zoom L_messages m) (λ _, True).
Proof.
  intros Hm. apply quiet_messages. intros ms Hwf. by apply (wlp_mono _ _ _ _ (Hm ms Hwf)).
Qed.

Lemma quiet_alloc payload_len type id status :
  is_u8 type → is_u16 id → is_u8 status →
  quiet (zoom L_messages (gb_message_alloc payload_len type id status)) (λ _, True).
Proof. intros. apply quiet_messages_wf. intros. by apply wlp_alloc. Qed.

Lemma quiet_write_payload p src n :
  bytes src → quiet (zoom L_messages (msg_write_payload p src n)) (λ _, True).
Proof. intros. apply quiet_messages_wf. intros. by apply wlp_write_payload. Qed.

Lemma quiet_dealloc p : quiet (zoom L_messages (gb_message_dealloc p)) (λ _, True).
Proof. apply quiet_messages_wf. intros. by apply wlp_dealloc. Qed.

Lemma quiet_response_alloc pl n type id status :
  bytes pl → is_u8 type → is_u16 id → is_u8 status →
  quiet (zoom L_messages (gb_message_response_alloc pl n type id status)) (λ _, True).
Proof. intros. apply quiet_messages_wf. intros. by apply wlp_response_alloc. Qed.

Lemma quiet_request_alloc pl n type oneshot :
  bytes pl → is_u8 type →
  quiet (zoom L_messages (gb_message_request_alloc pl n type oneshot)) (λ _, True).
Proof. intros. apply quiet_messages_wf. intros. by apply wlp_request_alloc. Qed.

Lemma quiet_operation_id p : quiet (zoom L_messages (msg_operation_id p)) (λ _, True).
Proof.
  apply quiet_messages_wf. intros ms Hwf. apply (wlp_mono _ _ _ _ (wlp_operation_id p ms Hwf)).
  by intros oid ms' [].
Qed.
End Messages.

#[export] Hint Resolve quiet_msg_deref quiet_alloc quiet_write_payload quiet_dealloc
  quiet_response_alloc quiet_request_alloc quiet_operation_id : quiet.

(** ** Sockets, buffers and the UART *)

Section Transport.
Context `{Config, Crc16, KHeap, !KHeapLaws, KSlab, Sockets, !SocketsLaws, Stack}.
Implicit Types s : fw.

Lemma quiet_sock_close sock : quiet (sock_close sock) (λ _, True).
Proof. apply quiet_net. Qed.

Lemma quiet_pipe_send : quiet pipe_send (λ _, True).
Proof. unfold pipe_send, sock_send. solve_quiet. Qed.

Lemma quiet_connect_to_node addr : quiet (connect_to_node addr) (λ _, True).
Proof. unfold connect_to_node, sock_close. solve_quiet. Qed.

Lemma quiet_ctrl_sock p : quiet (ctrl_sock p) (λ _, True).
Proof. unfold ctrl_sock. solve_quiet. Qed.

(** A send of something makes progress or fails. *)
Lemma quiet_sock_send sock data :
  data ≠ [] → quiet (sock_send sock data) (λ ret, ret < 0 ∨ 0 < ret <= length data).
Proof.
  intros Hne s Hs. unfold wlp, sock_send, getL, modL, zoom, getS, modS, mbind, M_bind. cbn.
  destruct (zsock_send (fw_net s) sock data) as [r n'] eqn:Hsend. split; [done|]. split; [done|].
  apply zsock_send_law in Hsend as [[? _]|[? _]]; [by left|by right|done].
Qed.

Lemma quiet_sock_recv sock len :
  0 < len →
  quiet (sock_recv sock len) (λ r, (r.1 < 0 ∨ 0 <= r.1 <= len ∧ (length r.2 : Z) = r.1) ∧ bytes r.2).
Proof.
  intros Hl s Hs. unfold wlp, sock_recv, getL, modL, zoom, getS, modS, mbind, M_bind. cbn.
  destruct (zsock_recv (fw_net s) sock len) as [[r data] n'] eqn:Hrecv. split; [done|]. split; [done|].
  by apply zsock_recv_law in Hrecv as (Hr & Hb & _).
Qed.

Lemma quiet_write_loop sock data len (fuel : nat) t :
  len <= length data → 0 <= t → len - t <= fuel → quiet (write_loop sock data len fuel t) (λ _, True).
Proof.
  intros Hl. revert t. induction fuel as [|fuel IH]; intros t Ht Hf; cbn [write_loop];
    (destruct (Z.ltb_spec t len); [|by apply quiet_ret]); [lia|].
  set (piece := take _ _). assert (Hp : (length piece : Z) = len - t).
  { unfold piece. rewrite length_take, length_drop. lia. }
  clearbody piece. eapply quiet_bind.
  { apply quiet_sock_send. intros ->. cbn [length] in Hp. lia. }
  cbv beta. intros ret Hret. destruct (Z.ltb_spec ret 0); [by apply quiet_ret|]. apply IH; lia.
Qed.

Lemma quiet_write_data sock data len : quiet (write_data sock data len) (λ _, True).
Proof.
  unfold write_data. case_decide; [|by apply quiet_crash].
  destruct (Z.le_gt_cases 0 len); [apply quiet_write_loop; lia|].
  replace (Z.to_nat len) with 0%nat by lia. cbn [write_loop].
  destruct (Z.ltb_spec 0 len); [lia|by apply quiet_ret].
Qed.

(** What is read are bytes, and as many as it says. *)
Definition read_result (len : Z) (r : Z * list Z) : Prop :=
  bytes r.2 ∧ (0 < len → r.1 = len → (length r.2 : Z) = len).

Lemma quiet_read_loop sock len (fuel : nat) t data :
  bytes data → (length data : Z) = t → len - t <= fuel →
  quiet (read_loop sock len fuel t data) (read_result len).
Proof.
  revert t data. induction fuel as [|fuel IH]; intros t data Hb Hd Hf; cbn [read_loop];
    (destruct (Z.ltb_spec t len); [|apply quiet_ret; split; [done|cbn; lia]]); [lia|].
  eapply quiet_bind; [apply quiet_sock_recv; lia|]. intros [ret more] [Hr Hm]. cbn [fst snd] in *.
  destruct (Z.leb_spec ret 0); [apply quiet_ret; split; [done|cbn; lia]|].
  destruct Hr as [|[_ Hr]]; [lia|]. apply IH; [by apply Forall_app_2|rewrite length_app; lia|lia].
Qed.

Lemma quiet_read_data sock len : quiet (read_data sock len) (read_result len).
Proof. unfold read_data. apply quiet_read_loop; [by apply Forall_nil_2|done|lia]. Qed.

Lemma quiet_poll_out_from buffer n i : quiet (poll_out_from buffer n i) (λ _, True).
Proof. revert i. induction n as [|n IH]; intros i; cbn [poll_out_from]; unfold uart_poll_out; solve_quiet. Qed.
Hint Resolve quiet_poll_out_from : quiet.

Lemma quiet_uart_poll_out_crc b c : quiet (uart_poll_out_crc hdlc_send_callback b c) (λ _, True).
Proof. unfold uart_poll_out_crc, hdlc_send_callback. solve_quiet. Qed.
Hint Resolve quiet_uart_poll_out_crc : quiet.

Lemma quiet_send_buffer buffer n i c : quiet (send_buffer hdlc_send_callback buffer n i c) (λ _, True).
Proof. revert i c. induction n as [|n IH]; intros i c; cbn [send_buffer]; solve_quiet. Qed.
Hint Resolve quiet_send_buffer : quiet.

Lemma quiet_ap_send msg cport : quiet (ap_send msg cport) (λ _, True).
Proof.
  unfold ap_send, gb_message_hdlc_send, hdlc_block_send_sync, hdlc_send_callback. cbn [Z.eqb].
  solve_quiet.
Qed.

Lemma quiet_node_to_ap_cport nid cport : quiet (node_to_ap_cport nid cport) (λ _, True).
Proof.
  unfold node_to_ap_cport. generalize (Z.to_nat AP_MAX_NODES), 0. intros n.
  induction n as [|n IH]; intros i; cbn [ap_cport_from]; solve_quiet.
Qed.
End Transport.

#[export] Hint Resolve quiet_sock_close quiet_pipe_send quiet_connect_to_node quiet_ctrl_sock
  quiet_write_data quiet_read_data quiet_ap_send quiet_node_to_ap_cport : quiet.

(** ** Messages to the AP *)

(** A [connection_send] that is quiet for messages to the AP. *)
Definition quiet_to_ap `{KHeap, KSlab, Sockets} (cs : Z → Z → Z → M fw Z) : Prop :=
  ∀ intf_id cport msg, intf_id ≠ AP_INF_ID → quiet (cs intf_id cport msg) (λ _, True).

Section Senders.
Context `{Config, Crc16, KHeap, !KHeapLaws, KSlab, Sockets, !SocketsLaws, Stack}.
Context (cs : Z → Z → Z → M fw Z) (Hcs : quiet_to_ap cs).

Lemma quiet_cs_svc cport msg : quiet (cs SVC_INF_ID cport msg) (λ _, True).
Proof. by apply Hcs. Qed.

Lemma quiet_cs_local cport msg : quiet (cs LOCAL_NODE_ID cport msg) (λ _, True).
Proof. by apply Hcs. Qed.
Hint Resolve quiet_cs_svc quiet_cs_local : quiet.

(** The header of a block is in range. *)
Lemma block_header b : block_ok b → is_u8 (hdr_type (header b)) ∧ is_u16 (hdr_operation_id (header b)).
Proof. intros (Hr & _). destruct (header b). apply in_range_header in Hr. tauto. Qed.

Lemma quiet_control_send_request pl n type :
  bytes pl → is_u8 type → quiet (control_send_request cs pl n type) (λ _, True).
Proof. intros Hpl Ht. unfold control_send_request. solve_quiet. Qed.

Lemma quiet_svc_response_helper msg pl n status :
  bytes pl → is_u8 status → quiet (svc_response_helper cs msg pl n status) (λ _, True).
Proof.
  intros Hpl Hst. unfold svc_response_helper.
  eapply quiet_bind; [apply quiet_msg_deref|]. intros m [Ht Hid]%block_header. solve_quiet.
Qed.

Lemma quiet_response_helper ctrl msg pl n status cport :
  bytes pl → is_u8 status → quiet (response_helper cs ctrl msg pl n status cport) (λ _, True).
Proof.
  intros Hpl Hst. unfold response_helper.
  eapply quiet_bind; [apply quiet_msg_deref|]. intros m [Ht Hid]%block_header. solve_quiet.
Qed.

Lemma manifest_bytes : bytes manifest.
Proof. solve_bytes. Qed.

Lemma u8_status status : 0 <= status < 256 → is_u8 status.
Proof. done. Qed.

Lemma quiet_intf_write ctrl msg cport : quiet (intf_write cs ctrl msg cport) (λ _, True).
Proof.
  assert (Hh : ∀ pl n, bytes pl → quiet (response_helper cs ctrl msg pl n 0 CONTROL_PROTOCOL_CPORT) (λ _, True)).
  { intros pl n Hpl. by apply quiet_response_helper. }
  unfold intf_write, control_protocol_handle, control_protocol_cport_shutdown_handler,
    control_protocol_version_handler, control_protocol_get_manifest_size_handler,
    control_protocol_get_manifest_handler, control_protocol_empty_handler.
  solve_quiet; apply Hh; first [apply to_wire_bytes|apply manifest_bytes|by apply Forall_nil_2].
Qed.
End Senders.
