(* ===== verification/SvcFacts.v ===== *)
(** * The SVC answers its requests (src/svc.c)

    [svc_reply] is the specification: the payload of the response to every
    request the SVC answers from the request alone.  The handlers implement it
    over any link to the AP ([ApLink]). *)

From S2P Require Import Prelude Config Protocols Hdlc Kernel Messages Interfaces NodeCache State.
From S2P Require Import ApMap NodeLink Ap LocalNode Routes Svc.

(** The response's payload for a request of a type with a payload. *)
Definition svc_reply (type : Z) (pl : list Z) : option (list Z) :=
  match type with
  | 0x03 | 0x0b | 0x0c | 0x13 => Some []
  | 0x09 => Some [0; 0; 0x26; 0x01; 0; 0]
  | 0x0a => Some [0; 0]
  | 0x10 => if decide (8 <= length pl)%nat
            then Some [if (pl !!! 2%nat =? 0x11) && (pl !!! 7%nat =? 0x11) then 0 else 1]
            else None
  | 0x14 => Some [0]
  | 0x21 | 0x22 | 0x23 | 0x24 | 0x25 | 0x26 | 0x28 => Some [0]
  | 0x27 => Some [0; 3]
  | _ => None
  end.

Section SvcFacts.
Context `{Config, !ConfigOk _, Crc16, KHeap, !KHeapLaws, KSlab, Sockets}.
Context (cs : Z → Z → Z → M fw Z) `{!ApLink cs}.
Implicit Types s : fw.

(** The types a reply is specified for, and the length of the reply. *)
Lemma svc_reply_cases type pl rp :
  svc_reply type pl = Some rp →
  type ∈ [0x03; 0x0b; 0x0c; 0x13; 0x09; 0x0a; 0x10; 0x14; 0x21; 0x22; 0x23; 0x24; 0x25; 0x26;
          0x28; 0x27].
Proof.
  unfold svc_reply. intros Hr.
  repeat (case_match; try discriminate Hr); apply (bool_decide_unpack _); vm_compute; exact I.
Qed.

Lemma svc_reply_ok type pl rp :
  svc_reply type pl = Some rp → bytes rp ∧ length rp <= 6.
Proof.
  intros Hr. apply svc_reply_cases in Hr as Ht. rewrite !elem_of_cons, elem_of_nil in Ht.
  repeat destruct Ht as [->|Ht]; try done; cbn in Hr; repeat case_match; simplify_eq/=;
    (split; [repeat constructor; by unfold is_u8|lia]).
Qed.

Lemma of_wire_pwrm pl :
  (8 <= length pl)%nat → bytes pl →
  let req : gb_svc_intf_set_pwrm_request := of_wire pl in
  pwrm_tx_mode req = pl !!! 2%nat ∧ pwrm_rx_mode req = pl !!! 7%nat.
Proof.
  intros Hl Hb. do 8 (destruct pl as [|? pl]; [cbn in Hl; lia|]).
  cbn. rewrite !Z.mul_0_r, !Z.add_0_r. done.
Qed.

(** Each handler answers with the specified payload. *)
Lemma gb_handle_msg_reply p b rp s :
  messages_wf (fw_messages s) → msg_store (fw_messages s) !! p = Some b →
  svc_reply (hdr_type (header b)) (payload b) = Some rp →
  gb_handle_msg cs p s = svc_response_helper cs p rp (length rp) GB_SVC_OP_SUCCESS s.
Proof.
  intros Hwf Hp Hr.
  pose proof (msg_deref_ok (fw_messages s) p b Hwf Hp : _ (view L_messages s) = _) as Hderef.
  unfold gb_handle_msg. step_read L_messages Hderef. unfold gb_message_type.
  apply svc_reply_cases in Hr as Ht.
  destruct (wf_blocks _ Hwf p b Hp) as (_ & Hb & _).
  set (type := hdr_type (header b)) in *. clearbody type.
  rewrite !elem_of_cons, elem_of_nil in Ht.
  repeat destruct Ht as [->|Ht]; try done; eval_dispatch; cbn [svc_reply] in Hr;
    try (injection Hr as <-; reflexivity).
  destruct (decide (8 <= length (payload b))%nat) as [Hl|]; [|done]. injection Hr as <-.
  unfold svc_intf_set_pwrm_handler. step_read L_messages Hderef.
  step_with (read_fields_ok (A := gb_svc_intf_set_pwrm_request) 8 (payload b) s Hl).
  destruct (of_wire_pwrm (payload b) Hl Hb) as [-> ->].
  unfold GB_SVC_UNIPRO_HIBERNATE_MODE. by destruct (_ && _).
Qed.

Lemma svc_response_helper_spec p b rp status j s :
  link_wf s → msg_store (fw_messages s) !! p = Some b →
  bytes rp → 10 + length rp <= HDLC_MAX_BLOCK_SIZE → is_u8 status →
  ap_cport_of SVC_INF_ID 0 (fw_ap_map s) = Some j →
  k_heap_alloc (greybus_messages_heap (fw_messages s)) (8 + length rp) ≠ None →
  ∃ r s', svc_response_helper cs p rp (length rp) status s = Done () s' ∧
    message_is rp (Z.lor GB_OP_RESPONSE (hdr_type (header b))) (hdr_operation_id (header b)) status r ∧
    answered (ap_frame j r) s s'.
Proof. intros. by eapply respond_spec. Qed.

(** A request written to the SVC is answered and freed. *)
Lemma svc_request_answered p b rp j s :
  link_wf s → msg_store (fw_messages s) !! p = Some b →
  16 <= HDLC_MAX_BLOCK_SIZE →
  svc_reply (hdr_type (header b)) (payload b) = Some rp →
  ap_cport_of SVC_INF_ID 0 (fw_ap_map s) = Some j →
  k_heap_alloc (greybus_messages_heap (fw_messages s)) (8 + length rp) ≠ None →
  ∃ r s', svc_inf_write cs SvcIntf p 0 s = Done 0 s' ∧
    message_is rp (Z.lor GB_OP_RESPONSE (hdr_type (header b))) (hdr_operation_id (header b))
      GB_SVC_OP_SUCCESS r ∧
    sent_to_ap p (ap_frame j r) s s'.
Proof.
  intros [Hmap Hwf] Hp Hblock Hr Hj Hroom. destruct (svc_reply_ok _ _ _ Hr) as [Hb Hl].
  unfold svc_inf_write. cbn [negb Z.eqb].
  destruct (svc_response_helper_spec p b rp GB_SVC_OP_SUCCESS j s) as
    (r & s1 & Hrun & Hmsg & m1 & Hwf1 & Hst & Hc & Hsr & ->); try done; [lia|].
  step_with (eq_trans (gb_handle_msg_reply p b rp s Hwf Hp Hr) Hrun).
  destruct (gb_message_dealloc_freed m1 p b Hwf1 ltac:(by rewrite Hst)) as (m2 & Hfree & [Hw Hs Hc2 Hsr2]).
  set (s1 := store L_messages m1 _).
  step_zoom L_messages (Hfree : _ (view L_messages s1) = _).
  eexists r, _. split; [done|]. split; [done|]. exists m2. split; [|done].
  split; [done|by rewrite Hs, Hst|by rewrite Hc2|by rewrite Hsr2].
Qed.

(** *** Requests to the AP *)

(** [r] was sent with a new operation id; the block [p] it was built in has
    been read again after it was freed. *)
Definition requested (p : Z) (out : list Z) s s' : Prop :=
  ∃ m', messages_wf m' ∧ msg_store m' = msg_store (fw_messages s) ∧
    operation_id_counter m' = snd (new_operation_id (operation_id_counter (fw_messages s))) ∧
    stale_reads m' = stale_reads (fw_messages s) ++ [p] ∧
    msg_store (fw_messages s) !! p = None ∧
    s' = store L_messages m' (store L_uart (fw_uart s ++ out) s).

Lemma take_operation_id_spec m :
  messages_wf m →
  ∃ m', take_operation_id m = Done (operation_id_counter m) m' ∧ messages_wf m' ∧
    m' = Messages _ (greybus_messages_heap m) (msg_store m)
           (snd (new_operation_id (operation_id_counter m))) (stale_reads m).
Proof.
  intros [Hlive Hnull Hblocks Hctr].
  destruct (new_operation_id_range (operation_id_counter m) Hctr) as [Hid Hctr'].
  unfold take_operation_id, getS, mbind, M_bind.
  destruct (new_operation_id (operation_id_counter m)) as [i c]. cbn [fst snd] in *. subst i.
  eexists. split; [done|]. by split.
Qed.

Lemma control_send_request_spec pl type j s :
  link_wf s → bytes pl → 10 + length pl <= HDLC_MAX_BLOCK_SIZE → is_u8 type →
  ap_cport_of SVC_INF_ID 0 (fw_ap_map s) = Some j →
  k_heap_alloc (greybus_messages_heap (fw_messages s)) (8 + length pl) ≠ None →
  ∃ ret p r s', control_send_request cs pl (length pl) type s = Done ret s' ∧ is_u16 ret ∧
    message_is pl type (operation_id_counter (fw_messages s)) 0 r ∧
    requested p (ap_frame j r) s s'.
Proof.
  intros [Hmap Hwf] Hpl Hl Hty Hj Hroom. pose proof hdlc_block_ok as Hok.
  unfold HDLC_MAX_BLOCK_SIZE in Hl.
  destruct (take_operation_id_spec (fw_messages s) Hwf) as (m0 & Hid & Hwf0 & Hm0).
  assert (Hctr : is_u16 (operation_id_counter (fw_messages s))).
  { pose proof (wf_counter _ Hwf) as Hc. unfold OPERATION_ID_START, UINT16_MAX in Hc.
    unfold is_u16. lia. }
  pose proof (alloc_fill_spec m0 pl type (operation_id_counter (fw_messages s)) 0 Hwf0 Hpl
    ltac:(lia) Hty Hctr ltac:(done) ltac:(left; by rewrite Hm0)) as Halloc.
  apply wp_Done in Halloc as (p & m1 & Hrun & [(_ & _ & _ & Hnone)|(r & Ha & Hmsg)]).
  { by rewrite Hm0 in Hnone. }
  destruct Ha as (heap & Hnz & Hfresh & Hwf1 & Hm1).
  unfold control_send_request, gb_message_request_alloc.
  assert (Hreq : gb_message_request_alloc pl (length pl) type false (view L_messages s) = Done p m1).
  { unfold gb_message_request_alloc. by step_with Hid. }
  step_zoom L_messages Hreq. destruct (Z.eqb_spec p NULL); [done|].
  set (s1 := store L_messages m1 s).
  assert (Hlook : msg_store m1 !! p = Some r) by (rewrite Hm1; apply lookup_insert_eq).
  assert (Hsend : sendable r).
  { eapply message_is_sendable; [by apply (wf_blocks _ Hwf1 p)|done|lia]. }
  destruct (ap_link_send SVC_INF_ID 0 p r j s1) as (s2 & Hcs & m2 & Hm2 & ->); try done.
  { rewrite (proj1 Hmsg). unfold HDLC_MAX_BLOCK_SIZE. lia. }
  step_with Hcs. cbn [Z.ltb Z.compare]. destruct Hm2 as [Hw Hst2 Hc Hsr].
  set (s2 := store L_messages m2 _).
  assert (Hgone : msg_store m2 !! p = None) by (rewrite Hst2; apply lookup_delete_eq).
  assert (Hread : msg_operation_id p (view L_messages s2)
    = Done (k_heap_stale (greybus_messages_heap m2) p 2)
        (Messages _ (greybus_messages_heap m2) (msg_store m2) (operation_id_counter m2)
           (stale_reads m2 ++ [p]))).
  { unfold msg_operation_id, getS, mbind, M_bind. cbn [view L_messages fw_messages s2 store].
    by rewrite Hgone. }
  rewrite (zoom_Done L_messages _ s2 _ _ Hread).
  exists (k_heap_stale (greybus_messages_heap m2) p 2), p, r. eexists. split; [done|].
  split; [apply k_heap_stale_law|]. split; [done|]. eexists.
  split; [|split; [|split; [|split; [|split; [by rewrite Hm0 in Hfresh|done]]]]].
  - destruct Hw. by split.
  - cbn [msg_store]. rewrite Hst2. cbn. rewrite Hm1. cbn. rewrite Hm0. cbn.
    rewrite Hm0 in Hfresh. by rewrite delete_insert_id.
  - cbn [operation_id_counter]. rewrite Hc. cbn. rewrite Hm1. cbn. by rewrite Hm0.
  - cbn [stale_reads]. rewrite Hsr. cbn. rewrite Hm1. cbn. by rewrite Hm0.
Qed.

(** The response to the version request makes the SVC send its hello. *)
Lemma svc_version_response_sends_hello p b j s :
  link_wf s → msg_store (fw_messages s) !! p = Some b →
  hdr_type (header b) = GB_RESPONSE GB_SVC_TYPE_PROTOCOL_VERSION →
  (2 <= length (payload b))%nat → 16 <= HDLC_MAX_BLOCK_SIZE →
  ap_cport_of SVC_INF_ID 0 (fw_ap_map s) = Some j →
  k_heap_alloc (greybus_messages_heap (fw_messages s)) 11 ≠ None →
  ∃ q r s', gb_handle_msg cs p s = Done () s' ∧
    message_is [0x55; 0x47; AP_INF_ID] GB_SVC_TYPE_SVC_HELLO
      (operation_id_counter (fw_messages s)) 0 r ∧
    requested q (ap_frame j r) s s'.
Proof.
  intros [Hmap Hwf] Hp Hty Hl Hblock Hj Hroom.
  pose proof (msg_deref_ok (fw_messages s) p b Hwf Hp : _ (view L_messages s) = _) as Hderef.
  destruct (control_send_request_spec [0x55; 0x47; AP_INF_ID] GB_SVC_TYPE_SVC_HELLO j s) as
    (ret & q & r & s' & Hrun & _ & Hmsg & Hreq); try done; [by repeat constructor|cbn; lia|].
  unfold gb_handle_msg. step_read L_messages Hderef. unfold gb_message_type. rewrite Hty.
  eval_dispatch. unfold svc_version_response_handler. step_read L_messages Hderef.
  step_with (read_struct_ok (A := gb_svc_version_request) (payload b) s Hl).
  exists q, r, s'. split; [|done].
  change (svc_send_hello cs) with
    (control_send_request cs [0x55; 0x47; AP_INF_ID] (length [0x55; 0x47; AP_INF_ID])
       GB_SVC_TYPE_SVC_HELLO).
  by step_with Hrun.
Qed.

(** Sending a request as the SVC frees the message before its id is read for the return
    value: the read goes to the freed block. *)
Theorem svc_request_id_read_after_free pl type j s :
  link_wf s → bytes pl → 10 + length pl <= HDLC_MAX_BLOCK_SIZE → is_u8 type →
  ap_cport_of SVC_INF_ID 0 (fw_ap_map s) = Some j →
  k_heap_alloc (greybus_messages_heap (fw_messages s)) (8 + length pl) ≠ None →
  ∃ ret p s', control_send_request cs pl (length pl) type s = Done ret s' ∧
    msg_store (fw_messages s') = msg_store (fw_messages s) ∧
    msg_store (fw_messages s') !! p = None ∧
    stale_reads (fw_messages s') = stale_reads (fw_messages s) ++ [p].
Proof.
  intros Hlink Hpl Hl Hty Hj Hroom.
  destruct (control_send_request_spec pl type j s Hlink Hpl Hl Hty Hj Hroom)
    as (ret & p & r & s' & Hrun & _ & _ & m' & _ & Hst & _ & Hstale & Hfree & ->).
  exists ret, p. eexists. split; [done|]. cbn. by rewrite Hst.
Qed.
End SvcFacts.
