(* ===== verification/NodeTx.v ===== *)
(** * Messages to nodes (src/node.c)

    Writing a message on a node's socket; a node whose socket fails is removed.
    [connection_send] is the AP bridge's. *)

From S2P Require Import Prelude Config Protocols Hdlc Kernel Messages Interfaces NodeCache State.
From S2P Require Import ApMap NodeLink NodeLife Ap Routes Svc SvcFacts.

Section NodeTx.
Context `{Config, KHeap, KSlab, Sockets}.
Variable connection_send : Z → Z → Z → M fw Z.

Definition svc_send_module_removed_by_sock (sock : Z) : M fw () :=
  ret ← zoom L_nodes (node_cache_find_by_sock sock);
  if ret <? 0 then mret ()
  else
    it ← zoom L_nodes (node_cache_at ret);
    _ ← svc_send_module_removed connection_send (ni_inf it);
    mret ().

Definition gb_message_send (sock msg cport : Z) : M fw Z :=
  let early_exit ret := (_ ← svc_send_module_removed_by_sock sock; mret ret) in
  ret ← write_data sock (le_bytes 2 cport) 2;
  if negb (ret =? 2) then early_exit ret
  else
    m ← zoom L_messages (msg_deref msg);
    ret ← write_data sock (to_wire (header m)) (sizeof gb_operation_msg_hdr);
    if negb (ret =? sizeof gb_operation_msg_hdr) then early_exit ret
    else
      m ← zoom L_messages (msg_deref msg);
      ret ← write_data sock (payload m) (gb_message_payload_len m);
      if negb (ret =? gb_message_payload_len m) then early_exit ret
      else mret 0.

Definition node_inf_write (ctrl : intf_ptr) (msg cport_id : Z) : M fw Z :=
  i ← zoom L_interfaces (intf_deref ctrl);
  sock ← ctrl_sock (ctrl_data i);
  ret ← gb_message_send sock msg cport_id;
  _ ← (if ret <? 0 then (_ ← svc_send_module_removed connection_send ctrl; mret ())
       else mret ());
  _ ← zoom L_messages (gb_message_dealloc msg);
  mret ret.
End NodeTx.

(** ** A message is sent whole, or the node is removed *)

Section Facts.
Context `{Config, !ConfigOk _, Crc16, KHeap, !KHeapLaws, KSlab, !KSlabLaws, Sockets, !SocketsLaws}.
Context (cs : Z → Z → Z → M fw Z) `{!ApLink cs}.
Implicit Types s : fw.

(** Either the whole message goes out, or a prefix of it and the node with
    that socket is removed. *)
Lemma gb_message_send_spec sock p b cport s :
  messages_wf (fw_messages s) → msg_store (fw_messages s) !! p = Some b → sendable b →
  ∃ n' bs, sent_on sock bs (fw_net s) n' ∧
    ((bs = message_wire cport b ∧ gb_message_send cs sock p cport s = Done 0 (store L_net n' s)) ∨
     bs `prefix_of` message_wire cport b ∧
     ∃ ret, send_failed sock bs ret (fw_net s) n' ∧ gb_message_send cs sock p cport s
       = (svc_send_module_removed_by_sock cs sock ≫= λ _, mret ret) (store L_net n' s)).
Proof.
  intros Hwf Hp Hb. unfold gb_message_send, message_wire.
  pose proof (msg_deref_ok (fw_messages s) p b Hwf Hp) as Hderef.
  destruct (write_data_spec sock (le_bytes 2 cport) s) as (ret & n1 & bs1 & Hrun1 & Hs1 & Hcase).
  rewrite length_le_bytes in Hrun1, Hcase. change (Z.of_nat 2) with 2 in Hrun1, Hcase.
  step_with Hrun1.
  destruct Hcase as [[-> ->]|[Hfail Hpre]]; cycle 1.
  { pose proof (proj1 Hfail). destruct (Z.eqb_spec ret 2); [lia|]. cbn [negb]. exists n1, bs1.
    split; [done|]. right. split; [by apply prefix_app_r|]. by exists ret. }
  rewrite Z.eqb_refl. cbn [negb].
  step_read L_messages (Hderef : _ (view L_messages (store L_net n1 s)) = _).
  destruct (write_data_spec sock (to_wire (header b)) (store L_net n1 s))
    as (ret & n2 & bs2 & Hrun2 & Hs2 & Hcase).
  rewrite length_to_wire in Hrun2, Hcase. step_with Hrun2.
  pose proof (sent_on_app _ _ _ _ _ _ Hs1 Hs2) as Hs12.
  destruct Hcase as [[-> ->]|[Hfail Hpre]]; cycle 1.
  { pose proof (proj1 Hfail). destruct (Z.eqb_spec ret (sizeof gb_operation_msg_hdr)); [lia|]. cbn [negb].
    exists n2, (le_bytes 2 cport ++ bs2). split; [done|]. right.
    split; [by apply prefix_app, prefix_app_r|]. exists ret. split; [by eapply send_failed_app|done]. }
  rewrite Z.eqb_refl. cbn [negb].
  step_read L_messages (Hderef : _ (view L_messages (store L_net n2 (store L_net n1 s))) = _).
  rewrite (sendable_payload_len b Hb).
  destruct (write_data_spec sock (payload b) (store L_net n2 (store L_net n1 s)))
    as (ret & n3 & bs3 & Hrun3 & Hs3 & Hcase). step_with Hrun3.
  pose proof (sent_on_app _ _ _ _ _ _ Hs12 Hs3) as Hs123.
  exists n3, (le_bytes 2 cport ++ to_wire (header b) ++ bs3). rewrite <-app_assoc in Hs123.
  split; [done|]. destruct Hcase as [[-> ->]|[Hfail Hpre]].
  - left. by rewrite Z.eqb_refl.
  - right. pose proof (proj1 Hfail). destruct (Z.eqb_spec ret (length (payload b))); [lia|]. cbn [negb].
    split; [by apply prefix_app, prefix_app|]. exists ret. split; [|done].
    rewrite app_assoc. by eapply send_failed_app.
Qed.

(** What announcing the removal of an interface to the AP and destroying it does. *)
Record removal (nid sock : Z) (j : nat) (r : gb_message) s s' : Prop := {
  rm_message : message_is [u8 (u16 nid)] GB_SVC_TYPE_MODULE_REMOVED
                 (operation_id_counter (fw_messages s)) 0 r;
  rm_uart : fw_uart s' = fw_uart s ++ ap_frame j r;
  rm_net : fw_net s' = if 0 <=? sock then zsock_close (fw_net s) sock else fw_net s;
  rm_nodes : nodes_wf s';
  rm_link : link_wf s';
  rm_intf : intf_store (fw_interfaces s') = intf_store (fw_interfaces s);
  rm_ctrl : ctrl_store (fw_controls s') = ctrl_store (fw_controls s);
  rm_msgs : msg_store (fw_messages s') = msg_store (fw_messages s);
  rm_stale : ∃ q, stale_reads (fw_messages s') = stale_reads (fw_messages s) ++ [q];
  rm_map : fw_ap_map s' = fw_ap_map s;
  rm_hdlc : fw_hdlc s' = fw_hdlc s;
  rm_stray : slab_stray (node_control_data_slab (fw_controls s')) = true;
}.

(** The interface may belong to a node in the cache or to one already removed. *)
Lemma svc_send_module_removed_stored p i sock j s :
  link_wf s → nodes_wf s → intf_store (fw_interfaces s) !! p = Some i →
  ctrl_store (fw_controls s) !! ctrl_data i = Some sock →
  ap_cport_of SVC_INF_ID 0 (fw_ap_map s) = Some j →
  k_heap_alloc (greybus_messages_heap (fw_messages s)) 9 ≠ None →
  11 <= HDLC_MAX_BLOCK_SIZE →
  ∃ ret r s', svc_send_module_removed cs (SlabIntf p) s = Done ret s' ∧ is_u16 ret ∧
    removal (id i) sock j r s s' ∧
    ((∃ it, it ∈ entries (fw_nodes s) ∧ ni_id it = id i ∧
        entries (fw_nodes s) ≡ₚ it :: entries (fw_nodes s')) ∨
     Forall (λ it, ni_id it ≠ id i) (entries (fw_nodes s)) ∧
     entries (fw_nodes s') = entries (fw_nodes s)).
Proof.
  intros Hlink Hwf Hp Hc Hj Hroom Hblock. unfold svc_send_module_removed.
  step_read L_interfaces (slab_deref s p i Hp).
  set (pl := to_wire {| mr_primary_intf_id := u8 (u16 (id i)) |}).
  assert (Hpl : pl = [u8 (u16 (id i))]).
  { unfold pl. cbn. unfold u8. by rewrite Zmod_mod. }
  destruct (control_send_request_spec cs pl GB_SVC_TYPE_MODULE_REMOVED j s) as
    (ret & q & r & s1 & Hrun & Hret & Hmsg & m1 & Hwf1 & Hst & Hctr & Hsr & _ & ->); try done.
  { rewrite Hpl. apply Forall_singleton. auto with machine. }
  change (sizeof gb_svc_module_removed_request : Z) with (length pl : Z). step_with Hrun.
  destruct (Z.ltb_spec ret 0); [unfold is_u16 in Hret; lia|].
  set (s1 := store L_messages m1 _).
  assert (Hwf1' : nodes_wf s1) by (by destruct Hwf).
  destruct (node_destroy_stored s1 p i sock Hwf1' Hp Hc) as
    (s2 & Hdestroy & [Hwf2 [Hse1 Hse2 Hse3 Hse4 Hse5 Hse6] Hintf Hctrl Hstray _ Hnet] & Hcase).
  step_with Hdestroy. rewrite Hpl in Hmsg.
  exists ret, r, s2. split; [done|]. split; [done|]. split; [|exact Hcase].
  split; try done; [..|exists q]; rewrite ?Hse3; try done.
  destruct Hlink as [Hmap _]. split; by rewrite ?Hse2, ?Hse3, ?Hse4.
Qed.

Lemma svc_send_module_removed_spec it p i j s :
  link_wf s → nodes_wf s → it ∈ entries (fw_nodes s) → entry_ok s it p i →
  ap_cport_of SVC_INF_ID 0 (fw_ap_map s) = Some j →
  k_heap_alloc (greybus_messages_heap (fw_messages s)) 9 ≠ None →
  11 <= HDLC_MAX_BLOCK_SIZE →
  ∃ ret r s', svc_send_module_removed cs (ni_inf it) s = Done ret s' ∧ is_u16 ret ∧
    removal (ni_id it) (ni_sock it) j r s s' ∧
    entries (fw_nodes s) ≡ₚ it :: entries (fw_nodes s').
Proof.
  intros Hlink Hwf Hit (-> & Hp & Hi & Hc) Hj Hroom Hblock.
  destruct (svc_send_module_removed_stored p i (ni_sock it) j s Hlink Hwf Hp Hc Hj Hroom Hblock)
    as (ret & r & s' & Hrun & Hret & Hrem & Hcase).
  rewrite Hi in Hrem, Hcase. exists ret, r, s'. split; [done|]. split; [done|]. split; [done|].
  destruct Hcase as [(it' & Hit' & Hid & Hperm)|[Hnone _]].
  - by rewrite <-(entries_id_inj s it' it (nw_cache _ Hwf) Hit' Hit Hid).
  - rewrite Forall_forall in Hnone. by destruct (Hnone it Hit).
Qed.

(** The AP can be told of a removal whatever the heap has been through. *)
Definition room_for_removal s : Prop :=
  ∀ m, messages_wf m → msg_store m = msg_store (fw_messages s) →
    k_heap_alloc (greybus_messages_heap m) 9 ≠ None.

(** The node [it] was removed twice: by [gb_message_send], which finds it by its
    socket, and by [node_inf_write].  The AP is told twice, and the socket is
    closed twice. *)
Definition removed_twice it (j : nat) (n' : net) s s' : Prop :=
  ∃ r1 r2, message_is [u8 (u16 (ni_id it))] GB_SVC_TYPE_MODULE_REMOVED
             (operation_id_counter (fw_messages s)) 0 r1 ∧
    (∃ id, message_is [u8 (u16 (ni_id it))] GB_SVC_TYPE_MODULE_REMOVED id 0 r2) ∧
    fw_uart s' = fw_uart s ++ ap_frame j r1 ++ ap_frame j r2 ∧
    fw_net s' = (if 0 <=? ni_sock it then zsock_close (zsock_close n' (ni_sock it)) (ni_sock it) else n') ∧
    entries (fw_nodes s) ≡ₚ it :: entries (fw_nodes s') ∧ nodes_wf s' ∧ link_wf s' ∧
    fw_ap_map s' = fw_ap_map s ∧ fw_hdlc s' = fw_hdlc s ∧
    intf_store (fw_interfaces s') = intf_store (fw_interfaces s) ∧
    ctrl_store (fw_controls s') = ctrl_store (fw_controls s).

Lemma removed_by_sock_spec it p i j s :
  link_wf s → nodes_wf s → it ∈ entries (fw_nodes s) → entry_ok s it p i →
  (∀ it', it' ∈ entries (fw_nodes s) → ni_sock it' = ni_sock it → it' = it) →
  ap_cport_of SVC_INF_ID 0 (fw_ap_map s) = Some j →
  k_heap_alloc (greybus_messages_heap (fw_messages s)) 9 ≠ None →
  11 <= HDLC_MAX_BLOCK_SIZE →
  ∃ r s', svc_send_module_removed_by_sock cs (ni_sock it) s = Done () s' ∧
    removal (ni_id it) (ni_sock it) j r s s' ∧ entries (fw_nodes s) ≡ₚ it :: entries (fw_nodes s').
Proof.
  intros Hlink Hwf Hit Hok Huniq Hj Hroom Hblock.
  unfold svc_send_module_removed_by_sock, node_cache_find_by_sock.
  pose proof (find_loop_spec (λ x, ni_sock x =? ni_sock it) (fw_nodes s) (nw_cache _ Hwf)) as Hfind.
  destruct (find_index_range (λ x, ni_sock x =? ni_sock it) (entries (fw_nodes s)))
    as [Hm|(k & x & Hf & Hk & Ht%Z.eqb_eq & _)].
  { apply find_index_none in Hm. rewrite Forall_forall in Hm. specialize (Hm it Hit).
    cbn in Hm. by rewrite Z.eqb_refl in Hm. }
  rewrite Hf in Hfind. step_read L_nodes (Hfind : _ (view L_nodes s) = _).
  destruct (Z.ltb_spec k 0); [lia|].
  assert (x = it) as -> by (apply Huniq; [by eapply list_elem_of_lookup_2|done]).
  assert (Hat : node_cache_at k (view L_nodes s) = Done it (view L_nodes s)).
  { unfold node_cache_at, getS, mbind, M_bind. cbn [view L_nodes].
    destruct (entries_lookup _ k it (nw_cache _ Hwf) Hk) as [Hk' _].
    apply array_get_ok; [lia|by rewrite Nat2Z.id]. }
  step_read L_nodes Hat.
  destruct (svc_send_module_removed_spec it p i j s Hlink Hwf Hit Hok Hj Hroom Hblock)
    as (ret & r & s' & Hrun & _ & Hrem & Hperm).
  exists r, s'. by step_with Hrun.
Qed.

Lemma removed_twice_spec it p i j n' s :
  link_wf s → nodes_wf s → it ∈ entries (fw_nodes s) → entry_ok s it p i →
  (∀ it', it' ∈ entries (fw_nodes s) → ni_sock it' = ni_sock it → it' = it) →
  ap_cport_of SVC_INF_ID 0 (fw_ap_map s) = Some j → room_for_removal s →
  11 <= HDLC_MAX_BLOCK_SIZE → fw_net s = n' →
  ∃ ret s', (_ ← svc_send_module_removed_by_sock cs (ni_sock it);
             svc_send_module_removed cs (ni_inf it)) s = Done ret s' ∧
    removed_twice it j n' s s' ∧ msg_store (fw_messages s') = msg_store (fw_messages s).
Proof.
  intros Hlink Hwf Hit Hok Huniq Hj Hroom Hblock <-. pose proof Hok as (Hinf & Hp & Hi & Hc).
  destruct (removed_by_sock_spec it p i j s Hlink Hwf Hit Hok Huniq Hj
    (Hroom _ (lw_messages _ Hlink) eq_refl) Hblock) as (r1 & s1 & Hrun1 & Hrem1 & Hperm).
  step_with Hrun1. rewrite Hinf.
  destruct Hrem1 as [Hmsg1 Huart1 Hnet1 Hwf1 Hlink1 Hintf1 Hctrl1 Hst1 _ Hmap1 Hh1 _].
  destruct (svc_send_module_removed_stored p i (ni_sock it) j s1 Hlink1 Hwf1)
    as (ret & r2 & s2 & Hrun2 & _ & Hrem2 & Hcase);
    [by rewrite Hintf1|by rewrite Hctrl1|by rewrite Hmap1|by apply Hroom; [apply Hlink1|]|done|].
  destruct Hrem2 as [Hmsg2 Huart2 Hnet2 Hwf2 Hlink2 Hintf2 Hctrl2 Hst2 _ Hmap2 Hh2 _].
  assert (Hent : entries (fw_nodes s2) = entries (fw_nodes s1)).
  { destruct Hcase as [(it' & Hit' & Hid & _)|[_ ?]]; [|done]. exfalso.
    pose proof (cwf_ids _ (nw_cache _ Hwf)) as Hnd. rewrite Hperm in Hnd.
    apply NoDup_cons in Hnd as [Hnot _]. apply Hnot. rewrite Hi in Hid. cbn in Hid. rewrite <-Hid.
    by apply list_elem_of_fmap_2. }
  exists ret, s2. split; [done|]. split; [|congruence]. exists r1, r2.
  rewrite Hi in Hmsg2. split; [done|]. split; [by eexists|].
  split; [by rewrite Huart2, Huart1, <-app_assoc|]. split; [rewrite Hnet2, Hnet1; by destruct (0 <=? _)|].
  rewrite Hent. split_and!; try done; congruence.
Qed.

(** A message for a node is sent whole, or a send on the node's socket failed and
    the node is removed twice; the message is freed either way. *)
Lemma node_inf_write_outcome it p i q b cport j s :
  link_wf s → nodes_wf s → it ∈ entries (fw_nodes s) → entry_ok s it p i →
  (∀ it', it' ∈ entries (fw_nodes s) → ni_sock it' = ni_sock it → it' = it) →
  msg_store (fw_messages s) !! q = Some b → sendable b →
  ap_cport_of SVC_INF_ID 0 (fw_ap_map s) = Some j → room_for_removal s →
  11 <= HDLC_MAX_BLOCK_SIZE →
  (∃ m' n', node_inf_write cs (ni_inf it) q cport s = Done 0 (store L_messages m' (store L_net n' s)) ∧
     freed q (fw_messages s) m' ∧ sent_on (ni_sock it) (message_wire cport b) (fw_net s) n') ∨
  (∃ ret n' bs s', node_inf_write cs (ni_inf it) q cport s = Done ret s' ∧
     send_failed (ni_sock it) bs ret (fw_net s) n' ∧ bs `prefix_of` message_wire cport b ∧
     removed_twice it j n' s s' ∧
     msg_store (fw_messages s') = delete q (msg_store (fw_messages s))).
Proof.
  intros Hlink Hwf Hit Hok Huniq Hq Hb Hj Hroom Hblock. pose proof Hok as (Hinf & Hp & Hi & Hc).
  unfold node_inf_write.
  step_read L_interfaces (entry_deref s it p i Hok).
  step_with (ctrl_sock_ok s (ctrl_data i) (ni_sock it) (nw_controls _ Hwf) Hc).
  destruct (gb_message_send_spec (ni_sock it) q b cport s (lw_messages _ Hlink) Hq Hb)
    as (n' & bs & Hsent & [[-> Hrun]|(Hpre & ret & Hfail & Hrun)]).
  - left. step_with Hrun. cbn [Z.ltb Z.compare].
    destruct (gb_message_dealloc_freed (fw_messages s) q b (lw_messages _ Hlink) Hq) as (m' & Hfree & Hm').
    exists m', n'. split; [|done]. rewrite M_bind_mret.
    by step_zoom L_messages (Hfree : _ (view L_messages (store L_net n' s)) = _).
  - right. set (s1 := store L_net n' s) in *.
    destruct (removed_twice_spec it p i j n' s1) as (ret2 & s3 & Htwice & Hrem & Hst);
      [by destruct Hlink|by destruct Hwf|done..|].
    apply M_bind_inv in Htwice as ([] & s2 & Hrun1 & Hrun2).
    rewrite (M_bind_Done _ _ s1 _ s2 Hrun1) in Hrun. step_with Hrun.
    destruct (Z.ltb_spec ret 0); [|destruct Hfail; lia]. rewrite M_bind_assoc. step_with Hrun2.
    rewrite M_bind_mret. destruct Hrem as (r1 & r2 & Hm1 & Hm2 & Hu & Hn & He & Hwf3 & Hlink3 & Hrest).
    destruct (gb_message_dealloc_freed (fw_messages s3) q b (lw_messages _ Hlink3) ltac:(by rewrite Hst))
      as (m' & Hfree & [Hmwf Hmst _ _]).
    step_zoom L_messages (Hfree : _ (view L_messages s3) = _).
    exists ret, n', bs. eexists. split; [done|]. split; [done|]. split; [done|]. split.
    + exists r1, r2. split; [done|]. split; [done|]. split; [done|]. split; [done|]. split; [done|].
      split; [by destruct Hwf3|]. split; [by destruct Hlink3|exact Hrest].
    + cbn. by rewrite Hmst, Hst.
Qed.

(** C28: What gb_message_send writes on a socket, split in any way by the network and followed
    by anything, is read back by gb_message_receive as the same header and payload for the same
    cport, consuming exactly those bytes. *)
Theorem message_send_receive sock p b cport flag rest s s' s2 :
  messages_wf (fw_messages s) → msg_store (fw_messages s) !! p = Some b → sendable b →
  is_u16 cport → gb_message_send cs sock p cport s = Done 0 s' →
  messages_wf (fw_messages s2) →
  (∀ bs, sent_on sock bs (fw_net s) (fw_net s') → net_incoming (fw_net s2) sock = bs ++ rest) →
  (∃ bs, sent_on sock bs (fw_net s) (fw_net s')) ∧
  wp (gb_message_receive sock flag)
    (λ r s', received sock b rest flag s2 r s' ∧ (msg (fst r) ≠ NULL → cport_id (fst r) = cport)) s2.
Proof.
  intros Hwf Hp Hb Hc Hrun Hwf2 Hin.
  destruct (gb_message_send_spec sock p b cport s Hwf Hp Hb)
    as (n' & bs & Hsent & [[-> Hrun']|(_ & ret & [Hneg _] & Hrun')]).
  - rewrite Hrun in Hrun'. injection Hrun' as ->. split; [by eexists|].
    apply gb_message_receive_spec; try done. by apply Hin.
  - rewrite Hrun in Hrun'. unfold mbind, M_bind in Hrun'.
    destruct (svc_send_module_removed_by_sock cs sock _) as [[] ?|]; [|done].
    injection Hrun' as <- _. done.
Qed.
End Facts.
