(* ===== verification/Bridge.v ===== *)
(** * Routing messages (src/apbridge.c)

    [connection_send] calls an interface's [write] callback, and the callbacks
    of the SVC, the local node and the remote nodes call [connection_send]
    again.  The recursion carries fuel; a nested call always goes to the AP, so
    two levels are enough for every call. *)

From S2P Require Import Prelude Config Protocols Hdlc Kernel Messages Interfaces NodeCache State.
From S2P Require Import ApMap NodeLink NodeLife Ap LocalNode Routes Svc SvcFacts NodeTx.

Section Bridge.
Context `{Config, Crc16, KHeap, KSlab, Sockets, Stack}.

(** [intf->write(intf, msg, cport)], given the nested [connection_send]. *)
Definition call_write (connection_send : Z → Z → Z → M fw Z) (intf : intf_ptr) (msg cport : Z)
    : M fw Z :=
  i ← zoom L_interfaces (intf_deref intf);
  match write i with
  | svc_inf_write_cb => svc_inf_write connection_send intf msg cport
  | local_intf_write_cb => intf_write connection_send intf msg cport
  | node_inf_write_cb => node_inf_write connection_send intf msg cport
  end.

Fixpoint connection_send_fuel (fuel : nat) (intf_id intf_cport msg : Z) : M fw Z :=
  match fuel with
  | O => crash Diverge
  | S fuel =>
      if intf_id =? AP_INF_ID then
        map ← getL L_ap_map;
        it ← array_get map intf_cport;
        call_write (connection_send_fuel fuel) (node_intf it) msg (node_cport it)
      else
        ret ← node_to_ap_cport intf_id intf_cport;
        if ret <? 0 then mret ret
        else ap_send msg (u16 ret)
  end.

Definition connection_send : Z → Z → Z → M fw Z := connection_send_fuel 2.

(** include/ap.h *)
Definition ap_rx_submit (msg cport : Z) : M fw Z := connection_send AP_INF_ID cport msg.
End Bridge.

#[global] Typeclasses Opaque connection_send connection_send_fuel.

(** ** The recursion is bounded *)

(** Two versions of [connection_send] that agree on messages to the AP. *)
Definition same_to_ap `{KHeap, KSlab, Sockets} : relation (Z → Z → Z → M fw Z) :=
  λ cs1 cs2, ∀ intf_id cport msg, intf_id ≠ AP_INF_ID → cs1 intf_id cport msg ≡ cs2 intf_id cport msg.

(** Take two programs that differ only in [connection_send] apart. *)
Ltac to_ap :=
  repeat match goal with
    | |- ?m ≡ ?m => reflexivity
    | Hcs : same_to_ap ?c1 ?c2 |- ?c1 _ _ _ ≡ ?c2 _ _ _ => by apply Hcs
    | |- (_ ≫= _) ≡ (_ ≫= _) => apply M_bind_proper; [intros ?|]
    | |- (if ?b then _ else _) ≡ (if ?b then _ else _) => destruct b
    | |- (match ?x with _ => _ end) ≡ (match ?x with _ => _ end) => destruct x
    | |- _ => progress cbv beta zeta
    | |- _ => solve [auto 2 with to_ap]
    end.

Create HintDb to_ap discriminated.

Section Bounded.
Context `{Config, Crc16, KHeap, KSlab, Sockets, Stack}.
Implicit Types cs : Z → Z → Z → M fw Z.

Lemma control_send_request_to_ap cs1 cs2 pl n t :
  same_to_ap cs1 cs2 → control_send_request cs1 pl n t ≡ control_send_request cs2 pl n t.
Proof. intros Hcs. unfold control_send_request. to_ap. Qed.
Hint Resolve control_send_request_to_ap : to_ap.

Lemma svc_send_module_removed_to_ap cs1 cs2 intf :
  same_to_ap cs1 cs2 → svc_send_module_removed cs1 intf ≡ svc_send_module_removed cs2 intf.
Proof. intros Hcs. unfold svc_send_module_removed. to_ap. Qed.
Hint Resolve svc_send_module_removed_to_ap : to_ap.

Lemma svc_response_helper_to_ap cs1 cs2 msg pl n st :
  same_to_ap cs1 cs2 → svc_response_helper cs1 msg pl n st ≡ svc_response_helper cs2 msg pl n st.
Proof. intros Hcs. unfold svc_response_helper. to_ap. Qed.
Hint Resolve svc_response_helper_to_ap : to_ap.

Lemma response_helper_to_ap cs1 cs2 ctrl msg pl n st cport :
  same_to_ap cs1 cs2 →
  response_helper cs1 ctrl msg pl n st cport ≡ response_helper cs2 ctrl msg pl n st cport.
Proof. intros Hcs. unfold response_helper. to_ap. Qed.
Hint Resolve response_helper_to_ap : to_ap.

Lemma svc_version_response_to_ap cs1 cs2 msg :
  same_to_ap cs1 cs2 →
  svc_version_response_handler cs1 msg ≡ svc_version_response_handler cs2 msg.
Proof. intros Hcs. unfold svc_version_response_handler, svc_send_hello. to_ap. Qed.
Hint Resolve svc_version_response_to_ap : to_ap.

Lemma svc_connection_handlers_to_ap cs1 cs2 msg :
  same_to_ap cs1 cs2 →
  svc_connection_create_handler cs1 msg ≡ svc_connection_create_handler cs2 msg ∧
  svc_connection_destroy_handler cs1 msg ≡ svc_connection_destroy_handler cs2 msg ∧
  svc_intf_set_pwrm_handler cs1 msg ≡ svc_intf_set_pwrm_handler cs2 msg.
Proof.
  intros Hcs. unfold svc_connection_create_handler, svc_connection_destroy_handler,
    svc_intf_set_pwrm_handler. split_and!; to_ap.
Qed.

Lemma svc_inf_write_to_ap cs1 cs2 ctrl msg cport :
  same_to_ap cs1 cs2 → svc_inf_write cs1 ctrl msg cport ≡ svc_inf_write cs2 ctrl msg cport.
Proof.
  intros Hcs. destruct (svc_connection_handlers_to_ap cs1 cs2 msg Hcs) as (? & ? & ?).
  unfold svc_inf_write, gb_handle_msg. to_ap; by apply svc_response_helper_to_ap.
Qed.
Hint Resolve svc_inf_write_to_ap : to_ap.

Lemma intf_write_to_ap cs1 cs2 ctrl msg cport :
  same_to_ap cs1 cs2 → intf_write cs1 ctrl msg cport ≡ intf_write cs2 ctrl msg cport.
Proof. intros Hcs. unfold intf_write, control_protocol_handle. to_ap; by apply response_helper_to_ap. Qed.
Hint Resolve intf_write_to_ap : to_ap.

Lemma node_inf_write_to_ap cs1 cs2 ctrl msg cport :
  same_to_ap cs1 cs2 → node_inf_write cs1 ctrl msg cport ≡ node_inf_write cs2 ctrl msg cport.
Proof.
  intros Hcs. unfold node_inf_write, gb_message_send, svc_send_module_removed_by_sock. to_ap.
Qed.
Hint Resolve node_inf_write_to_ap : to_ap.

Lemma call_write_to_ap cs1 cs2 intf msg cport :
  same_to_ap cs1 cs2 → call_write cs1 intf msg cport ≡ call_write cs2 intf msg cport.
Proof.
  intros Hcs. unfold call_write. apply M_bind_proper; [intros i|reflexivity].
  destruct (write i);
    [by apply svc_inf_write_to_ap|by apply intf_write_to_ap|by apply node_inf_write_to_ap].
Qed.

Lemma connection_send_S fuel intf_id cport msg :
  connection_send_fuel (S fuel) intf_id cport msg
  = if intf_id =? AP_INF_ID then
      map ← getL L_ap_map;
      it ← array_get map cport;
      call_write (connection_send_fuel fuel) (node_intf it) msg (node_cport it)
    else
      ret ← node_to_ap_cport intf_id cport;
      if ret <? 0 then mret ret else ap_send msg (u16 ret).
Proof. done. Qed.

Lemma connection_send_same_to_ap fuel1 fuel2 :
  same_to_ap (connection_send_fuel (S fuel1)) (connection_send_fuel (S fuel2)).
Proof.
  intros intf_id cport msg Hne. rewrite !connection_send_S.
  destruct (Z.eqb_spec intf_id AP_INF_ID) as [Heq|_]; [destruct (Hne Heq)|reflexivity].
Qed.

(** The mutual recursion of connection_send and the interfaces' write callbacks is at most
    two deep: with more fuel than 2 nothing changes. *)
Theorem connection_send_bounded fuel intf_id cport msg :
  (2 <= fuel)%nat → connection_send_fuel fuel intf_id cport msg ≡ connection_send intf_id cport msg.
Proof.
  intros Hfuel. destruct fuel as [|[|fuel]]; [lia..|].
  pose proof (connection_send_same_to_ap fuel 0) as Hsame. unfold connection_send.
  rewrite (connection_send_S (S fuel)), (connection_send_S 1).
  destruct (Z.eqb_spec intf_id AP_INF_ID) as [->|Hne]; [|reflexivity].
  apply M_bind_proper; [intros map|reflexivity].
  apply M_bind_proper; [intros it|reflexivity]. by apply call_write_to_ap.
Qed.
End Bounded.

(** ** The bridge provides the link to the AP *)

Section Link.
Context `{Config, !ConfigOk _, Crc16, !Crc16Laws, KHeap, !KHeapLaws, KSlab, !KSlabLaws,
          Sockets, !SocketsLaws, Stack, !StackLaws}.
Implicit Types s : fw.

#[export] Instance connection_send_ap_link fuel : ApLink (connection_send_fuel (S fuel)).
Proof.
  split.
  - intros intf_id cport p b j s [Hmap Hwf] Hne Hp Hb Hl Hj. rewrite connection_send_S.
    rewrite (proj2 (Z.eqb_neq _ _) Hne). step_with (node_to_ap_cport_spec intf_id cport s Hmap).
    rewrite Hj. destruct (Z.ltb_spec j 0); [lia|].
    assert (Hj' : j < AP_MAX_NODES).
    { apply ap_cport_of_Some in Hj as [(it & Hit & _) _]. apply lookup_lt_Some in Hit.
      unfold ap_map_wf in Hmap. lia. }
    pose proof max_nodes_ok. unfold AP_MAX_NODES in Hj'.
    rewrite u16_id by (unfold is_u16; lia).
    destruct (ap_send_spec p j b s Hwf Hp Hb Hl) as (m' & Hm' & Hrun).
    eexists. split; [done|]. by exists m'.
  - intros intf_id cport p s [Hmap Hwf] Hne Hj. rewrite connection_send_S.
    rewrite (proj2 (Z.eqb_neq _ _) Hne). step_with (node_to_ap_cport_spec intf_id cport s Hmap).
    by rewrite Hj.
Qed.

#[export] Instance connection_send_link : ApLink connection_send.
Proof. apply (connection_send_ap_link 1). Qed.

(** A message from the AP goes where the table says. *)
Lemma connection_send_from_ap cport it p s :
  0 <= cport → fw_ap_map s !! Z.to_nat cport = Some it →
  connection_send AP_INF_ID cport p s
  = call_write (connection_send_fuel 1) (node_intf it) p (node_cport it) s.
Proof.
  intros Hc Hit. unfold connection_send. rewrite connection_send_S, Z.eqb_refl.
  step_getL L_ap_map. by step_with (array_get_ok (fw_ap_map s) cport it s Hc Hit).
Qed.

(** C40: A message from the AP for a cport outside the table reads out of bounds, and one for a
    cport without a connection calls through a null pointer. *)
Theorem connection_send_bad_cport cport p s :
  ap_map_wf (fw_ap_map s) → 0 <= cport →
  (AP_MAX_NODES <= cport → connection_send AP_INF_ID cport p s = Crash OutOfBounds) ∧
  (fw_ap_map s !! Z.to_nat cport = Some empty_item →
   connection_send AP_INF_ID cport p s = Crash NullDeref).
Proof.
  intros Hmap Hc. split.
  - intros Hge. unfold connection_send. rewrite connection_send_S, Z.eqb_refl.
    step_getL L_ap_map. apply M_bind_Crash, array_get_oob. unfold ap_map_wf in Hmap. lia.
  - intros Hit. by rewrite (connection_send_from_ap cport empty_item p s Hc Hit).
Qed.

(** A route to a node that has been removed is still followed: its interface is not freed, and
    the message is written to the socket number the node had, which is closed by now or belongs
    to another connection. *)
Theorem stale_route_writes cport q i sock nid ncport p b s :
  0 <= cport → fw_ap_map s !! Z.to_nat cport = Some (NodeApItem (SlabIntf q) ncport nid) →
  nodes_wf s → Forall (λ it, ni_inf it ≠ SlabIntf q) (entries (fw_nodes s)) →
  intf_store (fw_interfaces s) !! q = Some i → ctrl_store (fw_controls s) !! ctrl_data i = Some sock →
  messages_wf (fw_messages s) → msg_store (fw_messages s) !! p = Some b → sendable b →
  ∃ n' bs, sent_on sock bs (fw_net s) n' ∧
    (bs = message_wire ncport b ∧
       (∃ m', freed p (fw_messages s) m' ∧
          connection_send AP_INF_ID cport p s = Done 0 (store L_messages m' (store L_net n' s))) ∨
     bs `prefix_of` message_wire ncport b ∧ ∃ ret, send_failed sock bs ret (fw_net s) n').
Proof.
  intros Hc Hit Hwf _ Hq Hsock Hmwf Hp Hb. rewrite (connection_send_from_ap cport _ p s Hc Hit).
  destruct (nw_stored _ Hwf q i Hq) as [Hi _]. unfold call_write. cbn [node_intf node_cport].
  rewrite (M_bind_Done _ _ _ _ _ (zoom_read L_interfaces _ s i (slab_deref s q i Hq))).
  assert (Hcb : write i = node_inf_write_cb) by (by rewrite Hi). rewrite Hcb. unfold node_inf_write.
  rewrite (M_bind_Done _ _ _ _ _ (zoom_read L_interfaces _ s i (slab_deref s q i Hq))).
  rewrite (M_bind_Done _ _ _ _ _ (ctrl_sock_ok s (ctrl_data i) sock (nw_controls _ Hwf) Hsock)).
  destruct (gb_message_send_spec (connection_send_fuel 1) sock p b ncport s Hmwf Hp Hb)
    as (n' & bs & Hsent & [[-> Hrun]|(Hpre & ret & Hfail & _)]); [|by exists n', bs; eauto].
  exists n', (message_wire ncport b). split; [done|]. left. split; [done|].
  rewrite (M_bind_Done _ _ _ _ _ Hrun). cbn [Z.ltb Z.compare]. rewrite M_bind_mret.
  destruct (gb_message_dealloc_freed (fw_messages s) p b Hmwf Hp) as (m' & Hfree & Hm').
  exists m'. split; [done|].
  by rewrite (M_bind_Done _ _ _ _ _ (zoom_Done L_messages _ (store L_net n' s) _ _ Hfree)).
Qed.

(** An empty slot of the table is indistinguishable from a connection of the SVC's cport 0,
    whose ids are both 0: before the SVC is connected its messages already go to AP cport 0. *)
Theorem empty_slot_answers_for_svc s :
  ap_map_wf (fw_ap_map s) → fw_ap_map s !! 0%nat = Some empty_item →
  node_to_ap_cport SVC_INF_ID 0 s = Done 0 s.
Proof.
  intros Hmap Hit. rewrite (node_to_ap_cport_spec SVC_INF_ID 0 s Hmap).
  rewrite (proj2 (ap_cport_of_Some SVC_INF_ID 0 (fw_ap_map s) 0)); [done|].
  split; [by exists empty_item|lia].
Qed.
End Link.
