(* ===== verification/NodeRx.v ===== *)
(** * Messages from nodes, and the set of nodes (src/node.c)

    The thread that polls the nodes' sockets, one iteration at a time, and the
    operations on the whole set of nodes that discovery uses. *)

From S2P Require Import Prelude Config Protocols Hdlc Kernel Messages Interfaces NodeCache State.
From S2P Require Import ApMap NodeLink Ap LocalNode Routes Svc NodeTx Bridge.

Section NodeRx.
Context `{Config, Crc16, KHeap, KSlab, Sockets, Stack}.

(** *** The receive thread *)

Definition has_event (revents event : Z) : bool := negb (Z.land revents event =? 0).

(** The body of the loop over [fds], for one socket; the result is [flag]. *)
Definition node_rx_socket (flag : bool) (fd revents : Z) : M fw bool :=
  if has_event revents ZSOCK_POLLNVAL || has_event revents ZSOCK_POLLHUP
     || has_event revents ZSOCK_POLLERR then
    _ ← svc_send_module_removed_by_sock connection_send fd;
    mret flag
  else if has_event revents ZSOCK_POLLIN then
    ret ← zoom L_nodes (node_cache_find_by_sock fd);
    if ret <? 0 then mret flag
    else
      '(msg, flag) ← gb_message_receive fd flag;
      if flag : bool then
        it ← zoom L_nodes (node_cache_at ret);
        _ ← svc_send_module_removed connection_send (ni_inf it);
        mret flag
      else if NodeLink.msg msg =? NULL then
        it ← zoom L_nodes (node_cache_at ret);
        _ ← svc_send_module_removed connection_send (ni_inf it);
        mret flag
      else
        it ← zoom L_nodes (node_cache_at ret);
        ret ← connection_send (ni_id it) (cport_id msg) (NodeLink.msg msg);
        (* ret < 0 is only logged *)
        mret flag
  else mret flag.

(** [for (i = 1; i < fds_len; ++i)] *)
Fixpoint node_rx_sockets (flag : bool) (fds : list (Z * Z)) : M fw bool :=
  match fds with
  | [] => mret flag
  | (fd, revents) :: fds =>
      flag ← node_rx_socket flag fd revents;
      node_rx_sockets flag fds
  end.

(** [fds[i + 1].fd = node_cache[i].sock] for the entries in use; [fds] has room
    for [AP_MAX_NODES] of them. *)
Fixpoint populate_fds (n : nat) (i : Z) : M fw (list Z) :=
  match n with
  | O => mret []
  | S n =>
      it ← zoom L_nodes (node_cache_at i);
      if AP_MAX_NODES <=? i then crash OutOfBounds
      else (fds ← populate_fds n (i + 1); mret (ni_sock it :: fds))
  end.

(** One round of [while (1)]; [pipe] is [fds[0].fd]. *)
Definition node_rx_iteration (pipe : Z) (flag : bool) : M fw bool :=
  c ← getL L_nodes;
  fds ← populate_fds (Z.to_nat (node_cache_pos c)) 0;
  n ← getL L_net;
  let '(ret, revents, n) := zsock_poll n (pipe :: fds) (-1) in
  _ ← modL L_net (λ _, n);
  if ret <? 0 then mret flag
  else
    _ ← (if has_event (default 0 (revents !! 0%nat)) ZSOCK_POLLIN
         then (_ ← sock_recv pipe 1; mret ()) else mret ());
    node_rx_sockets flag (zip fds (drop 1 revents)).

Inductive rx_thread := RxWaiting | RxPolling (pipe : Z) (flag : bool) | RxExited.

(** What the thread does when it is scheduled. *)
Definition node_rx_thread_step (t : rx_thread) : M fw rx_thread :=
  match t with
  | RxWaiting =>
      ready ← svc_is_ready;
      if ready : bool then
        n ← getL L_net;
        let '(ret, (reader, writer), n) := zsock_socketpair n in
        _ ← modL L_net (λ _, n);
        if ret <? 0 then mret RxExited
        else (_ ← modL L_pipe (λ _, writer); mret (RxPolling reader false))
      else mret RxWaiting
  | RxPolling pipe flag =>
      flag ← node_rx_iteration pipe flag;
      mret (RxPolling pipe flag)
  | RxExited => mret RxExited
  end.

(** *** Discovery *)

Fixpoint node_filter (active_addr : list (list Z)) : M fw () :=
  match active_addr with
  | [] => mret ()
  | addr :: active_addr =>
      ret ← zoom L_nodes (node_cache_find_by_addr addr);
      _ ← (if ret <? 0 then
             inf ← node_create_interface addr;
             if decide (inf = NullIntf) then mret ()
             else
               i ← zoom L_interfaces (intf_deref inf);
               ret ← svc_send_module_inserted connection_send (id i);
               mret ()
           else mret ());
      node_filter active_addr
  end.

(** [for (i = 0; i < node_cache_pos; ++i)], where the body shrinks the array;
    [n] bounds the rounds. *)
Fixpoint destroy_from (n : nat) (i : Z) : M fw () :=
  c ← getL L_nodes;
  if i <? node_cache_pos c then
    match n with
    | O => crash Diverge
    | S n =>
        it ← zoom L_nodes (node_cache_at i);
        _ ← node_destroy_interface (ni_inf it);
        destroy_from n (i + 1)
    end
  else mret ().

(** No more rounds than there are entries in the array, and one that faults. *)
Definition destroy_rounds : nat := S (Z.to_nat MAX_GREYBUS_NODES).

Definition node_destroy_all : M fw () :=
  _ ← destroy_from destroy_rounds 0;
  _ ← modL L_nodes (λ c, NodeCache (nc_items c) 0);
  c ← getL L_controls;
  if k_mem_slab_num_used_get (node_control_data_slab c) =? 0 then mret ()
  else crash AssertFailed.
End NodeRx.
