(* ===== verification/Discovery.v ===== *)
(** * The discovery thread (src/tcp_discovery.c)

    Every [NODE_DISCOVERY_INTERVAL] milliseconds the thread hands the addresses
    of the nodes it knows of to [node_filter]: the configured one, or with mDNS
    those that answer a query. *)

From S2P Require Import Prelude Config Protocols Hdlc Kernel Mdns Messages Interfaces NodeCache.
From S2P Require Import State ApMap NodeLink Ap LocalNode Routes Svc NodeTx Bridge NodeRx.

Definition NODE_DISCOVERY_INTERVAL : Z := 5000.

(** "_greybus._tcp.local", without the zeros at its end *)
Definition query : list Z := chars "_greybus._tcp.local".

Section Discovery.
Context `{Config, Crc16, KHeap, KSlab, Sockets, Stack}.

Definition tcp_discovery_start : M fw () :=
  _ ← (if CONFIG_BEAGLEPLAY_GREYBUS_MDNS_DISCOVERY then
         sock ← zoom L_net (mdns_socket_open_ipv6 mdns_addr);
         modL L_discovery_sock (λ _, sock)
       else mret ());
  modL L_discovery_running (λ _, true).

Definition tcp_discovery_stop : M fw () :=
  _ ← modL L_discovery_running (λ _, false);
  if CONFIG_BEAGLEPLAY_GREYBUS_MDNS_DISCOVERY then
    sock ← getL L_discovery_sock;
    if 0 <=? sock then
      _ ← zoom L_net (mdns_socket_close sock);
      modL L_discovery_sock (λ _, -1)
    else mret ()
  else mret ().

(** One round of [handler] without mDNS, after its sleep; [addr6] is the
    parsed [CONFIG_BEAGLEPLAY_GREYBUS_NODE1]. *)
Definition static_round (addr6 : list Z) : M fw () := node_filter [addr6].

(** One round of [handler] with mDNS, after its sleep; [fuel] is that of
    [mdns_query_recv]. *)
Definition mdns_round (fuel : nat) : M fw () :=
  sock ← getL L_discovery_sock;
  if sock <? 0 then mret ()
  else
    ret ← zoom L_net (mdns_query_send sock query (length query));
    if ret <? 0 then mret ()
    else
      let node_array := replicate (Z.to_nat MAX_GREYBUS_NODES) (stack_bytes 16) in
      '(ret, node_array) ← zoom L_net (mdns_query_recv fuel sock node_array MAX_GREYBUS_NODES
                                         query (length query) 2000);
      if i32 ret <? 0 then mret () else node_filter (take (Z.to_nat ret) node_array).

Definition handler (addr6 : list Z) (fuel : nat) : M fw () :=
  if CONFIG_BEAGLEPLAY_GREYBUS_MDNS_DISCOVERY then mdns_round fuel else static_round addr6.
End Discovery.

(** ** Starting and stopping never fault *)

Section Facts.
Context `{Config, Crc16, KHeap, KSlab, Sockets, Stack}.
Implicit Types s : fw.

Lemma mdns_socket_open_ipv6_runs jaddr n : ∃ sock n', mdns_socket_open_ipv6 jaddr n = Done sock n'.
Proof.
  unfold mdns_socket_open_ipv6, mdns_socket_setup_ipv6, join_multicast_group, mdns_socket_close.
  unfold mbind, M_bind, getS, putS, modS, mret, M_ret. repeat (case_match; simplify_eq/=); eauto.
Qed.

(** The state with discovery's socket and flag set. *)
Definition discovering (running : bool) (sock : Z) (n : net) s : fw :=
  store L_discovery_running running (store L_discovery_sock sock (store L_net n s)).

Lemma tcp_discovery_start_spec s :
  ∃ sock n', tcp_discovery_start s = Done () (discovering true sock n' s).
Proof.
  unfold tcp_discovery_start. destruct CONFIG_BEAGLEPLAY_GREYBUS_MDNS_DISCOVERY.
  - destruct (mdns_socket_open_ipv6_runs mdns_addr (fw_net s)) as (sock & n' & Hopen).
    exists sock, n'. unfold mbind, M_bind. by rewrite (zoom_Done L_net _ s _ _ Hopen).
  - exists (tcp_discovery_sock s), (fw_net s). by destruct s.
Qed.

(** Discovery's socket, if it has one, is closed. *)
Definition discovery_closed s (n' : net) : Prop :=
  n' = if CONFIG_BEAGLEPLAY_GREYBUS_MDNS_DISCOVERY && (0 <=? tcp_discovery_sock s)
       then zsock_close (fw_net s) (tcp_discovery_sock s) else fw_net s.

Lemma tcp_discovery_stop_spec s :
  ∃ sock n', tcp_discovery_stop s = Done () (discovering false sock n' s) ∧
    (CONFIG_BEAGLEPLAY_GREYBUS_MDNS_DISCOVERY = true → sock < 0) ∧ discovery_closed s n'.
Proof.
  unfold tcp_discovery_stop, discovery_closed. destruct CONFIG_BEAGLEPLAY_GREYBUS_MDNS_DISCOVERY.
  - destruct (Z.leb_spec 0 (tcp_discovery_sock s)) as [Hs|Hs].
    + exists (-1), (zsock_close (fw_net s) (tcp_discovery_sock s)). split; [|done].
      unfold mbind, M_bind, getL, zoom, modL. cbn. destruct (Z.leb_spec 0 (tcp_discovery_sock s)); [done|lia].
    + exists (tcp_discovery_sock s), (fw_net s). split; [|done].
      unfold mbind, M_bind, getL, zoom, modL. cbn.
      destruct (Z.leb_spec 0 (tcp_discovery_sock s)); [lia|]. by destruct s.
  - exists (tcp_discovery_sock s), (fw_net s). split; [|done]. by destruct s.
Qed.
End Facts.
