(* ===== verification/Resume.v ===== *)
(** * Programs that lose the processor

    A [thread] is finished or has a piece to run without interruption, which
    ends where the next call starts; what the thread keeps in its variables is
    in the continuation.  [run] runs all pieces without interruption, [piece]
    one of them.  A program in pieces is compared with the program of the same
    name that runs at once by [solve_run]. *)

From S2P Require Import Prelude.

(** ** Resumptions *)

#[warnings="-register-all"]
Inductive thread (S A : Type) :=
| Ret (a : A)
| Block (m : S → result S (thread S A)).
Arguments Ret {S A} a.
Arguments Block {S A} m.

#[export] Instance thread_ret S : MRet (thread S) := λ A a, Ret a.

Fixpoint thread_bind_def {S A B} (k : A → thread S B) (t : thread S A) : thread S B :=
  match t with
  | Ret a => k a
  | Block m => Block (λ s,
      match m s with
      | Done t s' => Done (thread_bind_def k t) s'
      | Crash f => Crash f
      end)
  end.
#[export] Instance thread_bind S : MBind (thread S) := @thread_bind_def S.

(** One uninterrupted piece. *)
Definition call {S A} (m : M S A) : thread S A := Block (a ← m; mret (Ret a)).

(** All of it without interruption. *)
Fixpoint run {S A} (t : thread S A) : M S A :=
  match t with
  | Ret a => mret a
  | Block m => λ s,
      match m s with
      | Done t s' => run t s'
      | Crash f => Crash f
      end
  end.

Lemma run_call {S A} (m : M S A) : run (call m) ≡ m.
Proof. intros s. cbn [run call]. unfold mbind, M_bind, mret, M_ret. by destruct (m s). Qed.

Lemma run_bind {S A B} (t : thread S A) (k : A → thread S B) :
  run (t ≫= k) ≡ (run t ≫= λ a, run (k a)).
Proof.
  revert t. fix IH 1. intros [a|m] s; [done|]. unfold mbind, thread_bind, M_bind in *.
  cbn [thread_bind_def run]. destruct (m s) as [t s'|f]; [|done]. apply (IH t s').
Qed.

(** A call and what follows it. *)
Lemma run_then {S A B} (m : M S A) (k : A → thread S B) (k' : A → M S B) :
  (∀ a, run (k a) ≡ k' a) → run (call m ≫= k) ≡ (m ≫= k').
Proof. intros Hk s. rewrite (run_bind _ _ s). apply M_bind_proper; [done|apply run_call]. Qed.

(** A part and what follows it. *)
Lemma run_part {S A B} (t : thread S A) (m : M S A) (k : A → thread S B) (k' : A → M S B) :
  run t ≡ m → (∀ a, run (k a) ≡ k' a) → run (t ≫= k) ≡ (m ≫= k').
Proof. intros Ht Hk s. rewrite (run_bind _ _ s). by apply M_bind_proper. Qed.

(** A call whose outcome is known. *)
Lemma run_call_Done {S A B} (m : M S A) (k : A → thread S B) s a s' :
  m s = Done a s' → run (call m ≫= k) s = run (k a) s'.
Proof. intros Hm. rewrite (run_then _ _ (λ v, run (k v)) ltac:(done) s). unfold mbind, M_bind. by rewrite Hm. Qed.

Lemma run_call_Crash {S A B} (m : M S A) (k : A → thread S B) s f :
  m s = Crash f → run (call m ≫= k) s = Crash f.
Proof. intros Hm. rewrite (run_then _ _ (λ v, run (k v)) ltac:(done) s). unfold mbind, M_bind. by rewrite Hm. Qed.

Lemma run_bind_Done {S A B} (t : thread S A) (k : A → thread S B) s a s' :
  run t s = Done a s' → run (t ≫= k) s = run (k a) s'.
Proof. intros Ht. rewrite (run_bind t k s). unfold mbind at 1, M_bind. by rewrite Ht. Qed.

(** A thread and the state, one piece later. *)
Inductive piece {S A} : thread S A * S → thread S A * S → Prop :=
| piece_block m s t s' : m s = Done t s' → piece (Block m, s) (t, s').

(** A thread that ends has run all its pieces. *)
Lemma run_pieces {S A} (t : thread S A) s a s' :
  run t s = Done a s' → rtc piece (t, s) (Ret a, s').
Proof.
  revert t s. fix IH 1. intros [a0|m] s; cbn [run]; [by intros [= -> ->]|].
  destruct (m s) as [t s1|f] eqn:Hm; [|done]. intros Hrun.
  eapply rtc_l; [by constructor|]. by apply (IH t).
Qed.

(** What is left of a thread ends as the whole. *)
Lemma pieces_run {S A} (t t' : thread S A) s s' : rtc piece (t, s) (t', s') → run t s = run t' s'.
Proof.
  intros Hr. change (run (t, s).1 (t, s).2 = run (t', s').1 (t', s').2).
  induction Hr as [|c c1 c' Hstep _ IH]; [done|]. rewrite <-IH.
  destruct Hstep as [m s0 t0 s1 Hm]. cbn [fst snd run]. by rewrite Hm.
Qed.

Lemma piece_call {S A B} (m : M S A) (k : A → thread S B) s a s' :
  m s = Done a s' → piece (call m ≫= k, s) (k a, s').
Proof.
  intros Hm. constructor. unfold call, mbind, thread_bind, M_bind. cbn [thread_bind_def]. by rewrite Hm.
Qed.

Lemma pieces_bind {S A B} (t t' : thread S A) (k : A → thread S B) s s' :
  rtc piece (t, s) (t', s') → rtc piece (t ≫= k, s) (t' ≫= k, s').
Proof.
  intros Hr. remember (t, s) as c eqn:Hc. remember (t', s') as c' eqn:Hc'. revert t s Hc.
  induction Hr as [c|c c1 c' Hstep Hr IH]; intros t s ->; [by simplify_eq|].
  inversion Hstep as [m s0 t1 s1 Hm]; subst. apply rtc_l with (t1 ≫= k, s1); [|by apply IH].
  constructor. unfold mbind, thread_bind. by rewrite Hm.
Qed.

(** ** Without interruption *)

(** Both sides are taken apart at the same call. *)
Ltac run_step :=
  match goal with
  | |- run (call _) ≡ _ => apply run_call
  | |- run (call _ ≫= _) ≡ _ => apply run_then; intros ?
  | |- run (mret _) ≡ _ => done
  | |- run (if ?b then _ else _) ≡ _ => destruct b
  | |- run (match ?x with _ => _ end) ≡ _ => destruct x
  | |- run (_ ≫= _) ≡ _ => eapply run_part; [solve [eauto with run]|intros ?]
  | |- run (_ ≫= _) ≡ _ => apply run_part; [|intros ?]
  | |- run _ ≡ _ => solve [eauto with run]
  end.
Ltac solve_run := repeat (run_step; cbv beta zeta iota).

Create HintDb run discriminated.
