(* ===== verification/NodeThreads.v ===== *)
(** * Nodes in pieces (src/node.c)

    Connecting to a node, creating and destroying one, and the operations on the
    node cache they use, as resumptions: other threads may run while the
    connection is made, and between any two accesses to the cache.  A search
    through the cache is one piece.  Allocating a block and filling it in is
    one, too: no other thread has its address yet. *)

From S2P Require Import Prelude Config Protocols Kernel Messages Interfaces NodeCache CacheRace State.
From S2P Require Import ApMap NodeLink LocalNode Routes Svc NodeTx Bridge NodeRx Resume.

Section Nodes.
Context `{Config, KHeap, KSlab, Sockets}.

(** *** Connections *)

Definition sock_open (family : Z) : M fw Z :=
  n ← getL L_net;
  let '(sock, n) :=
    if family =? AF_INET6 then zsock_socket n AF_INET6 SOCK_STREAM IPPROTO_TCP
    else zsock_socket n AF_INET SOCK_STREAM IPPROTO_TCP in
  _ ← modL L_net (λ _, n);
  mret sock.

Definition sock_connect (sock : Z) (addr : sockaddr) : M fw Z :=
  n ← getL L_net;
  let '(ret, n) := zsock_connect n sock addr in
  _ ← modL L_net (λ _, n);
  mret ret.

Definition connect_to_node_t (addr : sockaddr) : thread fw Z :=
  sock ← call (sock_open (sa_family addr));
  if sock <? 0 then mret sock
  else
    ret ← call (sock_connect sock addr);
    if negb (ret =? 0) then (_ ← call (sock_close sock); mret ret)
    else mret sock.

(** [ret], the index of the node, is a variable of the thread. *)
Definition node_intf_create_connection_t (ctrl : intf_ptr) (cport : Z) : thread fw Z :=
  i ← call (zoom L_interfaces (intf_deref ctrl));
  if negb (cport =? 0) then mret 0
  else
    sock ← call (ctrl_sock (ctrl_data i));
    if 0 <=? sock then call (ctrl_sock (ctrl_data i))
    else
      ret ← call (zoom L_nodes (node_cache_find_by_id (id i)));
      if ret <? 0 then mret (- EINVAL)
      else
        it ← call (zoom L_nodes (node_cache_at ret));
        sock ← connect_to_node_t (Sockaddr AF_INET6 (ni_addr it) GB_TRANSPORT_TCPIP_BASE_PORT);
        if sock <? 0 then mret sock
        else
          _ ← call (zoom L_nodes (node_cache_set_sock ret sock));
          _ ← call (ctrl_set_sock (ctrl_data i) sock);
          _ ← call pipe_send;
          mret sock.

Definition call_create_connection_t (intf : intf_ptr) (cport : Z) : thread fw Z :=
  i ← call (zoom L_interfaces (intf_deref intf));
  match create_connection i with
  | svc_create_cb => call (svc_inf_create_connection intf cport)
  | local_create_cb => call (intf_create_connection intf cport)
  | node_create_cb => node_intf_create_connection_t intf cport
  end.

(** *** The cache *)

(** [node_cache_pos], as a value to compute with *)
Definition cache_pos : M fw Z := c ← getL L_nodes; mret (node_cache_pos c).

Definition set_cache_pos (pos : Z) : M fw () := modL L_nodes (λ c, NodeCache (nc_items c) pos).

Definition node_cache_add_t (sock id : Z) (addr : list Z) (intf : intf_ptr) : thread fw Z :=
  pos ← call cache_pos;
  if MAX_GREYBUS_NODES <=? pos then mret (- ENOMEM)
  else
    _ ← call (zoom L_nodes (assign_entry (entry_sock sock)));
    _ ← call (zoom L_nodes (assign_entry (entry_id id)));
    _ ← call (zoom L_nodes (assign_entry (entry_addr addr)));
    _ ← call (zoom L_nodes (assign_entry (entry_inf intf)));
    _ ← call (zoom L_nodes (assign_entry (entry_fail_count 0)));
    pos ← call cache_pos;
    _ ← call (set_cache_pos (pos + 1));
    mret 0.

(** [memcpy(&node_cache[pos], &node_cache[node_cache_pos], sizeof(struct node_item))] *)
Definition copy_last (pos : Z) : M node_cache () :=
  c ← getS;
  it ← array_get (nc_items c) (node_cache_pos c);
  items ← array_set (nc_items c) pos it;
  putS (NodeCache items (node_cache_pos c)).

Definition node_cache_remove_at_t (pos : Z) : thread fw () :=
  n ← call cache_pos;
  _ ← call (set_cache_pos (u32 (n - 1)));
  n ← call cache_pos;
  if pos =? n then mret () else call (zoom L_nodes (copy_last pos)).

Definition node_cache_remove_by_id_t (id : Z) : thread fw Z :=
  ret ← call (zoom L_nodes (node_cache_find_by_id id));
  _ ← (if 0 <=? ret then node_cache_remove_at_t ret else mret ());
  mret ret.

Definition node_find_by_id_t (nid : Z) : thread fw intf_ptr :=
  ret ← call (zoom L_nodes (node_cache_find_by_id nid));
  if 0 <=? ret then (it ← call (zoom L_nodes (node_cache_at ret)); mret (ni_inf it))
  else mret NullIntf.

Definition gb_interface_find_by_id_t (intf_id : Z) : thread fw intf_ptr :=
  if intf_id =? SVC_INF_ID then call svc_interface
  else if intf_id =? LOCAL_NODE_ID then mret local_node_interface
  else node_find_by_id_t intf_id.

(** *** Interfaces of nodes *)

Definition node_create_interface_t (addr : list Z) : thread fw intf_ptr :=
  ctrl_data ← call ctrl_alloc;
  match ctrl_data with
  | None => mret NullIntf
  | Some ctrl_data =>
      inf ← call (zoom L_interfaces (gb_interface_alloc node_inf_write_cb node_create_cb
                                       node_destroy_cb ctrl_data));
      if decide (inf = NullIntf) then (_ ← call ctrl_free; mret NullIntf)
      else
        i ← call (zoom L_interfaces (intf_deref inf));
        ret ← node_cache_add_t (-1) (id i) addr inf;
        if ret <? 0 then (_ ← call ctrl_free; mret NullIntf)
        else mret inf
  end.

(** [ctrl_data->sock] is read again to close it. *)
Definition node_destroy_interface_t (inf : intf_ptr) : thread fw () :=
  if decide (inf = NullIntf) then mret ()
  else
    i ← call (zoom L_interfaces (intf_deref inf));
    sock ← call (ctrl_sock (ctrl_data i));
    _ ← (if 0 <=? sock then (sock ← call (ctrl_sock (ctrl_data i)); call (sock_close sock))
         else mret ());
    _ ← node_cache_remove_by_id_t (id i);
    _ ← call ctrl_free;
    call (zoom L_interfaces (gb_interface_dealloc inf)).

Fixpoint destroy_from_t (n : nat) (i : Z) : thread fw () :=
  pos ← call cache_pos;
  if i <? pos then
    match n with
    | O => call (crash Diverge)
    | S n =>
        it ← call (zoom L_nodes (node_cache_at i));
        _ ← node_destroy_interface_t (ni_inf it);
        destroy_from_t n (i + 1)
    end
  else mret ().

(** The closing assertion *)
Definition assert_unused : M fw () :=
  c ← getL L_controls;
  if k_mem_slab_num_used_get (node_control_data_slab c) =? 0 then mret ()
  else crash AssertFailed.

Definition node_destroy_all_t : thread fw () :=
  _ ← destroy_from_t destroy_rounds 0;
  _ ← call (set_cache_pos 0);
  call assert_unused.
End Nodes.

(** ** Without interruption *)

Section Undisturbed.
Context `{Config, KHeap, KSlab, Sockets}.

(** Reading the control data's socket can be repeated. *)
Lemma ctrl_sock_reads p s : (∃ sock, ctrl_sock p s = Done sock s) ∨ ∃ f, ctrl_sock p s = Crash f.
Proof.
  unfold ctrl_sock. step_getL L_controls. destruct (p =? NULL); [right; by eexists|].
  cbn [view L_controls]. destruct (_ !! p); [left|right]; by eexists.
Qed.

Lemma run_connect_to_node addr : run (connect_to_node_t addr) ≡ connect_to_node addr.
Proof.
  unfold connect_to_node_t, connect_to_node. intros s.
  rewrite (run_then _ _ (λ sock, run (if sock <? 0 then _ else _)) ltac:(done) s).
  unfold sock_open. rewrite M_bind_assoc. step_getL L_net. step_getL L_net.
  destruct (if sa_family addr =? AF_INET6 then _ else _) as [sock n]. rewrite M_bind_assoc.
  step_modL L_net. step_modL L_net. rewrite M_ret_bind. destruct (sock <? 0); [done|].
  rewrite (run_then _ _ (λ ret, run (if negb (ret =? 0) then _ else _)) ltac:(done) _).
  unfold sock_connect. rewrite M_bind_assoc. step_getL L_net. step_getL L_net.
  destruct (zsock_connect n sock addr) as [ret n']. rewrite M_bind_assoc. step_modL L_net. step_modL L_net.
  rewrite M_ret_bind. destruct (negb _); [|done]. by apply run_then.
Qed.
Hint Resolve run_connect_to_node : run.

Lemma run_node_create_connection ctrl cport :
  run (node_intf_create_connection_t ctrl cport) ≡ node_intf_create_connection ctrl cport.
Proof.
  unfold node_intf_create_connection_t, node_intf_create_connection. apply run_then. intros i.
  destruct (negb (cport =? 0)); [done|]. intros s.
  destruct (ctrl_sock_reads (ctrl_data i) s) as [[sock Hsock]|[f Hf]].
  - rewrite (run_call_Done _ _ _ _ _ Hsock), (M_bind_Done _ _ _ _ _ Hsock).
    destruct (0 <=? sock); [rewrite (run_call _ _); exact Hsock|].
    revert s Hsock. intros s _. match goal with |- run ?t s = ?m s => enough (He : run t ≡ m) by apply He end.
    solve_run.
  - by rewrite (run_call_Crash _ _ _ _ Hf), (M_bind_Crash _ _ _ _ Hf).
Qed.
Hint Resolve run_node_create_connection : run.

Lemma run_call_create_connection intf cport :
  run (call_create_connection_t intf cport) ≡ call_create_connection intf cport.
Proof. unfold call_create_connection_t, call_create_connection. solve_run. Qed.

(** *** The cache *)

Lemma cache_pos_ok s : cache_pos s = Done (node_cache_pos (fw_nodes s)) s.
Proof. by destruct s. Qed.

Lemma set_cache_pos_ok pos s :
  set_cache_pos pos s = Done () (store L_nodes (NodeCache (nc_items (fw_nodes s)) pos) s).
Proof. done. Qed.

(** An index outside of the array. *)
Lemma array_outside {S A} (l : list A) i (s : S) :
  ¬ 0 <= i < length l → array_get l i s = Crash OutOfBounds ∧ ∀ x, array_set l i x s = Crash OutOfBounds.
Proof.
  intros Hi. unfold array_get, array_set. destruct (Z.ltb_spec i 0); [done|].
  rewrite (lookup_ge_None_2 l) by lia. split; [done|]. intros x. by rewrite decide_False by lia.
Qed.

(** The array with other contents. *)
Definition with_items (items : list node_item) (s : fw) : fw :=
  store L_nodes (NodeCache items (node_cache_pos (fw_nodes s))) s.

Lemma with_items_same s : with_items (nc_items (fw_nodes s)) s = s.
Proof.
  unfold with_items. replace (NodeCache _ _) with (view L_nodes s) by (cbn; by destruct (fw_nodes s)).
  apply store_view.
Qed.

Lemma zoom_assign f items it s :
  0 <= node_cache_pos (fw_nodes s) → items !! Z.to_nat (node_cache_pos (fw_nodes s)) = Some it →
  zoom L_nodes (assign_entry f) (with_items items s)
  = Done () (with_items (<[Z.to_nat (node_cache_pos (fw_nodes s)) := f it]> items) s).
Proof.
  intros Hpos Hit. unfold assign_entry, zoom. cbn [view store L_nodes with_items fw_nodes].
  unfold getS, mbind at 1, M_bind at 1. cbn [nc_items node_cache_pos].
  step_with (array_get_ok items _ it (NodeCache items (node_cache_pos (fw_nodes s))) Hpos Hit).
  apply lookup_lt_Some in Hit.
  by step_with (array_set_ok items (node_cache_pos (fw_nodes s)) (f it)
    (NodeCache items (node_cache_pos (fw_nodes s))) ltac:(lia)).
Qed.

Lemma run_assign {A} f items it s (k : () → thread fw A) :
  0 <= node_cache_pos (fw_nodes s) → items !! Z.to_nat (node_cache_pos (fw_nodes s)) = Some it →
  run (call (zoom L_nodes (assign_entry f)) ≫= k) (with_items items s)
  = run (k ()) (with_items (<[Z.to_nat (node_cache_pos (fw_nodes s)) := f it]> items) s).
Proof. intros Hpos Hit. by apply run_call_Done, zoom_assign. Qed.

(** The assignments together. *)
Lemma run_assigns {A} sock id addr intf s (k : thread fw A) :
  0 <= node_cache_pos (fw_nodes s) < length (nc_items (fw_nodes s)) →
  run (_ ← call (zoom L_nodes (assign_entry (entry_sock sock)));
       _ ← call (zoom L_nodes (assign_entry (entry_id id)));
       _ ← call (zoom L_nodes (assign_entry (entry_addr addr)));
       _ ← call (zoom L_nodes (assign_entry (entry_inf intf)));
       _ ← call (zoom L_nodes (assign_entry (entry_fail_count 0)));
       k) s
  = run k (with_items (<[Z.to_nat (node_cache_pos (fw_nodes s)) := NodeItem sock id addr intf 0]>
                         (nc_items (fw_nodes s))) s).
Proof.
  intros Hpos. set (items := nc_items (fw_nodes s)) in *.
  destruct (lookup_lt_is_Some_2 items (Z.to_nat (node_cache_pos (fw_nodes s)))) as [it Hit]; [lia|].
  assert (Hs : s = with_items items s) by (symmetry; apply with_items_same).
  rewrite Hs at 1. clear Hs. etransitivity; [exact (run_assign _ items it s _ (proj1 Hpos) Hit)|].
  do 4 (etransitivity; [apply run_assign;
    [exact (proj1 Hpos)|apply list_lookup_insert_eq; rewrite ?length_insert; lia]|]).
  by rewrite !list_insert_insert_eq.
Qed.

Lemma run_node_cache_add sock id addr intf :
  run (node_cache_add_t sock id addr intf) ≡ zoom L_nodes (node_cache_add sock id addr intf).
Proof.
  intros s. unfold node_cache_add_t. rewrite (run_call_Done _ _ _ _ _ (cache_pos_ok s)).
  set (items := nc_items (fw_nodes s)). set (pos := node_cache_pos (fw_nodes s)).
  assert (Hadd : node_cache_add sock id addr intf (view L_nodes s) =
    if MAX_GREYBUS_NODES <=? pos then Done (- ENOMEM) (view L_nodes s)
    else (items ← array_set items pos (NodeItem sock id addr intf 0);
          _ ← putS (NodeCache items (pos + 1)); mret 0) (view L_nodes s)).
  { unfold node_cache_add, getS, mbind at 1, M_bind at 1. cbn [view L_nodes]. by destruct (_ <=? _). }
  destruct (MAX_GREYBUS_NODES <=? pos); [by rewrite (zoom_read L_nodes _ s _ Hadd)|].
  destruct (decide (0 <= pos < length items)) as [Hpos|Hpos].
  - rewrite (M_bind_Done _ _ _ _ _ (array_set_ok items pos (NodeItem sock id addr intf 0) _ Hpos)) in Hadd.
    rewrite (zoom_Done L_nodes _ _ _ _ Hadd), (run_assigns _ _ _ _ s _ Hpos).
    by rewrite (run_call_Done _ _ _ _ _ (cache_pos_ok _)), (run_call_Done _ _ _ _ _ (set_cache_pos_ok _ _)).
  - destruct (array_outside items pos (view L_nodes s) Hpos) as [Hget Hset].
    rewrite (M_bind_Crash _ _ _ _ (Hset _)) in Hadd. rewrite (zoom_Crash L_nodes _ _ _ Hadd).
    apply run_call_Crash, zoom_Crash. exact (M_bind_Crash _ _ _ _ Hget).
Qed.
Hint Resolve run_node_cache_add : run.

Lemma run_node_cache_remove_at pos :
  run (node_cache_remove_at_t pos) ≡ zoom L_nodes (node_cache_remove_at pos).
Proof.
  intros s. unfold node_cache_remove_at_t.
  rewrite (run_call_Done _ _ _ _ _ (cache_pos_ok s)), (run_call_Done _ _ _ _ _ (set_cache_pos_ok _ _)),
    (run_call_Done _ _ _ _ _ (cache_pos_ok _)).
  set (last := u32 (node_cache_pos (fw_nodes s) - 1)). cbn [store L_nodes fw_nodes node_cache_pos nc_items].
  unfold node_cache_remove_at, zoom, getS, mbind at 1, M_bind at 1. cbn [view L_nodes]. fold last.
  destruct (pos =? last); [done|]. rewrite (run_call _ _). unfold zoom, copy_last, getS, mbind at 1, M_bind at 1.
  cbn [view store L_nodes fw_nodes node_cache_pos nc_items].
  unfold array_get, array_set, mbind, M_bind, mret, M_ret, crash, putS.
  destruct (last <? 0); [done|]. destruct (_ !! Z.to_nat last); [|done].
  destruct (pos <? 0); [done|]. by destruct (decide _).
Qed.
Hint Resolve run_node_cache_remove_at : run.

Lemma run_node_cache_remove_by_id id :
  run (node_cache_remove_by_id_t id) ≡ zoom L_nodes (node_cache_remove_by_id id).
Proof.
  unfold node_cache_remove_by_id_t, node_cache_remove_by_id. rewrite (zoom_bind L_nodes). apply run_then. intros ret.
  rewrite (zoom_bind L_nodes). apply run_part; [|intros _ s; by destruct s].
  destruct (0 <=? ret); [apply run_node_cache_remove_at|intros s; by destruct s].
Qed.
Hint Resolve run_node_cache_remove_by_id : run.

Lemma run_node_find_by_id nid : run (node_find_by_id_t nid) ≡ node_find_by_id nid.
Proof. unfold node_find_by_id_t, node_find_by_id. solve_run. Qed.
Hint Resolve run_node_find_by_id : run.

Lemma run_interface_find_by_id nid : run (gb_interface_find_by_id_t nid) ≡ gb_interface_find_by_id nid.
Proof. unfold gb_interface_find_by_id_t, gb_interface_find_by_id. solve_run. Qed.

(** *** Interfaces of nodes *)

Lemma run_node_create_interface addr : run (node_create_interface_t addr) ≡ node_create_interface addr.
Proof. unfold node_create_interface_t, node_create_interface. solve_run. Qed.

(** A read at the start of a part. *)
Lemma run_call_read {A B C} (m : M fw A) (t : A → thread fw B) (k : B → thread fw C) s a :
  m s = Done a s → run ((b ← call m; t b) ≫= k) s = run (t a ≫= k) s.
Proof.
  intros Hm. rewrite (run_bind _ _ s), (run_bind (t a) k s). unfold mbind at 1 3, M_bind.
  by rewrite (run_call_Done _ _ _ _ _ Hm).
Qed.

Lemma run_node_destroy_interface inf : run (node_destroy_interface_t inf) ≡ node_destroy_interface inf.
Proof.
  unfold node_destroy_interface_t, node_destroy_interface. destruct (decide _); [done|].
  apply run_then. intros i s. destruct (ctrl_sock_reads (ctrl_data i) s) as [[sock Hsock]|[f Hf]].
  - rewrite (run_call_Done _ _ _ _ _ Hsock), (M_bind_Done _ _ _ _ _ Hsock).
    destruct (0 <=? sock).
    + rewrite (run_call_read _ _ _ _ _ Hsock).
      match goal with |- run ?t s = ?m s => enough (He : run t ≡ m) by apply He end. solve_run.
    + match goal with |- run ?t s = ?m s => enough (He : run t ≡ m) by apply He end. solve_run.
  - by rewrite (run_call_Crash _ _ _ _ Hf), (M_bind_Crash _ _ _ _ Hf).
Qed.
Hint Resolve run_node_destroy_interface : run.

Lemma run_destroy_from n i : run (destroy_from_t n i) ≡ destroy_from n i.
Proof.
  revert i. induction n as [|n IH]; intros i s; cbn [destroy_from_t destroy_from];
    rewrite (run_call_Done _ _ _ _ _ (cache_pos_ok s)); step_getL L_nodes.
  - destruct (i <? _); [apply run_call|done].
  - destruct (i <? _); [|done].
    match goal with |- run ?t s = ?m s => enough (He : run t ≡ m) by apply He end. solve_run.
Qed.
Hint Resolve run_destroy_from : run.

Lemma run_node_destroy_all : run node_destroy_all_t ≡ node_destroy_all.
Proof. unfold node_destroy_all_t, node_destroy_all. solve_run. Qed.
End Undisturbed.

#[export] Hint Resolve run_node_create_connection run_call_create_connection run_interface_find_by_id
  run_node_create_interface run_node_destroy_interface run_node_destroy_all : run.
