(* ===== verification/HdlcThread.v ===== *)
(** * The HDLC receiver in pieces (src/hdlc.c)

    The receiver of [Hdlc] as resumptions: other threads may run between any two
    accesses to the driver, and during the callback for a frame.  Each definition
    ends in [_t] and follows the one of the same name in [Hdlc]. *)

From S2P Require Import Prelude Config Hdlc Resume.

Section Receiver.
Context `{Config, Crc16}.
Context {W : Type} (drv : lens W hdlc_driver).
Variable process_callback_frame_cb_t : list Z → Z → Z → thread W Z.

Definition hdlc_process_complete_frame_t : thread W () :=
  d ← call (getL drv);
  address ← call (array_get (rx_buffer d) 0);
  let len := u32 (rx_buffer_len d - 4) in
  let buffer := drop 2 (rx_buffer d) in
  ret ← process_callback_frame_cb_t buffer len address;
  mret ().

Definition hdlc_process_frame_t : thread W () :=
  d ← call (getL drv);
  _ ← (if (3 <? rx_buffer_len d) && (crc d =? 0xf0b8)
       then
         ctrl ← call (array_get (rx_buffer d) 1);
         if Z.land ctrl 1 =? 0
         then call (modL drv (set_rx_send_seq (Z.land (Z.shiftr ctrl 5) 0x07)))
         else hdlc_process_complete_frame_t
       else mret ());
  _ ← call (modL drv (set_crc 0xffff));
  call (modL drv (set_rx_buffer_len 0)).

Definition hdlc_save_byte_t (byte : Z) : thread W Z :=
  d ← call (getL drv);
  _ ← (if HDLC_MAX_BLOCK_SIZE <=? rx_buffer_len d
       then (_ ← call (modL drv (set_crc 0xffff)); call (modL drv (set_rx_buffer_len 0)))
       else mret ());
  d ← call (getL drv);
  buf ← call (array_set (rx_buffer d) (rx_buffer_len d) byte);
  _ ← call (modL drv (set_rx_buffer buf));
  _ ← call (modL drv (set_rx_buffer_len (u16 (rx_buffer_len d + 1))));
  mret 0.

Definition hdlc_rx_input_byte_t (byte : Z) : thread W () :=
  d ← call (getL drv);
  if byte =? HDLC_FRAME then
    if negb (rx_buffer_len d =? 0) then hdlc_process_frame_t else mret ()
  else if byte =? HDLC_ESC then
    call (modL drv (set_next_escaped true))
  else
    byte ← (if next_escaped d
            then (_ ← call (modL drv (set_next_escaped false)); mret (Z.lxor byte 0x20))
            else mret byte);
    _ ← call (modL drv (λ d, set_crc (crc16_ccitt (crc d) [byte]) d));
    _ ← hdlc_save_byte_t byte;
    mret ().

Fixpoint process_bytes_t (bs : list Z) : thread W () :=
  match bs with
  | [] => mret ()
  | b :: bs => _ ← hdlc_rx_input_byte_t b; process_bytes_t bs
  end.

Definition hdlc_process_buffer_t (buf : list Z) : thread W Z :=
  _ ← process_bytes_t buf;
  mret (length buf : Z).

(** ** Without interruption *)

Context (process_callback_frame_cb : list Z → Z → Z → M W Z).
Context (Hcb : ∀ buffer len address,
  run (process_callback_frame_cb_t buffer len address) ≡ process_callback_frame_cb buffer len address).
Hint Resolve Hcb : run.

Lemma run_deliver : run hdlc_process_complete_frame_t ≡ hdlc_process_complete_frame drv process_callback_frame_cb.
Proof. unfold hdlc_process_complete_frame_t, hdlc_process_complete_frame. solve_run. Qed.
Hint Resolve run_deliver : run.

Lemma run_process_frame : run hdlc_process_frame_t ≡ hdlc_process_frame drv process_callback_frame_cb.
Proof. unfold hdlc_process_frame_t, hdlc_process_frame. solve_run. Qed.
Hint Resolve run_process_frame : run.

Lemma run_save_byte byte : run (hdlc_save_byte_t byte) ≡ hdlc_save_byte drv byte.
Proof. unfold hdlc_save_byte_t, hdlc_save_byte. solve_run. Qed.
Hint Resolve run_save_byte : run.

Lemma run_input_byte byte :
  run (hdlc_rx_input_byte_t byte) ≡ hdlc_rx_input_byte drv process_callback_frame_cb byte.
Proof. unfold hdlc_rx_input_byte_t, hdlc_rx_input_byte. solve_run. Qed.
Hint Resolve run_input_byte : run.

Lemma run_process_bytes bs : run (process_bytes_t bs) ≡ process_bytes drv process_callback_frame_cb bs.
Proof. induction bs as [|b bs IH]; cbn [process_bytes_t process_bytes]; solve_run; apply IH. Qed.
Hint Resolve run_process_bytes : run.

Lemma run_process_buffer bs : run (hdlc_process_buffer_t bs) ≡ hdlc_process_buffer drv process_callback_frame_cb bs.
Proof. unfold hdlc_process_buffer_t, hdlc_process_buffer. solve_run. Qed.
End Receiver.
