(* ===== verification/Rely.v ===== *)
(** * Reasoning about a thread between the steps of others

    [rel] is what other threads may do between two pieces of a thread.  [rg P t
    Q]: run from [P], the pieces of [t] end in [Q] whatever happens in between,
    since what is known after each piece is [stable] under [rel].  A thread
    [implements] a program over the part of the state that others leave alone
    ([obs]).  The HDLC receiver in pieces implements the receiver that runs at
    once, over the driver and the frames handed over. *)

From S2P Require Import Prelude Config Hdlc HdlcRx Resume HdlcThread.

Section Rely.
Context {W : Type} (rel : relation W).

Definition stable (P : W → Prop) : Prop := ∀ w w', P w → rel w w' → P w'.

Fixpoint rg {A} (P : W → Prop) (t : thread W A) (Q : A → W → Prop) : Prop :=
  match t with
  | Ret a => ∀ w, P w → Q a w
  | Block m => ∀ w, P w →
      match m w with
      | Done t' w' => ∃ P', stable P' ∧ P' w' ∧ rg P' t' Q
      | Crash _ => True
      end
  end.

(** A piece of the thread, or a step of another one. *)
Inductive preempted {A} : relation (thread W A * W) :=
| preempted_own c c' : piece c c' → preempted c c'
| preempted_other t w w' : rel w w' → preempted (t, w) (t, w').

Lemma rg_sound {A} P (t : thread W A) Q w a w' :
  stable P → rg P t Q → P w → rtc preempted (t, w) (Ret a, w') → Q a w'.
Proof.
  intros HP Ht Hw Hsteps. remember (t, w) as c eqn:Hc. remember (Ret a, w') as c' eqn:Hc'.
  revert P t w HP Ht Hw Hc. induction Hsteps as [c|c c1 c' Hstep _ IH]; intros P t w HP Ht Hw ->.
  - injection Hc' as -> ->. by apply Ht.
  - inversion Hstep as [c0 c2 Hpiece|t0 w0 w1 Hrel]; subst.
    + inversion Hpiece as [m w0 t1 w1 Hm]; subst. specialize (Ht w Hw). rewrite Hm in Ht.
      destruct Ht as (P' & HP' & Hw1 & Ht1). by apply (IH eq_refl P' t1 w1).
    + apply (IH eq_refl P t w1); [done|done|by apply (HP w)|done].
Qed.

Lemma rg_pre {A} (P P' : W → Prop) (t : thread W A) Q : (∀ w, P' w → P w) → rg P t Q → rg P' t Q.
Proof. intros HP Ht. destruct t; cbn [rg] in *; intros w Hw; by apply Ht, HP. Qed.

Lemma rg_post {A} P (t : thread W A) (Q Q' : A → W → Prop) :
  rg P t Q → (∀ a w, Q a w → Q' a w) → rg P t Q'.
Proof.
  intros Ht HQ. revert t P Ht. fix IH 1. intros [a|m] P; cbn [rg]; [auto|]. intros Hm w Hw. specialize (Hm w Hw).
  destruct (m w) as [t' w'|f]; [|done]. destruct Hm as (P' & HP' & Hw' & Ht').
  exists P'. split; [done|]. split; [done|]. by apply (IH t' P').
Qed.

Lemma rg_pure {A} (φ : Prop) P (t : thread W A) Q : (φ → rg P t Q) → rg (λ w, φ ∧ P w) t Q.
Proof. intros Ht. destruct t; cbn [rg] in *; intros w [Hφ Hw]; by apply Ht. Qed.

Lemma rg_bind {A B} P (t : thread W A) (k : A → thread W B) R Q :
  rg P t R → (∀ a, rg (R a) (k a) Q) → rg P (t ≫= k) Q.
Proof.
  intros Ht Hk. revert t P Ht. fix IH 1. intros [a|m] P.
  - intros Ha. apply (rg_pre (R a)); [apply Ha|apply Hk].
  - cbn [rg]. intros Hm. unfold mbind, thread_bind. cbn [thread_bind_def rg]. intros w Hw. specialize (Hm w Hw).
    destruct (m w) as [t' w'|f]; [|done]. destruct Hm as (P' & HP' & Hw' & Ht').
    exists P'. split; [done|]. split; [done|]. by apply (IH t' P').
Qed.

(** ** Programs over what others leave alone *)

Context {X : Type} (obs : W → X) (Hobs : ∀ w w', rel w w' → obs w' = obs w).

Definition implements {A B} (R : A → B → Prop) (t : thread W A) (m : M X B) : Prop :=
  ∀ x, match m x with
       | Done b x' => rg (λ w, obs w = x) t (λ a w, R a b ∧ obs w = x')
       | Crash _ => True
       end.

Lemma stable_obs x : stable (λ w, obs w = x).
Proof. intros w w' <-. apply Hobs. Qed.

Lemma implements_ret {A B} (R : A → B → Prop) a b : R a b → implements R (mret a) (mret b).
Proof. by intros HR x w Hw. Qed.

Lemma implements_bind {A B C D} (R : A → B → Prop) (S : C → D → Prop) t m k k' :
  implements R t m → (∀ a b, R a b → implements S (k a) (k' b)) → implements S (t ≫= k) (m ≫= k').
Proof.
  intros Ht Hk x. unfold mbind at 1, M_bind. specialize (Ht x).
  destruct (m x) as [b x1|f]; [|done]. destruct (k' b x1) as [d x2|f] eqn:Hk'; [|done].
  apply (rg_bind _ _ _ _ _ Ht). intros a. apply rg_pure. intros HR.
  specialize (Hk a b HR x1). by rewrite Hk' in Hk.
Qed.

Lemma implements_call {A B} (R : A → B → Prop) (m : M W A) (m' : M X B) :
  (∀ w, match m' (obs w) with
        | Done b x' => match m w with Done a w' => R a b ∧ obs w' = x' | Crash _ => True end
        | Crash _ => True
        end) → implements R (call m) m'.
Proof.
  intros Hm x. destruct (m' x) as [b x'|f] eqn:Hx; [|done]. intros w <-. specialize (Hm w). rewrite Hx in Hm.
  unfold mbind, M_bind. destruct (m w) as [a w'|f]; [|done]. destruct Hm as [HR Hw'].
  exists (λ w, obs w = x'). split; [apply stable_obs|]. split; [done|]. by intros w2 Hw2.
Qed.
End Rely.
