(* ===== verification/ApThreads.v ===== *)
(** * Frames for the AP in pieces (src/ap.c, include/hdlc.h, src/hdlc.c, src/main.c)

    Sending a message to the AP as a resumption: other threads may run before
    each byte that is written to the UART. *)

From S2P Require Import Prelude Config Protocols Hdlc Kernel Messages Interfaces NodeCache State.
From S2P Require Import ApMap Ap Resume.

Section ApLink.
Context `{Config, Crc16, KHeap, KSlab, Sockets, Stack}.

Fixpoint poll_out_from_t (buffer : list Z) (n : nat) (i : Z) : thread fw Z :=
  match n with
  | O => mret i
  | S n => b ← call (array_get buffer i); _ ← call (uart_poll_out b); poll_out_from_t buffer n (i + 1)
  end.

Definition hdlc_send_callback_t (buffer : list Z) (buffer_len : Z) : thread fw Z :=
  poll_out_from_t buffer (Z.to_nat buffer_len) 0.

Definition uart_poll_out_crc_t (byte crc : Z) : thread fw Z :=
  let crc := crc16_ccitt crc [byte] in
  byte ← (if (byte =? HDLC_FRAME) || (byte =? HDLC_ESC)
          then (_ ← hdlc_send_callback_t [HDLC_ESC] 1; mret (Z.lxor byte 0x20))
          else mret byte);
  _ ← hdlc_send_callback_t [byte] 1;
  mret crc.

Fixpoint send_buffer_t (buffer : list Z) (n : nat) (i crc : Z) : thread fw Z :=
  match n with
  | O => mret crc
  | S n =>
      b ← call (array_get buffer i);
      crc ← uart_poll_out_crc_t b crc;
      send_buffer_t buffer n (i + 1) crc
  end.

(** The checksum is a variable of the thread. *)
Definition hdlc_block_send_sync_t (buffer : list Z) (buffer_len address control : Z) : thread fw Z :=
  _ ← hdlc_send_callback_t [HDLC_FRAME] 1;
  crc ← uart_poll_out_crc_t address 0xffff;
  crc ← (if control =? 0
         then (d ← call (getL L_hdlc); uart_poll_out_crc_t (u8 (Z.shiftl (send_seq d) 1)) crc)
         else uart_poll_out_crc_t control crc);
  crc ← send_buffer_t buffer (Z.to_nat buffer_len) 0 crc;
  let crc_calc := Z.lxor crc 0xffff in
  crc ← uart_poll_out_crc_t (u8 crc_calc) crc;
  crc ← uart_poll_out_crc_t (u8 (Z.shiftr crc_calc 8)) crc;
  _ ← hdlc_send_callback_t [HDLC_FRAME] 1;
  mret 0.

(** The buffer is on the thread's stack. *)
Definition gb_message_hdlc_send_t (msg cport : Z) : thread fw Z :=
  let buffer := stack_bytes (Z.to_nat HDLC_MAX_BLOCK_SIZE) in
  buffer ← call (memcpy_at buffer 0 (le_bytes 2 cport) 2);
  m ← call (zoom L_messages (msg_deref msg));
  buffer ← call (memcpy_at buffer 2 (to_wire (header m)) (sizeof gb_operation_msg_hdr));
  buffer ← call (memcpy_at buffer (sizeof gb_operation_msg_hdr + 2) (payload m)
                   (gb_message_payload_len m));
  _ ← hdlc_block_send_sync_t buffer (hdr_size (header m) + 2) ADDRESS_GREYBUS 0x03;
  mret 0.

Definition ap_send_t (msg cport : Z) : thread fw Z :=
  ret ← gb_message_hdlc_send_t msg cport;
  _ ← call (zoom L_messages (gb_message_dealloc msg));
  mret ret.

(** ** Without interruption *)

Lemma run_poll_out_from buffer n i : run (poll_out_from_t buffer n i) ≡ poll_out_from buffer n i.
Proof. revert i. induction n as [|n IH]; intros i; cbn [poll_out_from_t poll_out_from]; solve_run; apply IH. Qed.

Lemma run_send_callback buffer len : run (hdlc_send_callback_t buffer len) ≡ hdlc_send_callback buffer len.
Proof. apply run_poll_out_from. Qed.
#[local] Hint Resolve run_send_callback : run.

Lemma run_poll_out_crc byte crc : run (uart_poll_out_crc_t byte crc) ≡ uart_poll_out_crc hdlc_send_callback byte crc.
Proof. unfold uart_poll_out_crc_t, uart_poll_out_crc. solve_run. Qed.
#[local] Hint Resolve run_poll_out_crc : run.

Lemma run_send_buffer buffer n i crc :
  run (send_buffer_t buffer n i crc) ≡ send_buffer hdlc_send_callback buffer n i crc.
Proof. revert i crc. induction n as [|n IH]; intros i crc; cbn [send_buffer_t send_buffer]; solve_run; apply IH. Qed.
#[local] Hint Resolve run_send_buffer : run.

Lemma run_block_send buffer len address control :
  run (hdlc_block_send_sync_t buffer len address control)
  ≡ hdlc_block_send_sync L_hdlc hdlc_send_callback buffer len address control.
Proof. unfold hdlc_block_send_sync_t, hdlc_block_send_sync. solve_run. Qed.
#[local] Hint Resolve run_block_send : run.

Lemma run_hdlc_send msg cport : run (gb_message_hdlc_send_t msg cport) ≡ gb_message_hdlc_send msg cport.
Proof. unfold gb_message_hdlc_send_t, gb_message_hdlc_send. solve_run. Qed.
#[local] Hint Resolve run_hdlc_send : run.

Lemma run_ap_send msg cport : run (ap_send_t msg cport) ≡ ap_send msg cport.
Proof. unfold ap_send_t, ap_send. solve_run. Qed.
End ApLink.

#[export] Hint Resolve run_ap_send : run.
