(* ===== verification/SvcThreads.v ===== *)
(** * The SVC and the local node in pieces (src/svc.c, src/local_node.c, src/apbridge.c)

    Handling a request and sending one, as resumptions: other threads may run
    between the calls of a handler.  An access to the bridge's table is one
    piece; nodes are those of [NodeThreads].  [cst] is the bridge's
    [connection_send_t]. *)

From S2P Require Import Prelude Config Protocols Kernel Messages Interfaces NodeCache State ApMap.
From S2P Require Import NodeLink Ap LocalNode Routes Svc Resume NodeThreads.

(** ** Connections (src/apbridge.c) *)

Section Connections.
Context `{Config, KHeap, KSlab, Sockets}.

Definition connection_create_t (intf1_id intf1_cport intf2_id intf2_cport : Z) : thread fw Z :=
  match connection_ends intf1_id intf1_cport intf2_id intf2_cport with
  | None => mret (- EINVAL)
  | Some (nid, cport, ap_cport) =>
      intf ← gb_interface_find_by_id_t nid;
      if decide (intf = NullIntf) then mret (- EINVAL)
      else
        ret ← call_create_connection_t intf cport;
        if ret <? 0 then mret ret
        else
          ret ← call (node_ap_add ap_cport cport intf);
          if ret <? 0 then mret ret
          else mret 0
  end.

Definition connection_destroy_t (intf1_id intf1_cport intf2_id intf2_cport : Z) : thread fw Z :=
  match connection_ends intf1_id intf1_cport intf2_id intf2_cport with
  | None => mret (- EINVAL)
  | Some (nid, cport, ap_cport) =>
      intf ← gb_interface_find_by_id_t nid;
      _ ← (if decide (intf = NullIntf) then mret () else call (call_destroy_connection intf cport));
      _ ← call (node_ap_remove ap_cport);
      mret 0
  end.

Lemma run_connection_create i1 c1 i2 c2 : run (connection_create_t i1 c1 i2 c2) ≡ connection_create i1 c1 i2 c2.
Proof. unfold connection_create_t, connection_create. solve_run. Qed.

Lemma run_connection_destroy i1 c1 i2 c2 :
  run (connection_destroy_t i1 c1 i2 c2) ≡ connection_destroy i1 c1 i2 c2.
Proof. unfold connection_destroy_t, connection_destroy. solve_run. Qed.
End Connections.

#[export] Hint Resolve run_connection_create run_connection_destroy : run.

(** ** The local node (src/local_node.c) *)

Section LocalNode.
Context `{KHeap, KSlab, Sockets}.
Variable cst : Z → Z → Z → thread fw Z.

Definition response_helper_t (ctrl : intf_ptr) (msg : Z) (pl : list Z)
    (payload_len status cport_id : Z) : thread fw () :=
  m ← call (zoom L_messages (msg_deref msg));
  resp ← call (zoom L_messages (gb_message_response_alloc pl payload_len (hdr_type (header m))
                            (hdr_operation_id (header m)) status));
  if resp =? NULL then mret ()
  else
    ret ← cst LOCAL_NODE_ID cport_id resp;
    (* ret < 0 is only logged *)
    mret ().

Definition control_protocol_cport_shutdown_handler_t (ctrl : intf_ptr) (msg : Z) : thread fw () :=
  response_helper_t ctrl msg [] 0 0 CONTROL_PROTOCOL_CPORT.

Definition control_protocol_version_handler_t (ctrl : intf_ptr) (msg : Z) : thread fw () :=
  let response := {| cvr_major := 0; cvr_minor := 1 |} in
  response_helper_t ctrl msg (to_wire response) (sizeof gb_control_version_response) 0
    CONTROL_PROTOCOL_CPORT.

Definition control_protocol_get_manifest_size_handler_t (ctrl : intf_ptr) (msg : Z) : thread fw () :=
  let response := {| gms_size := u16 (length manifest) |} in
  response_helper_t ctrl msg (to_wire response) (sizeof gb_control_get_manifest_size_response) 0
    CONTROL_PROTOCOL_CPORT.

Definition control_protocol_get_manifest_handler_t (ctrl : intf_ptr) (msg : Z) : thread fw () :=
  response_helper_t ctrl msg manifest (length manifest) 0 CONTROL_PROTOCOL_CPORT.

Definition control_protocol_empty_handler_t (ctrl : intf_ptr) (msg : Z) : thread fw () :=
  response_helper_t ctrl msg [] 0 0 CONTROL_PROTOCOL_CPORT.

Definition control_protocol_handle_t (ctrl : intf_ptr) (msg : Z) : thread fw () :=
  m ← call (zoom L_messages (msg_deref msg));
  let type := gb_message_type m in
  if type =? GB_REQUEST_TYPE_CPORT_SHUTDOWN then
    control_protocol_cport_shutdown_handler_t ctrl msg
  else if type =? GB_CONTROL_TYPE_VERSION then
    control_protocol_version_handler_t ctrl msg
  else if type =? GB_CONTROL_TYPE_GET_MANIFEST_SIZE then
    control_protocol_get_manifest_size_handler_t ctrl msg
  else if type =? GB_CONTROL_TYPE_GET_MANIFEST then
    control_protocol_get_manifest_handler_t ctrl msg
  else if bool_decide (type ∈ [GB_CONTROL_TYPE_CONNECTED; GB_CONTROL_TYPE_DISCONNECTING;
              GB_CONTROL_TYPE_DISCONNECTED; GB_CONTROL_TYPE_TIMESYNC_ENABLE;
              GB_CONTROL_TYPE_TIMESYNC_DISABLE; GB_CONTROL_TYPE_TIMESYNC_AUTHORITATIVE;
              GB_CONTROL_TYPE_INTF_HIBERNATE_ABORT]) then
    control_protocol_empty_handler_t ctrl msg
  else mret ().

Definition intf_write_t (ctrl : intf_ptr) (msg cport_id : Z) : thread fw Z :=
  m ← call (zoom L_messages (msg_deref msg));
  _ ← (if cport_id =? CONTROL_PROTOCOL_CPORT then control_protocol_handle_t ctrl msg else mret ());
  _ ← call (zoom L_messages (gb_message_dealloc msg));
  mret 0.
End LocalNode.

(** ** The SVC (src/svc.c) *)

Section Svc.
Context `{Config, KHeap, KSlab, Sockets}.
Variable cst : Z → Z → Z → thread fw Z.

(** *** Requests *)

Definition control_send_request_t (pl : list Z) (payload_len request_type : Z) : thread fw Z :=
  msg ← call (zoom L_messages (gb_message_request_alloc pl payload_len request_type false));
  if msg =? NULL then mret (- ENOMEM)
  else
    ret ← cst SVC_INF_ID 0 msg;
    if ret <? 0 then mret ret
    else call (zoom L_messages (msg_operation_id msg)).

Definition svc_send_hello_t : thread fw Z :=
  let req := {| hello_endo_id := ENDO_ID; hello_interface_id := AP_INF_ID |} in
  control_send_request_t (to_wire req) (sizeof gb_svc_hello_request) GB_SVC_TYPE_SVC_HELLO.

Definition svc_send_module_inserted_t (primary_intf_id : Z) : thread fw Z :=
  let req := {| mi_primary_intf_id := primary_intf_id; mi_intf_count := 1; mi_flags := 0 |} in
  control_send_request_t (to_wire req) (sizeof gb_svc_module_inserted_request)
    GB_SVC_TYPE_MODULE_INSERTED.

Definition svc_send_module_removed_t (intf : intf_ptr) : thread fw Z :=
  i ← call (zoom L_interfaces (intf_deref intf));
  let req := {| mr_primary_intf_id := u8 (u16 (id i)) |} in
  ret ← control_send_request_t (to_wire req) (sizeof gb_svc_module_removed_request)
          GB_SVC_TYPE_MODULE_REMOVED;
  if ret <? 0 then mret ret
  else (_ ← node_destroy_interface_t intf; mret ret).

Definition svc_send_version_t : thread fw Z :=
  let req := {| svr_major := GB_SVC_VERSION_MAJOR; svr_minor := GB_SVC_VERSION_MINOR |} in
  control_send_request_t (to_wire req) (sizeof gb_svc_version_request)
    GB_SVC_TYPE_PROTOCOL_VERSION.

(** *** Responses *)

Definition svc_response_helper_t (msg : Z) (pl : list Z) (payload_len status : Z) : thread fw () :=
  m ← call (zoom L_messages (msg_deref msg));
  resp ← call (zoom L_messages (gb_message_response_alloc pl payload_len (hdr_type (header m))
                            (hdr_operation_id (header m)) status));
  if resp =? NULL then mret ()
  else
    ret ← cst SVC_INF_ID 0 resp;
    (* ret < 0 is only logged *)
    mret ().

Definition svc_version_response_handler_t (msg : Z) : thread fw () :=
  m ← call (zoom L_messages (msg_deref msg));
  (* logged: *)
  response ← call (read_struct (payload m) : M fw gb_svc_version_request);
  _ ← svc_send_hello_t;
  mret ().

Definition svc_hello_response_handler_t (msg : Z) : thread fw () := mret ().

Definition svc_empty_request_handler_t (msg : Z) : thread fw () :=
  svc_response_helper_t msg [] 0 GB_SVC_OP_SUCCESS.

Definition svc_pwrm_get_rail_count_handler_t (msg : Z) : thread fw () :=
  let req := {| rail_rail_count := 0 |} in
  svc_response_helper_t msg (to_wire req) (sizeof gb_svc_pwrmon_rail_count_get_response)
    GB_SVC_OP_SUCCESS.

(** [tx_mode] is at offset 2 of the request and [rx_mode] at offset 7. *)
Definition svc_intf_set_pwrm_handler_t (msg : Z) : thread fw () :=
  m ← call (zoom L_messages (msg_deref msg));
  req ← call (read_fields 8 (payload m) : M fw gb_svc_intf_set_pwrm_request);
  let resp := {| pwrm_resp_result_code :=
    if (pwrm_tx_mode req =? GB_SVC_UNIPRO_HIBERNATE_MODE)
       && (pwrm_rx_mode req =? GB_SVC_UNIPRO_HIBERNATE_MODE)
    then GB_SVC_SETPWRM_PWR_OK else GB_SVC_SETPWRM_PWR_LOCAL |} in
  svc_response_helper_t msg (to_wire resp) (sizeof gb_svc_intf_set_pwrm_response)
    GB_SVC_OP_SUCCESS.

Definition svc_intf_vsys_enable_disable_handler_t (msg : Z) : thread fw () :=
  let resp := {| vsys_result_code := GB_SVC_INTF_VSYS_OK |} in
  svc_response_helper_t msg (to_wire resp) (sizeof gb_svc_intf_vsys_response) GB_SVC_OP_SUCCESS.

Definition svc_interface_refclk_enable_disable_handler_t (msg : Z) : thread fw () :=
  let resp := {| refclk_result_code := GB_SVC_INTF_REFCLK_OK |} in
  svc_response_helper_t msg (to_wire resp) (sizeof gb_svc_intf_refclk_response) GB_SVC_OP_SUCCESS.

Definition svc_interface_unipro_enable_disable_handler_t (msg : Z) : thread fw () :=
  let resp := {| unipro_result_code := GB_SVC_INTF_UNIPRO_OK |} in
  svc_response_helper_t msg (to_wire resp) (sizeof gb_svc_intf_unipro_response) GB_SVC_OP_SUCCESS.

Definition svc_interface_activate_handler_t (msg : Z) : thread fw () :=
  let resp := {| act_status := GB_SVC_OP_SUCCESS; act_intf_type := GB_SVC_INTF_TYPE_GREYBUS |} in
  svc_response_helper_t msg (to_wire resp) (sizeof gb_svc_intf_activate_response)
    GB_SVC_OP_SUCCESS.

Definition svc_dme_peer_get_handler_t (msg : Z) : thread fw () :=
  let resp := {| dpg_result_code := 0; dpg_attr_value := 0x0126 |} in
  svc_response_helper_t msg (to_wire resp) (sizeof gb_svc_dme_peer_get_response)
    GB_SVC_OP_SUCCESS.

Definition svc_dme_peer_set_handler_t (msg : Z) : thread fw () :=
  let resp := {| dps_result_code := 0 |} in
  svc_response_helper_t msg (to_wire resp) (sizeof gb_svc_dme_peer_set_response)
    GB_SVC_OP_SUCCESS.

(** The first four fields, six bytes, are read. *)
Definition svc_connection_create_handler_t (msg : Z) : thread fw () :=
  m ← call (zoom L_messages (msg_deref msg));
  req ← call (read_fields 6 (payload m) : M fw gb_svc_conn_create_request);
  if (cc_intf1_id req =? cc_intf2_id req) && (cc_cport1_id req =? cc_cport2_id req) then
    svc_response_helper_t msg [] 0 GB_SVC_OP_UNKNOWN_ERROR
  else
    ret ← connection_create_t (cc_intf1_id req) (cc_cport1_id req) (cc_intf2_id req)
            (cc_cport2_id req);
    if ret <? 0 then svc_response_helper_t msg [] 0 GB_SVC_OP_UNKNOWN_ERROR
    else svc_response_helper_t msg [] 0 GB_SVC_OP_SUCCESS.

Definition svc_connection_destroy_handler_t (msg : Z) : thread fw () :=
  m ← call (zoom L_messages (msg_deref msg));
  req ← call (read_struct (payload m) : M fw gb_svc_conn_destroy_request);
  ret ← connection_destroy_t (cd_intf1_id req) (cd_cport1_id req) (cd_intf2_id req)
          (cd_cport2_id req);
  if ret <? 0 then svc_response_helper_t msg [] 0 GB_SVC_OP_UNKNOWN_ERROR
  else svc_response_helper_t msg [] 0 GB_SVC_OP_SUCCESS.

Definition svc_interface_resume_handler_t (msg : Z) : thread fw () :=
  let resp := {| res_status := GB_SVC_OP_SUCCESS |} in
  svc_response_helper_t msg (to_wire resp) (sizeof gb_svc_intf_resume_response) GB_SVC_OP_SUCCESS.

(** Both only log the result. *)
Definition svc_module_inserted_response_handler_t (msg : Z) : thread fw () :=
  m ← call (zoom L_messages (msg_deref msg));
  if negb (gb_message_is_success m) then mret () else mret ().

Definition svc_module_removed_response_handler_t (msg : Z) : thread fw () :=
  m ← call (zoom L_messages (msg_deref msg));
  if negb (gb_message_is_success m) then mret () else mret ().

(** *** Dispatch *)

Definition gb_handle_msg_t (msg : Z) : thread fw () :=
  m ← call (zoom L_messages (msg_deref msg));
  let type := gb_message_type m in
  if bool_decide (type ∈ [GB_SVC_TYPE_INTF_DEVICE_ID; GB_SVC_TYPE_ROUTE_CREATE;
                          GB_SVC_TYPE_ROUTE_DESTROY; GB_SVC_TYPE_PING]) then
    svc_empty_request_handler_t msg
  else if type =? GB_SVC_TYPE_CONN_CREATE then svc_connection_create_handler_t msg
  else if type =? GB_SVC_TYPE_CONN_DESTROY then svc_connection_destroy_handler_t msg
  else if type =? GB_SVC_TYPE_DME_PEER_GET then svc_dme_peer_get_handler_t msg
  else if type =? GB_SVC_TYPE_DME_PEER_SET then svc_dme_peer_set_handler_t msg
  else if type =? GB_SVC_TYPE_INTF_SET_PWRM then svc_intf_set_pwrm_handler_t msg
  else if type =? GB_SVC_TYPE_PWRMON_RAIL_COUNT_GET then svc_pwrm_get_rail_count_handler_t msg
  else if bool_decide (type ∈ [GB_SVC_TYPE_INTF_VSYS_ENABLE; GB_SVC_TYPE_INTF_VSYS_DISABLE]) then
    svc_intf_vsys_enable_disable_handler_t msg
  else if bool_decide (type ∈ [GB_SVC_TYPE_INTF_REFCLK_ENABLE; GB_SVC_TYPE_INTF_REFCLK_DISABLE])
  then svc_interface_refclk_enable_disable_handler_t msg
  else if bool_decide (type ∈ [GB_SVC_TYPE_INTF_UNIPRO_ENABLE; GB_SVC_TYPE_INTF_UNIPRO_DISABLE])
  then svc_interface_unipro_enable_disable_handler_t msg
  else if type =? GB_SVC_TYPE_INTF_ACTIVATE then svc_interface_activate_handler_t msg
  else if type =? GB_SVC_TYPE_INTF_RESUME then svc_interface_resume_handler_t msg
  else if type =? GB_RESPONSE GB_SVC_TYPE_PROTOCOL_VERSION then svc_version_response_handler_t msg
  else if type =? GB_RESPONSE GB_SVC_TYPE_SVC_HELLO then svc_hello_response_handler_t msg
  else if type =? GB_RESPONSE GB_SVC_TYPE_MODULE_INSERTED then
    svc_module_inserted_response_handler_t msg
  else if type =? GB_RESPONSE GB_SVC_TYPE_MODULE_REMOVED then
    svc_module_removed_response_handler_t msg
  else mret ().

Definition svc_inf_write_t (ctrl : intf_ptr) (msg cport_id : Z) : thread fw Z :=
  if negb (cport_id =? 0) then mret (-1)
  else
    _ ← gb_handle_msg_t msg;
    _ ← call (zoom L_messages (gb_message_dealloc msg));
    mret 0.
End Svc.

(** ** Without interruption *)

Section Undisturbed.
Context `{Config, KHeap, KSlab, Sockets}.
Context (cst : Z → Z → Z → thread fw Z) (cs : Z → Z → Z → M fw Z).
Context (Hcs : ∀ intf_id cport msg, run (cst intf_id cport msg) ≡ cs intf_id cport msg).
Hint Resolve Hcs : run.

Lemma run_local_response ctrl msg pl n status cport :
  run (response_helper_t cst ctrl msg pl n status cport) ≡ response_helper cs ctrl msg pl n status cport.
Proof. unfold response_helper_t, response_helper. solve_run. Qed.
Hint Resolve run_local_response : run.

Lemma run_control_handle ctrl msg : run (control_protocol_handle_t cst ctrl msg) ≡ control_protocol_handle cs ctrl msg.
Proof.
  unfold control_protocol_handle_t, control_protocol_handle,
    control_protocol_cport_shutdown_handler_t, control_protocol_cport_shutdown_handler,
    control_protocol_version_handler_t, control_protocol_version_handler,
    control_protocol_get_manifest_size_handler_t, control_protocol_get_manifest_size_handler,
    control_protocol_get_manifest_handler_t, control_protocol_get_manifest_handler,
    control_protocol_empty_handler_t, control_protocol_empty_handler.
  solve_run.
Qed.
Hint Resolve run_control_handle : run.

Lemma run_intf_write ctrl msg cport : run (intf_write_t cst ctrl msg cport) ≡ intf_write cs ctrl msg cport.
Proof. unfold intf_write_t, intf_write. solve_run. Qed.

Lemma run_send_request pl n type : run (control_send_request_t cst pl n type) ≡ control_send_request cs pl n type.
Proof. unfold control_send_request_t, control_send_request. solve_run. Qed.
Hint Resolve run_send_request : run.

Lemma run_module_inserted nid : run (svc_send_module_inserted_t cst nid) ≡ svc_send_module_inserted cs nid.
Proof. apply run_send_request. Qed.

Lemma run_send_version : run (svc_send_version_t cst) ≡ svc_send_version cs.
Proof. apply run_send_request. Qed.

Lemma run_module_removed intf : run (svc_send_module_removed_t cst intf) ≡ svc_send_module_removed cs intf.
Proof. unfold svc_send_module_removed_t, svc_send_module_removed. solve_run. Qed.

Lemma run_svc_response msg pl n status :
  run (svc_response_helper_t cst msg pl n status) ≡ svc_response_helper cs msg pl n status.
Proof. unfold svc_response_helper_t, svc_response_helper. solve_run. Qed.
Hint Resolve run_svc_response : run.

Lemma run_hello : run (svc_send_hello_t cst) ≡ svc_send_hello cs.
Proof. apply run_send_request. Qed.
Hint Resolve run_hello : run.

Lemma run_handle_msg msg : run (gb_handle_msg_t cst msg) ≡ gb_handle_msg cs msg.
Proof.
  unfold gb_handle_msg_t, gb_handle_msg, svc_version_response_handler_t, svc_version_response_handler,
    svc_hello_response_handler_t, svc_hello_response_handler, svc_empty_request_handler_t,
    svc_empty_request_handler, svc_pwrm_get_rail_count_handler_t, svc_pwrm_get_rail_count_handler,
    svc_intf_set_pwrm_handler_t, svc_intf_set_pwrm_handler, svc_intf_vsys_enable_disable_handler_t,
    svc_intf_vsys_enable_disable_handler, svc_interface_refclk_enable_disable_handler_t,
    svc_interface_refclk_enable_disable_handler, svc_interface_unipro_enable_disable_handler_t,
    svc_interface_unipro_enable_disable_handler, svc_interface_activate_handler_t,
    svc_interface_activate_handler, svc_dme_peer_get_handler_t, svc_dme_peer_get_handler,
    svc_dme_peer_set_handler_t, svc_dme_peer_set_handler, svc_connection_create_handler_t,
    svc_connection_create_handler, svc_connection_destroy_handler_t, svc_connection_destroy_handler,
    svc_interface_resume_handler_t, svc_interface_resume_handler,
    svc_module_inserted_response_handler_t, svc_module_inserted_response_handler,
    svc_module_removed_response_handler_t, svc_module_removed_response_handler.
  solve_run.
Qed.
Hint Resolve run_handle_msg : run.

Lemma run_svc_inf_write ctrl msg cport :
  run (svc_inf_write_t cst ctrl msg cport) ≡ svc_inf_write cs ctrl msg cport.
Proof. unfold svc_inf_write_t, svc_inf_write. solve_run. Qed.
End Undisturbed.
