(* ===== verification/SendThreads.v ===== *)
(** * Routing messages in pieces (src/apbridge.c, src/node.c)

    Routing a message to an interface or the AP and writing it on a node's
    socket, where each send may block, as resumptions.  What another thread
    changes in between is seen at the next call: the route, the interface and
    its control data are read one after the other. *)

From S2P Require Import Prelude Config Protocols Hdlc Kernel Messages Interfaces NodeCache State.
From S2P Require Import ApMap NodeLink Ap LocalNode Routes Svc Quiet NodeTx Bridge Resume ApThreads SvcThreads.

Section Nodes.
Context `{Config, KHeap, KSlab, Sockets}.
Variable cst : Z → Z → Z → thread fw Z.

Definition svc_send_module_removed_by_sock_t (sock : Z) : thread fw () :=
  ret ← call (zoom L_nodes (node_cache_find_by_sock sock));
  if ret <? 0 then mret ()
  else
    it ← call (zoom L_nodes (node_cache_at ret));
    _ ← svc_send_module_removed_t cst (ni_inf it);
    mret ().

(** [write_data]: another thread may run before each piece is taken. *)
Fixpoint write_loop_t (sock : Z) (data : list Z) (len : Z) (fuel : nat) (transmitted : Z)
    : thread fw Z :=
  if transmitted <? len then
    match fuel with
    | O => call (crash Diverge)
    | S fuel =>
        ret ← call (sock_send sock
                      (take (Z.to_nat (len - transmitted)) (drop (Z.to_nat transmitted) data)));
        if ret <? 0 then mret ret
        else write_loop_t sock data len fuel (transmitted + ret)
    end
  else mret transmitted.

Definition write_data_t (sock : Z) (data : list Z) (len : Z) : thread fw Z :=
  if decide (len <= length data) then write_loop_t sock data len (Z.to_nat len) 0
  else call (crash OutOfBounds).

Definition gb_message_send_t (sock msg cport : Z) : thread fw Z :=
  let early_exit ret := (_ ← svc_send_module_removed_by_sock_t sock; mret ret) in
  ret ← write_data_t sock (le_bytes 2 cport) 2;
  if negb (ret =? 2) then early_exit ret
  else
    m ← call (zoom L_messages (msg_deref msg));
    ret ← write_data_t sock (to_wire (header m)) (sizeof gb_operation_msg_hdr);
    if negb (ret =? sizeof gb_operation_msg_hdr) then early_exit ret
    else
      m ← call (zoom L_messages (msg_deref msg));
      ret ← write_data_t sock (payload m) (gb_message_payload_len m);
      if negb (ret =? gb_message_payload_len m) then early_exit ret
      else mret 0.

Definition node_inf_write_t (ctrl : intf_ptr) (msg cport_id : Z) : thread fw Z :=
  i ← call (zoom L_interfaces (intf_deref ctrl));
  sock ← call (ctrl_sock (ctrl_data i));
  ret ← gb_message_send_t sock msg cport_id;
  _ ← (if ret <? 0 then (_ ← svc_send_module_removed_t cst ctrl; mret ())
       else mret ());
  _ ← call (zoom L_messages (gb_message_dealloc msg));
  mret ret.
End Nodes.

Section Routing.
Context `{Config, Crc16, KHeap, KSlab, Sockets, Stack}.

Definition call_write_t (cst : Z → Z → Z → thread fw Z) (intf : intf_ptr) (msg cport : Z) : thread fw Z :=
  i ← call (zoom L_interfaces (intf_deref intf));
  match write i with
  | svc_inf_write_cb => svc_inf_write_t cst intf msg cport
  | local_intf_write_cb => intf_write_t cst intf msg cport
  | node_inf_write_cb => node_inf_write_t cst intf msg cport
  end.

(** [node_ap_map[i]] *)
Definition ap_entry (i : Z) : M fw node_ap_item := map ← getL L_ap_map; array_get map i.

(** The route is read for the interface and again for its cport. *)
Fixpoint connection_send_fuel_t (fuel : nat) (intf_id intf_cport msg : Z) : thread fw Z :=
  match fuel with
  | O => call (crash Diverge)
  | S fuel =>
      if intf_id =? AP_INF_ID then
        intf ← call (it ← ap_entry intf_cport; mret (node_intf it));
        cport ← call (it ← ap_entry intf_cport; mret (node_cport it));
        call_write_t (connection_send_fuel_t fuel) intf msg cport
      else
        ret ← call (node_to_ap_cport intf_id intf_cport);
        if ret <? 0 then mret ret
        else ap_send_t msg (u16 ret)
  end.

Definition connection_send_t : Z → Z → Z → thread fw Z := connection_send_fuel_t 2.

Definition ap_rx_submit_t (msg cport : Z) : thread fw Z := connection_send_t AP_INF_ID cport msg.
End Routing.

#[global] Typeclasses Opaque connection_send_t connection_send_fuel_t.

(** ** Without interruption *)

Section Nodes.
Context `{Config, Crc16, KHeap, KSlab, Sockets, Stack}.
Context (cst : Z → Z → Z → thread fw Z) (cs : Z → Z → Z → M fw Z).
Context (Hcs : ∀ intf_id cport msg, run (cst intf_id cport msg) ≡ cs intf_id cport msg).

Lemma run_removed intf : run (svc_send_module_removed_t cst intf) ≡ svc_send_module_removed cs intf.
Proof. by apply run_module_removed. Qed.
Hint Resolve run_removed : run.

Lemma run_removed_by_sock sock :
  run (svc_send_module_removed_by_sock_t cst sock) ≡ svc_send_module_removed_by_sock cs sock.
Proof. unfold svc_send_module_removed_by_sock_t, svc_send_module_removed_by_sock. solve_run. Qed.
Hint Resolve run_removed_by_sock : run.

Lemma run_write_loop sock data len fuel t : run (write_loop_t sock data len fuel t) ≡ write_loop sock data len fuel t.
Proof.
  revert t. induction fuel as [|fuel IH]; intros t; cbn [write_loop_t write_loop];
    destruct (t <? len); solve_run; apply IH.
Qed.
Hint Resolve run_write_loop : run.

Lemma run_write_data sock data len : run (write_data_t sock data len) ≡ write_data sock data len.
Proof. unfold write_data_t, write_data. solve_run. Qed.
Hint Resolve run_write_data : run.

Lemma run_message_send sock msg cport :
  run (gb_message_send_t cst sock msg cport) ≡ gb_message_send cs sock msg cport.
Proof. unfold gb_message_send_t, gb_message_send. solve_run. Qed.
Hint Resolve run_message_send : run.

Lemma run_node_inf_write ctrl msg cport :
  run (node_inf_write_t cst ctrl msg cport) ≡ node_inf_write cs ctrl msg cport.
Proof. unfold node_inf_write_t, node_inf_write. solve_run. Qed.

Lemma run_call_write intf msg cport : run (call_write_t cst intf msg cport) ≡ call_write cs intf msg cport.
Proof.
  unfold call_write_t, call_write. apply run_then. intros i.
  destruct (write i); [by apply run_svc_inf_write|by apply run_intf_write|apply run_node_inf_write].
Qed.
End Nodes.

Section Undisturbed.
Context `{Config, Crc16, KHeap, KSlab, Sockets, Stack}.

Lemma run_connection_fuel fuel intf_id cport msg :
  run (connection_send_fuel_t fuel intf_id cport msg) ≡ connection_send_fuel fuel intf_id cport msg.
Proof.
  revert intf_id cport msg. induction fuel as [|fuel IH]; intros intf_id cport msg; [apply run_call|].
  cbn [connection_send_fuel_t connection_send_fuel]. destruct (intf_id =? AP_INF_ID); [|solve_run].
  intros s. step_getL L_ap_map.
  assert (Hread : ∀ {A} (f : node_ap_item → A), (it ← ap_entry cport; mret (f it)) s
    = match array_get (fw_ap_map s) cport s with Done it _ => Done (f it) s | Crash e => Crash e end).
  { intros A f. unfold ap_entry. rewrite M_bind_assoc. step_getL L_ap_map. unfold mbind, M_bind.
    pose proof (reads_array_get (fw_ap_map s) cport s) as Hr. unfold wlp in Hr.
    by destruct (array_get _ _ s) as [it s'|]; [destruct Hr as [-> _]|]. }
  pose proof (reads_array_get (fw_ap_map s) cport s) as Hr. unfold wlp in Hr.
  pose proof (Hread _ node_intf) as Hi. pose proof (Hread _ node_cport) as Hc. clear Hread.
  cbn [view L_ap_map]. destruct (array_get (fw_ap_map s) cport s) as [it s'|e] eqn:Ha.
  - destruct Hr as [-> _]. rewrite (run_call_Done _ _ _ _ _ Hi), (run_call_Done _ _ _ _ _ Hc).
    step_with Ha. by apply run_call_write.
  - rewrite (M_bind_Crash _ _ _ _ Ha). by apply run_call_Crash.
Qed.

Lemma run_connection_send intf_id cport msg :
  run (connection_send_t intf_id cport msg) ≡ connection_send intf_id cport msg.
Proof. apply run_connection_fuel. Qed.

Lemma run_bridge_removed intf : run (svc_send_module_removed_t connection_send_t intf) ≡ svc_send_module_removed connection_send intf.
Proof. apply run_module_removed, run_connection_send. Qed.

Lemma run_bridge_removed_sock sock :
  run (svc_send_module_removed_by_sock_t connection_send_t sock) ≡ svc_send_module_removed_by_sock connection_send sock.
Proof. apply run_removed_by_sock, run_connection_send. Qed.

Lemma run_bridge_inserted nid : run (svc_send_module_inserted_t connection_send_t nid) ≡ svc_send_module_inserted connection_send nid.
Proof. apply run_module_inserted, run_connection_send. Qed.

Lemma run_bridge_version : run (svc_send_version_t connection_send_t) ≡ svc_send_version connection_send.
Proof. apply run_send_version, run_connection_send. Qed.
End Undisturbed.

#[export] Hint Resolve run_connection_send run_bridge_removed run_bridge_removed_sock run_bridge_inserted
  run_bridge_version : run.
