(* ===== verification/Threads.v ===== *)
(** * Threads that lose the processor (src/node.c, src/mdns.c, src/tcp_discovery.c)

    The receive thread and the discovery thread block in calls to the kernel,
    and other threads run meanwhile.  Here they are resumptions of [Resume].
    Each definition ends in [_t] and follows the one of the same name line by
    line; run without interruption they agree ([rx_thread_undisturbed],
    [handler_undisturbed]). *)

From S2P Require Import Prelude Config Protocols Hdlc Kernel Mdns Messages Interfaces NodeCache.
From S2P Require Import State ApMap NodeLink Ap LocalNode Routes Svc NodeTx Bridge NodeRx Discovery.
From S2P Require Import Resume NodeThreads ApThreads SvcThreads SendThreads.

(** ** The receive thread (src/node.c) *)

Section RxThread.
Context `{Config, Crc16, KHeap, KSlab, Sockets, Stack}.

(** [read_data]: another thread may run before each piece arrives. *)
Fixpoint read_loop_t (sock : Z) (len : Z) (fuel : nat) (received : Z) (data : list Z)
    : thread fw (Z * list Z) :=
  if received <? len then
    match fuel with
    | O => call (crash Diverge)
    | S fuel =>
        '(ret, more) ← call (sock_recv sock (len - received));
        if ret <=? 0 then mret (ret, data)
        else read_loop_t sock len fuel (received + ret) (data ++ more)
    end
  else mret (received, data).

Definition read_data_t (sock len : Z) : thread fw (Z * list Z) :=
  read_loop_t sock len (Z.to_nat len) 0 [].

Definition gb_message_receive_t (sock : Z) (flag : bool)
    : thread fw (gb_message_in_transport * bool) :=
  let early_exit flag := mret (InTransport 0 NULL, flag) in
  '(ret, cport) ← read_data_t sock 2;
  if negb (ret =? 2) then early_exit (ret =? 0)
  else
    let cport := of_le cport in
    '(ret, hdr) ← read_data_t sock (sizeof gb_operation_msg_hdr);
    if negb (ret =? sizeof gb_operation_msg_hdr) then early_exit (ret =? 0)
    else
      let hdr : gb_operation_msg_hdr := of_wire hdr in
      msg ← call (zoom L_messages (gb_message_alloc (gb_hdr_payload_len hdr) (hdr_type hdr)
                                     (hdr_operation_id hdr) (hdr_result hdr)));
      if msg =? NULL then early_exit flag
      else
        m ← call (zoom L_messages (msg_deref msg));
        '(ret, payload) ← read_data_t sock (gb_message_payload_len m);
        if negb (ret =? gb_message_payload_len m) then
          _ ← call (zoom L_messages (gb_message_dealloc msg));
          early_exit (ret =? 0)
        else
          _ ← call (zoom L_messages (msg_write_payload msg payload ret));
          mret (InTransport cport msg, flag).

(** One socket.  [ret], the index of its node, is a variable of the thread. *)
Definition node_rx_socket_t (flag : bool) (fd revents : Z) : thread fw bool :=
  if has_event revents ZSOCK_POLLNVAL || has_event revents ZSOCK_POLLHUP
     || has_event revents ZSOCK_POLLERR then
    _ ← svc_send_module_removed_by_sock_t connection_send_t fd;
    mret flag
  else if has_event revents ZSOCK_POLLIN then
    ret ← call (zoom L_nodes (node_cache_find_by_sock fd));
    if ret <? 0 then mret flag
    else
      '(msg, flag) ← gb_message_receive_t fd flag;
      if flag : bool then
        it ← call (zoom L_nodes (node_cache_at ret));
        _ ← svc_send_module_removed_t connection_send_t (ni_inf it);
        mret flag
      else if NodeLink.msg msg =? NULL then
        it ← call (zoom L_nodes (node_cache_at ret));
        _ ← svc_send_module_removed_t connection_send_t (ni_inf it);
        mret flag
      else
        it ← call (zoom L_nodes (node_cache_at ret));
        _ ← connection_send_t (ni_id it) (cport_id msg) (NodeLink.msg msg);
        mret flag
  else mret flag.

Fixpoint node_rx_sockets_t (flag : bool) (fds : list (Z * Z)) : thread fw bool :=
  match fds with
  | [] => mret flag
  | (fd, revents) :: fds =>
      flag ← node_rx_socket_t flag fd revents;
      node_rx_sockets_t flag fds
  end.

(** [zsock_poll] returns what holds when the thread runs again. *)
Definition sock_poll (fds : list Z) (timeout : Z) : M fw (Z * list Z) :=
  n ← getL L_net;
  let '(ret, revents, n) := zsock_poll n fds timeout in
  _ ← modL L_net (λ _, n);
  mret (ret, revents).

Definition node_rx_iteration_t (pipe : Z) (flag : bool) : thread fw bool :=
  fds ← call (c ← getL L_nodes; populate_fds (Z.to_nat (node_cache_pos c)) 0);
  '(ret, revents) ← call (sock_poll (pipe :: fds) (-1));
  if ret <? 0 then mret flag
  else
    _ ← (if has_event (default 0 (revents !! 0%nat)) ZSOCK_POLLIN
         then (_ ← call (sock_recv pipe 1); mret ()) else mret ());
    node_rx_sockets_t flag (zip fds (drop 1 revents)).

(** From one sleep or poll to the next. *)
Definition node_rx_thread_t (t : rx_thread) : thread fw rx_thread :=
  match t with
  | RxPolling pipe flag =>
      flag ← node_rx_iteration_t pipe flag;
      mret (RxPolling pipe flag)
  | _ => call (node_rx_thread_step t)
  end.
End RxThread.

(** ** The discovery thread (src/tcp_discovery.c, src/mdns.c) *)

Section DiscoveryThread.
Context `{Config, Crc16, KHeap, KSlab, Sockets, Stack}.

(** [addr_list[total++]] if there is an answer *)
Definition note_answer {S} (found : option (list Z)) (addr_list : list (list Z)) (total : Z)
    : M S (list (list Z) * Z) :=
  match found with
  | Some addr => (addr_list ← array_set addr_list total addr; mret (addr_list, u32 (total + 1)))
  | None => mret (addr_list, total)
  end.

Fixpoint recv_loop_t (fuel : nat) (sock ret total : Z) (addr_list : list (list Z)) (addr_list_len : Z)
    (query : list Z) (query_len : Z) : thread fw (Z * list (list Z)) :=
  if (0 <? ret) && (total <? addr_list_len) then
    match fuel with
    | O => call (crash Diverge)
    | S fuel =>
        found ← call (zoom L_net (mdns_query_recv_internal sock query query_len));
        '(addr_list, total) ← call (note_answer found addr_list total);
        '(ret, _) ← call (sock_poll [sock] 0);
        recv_loop_t fuel sock ret total addr_list addr_list_len query query_len
    end
  else mret (total, addr_list).

Definition mdns_query_recv_t (fuel : nat) (sock : Z) (addr_list : list (list Z)) (addr_list_len : Z)
    (query : list Z) (query_len timeout : Z) : thread fw (Z * list (list Z)) :=
  '(ret, _) ← call (sock_poll [sock] timeout);
  recv_loop_t fuel sock ret 0 addr_list addr_list_len query query_len.

Fixpoint node_filter_t (active_addr : list (list Z)) : thread fw () :=
  match active_addr with
  | [] => mret ()
  | addr :: active_addr =>
      ret ← call (zoom L_nodes (node_cache_find_by_addr addr));
      _ ← (if ret <? 0 then
             inf ← node_create_interface_t addr;
             if decide (inf = NullIntf) then mret ()
             else
               i ← call (zoom L_interfaces (intf_deref inf));
               _ ← svc_send_module_inserted_t connection_send_t (id i);
               mret ()
           else mret ());
      node_filter_t active_addr
  end.

(** A round without mDNS and with it. *)
Definition static_round_t (addr6 : list Z) : thread fw () := node_filter_t [addr6].

(** [tcp_discovery_data.sock] is read for each call that uses it. *)
Definition mdns_round_t (fuel : nat) : thread fw () :=
  sock ← call (getL L_discovery_sock);
  if sock <? 0 then mret ()
  else
    ret ← call (sock ← getL L_discovery_sock; zoom L_net (mdns_query_send sock query (length query)));
    if ret <? 0 then mret ()
    else
      let node_array := replicate (Z.to_nat MAX_GREYBUS_NODES) (stack_bytes 16) in
      sock ← call (getL L_discovery_sock);
      '(ret, node_array) ← mdns_query_recv_t fuel sock node_array MAX_GREYBUS_NODES
                             query (length query) 2000;
      if i32 ret <? 0 then mret () else node_filter_t (take (Z.to_nat ret) node_array).

Definition handler_t (addr6 : list Z) (fuel : nat) : thread fw () :=
  if CONFIG_BEAGLEPLAY_GREYBUS_MDNS_DISCOVERY then mdns_round_t fuel else static_round_t addr6.
End DiscoveryThread.

(** ** Without interruption *)

Section Undisturbed.
Context `{Config, Crc16, KHeap, KSlab, Sockets, Stack}.
Implicit Types s : fw.

Lemma run_read_loop sock len fuel received data :
  run (read_loop_t sock len fuel received data) ≡ read_loop sock len fuel received data.
Proof.
  revert received data. induction fuel as [|fuel IH]; intros received data; cbn [read_loop_t read_loop];
    destruct (received <? len); solve_run; apply IH.
Qed.

Lemma run_read_data sock len : run (read_data_t sock len) ≡ read_data sock len.
Proof. apply run_read_loop. Qed.
Hint Resolve run_read_data : run.

Lemma run_message_receive sock flag : run (gb_message_receive_t sock flag) ≡ gb_message_receive sock flag.
Proof. unfold gb_message_receive_t, gb_message_receive. solve_run. Qed.
Hint Resolve run_message_receive : run.

Lemma run_rx_socket flag fd revents : run (node_rx_socket_t flag fd revents) ≡ node_rx_socket flag fd revents.
Proof. unfold node_rx_socket_t, node_rx_socket. solve_run. Qed.
Hint Resolve run_rx_socket : run.

Lemma run_rx_sockets flag fds : run (node_rx_sockets_t flag fds) ≡ node_rx_sockets flag fds.
Proof.
  revert flag. induction fds as [|[fd revents] fds IH]; intros flag; cbn [node_rx_sockets_t node_rx_sockets];
    solve_run; apply IH.
Qed.
Hint Resolve run_rx_sockets : run.

(** Polling is one call. *)
Lemma run_poll {A} fds timeout (k : Z * list Z → thread fw A) (k' : Z → list Z → M fw A) :
  (∀ ret revents, run (k (ret, revents)) ≡ k' ret revents) →
  run (call (sock_poll fds timeout) ≫= k) ≡
    (n ← getL L_net;
     let '(ret, revents, n) := zsock_poll n fds timeout in
     _ ← modL L_net (λ _, n); k' ret revents).
Proof.
  intros Hk s. rewrite (run_then _ _ (λ r, run (k r)) ltac:(done) s).
  unfold sock_poll, mbind, M_bind, getL, modL, zoom, getS, modS. cbn.
  destruct (zsock_poll (fw_net s) fds timeout) as [[ret revents] n]. apply Hk.
Qed.

Lemma run_rx_iteration pipe flag : run (node_rx_iteration_t pipe flag) ≡ node_rx_iteration pipe flag.
Proof.
  unfold node_rx_iteration_t, node_rx_iteration. rewrite <-M_bind_assoc. apply run_then. intros fds.
  apply (run_poll (pipe :: fds) (-1)). intros ret revents. solve_run.
Qed.
Hint Resolve run_rx_iteration : run.

(** *** Discovery *)

(** A call to the network inside a program of the network. *)
Lemma run_net {A B} (m : M net A) (k : A → thread fw B) (k' : A → M net B) :
  (∀ a, run (k a) ≡ zoom L_net (k' a)) → run (call (zoom L_net m) ≫= k) ≡ zoom L_net (m ≫= k').
Proof. intros Hk s. rewrite (zoom_bind L_net m k' s). by apply run_then. Qed.

Lemma run_net_poll {A} fds timeout (k : Z * list Z → thread fw A) (k' : Z → M net A) :
  (∀ ret revents, run (k (ret, revents)) ≡ zoom L_net (k' ret)) →
  run (call (sock_poll fds timeout) ≫= k) ≡ zoom L_net (
    n ← getS;
    let '(ret, _, n) := zsock_poll n fds timeout in
    _ ← putS n; k' ret).
Proof.
  intros Hk. rewrite (run_poll fds timeout k (λ ret _, zoom L_net (k' ret)) Hk). intros s.
  unfold mbind, M_bind, getL, modL, zoom, getS, modS, putS. cbn.
  destruct (zsock_poll (fw_net s) fds timeout) as [[ret revents] n]. cbn. by destruct (k' ret n).
Qed.

(** A step on a variable of the thread. *)
Lemma run_pure {A B} (m : ∀ S, M S A) (k : A → thread fw B) (k' : A → M net B) :
  (∀ s, m fw s = match m net (fw_net s) with Done a _ => Done a s | Crash f => Crash f end) →
  (∀ s, match m net (fw_net s) with Done _ n => n = fw_net s | Crash _ => True end) →
  (∀ a, run (k a) ≡ zoom L_net (k' a)) → run (call (m fw) ≫= k) ≡ zoom L_net (m net ≫= k').
Proof.
  intros Hm Hn Hk s. rewrite (zoom_bind L_net (m net) k' s), (run_then _ _ _ Hk s). unfold mbind, M_bind, zoom.
  specialize (Hm s). specialize (Hn s). rewrite Hm. cbn [view L_net].
  destruct (m net (fw_net s)) as [a n|f]; [|done]. rewrite Hn. by destruct s.
Qed.

Lemma run_recv_loop fuel sock ret total addr_list len query query_len :
  run (recv_loop_t fuel sock ret total addr_list len query query_len) ≡
  zoom L_net (recv_loop fuel sock ret total addr_list len query query_len).
Proof.
  assert (Hend : ∀ r : Z * list (list Z), mret r ≡@{M fw _} zoom L_net (mret r)) by (intros r s; by destruct s).
  revert ret total addr_list. induction fuel as [|fuel IH]; intros ret total addr_list;
    cbn [recv_loop_t recv_loop]; destruct (_ && _); [apply run_call| |apply run_net; intros found|]; try apply Hend.
  apply (run_pure (λ S, note_answer found addr_list total : M S _)).
  1,2: intros s; destruct found; [|done]; unfold note_answer, mbind, M_bind, array_set;
    destruct (total <? 0); [done|]; by case_decide.
  - intros [addr_list' total']. apply run_net_poll. intros ret' revents. apply IH.
Qed.

Lemma run_query_recv fuel sock addr_list len query query_len timeout :
  run (mdns_query_recv_t fuel sock addr_list len query query_len timeout) ≡
  zoom L_net (mdns_query_recv fuel sock addr_list len query query_len timeout).
Proof. apply run_net_poll. intros ret revents. apply run_recv_loop. Qed.
Hint Resolve run_query_recv : run.

Lemma run_node_filter addrs : run (node_filter_t addrs) ≡ node_filter addrs.
Proof. induction addrs as [|addr addrs IH]; cbn [node_filter_t node_filter]; solve_run. Qed.
Hint Resolve run_node_filter : run.

(** Reading a variable does not change the state. *)
Lemma run_getL {T A} (l : lens fw T) `{!LensLaws l} (k : T → thread fw A) s :
  run (call (getL l) ≫= k) s = run (k (view l s)) s.
Proof. apply run_call_Done. unfold getL, zoom, getS. by rewrite store_view. Qed.

(** The socket is read again in the middle of the round. *)
Lemma run_mdns_round fuel : run (mdns_round_t fuel) ≡ mdns_round fuel.
Proof.
  intros s. unfold mdns_round_t, mdns_round. rewrite (run_getL L_discovery_sock). step_getL L_discovery_sock.
  cbn [view L_discovery_sock]. destruct (tcp_discovery_sock s <? 0); [done|].
  rewrite (run_bind _ _ s). unfold mbind at 1 5, M_bind at 1 3. rewrite (run_call _ s). step_getL L_discovery_sock.
  destruct (zoom L_net _ s) as [ret s1|f] eqn:Hsend; [|done].
  destruct (ret <? 0); [done|]. cbv zeta. rewrite (run_getL L_discovery_sock).
  cbn [view L_discovery_sock]. assert (tcp_discovery_sock s1 = tcp_discovery_sock s) as ->.
  { unfold zoom in Hsend. destruct (mdns_query_send _ _ _ _); by simplify_eq/=. }
  eapply run_part; [apply run_query_recv|]. intros [total addrs]. solve_run.
Qed.

Lemma rx_thread_undisturbed t : run (node_rx_thread_t t) ≡ node_rx_thread_step t.
Proof. destruct t; cbn [node_rx_thread_t]; solve_run. Qed.

Lemma handler_undisturbed addr6 fuel : run (handler_t addr6 fuel) ≡ handler addr6 fuel.
Proof.
  unfold handler_t, handler. destruct CONFIG_BEAGLEPLAY_GREYBUS_MDNS_DISCOVERY; [|apply run_node_filter].
  apply run_mdns_round.
Qed.
End Undisturbed.
