(* ===== verification/Main.v ===== *)
(** * Frames from the AP (src/main.c)

    What the HDLC receiver does with a complete frame: a Greybus message goes
    to the AP bridge, a control command starts or stops the SVC. *)

From S2P Require Import Prelude Config Protocols Hdlc Kernel Messages Interfaces NodeCache State.
From S2P Require Import ApMap NodeLink Ap LocalNode Routes Svc NodeTx Bridge NodeRx Discovery.

Definition CONTROL_SVC_START : Z := 0x01.
Definition CONTROL_SVC_STOP : Z := 0x02.

Section Main.
Context `{Config, Crc16, KHeap, KSlab, Sockets, Stack}.

(** *** Frames *)

(** [buffer] is the memory from the frame on, [buffer_len] the frame's length. *)
Definition hdlc_process_greybus_frame (buffer : list Z) (buffer_len : Z) : M fw Z :=
  let msg_len := u32 (buffer_len - 2) in
  hdr ← (read_struct (drop 2 buffer) : M fw gb_operation_msg_hdr);
  if msg_len <? hdr_size hdr then mret (-1)
  else
    msg ← zoom L_messages (gb_message_alloc (gb_hdr_payload_len hdr) (hdr_type hdr)
                             (hdr_operation_id hdr) (hdr_result hdr));
    if msg =? NULL then mret (-1)
    else
      m ← zoom L_messages (msg_deref msg);
      _ ← zoom L_messages (msg_write_payload msg (drop 10 buffer) (gb_message_payload_len m));
      ret ← ap_rx_submit msg (of_le (take 2 buffer));
      if ret <? 0 then mret ret else mret 0.

Definition control_process_frame (buffer : list Z) (buffer_len : Z) : M fw Z :=
  if negb (buffer_len =? 1) then mret (-1)
  else
    command ← array_get buffer 0;
    if command =? CONTROL_SVC_START then
      _ ← ap_init;
      _ ← svc_init;
      _ ← apbridge_init;
      ret ← connection_create AP_INF_ID 0 SVC_INF_ID 0;
      if ret <? 0 then mret ret
      else
        _ ← svc_send_version connection_send;
        _ ← tcp_discovery_start;
        mret 0
    else if command =? CONTROL_SVC_STOP then
      _ ← tcp_discovery_stop;
      _ ← node_destroy_all;
      _ ← svc_deinit;
      _ ← ap_deinit;
      _ ← apbridge_deinit;
      mret 0
    else mret (-1).

Definition hdlc_process_complete_frame (buffer : list Z) (len address : Z) : M fw Z :=
  if address =? ADDRESS_GREYBUS then hdlc_process_greybus_frame buffer len
  else if address =? ADDRESS_CONTROL then control_process_frame buffer len
  else if address =? ADDRESS_DBG then mret 0
  else mret (-1).

(** The HDLC receiver with the callback that [main] installs. *)
Definition receive_bytes (bs : list Z) : M fw Z :=
  hdlc_process_buffer L_hdlc hdlc_process_complete_frame bs.
End Main.
