(* ===== verification/WorkItem.v ===== *)
(** * The receive work item in pieces (src/main.c)

    The work queue of the HDLC driver hands received bytes to the receiver
    ([HdlcThread]), and this complete frames to the bridge and the SVC; other
    threads run between its calls.  Each definition ends in [_t] and follows the
    one of the same name in [Main]; run without interruption they agree
    ([work_undisturbed]). *)

From S2P Require Import Prelude Config Protocols Hdlc Kernel Messages Interfaces NodeCache State.
From S2P Require Import ApMap NodeLink Ap LocalNode Routes Svc NodeTx Bridge NodeRx Discovery.
From S2P Require Import Resume NodeThreads HdlcThread ApThreads SvcThreads SendThreads Main.

Section WorkItem.
Context `{Config, Crc16, KHeap, KSlab, Sockets, Stack}.

(** ** Frames (src/main.c) *)

Definition hdlc_process_greybus_frame_t (buffer : list Z) (buffer_len : Z) : thread fw Z :=
  let msg_len := u32 (buffer_len - 2) in
  hdr ← call (read_struct (drop 2 buffer) : M fw gb_operation_msg_hdr);
  if msg_len <? hdr_size hdr then mret (-1)
  else
    msg ← call (zoom L_messages (gb_message_alloc (gb_hdr_payload_len hdr) (hdr_type hdr)
                                   (hdr_operation_id hdr) (hdr_result hdr)));
    if msg =? NULL then mret (-1)
    else
      m ← call (zoom L_messages (msg_deref msg));
      _ ← call (zoom L_messages (msg_write_payload msg (drop 10 buffer) (gb_message_payload_len m)));
      ret ← ap_rx_submit_t msg (of_le (take 2 buffer));
      if ret <? 0 then mret ret else mret 0.

Definition control_process_frame_t (buffer : list Z) (buffer_len : Z) : thread fw Z :=
  if negb (buffer_len =? 1) then mret (-1)
  else
    command ← call (array_get buffer 0);
    if command =? CONTROL_SVC_START then
      _ ← call ap_init;
      _ ← call svc_init;
      _ ← call apbridge_init;
      ret ← connection_create_t AP_INF_ID 0 SVC_INF_ID 0;
      if ret <? 0 then mret ret
      else
        _ ← svc_send_version_t connection_send_t;
        _ ← call tcp_discovery_start;
        mret 0
    else if command =? CONTROL_SVC_STOP then
      _ ← call tcp_discovery_stop;
      _ ← node_destroy_all_t;
      _ ← call svc_deinit;
      _ ← call ap_deinit;
      _ ← call apbridge_deinit;
      mret 0
    else mret (-1).

(** The callback that [main] installs. *)
Definition process_complete_frame_t (buffer : list Z) (len address : Z) : thread fw Z :=
  if address =? ADDRESS_GREYBUS then hdlc_process_greybus_frame_t buffer len
  else if address =? ADDRESS_CONTROL then control_process_frame_t buffer len
  else if address =? ADDRESS_DBG then mret 0
  else mret (-1).

(** One claim of the ring buffer, processed by the receiver. *)
Definition receive_bytes_t (bs : list Z) : thread fw Z :=
  hdlc_process_buffer_t L_hdlc process_complete_frame_t bs.

(** ** Without interruption *)

Lemma run_rx_submit msg cport : run (ap_rx_submit_t msg cport) ≡ ap_rx_submit msg cport.
Proof. apply run_connection_send. Qed.
#[local] Hint Resolve run_rx_submit : run.

Lemma run_greybus_frame buffer len : run (hdlc_process_greybus_frame_t buffer len) ≡ hdlc_process_greybus_frame buffer len.
Proof. unfold hdlc_process_greybus_frame_t, hdlc_process_greybus_frame. solve_run. Qed.
#[local] Hint Resolve run_greybus_frame : run.

Lemma run_control_frame buffer len : run (control_process_frame_t buffer len) ≡ control_process_frame buffer len.
Proof. unfold control_process_frame_t, control_process_frame. solve_run. Qed.
#[local] Hint Resolve run_control_frame : run.

Lemma run_process_complete buffer len address :
  run (process_complete_frame_t buffer len address) ≡ Main.hdlc_process_complete_frame buffer len address.
Proof. unfold process_complete_frame_t, Main.hdlc_process_complete_frame. solve_run. Qed.

Lemma work_undisturbed bs : run (receive_bytes_t bs) ≡ receive_bytes bs.
Proof. apply run_process_buffer, run_process_complete. Qed.
End WorkItem.
