(* ===== verification/MainFacts.v ===== *)
(** * From a frame to its effect (src/main.c and everything below it)

    What a Greybus frame from the AP does, end to end: a request to the SVC or
    the local node is answered on the UART, a message for a remote node appears
    on that node's socket. *)

From S2P Require Import Prelude Config Protocols Hdlc Kernel Messages Interfaces NodeCache State.
From S2P Require Import ApMap NodeLink NodeLife Ap LocalNode Routes Svc SvcFacts NodeTx Bridge.
From S2P Require Import NodeRx Discovery Main.

Section Frames.
Context `{Config, !ConfigOk _, Crc16, !Crc16Laws, KHeap, !KHeapLaws, KSlab, !KSlabLaws,
          Sockets, !SocketsLaws, Stack, !StackLaws}.
Implicit Types s : fw.

(** The frame [b] for AP cport [cport], and whatever memory follows it. *)
Definition greybus_frame (cport : Z) (b : gb_message) (rest : list Z) : list Z :=
  message_wire cport b ++ rest.

Lemma message_wire_parts cport b rest :
  sendable b → is_u16 cport →
  of_le (take 2 (message_wire cport b ++ rest)) = cport ∧
  (of_wire (drop 2 (message_wire cport b ++ rest)) : gb_operation_msg_hdr) = header b ∧
  drop 10 (message_wire cport b ++ rest) = payload b ++ rest ∧
  (sizeof gb_operation_msg_hdr <= length (drop 2 (message_wire cport b ++ rest)))%nat.
Proof.
  intros Hb Hc. unfold message_wire.
  assert (Hle : length (le_bytes 2 cport) = 2%nat) by apply length_le_bytes.
  assert (Hw : length (to_wire (header b)) = 8%nat) by (by rewrite length_to_wire).
  rewrite <-!app_assoc. rewrite take_app_le, take_ge by lia.
  rewrite (drop_app_ge _ _ 2), (drop_app_ge _ _ 10) by lia. rewrite Hle. cbn [Nat.sub].
  rewrite drop_0, (drop_app_ge _ _ 8), Hw, Nat.sub_diag, drop_0 by lia.
  split; [|split; [|split; [done|]]].
  - rewrite of_le_le_bytes. by apply Z.mod_small.
  - apply of_wire_to_wire, Hb.
  - rewrite length_app, Hw. change (sizeof gb_operation_msg_hdr) with 8%nat. lia.
Qed.

(** A whole frame is copied into a message and submitted to the bridge. *)
Lemma hdlc_process_greybus_frame_submits cport b rest ns s :
  messages_wf (fw_messages s) → sendable b → is_u16 cport →
  10 + length (payload b) < 2 ^ 16 →
  heap_takes (greybus_messages_heap (fw_messages s)) (8 + length (payload b) :: ns) →
  ∃ p b' m', allocated (fw_messages s) p b' m' ∧ same_message b b' ∧ sendable b' ∧
    heap_takes (greybus_messages_heap m') ns ∧
    hdlc_process_greybus_frame (greybus_frame cport b rest) (10 + length (payload b)) s
    = (ret ← ap_rx_submit p cport; if ret <? 0 then mret ret else mret 0) (store L_messages m' s).
Proof.
  intros Hwf Hb Hc Hl Htakes. pose proof (message_wire_parts cport b rest Hb Hc) as (H1' & H2' & H3' & H4').
  unfold hdlc_process_greybus_frame, greybus_frame.
  step_with (read_struct_ok (A := gb_operation_msg_hdr) _ s H4'). rewrite H1', H2', H3'.
  pose proof (sb_size _ Hb) as Hsize. pose proof (sendable_payload_len b Hb) as Hplen.
  pose proof (sb_range _ Hb) as Hr.
  replace (10 + length (payload b) - 2) with (8 + length (payload b)) by lia.
  rewrite u32_id by (unfold is_u32; lia). rewrite Hsize.
  destruct (Z.ltb_spec (8 + length (payload b)) (8 + length (payload b))); [lia|].
  unfold gb_message_payload_len in Hplen. rewrite Hplen.
  assert (Hrange : is_u8 (hdr_type (header b)) ∧ is_u16 (hdr_operation_id (header b)) ∧
                   is_u8 (hdr_result (header b))).
  { destruct (header b). apply in_range_header in Hr. tauto. }
  destruct Hrange as (Hty & Hid & Hst).
  destruct (gb_message_alloc_takes (fw_messages s) (length (payload b)) _ _ _ ns Hwf ltac:(lia)
    Hty Hid Hst Htakes) as (p & b0 & m1 & Halloc & Ha & Hfresh & Htakes').
  step_zoom L_messages (Halloc : _ (view L_messages s) = _).
  destruct Ha as (heap & Hp & Hnone & Hwf1 & Hm1). destruct (Z.eqb_spec p NULL); [done|].
  set (s1 := store L_messages m1 s).
  assert (Hlook : msg_store m1 !! p = Some b0) by (rewrite Hm1; apply lookup_insert_eq).
  step_read L_messages (msg_deref_ok m1 p b0 Hwf1 Hlook : _ (view L_messages s1) = _).
  rewrite (sized_payload_len b0 _ (fb_size _ _ _ _ _ Hfresh) ltac:(lia) (sendable_size b Hb)).
  pose proof (msg_write_payload_take p (payload b ++ rest) (length (payload b)) (length (payload b)) m1
    ltac:(lia) ltac:(rewrite length_app; lia)) as Hwrite. rewrite take_app_length in Hwrite.
  destruct (msg_write_payload_ok m1 p b0 (payload b) Hwf1 Hlook (sb_bytes _ Hb)) as [Hw Hwf2].
  { pose proof (fb_len _ _ _ _ _ Hfresh). lia. }
  step_zoom L_messages (eq_trans (eq_sym Hwrite) Hw : _ (view L_messages s1) = _).
  pose proof (filled_same b b0 Hb Hfresh) as Hsame.
  eexists p, (GbMessage (header b0) (payload b)), _.
  split; [|split; [|split; [|split]]]; [| | | |done]; [|done| |done].
  - exists heap. split; [done|]. split; [done|]. split; [done|]. rewrite Hm1. unfold set_store. cbn.
    by rewrite insert_insert_eq.
  - apply (same_message_sendable _ p b _ Hwf2); [apply lookup_insert_eq|done|done].
Qed.

(** *** Requests the firmware answers itself *)

(** The frame's effect: one answer frame, and the messages as before. *)
Definition answers_frame cport b rest (j : nat) (rp : list Z) s s' : Prop :=
  hdlc_process_greybus_frame (greybus_frame cport b rest) (10 + length (payload b)) s = Done 0 s' ∧
  ∃ r, message_is rp (Z.lor GB_OP_RESPONSE (hdr_type (header b))) (hdr_operation_id (header b)) 0 r ∧
       answered (ap_frame j r) s s'.

Lemma answered_after_alloc p b' m1 s out s' :
  allocated (fw_messages s) p b' m1 → sent_to_ap p out (store L_messages m1 s) s' →
  answered out s s'.
Proof.
  intros (heap & _ & Hnone & _ & ->) (m' & [Hwf Hst Hc Hsr] & ->). exists m'. split; [done|].
  rewrite Hst, Hc, Hsr. cbn. split; [by rewrite delete_insert_id|]. by split_and!.
Qed.

Lemma svc_frame_answered cport b rest rp nid j s :
  link_wf s → sendable b → 0 <= cport < 2 ^ 16 →
  10 + length (payload b) < 2 ^ 16 → 16 <= HDLC_MAX_BLOCK_SIZE →
  fw_ap_map s !! Z.to_nat cport = Some (NodeApItem SvcIntf 0 nid) →
  ap_cport_of SVC_INF_ID 0 (fw_ap_map s) = Some j →
  svc_reply (hdr_type (header b)) (payload b) = Some rp →
  heap_takes (greybus_messages_heap (fw_messages s)) [8 + length (payload b); 8 + length rp] →
  ∃ s', answers_frame cport b rest j rp s s'.
Proof.
  intros [Hmap Hwf] Hb Hc Hl Hblock Hit Hj Hr Htakes.
  destruct (hdlc_process_greybus_frame_submits cport b rest [8 + length rp] s Hwf Hb Hc Hl Htakes)
    as (p & b' & m1 & Ha & Hsame & Hb' & Htakes' & Hrun).
  pose proof Ha as (heap & Hp & Hnone & Hwf1 & Hm1). set (s1 := store L_messages m1 s) in *.
  assert (Hlook : msg_store m1 !! p = Some b') by (rewrite Hm1; apply lookup_insert_eq).
  destruct Hsame as (_ & Hid & Hty & _ & Hpl).
  destruct (svc_request_answered (connection_send_fuel 1) p b' rp j s1) as (r & s2 & Hsvc & Hmsg & Hsent);
    [by split|exact Hlook|exact Hblock|by rewrite <-Hty, <-Hpl|exact Hj|
     by apply heap_takes_head in Htakes'|].
  exists s2. unfold answers_frame. rewrite Hrun. unfold ap_rx_submit.
  pose proof (connection_send_from_ap cport _ p s1 (proj1 Hc) Hit) as Hsend. cbn [node_intf node_cport] in Hsend.
  unfold call_write in Hsend.
  split; [by step_with (eq_trans Hsend Hsvc)|]. exists r. rewrite Hty, Hid. split; [done|].
  by eapply answered_after_alloc.
Qed.

(** C33: A Greybus frame with a control request for the local node that it implements is
    answered with one frame on the UART: the specified payload, the request's operation id and
    success, on the AP cport connected to the local node, with both messages freed. *)
Theorem local_node_frame_answered cport b rest rp nid j s :
  link_wf s → sendable b → 0 <= cport < 2 ^ 16 →
  10 + length (payload b) < 2 ^ 16 → 10 + length rp <= HDLC_MAX_BLOCK_SIZE →
  fw_ap_map s !! Z.to_nat cport = Some (NodeApItem LocalIntf CONTROL_PROTOCOL_CPORT nid) →
  ap_cport_of LOCAL_NODE_ID CONTROL_PROTOCOL_CPORT (fw_ap_map s) = Some j →
  control_reply (hdr_type (header b)) = Some rp →
  heap_takes (greybus_messages_heap (fw_messages s)) [8 + length (payload b); 8 + length rp] →
  ∃ s', answers_frame cport b rest j rp s s'.
Proof.
  intros [Hmap Hwf] Hb Hc Hl Hblock Hit Hj Hr Htakes.
  destruct (hdlc_process_greybus_frame_submits cport b rest [8 + length rp] s Hwf Hb Hc Hl Htakes)
    as (p & b' & m1 & Ha & Hsame & Hb' & Htakes' & Hrun).
  pose proof Ha as (heap & Hp & Hnone & Hwf1 & Hm1). set (s1 := store L_messages m1 s) in *.
  assert (Hlook : msg_store m1 !! p = Some b') by (rewrite Hm1; apply lookup_insert_eq).
  destruct Hsame as (_ & Hid & Hty & _ & Hpl).
  destruct (local_request_answered (connection_send_fuel 1) LocalIntf p b' rp j s1)
    as (r & s2 & Hlocal & Hmsg & Hsent);
    [by split|exact Hlook|exact Hblock|by rewrite <-Hty|exact Hj|
     by apply heap_takes_head in Htakes'|].
  exists s2. unfold answers_frame. rewrite Hrun. unfold ap_rx_submit.
  pose proof (connection_send_from_ap cport _ p s1 (proj1 Hc) Hit) as Hsend. cbn [node_intf node_cport] in Hsend.
  unfold call_write in Hsend.
  split; [by step_with (eq_trans Hsend Hlocal)|]. exists r. rewrite Hty, Hid. split; [done|].
  by eapply answered_after_alloc.
Qed.

(** *** Messages for remote nodes *)

(** The AP can be told of removals while one more message is allocated, whatever
    the heap has been through. *)
Definition room_beside_message s : Prop :=
  ∀ m q b, messages_wf m → msg_store m = <[q := b]> (msg_store (fw_messages s)) →
    k_heap_alloc (greybus_messages_heap m) 9 ≠ None.

(** A send on the node's socket failed with [ret] in the middle of the message: the
    node has been removed twice. *)
Definition send_failed_twice it ncport (b : gb_message) (j : nat) ret s s' : Prop :=
  ∃ b' bs n', same_message b b' ∧ send_failed (ni_sock it) bs ret (fw_net s) n' ∧
    bs `prefix_of` message_wire ncport b' ∧ removed_twice it j n' s s' ∧
    msg_store (fw_messages s') = msg_store (fw_messages s).

Lemma node_frame_delivered cport b rest it p i ncport j s :
  link_wf s → nodes_wf s → sendable b → 0 <= cport < 2 ^ 16 →
  10 + length (payload b) < 2 ^ 16 → 11 <= HDLC_MAX_BLOCK_SIZE →
  it ∈ entries (fw_nodes s) → entry_ok s it p i →
  (∀ it', it' ∈ entries (fw_nodes s) → ni_sock it' = ni_sock it → it' = it) →
  fw_ap_map s !! Z.to_nat cport = Some (NodeApItem (ni_inf it) ncport (ni_id it)) →
  ap_cport_of SVC_INF_ID 0 (fw_ap_map s) = Some j →
  k_heap_alloc (greybus_messages_heap (fw_messages s)) (8 + length (payload b)) ≠ None →
  room_beside_message s →
  let run := hdlc_process_greybus_frame (greybus_frame cport b rest) (10 + length (payload b)) s in
  (∃ b' n' s', run = Done 0 s' ∧ same_message b b' ∧
     sent_on (ni_sock it) (message_wire ncport b') (fw_net s) n' ∧
     fw_net s' = n' ∧ fw_uart s' = fw_uart s ∧
     msg_store (fw_messages s') = msg_store (fw_messages s)) ∨
  ∃ ret s', run = Done ret s' ∧ send_failed_twice it ncport b j ret s s'.
Proof.
  intros [Hmap Hwf] Hnodes Hb Hc Hl Hblock Hit Hok Huniq Hroute Hj Hroom1 Hroom. cbv zeta.
  destruct (hdlc_process_greybus_frame_submits cport b rest [] s Hwf Hb Hc Hl (heap_takes_one _ _ Hroom1))
    as (q & b' & m1 & Ha & Hsame & Hb' & _ & Hrun).
  pose proof Ha as (heap & Hq & Hnone & Hwf1 & Hm1). set (s1 := store L_messages m1 s) in *.
  assert (Hlook : msg_store m1 !! q = Some b') by (rewrite Hm1; apply lookup_insert_eq).
  assert (Hback : delete q (msg_store m1) = msg_store (fw_messages s)).
  { rewrite Hm1. cbn. by rewrite delete_insert_id. }
  rewrite Hrun. unfold ap_rx_submit.
  pose proof (connection_send_from_ap cport _ q s1 (proj1 Hc) Hroute) as Hsend.
  cbn [node_intf node_cport] in Hsend. pose proof Hok as (Hinf & Hp & Hi & Hctrl).
  assert (Hwrite : connection_send AP_INF_ID cport q s1
    = node_inf_write (connection_send_fuel 1) (ni_inf it) q ncport s1).
  { rewrite Hsend. unfold call_write.
    step_read L_interfaces (entry_deref s1 it p i Hok).
    assert (Hcb : write i = node_inf_write_cb) by (by rewrite Hi). by rewrite Hcb. }
  assert (Hnodes1 : nodes_wf s1) by (by destruct Hnodes).
  assert (Hroom' : room_for_removal s1).
  { intros m Hm Hst. apply (Hroom m q b' Hm). rewrite Hst. exact (f_equal msg_store Hm1). }
  destruct (node_inf_write_outcome (connection_send_fuel 1) it p i q b' ncport j s1)
    as [(m2 & n2 & Hdone & [_ Hst _ _] & Hsent)|(ret & n2 & bs & s2 & Hdone & Hfail & Hpre & Htwice & Hst)];
    [by split|exact Hnodes1|exact Hit|exact Hok|exact Huniq|exact Hlook|exact Hb'|exact Hj|
     exact Hroom'|exact Hblock|left|right].
  - exists b', n2. eexists. split; [by step_with (eq_trans Hwrite Hdone)|].
    split; [done|]. split; [done|]. split; [done|]. split; [done|].
    cbn. rewrite Hst. exact Hback.
  - exists ret, s2. rewrite (M_bind_Done _ _ s1 ret s2 (eq_trans Hwrite Hdone)).
    split; [by destruct (ret <? 0) eqn:Hneg; [|destruct Hfail; lia]|].
    exists b', bs, n2. split; [done|]. split; [done|]. split; [done|]. split; [|by rewrite Hst].
    destruct Htwice as (r1 & r2 & Hm2 & Hrest). exists r1, r2. split; [|exact Hrest].
    change (operation_id_counter (fw_messages s1)) with (operation_id_counter m1) in Hm2.
    by rewrite Hm1 in Hm2.
Qed.

(** *** Messages from remote nodes *)

(** The node [it] is gone, and the AP has been told so. *)
Definition node_removed it (j : nat) s s' : Prop :=
  nodes_wf s' ∧ entries (fw_nodes s) ≡ₚ it :: entries (fw_nodes s') ∧
  ∃ r id, message_is [u8 (u16 (ni_id it))] GB_SVC_TYPE_MODULE_REMOVED id 0 r ∧
    fw_uart s' = fw_uart s ++ ap_frame j r.

(** Removing a node that is there leaves the tables and the messages alone. *)
Lemma removal_outcome it j s :
  link_wf s → nodes_wf s → it ∈ entries (fw_nodes s) →
  ap_cport_of SVC_INF_ID 0 (fw_ap_map s) = Some j → 11 <= HDLC_MAX_BLOCK_SIZE →
  k_heap_alloc (greybus_messages_heap (fw_messages s)) 9 ≠ None →
  ∃ ret s', svc_send_module_removed connection_send (ni_inf it) s = Done ret s' ∧ node_removed it j s s' ∧
    link_wf s' ∧ fw_ap_map s' = fw_ap_map s ∧ msg_store (fw_messages s') = msg_store (fw_messages s).
Proof.
  intros Hlink Hnodes Hit Hj Hblock Hroom. destruct (nw_entries _ Hnodes it Hit) as (p & i & Hok).
  destruct (svc_send_module_removed_spec connection_send it p i j s) as
    (ret & r & s2 & Hrun & _ & [Hmsg Huart _ Hwf2 Hlink2 _ _ Hst _ Hmap _ _] & Hperm); [done..|].
  exists ret, s2. split; [done|]. split; [|done]. split; [done|]. split; [done|]. by eexists r, _.
Qed.

Lemma removal_after_receive it p i j m' n' s :
  link_wf s → nodes_wf s → it ∈ entries (fw_nodes s) → entry_ok s it p i →
  ap_cport_of SVC_INF_ID 0 (fw_ap_map s) = Some j → 11 <= HDLC_MAX_BLOCK_SIZE →
  messages_wf m' → k_heap_alloc (greybus_messages_heap m') 9 ≠ None →
  ∃ ret s', svc_send_module_removed connection_send (ni_inf it)
              (store L_messages m' (store L_net n' s)) = Done ret s' ∧ node_removed it j s s'.
Proof.
  intros [Hmap Hwf] Hnodes Hit Hok Hj Hblock Hwf' Hroom.
  destruct (removal_outcome it j (store L_messages m' (store L_net n' s)))
    as (ret & s2 & Hrun & Hgone & _); [by split|by destruct Hnodes|done..|]. by exists ret, s2.
Qed.

(** Polling found data on the node's socket. *)
Lemma node_rx_socket_pollin flag it k s :
  nodes_wf s → entries (fw_nodes s) !! k = Some it →
  (∀ it', it' ∈ entries (fw_nodes s) → ni_sock it' = ni_sock it → it' = it) →
  ∃ k' : nat, entries (fw_nodes s) !! k' = Some it ∧
    node_cache_find_by_sock (ni_sock it) (fw_nodes s) = Done (k' : Z) (fw_nodes s) ∧
    node_cache_at k' (fw_nodes s) = Done it (fw_nodes s) ∧
    node_rx_socket flag (ni_sock it) ZSOCK_POLLIN s
    = ('(msg, flag) ← gb_message_receive (ni_sock it) flag;
       if flag : bool then
         it ← zoom L_nodes (node_cache_at k');
         _ ← svc_send_module_removed connection_send (ni_inf it);
         mret flag
       else if NodeLink.msg msg =? NULL then
         it ← zoom L_nodes (node_cache_at k');
         _ ← svc_send_module_removed connection_send (ni_inf it);
         mret flag
       else
         it ← zoom L_nodes (node_cache_at k');
         ret ← connection_send (ni_id it) (cport_id msg) (NodeLink.msg msg);
         mret flag) s.
Proof.
  intros Hwf Hk Huniq.
  pose proof (find_loop_spec (λ x, ni_sock x =? ni_sock it) (fw_nodes s) (nw_cache _ Hwf)) as Hfind.
  destruct (find_index_range (λ x, ni_sock x =? ni_sock it) (entries (fw_nodes s)))
    as [Hm|(k' & x & Hf & Hk' & Ht%Z.eqb_eq & _)].
  { apply find_index_none in Hm. rewrite Forall_forall in Hm.
    specialize (Hm it ltac:(by eapply list_elem_of_lookup_2)). cbn in Hm. by rewrite Z.eqb_refl in Hm. }
  assert (x = it) as -> by (apply Huniq; [by eapply list_elem_of_lookup_2|done]).
  rewrite Hf in Hfind. exists k'. split; [done|]. split; [done|]. split.
  { unfold node_cache_at, getS, mbind, M_bind.
    destruct (entries_lookup _ k' it (nw_cache _ Hwf) Hk') as [Hk'' _].
    apply array_get_ok; [lia|by rewrite Nat2Z.id]. }
  unfold node_rx_socket. eval_dispatch.
  step_read L_nodes (Hfind : node_cache_find_by_sock (ni_sock it) (view L_nodes s) = _).
  by destruct (Z.ltb_spec k' 0); [lia|].
Qed.

(** Receiving the message [b] on the socket failed: a receive did, or the heap had
    no block for it. *)
Definition receive_failed (sock : Z) (b : gb_message) s : Prop :=
  (∃ n', recv_failed sock (fw_net s) n') ∨
  k_heap_alloc (greybus_messages_heap (fw_messages s)) (8 + length (payload b)) = None.

(** What one poll of a readable socket with a message does. *)
Lemma node_rx_socket_message it p i k cport b rest j jsvc s :
  link_wf s → nodes_wf s → entries (fw_nodes s) !! k = Some it → entry_ok s it p i →
  (∀ it', it' ∈ entries (fw_nodes s) → ni_sock it' = ni_sock it → it' = it) →
  net_incoming (fw_net s) (ni_sock it) = message_wire cport b ++ rest →
  sendable b → is_u16 cport → 10 + length (payload b) <= HDLC_MAX_BLOCK_SIZE →
  ap_cport_of (ni_id it) cport (fw_ap_map s) = Some j → ni_id it ≠ AP_INF_ID →
  ap_cport_of SVC_INF_ID 0 (fw_ap_map s) = Some jsvc → 11 <= HDLC_MAX_BLOCK_SIZE →
  room_for_removal s →
  ∃ flag' s', node_rx_socket false (ni_sock it) ZSOCK_POLLIN s = Done flag' s' ∧
    (flag' = false ∧ (∃ b', same_message b b' ∧ fw_uart s' = fw_uart s ++ ap_frame j b') ∧
       fw_nodes s' = fw_nodes s ∧ net_incoming (fw_net s') (ni_sock it) = rest ∧
       msg_store (fw_messages s') = msg_store (fw_messages s)
     ∨ receive_failed (ni_sock it) b s ∧ node_removed it jsvc s s').
Proof.
  intros Hlink Hnodes Hk Hok Huniq Hin Hb Hc Hl Hj Hne Hjs Hblock Hroom.
  pose proof Hlink as [Hmap Hwf]. apply list_elem_of_lookup_2 in Hk as Hit.
  destruct (node_rx_socket_pollin false it k s Hnodes Hk Huniq) as (k' & Hk' & Hfind & Hat & ->).
  pose proof (gb_message_receive_spec (ni_sock it) false cport b rest s Hwf Hb Hc Hin) as Hrecv.
  apply wp_Done in Hrecv as ([msg flag] & s1 & Hrun & (n' & m' & -> & Hwf' & Hcase) & Hcport).
  step_with Hrun. cbn [fst snd] in *. set (s1 := store L_messages m' (store L_net n' s)).
  assert (Hat' : node_cache_at k' (view L_nodes s1) = Done it (view L_nodes s1)) by exact Hat.
  destruct Hcase as [(Hnull & _ & Hst & Hfail)|(b' & q & Hq & -> & Hqn & Hfresh & Hst & Hsame & Hrest)].
  - destruct (removal_after_receive it p i jsvc m' n' s Hlink Hnodes Hit Hok Hjs Hblock Hwf'
      (Hroom m' Hwf' Hst)) as (ret & s2 & Hrem & Hgone).
    exists flag, s2. split; [|right; split; [|done]]; cycle 1.
    { destruct Hfail as [Hfail|Hfull]; [left; by exists n'|by right]. }
    rewrite Hnull. destruct flag; [|rewrite Z.eqb_refl]; step_read L_nodes Hat'; by step_with Hrem.
  - rewrite Hq. destruct (Z.eqb_spec q NULL); [done|]. step_read L_nodes Hat'.
    rewrite Hcport by (by rewrite Hq).
    assert (Hlook : msg_store m' !! q = Some b') by (rewrite Hst; apply lookup_insert_eq).
    pose proof (same_message_sendable m' q b b' Hwf' Hlook Hb Hsame) as Hb'.
    destruct (ap_link_send (cs := connection_send) (ni_id it) cport q b' j s1)
      as (s2 & Hsend & m2 & [_ Hst2 _ _] & ->);
      [by split|exact Hne|exact Hlook|exact Hb'| |exact Hj|].
    { destruct Hsame as (_ & _ & _ & _ & <-). exact Hl. }
    eexists false, _. split; [by step_with Hsend|]. left. split; [done|].
    split; [by exists b'|]. split; [done|]. split; [done|].
    cbn. rewrite Hst2. cbn. rewrite Hst. by rewrite delete_insert_id.
Qed.

(** C10: When a node's socket is readable and holds a message that fits a block, for a connected
    cport, one poll of the receive thread with its flag clear either sends the AP one frame with
    that message on the AP cport the node's cport is connected to, leaving the node cache alone
    and freeing the message; the only other outcome is that a receive on the socket failed or
    the heap had no block for the message, and then it removes the node and tells the AP. *)
Theorem node_message_forwarded it p i k cport b rest j jsvc s :
  link_wf s → nodes_wf s → entries (fw_nodes s) !! k = Some it → entry_ok s it p i →
  (∀ it', it' ∈ entries (fw_nodes s) → ni_sock it' = ni_sock it → it' = it) →
  net_incoming (fw_net s) (ni_sock it) = message_wire cport b ++ rest →
  sendable b → is_u16 cport → 10 + length (payload b) <= HDLC_MAX_BLOCK_SIZE →
  ap_cport_of (ni_id it) cport (fw_ap_map s) = Some j → ni_id it ≠ AP_INF_ID →
  ap_cport_of SVC_INF_ID 0 (fw_ap_map s) = Some jsvc → 11 <= HDLC_MAX_BLOCK_SIZE →
  room_for_removal s →
  ∃ flag' s', node_rx_socket false (ni_sock it) ZSOCK_POLLIN s = Done flag' s' ∧
    (flag' = false ∧ (∃ b', same_message b b' ∧ fw_uart s' = fw_uart s ++ ap_frame j b') ∧
       fw_nodes s' = fw_nodes s ∧ net_incoming (fw_net s') (ni_sock it) = rest ∧
       msg_store (fw_messages s') = msg_store (fw_messages s)
     ∨ receive_failed (ni_sock it) b s ∧ node_removed it jsvc s s').
Proof. apply node_rx_socket_message. Qed.

(** The receive thread never clears its flag: once one read has failed, the next node whose
    socket delivers a message is removed although nothing is wrong with it. *)
Theorem stale_flag_removes_node it p i k cport b rest jsvc s :
  link_wf s → nodes_wf s → entries (fw_nodes s) !! k = Some it → entry_ok s it p i →
  (∀ it', it' ∈ entries (fw_nodes s) → ni_sock it' = ni_sock it → it' = it) →
  net_incoming (fw_net s) (ni_sock it) = message_wire cport b ++ rest →
  sendable b → is_u16 cport →
  ap_cport_of SVC_INF_ID 0 (fw_ap_map s) = Some jsvc → 11 <= HDLC_MAX_BLOCK_SIZE →
  (∀ m, messages_wf m → k_heap_alloc (greybus_messages_heap m) 9 ≠ None) →
  ∃ flag' s', node_rx_socket true (ni_sock it) ZSOCK_POLLIN s = Done flag' s' ∧
    node_removed it jsvc s s'.
Proof.
  intros Hlink Hnodes Hk Hok Huniq Hin Hb Hc Hjs Hblock Hroom.
  pose proof Hlink as [Hmap Hwf]. apply list_elem_of_lookup_2 in Hk as Hit.
  destruct (node_rx_socket_pollin true it k s Hnodes Hk Huniq) as (k' & Hk' & Hfind & Hat & ->).
  pose proof (gb_message_receive_spec (ni_sock it) true cport b rest s Hwf Hb Hc Hin) as Hrecv.
  apply wp_Done in Hrecv as ([msg flag] & s1 & Hrun & (n' & m' & -> & Hwf' & Hcase) & Hcport).
  step_with Hrun. cbn [fst snd] in *. set (s1 := store L_messages m' (store L_net n' s)).
  assert (Hat' : node_cache_at k' (view L_nodes s1) = Done it (view L_nodes s1)) by exact Hat.
  destruct (removal_after_receive it p i jsvc m' n' s Hlink Hnodes Hit Hok Hjs Hblock Hwf'
    (Hroom m' Hwf')) as (ret & s2 & Hrem & Hgone).
  exists flag, s2. split; [|done].
  destruct Hcase as [(Hnull & _)|(b' & q & Hq & -> & _)]; cycle 1.
  { step_read L_nodes Hat'. by step_with Hrem. }
  rewrite Hnull. destruct flag; [|rewrite Z.eqb_refl]; step_read L_nodes Hat'; by step_with Hrem.
Qed.
End Frames.
