(* ===== verification/ThreadRace.v ===== *)
(** * An index that is kept too long (src/node.c)

    The receive thread finds the index of a socket's node, receives a message,
    which lets other threads run, and then uses the index.  When the node has
    been removed meanwhile, another one has moved to its place. *)

From S2P Require Import Prelude Config Protocols Hdlc Kernel Messages Interfaces NodeCache State.
From S2P Require Import ApMap NodeLink NodeLife Ap LocalNode Routes Svc NodeTx Bridge NodeRx.
From S2P Require Import Discovery Resume ApThreads SvcThreads SendThreads Threads Main MainFacts.

Section StaleIndex.
Context `{Config, !ConfigOk _, Crc16, !Crc16Laws, KHeap, !KHeapLaws, KSlab, !KSlabLaws,
          Sockets, !SocketsLaws, Stack, !StackLaws}.
Implicit Types s : fw.

(** Two nodes, of which the first is removed. *)
Lemma remaining_node (a b : node_item) l : [a; b] ≡ₚ a :: l → l = [b].
Proof. intros Hp. apply Permutation_cons_inv in Hp. by apply Permutation_singleton_l in Hp. Qed.

(** What the thread does with a received message and index 0. *)
Definition rest_of_socket (r : gb_message_in_transport * bool) : thread fw bool :=
  let '(msg, flag) := r in
  if flag : bool then
    it ← call (zoom L_nodes (node_cache_at 0));
    _ ← svc_send_module_removed_t connection_send_t (ni_inf it);
    mret flag
  else if NodeLink.msg msg =? NULL then
    it ← call (zoom L_nodes (node_cache_at 0));
    _ ← svc_send_module_removed_t connection_send_t (ni_inf it);
    mret flag
  else
    it ← call (zoom L_nodes (node_cache_at 0));
    _ ← connection_send_t (ni_id it) (cport_id msg) (NodeLink.msg msg);
    mret flag.

(** The pieces up to the end of [gb_message_receive]. *)
Lemma received_pieces it l r s s1 :
  nodes_wf s → entries (fw_nodes s) = it :: l →
  gb_message_receive (ni_sock it) false s = Done r s1 →
  rtc piece (node_rx_socket_t false (ni_sock it) ZSOCK_POLLIN, s) (rest_of_socket r, s1).
Proof.
  intros Hwf Hent Hrun. unfold node_rx_socket_t. eval_dispatch.
  pose proof (find_loop_spec (λ x, ni_sock x =? ni_sock it) (fw_nodes s) (nw_cache _ Hwf)) as Hfind.
  assert (Hindex : find_index (λ x, ni_sock x =? ni_sock it) (entries (fw_nodes s)) = 0).
  { rewrite Hent. unfold find_index. cbn [list_find]. case_decide as Hself; [done|].
    by rewrite Z.eqb_refl in Hself. }
  rewrite Hindex in Hfind. eapply rtc_l; [by apply piece_call, (zoom_read L_nodes), Hfind|].
  change (0 <? 0) with false. cbv iota.
  apply (pieces_bind _ (Ret r)). apply run_pieces. by rewrite (run_message_receive _ _ s).
Qed.

Lemma first_entry it l s :
  nodes_wf s → entries (fw_nodes s) = it :: l →
  zoom L_nodes (node_cache_at 0) s = Done it s.
Proof.
  intros Hwf Hent. apply (zoom_read L_nodes). unfold node_cache_at, getS, mbind, M_bind.
  destruct (entries_lookup (fw_nodes s) 0 it (nw_cache _ Hwf)) as [Hk _]; [by rewrite Hent|].
  by apply array_get_ok.
Qed.

(** What follows the second look at the index. *)
Lemma run_first_entry {A} it l (k : node_item → thread fw A) s :
  nodes_wf s → entries (fw_nodes s) = it :: l →
  run (call (zoom L_nodes (node_cache_at 0)) ≫= k) s = run (k it) s.
Proof. intros Hwf Hent. by apply run_call_Done, (first_entry it l). Qed.

(** A failed read removes the node that is now first. *)
Lemma rest_removes it l r j s :
  link_wf s → nodes_wf s → entries (fw_nodes s) = it :: l → msg r.1 = NULL →
  ap_cport_of SVC_INF_ID 0 (fw_ap_map s) = Some j → 11 <= HDLC_MAX_BLOCK_SIZE →
  k_heap_alloc (greybus_messages_heap (fw_messages s)) 9 ≠ None →
  ∃ s', run (rest_of_socket r) s = Done r.2 s' ∧ node_removed it j s s'.
Proof.
  intros Hlink Hwf Hent Hnull Hj Hblock Hroom.
  destruct (removal_outcome it j s) as (ret & s' & Hrem & Hgone & _);
    [done|done|rewrite Hent; apply list_elem_of_here|done..|].
  exists s'. split; [|done]. destruct r as [msg flag]. cbn [fst snd rest_of_socket] in *. rewrite Hnull.
  destruct flag; [|rewrite Z.eqb_refl]; rewrite (run_first_entry it l _ s Hwf Hent),
    (run_part _ _ _ (λ _, mret _) (run_bridge_removed _) (λ _, reflexivity _) s); by step_with Hrem.
Qed.

(** A message is passed on as one of the node that is now first. *)
Lemma rest_forwards it l r q b j s :
  link_wf s → nodes_wf s → entries (fw_nodes s) = it :: l → msg r.1 = q → q ≠ NULL → r.2 = false →
  msg_store (fw_messages s) !! q = Some b → sendable b → 10 + length (payload b) <= HDLC_MAX_BLOCK_SIZE →
  ni_id it ≠ AP_INF_ID → ap_cport_of (ni_id it) (cport_id r.1) (fw_ap_map s) = Some j →
  ∃ s', run (rest_of_socket r) s = Done false s' ∧ fw_uart s' = fw_uart s ++ ap_frame j b.
Proof.
  destruct r as [msg flag]. cbn [fst snd rest_of_socket].
  intros Hlink Hwf Hent Hq Hne -> Hlook Hb Hl Hid Hj.
  destruct (ap_link_send (cs := connection_send) (ni_id it) (cport_id msg) q b j s)
    as (s' & Hsend & m' & _ & ->); [done..|].
  exists (store L_messages m' (store L_uart (fw_uart s ++ ap_frame j b) s)). split; [|done]. rewrite Hq. destruct (Z.eqb_spec q NULL); [done|].
  rewrite (run_first_entry it l _ s Hwf Hent),
    (run_part _ _ _ (λ _, mret _) (run_connection_send _ _ _) (λ _, reflexivity _) s). by step_with Hsend.
Qed.

(** C6: While the receive thread reads a message from the first of two nodes, another thread
    removes that node, which moves the second into its place in the node cache. The receive
    thread, which looked the index up before, then sends the AP the first node's message as one
    of the second node, on the AP cport of the second node's cport; or, when the read failed,
    removes the second node although nothing is wrong with it. *)
Theorem stale_index_hits_other_node a b cport m rest j jsvc s :
  link_wf s → nodes_wf s → entries (fw_nodes s) = [a; b] →
  net_incoming (fw_net s) (ni_sock a) = message_wire cport m ++ rest →
  sendable m → is_u16 cport → 10 + length (payload m) <= HDLC_MAX_BLOCK_SIZE →
  ap_cport_of (ni_id b) cport (fw_ap_map s) = Some j → ni_id b ≠ AP_INF_ID →
  ap_cport_of SVC_INF_ID 0 (fw_ap_map s) = Some jsvc → 11 <= HDLC_MAX_BLOCK_SIZE →
  (∀ m, messages_wf m → k_heap_alloc (greybus_messages_heap m) 9 ≠ None) →
  ∃ t s1, rtc piece (node_rx_socket_t false (ni_sock a) ZSOCK_POLLIN, s) (t, s1) ∧
    fw_nodes s1 = fw_nodes s ∧ fw_uart s1 = fw_uart s ∧
    ∃ ret s2, svc_send_module_removed connection_send (ni_inf a) s1 = Done ret s2 ∧
      node_removed a jsvc s1 s2 ∧
      ∃ flag s3, run t s2 = Done flag s3 ∧
        ((∃ m', same_message m m' ∧ fw_uart s3 = fw_uart s2 ++ ap_frame j m') ∨ node_removed b jsvc s2 s3).
Proof.
  intros Hlink Hnodes Hent Hin Hm Hc Hl Hj Hne Hjs Hblock Hroom. pose proof Hlink as [Hmap Hwf].
  pose proof (gb_message_receive_spec (ni_sock a) false cport m rest s Hwf Hm Hc Hin) as Hrecv.
  apply wp_Done in Hrecv as (r & s1 & Hrun & (n' & m' & Hs1 & Hwf' & Hcase) & Hcport).
  exists (rest_of_socket r), s1. split; [by eapply received_pieces|]. split; [by rewrite Hs1|]. split; [by rewrite Hs1|].
  destruct (removal_outcome a jsvc s1) as (ret & s2 & Hrem & Hgone & Hlink2 & Hmap2 & Hst2);
    [by rewrite Hs1|rewrite Hs1; by destruct Hnodes|rewrite Hs1; cbn; rewrite Hent; apply list_elem_of_here
    |by rewrite Hs1|done|by rewrite Hs1; apply Hroom|].
  exists ret, s2. split; [done|]. split; [done|]. pose proof Hgone as (Hnodes2 & Hperm & _).
  assert (Hent2 : entries (fw_nodes s2) = [b]).
  { apply (remaining_node a). rewrite <-Hperm, Hs1. cbn. by rewrite Hent. }
  assert (Hj2 : ap_cport_of SVC_INF_ID 0 (fw_ap_map s2) = Some jsvc) by (by rewrite Hmap2, Hs1).
  destruct Hcase as [(Hnull & _)|(m2 & q & Hq & Hflag & Hqn & _ & Hst & Hsame & _)].
  - destruct (rest_removes b [] r jsvc s2) as (s3 & Hrest & Hgone2); [done|done|done|done|done|done|apply Hroom, Hlink2|].
    exists r.2, s3. split; [done|by right].
  - assert (Hlook : msg_store (fw_messages s2) !! q = Some m2).
    { rewrite Hst2, Hs1. cbn. rewrite Hst. apply lookup_insert_eq. }
    destruct (rest_forwards b [] r q m2 j s2) as (s3 & Hrest & Huart);
      [done|done|done|done|done|done|done|by eapply same_message_sendable; [apply Hlink2|..]| |done|by rewrite Hcport, Hmap2, Hs1 by (by rewrite Hq)|].
    { destruct Hsame as (_ & _ & _ & _ & <-). exact Hl. }
    exists false, s3. split; [done|]. left. by exists m2.
Qed.
End StaleIndex.
