(* ===== verification/ConnectRace.v ===== *)
(** * A connection that is made while a node disappears (src/node.c)

    [node_intf_create_connection] looks the node's index up, waits for the
    connection, and then writes the socket at that index and into the control
    data.  What it finds there when a node has been removed meanwhile. *)

From S2P Require Import Prelude Config Protocols Hdlc Kernel Messages Interfaces NodeCache State.
From S2P Require Import ApMap NodeLink NodeLife Ap LocalNode Routes Svc NodeTx Bridge NodeRx.
From S2P Require Import Discovery Resume NodeThreads Main MainFacts.

(** ** When a node is removed meanwhile *)

(** An entry behind the last one is written: no node changes. *)
Lemma set_sock_beyond `{Config} c (k : nat) sock :
  cache_wf c → length (entries c) <= k < MAX_GREYBUS_NODES →
  ∃ c', node_cache_set_sock k sock c = Done () c' ∧ entries c' = entries c ∧
    node_cache_pos c' = node_cache_pos c ∧ cache_wf c'.
Proof.
  intros Hwf Hk. pose proof (cwf_array _ Hwf). rewrite length_entries in Hk by done.
  destruct (lookup_lt_is_Some_2 (nc_items c) k) as [x Hx]; [lia|].
  unfold node_cache_set_sock, getS, mbind at 1, M_bind at 1.
  step_with (array_get_ok (nc_items c) k x c ltac:(lia) ltac:(by rewrite Nat2Z.id)).
  fold (with_sock sock x). step_with (array_set_ok (nc_items c) k (with_sock sock x) c ltac:(lia)).
  rewrite Nat2Z.id. set (c' := NodeCache _ _). exists c'. split; [done|].
  assert (Hent : entries c' = entries c).
  { unfold entries, c'. cbn [nc_items node_cache_pos]. rewrite take_insert_ge by lia. done. }
  split_and!; [done..|]. destruct Hwf as [Ha Hp Hids].
  split; [by unfold c'; cbn; rewrite length_insert|done|by rewrite Hent].
Qed.

(** The receive thread polls the sockets in the cache. *)
Lemma populate_fds_spec `{Config, KHeap, KSlab, Sockets} s n (k : nat) :
  cache_wf (fw_nodes s) → (k + n)%nat = length (entries (fw_nodes s)) →
  populate_fds n k s = Done (ni_sock <$> drop k (entries (fw_nodes s))) s.
Proof.
  intros Hwf. pose proof (cwf_pos _ Hwf). pose proof (length_entries _ Hwf).
  revert k. induction n as [|n IH]; intros k Hk; cbn [populate_fds].
  { by rewrite drop_ge by lia. }
  destruct (lookup_lt_is_Some_2 (entries (fw_nodes s)) k) as [it Hit]; [lia|].
  destruct (entries_lookup _ _ _ Hwf Hit) as [Harr Hlt]. rewrite (drop_S _ _ _ Hit).
  assert (Hat : node_cache_at k (view L_nodes s) = Done it (view L_nodes s)).
  { unfold node_cache_at, getS, mbind, M_bind. apply array_get_ok; [lia|by rewrite Nat2Z.id]. }
  step_read L_nodes Hat. unfold AP_MAX_NODES, MAX_GREYBUS_NODES in *.
  destruct (Z.leb_spec CONFIG_BEAGLEPLAY_GREYBUS_MAX_NODES k); [lia|].
  replace (k + 1) with (Z.of_nat (S k)) by lia. by step_with (IH (S k) ltac:(lia)).
Qed.

Section Race.
Context `{Config, !ConfigOk _, Crc16, !Crc16Laws, KHeap, !KHeapLaws, KSlab, !KSlabLaws,
          Sockets, !SocketsLaws, Stack, !StackLaws}.
Implicit Types s : fw.

Definition node_addr (it : node_item) : sockaddr :=
  Sockaddr AF_INET6 (ni_addr it) GB_TRANSPORT_TCPIP_BASE_PORT.

(** From the blocking call on: [k] is the index found before. *)
Definition rest_of_connection (k c sock : Z) (it : node_item) : thread fw Z :=
  sock ← (ret ← call (sock_connect sock (node_addr it));
          if negb (ret =? 0) then (_ ← call (sock_close sock); mret ret)
          else mret sock);
  if sock <? 0 then mret sock
  else
    _ ← call (zoom L_nodes (node_cache_set_sock k sock));
    _ ← call (ctrl_set_sock c sock);
    _ ← call pipe_send;
    mret sock.

(** The pieces up to the call that waits for the connection. *)
Lemma opened_pieces it p i (k : nat) sock n s :
  nodes_wf s → entries (fw_nodes s) !! k = Some it → entry_ok s it p i → ni_sock it < 0 →
  zsock_socket (fw_net s) AF_INET6 SOCK_STREAM IPPROTO_TCP = (sock, n) → 0 <= sock →
  rtc piece (node_intf_create_connection_t (ni_inf it) 0, s)
    (rest_of_connection k (ctrl_data i) sock it, store L_net n s).
Proof.
  intros Hwf Hk Hok Hneg Hopen Hpos. pose proof Hok as (Hinf & Hp & Hi & Hc).
  unfold node_intf_create_connection_t.
  eapply rtc_l; [by apply piece_call, (zoom_read L_interfaces), (entry_deref s it p i)|]. cbn [negb Z.eqb].
  eapply rtc_l; [by apply piece_call, (ctrl_sock_ok s _ (ni_sock it)); [apply Hwf|]|].
  destruct (Z.leb_spec 0 (ni_sock it)); [lia|].
  assert (Hid : id i = ni_id it) by (by rewrite Hi).
  pose proof (find_loop_spec (λ x, ni_id x =? ni_id it) (fw_nodes s) (nw_cache _ Hwf)) as Hfind.
  rewrite (find_by_id_at _ k it (nw_cache _ Hwf) Hk) in Hfind.
  eapply rtc_l; [by apply piece_call, (zoom_read L_nodes); rewrite Hid; apply Hfind|].
  destruct (Z.ltb_spec k 0); [lia|].
  eapply rtc_l; [apply piece_call, (zoom_read L_nodes _ s it)|].
  { unfold node_cache_at, getS, mbind, M_bind. apply array_get_ok; [lia|].
    rewrite Nat2Z.id. by destruct (entries_lookup _ _ _ (nw_cache _ Hwf) Hk). }
  unfold connect_to_node_t, rest_of_connection. apply pieces_bind. eapply rtc_l; [apply piece_call|].
  { unfold sock_open. step_getL L_net. cbn [sa_family Z.eqb Pos.eqb AF_INET6]. rewrite Hopen.
    step_modL L_net. reflexivity. }
  destruct (Z.ltb_spec sock 0); [lia|]. done.
Qed.

Lemma connect_accepted sock addr s :
  (∀ n, (zsock_connect n sock addr).1 = 0) → ∃ n', sock_connect sock addr s = Done 0 (store L_net n' s).
Proof.
  intros Hok. unfold sock_connect. step_getL L_net. specialize (Hok (fw_net s)).
  destruct (zsock_connect (fw_net s) sock addr) as [r n']. cbn in Hok. subst r. exists n'. by step_modL L_net.
Qed.

(** The socket goes to an entry that is not in use. *)
Lemma rest_sets_dead_entry (k : nat) c sock it s :
  cache_wf (fw_nodes s) → length (entries (fw_nodes s)) <= k < MAX_GREYBUS_NODES → 0 <= sock →
  (∀ n, (zsock_connect n sock (node_addr it)).1 = 0) →
  ∃ s1, entries (fw_nodes s1) = entries (fw_nodes s) ∧ cache_wf (fw_nodes s1) ∧
    fw_interfaces s1 = fw_interfaces s ∧ fw_controls s1 = fw_controls s ∧
    run (rest_of_connection k c sock it) s
      = run (_ ← call (ctrl_set_sock c sock); _ ← call pipe_send; mret sock) s1.
Proof.
  intros Hwf Hk Hsock Hok. destruct (connect_accepted sock (node_addr it) s Hok) as [n' Hconn].
  destruct (set_sock_beyond (fw_nodes s) k sock Hwf Hk) as (c' & Hset & Hent & _ & Hcwf).
  exists (store L_nodes c' (store L_net n' s)). split_and!; [done..|].
  unfold rest_of_connection.
  assert (Hfirst : run (ret ← call (sock_connect sock (node_addr it));
    if negb (ret =? 0) then (_ ← call (sock_close sock); mret ret) else mret sock : thread fw Z) s
    = Done sock (store L_net n' s)) by (by rewrite (run_call_Done _ _ _ _ _ Hconn)).
  rewrite (run_bind_Done _ _ _ _ _ Hfirst). destruct (Z.ltb_spec sock 0); [lia|].
  rewrite (run_call_Done _ _ _ () (store L_nodes c' (store L_net n' s))); [done|].
  unfold zoom. cbn [view L_nodes fw_nodes store L_net]. by rewrite Hset.
Qed.

Lemma ctrl_set_sock_ok c old sock s :
  controls_wf (fw_controls s) → ctrl_store (fw_controls s) !! c = Some old →
  ctrl_set_sock c sock s = Done () (store L_controls (Controls _ (node_control_data_slab (fw_controls s))
    (<[c := sock]> (ctrl_store (fw_controls s)))) s).
Proof. intros Hwf Hc. unfold ctrl_set_sock. by step_with (ctrl_sock_ok s c old Hwf Hc). Qed.

Lemma pipe_send_net s : ∃ n', pipe_send s = Done () (store L_net n' s).
Proof.
  unfold pipe_send. step_getL L_pipe. unfold sock_send. rewrite !M_bind_assoc. step_getL L_net.
  destruct (zsock_send _ _ _) as [r n']. rewrite !M_bind_assoc. exists n'. by step_modL L_net.
Qed.

(** What the rest of the connection does to a node that is still there. *)
Lemma rest_connects k c old sock it s :
  cache_wf (fw_nodes s) → controls_wf (fw_controls s) → length (entries (fw_nodes s)) = k → k < MAX_GREYBUS_NODES →
  0 <= sock → (∀ n, (zsock_connect n sock (node_addr it)).1 = 0) → ctrl_store (fw_controls s) !! c = Some old →
  ∃ s', run (rest_of_connection k c sock it) s = Done sock s' ∧ entries (fw_nodes s') = entries (fw_nodes s) ∧
    cache_wf (fw_nodes s') ∧ fw_interfaces s' = fw_interfaces s ∧
    ctrl_store (fw_controls s') = <[c := sock]> (ctrl_store (fw_controls s)).
Proof.
  intros Hwf Hcwf Hk Hmax Hsock Hok Hc.
  destruct (rest_sets_dead_entry k c sock it s) as (s1 & Hent & Hwf1 & Hi1 & Hc1 & ->); [done|lia|done|done|].
  rewrite <-Hc1 in Hcwf, Hc. rewrite (run_call_Done _ _ _ _ _ (ctrl_set_sock_ok c old sock s1 Hcwf Hc)).
  match goal with |- context [run _ ?x] => destruct (pipe_send_net x) as [n' Hpipe] end.
  rewrite (run_call_Done _ _ _ _ _ Hpipe). eexists. split; [done|]. cbn. by rewrite Hc1.
Qed.

(** An entry and control data that differ. *)
Lemma sockets_differ it p i sock s :
  ni_inf it = SlabIntf p → intf_store (fw_interfaces s) !! p = Some i → it ∈ entries (fw_nodes s) →
  ctrl_store (fw_controls s) !! ctrl_data i = Some sock → sock ≠ ni_sock it → ¬ nodes_wf s.
Proof.
  intros Hinf Hp Hit Hc Hne Hwf. destruct (nw_entries _ Hwf it Hit) as (p' & i' & Hinf' & Hp' & _ & Hc').
  rewrite Hinf in Hinf'. injection Hinf' as <-. rewrite Hp in Hp'. injection Hp' as <-. congruence.
Qed.

Lemma removed_member (l l' : list node_item) a b :
  NoDup (ni_id <$> l) → b ∈ l → l ≡ₚ a :: l' → (b ∈ l' ↔ a ≠ b).
Proof.
  intros Hnd%NoDup_fmap_1 Hb Hperm. rewrite Hperm in Hnd, Hb. apply NoDup_cons in Hnd as [Hn _].
  apply elem_of_cons in Hb as [->|Hb]; [naive_solver|]. split; [by intros ? ->|done].
Qed.

Lemma socket_not_polled sock s :
  cache_wf (fw_nodes s) → Forall (λ it, ni_sock it ≠ sock) (entries (fw_nodes s)) →
  ∃ fds, populate_fds (Z.to_nat (node_cache_pos (fw_nodes s))) 0 s = Done fds s ∧ sock ∉ fds.
Proof.
  intros Hwf Hne. exists (ni_sock <$> entries (fw_nodes s)). pose proof (length_entries _ Hwf). split.
  - rewrite (populate_fds_spec s _ 0); [by rewrite drop_0|done|lia].
  - rewrite list_elem_of_fmap. intros (it & -> & Hit). rewrite Forall_forall in Hne. by apply (Hne it).
Qed.

(** C7: While the connection to the last node of the node cache is made, which blocks, another
    thread removes a node. The connection is then reported as made, and the last node's control
    data holds the socket, but no entry of the cache does: the socket was written behind the
    last entry in use, so the receive thread never polls it. If the node removed is another one,
    the last node is still in the cache and the tables are no longer in step; if it is the node
    itself, a connection to a removed node stays open. *)
Theorem connect_stale_index a b p i sock n1 j s :
  link_wf s → nodes_wf s → a ∈ entries (fw_nodes s) → last (entries (fw_nodes s)) = Some b →
  entry_ok s b p i → ni_sock b < 0 → Forall (λ it, ni_sock it ≠ sock) (entries (fw_nodes s)) →
  zsock_socket (fw_net s) AF_INET6 SOCK_STREAM IPPROTO_TCP = (sock, n1) → 0 <= sock →
  (∀ n, (zsock_connect n sock (node_addr b)).1 = 0) →
  ap_cport_of SVC_INF_ID 0 (fw_ap_map s) = Some j → 11 <= HDLC_MAX_BLOCK_SIZE →
  k_heap_alloc (greybus_messages_heap (fw_messages s)) 9 ≠ None →
  ∃ t s1, rtc piece (node_intf_create_connection_t (ni_inf b) 0, s) (t, s1) ∧
    fw_nodes s1 = fw_nodes s ∧ fw_uart s1 = fw_uart s ∧
    ∃ ret s2 s3 fds, svc_send_module_removed connection_send (ni_inf a) s1 = Done ret s2 ∧
      node_removed a j s1 s2 ∧ run t s2 = Done sock s3 ∧
      entries (fw_nodes s3) = entries (fw_nodes s2) ∧ (b ∈ entries (fw_nodes s3) ↔ a ≠ b) ∧
      ctrl_store (fw_controls s3) !! ctrl_data i = Some sock ∧ (a ≠ b → ¬ nodes_wf s3) ∧
      populate_fds (Z.to_nat (node_cache_pos (fw_nodes s3))) 0 s3 = Done fds s3 ∧ sock ∉ fds.
Proof.
  intros Hlink Hwf Ha Hlast Hb Hneg Hfresh Hopen Hpos Hacc Hj Hblock Hroom.
  pose proof Hb as (Hinf & Hp & Hi & Hc).
  set (l := entries (fw_nodes s)) in *. assert (Hk : l !! (length l - 1)%nat = Some b).
  { rewrite last_lookup in Hlast. by replace (length l - 1)%nat with (pred (length l)) by lia. }
  pose proof (lookup_lt_Some _ _ _ Hk) as Hlt. pose proof (length_entries _ (nw_cache _ Hwf)) as Hlen.
  pose proof (cwf_pos _ (nw_cache _ Hwf)) as Hposc. fold l in Hlen.
  assert (Hbl : b ∈ l) by (by eapply list_elem_of_lookup_2).
  eexists _, (store L_net n1 s). split; [by eapply opened_pieces|]. split; [done|]. split; [done|].
  assert (Hwf1 : nodes_wf (store L_net n1 s)) by (by destruct Hwf).
  destruct (nw_entries _ Hwf a Ha) as (pa & ia & Hoka).
  destruct (svc_send_module_removed_spec connection_send a pa ia j (store L_net n1 s)) as
    (ret & r & s2 & Hrun & _ & [Hmsg Huart _ Hwf2 _ Hintf Hctrl _ _ _ _ _] & Hperm); [by destruct Hlink|done..|].
  cbn [fw_nodes fw_interfaces fw_controls store L_net] in Hperm, Hintf, Hctrl. fold l in Hperm.
  assert (Hl2 : length l = S (length (entries (fw_nodes s2)))) by (by rewrite Hperm).
  destruct (rest_connects (length l - 1)%nat (ctrl_data i) (ni_sock b) sock b s2) as
    (s3 & Hrest & Hent3 & Hcwf3 & Hi3 & Hct3);
    [apply Hwf2|apply Hwf2|lia|lia|done|done|by rewrite Hctrl|].
  assert (Hsock3 : ctrl_store (fw_controls s3) !! ctrl_data i = Some sock)
    by (rewrite Hct3; apply lookup_insert_eq).
  destruct (socket_not_polled sock s3) as (fds & Hfds & Hnot); [done| |].
  { rewrite Hent3. fold l in Hfresh. rewrite Hperm in Hfresh. by apply Forall_cons in Hfresh as []. }
  assert (Hmem : b ∈ entries (fw_nodes s3) ↔ a ≠ b).
  { rewrite Hent3. apply (removed_member l _ a b); [apply Hwf|done|done]. }
  exists ret, s2, s3, fds. split; [done|]. split; [split_and!; [done..|by eexists _, _]|].
  split_and!; [done..| |done|done].
  intros Hab%Hmem. apply (sockets_differ b p i sock); [done| |done|done|lia].
  by rewrite Hi3, Hintf.
Qed.
End Race.
