(* ===== verification/RemoveRace.v ===== *)
(** * A node that is removed by two threads (src/node.c)

    The receive thread, the work item that writes to a node's socket and the one
    that stops the SVC all destroy nodes.  [node_cache_remove_by_id] looks the
    node's index up and then removes whatever is at that index. *)

From S2P Require Import Prelude Config Protocols Hdlc Kernel Messages Interfaces NodeCache State.
From S2P Require Import ApMap NodeLink NodeLife Ap LocalNode Routes Svc NodeTx Bridge NodeRx.
From S2P Require Import Discovery Resume NodeThreads Main MainFacts ConnectRace.

Section Race.
Context `{Config, !ConfigOk _, Crc16, !Crc16Laws, KHeap, !KHeapLaws, KSlab, !KSlabLaws,
          Sockets, !SocketsLaws, Stack, !StackLaws}.
Implicit Types s : fw.

(** What is left of a destruction once the index has been found. *)
Definition rest_of_removal (k : Z) (inf : intf_ptr) : thread fw () :=
  _ ← (_ ← (if 0 <=? k then node_cache_remove_at_t k else mret ()); mret k);
  _ ← call ctrl_free;
  call (zoom L_interfaces (gb_interface_dealloc inf)).

(** The socket of the node is closed by now. *)
Definition closed_sock (sock : Z) s : fw :=
  store L_net (if 0 <=? sock then zsock_close (fw_net s) sock else fw_net s) s.

(** The pieces up to the search. *)
Lemma found_pieces it p i (k : nat) s :
  nodes_wf s → entries (fw_nodes s) !! k = Some it → entry_ok s it p i →
  rtc piece (node_destroy_interface_t (ni_inf it), s)
    (rest_of_removal k (ni_inf it), closed_sock (ni_sock it) s).
Proof.
  intros Hwf Hk Hok. pose proof Hok as (Hinf & Hp & Hi & Hc). pose proof (nw_controls _ Hwf) as Hcw.
  unfold node_destroy_interface_t. rewrite decide_False by (by rewrite Hinf).
  eapply rtc_l; [by apply piece_call, (zoom_read L_interfaces), (entry_deref s it p i)|].
  eapply rtc_l; [by apply piece_call, (ctrl_sock_ok s (ctrl_data i) (ni_sock it))|].
  etransitivity.
  { apply pieces_bind. unfold closed_sock. instantiate (1 := (closed_sock (ni_sock it) s)).
    instantiate (1 := mret ()). unfold closed_sock. destruct (0 <=? ni_sock it); [|by destruct s].
    eapply rtc_l; [by apply piece_call, (ctrl_sock_ok s (ctrl_data i) (ni_sock it))|].
    apply (run_pieces (call (sock_close (ni_sock it)))). by rewrite (run_call _ _). }
  assert (Hid : id i = ni_id it) by (by rewrite Hi).
  pose proof (find_loop_spec (λ x, ni_id x =? ni_id it) (fw_nodes s) (nw_cache _ Hwf)) as Hfind.
  rewrite (find_by_id_at _ k it (nw_cache _ Hwf) Hk) in Hfind.
  change (rtc piece (_ ← node_cache_remove_by_id_t (id i); _ ← call ctrl_free;
      call (zoom L_interfaces (gb_interface_dealloc (ni_inf it))), closed_sock (ni_sock it) s)
    (rest_of_removal k (ni_inf it), closed_sock (ni_sock it) s)).
  unfold rest_of_removal, node_cache_remove_by_id_t. apply pieces_bind.
  apply rtc_once, (piece_call _ (λ ret, _ ← (if 0 <=? ret then node_cache_remove_at_t ret else mret ()); mret ret)).
  apply (zoom_read L_nodes). rewrite Hid. exact Hfind.
Qed.

(** Removing at an index that has become another node's. *)
Lemma rest_of_removal_removes (k : nat) inf b s :
  nodes_wf s → entries (fw_nodes s) !! k = Some b →
  ∃ s', run (rest_of_removal k inf) s = Done () s' ∧ nodes_wf s' ∧
    entries (fw_nodes s') = swap_remove k (entries (fw_nodes s)) ∧
    fw_net s' = fw_net s ∧ fw_uart s' = fw_uart s ∧
    intf_store (fw_interfaces s') = intf_store (fw_interfaces s) ∧
    ctrl_store (fw_controls s') = ctrl_store (fw_controls s).
Proof.
  intros Hwf Hk. destruct (node_cache_remove_at_spec (fw_nodes s) k b (nw_cache _ Hwf) Hk) as (c' & Hrem & Hcwf & Hent).
  unfold rest_of_removal. destruct (Z.leb_spec 0 k); [|lia].
  assert (Hat : run (_ ← node_cache_remove_at_t k; mret (k : Z) : thread fw Z) s = Done (k : Z) (store L_nodes c' s)).
  { assert (Hr : run (node_cache_remove_at_t k) s = Done () (store L_nodes c' s)).
    { rewrite (run_node_cache_remove_at k s). by apply zoom_Done. }
    by rewrite (run_bind_Done _ _ _ _ _ Hr). }
  rewrite (run_bind_Done _ _ _ _ _ Hat). set (s1 := store L_nodes c' s).
  destruct (ctrl_free_spec s1 (nw_controls _ Hwf)) as (ct & Hfree & Hctwf & Hcts & _).
  rewrite (run_call_Done _ _ _ _ _ Hfree), (run_call _ _).
  destruct (gb_interface_dealloc_spec (fw_interfaces s) inf (nw_interfaces _ Hwf)) as (slab & Hdealloc & Hiwf & _).
  rewrite (zoom_Done L_interfaces _ (store L_controls ct s1) _ _ Hdealloc).
  assert (Hperm : entries (fw_nodes s) ≡ₚ b :: entries c') by (rewrite Hent; symmetry; by apply swap_remove_perm).
  eexists. split; [done|]. split; [|by split_and!].
  apply (nodes_wf_shrink s); try done; cbn; rewrite ?Hperm; [|cbn; lia].
  intros it Hit. rewrite Hperm. by apply list_elem_of_further.
Qed.

(** The last entry has moved to the index. *)
Lemma swap_remove_moves (k : nat) l (a b : node_item) :
  l !! k = Some a → last l = Some b → a ≠ b → swap_remove k l !! k = Some b.
Proof.
  intros Hk Hlast Hne. unfold swap_remove. rewrite Hlast. apply lookup_lt_Some in Hk as Hlt.
  rewrite last_lookup in Hlast. assert (k ≠ pred (length l)) by (intros ->; congruence).
  rewrite lookup_take_lt by lia. by apply list_lookup_insert_eq.
Qed.

(** C15: Two threads remove the same node, the first preempted between its search of the node
    cache and the change of the array, the second without interruption. When the first goes on,
    another node is at the index it found: the last node of the cache, with which nothing was
    wrong, is removed too. Its control data keeps its socket, which is not closed but no longer
    polled, and nothing is sent to the AP. *)
Theorem node_removal_race a b p i pb ib (k : nat) s :
  nodes_wf s → entries (fw_nodes s) !! k = Some a → last (entries (fw_nodes s)) = Some b → a ≠ b →
  entry_ok s a p i → entry_ok s b pb ib → 
  (∀ it', it' ∈ entries (fw_nodes s) → ni_sock it' = ni_sock b → it' = b) →
  ∃ t s1, rtc piece (node_destroy_interface_t (ni_inf a), s) (t, s1) ∧ fw_nodes s1 = fw_nodes s ∧
    ∃ s2 s3 fds, node_destroy_interface (ni_inf a) s1 = Done () s2 ∧ nodes_wf s2 ∧
      entries (fw_nodes s) ≡ₚ a :: entries (fw_nodes s2) ∧ b ∈ entries (fw_nodes s2) ∧
      run t s2 = Done () s3 ∧ entries (fw_nodes s) ≡ₚ a :: b :: entries (fw_nodes s3) ∧
      fw_uart s3 = fw_uart s ∧ fw_net s3 = fw_net s2 ∧
      ctrl_store (fw_controls s3) !! ctrl_data ib = Some (ni_sock b) ∧
      populate_fds (Z.to_nat (node_cache_pos (fw_nodes s3))) 0 s3 = Done fds s3 ∧ ni_sock b ∉ fds.
Proof.
  intros Hwf Hk Hlast Hne Hoka Hokb Huniq. set (l := entries (fw_nodes s)) in *.
  assert (Hclosed : ∀ n, nodes_wf (store L_net n s)) by (intros n; by destruct Hwf).
  eexists _, (closed_sock (ni_sock a) s). split; [by eapply found_pieces|]. split; [done|].
  set (s1 := closed_sock (ni_sock a) s).
  assert (Hpieces : rtc piece (node_destroy_interface_t (ni_inf a), s1)
    (rest_of_removal k (ni_inf a), closed_sock (ni_sock a) s1)) by (by eapply found_pieces; [apply Hclosed|..]).
  destruct (rest_of_removal_removes k (ni_inf a) a (closed_sock (ni_sock a) s1)) as
    (s2 & Hrun2 & Hwf2 & Hent2 & Hnet2 & Huart2 & Hi2 & Hc2); [by destruct Hwf|done|].
  rewrite <-(pieces_run _ _ _ _ Hpieces), (run_node_destroy_interface (ni_inf a) s1) in Hrun2.
  change (entries (fw_nodes (closed_sock (ni_sock a) s1))) with l in Hent2.
  pose proof (swap_remove_moves k l a b Hk Hlast Hne) as Hmoved. rewrite <-Hent2 in Hmoved.
  destruct (rest_of_removal_removes k (ni_inf a) b s2 Hwf2 Hmoved) as
    (s3 & Hrun3 & Hwf3 & Hent3 & Hnet3 & Huart3 & Hi3 & Hc3).
  pose proof (swap_remove_perm k l a Hk) as Hp2. pose proof (swap_remove_perm k _ b Hmoved) as Hp3.
  rewrite <-Hent2 in Hp2. rewrite <-Hent3 in Hp3. rewrite <-Hp3 in Hp2.
  destruct (socket_not_polled (ni_sock b) s3) as (fds & Hfds & Hnot); [apply Hwf3| |].
  { apply Forall_forall. intros it Hit Hsock.
    assert (it = b) as ->.
    { apply Huniq; [|done]. rewrite <-Hp2. by do 2 apply list_elem_of_further. }
    pose proof (cwf_ids _ (nw_cache _ Hwf2)) as Hnd. rewrite <-Hp3 in Hnd.
    apply NoDup_cons in Hnd as [Hnot _]. apply Hnot. by apply list_elem_of_fmap_2. }
  exists s2, s3, fds. split_and!; try done.
  - by rewrite Hp3 in Hp2.
  - by eapply list_elem_of_lookup_2.
  - by rewrite Huart3, Huart2.
  - rewrite Hc3, Hc2. by destruct Hokb as (_ & _ & _ & Hc).
Qed.
End Race.
