(* ===== verification/NodeSet.v ===== *)
(** * The set of nodes over time (src/node.c, src/main.c)

    Discovery adds nodes, stopping the SVC destroys them, and starting it
    connects the SVC and announces its version. *)

From S2P Require Import Prelude Config Protocols Hdlc Kernel Messages Interfaces NodeCache State.
From S2P Require Import ApMap NodeLink NodeLife Ap LocalNode Routes Svc SvcFacts NodeTx Bridge.
From S2P Require Import NodeRx Discovery Main.

Section NodeSet.
Context `{Config, !ConfigOk _, Crc16, !Crc16Laws, KHeap, !KHeapLaws, KSlab, !KSlabLaws,
          Sockets, !SocketsLaws, Stack, !StackLaws}.
Implicit Types s : fw.

(** *** Discovery *)

Definition known s (addr : list Z) : Prop :=
  ∃ it, it ∈ entries (fw_nodes s) ∧ ni_addr it = addr.

Lemma find_by_addr_spec addr s :
  nodes_wf s →
  ∃ ret, node_cache_find_by_addr addr (fw_nodes s) = Done ret (fw_nodes s) ∧ (ret < 0 ↔ ¬ known s addr).
Proof.
  intros Hwf. unfold node_cache_find_by_addr. rewrite find_loop_spec by apply Hwf.
  eexists. split; [done|].
  destruct (find_index_range (λ it, net_ipv6_addr_cmp (ni_addr it) addr) (entries (fw_nodes s)))
    as [Hm|(k & it & Hf & Hk & Ht & _)].
  - rewrite Hm. split; [|lia]. intros _ (it & Hit & Ha).
    apply find_index_none in Hm. rewrite Forall_forall in Hm. specialize (Hm it Hit).
    by apply bool_decide_eq_false in Hm.
  - rewrite Hf. split; [lia|]. intros Hn. exfalso. apply Hn. exists it.
    apply bool_decide_eq_true in Ht. split; [by eapply list_elem_of_lookup_2|done].
Qed.

(** Reporting only known addresses changes nothing, however often they are repeated. *)
Theorem node_filter_known addrs s :
  nodes_wf s → (∀ addr, addr ∈ addrs → known s addr) → node_filter addrs s = Done () s.
Proof.
  intros Hwf. induction addrs as [|addr addrs IH]; intros Hall; cbn [node_filter]; [done|].
  destruct (find_by_addr_spec addr s Hwf) as (ret & Hfind & Hneg).
  step_read L_nodes (Hfind : _ (view L_nodes s) = _).
  destruct (Z.ltb_spec ret 0) as [Hlt|_].
  { exfalso. apply Hneg in Hlt. apply Hlt, Hall, elem_of_cons. by left. }
  rewrite M_bind_mret. apply IH. intros a Ha. apply Hall, elem_of_cons. by right.
Qed.

Lemma node_filter_unknown addr j s :
  link_wf s → nodes_wf s → slabs_clean s → ¬ known s addr →
  cache_map (fw_nodes s) !! interface_id_counter (fw_interfaces s) = None →
  ap_cport_of SVC_INF_ID 0 (fw_ap_map s) = Some j →
  k_heap_alloc (greybus_messages_heap (fw_messages s)) 12 ≠ None → 14 <= HDLC_MAX_BLOCK_SIZE →
  ∃ inf s', node_filter [addr] s = Done () s' ∧ nodes_wf s' ∧
    (inf = NullIntf ∧ create_outcome s addr inf s' ∧ fw_uart s' = fw_uart s ∨
     ∃ p r, inf = SlabIntf p ∧ entries (fw_nodes s') = entries (fw_nodes s) ++ [new_entry s addr p] ∧
       message_is [u8 (interface_id_counter (fw_interfaces s)); 1; 0; 0]
         GB_SVC_TYPE_MODULE_INSERTED (operation_id_counter (fw_messages s)) 0 r ∧
       fw_uart s' = fw_uart s ++ ap_frame j r).
Proof.
  intros Hlink Hwf Hclean Hnew Hid Hj Hroom Hblock. cbn [node_filter].
  destruct (find_by_addr_spec addr s Hwf) as (ret & Hfind & Hneg).
  step_read L_nodes (Hfind : _ (view L_nodes s) = _).
  destruct (Z.ltb_spec ret 0) as [_|Hge]; [|exfalso; apply Hneg in Hnew; lia].
  destruct (node_create_interface_spec s addr Hwf Hclean Hid)
    as (inf & s1 & Hrun & Hwf1 & [He1 He2 He3 He4 He5 He6] & Hnet & Hout).
  rewrite !M_bind_assoc. step_with Hrun. exists inf.
  inversion Hout as [Hfull|? c Hfull Hn Hi Hcf Hcs Hst|? p c Hent Hp _ _ _ _ _ _]; subst.
  { rewrite decide_True by done. exists s1. split; [done|]. split; [done|by left]. }
  { rewrite decide_True by done. exists s1. split; [done|]. split; [done|by left]. }
  rewrite decide_False by done.
  destruct (nw_entries _ Hwf1 (new_entry s addr p)) as (p' & i & Hok).
  { rewrite Hent, elem_of_app, list_elem_of_singleton. by right. }
  pose proof Hok as (Hinf & Hp' & Hi & _). cbn [new_entry ni_inf] in Hinf. injection Hinf as <-.
  rewrite M_bind_assoc. step_read L_interfaces (slab_deref s1 p i Hp').
  assert (Hidi : id i = interface_id_counter (fw_interfaces s)) by (by rewrite Hi).
  rewrite Hidi.
  set (pl := to_wire {| mi_primary_intf_id := interface_id_counter (fw_interfaces s);
                        mi_intf_count := 1; mi_flags := 0 |}).
  assert (Hpl : pl = [u8 (interface_id_counter (fw_interfaces s)); 1; 0; 0]) by done.
  destruct (control_send_request_spec connection_send pl GB_SVC_TYPE_MODULE_INSERTED j s1) as
    (r1 & q & r & s2 & Hreq & _ & Hmsg & m2 & Hwfm & _ & _ & _ & _ & ->).
  { split; [by rewrite He4; apply Hlink|by rewrite He3; apply Hlink]. }
  { apply to_wire_bytes. } { rewrite Hpl. cbn [length]. lia. } { done. } { by rewrite He4. }
  { by rewrite He3, Hpl. }
  rewrite M_bind_assoc. eexists. split.
  { change (svc_send_module_inserted connection_send (interface_id_counter (fw_interfaces s)))
      with (control_send_request connection_send pl (length pl) GB_SVC_TYPE_MODULE_INSERTED).
    by step_with Hreq. }
  split; [by destruct Hwf1|]. right. exists p, r. rewrite He3 in Hmsg. cbn. by rewrite He2.
Qed.

(** As long as no node was removed, an address discovery reports for the first time either
    gets a node at the end of the cache, with a module inserted event for the new interface id on the UART, or, when memory or
    the cache is exhausted, changes nothing the AP can see. *)
Theorem node_filter_new addr j s :
  link_wf s → nodes_wf s → slabs_clean s → ¬ known s addr →
  cache_map (fw_nodes s) !! interface_id_counter (fw_interfaces s) = None →
  ap_cport_of SVC_INF_ID 0 (fw_ap_map s) = Some j →
  k_heap_alloc (greybus_messages_heap (fw_messages s)) 12 ≠ None → 14 <= HDLC_MAX_BLOCK_SIZE →
  ∃ inf s', node_filter [addr] s = Done () s' ∧ nodes_wf s' ∧
    (inf = NullIntf ∧ create_outcome s addr inf s' ∧ fw_uart s' = fw_uart s ∨
     ∃ p r, inf = SlabIntf p ∧ entries (fw_nodes s') = entries (fw_nodes s) ++ [new_entry s addr p] ∧
       message_is [u8 (interface_id_counter (fw_interfaces s)); 1; 0; 0]
         GB_SVC_TYPE_MODULE_INSERTED (operation_id_counter (fw_messages s)) 0 r ∧
       fw_uart s' = fw_uart s ++ ap_frame j r).
Proof. apply node_filter_unknown. Qed.

(** *** Destroying every node *)

(** Closing the sockets of nodes, one after the other. *)
Definition close_all (gone : list node_item) (n : net) : net :=
  foldl (λ n it, if 0 <=? ni_sock it then zsock_close n (ni_sock it) else n) n gone.

(** The nodes in [gone] are destroyed between [s] and [s']: nothing is freed. *)
Record all_gone (gone : list node_item) s s' : Prop := {
  ag_wf : nodes_wf s';
  ag_same : same_elsewhere s s';
  ag_entries : entries (fw_nodes s) ≡ₚ gone ++ entries (fw_nodes s');
  ag_net : fw_net s' = close_all gone (fw_net s);
  ag_intf : intf_store (fw_interfaces s') = intf_store (fw_interfaces s);
  ag_ctrl : ctrl_store (fw_controls s') = ctrl_store (fw_controls s);
  ag_used : controls_used s = length (entries (fw_nodes s)) →
            controls_used s' = length (entries (fw_nodes s'));
}.

Lemma all_gone_nil s : nodes_wf s → all_gone [] s s.
Proof. intros Hwf. by split. Qed.

Lemma all_gone_cons it gone s s1 s2 :
  it ∈ entries (fw_nodes s) → destroyed (ni_id it) (ni_sock it) s s1 →
  entries (fw_nodes s) ≡ₚ it :: entries (fw_nodes s1) → all_gone gone s1 s2 →
  all_gone (it :: gone) s s2.
Proof.
  intros Hit [Hwf1 Hsame1 Hi1 Hc1 _ Hu1 Hn1] Hperm1 [Hwf2 Hsame2 Hperm2 Hn2 Hi2 Hc2 Hu2].
  split; [done|destruct Hsame1, Hsame2; split; congruence| | |congruence|congruence|].
  - by rewrite Hperm1, Hperm2.
  - by rewrite Hn2, Hn1.
  - intros Hu. apply Hu2. apply Permutation_length in Hperm1. cbn [length] in Hperm1.
    rewrite Hu1 by lia. lia.
Qed.

Lemma destroy_from_spec n (i : nat) s :
  nodes_wf s → (length (entries (fw_nodes s)) <= i + 2 * n)%nat →
  ∃ gone s', destroy_from n i s = Done () s' ∧ all_gone gone s s' ∧
    (length (entries (fw_nodes s'))
     = Nat.min (length (entries (fw_nodes s))) ((length (entries (fw_nodes s)) + i) / 2))%nat.
Proof.
  revert i s. induction n as [|n IH]; intros i s Hwf Hn; cbn [destroy_from];
    step_getL L_nodes; rewrite <-(length_entries _ (nw_cache _ Hwf)).
  { destruct (Z.ltb_spec i (length (entries (fw_nodes s)))); [lia|].
    exists [], s. split; [done|]. split; [by apply all_gone_nil|].
    rewrite Nat.min_l; [done|]. apply Nat.div_le_lower_bound; lia. }
  destruct (Z.ltb_spec i (length (entries (fw_nodes s)))) as [Hlt|Hge]; cycle 1.
  { exists [], s. split; [done|]. split; [by apply all_gone_nil|].
    rewrite Nat.min_l; [done|]. apply Nat.div_le_lower_bound; lia. }
  destruct (lookup_lt_is_Some_2 (entries (fw_nodes s)) i) as [it Hit]; [lia|].
  destruct (entries_lookup _ i it (nw_cache _ Hwf) Hit) as [Hit' _].
  assert (Hat : node_cache_at i (view L_nodes s) = Done it (view L_nodes s)).
  { unfold node_cache_at, getS, mbind, M_bind. apply array_get_ok; [lia|by rewrite Nat2Z.id]. }
  step_read L_nodes Hat. apply list_elem_of_lookup_2 in Hit.
  destruct (nw_entries _ Hwf it Hit) as (p & gi & Hok).
  destruct (node_destroy_interface_spec s it p gi Hwf Hit Hok) as (s1 & Hrun & Hd & Hperm).
  step_with Hrun. apply Permutation_length in Hperm as Hl. cbn [length] in Hl.
  replace (i + 1) with (Z.of_nat (S i)) by lia.
  destruct (IH (S i) s1 (dn_wf _ _ _ _ Hd)) as (gone & s2 & Hrun2 & Hgone & Hlen2); [lia|].
  exists (it :: gone), s2. split; [done|]. split; [by eapply all_gone_cons|].
  rewrite Hlen2. replace (length (entries (fw_nodes s1)) + S i)%nat with
    (length (entries (fw_nodes s)) + i)%nat by lia.
  assert ((length (entries (fw_nodes s)) + i) / 2 < length (entries (fw_nodes s)))%nat.
  { apply Nat.Div0.div_lt_upper_bound. lia. }
  lia.
Qed.

(** Every second node is destroyed, and then all are forgotten, unless the assertion
    fails. *)
Lemma node_destroy_all_cases s :
  nodes_wf s →
  ∃ gone s1, all_gone gone s s1 ∧
    length (entries (fw_nodes s1)) = (length (entries (fw_nodes s)) / 2)%nat ∧
    let s' := store L_nodes (NodeCache (nc_items (fw_nodes s1)) 0) s1 in
    nodes_wf s' ∧
    node_destroy_all s = if controls_used s1 =? 0 then Done () s' else Crash AssertFailed.
Proof.
  intros Hwf. pose proof (length_entries _ (nw_cache _ Hwf)) as Hpos. pose proof (cwf_pos _ (nw_cache _ Hwf)).
  destruct (destroy_from_spec destroy_rounds 0 s Hwf) as (gone & s1 & Hrun & Hgone & Hlen).
  { unfold destroy_rounds. lia. }
  exists gone, s1. split; [done|]. split.
  { rewrite Hlen, Nat.add_0_r. apply Nat.min_r. apply Nat.Div0.div_le_upper_bound. lia. }
  cbv zeta. set (s' := store L_nodes _ s1). split.
  - destruct Hgone as [[[Ha Hp _] Hi Hc _ _ Hst _] _ _ _ _ _ _].
    assert (Hempty : entries (fw_nodes s') = []) by done.
    split; [|done|done|by rewrite Hempty; intros it ?%elem_of_nil
      |by rewrite Hempty; intros it1 it2 p1 p2 i1 i2 ?%elem_of_nil|exact Hst|rewrite Hempty; cbn; lia].
    split; [done| |by rewrite Hempty; constructor].
    cbn. pose proof max_nodes_ok. unfold MAX_GREYBUS_NODES. lia.
  - unfold node_destroy_all. step_with Hrun. step_modL L_nodes. step_getL L_controls.
    unfold controls_used. cbn [store L_nodes fw_controls]. by destruct (_ =? 0).
Qed.

(** With at most one node all are destroyed; with two or more every second one is
    skipped, and the closing assertion fails. *)
Lemma node_destroy_all_spec s :
  nodes_wf s → controls_used s = length (entries (fw_nodes s)) →
  if decide (length (entries (fw_nodes s)) <= 1)%nat
  then ∃ s', node_destroy_all s = Done () s' ∧ nodes_wf s' ∧ same_elsewhere s s' ∧
         entries (fw_nodes s') = [] ∧ fw_net s' = close_all (entries (fw_nodes s)) (fw_net s) ∧
         intf_store (fw_interfaces s') = intf_store (fw_interfaces s) ∧
         ctrl_store (fw_controls s') = ctrl_store (fw_controls s)
  else node_destroy_all s = Crash AssertFailed.
Proof.
  intros Hwf Hused. destruct (node_destroy_all_cases s Hwf) as (gone & s1 & Hgone & Hlen & Hwf' & Hrun).
  rewrite (ag_used _ _ _ Hgone Hused), Hlen in Hrun. set (n := length (entries (fw_nodes s))) in *.
  rewrite Hrun. case_decide as Hn.
  - assert (Hz : (n / 2 = 0)%nat) by (apply Nat.div_small; lia). rewrite Hz in *.
    destruct Hgone as [_ Hsame Hperm Hnet Hi Hc _]. apply nil_length_inv in Hlen.
    rewrite Hlen, app_nil_r in Hperm. eexists. split; [done|]. split; [done|].
    split; [by destruct Hsame|]. split; [done|]. split; [|done]. cbn. rewrite Hnet. f_equal.
    unfold n in Hn. clear -Hn Hperm. destruct (entries (fw_nodes s)) as [|it [|]]; cbn in Hn; [|..|lia].
    + apply Permutation_nil_l in Hperm. by subst gone.
    + apply Permutation_singleton_l in Hperm. by subst gone.
  - assert (1 <= n / 2)%nat by (apply Nat.div_le_lower_bound; lia).
    destruct (Z.eqb_spec (n / 2)%nat 0); [lia|done].
Qed.

(** *** Stopping the SVC *)

(** C32: The control command that stops the SVC, received with at most one node and as many
    control blocks in use as nodes (none was removed before), stops discovery and closes its
    socket, removes the node from the cache and closes its socket, and leaves no connection in
    the AP's table; the blocks of the node stay allocated. With two or more nodes it ends in a
    failed assertion. *)
Theorem control_stop_clears rest s :
  link_wf s → nodes_wf s → controls_used s = length (entries (fw_nodes s)) →
  if decide (length (entries (fw_nodes s)) <= 1)%nat
  then ∃ s' n1, control_process_frame (CONTROL_SVC_STOP :: rest) 1 s = Done 0 s' ∧
         link_wf s' ∧ nodes_wf s' ∧ entries (fw_nodes s') = [] ∧ svc_is_read_flag s' = false ∧
         tcp_discovery_running s' = false ∧ Forall (eq empty_item) (fw_ap_map s') ∧
         fw_uart s' = fw_uart s ∧ fw_messages s' = fw_messages s ∧
         discovery_closed s n1 ∧ fw_net s' = close_all (entries (fw_nodes s)) n1 ∧
         intf_store (fw_interfaces s') = intf_store (fw_interfaces s) ∧
         ctrl_store (fw_controls s') = ctrl_store (fw_controls s)
  else control_process_frame (CONTROL_SVC_STOP :: rest) 1 s = Crash AssertFailed.
Proof.
  intros [Hmap Hmsgs] Hwf Hused. unfold control_process_frame. cbn [Z.eqb Pos.eqb negb].
  rewrite (M_bind_Done _ _ _ _ _ (array_get_ok (CONTROL_SVC_STOP :: rest) 0 CONTROL_SVC_STOP s ltac:(lia) eq_refl)).
  cbn [Z.eqb CONTROL_SVC_START CONTROL_SVC_STOP Pos.eqb].
  destruct (tcp_discovery_stop_spec s) as (sock & n' & Hstop & _ & Hclosed). rewrite (M_bind_Done _ _ _ _ _ Hstop).
  set (s1 := discovering false sock n' s).
  assert (Hwf1 : nodes_wf s1) by (destruct Hwf; by split).
  pose proof (node_destroy_all_spec s1 Hwf1 Hused) as Hall.
  change (entries (fw_nodes s1)) with (entries (fw_nodes s)) in Hall.
  case_decide as Hn; cycle 1. { by rewrite (M_bind_Crash _ _ _ _ Hall). }
  destruct Hall as (s2 & Hrun & Hwf2 & Hsame & Hempty & Hnet & Hi & Hc). step_with Hrun.
  unfold svc_deinit. step_modL L_svc. unfold ap_deinit. rewrite M_bind_mret.
  set (s3 := store L_svc false s2).
  assert (Hmap3 : ap_map_wf (fw_ap_map s3)) by (cbn; by rewrite (se_ap_map _ _ Hsame)).
  step_with (apbridge_deinit_spec s3 Hmap3). eexists _, n'. split; [done|].
  pose proof (se_messages _ _ Hsame) as Hm. pose proof (se_uart _ _ Hsame) as Hu.
  split; [split; cbn; [unfold ap_map_wf in *; cbn; rewrite length_replicate; lia|by rewrite Hm]|].
  split; [by destruct Hwf2|]. split; [done|]. split; [done|].
  split; [exact (se_running _ _ Hsame)|]. split; [by apply Forall_replicate|].
  by split_and!.
Qed.

(** *** Starting the SVC *)

(** C31: The control command that starts the SVC, received with the table empty, makes the SVC
    ready, connects it to AP cport 0, starts discovery and sends the AP one frame with the SVC's
    protocol version request; the operation id returned is read from the message after it was
    freed. *)
Theorem control_start_announces_version rest s :
  link_wf s → nodes_wf s → fw_ap_map s !! 0%nat = Some empty_item →
  k_heap_alloc (greybus_messages_heap (fw_messages s)) 10 ≠ None → 12 <= HDLC_MAX_BLOCK_SIZE →
  ∃ r s', control_process_frame (CONTROL_SVC_START :: rest) 1 s = Done 0 s' ∧
    svc_is_read_flag s' = true ∧ tcp_discovery_running s' = true ∧
    fw_ap_map s' = <[0%nat := NodeApItem SvcIntf 0 SVC_INF_ID]> (fw_ap_map s) ∧
    message_is [GB_SVC_VERSION_MAJOR; GB_SVC_VERSION_MINOR] GB_SVC_TYPE_PROTOCOL_VERSION
      (operation_id_counter (fw_messages s)) 0 r ∧
    fw_uart s' = fw_uart s ++ ap_frame 0 r.
Proof.
  intros [Hmap Hwf] Hnodes Hslot Hroom Hblock. unfold control_process_frame. cbn [Z.eqb Pos.eqb negb].
  step_with (array_get_ok (CONTROL_SVC_START :: rest) 0 CONTROL_SVC_START s ltac:(lia) eq_refl).
  cbn [Z.eqb CONTROL_SVC_START Pos.eqb]. unfold ap_init. rewrite M_bind_mret.
  unfold svc_init. step_modL L_svc. unfold apbridge_init. rewrite M_bind_mret.
  set (s1 := store L_svc true s).
  destruct (connection_create_outcome 0 SVC_INF_ID 0 s1) as (ret & s2 & Hrun & _ & Hnodes2 & Hout);
    [exact Hmap|by destruct Hnodes|lia|done|].
  unfold connect_outcome in Hout. destruct (decide (interface_of s1 SVC_INF_ID = NullIntf)) as [|_]; [done|].
  destruct Hout as (cret & s1' & Hcall & _ & Hout).
  assert (cret = 0 ∧ s1' = s1) as [-> ->].
  { revert Hcall. change (interface_of s1 SVC_INF_ID) with SvcIntf.
    unfold call_create_connection, svc_inf_create_connection, svc_is_ready. cbn. by intros [= <- <-]. }
  cbn [Z.ltb Z.compare] in Hout. change (fw_ap_map s1 !! Z.to_nat 0) with (fw_ap_map s !! 0%nat) in Hout.
  rewrite Hslot in Hout. rewrite decide_True in Hout by done. destruct Hout as [-> ->].
  step_with Hrun. cbn [Z.ltb Z.compare]. set (map' := <[Z.to_nat 0 := _]> _).
  set (s2 := store L_ap_map map' s1).
  assert (Hmap' : map' = <[0%nat := NodeApItem SvcIntf 0 SVC_INF_ID]> (fw_ap_map s)) by done.
  apply lookup_lt_Some in Hslot as Hlt.
  assert (Hj : ap_cport_of SVC_INF_ID 0 (fw_ap_map s2) = Some 0%nat).
  { apply ap_cport_of_Some. split; [|lia]. exists (NodeApItem SvcIntf 0 SVC_INF_ID).
    split; [|done]. cbn. rewrite Hmap'. by apply list_lookup_insert_eq. }
  destruct (control_send_request_spec connection_send [GB_SVC_VERSION_MAJOR; GB_SVC_VERSION_MINOR]
    GB_SVC_TYPE_PROTOCOL_VERSION 0 s2) as (r1 & q & r & s3 & Hreq & _ & Hmsg & m3 & _ & _ & _ & _ & _ & ->).
  { split; [|done]. unfold ap_map_wf. cbn. rewrite Hmap', length_insert. exact Hmap. }
  { by repeat constructor. } { cbn [length]. lia. } { done. } { exact Hj. } { exact Hroom. }
  destruct (tcp_discovery_start_spec (store L_uart (fw_uart s2 ++ ap_frame 0 r) (store L_messages m3 s2)))
    as (sock & n' & Hstart).
  exists r. eexists. split.
  { change (svc_send_version connection_send) with
      (control_send_request connection_send [GB_SVC_VERSION_MAJOR; GB_SVC_VERSION_MINOR]
         (length [GB_SVC_VERSION_MAJOR; GB_SVC_VERSION_MINOR]) GB_SVC_TYPE_PROTOCOL_VERSION).
    step_with Hreq. by step_with Hstart. }
  by split_and!.
Qed.
End NodeSet.
