(* ===== verification/Discover.v ===== *)
(** * A round of discovery with mDNS (src/tcp_discovery.c, src/mdns.c, src/node.c)

    From the query on the network to the node in the tables: what one round of
    the discovery thread does when the responders answer. *)

From S2P Require Import Prelude Config Protocols Hdlc Kernel Mdns MdnsNames MdnsQuery MdnsRecv.
From S2P Require Import Messages Interfaces NodeCache State ApMap NodeLink NodeLife Ap LocalNode.
From S2P Require Import Routes Svc SvcFacts NodeTx Bridge NodeRx Discovery Main NodeSet.

(** The labels of [query]. *)
Definition service : list (list Z) := Eval vm_compute in [chars "_greybus"; chars "_tcp"; chars "local"].

Lemma service_query : joined service = query.
Proof. reflexivity. Qed.

Lemma service_ok : Forall label_ok service.
Proof.
  repeat (apply Forall_cons_2; [split_and!; [solve_closed|solve_closed|solve_bytes|
    rewrite !elem_of_cons, elem_of_nil; cbv; lia]|]). apply Forall_nil_2.
Qed.

Lemma query_fits : (length (expected ++ query) <= Z.to_nat MDNS_PTR_NAME_SIZE)%nat.
Proof. solve_closed. Qed.

Section Discover.
Context `{Config, !ConfigOk _, Crc16, !Crc16Laws, KHeap, !KHeapLaws, KSlab, !KSlabLaws,
          Sockets, !SocketsLaws, Stack, !StackLaws}.
Implicit Types s : fw.

(** The datagrams [ds] arrive on the discovery socket while the thread waits
    for answers to its query. *)
Definition answers_arrive s (open : net → Prop) (ds : list (list Z * list Z)) : Prop :=
  undisturbed (tcp_discovery_sock s) open ∧ open (fw_net s) ∧
  ∀ ret n1 r rev n2,
    query_sent service (tcp_discovery_sock s) (fw_net s) ret n1 →
    zsock_poll n1 [tcp_discovery_sock s] 2000 = (r, rev, n2) →
    net_datagrams n2 (tcp_discovery_sock s) = ds.

Lemma query_send_ok s :
  ∃ ret n1, mdns_query_send (tcp_discovery_sock s) query (length query) (fw_net s) = Done ret n1 ∧
    query_sent service (tcp_discovery_sock s) (fw_net s) ret n1.
Proof.
  pose proof (query_send_outcome (tcp_discovery_sock s) service [] (length query) (fw_net s)
    ltac:(done) service_ok ltac:(by left) ltac:(done)) as (Hsmall & _).
  rewrite service_query, app_nil_r in Hsmall. by apply Hsmall.
Qed.

(** The socket stays open when the query is sent. *)
Lemma sent_open open ret n1 s :
  undisturbed (tcp_discovery_sock s) open → open (fw_net s) →
  query_sent service (tcp_discovery_sock s) (fw_net s) ret n1 → open n1.
Proof.
  intros Hund Hopen (_ & [->|(group & r & Hcall)] & _); [done|]. by apply (proj2 (proj2 Hund)) in Hcall.
Qed.

(** Receiving comes to an end, whatever the datagrams hold. *)
Lemma answers_received fuel open ds ret n1 (nodes : list (list Z)) s :
  answers_arrive s open ds → query_sent service (tcp_discovery_sock s) (fw_net s) ret n1 →
  (length ds <= fuel)%nat → length nodes < 2 ^ 31 →
  mdns_query_recv fuel (tcp_discovery_sock s) nodes (length nodes) query (length query) 2000 n1 ≠ Crash Diverge.
Proof.
  intros (Hund & Hopen & Harrive) Hsent Hfuel Hlen.
  destruct (zsock_poll n1 [tcp_discovery_sock s] 2000) as [[r rev] n2] eqn:Hpoll.
  apply (query_recv_ends query query_fits _ open Hund fuel nodes 2000 r rev n2 n1); [by eapply sent_open|done| |done].
  by rewrite (Harrive ret n1 r rev n2 Hsent Hpoll).
Qed.

(** A round asks, collects the senders of the answers and hands them on. *)
Lemma mdns_round_filters fuel open ds verdicts s :
  0 <= tcp_discovery_sock s → answers_arrive s open ds → Forall2 (judged query) ds verdicts →
  (length ds <= fuel)%nat →
  ∃ ret n1 n2, query_sent service (tcp_discovery_sock s) (fw_net s) ret n1 ∧
    mdns_round fuel s =
      if ret <? 0 then Done () (store L_net n1 s)
      else node_filter (take (Z.to_nat MAX_GREYBUS_NODES) (senders ds verdicts)) (store L_net n2 s).
Proof.
  intros Hsock (Hund & Hopen0 & Harrive) Hv Hfuel.
  destruct (query_send_ok s) as (ret & n1 & Hsend & Hsent).
  pose proof (sent_open open ret n1 s Hund Hopen0 Hsent) as Hopen.
  unfold mdns_round. step_getL L_discovery_sock.
  destruct (Z.ltb_spec (tcp_discovery_sock s) 0); [lia|].
  step_zoom L_net (Hsend : _ (view L_net s) = _). destruct (ret <? 0) eqn:Hret.
  { exists ret, n1, n1. split; [done|]. by rewrite Hret. }
  destruct (zsock_poll n1 [tcp_discovery_sock s] 2000) as [[r rev] n2] eqn:Hpoll.
  pose proof (Harrive ret n1 r rev n2 Hsent Hpoll) as Hds2. set (nodes := replicate _ _).
  pose proof max_nodes_ok as Hmax.
  assert (Hlen : (length nodes : Z) = MAX_GREYBUS_NODES).
  { unfold nodes. rewrite length_replicate. unfold MAX_GREYBUS_NODES. lia. }
  destruct (query_recv_answers query query_fits (tcp_discovery_sock s) open Hund fuel nodes 2000 r rev n2
    verdicts n1 Hopen Hpoll) as [n3 Hrecv]; rewrite ?Hds2; [done|done| |].
  { rewrite Hlen. unfold MAX_GREYBUS_NODES. lia. }
  rewrite Hds2, Hlen in Hrecv. set (addrs := take (length nodes) (senders ds verdicts)) in *.
  step_zoom L_net (Hrecv : _ (view L_net (store L_net n1 s)) = _).
  assert (Ha : 0 <= length addrs < 2 ^ 15).
  { unfold addrs. rewrite length_take. unfold MAX_GREYBUS_NODES in Hlen. lia. }
  assert (Hi : i32 (length addrs) = length addrs).
  { unfold i32. rewrite u32_id by (unfold is_u32; lia). destruct (Z.ltb_spec (length addrs) (2 ^ 31)); lia. }
  rewrite Hi. destruct (Z.ltb_spec (length addrs) 0); [lia|]. rewrite Nat2Z.id, take_app_length.
  exists ret, n1, n3. split; [done|]. rewrite Hret. unfold addrs. by rewrite <-Hlen, Nat2Z.id.
Qed.

End Discover.
