(* ===== verification/LogBackend.v ===== *)
(** * The log backend (src/hdlc_log_backend.c)

    Log output goes to the AP too, as frames for [ADDRESS_DBG] on the same UART.
    Formatting is Zephyr's ([LogOutput]). *)

From S2P Require Import Prelude Config Protocols Hdlc HdlcRx Kernel Messages Interfaces NodeCache.
From S2P Require Import State ApMap Ap.

Definition BUFFER_LEN : Z := 200.

(** The functions of [hdlc_uart_backend_api], with their arguments. *)
Inductive log_call `{LogOutput} :=
| LogProcess (msg : log_msg)
| LogDropped (cnt : Z)
| LogPanic
| LogInit
| LogIsReady
| LogFormatSet (log_type : Z)
| LogNotify.

Section LogBackend.
Context `{Config, Crc16, KHeap, KSlab, Sockets, UartDevice, LogOutput}.

Definition hdlc_uart_out (data : list Z) (length : Z) : M fw Z :=
  _ ← hdlc_block_send_sync L_hdlc hdlc_send_callback data length ADDRESS_DBG 0x03;
  mret length.

(** [hdlc_uart_output]: the blocks are passed to [hdlc_uart_out] one by one,
    each until all of it has been taken. *)
Fixpoint hdlc_uart_output (blocks : list (list Z)) : M fw () :=
  match blocks with
  | [] => mret ()
  | block :: blocks => _ ← hdlc_uart_out block (length block); hdlc_uart_output blocks
  end.

Definition hdlc_uart_backend_process (msg : log_msg) : M fw () :=
  let flags := log_backend_std_get_flags in
  hdlc_uart_output (log_output_msg_process msg flags).

Definition hdlc_uart_backend_dropped (cnt : Z) : M fw () :=
  hdlc_uart_output (log_backend_std_dropped cnt).

Definition hdlc_uart_backend_panic : M fw () := hdlc_uart_output log_backend_std_panic.

Definition hdlc_uart_backend_init : M fw () := mret ().

Definition hdlc_uart_backend_is_ready : M fw Z :=
  if device_is_ready then mret 0 else mret (- EBUSY).

Definition hdlc_uart_backend_format_set (log_type : Z) : M fw Z := mret 0.

Definition hdlc_uart_backend_notify : M fw () := mret ().

(** 0 for the functions that return nothing. *)
Definition hdlc_uart_backend_api (call : log_call) : M fw Z :=
  match call with
  | LogProcess msg => _ ← hdlc_uart_backend_process msg; mret 0
  | LogDropped cnt => _ ← hdlc_uart_backend_dropped cnt; mret 0
  | LogPanic => _ ← hdlc_uart_backend_panic; mret 0
  | LogInit => _ ← hdlc_uart_backend_init; mret 0
  | LogIsReady => hdlc_uart_backend_is_ready
  | LogFormatSet log_type => hdlc_uart_backend_format_set log_type
  | LogNotify => _ ← hdlc_uart_backend_notify; mret 0
  end.

(** The logging subsystem's calls in turn. *)
Fixpoint log_calls (calls : list log_call) : M fw () :=
  match calls with
  | [] => mret ()
  | call :: calls => _ ← hdlc_uart_backend_api call; log_calls calls
  end.
End LogBackend.

Section Facts.
Context `{Config, !ConfigOk _, Crc16, !Crc16Laws, KHeap, KSlab, Sockets, UartDevice,
          LogOutput, !LogOutputLaws BUFFER_LEN}.
Implicit Types s : fw.

(** What a call prints. *)
Definition printed (call : log_call) : list (list Z) :=
  match call with
  | LogProcess msg => log_output_msg_process msg log_backend_std_get_flags
  | LogDropped cnt => log_backend_std_dropped cnt
  | LogPanic => log_backend_std_panic
  | _ => []
  end.

Definition log_packet (block : list Z) : packet := Packet ADDRESS_DBG 0x03 block.

Definition log_frames (calls : list log_call) : list packet := log_packet <$> (calls ≫= printed).

Lemma printed_fits call : blocks_fit BUFFER_LEN (printed call).
Proof.
  destruct call; try apply Forall_nil_2; [apply log_process_law|apply log_dropped_law|apply log_panic_law].
Qed.

Lemma hdlc_uart_output_spec blocks s :
  hdlc_uart_output blocks s
  = Done () (store L_uart (fw_uart s ++ ((log_packet <$> blocks) ≫= packet_wire)) s).
Proof.
  revert s. induction blocks as [|block blocks IH]; intros s; cbn [hdlc_uart_output].
  { cbn. rewrite app_nil_r. by destruct s. }
  unfold hdlc_uart_out. rewrite M_bind_assoc.
  step_with (block_send_sync_uart block (length block) ADDRESS_DBG 0x03 s ltac:(done) ltac:(lia)).
  rewrite M_bind_mret, IH. cbn. rewrite Nat2Z.id, firstn_all, <-app_assoc. done.
Qed.

Lemma log_call_spec call s :
  ∃ ret, hdlc_uart_backend_api call s
    = Done ret (store L_uart (fw_uart s ++ ((log_packet <$> printed call) ≫= packet_wire)) s).
Proof.
  assert (Hprint : ∀ blocks, (_ ← hdlc_uart_output blocks; mret 0) s
    = Done 0 (store L_uart (fw_uart s ++ ((log_packet <$> blocks) ≫= packet_wire)) s)).
  { intros blocks. by step_with (hdlc_uart_output_spec blocks s). }
  assert (Hquiet : s = store L_uart (fw_uart s ++ []) s) by (rewrite app_nil_r; by destruct s).
  destruct call; cbn [hdlc_uart_backend_api printed]; try (exists 0; apply Hprint);
    cbn [fmap list_fmap mbind list_bind]; rewrite <-Hquiet; [by eexists| |by eexists..].
  unfold hdlc_uart_backend_is_ready. destruct device_is_ready; by eexists.
Qed.

(** C36: Whatever the logging subsystem asks of the backend, the bytes it adds to the UART are
    taken apart by the deframer as one debug frame per block printed, in order, leaving the
    receiver between frames. *)
Theorem log_calls_framed calls q s :
  BUFFER_LEN + 4 <= HDLC_MAX_BLOCK_SIZE →
  ∃ out, log_calls calls s = Done () (store L_uart (fw_uart s ++ out) s) ∧
    deframe (at_boundary q) out = (at_boundary q, packet_frame <$> log_frames calls).
Proof.
  intros Hroom. exists (log_frames calls ≫= packet_wire). split.
  - clear Hroom. unfold log_frames. revert s. induction calls as [|call calls IH]; intros s; cbn [log_calls].
    { cbn. rewrite app_nil_r. by destruct s. }
    destruct (log_call_spec call s) as [ret Hrun]. step_with Hrun. rewrite IH. cbn [mbind list_bind].
    rewrite fmap_app, bind_app, app_assoc. done.
  - apply deframe_packets. unfold log_frames. apply Forall_fmap, Forall_forall.
    intros block (call & Hblock & _)%list_elem_of_bind.
    pose proof (printed_fits call) as Hfit. unfold blocks_fit in Hfit. rewrite Forall_forall in Hfit.
    destruct (Hfit block Hblock) as [Hb Hl]. split_and!; cbn; [done..|lia].
Qed.
End Facts.
