(* ===== verification/LogThread.v ===== *)
(** * The logging thread in pieces (src/hdlc_log_backend.c)

    Zephyr's logging thread calls the backend, whose frames other threads may
    interrupt at every byte.  Each definition ends in [_t] and follows the one
    of the same name in [LogBackend]. *)

From S2P Require Import Prelude Config Protocols Hdlc Kernel Messages Interfaces NodeCache State.
From S2P Require Import ApMap Ap NodeRx Discovery Resume ApThreads Threads Main WorkItem LogBackend.

Section LogThread.
Context `{Config, Crc16, KHeap, KSlab, Sockets, Stack, UartDevice, LogOutput}.

Definition hdlc_uart_out_t (data : list Z) (length : Z) : thread fw Z :=
  _ ← hdlc_block_send_sync_t data length ADDRESS_DBG 0x03;
  mret length.

Fixpoint hdlc_uart_output_t (blocks : list (list Z)) : thread fw () :=
  match blocks with
  | [] => mret ()
  | block :: blocks => _ ← hdlc_uart_out_t block (length block); hdlc_uart_output_t blocks
  end.

Definition hdlc_uart_backend_process_t (msg : log_msg) : thread fw () :=
  let flags := log_backend_std_get_flags in
  hdlc_uart_output_t (log_output_msg_process msg flags).

Definition hdlc_uart_backend_dropped_t (cnt : Z) : thread fw () :=
  hdlc_uart_output_t (log_backend_std_dropped cnt).

Definition hdlc_uart_backend_panic_t : thread fw () := hdlc_uart_output_t log_backend_std_panic.

(** The other functions of the backend change nothing. *)
Definition hdlc_uart_backend_api_t (c : log_call) : thread fw Z :=
  match c with
  | LogProcess msg => _ ← hdlc_uart_backend_process_t msg; mret 0
  | LogDropped cnt => _ ← hdlc_uart_backend_dropped_t cnt; mret 0
  | LogPanic => _ ← hdlc_uart_backend_panic_t; mret 0
  | LogInit => _ ← call hdlc_uart_backend_init; mret 0
  | LogIsReady => call hdlc_uart_backend_is_ready
  | LogFormatSet log_type => call (hdlc_uart_backend_format_set log_type)
  | LogNotify => _ ← call hdlc_uart_backend_notify; mret 0
  end.

Fixpoint log_calls_t (calls : list log_call) : thread fw () :=
  match calls with
  | [] => mret ()
  | c :: calls => _ ← hdlc_uart_backend_api_t c; log_calls_t calls
  end.

(** ** Without interruption *)

Lemma run_uart_output blocks : run (hdlc_uart_output_t blocks) ≡ hdlc_uart_output blocks.
Proof.
  induction blocks as [|block blocks IH]; cbn [hdlc_uart_output_t hdlc_uart_output]; [done|].
  apply run_part; [|done]. unfold hdlc_uart_out_t, hdlc_uart_out. solve_run. apply run_block_send.
Qed.
#[local] Hint Resolve run_uart_output : run.

Lemma run_log_call c : run (hdlc_uart_backend_api_t c) ≡ hdlc_uart_backend_api c.
Proof.
  destruct c; cbn [hdlc_uart_backend_api_t hdlc_uart_backend_api];
    unfold hdlc_uart_backend_process_t, hdlc_uart_backend_process, hdlc_uart_backend_dropped_t,
      hdlc_uart_backend_dropped, hdlc_uart_backend_panic_t, hdlc_uart_backend_panic; solve_run.
Qed.
#[local] Hint Resolve run_log_call : run.

Lemma log_undisturbed calls : run (log_calls_t calls) ≡ log_calls calls.
Proof. induction calls as [|c calls IH]; cbn [log_calls_t log_calls]; solve_run; apply IH. Qed.

(** Run without interruption, the work item that handles received bytes, the receive
    thread, the discovery thread and the logging thread as sequences of pieces (every call to
    the kernel and to other parts of the firmware may let other threads run first) do exactly
    what the definitions that take a whole round at once do. *)
Theorem threads_undisturbed bs t addr6 fuel calls :
  run (receive_bytes_t bs) ≡ receive_bytes bs ∧ run (node_rx_thread_t t) ≡ node_rx_thread_step t ∧
  run (handler_t addr6 fuel) ≡ handler addr6 fuel ∧ run (log_calls_t calls) ≡ log_calls calls.
Proof.
  split_and!; [apply work_undisturbed|apply rx_thread_undisturbed|apply handler_undisturbed|apply log_undisturbed].
Qed.
End LogThread.
