(* ===== verification/Boot.v ===== *)
(** * Starting the firmware (src/main.c)

    [main] and the state of the static variables it finds.  When it goes to
    sleep the firmware is ready: every invariant the other parts rely on holds. *)

From S2P Require Import Prelude Config Protocols Hdlc HdlcRx Kernel Mdns Messages Interfaces.
From S2P Require Import NodeCache State ApMap NodeLink NodeLife Ap LocalNode Routes Svc SvcFacts.
From S2P Require Import NodeTx Bridge NodeRx Discovery Main.

(** What [main] does to the UART device: its interrupt handler is
    [serial_callback], and receive interrupts are enabled. *)
Record uart_port := UartPort { callback_set : bool; rx_enabled : bool }.

Definition L_fw `{KHeap, KSlab, Sockets} : lens (fw * uart_port) fw :=
  Lens fst (λ x s, (x, snd s)).
Definition L_port `{KHeap, KSlab, Sockets} : lens (fw * uart_port) uart_port :=
  Lens snd (λ x s, (fst s, x)).

Section Boot.
Context `{Config, Crc16, KHeap, KSlab, Sockets, Stack, UartDevice}.

(** The static variables before [main], with the kernel's pools, and the
    discovery thread running. *)
Definition fw_statics (heap : kheap) (interface_slab control_slab : kslab) (n : net) : fw :=
  Fw _ _ _
    (HdlcDriver 0 false 0 0 0 (replicate (Z.to_nat HDLC_MAX_BLOCK_SIZE) 0)) []
    (Messages _ heap ∅ OPERATION_ID_START [])
    (Interfaces _ interface_slab ∅ INTERFACE_ID_START)
    (Controls _ control_slab ∅)
    (NodeCache (replicate (Z.to_nat MAX_GREYBUS_NODES) (NodeItem 0 0 (replicate 16 0) NullIntf 0)) 0)
    (replicate (Z.to_nat AP_MAX_NODES) empty_item)
    false 0 n (-1) true.

(** [None] while it sleeps for ever. *)
Definition main : M (fw * uart_port) (option Z) :=
  _ ← zoom L_fw tcp_discovery_stop;
  if negb device_is_ready then mret (Some (- ENODEV))
  else
    _ ← zoom L_fw (modL L_hdlc hdlc_init);
    let ret := uart_irq_callback_user_data_set in
    if ret <? 0 then mret (Some ret)
    else
      _ ← modL L_port (λ p, UartPort true (rx_enabled p));
      _ ← modL L_port (λ p, UartPort (callback_set p) true);
      mret None.
End Boot.

(** ** The state after booting *)

Section Facts.
Context `{Config, !ConfigOk _, Crc16, !Crc16Laws, KHeap, !KHeapLaws, KSlab, !KSlabLaws,
          Sockets, !SocketsLaws, Stack, !StackLaws, UartDevice}.
Context (heap : kheap) (interface_slab control_slab : kslab) (n : net).
Context (Hheap : k_heap_live heap = ∅) (Hintf : slab_live interface_slab = ∅)
        (Hctrl : slab_live control_slab = ∅) (Hblocks : slab_blocks control_slab = MAX_GREYBUS_NODES).

Lemma statics_messages : messages_wf (fw_messages (fw_statics heap interface_slab control_slab n)).
Proof. split; cbn; [by rewrite dom_empty_L, Hheap|done|apply map_Forall_empty|done]. Qed.

Lemma statics_link : link_wf (fw_statics heap interface_slab control_slab n).
Proof.
  pose proof max_nodes_ok. split; [|apply statics_messages].
  unfold ap_map_wf. cbn. rewrite length_replicate. unfold AP_MAX_NODES. lia.
Qed.

Lemma statics_nodes : nodes_wf (fw_statics heap interface_slab control_slab n).
Proof.
  pose proof max_nodes_ok. split; cbn.
  - split; cbn; [rewrite length_replicate; unfold MAX_GREYBUS_NODES; lia| |constructor].
    unfold MAX_GREYBUS_NODES. lia.
  - split; cbn; [by rewrite dom_empty_L, Hintf|apply map_Forall_empty|done].
  - split; cbn; [by rewrite dom_empty_L, Hctrl|done|done].
  - by intros it ?%elem_of_nil.
  - by intros it1 it2 p1 p2 i1 i2 ?%elem_of_nil.
  - by intros p i ?%lookup_empty_Some.
  - done.
Qed.

Lemma main_outcome port :
  let s := fw_statics heap interface_slab control_slab n in
  ∃ r s' port', main (s, port) = Done r (s', port') ∧
    fw_uart s' = [] ∧ tcp_discovery_running s' = false ∧ tcp_discovery_sock s' = -1 ∧
    link_wf s' ∧ nodes_wf s' ∧ entries (fw_nodes s') = [] ∧
    fw_nodes s' = fw_nodes s ∧ fw_ap_map s' = fw_ap_map s ∧
    if negb device_is_ready then r = Some (- ENODEV) ∧ port' = port
    else fw_hdlc s' = hdlc_init (fw_hdlc s) ∧ sim (fw_hdlc s') (at_boundary 0) ∧
         if uart_irq_callback_user_data_set <? 0
         then r = Some uart_irq_callback_user_data_set ∧ port' = port
         else r = None ∧ port' = UartPort true true.
Proof.
  intros s. unfold main.
  assert (Hstop : tcp_discovery_stop s = Done () (store L_discovery_running false s)).
  { unfold tcp_discovery_stop, getL, modL, zoom, mbind, M_bind. by destruct CONFIG_BEAGLEPLAY_GREYBUS_MDNS_DISCOVERY. }
  step_with (zoom_Done L_fw _ (s, port) _ _ (Hstop : _ (view L_fw (s, port)) = _)).
  set (s1 := store L_discovery_running false s).
  assert (Hw1 : link_wf s1) by (destruct statics_link; by split). assert (Hn1 : nodes_wf s1) by (destruct statics_nodes; by split).
  destruct device_is_ready; cbn [negb]; cycle 1.
  { exists (Some (- ENODEV)), s1, port. by split_and!. }
  set (s2 := store L_hdlc (hdlc_init (fw_hdlc s1)) s1).
  assert (Hw2 : link_wf s2) by (by destruct Hw1). assert (Hn2 : nodes_wf s2) by (by destruct Hn1).
  assert (Hsim : sim (fw_hdlc s2) (at_boundary 0)).
  { apply sim_init. cbn. rewrite length_replicate. pose proof hdlc_block_ok. unfold HDLC_MAX_BLOCK_SIZE. lia. }
  assert (Hinit : modL L_hdlc hdlc_init s1 = Done () s2) by done.
  step_with (zoom_Done L_fw _ (store L_fw s1 (s, port)) _ _ (Hinit : _ (view L_fw (store L_fw s1 (s, port))) = _)).
  destruct (uart_irq_callback_user_data_set <? 0).
  - eexists _, s2, port. by split_and!.
  - eexists _, s2, (UartPort true true). by split_and!.
Qed.
(** C35: main stops discovery and, if the UART is ready, puts the receiver between frames,
    installs the interrupt handler and enables receive interrupts before it sleeps; if the UART
    or the handler is refused it returns the error. No node exists and every table is consistent
    then. *)
Theorem main_boots port :
  let s := fw_statics heap interface_slab control_slab n in
  ∃ r s' port', main (s, port) = Done r (s', port') ∧
    fw_uart s' = [] ∧ tcp_discovery_running s' = false ∧ tcp_discovery_sock s' = -1 ∧
    link_wf s' ∧ nodes_wf s' ∧ entries (fw_nodes s') = [] ∧
    if negb device_is_ready then r = Some (- ENODEV) ∧ port' = port
    else sim (fw_hdlc s') (at_boundary 0) ∧
         if uart_irq_callback_user_data_set <? 0
         then r = Some uart_irq_callback_user_data_set ∧ port' = port
         else r = None ∧ port' = UartPort true true.
Proof.
  destruct (main_outcome port) as (r & s' & port' & Hrun & H1' & H2' & H3' & H4' & H5' & H6' & _ & _ & Hr).
  exists r, s', port'. split_and!; try done. by destruct (negb _); [|destruct Hr].
Qed.
End Facts.
