(* ===== verification/Invariant.v ===== *)
(** * The firmware's invariant

    Every step of the firmware, whatever arrives on the UART and the sockets,
    keeps [fw_inv] or stops in a fault; none of them runs for ever.  Programs
    are taken apart by [keeps_step]; what does not touch the tables is [quiet]. *)

From S2P Require Import Prelude Config Protocols Hdlc HdlcRx Kernel Mdns Messages Interfaces.
From S2P Require Import NodeCache State ApMap NodeLink NodeLife Ap LocalNode Routes Svc Quiet.
From S2P Require Import SvcFacts NodeTx Bridge NodeRx Discovery Main NodeSet MdnsNames MdnsQuery.
From S2P Require Import MdnsRecv Discover LogBackend Boot.

(** The receiver's buffer and the number of bytes in it. *)
Record driver_wf `{Config} (d : hdlc_driver) : Prop := {
  dw_array : (length (rx_buffer d) : Z) = HDLC_MAX_BLOCK_SIZE;
  dw_len : 0 <= rx_buffer_len d <= HDLC_MAX_BLOCK_SIZE;
  dw_bytes : bytes (rx_buffer d);
}.

Record fw_inv `{Config, KHeap, KSlab, Sockets} (s : fw) : Prop := {
  inv_driver : driver_wf (fw_hdlc s);
  inv_link : link_wf s;
  inv_nodes : nodes_wf s;
}.

Create HintDb keeps discriminated.

(** *** Invariants of this kind

    They say of the driver, the messages and the bridge's table what everything
    needs, and for the rest depend on the node tables only. *)

Class TablesInv `{Config, KHeap, KSlab, Sockets} (I : fw → Prop) : Prop := {
  ti_driver s : I s → driver_wf (fw_hdlc s);
  ti_messages s : I s → messages_wf (fw_messages s);
  ti_map s : I s → ap_map_wf (fw_ap_map s);
  ti_same s s' :
    driver_wf (fw_hdlc s') → messages_wf (fw_messages s') → fw_ap_map s' = fw_ap_map s →
    fw_nodes s' = fw_nodes s → fw_interfaces s' = fw_interfaces s → fw_controls s' = fw_controls s →
    I s → I s';
}.

(** Two states with the same node tables. *)
Lemma nodes_wf_tables `{Config, KHeap, KSlab, Sockets} s s' :
  fw_nodes s' = fw_nodes s → fw_interfaces s' = fw_interfaces s → fw_controls s' = fw_controls s →
  nodes_wf s → nodes_wf s'.
Proof.
  destruct s, s'. cbn. intros -> -> -> [Hc Hi Hct He Hd Hst Hcount]. by split.
Qed.

#[export] Instance fw_inv_tables_inv `{Config, KHeap, KSlab, Sockets} : TablesInv fw_inv.
Proof.
  split; [by intros s []|by intros s [_ [] _]|by intros s [_ [] _]|].
  intros s s' Hd Hm Hap Hn Hi Hc [_ [Hmap _] Hwf].
  split; [done|split; [by rewrite Hap|done]|by apply (nodes_wf_tables s)].
Qed.

Section Keeps.
Context `{Config, !ConfigOk _, Crc16, KHeap, !KHeapLaws, KSlab, !KSlabLaws, Sockets, !SocketsLaws, Stack}.
Context {I : fw → Prop} `{!TablesInv I}.
Implicit Types s : fw.

(** Run from [I], the program keeps it or faults; the result satisfies [Q]. *)
Definition maintains (J : fw → Prop) {A} (m : M fw A) (Q : A → Prop) : Prop :=
  ∀ s, J s → wlp m (λ a s', J s' ∧ Q a) s.

Lemma tables_inv_tables s s' :
  fw_tables s' = fw_tables s → messages_wf (fw_messages s') → I s → I s'.
Proof.
  intros Ht Hm Hs. unfold fw_tables in Ht. injection Ht as Hh Hi Hc Hnodes Hap _ _ _ _.
  apply (ti_same s); try done. rewrite Hh. by apply ti_driver.
Qed.

Lemma keeps_quiet {A} (m : M fw A) Q : quiet m Q → maintains I m Q.
Proof.
  intros Hm s Hs. apply (wlp_mono _ _ _ _ (Hm s (ti_messages s Hs))).
  intros a s' (Hs' & Ht & Ha). split; [by apply (tables_inv_tables s)|done].
Qed.

Lemma keeps_bind {A B} (m : M fw A) (k : A → M fw B) Q R :
  maintains I m Q → (∀ a, Q a → maintains I (k a) R) → maintains I (m ≫= k) R.
Proof.
  intros Hm Hk s Hs. apply wlp_bind. apply (wlp_mono _ _ _ _ (Hm s Hs)). intros a s' [Hs' Ha]. by apply Hk.
Qed.

Lemma keeps_ret {A} (a : A) (Q : A → Prop) : Q a → maintains I (mret a) Q.
Proof. by intros Ha s Hs. Qed.

Lemma keeps_crash {A} f (Q : A → Prop) : f ≠ Diverge → maintains I (crash f) Q.
Proof. by intros Hf s Hs. Qed.

Lemma keeps_mono {A} (m : M fw A) (Q Q' : A → Prop) :
  maintains I m Q → (∀ a, Q a → Q' a) → maintains I m Q'.
Proof. intros Hm HQ s Hs. apply (wlp_mono _ _ _ _ (Hm s Hs)). intros a s' [Hs' Ha]. by auto. Qed.

Lemma keeps_msg_deref p : maintains I (zoom L_messages (msg_deref p)) block_ok.
Proof. apply keeps_quiet, quiet_msg_deref. Qed.

(** *** Flags and sockets outside the tables *)

Lemma ti_elsewhere s s' :
  fw_hdlc s' = fw_hdlc s → fw_messages s' = fw_messages s → fw_ap_map s' = fw_ap_map s →
  fw_nodes s' = fw_nodes s → fw_interfaces s' = fw_interfaces s → fw_controls s' = fw_controls s →
  I s → I s'.
Proof.
  intros Hd Hm ???? Hs. apply (ti_same s); try done; [rewrite Hd; by apply ti_driver|].
  rewrite Hm. by apply ti_messages.
Qed.

Lemma keeps_svc f : maintains I (modL L_svc f) (λ _, True).
Proof. intros s Hs. split; [|done]. by apply (ti_elsewhere s). Qed.

Lemma keeps_pipe f : maintains I (modL L_pipe f) (λ _, True).
Proof. intros s Hs. split; [|done]. by apply (ti_elsewhere s). Qed.

Lemma keeps_discovery_sock f : maintains I (modL L_discovery_sock f) (λ _, True).
Proof. intros s Hs. split; [|done]. by apply (ti_elsewhere s). Qed.

Lemma keeps_discovery_running f : maintains I (modL L_discovery_running f) (λ _, True).
Proof. intros s Hs. split; [|done]. by apply (ti_elsewhere s). Qed.

(** *** The driver *)

Lemma keeps_get_driver : maintains I (getL L_hdlc) driver_wf.
Proof. intros s Hs. split; [by destruct s|by apply ti_driver]. Qed.

Lemma keeps_driver f : (∀ d, driver_wf d → driver_wf (f d)) → maintains I (modL L_hdlc f) (λ _, True).
Proof.
  intros Hf s Hs. split; [|done]. apply (ti_same s); try done; [by apply Hf, ti_driver|].
  by apply (ti_messages s).
Qed.

(** Changes that do not concern the buffer. *)
Lemma driver_wf_same d d' :
  rx_buffer d' = rx_buffer d → rx_buffer_len d' = rx_buffer_len d → driver_wf d → driver_wf d'.
Proof. intros Hb Hl [Ha Hr Hbytes]. by split; rewrite ?Hb, ?Hl. Qed.

Lemma keeps_driver_flags f :
  (∀ d, rx_buffer (f d) = rx_buffer d ∧ rx_buffer_len (f d) = rx_buffer_len d) →
  maintains I (modL L_hdlc f) (λ _, True).
Proof. intros Hf. apply keeps_driver. intros d Hd. destruct (Hf d). by apply (driver_wf_same d). Qed.

Lemma keeps_driver_len n :
  0 <= n <= HDLC_MAX_BLOCK_SIZE → maintains I (modL L_hdlc (set_rx_buffer_len n)) (λ _, True).
Proof. intros Hn. apply keeps_driver. intros d [Ha _ Hb]. by split. Qed.

Lemma keeps_driver_reset : maintains I (modL L_hdlc (set_rx_buffer_len 0)) (λ _, True).
Proof. apply keeps_driver_len. pose proof hdlc_block_ok. unfold HDLC_MAX_BLOCK_SIZE. lia. Qed.

Lemma keeps_driver_crc c : maintains I (modL L_hdlc (set_crc c)) (λ _, True).
Proof. by apply keeps_driver_flags. Qed.

Lemma keeps_driver_esc e : maintains I (modL L_hdlc (set_next_escaped e)) (λ _, True).
Proof. by apply keeps_driver_flags. Qed.

Lemma keeps_driver_seq n : maintains I (modL L_hdlc (set_rx_send_seq n)) (λ _, True).
Proof. by apply keeps_driver_flags. Qed.

(** *** The bridge's table *)

Lemma keeps_get_map : maintains I (getL L_ap_map) ap_map_wf.
Proof. intros s Hs. split; [by destruct s|by apply ti_map]. Qed.

Lemma keeps_map_set map i it :
  ap_map_wf map → maintains I (array_set map i it) ap_map_wf.
Proof.
  intros Hmap. eapply keeps_mono; [apply keeps_quiet, quiet_reads, reads_array_set|].
  intros l [_ ->]. unfold ap_map_wf in *. by rewrite length_insert.
Qed.
End Keeps.

(** The tables in step. *)
Abbreviation keeps := (maintains fw_inv).

#[export] Hint Resolve keeps_svc keeps_pipe keeps_discovery_sock keeps_discovery_running keeps_get_map
  keeps_map_set keeps_msg_deref keeps_get_driver keeps_driver_reset keeps_driver_crc keeps_driver_esc
  keeps_driver_seq : keeps.

#[export] Hint Extern 0 (TablesInv _) => typeclasses eauto : keeps.

Ltac keeps_step :=
  match goal with
  | |- maintains _ (mret _) _ => apply keeps_ret; (exact I || done || idtac)
  | |- maintains _ (crash _) _ => by apply keeps_crash
  | |- maintains _ (_ ≫= _) _ =>
      first [eapply keeps_bind; [solve [eauto 3 with keeps]|cbv beta; intros ? ?]
            |apply (keeps_bind _ _ (λ _, True)); [|intros ? _]]
  | |- maintains _ (if ?b then _ else _) _ => destruct b
  | |- maintains _ (match ?x with _ => _ end) _ => destruct x
  | |- maintains _ (let _ := _ in _) _ => cbv zeta
  | |- maintains _ _ _ => first [solve [eauto 3 with keeps]|apply keeps_quiet; solve [solve_quiet|eapply quiet_weaken; eauto 3 with quiet]|progress cbv beta]
  end.
Ltac solve_keeps := repeat keeps_step.

(** ** Nodes *)

Section Nodes.
Context `{Config, !ConfigOk _, Crc16, KHeap, !KHeapLaws, KSlab, !KSlabLaws, Sockets, !SocketsLaws,
          Stack, !StackLaws}.
Implicit Types s : fw.

Lemma keeps_set_map map : ap_map_wf map → keeps (modL L_ap_map (λ _, map)) (λ _, True).
Proof.
  intros Hmap s [Hd [Hm Hmsg] Hn]. split; [|done]. split; [done|by split|by apply (nodes_wf_tables s)].
Qed.
Hint Resolve keeps_set_map : keeps.

Lemma fw_inv_elsewhere s s' : same_elsewhere s s' → nodes_wf s' → fw_inv s → fw_inv s'.
Proof.
  intros Hsame Hn [Hd [Hmap Hm] _].
  split; [by rewrite (se_hdlc _ _ Hsame)|split|done].
  - by rewrite (se_ap_map _ _ Hsame).
  - by rewrite (se_messages _ _ Hsame).
Qed.

(** A pointer that is followed: NULL and static objects, and interfaces of nodes,
    whether these are in the cache or not. *)
Lemma intf_deref_cases inf s :
  nodes_wf s →
  (∃ f, intf_deref inf (fw_interfaces s) = Crash f ∧ f ≠ Diverge) ∨
  (∃ i, intf_deref inf (fw_interfaces s) = Done i (fw_interfaces s) ∧ ctrl_data i = NULL) ∨
  (∃ p i sock, inf = SlabIntf p ∧ intf_store (fw_interfaces s) !! p = Some i ∧
     ctrl_store (fw_controls s) !! ctrl_data i = Some sock).
Proof.
  intros Hwf. destruct inf as [| | |p].
  - left. by eexists.
  - right. left. by exists svc_intf.
  - right. left. by exists local_intf.
  - unfold intf_deref, getS, mbind, M_bind. destruct (intf_store (fw_interfaces s) !! p) as [i|] eqn:Hp.
    + right. right. destruct (nw_stored _ Hwf p i Hp) as [_ [sock Hsock]]. by exists p, i, sock.
    + left. by eexists.
Qed.

Lemma ctrl_sock_null s : ctrl_sock NULL s = Crash NullDeref.
Proof. unfold ctrl_sock. by step_getL L_controls. Qed.

Lemma keeps_destroy_interface inf : keeps (node_destroy_interface inf) (λ _, True).
Proof.
  intros s Hs. unfold wlp. pose proof (inv_nodes _ Hs) as Hwf.
  destruct (intf_deref_cases inf s Hwf) as [(f & Hf & Hd)|[(i & Hi & Hc)|(p & i & sock & -> & Hp & Hc)]].
  - unfold node_destroy_interface. destruct (decide (inf = NullIntf)); [done|].
    by rewrite (M_bind_Crash _ _ _ _ (zoom_Crash L_interfaces _ s f Hf)).
  - unfold node_destroy_interface. destruct (decide (inf = NullIntf)); [done|].
    rewrite (M_bind_Done _ _ _ _ _ (zoom_read L_interfaces _ s i Hi)), Hc.
    by rewrite (M_bind_Crash _ _ _ _ (ctrl_sock_null s)).
  - destruct (node_destroy_stored s p i sock Hwf Hp Hc) as (s' & -> & Hd & _).
    split; [|done]. apply (fw_inv_elsewhere s); [apply (dn_same _ _ _ _ Hd)|apply (dn_wf _ _ _ _ Hd)|done].
Qed.

(** *** Connections *)

Lemma keeps_node_ap_add ap_cport cport intf : keeps (node_ap_add ap_cport cport intf) (λ _, True).
Proof.
  unfold node_ap_add. destruct (_ <=? _); [solve_keeps|].
  eapply keeps_bind; [apply keeps_get_map|]. intros map Hmap.
  apply (keeps_bind _ _ (λ _, True)); [apply keeps_quiet; solve_quiet|intros it _].
  case_decide; [solve_keeps|]. solve_keeps.
Qed.

Lemma keeps_node_ap_remove ap_cport : keeps (node_ap_remove ap_cport) (λ _, True).
Proof. unfold node_ap_remove. solve_keeps. Qed.

Lemma keeps_deinit_from n i : keeps (deinit_from n i) (λ _, True).
Proof. revert i. induction n as [|n IH]; intros i; cbn [deinit_from]; solve_keeps. Qed.

Lemma quiet_find_by_id nid : quiet (gb_interface_find_by_id nid) (λ _, True).
Proof. unfold gb_interface_find_by_id, svc_interface, svc_is_ready, node_find_by_id. solve_quiet. Qed.

Lemma keeps_call_destroy {I} `{!TablesInv I} intf cport : maintains I (call_destroy_connection intf cport) (λ _, True).
Proof.
  unfold call_destroy_connection, svc_inf_destroy_connection, intf_destroy_connection,
    node_intf_destroy_connection. solve_keeps.
Qed.
Hint Resolve keeps_node_ap_add keeps_node_ap_remove keeps_call_destroy : keeps.
Hint Resolve quiet_find_by_id : quiet.

(** The interface comes from the cache. *)
Lemma keeps_connection_create i1 c1 i2 c2 : keeps (connection_create i1 c1 i2 c2) (λ _, True).
Proof.
  unfold connection_create. destruct (connection_ends i1 c1 i2 c2) as [[[nid cport] ap_cport]|]; [|solve_keeps].
  intros s Hs. unfold wlp. pose proof (inv_nodes _ Hs) as Hwf.
  step_with (gb_interface_find_by_id_spec nid s (nw_cache _ Hwf)).
  destruct (decide (interface_of s nid = NullIntf)) as [|Hnull]; [done|].
  destruct (call_create_connection_spec nid cport s Hwf Hnull) as (ret & s1 & Hcall & Hwf1 & Hsame & _).
  step_with Hcall. assert (Hs1 : fw_inv s1) by (by apply (fw_inv_elsewhere s)).
  assert (Hrest : keeps (if ret <? 0 then mret ret else
    r ← node_ap_add ap_cport cport (interface_of s nid); if r <? 0 then mret r else mret 0) (λ _, True)).
  { solve_keeps. }
  exact (Hrest s1 Hs1).
Qed.

Lemma keeps_connection_destroy i1 c1 i2 c2 : keeps (connection_destroy i1 c1 i2 c2) (λ _, True).
Proof. unfold connection_destroy. solve_keeps. Qed.
End Nodes.

#[export] Hint Resolve keeps_set_map keeps_destroy_interface keeps_node_ap_add keeps_node_ap_remove
  keeps_call_destroy keeps_connection_create keeps_connection_destroy
  keeps_deinit_from : keeps.
#[export] Hint Resolve quiet_find_by_id : quiet.

(** ** Messages *)

Section Messages.
Context `{Config, !ConfigOk _, Crc16, KHeap, !KHeapLaws, KSlab, !KSlabLaws, Sockets, !SocketsLaws,
          Stack, !StackLaws}.
Context (cs : Z → Z → Z → M fw Z) (Hcs : quiet_to_ap cs).

Lemma keeps_module_removed inf : keeps (svc_send_module_removed cs inf) (λ _, True).
Proof.
  assert (Hreq : ∀ r : gb_svc_module_removed_request, keeps (control_send_request cs (to_wire r)
    (sizeof gb_svc_module_removed_request) GB_SVC_TYPE_MODULE_REMOVED) (λ _, True)).
  { intros r. apply keeps_quiet, quiet_control_send_request; [done|apply to_wire_bytes|done]. }
  unfold svc_send_module_removed. solve_keeps.
Qed.
Hint Resolve keeps_module_removed : keeps.

Lemma keeps_removed_by_sock sock : keeps (svc_send_module_removed_by_sock cs sock) (λ _, True).
Proof. unfold svc_send_module_removed_by_sock. solve_keeps. Qed.
Hint Resolve keeps_removed_by_sock : keeps.

Lemma keeps_message_send sock msg cport : keeps (gb_message_send cs sock msg cport) (λ _, True).
Proof. unfold gb_message_send. solve_keeps. Qed.
Hint Resolve keeps_message_send : keeps.

Lemma keeps_node_inf_write ctrl msg cport : keeps (node_inf_write cs ctrl msg cport) (λ _, True).
Proof. unfold node_inf_write. solve_keeps. Qed.

Lemma keeps_svc_response msg pl n status :
  bytes pl → is_u8 status → keeps (svc_response_helper cs msg pl n status) (λ _, True).
Proof. intros Hpl Hst. by apply keeps_quiet, quiet_svc_response_helper. Qed.

Lemma keeps_gb_handle_msg msg : keeps (gb_handle_msg cs msg) (λ _, True).
Proof.
  assert (Hr : ∀ pl n status, bytes pl → is_u8 status → keeps (svc_response_helper cs msg pl n status) (λ _, True)).
  { intros pl n status. apply keeps_svc_response. }
  assert (Hreq : ∀ r : gb_svc_hello_request, keeps (control_send_request cs (to_wire r)
    (sizeof gb_svc_hello_request) GB_SVC_TYPE_SVC_HELLO) (λ _, True)).
  { intros r. apply keeps_quiet, quiet_control_send_request; [done|apply to_wire_bytes|done]. }
  unfold gb_handle_msg, svc_empty_request_handler, svc_connection_create_handler,
    svc_connection_destroy_handler, svc_dme_peer_get_handler, svc_dme_peer_set_handler,
    svc_intf_set_pwrm_handler, svc_pwrm_get_rail_count_handler, svc_intf_vsys_enable_disable_handler,
    svc_interface_refclk_enable_disable_handler, svc_interface_unipro_enable_disable_handler,
    svc_interface_activate_handler, svc_interface_resume_handler, svc_version_response_handler,
    svc_send_hello, svc_hello_response_handler, svc_module_inserted_response_handler,
    svc_module_removed_response_handler.
  solve_keeps; first [apply Hreq|apply Hr; [first [apply to_wire_bytes|by apply Forall_nil_2]|done]].
Qed.
Hint Resolve keeps_gb_handle_msg : keeps.

Lemma keeps_svc_inf_write ctrl msg cport : keeps (svc_inf_write cs ctrl msg cport) (λ _, True).
Proof. unfold svc_inf_write. solve_keeps. Qed.

Lemma keeps_call_write intf msg cport : keeps (call_write cs intf msg cport) (λ _, True).
Proof.
  unfold call_write. apply (keeps_bind _ _ (λ _, True)); [apply keeps_quiet; solve_quiet|intros i _].
  destruct (write i); [apply keeps_svc_inf_write|by apply keeps_quiet, quiet_intf_write|apply keeps_node_inf_write].
Qed.
End Messages.

(** ** The bridge and the frames *)

Section Frames.
Context `{Config, !ConfigOk _, Crc16, KHeap, !KHeapLaws, KSlab, !KSlabLaws, Sockets, !SocketsLaws,
          Stack, !StackLaws}.
Implicit Types s : fw.

Lemma quiet_connection_send_to_ap fuel : quiet_to_ap (connection_send_fuel (S fuel)).
Proof.
  intros intf_id cport msg Hne. rewrite connection_send_S, (proj2 (Z.eqb_neq _ _) Hne). solve_quiet.
Qed.

Lemma keeps_connection_send intf_id cport msg : keeps (connection_send intf_id cport msg) (λ _, True).
Proof.
  unfold connection_send. rewrite connection_send_S. destruct (intf_id =? AP_INF_ID).
  - apply (keeps_bind _ _ (λ _, True)); [apply keeps_quiet; solve_quiet|intros map _].
    apply (keeps_bind _ _ (λ _, True)); [apply keeps_quiet; solve_quiet|intros it _].
    apply keeps_call_write, quiet_connection_send_to_ap.
  - apply keeps_quiet. solve_quiet.
Qed.
Hint Resolve keeps_connection_send : keeps.

Lemma quiet_to_ap_connection_send : quiet_to_ap connection_send.
Proof. apply (quiet_connection_send_to_ap 1). Qed.

Lemma of_wire_block_header bs :
  bytes bs → (8 <= length bs)%nat →
  let hdr : gb_operation_msg_hdr := of_wire bs in
  is_u8 (hdr_type hdr) ∧ is_u16 (hdr_operation_id hdr) ∧ is_u8 (hdr_result hdr).
Proof.
  intros Hb Hl hdr. pose proof (of_wire_header_range bs Hb Hl) as Hr. fold hdr in Hr.
  destruct hdr. apply in_range_header in Hr. tauto.
Qed.

Lemma keeps_greybus_frame buffer len :
  bytes buffer → keeps (hdlc_process_greybus_frame buffer len) (λ _, True).
Proof.
  intros Hb. unfold hdlc_process_greybus_frame.
  eapply keeps_bind; [apply keeps_quiet, quiet_reads, reads_read_struct|].
  intros hdr [Hl ->]. destruct (of_wire_block_header (drop 2 buffer)) as (Ht & Hid & Hst);
    [by apply Forall_drop|exact Hl|].
  assert (Hw : ∀ msg n, quiet (zoom L_messages (msg_write_payload msg (drop 10 buffer) n)) (λ _, True)).
  { intros msg n. by apply quiet_write_payload, Forall_drop. }
  unfold ap_rx_submit. solve_keeps.
Qed.

Lemma keeps_node_destroy_all : keeps node_destroy_all (λ _, True).
Proof.
  intros s Hs. unfold wlp.
  destruct (node_destroy_all_cases s (inv_nodes _ Hs)) as (gone & s1 & Hgone & _ & Hwf' & ->).
  destruct (_ =? 0); [|done]. split; [|done]. apply (fw_inv_elsewhere s); [|done|done].
  by destruct (ag_same _ _ _ Hgone).
Qed.
Hint Resolve keeps_node_destroy_all : keeps.

Lemma keeps_discovery_start {I} `{!TablesInv I} : maintains I tcp_discovery_start (λ _, True).
Proof.
  assert (Hopen : maintains I (zoom L_net (mdns_socket_open_ipv6 mdns_addr)) (λ _, True)).
  { apply keeps_quiet, quiet_zoom_net. intros n. unfold wlp.
    by destruct (mdns_socket_open_ipv6_runs mdns_addr n) as (sock & n' & ->). }
  unfold tcp_discovery_start. solve_keeps.
Qed.

Lemma keeps_discovery_stop {I} `{!TablesInv I} : maintains I tcp_discovery_stop (λ _, True).
Proof.
  assert (Hclose : ∀ sock, maintains I (zoom L_net (mdns_socket_close sock)) (λ _, True)).
  { intros sock. by apply keeps_quiet, quiet_zoom_net. }
  unfold tcp_discovery_stop. solve_keeps.
Qed.
Hint Resolve keeps_discovery_start keeps_discovery_stop : keeps.

Lemma keeps_send_version : keeps (svc_send_version connection_send) (λ _, True).
Proof.
  apply keeps_quiet. unfold svc_send_version.
  apply quiet_control_send_request; [apply quiet_to_ap_connection_send|apply to_wire_bytes|done].
Qed.
Hint Resolve keeps_send_version : keeps.

Lemma keeps_control_frame buffer len : keeps (control_process_frame buffer len) (λ _, True).
Proof.
  unfold control_process_frame, svc_init, svc_deinit, ap_init, ap_deinit, apbridge_init, apbridge_deinit.
  solve_keeps.
Qed.

Lemma keeps_complete_frame buffer len address :
  bytes buffer → keeps (Main.hdlc_process_complete_frame buffer len address) (λ _, True).
Proof.
  intros Hb. unfold Main.hdlc_process_complete_frame.
  destruct (address =? ADDRESS_GREYBUS); [by apply keeps_greybus_frame|].
  destruct (address =? ADDRESS_CONTROL); [apply keeps_control_frame|]. solve_keeps.
Qed.
End Frames.

#[export] Hint Resolve keeps_connection_send keeps_node_destroy_all keeps_discovery_start keeps_discovery_stop
  keeps_send_version : keeps.

(** ** The receiver *)

Section Receiver.
Context `{Config, !ConfigOk _, Crc16, KHeap, !KHeapLaws, KSlab, !KSlabLaws, Sockets, !SocketsLaws,
          Stack, !StackLaws}.
Implicit Types s : fw.

(** The buffer with a byte more, and its length. *)
Lemma driver_wf_store d buf byte :
  driver_wf d → is_u8 byte →
  0 <= rx_buffer_len d < length (rx_buffer d) ∧ buf = <[Z.to_nat (rx_buffer_len d) := byte]> (rx_buffer d) →
  (∀ d', driver_wf d' → driver_wf (set_rx_buffer buf d')) ∧
  0 <= u16 (rx_buffer_len d + 1) <= HDLC_MAX_BLOCK_SIZE.
Proof.
  intros [Ha Hl Hb] Hbyte [Hi ->]. split.
  - intros d' [Ha' Hl' Hb']. split; cbn; [by rewrite length_insert|done|by apply Forall_insert].
  - pose proof hdlc_block_ok. unfold HDLC_MAX_BLOCK_SIZE in *. rewrite u16_id by (unfold is_u16; lia). lia.
Qed.

Lemma keeps_save_byte byte : is_u8 byte → keeps (hdlc_save_byte L_hdlc byte) (λ _, True).
Proof.
  intros Hbyte. unfold hdlc_save_byte. eapply keeps_bind; [apply keeps_get_driver|intros d0 _].
  apply (keeps_bind _ _ (λ _, True)); [solve_keeps|intros _ _].
  eapply keeps_bind; [apply keeps_get_driver|intros d Hd].
  eapply keeps_bind; [apply keeps_quiet, quiet_reads, reads_array_set|]. intros buf Hbuf.
  destruct (driver_wf_store d buf byte Hd Hbyte Hbuf) as [Hset Hlen].
  apply (keeps_bind _ _ (λ _, True)); [by apply keeps_driver|intros _ _].
  apply (keeps_bind _ _ (λ _, True)); [by apply keeps_driver_len|intros _ _; by apply keeps_ret].
Qed.

Lemma keeps_deliver :
  keeps (Hdlc.hdlc_process_complete_frame L_hdlc Main.hdlc_process_complete_frame) (λ _, True).
Proof.
  unfold Hdlc.hdlc_process_complete_frame. eapply keeps_bind; [apply keeps_get_driver|intros d [Ha Hl Hb]].
  apply (keeps_bind _ _ (λ _, True)); [apply keeps_quiet; solve_quiet|intros address _].
  apply (keeps_bind _ _ (λ _, True)); [|intros ret _; by apply keeps_ret].
  by apply keeps_complete_frame, Forall_drop.
Qed.
Hint Resolve keeps_deliver : keeps.

Lemma keeps_process_frame :
  keeps (hdlc_process_frame L_hdlc Main.hdlc_process_complete_frame) (λ _, True).
Proof. unfold hdlc_process_frame. solve_keeps. Qed.

Lemma keeps_input_byte byte :
  is_u8 byte → keeps (hdlc_rx_input_byte L_hdlc Main.hdlc_process_complete_frame byte) (λ _, True).
Proof.
  intros Hb. unfold hdlc_rx_input_byte. eapply keeps_bind; [apply keeps_get_driver|intros d _].
  destruct (byte =? HDLC_FRAME).
  { destruct (negb _); [apply keeps_process_frame|by apply keeps_ret]. }
  destruct (byte =? HDLC_ESC); [apply keeps_driver_esc|].
  apply (keeps_bind _ _ is_u8).
  { destruct (next_escaped d); [|by apply keeps_ret].
    apply (keeps_bind _ _ (λ _, True)); [apply keeps_driver_esc|intros _ _].
    apply keeps_ret. by apply lxor_is_u8. }
  intros byte' Hb'. apply (keeps_bind _ _ (λ _, True)); [by apply keeps_driver_flags|intros _ _].
  apply (keeps_bind _ _ (λ _, True)); [by apply keeps_save_byte|intros _ _; by apply keeps_ret].
Qed.

Lemma keeps_receive_bytes bs : bytes bs → keeps (receive_bytes bs) (λ _, True).
Proof.
  intros Hbs. unfold receive_bytes, hdlc_process_buffer.
  apply (keeps_bind _ _ (λ _, True)); [|intros _ _; by apply keeps_ret].
  induction Hbs as [|b bs Hb Hbs IH]; cbn [process_bytes]; [by apply keeps_ret|].
  apply (keeps_bind _ _ (λ _, True)); [by apply keeps_input_byte|intros _ _; apply IH].
Qed.
End Receiver.

(** ** The threads *)

Section Threads.
Context `{Config, !ConfigOk _, Crc16, KHeap, !KHeapLaws, KSlab, !KSlabLaws, Sockets, !SocketsLaws,
          Stack, !StackLaws}.
Implicit Types s : fw.

Lemma quiet_message_receive sock flag : quiet (gb_message_receive sock flag) (λ _, True).
Proof.
  unfold gb_message_receive.
  eapply quiet_bind; [apply quiet_read_data|]. intros [ret cport] _.
  destruct (negb _); [by apply quiet_ret|]. cbv zeta.
  eapply quiet_bind; [apply quiet_read_data|]. intros [ret' bs] [Hb Hl]. cbn [fst snd] in *.
  destruct (Z.eqb_spec ret' (sizeof gb_operation_msg_hdr)) as [Hret|]; cbn [negb]; [|by apply quiet_ret].
  specialize (Hl ltac:(done) Hret). change (sizeof gb_operation_msg_hdr : Z) with 8 in Hl.
  destruct (of_wire_block_header bs) as (Ht & Hid & Hst); [done|lia|].
  apply (quiet_bind _ _ (λ _, True)); [by apply quiet_alloc|intros msg _].
  destruct (msg =? NULL); [by apply quiet_ret|].
  eapply quiet_bind; [apply quiet_msg_deref|]. intros m _.
  eapply quiet_bind; [apply quiet_read_data|]. intros [ret'' pl] [Hpl _]. cbn [fst snd] in *.
  destruct (negb _); [solve_quiet|]. apply (quiet_bind _ _ (λ _, True)); [by apply quiet_write_payload|].
  intros [] _. by apply quiet_ret.
Qed.

Lemma keeps_removed inf : keeps (svc_send_module_removed connection_send inf) (λ _, True).
Proof. apply keeps_module_removed, quiet_to_ap_connection_send. Qed.

Lemma keeps_sock_removed sock : keeps (svc_send_module_removed_by_sock connection_send sock) (λ _, True).
Proof. apply keeps_removed_by_sock, quiet_to_ap_connection_send. Qed.
Hint Resolve keeps_removed keeps_sock_removed : keeps.
Hint Resolve quiet_message_receive : quiet.

Lemma keeps_rx_socket flag fd revents : keeps (node_rx_socket flag fd revents) (λ _, True).
Proof. unfold node_rx_socket. solve_keeps. Qed.
Hint Resolve keeps_rx_socket : keeps.

Lemma keeps_rx_sockets flag fds : keeps (node_rx_sockets flag fds) (λ _, True).
Proof.
  revert flag. induction fds as [|[fd revents] fds IH]; intros flag; cbn [node_rx_sockets]; solve_keeps.
Qed.
Hint Resolve keeps_rx_sockets : keeps.

Lemma quiet_populate_fds n i : quiet (populate_fds n i) (λ _, True).
Proof. revert i. induction n as [|n IH]; intros i; cbn [populate_fds]; solve_quiet. Qed.
Hint Resolve quiet_populate_fds : quiet.

Lemma quiet_recv_byte sock : quiet (sock_recv sock 1) (λ _, True).
Proof. eapply quiet_weaken, quiet_sock_recv. lia. Qed.
Hint Resolve quiet_recv_byte : quiet.

Lemma keeps_rx_iteration pipe flag : keeps (node_rx_iteration pipe flag) (λ _, True).
Proof. unfold node_rx_iteration. solve_keeps. Qed.
Hint Resolve keeps_rx_iteration : keeps.

Lemma keeps_rx_thread_step t : keeps (node_rx_thread_step t) (λ _, True).
Proof. unfold node_rx_thread_step, svc_is_ready. solve_keeps. Qed.

Lemma quiet_module_inserted nid : quiet (svc_send_module_inserted connection_send nid) (λ _, True).
Proof.
  unfold svc_send_module_inserted.
  apply quiet_control_send_request; [apply quiet_to_ap_connection_send|apply to_wire_bytes|done].
Qed.
Hint Resolve quiet_module_inserted : quiet.

(** Telling the AP of a new node. *)
Lemma quiet_announce inf :
  quiet (i ← zoom L_interfaces (intf_deref inf);
         ret ← svc_send_module_inserted connection_send (id i); mret ()) (λ _, True).
Proof. solve_quiet. Qed.

(** Interface ids repeat after 253 nodes: the next [n] are different and none of
    them is that of a live node. *)
Definition ids_free (n : nat) s : Prop :=
  NoDup (next_ids n (interface_id_counter (fw_interfaces s))) ∧
  Forall (λ i, cache_map (fw_nodes s) !! i = None) (next_ids n (interface_id_counter (fw_interfaces s))).

Lemma ids_free_tables n s s' :
  fw_nodes s' = fw_nodes s → fw_interfaces s' = fw_interfaces s → ids_free n s → ids_free n s'.
Proof. unfold ids_free. by intros -> ->. Qed.

Lemma next_ids_app n m c :
  ∃ c', next_ids (n + m) c = next_ids n c ++ next_ids m c'.
Proof.
  revert c. induction n as [|n IH]; intros c; [by exists c|].
  destruct (IH (snd (new_interface_id c))) as [c' Hc']. exists c'. cbn [next_ids Nat.add app]. by rewrite Hc'.
Qed.

Lemma ids_free_weaken n m s : (n <= m)%nat → ids_free m s → ids_free n s.
Proof.
  intros Hn [Hnd Hfree]. destruct (next_ids_app n (m - n) (interface_id_counter (fw_interfaces s))) as [c Hc].
  replace (n + (m - n))%nat with m in Hc by lia. rewrite Hc in *.
  apply NoDup_app in Hnd as [Hnd _]. apply Forall_app in Hfree as [Hfree _]. by split.
Qed.

(** A created node uses up one of the free ids. *)
Lemma wlp_node_create n addr s :
  fw_inv s → ids_free (S n) s → wlp (node_create_interface addr) (λ _ s', fw_inv s' ∧ ids_free n s') s.
Proof.
  intros Hs [Hnd Hfree]. pose proof (inv_nodes _ Hs) as Hwf. cbn [next_ids] in *.
  apply NoDup_cons in Hnd as [Hnew Hnd]. apply Forall_cons in Hfree as [Hid Hfree].
  destruct (new_interface_id_range _ (iwf_counter _ (nw_interfaces _ Hwf))) as [Hc _]. rewrite Hc in *.
  unfold wlp. destruct (node_create_interface_cases s addr Hwf Hid)
    as [[-> _]|(r & s' & Hrun & Hwf' & Hsame & _ & Hout)]; [done|].
  rewrite Hrun. split; [by apply (fw_inv_elsewhere s)|].
  assert (Hsmaller : ids_free n s).
  { apply (ids_free_weaken n (S n)); [lia|].
    unfold ids_free. cbn [next_ids]. rewrite Hc. by split; [apply NoDup_cons|apply Forall_cons]. }
  inversion Hout as [Hfull|? c Hfull Hn Hi|? p c Hent _ _ _ _ Hctr]; subst.
  - done.
  - by apply (ids_free_tables n s).
  - unfold ids_free. rewrite Hctr. split; [done|]. apply Forall_forall. intros i Hi.
    rewrite Forall_forall in Hfree. specialize (Hfree i Hi). apply cache_map_lookup_None in Hfree.
    apply cache_map_lookup_None. rewrite Hent. apply Forall_app_2; [done|]. apply Forall_cons_2; [|by apply Forall_nil_2].
    apply Z.eqb_neq. cbn. intros <-. by apply Hnew.
Qed.

Lemma wlp_node_filter addrs s :
  fw_inv s → ids_free (length addrs) s → wlp (node_filter addrs) (λ _ s', fw_inv s') s.
Proof.
  revert s. induction addrs as [|addr addrs IH]; intros s Hs Hfree; [done|]. cbn [node_filter length] in *.
  apply wlp_bind, (wlp_mono _ (λ _ s', s' = s)).
  { pose proof (find_loop_spec (λ it, net_ipv6_addr_cmp (ni_addr it) addr) (fw_nodes s)
      (nw_cache _ (inv_nodes _ Hs))) as Hfind. unfold wlp.
    by rewrite (zoom_read L_nodes (node_cache_find_by_addr addr) s _ Hfind). }
  intros ret _ ->. apply wlp_bind, (wlp_mono _ (λ _ s', fw_inv s' ∧ ids_free (length addrs) s'));
    [|intros [] s' []; by apply IH].
  destruct (ret <? 0); cycle 1. { split; [done|]. by apply (ids_free_weaken _ (S (length addrs))); [lia|]. }
  apply wlp_bind, (wlp_mono _ _ _ _ (wlp_node_create (length addrs) addr s Hs Hfree)).
  intros inf s' [Hs' Hfree']. destruct (decide (inf = NullIntf)); [done|].
  apply (wlp_mono _ _ _ _ (quiet_announce inf s' (lw_messages _ (inv_link _ Hs')))).
  intros [] s2 (Hm & Ht & _). split; [by apply (tables_inv_tables s')|].
  unfold fw_tables in Ht. injection Ht as _ Hi _ Hn _ _ _ _ _. by apply (ids_free_tables _ s').
Qed.

(** A round of discovery with mDNS keeps the invariant, unless the network keeps
    the thread receiving. *)
Lemma mdns_round_outcome fuel s :
  fw_inv s → ids_free (Z.to_nat MAX_GREYBUS_NODES) s →
  wlp (mdns_round fuel) (λ _ s', fw_inv s') s ∨
  0 <= tcp_discovery_sock s ∧ ∃ ret n1 nodes, length nodes = Z.to_nat MAX_GREYBUS_NODES ∧
    query_sent service (tcp_discovery_sock s) (fw_net s) ret n1 ∧
    mdns_query_recv fuel (tcp_discovery_sock s) nodes (length nodes) query (length query) 2000 n1
    = Crash Diverge ∧ mdns_round fuel s = Crash Diverge.
Proof.
  intros Hs Hfree. unfold mdns_round, wlp. step_getL L_discovery_sock.
  destruct (Z.ltb_spec (tcp_discovery_sock s) 0) as [|Hsock]; [by left|].
  destruct (query_send_ok s) as (ret & n1 & Hsend & Hsent). step_zoom L_net (Hsend : _ (view L_net s) = _).
  assert (Hnet : ∀ n, fw_inv (store L_net n s)).
  { intros n. apply (tables_inv_tables s); [done| |done]. apply Hs. }
  destruct (ret <? 0); [left; apply Hnet|]. set (nodes := replicate _ _).
  pose proof max_nodes_ok as Hmax. fold MAX_GREYBUS_NODES in Hmax.
  assert (Hlen : MAX_GREYBUS_NODES = length nodes) by (unfold nodes; rewrite length_replicate; lia).
  destruct (query_recv_outcome query query_fits fuel (tcp_discovery_sock s) nodes 2000 n1)
    as [(total & list & n' & Hrun & Ht & Hl)|[Hrun|Hrun]]; rewrite <-?Hlen in *; [lia|..].
  - left. step_zoom L_net (Hrun : _ (view L_net (store L_net n1 s)) = _).
    destruct (i32 total <? 0); [apply Hnet|]. apply wlp_node_filter; [apply Hnet|].
    apply (ids_free_weaken _ (Z.to_nat MAX_GREYBUS_NODES)); [rewrite length_take; lia|done].
  - left. by rewrite (M_bind_Crash _ _ _ _ (zoom_Crash L_net _ (store L_net n1 s) _ Hrun)).
  - right. split; [done|]. exists ret, n1, nodes. rewrite <-Hlen. split; [lia|]. split; [done|]. split; [done|].
    by rewrite (M_bind_Crash _ _ _ _ (zoom_Crash L_net _ (store L_net n1 s) _ Hrun)).
Qed.
End Threads.

#[export] Hint Resolve keeps_removed keeps_sock_removed keeps_rx_thread_step : keeps.
#[export] Hint Resolve quiet_populate_fds quiet_recv_byte quiet_module_inserted : quiet.

(** ** The system *)

Section System.
Context `{Config, !ConfigOk _, Crc16, !Crc16Laws, KHeap, !KHeapLaws, KSlab, !KSlabLaws, Sockets, !SocketsLaws,
          Stack, !StackLaws, UartDevice, LogOutput, !LogOutputLaws BUFFER_LEN}.
Implicit Types s : fw.

(** What can happen: received bytes are processed, the receive thread runs, the
    discovery thread makes a round, something is logged. *)
Inductive event :=
| Received (bs : list Z)
| RxThread
| Discovery (addr6 : list Z) (fuel : nat)
| Logged (calls : list log_call).

(** The most addresses a round of discovery reports. *)
Definition reported : nat :=
  if CONFIG_BEAGLEPLAY_GREYBUS_MDNS_DISCOVERY then Z.to_nat MAX_GREYBUS_NODES else 1.

Definition event_ok (e : event) s : Prop :=
  match e with
  | Received bs => bytes bs
  | Discovery _ _ => tcp_discovery_running s = true ∧ ids_free reported s
  | _ => True
  end.

(** The firmware and the state of its receive thread. *)
Definition run_event (e : event) (t : rx_thread) : M fw rx_thread :=
  match e with
  | Received bs => _ ← receive_bytes bs; mret t
  | RxThread => node_rx_thread_step t
  | Discovery addr6 fuel => _ ← handler addr6 fuel; mret t
  | Logged calls => _ ← log_calls calls; mret t
  end.

Inductive fw_step : fw * rx_thread → fw * rx_thread → Prop :=
| fw_step_event e s t s' t' :
    event_ok e s → run_event e t s = Done t' s' → fw_step (s, t) (s', t').

Lemma keeps_log_calls calls : keeps (log_calls calls) (λ _, True).
Proof.
  induction calls as [|call calls IH]; cbn [log_calls]; [by apply keeps_ret|].
  apply (keeps_bind _ _ (λ _, True)); [|intros _ _; apply IH].
  apply keeps_quiet. intros s0 Hs0. unfold wlp. by destruct (log_call_spec call s0) as [ret ->].
Qed.

(** The answers of a round of discovery with mDNS come to an end. *)
Definition event_settles (e : event) s : Prop :=
  match e with
  | Discovery _ fuel =>
      CONFIG_BEAGLEPLAY_GREYBUS_MDNS_DISCOVERY = true → 0 <= tcp_discovery_sock s →
      ∃ open ds, answers_arrive s open ds ∧ (length ds <= fuel)%nat
  | _ => True
  end.

(** A round of discovery runs to its end or faults. *)
Definition discovery_ends (e : event) s : Prop :=
  match e with Discovery addr6 fuel => handler addr6 fuel s ≠ Crash Diverge | _ => True end.

Lemma wlp_handler addr6 fuel s :
  fw_inv s → ids_free reported s → handler addr6 fuel s ≠ Crash Diverge →
  wlp (handler addr6 fuel) (λ _ s', fw_inv s') s.
Proof.
  unfold handler, reported. destruct CONFIG_BEAGLEPLAY_GREYBUS_MDNS_DISCOVERY; intros Hs Hfree Hends.
  - by destruct (mdns_round_outcome fuel s Hs Hfree) as [|(_ & _ & _ & _ & _ & _ & _ & Hrun)].
  - by apply wlp_node_filter.
Qed.

Lemma settled_ends e s : fw_inv s → event_ok e s → event_settles e s → discovery_ends e s.
Proof.
  intros Hs He Hset. destruct e as [| |addr6 fuel|]; try done. cbn [event_ok event_settles discovery_ends] in *.
  unfold handler, reported in *. destruct CONFIG_BEAGLEPLAY_GREYBUS_MDNS_DISCOVERY; intros Hrun.
  - destruct (mdns_round_outcome fuel s Hs (proj2 He)) as [Hk|(Hsock & ret & n1 & nodes & Hlen & Hsent & Hrecv & _)].
    { unfold wlp in Hk. by rewrite Hrun in Hk. }
    destruct (Hset eq_refl Hsock) as (open & ds & Harr & Hfuel). revert Hrecv.
    pose proof max_nodes_ok. apply (answers_received fuel open ds ret n1 nodes s); [done..|].
    rewrite Hlen. unfold MAX_GREYBUS_NODES. lia.
  - pose proof (wlp_node_filter [addr6] s Hs (proj2 He)) as Hk. unfold wlp in Hk.
    unfold static_round in Hrun. by rewrite Hrun in Hk.
Qed.

Lemma event_keeps e t s :
  fw_inv s → event_ok e s → discovery_ends e s → wlp (run_event e t) (λ _ s', fw_inv s') s.
Proof.
  intros Hs He Hends. destruct e as [bs| |addr6 fuel|calls]; cbn [run_event event_ok discovery_ends] in *.
  - apply wlp_bind, (wlp_mono _ _ _ _ (keeps_receive_bytes bs He s Hs)). by intros a s' [Hs' _].
  - apply (wlp_mono _ _ _ _ (keeps_rx_thread_step t s Hs)). by intros a s' [Hs' _].
  - apply wlp_bind, (wlp_mono _ _ _ _ (wlp_handler addr6 fuel s Hs (proj2 He) Hends)). done.
  - apply wlp_bind, (wlp_mono _ _ _ _ (keeps_log_calls calls s Hs)). by intros a s' [Hs' _].
Qed.

(** Faults aside, a step leads from the invariant to the invariant. *)
Lemma fw_steps_keep c c' : rtc fw_step c c' → fw_inv c.1 → fw_inv c'.1.
Proof.
  induction 1 as [c|c c1 c' Hstep Hrest IH]; intros Hs; [done|]. apply IH.
  destruct Hstep as [e s t s' t' He Hrun]. cbn [fst] in *.
  assert (Hends : discovery_ends e s).
  { destruct e as [| |addr6 fuel|]; try done. cbn [discovery_ends]. apply (bind_ends _ (λ _, mret t)).
    cbn [run_event] in Hrun. by rewrite Hrun. }
  pose proof (event_keeps e t s Hs He Hends) as Hk. unfold wlp in Hk. by rewrite Hrun in Hk.
Qed.

(** The invariant holds when main goes to sleep. *)
Lemma main_inv heap interface_slab control_slab n port s port' :
  k_heap_live heap = ∅ → slab_live interface_slab = ∅ → slab_live control_slab = ∅ →
  slab_blocks control_slab = MAX_GREYBUS_NODES →
  main (fw_statics heap interface_slab control_slab n, port) = Done None (s, port') → fw_inv s.
Proof.
  intros Hh Hi Hc Hb Hmain.
  destruct (main_outcome heap interface_slab control_slab n Hh Hi Hc Hb port)
    as (r & s0 & port0 & Hrun & _ & _ & _ & Hlink & Hnodes & _ & _ & _ & Hcase).
  rewrite Hmain in Hrun. injection Hrun as <- <- <-.
  destruct (negb device_is_ready); [by destruct Hcase|]. destruct Hcase as (Hd & _ & _).
  split; [|done|done]. rewrite Hd. pose proof hdlc_block_ok. split; cbn.
  - rewrite length_replicate. unfold HDLC_MAX_BLOCK_SIZE. lia.
  - unfold HDLC_MAX_BLOCK_SIZE. lia.
  - by apply Forall_replicate.
Qed.

(** From the moment main goes to sleep, whatever bytes arrive on the UART, whatever the
    receive thread reads, whatever rounds discovery makes (static or with mDNS, whatever
    answers) and whatever is logged, in any order: the HDLC driver's buffer stays within bounds,
    the AP's table keeps its size, live messages are exactly the allocated blocks and are well
    formed, and the node cache, interfaces and control data stay in step. Events that fault end
    a run; excluded are rounds of discovery while one of the next interface ids it may give out
    belongs to a live node. *)
Theorem firmware_invariant heap interface_slab control_slab n port s port' s' t' :
  k_heap_live heap = ∅ → slab_live interface_slab = ∅ → slab_live control_slab = ∅ →
  slab_blocks control_slab = MAX_GREYBUS_NODES →
  main (fw_statics heap interface_slab control_slab n, port) = Done None (s, port') →
  rtc fw_step (s, RxWaiting) (s', t') → fw_inv s'.
Proof.
  intros Hh Hi Hc Hb Hmain Hsteps. apply (fw_steps_keep _ _ Hsteps).
  by apply (main_inv heap interface_slab control_slab n port s port').
Qed.

(** C11: In every state that satisfies the firmware's invariant, each event (bytes received, a
    round of the receive thread, a round of discovery, log calls) runs to its end and re-
    establishes the invariant, or stops with one of the memory faults or failed assertions the
    code can commit (among them that an allocator hands out the address of a local variable,
    which the removal of a node put on the slab's free list); it never loops for ever. A round
    of discovery is one of the running thread while no interface id it may give out next belongs
    to a live node; with mDNS the socket must work and the datagrams that arrive be at most as
    many as the fuel, whatever they hold. *)
Theorem firmware_event_ends e t s :
  fw_inv s → event_ok e s → event_settles e s →
  (∃ t' s', run_event e t s = Done t' s' ∧ fw_inv s') ∨ ∃ f, run_event e t s = Crash f ∧ f ≠ Diverge.
Proof.
  intros Hs He Hset. pose proof (event_keeps e t s Hs He (settled_ends e s Hs He Hset)) as Hk. unfold wlp in Hk.
  destruct (run_event e t s) as [t' s'|f]; [left; by exists t', s'|right; by exists f].
Qed.
End System.
