(* ===== verification/MemInv.v ===== *)
(** * What no interleaving can break

    Between any two pieces of the firmware's threads the tables may be out of
    step ([CacheRace], [ConnectRace]), and [nodes_wf] does not hold.  [mem_inv]
    is what remains: bounds, messages, and that the interface pointers in the
    node cache and in the bridge's table lead to interfaces with control data.
    The interfaces and control data only grow ([grows]), as nothing frees them. *)

From S2P Require Import Prelude Config Protocols Hdlc Kernel Messages Interfaces NodeCache CacheRace State.
From S2P Require Import ApMap NodeLink NodeLife Ap LocalNode Routes Svc Quiet NodeTx Bridge NodeRx Resume.
From S2P Require Import NodeThreads Invariant.

(** NULL, a static interface or one that was allocated. *)
Definition intf_ok `{KHeap, KSlab, Sockets} (s : fw) (inf : intf_ptr) : Prop :=
  ∀ p, inf = SlabIntf p → is_Some (intf_store (fw_interfaces s) !! p).

Record mem_inv `{Config, KHeap, KSlab, Sockets} (s : fw) : Prop := {
  mi_driver : driver_wf (fw_hdlc s);
  mi_link : link_wf s;
  mi_array : (length (nc_items (fw_nodes s)) : Z) = MAX_GREYBUS_NODES;
  mi_cached it : it ∈ nc_items (fw_nodes s) → intf_ok s (ni_inf it);
  mi_routed it : it ∈ fw_ap_map s → intf_ok s (node_intf it);
  mi_interfaces : interfaces_wf (fw_interfaces s);
  mi_controls : controls_wf (fw_controls s);
  mi_stored p i : intf_store (fw_interfaces s) !! p = Some i → node_interface s i;
}.

(** Interfaces stay what they are, and control data stays where it is. *)
Record grows `{KHeap, KSlab, Sockets} (s s' : fw) : Prop := {
  gr_interfaces : intf_store (fw_interfaces s) ⊆ intf_store (fw_interfaces s');
  gr_controls p : is_Some (ctrl_store (fw_controls s) !! p) → is_Some (ctrl_store (fw_controls s') !! p);
}.

Section MemInv.
Context `{Config, !ConfigOk _, Crc16, KHeap, !KHeapLaws, KSlab, !KSlabLaws, Sockets, !SocketsLaws,
          Stack, !StackLaws}.
Implicit Types s : fw.

#[export] Instance grows_preorder : PreOrder grows.
Proof.
  split; [by intros s|]. intros s1 s2 s3 [Hi1 Hc1] [Hi2 Hc2]. split; [by etrans|auto].
Qed.

Lemma grows_stores s s' :
  fw_interfaces s' = fw_interfaces s → fw_controls s' = fw_controls s → grows s s'.
Proof. intros Hi Hc. split; [by rewrite Hi|by intros p; rewrite Hc]. Qed.

Lemma intf_ok_grows s s' inf : grows s s' → intf_ok s inf → intf_ok s' inf.
Proof. intros [Hi _] Hok p Hp. destruct (Hok p Hp) as [i Hl]. exists i. by eapply lookup_weaken. Qed.

Lemma node_interface_grows s s' i : grows s s' → node_interface s i → node_interface s' i.
Proof. intros [_ Hc] [Hi Hl]. split; auto. Qed.

Lemma intf_ok_null s : intf_ok s NullIntf.
Proof. by intros p Hp. Qed.

Lemma mem_inv_same s s' :
  driver_wf (fw_hdlc s') → messages_wf (fw_messages s') → fw_ap_map s' = fw_ap_map s →
  fw_nodes s' = fw_nodes s → fw_interfaces s' = fw_interfaces s → fw_controls s' = fw_controls s →
  mem_inv s → mem_inv s'.
Proof.
  intros Hd Hm Hap Hn Hi Hc [_ [Hmap _] Ha He Hr Hiw Hcw Hst]. pose proof (grows_stores s s' Hi Hc) as Hg.
  split; rewrite ?Hap, ?Hn, ?Hi, ?Hc; try done.
  - split; [by rewrite Hap|done].
  - intros it Hit. by apply (intf_ok_grows s), He.
  - intros it Hit. by apply (intf_ok_grows s), Hr.
  - intros p i Hp. by eapply (node_interface_grows s), Hst.
Qed.

(** *** One piece *)

(** Run from the invariant and what was known in [s0], a piece faults or keeps
    the invariant. *)
Definition safe_from s0 {A} (m : M fw A) (Q : A → fw → Prop) : Prop :=
  ∀ s, mem_inv s → grows s0 s →
    match m s with Done a s' => mem_inv s' ∧ grows s s' ∧ Q a s' | Crash _ => True end.

Definition safe {A} (m : M fw A) (φ : A → Prop) : Prop := ∀ s0, safe_from s0 m (λ a _, φ a).

(** The invariant, with what was known of the stores in [s0]. *)
Definition mem_inv_from s0 s : Prop := mem_inv s ∧ grows s0 s.

#[export] Instance mem_inv_tables_inv s0 : TablesInv (mem_inv_from s0).
Proof.
  split; [by intros s [[] _]|by intros s [[? []] _]|by intros s [[? []] _]|].
  intros s s' Hd Hm Hap Hn Hi Hc [Hs Hg]. split; [by apply (mem_inv_same s)|].
  etrans; [done|by apply grows_stores].
Qed.

Lemma safe_maintains {A} (m : M fw A) φ : (∀ s0, maintains (mem_inv_from s0) m φ) → safe m φ.
Proof.
  intros Hm s0 s Hs _. specialize (Hm s s (conj Hs (reflexivity s))). unfold wlp in Hm.
  destruct (m s); [|done]. by destruct Hm as [[] ?].
Qed.

Lemma safe_quiet {A} (m : M fw A) φ : quiet m φ → safe m φ.
Proof. intros Hm. apply safe_maintains. intros s0. by apply keeps_quiet. Qed.

(** A piece that only changes the network. *)
Lemma safe_net {A} (m : M net A) : safe (zoom L_net m) (λ _, True).
Proof.
  intros s0 s Hs _. unfold zoom. destruct (m (view L_net s)) as [a n|f]; [|done].
  split; [|by split; [apply grows_stores|]].
  apply (mem_inv_same s); try done; [by destruct Hs|]. by destruct (mi_link _ Hs).
Qed.

Lemma safe_ret {A} (a : A) (φ : A → Prop) : φ a → safe (mret a) φ.
Proof. by intros Ha s0 s Hs _. Qed.

Lemma safe_from_bind {A B} s0 (m : M fw A) (k : A → M fw B) φ R :
  safe m φ → (∀ a, φ a → safe_from s0 (k a) R) → safe_from s0 (m ≫= k) R.
Proof.
  intros Hm Hk s Hs Hg0. specialize (Hm s s Hs (reflexivity s)). unfold mbind, M_bind.
  destruct (m s) as [a s1|f]; [|done]. destruct Hm as (Hs1 & Hg & Ha).
  specialize (Hk a Ha s1 Hs1 ltac:(by etrans)). destruct (k a s1) as [b s2|f]; [|done].
  destruct Hk as (Hs2 & Hg2 & Hb). split; [done|]. split; [by etrans|done].
Qed.

(** *** The node cache *)

Lemma mem_inv_nodes s c :
  mem_inv s → length (nc_items c) = length (nc_items (fw_nodes s)) →
  (∀ it, it ∈ nc_items c → intf_ok s (ni_inf it)) → mem_inv (store L_nodes c s).
Proof.
  intros [Hd Hlink Ha He Hr Hi Hc Hst] Hl Hc'. split; cbn; try done; [by destruct Hlink|by rewrite Hl].
Qed.

(** An element of an array comes from one that was overwritten or not. *)
Lemma elem_of_insert_inv {A} (l : list A) i x y : y ∈ <[i := x]> l → y = x ∨ y ∈ l.
Proof.
  intros [j Hj]%list_elem_of_lookup_1.
  destruct (decide (i = j)) as [->|Hne].
  - left. apply lookup_lt_Some in Hj as Hlt. rewrite length_insert in Hlt.
    rewrite list_lookup_insert_eq in Hj by done. by injection Hj.
  - right. rewrite list_lookup_insert_ne in Hj by done. by eapply list_elem_of_lookup_2.
Qed.

(** Entry [j] becomes [f] of entry [i]. *)
Definition array_update (i j : node_cache → Z) (f : node_item → node_item) : M node_cache () :=
  c ← getS;
  it ← array_get (nc_items c) (i c);
  items ← array_set (nc_items c) (j c) (f it);
  putS (NodeCache items (node_cache_pos c)).

Lemma array_update_inv i j f c c' :
  array_update i j f c = Done () c' →
  ∃ it, it ∈ nc_items c ∧ c' = NodeCache (<[Z.to_nat (j c) := f it]> (nc_items c)) (node_cache_pos c).
Proof.
  unfold array_update, getS, mbind at 1, M_bind at 1.
  intros (it & c1 & Hget & (l & c2 & Hset & [= <-])%M_bind_inv)%M_bind_inv. unfold array_get, array_set in *.
  destruct (i c <? 0); [done|]. destruct (nc_items c !! Z.to_nat (i c)) as [x|] eqn:Hx; [|done].
  injection Hget as <- <-.
  destruct (j c <? 0); [done|]. case_decide; [|done]. injection Hset as <- <-.
  exists x. split; [by eapply list_elem_of_lookup_2|done].
Qed.

(** The pointers in the array stay good when the new one is. *)
Lemma safe_array_update s0 i j f :
  (∀ it s, grows s0 s → intf_ok s (ni_inf it) → intf_ok s (ni_inf (f it))) →
  safe_from s0 (zoom L_nodes (array_update i j f)) (λ _ _, True).
Proof.
  intros Hf s Hs Hg. unfold zoom. destruct (array_update i j f (view L_nodes s)) as [[] c'|] eqn:Hrun; [|done].
  apply array_update_inv in Hrun as (it & Hit & ->). cbn [view L_nodes] in *.
  split; [|by split; [apply grows_stores|]]. apply mem_inv_nodes; [done|by cbn; rewrite length_insert|].
  cbn. intros it' [->|Hold]%elem_of_insert_inv; [|by apply (mi_cached s)].
  apply Hf; [done|by apply (mi_cached s)].
Qed.

Lemma safe_assign f : (∀ it, ni_inf (f it) = ni_inf it) → safe (zoom L_nodes (assign_entry f)) (λ _, True).
Proof. intros Hf s0. apply (safe_array_update s0 node_cache_pos node_cache_pos f). intros it s _. by rewrite Hf. Qed.

Lemma safe_assign_inf s0 inf :
  intf_ok s0 inf → safe_from s0 (zoom L_nodes (assign_entry (entry_inf inf))) (λ _ _, True).
Proof.
  intros Hinf. apply (safe_array_update s0 node_cache_pos node_cache_pos). intros it s Hg _.
  by apply (intf_ok_grows s0).
Qed.

Lemma safe_set_sock k sock : safe (zoom L_nodes (node_cache_set_sock k sock)) (λ _, True).
Proof. intros s0. by apply (safe_array_update s0 (λ _, k) (λ _, k) (with_sock sock)). Qed.

Lemma safe_copy_last pos : safe (zoom L_nodes (copy_last pos)) (λ _, True).
Proof. intros s0. by apply (safe_array_update s0 node_cache_pos (λ _, pos) (λ it, it)). Qed.

Lemma safe_set_pos pos : safe (set_cache_pos pos) (λ _, True).
Proof.
  intros s0 s Hs _. cbn. split; [|by split; [apply grows_stores|]].
  apply mem_inv_nodes; [done..|]. by apply mi_cached.
Qed.

Lemma safe_pos : safe cache_pos (λ _, True).
Proof. intros s0 s Hs _. by rewrite cache_pos_ok. Qed.

(** An entry that is read. *)
Lemma safe_cache_at s0 k : safe_from s0 (zoom L_nodes (node_cache_at k)) (λ it s, intf_ok s (ni_inf it)).
Proof.
  intros s Hs _. unfold zoom.
  destruct (node_cache_at k (view L_nodes s)) as [it c'|] eqn:Hrun; [|done].
  revert Hrun. unfold node_cache_at, getS, mbind, M_bind, array_get. cbn [view L_nodes].
  destruct (k <? 0); [done|]. destruct (nc_items (fw_nodes s) !! Z.to_nat k) as [it'|] eqn:Hit; [|done].
  intros [= <- <-]. replace (store L_nodes (fw_nodes s) s) with s by (by destruct s). split; [done|]. split; [done|].
  apply (mi_cached s Hs). by eapply list_elem_of_lookup_2.
Qed.

(** *** Interfaces and control data *)

Lemma insert_keeps (m : gmap Z Z) k v p : is_Some (m !! p) → is_Some (<[k := v]> m !! p).
Proof. intros Hp. rewrite lookup_insert_is_Some'. by right. Qed.

Lemma mem_inv_controls s ct :
  mem_inv s → controls_wf ct →
  (∀ p, is_Some (ctrl_store (fw_controls s) !! p) → is_Some (ctrl_store ct !! p)) →
  mem_inv (store L_controls ct s) ∧ grows s (store L_controls ct s).
Proof.
  intros [Hd Hlink Ha He Hr Hi Hc Hst] Hct Hgrow. assert (Hg : grows s (store L_controls ct s)) by done.
  split; [|done]. split; cbn; try done; [by destruct Hlink|].
  intros p i Hp. by eapply (node_interface_grows s), Hst.
Qed.

Lemma safe_ctrl_alloc s0 :
  safe_from s0 ctrl_alloc (λ r s, ∀ c, r = Some c → is_Some (ctrl_store (fw_controls s) !! c)).
Proof.
  intros s Hs _. destruct (slab_stray (node_control_data_slab (fw_controls s))) eqn:Hst;
    [by rewrite ctrl_alloc_stray|].
  destruct (ctrl_alloc_spec s (mi_controls _ Hs) Hst) as [[-> _]|(c & ct & -> & Hct & _ & Hcs & _)];
    [by split|].
  destruct (mem_inv_controls s ct Hs Hct) as [Hs' Hg].
  { rewrite Hcs. intros p. apply insert_keeps. }
  split; [done|]. split; [done|]. intros c' [= <-]. cbn. rewrite Hcs, lookup_insert_eq. by eexists.
Qed.

Lemma safe_ctrl_free : safe ctrl_free (λ _, True).
Proof.
  intros s0 s Hs _. destruct (ctrl_free_spec s (mi_controls _ Hs)) as (ct & -> & Hct & Hcs & _).
  destruct (mem_inv_controls s ct Hs Hct) as [Hs' Hg]; [by rewrite Hcs|by split].
Qed.

Lemma safe_ctrl_set_sock p sock : safe (ctrl_set_sock p sock) (λ _, True).
Proof.
  intros s0 s Hs _. unfold ctrl_set_sock. destruct (ctrl_sock_reads p s) as [[old Hold]|[f Hf]];
    [|by rewrite (M_bind_Crash _ _ _ _ Hf)].
  rewrite (M_bind_Done _ _ _ _ _ Hold). revert Hold. unfold ctrl_sock. step_getL L_controls.
  destruct (p =? NULL); [done|]. cbn [view L_controls].
  destruct (ctrl_store (fw_controls s) !! p) as [old'|] eqn:Hp; [|done]. intros _.
  rewrite modL_spec. pose proof (mi_controls _ Hs) as [Hlive Hnull Hblocks].
  edestruct (mem_inv_controls s) as [Hs' Hg]; [done| | |by split; [exact Hs'|split; [exact Hg|]]].
  - split; cbn; [|rewrite lookup_insert_ne; [done|by intros ->; rewrite Hnull in Hp]|done].
    rewrite <-Hlive. apply set_eq. intros q. rewrite dom_insert, elem_of_union, elem_of_singleton.
    split; [intros [->|]; [by apply elem_of_dom|done]|by right].
  - cbn. intros q. apply insert_keeps.
Qed.

Lemma mem_inv_interfaces s ifs :
  mem_inv s → interfaces_wf ifs → intf_store (fw_interfaces s) ⊆ intf_store ifs →
  (∀ p i, intf_store ifs !! p = Some i → intf_store (fw_interfaces s) !! p = Some i ∨ node_interface s i) →
  mem_inv (store L_interfaces ifs s) ∧ grows s (store L_interfaces ifs s).
Proof.
  intros [Hd Hlink Ha He Hr Hi Hc Hst] His Hsub Hnew.
  assert (Hg : grows s (store L_interfaces ifs s)) by done.
  split; [|done]. split; cbn; try done; [by destruct Hlink| | |].
  - intros it Hit. by apply (intf_ok_grows s), He.
  - intros it Hit. by apply (intf_ok_grows s), Hr.
  - intros p i Hp. apply (node_interface_grows s); [done|]. destruct (Hnew p i Hp); [by eapply Hst|done].
Qed.

Lemma safe_interface_alloc s0 c :
  is_Some (ctrl_store (fw_controls s0) !! c) →
  safe_from s0 (zoom L_interfaces (gb_interface_alloc node_inf_write_cb node_create_cb node_destroy_cb c))
    (λ inf s, intf_ok s inf).
Proof.
  intros Hc0 s Hs Hg0. unfold zoom. cbn [view L_interfaces].
  destruct (slab_stray (gb_interface_slab (fw_interfaces s))) eqn:Hst; [by rewrite gb_interface_alloc_stray|].
  pose proof (gb_interface_alloc_spec (fw_interfaces s) node_inf_write_cb node_create_cb node_destroy_cb c
    (mi_interfaces _ Hs) Hst) as (r & ifs & -> & Hcase)%wp_Done.
  destruct Hcase as [(-> & -> & _)|(p & slab & -> & Hp & Hwf & _ & _ & His)].
  - replace (store L_interfaces (fw_interfaces s) s) with s by (by destruct s). split; [done|]. split; [done|]. by intros p Hp.
  - apply (f_equal intf_store) in His. cbn [intf_store] in His.
    destruct (mem_inv_interfaces s ifs Hs Hwf) as [Hs' Hg]; rewrite ?His.
    + by apply insert_subseteq.
    + intros q i [[<- <-]|[_ Hl]]%lookup_insert_Some; [right|by left].
      split; [done|]. by apply (gr_controls s0).
    + split; [done|]. split; [done|]. intros q [= <-]. cbn. rewrite His, lookup_insert_eq. by eexists.
Qed.

Lemma safe_interface_dealloc inf : safe (zoom L_interfaces (gb_interface_dealloc inf)) (λ _, True).
Proof.
  intros s0 s Hs _. unfold zoom. cbn [view L_interfaces].
  destruct (gb_interface_dealloc_spec (fw_interfaces s) inf (mi_interfaces _ Hs)) as (slab & -> & Hwf & _).
  destruct (mem_inv_interfaces s _ Hs Hwf) as [Hs' Hg]; [done|by left|by split].
Qed.

(** *** The bridge's table *)

Lemma mem_inv_map s map :
  mem_inv s → ap_map_wf map → (∀ it, it ∈ map → intf_ok s (node_intf it)) → mem_inv (store L_ap_map map s).
Proof.
  intros [Hd [_ Hm] Ha He Hr Hi Hc Hst] Hmap Hok. by split.
Qed.

(** A slot ifs written. *)
Lemma mem_inv_slot s k it :
  mem_inv s → intf_ok s (node_intf it) → mem_inv (store L_ap_map (<[k := it]> (fw_ap_map s)) s).
Proof.
  intros Hs Hit. pose proof (lw_map _ (mi_link _ Hs)) as Hmap. apply mem_inv_map; [done| |].
  - unfold ap_map_wf in *. by rewrite length_insert.
  - intros it' [->|Hold]%elem_of_insert_inv; [done|by apply (mi_routed s)].
Qed.

Lemma array_set_inv {S A} (l : list A) i x (s1 s2 : S) l' :
  array_set l i x s1 = Done l' s2 → l' = <[Z.to_nat i := x]> l ∧ s2 = s1.
Proof. unfold array_set. destruct (i <? 0); [done|]. case_decide; [|done]. by intros [= <- <-]. Qed.

Lemma safe_node_ap_add s0 ap_cport cport inf :
  intf_ok s0 inf → safe_from s0 (node_ap_add ap_cport cport inf) (λ _ _, True).
Proof.
  intros Hinf s Hs Hg. destruct (node_ap_add ap_cport cport inf s) as [r s'|f] eqn:Hrun; [|done].
  revert Hrun. unfold node_ap_add. destruct (_ <=? _); [by intros [= <- <-]|]. step_getL L_ap_map.
  intros (it & s1 & Hget & Hrest)%M_bind_inv. unfold array_get in Hget. destruct (ap_cport <? 0); [done|].
  destruct (fw_ap_map s !! _); [|done]. injection Hget as <- <-. revert Hrest.
  case_decide; [by intros [= <- <-]|].
  intros (i & s1 & Hderef & Hrest)%M_bind_inv.
  assert (s1 = s) as ->.
  { revert Hderef. unfold zoom, intf_deref, getS, mbind, M_bind. cbn [view L_interfaces].
    destruct inf; [done|by intros [= _ <-]; destruct s..|].
    destruct (_ !! _); [|done]. intros [= _ <-]. by destruct s. }
  apply M_bind_inv in Hrest as (map & s1 & [-> ->]%array_set_inv & [= <- <-]).
  split; [|by split; [apply grows_stores|]]. apply mem_inv_slot; [done|]. by apply (intf_ok_grows s0).
Qed.

Lemma safe_clear_slot {A} i (k : M fw A) φ :
  safe k φ → safe (map ← getL L_ap_map; map ← array_set map i empty_item; _ ← modL L_ap_map (λ _, map); k) φ.
Proof.
  intros Hk s0 s Hs _. step_getL L_ap_map.
  destruct (array_set (view L_ap_map s) i empty_item s) as [map s1|f] eqn:Hset;
    [|by rewrite (M_bind_Crash _ _ _ _ Hset)].
  rewrite (M_bind_Done _ _ _ _ _ Hset). apply array_set_inv in Hset as [-> ->]. step_modL L_ap_map.
  set (s1 := store L_ap_map _ s). assert (Hs1 : mem_inv s1) by (by apply mem_inv_slot; [done|intros p]).
  assert (Hg : grows s s1) by (by apply grows_stores).
  specialize (Hk s1 s1 Hs1 (reflexivity s1)). destruct (k s1) as [a s2|f]; [|done].
  destruct Hk as (Hs2 & Hg2 & Ha). split; [done|]. split; [by etrans|done].
Qed.

Lemma safe_node_ap_remove ap_cport : safe (node_ap_remove ap_cport) (λ _, True).
Proof.
  unfold node_ap_remove. destruct (_ <=? _); [by apply safe_ret|]. by apply safe_clear_slot, safe_ret.
Qed.

Lemma safe_deinit_from n i : safe (deinit_from n i) (λ _, True).
Proof.
  revert i. induction n as [|n IH]; intros i; cbn [deinit_from]; [by apply safe_ret|].
  apply safe_clear_slot, IH.
Qed.
End MemInv.
