(* ===== verification/Stays.v ===== *)
(** * The pieces of the threads keep what no interleaving can break

    [stays] says of a thread that each of its pieces, run from any state that
    satisfies [mem_inv], keeps it or faults: whatever other threads do between
    two pieces, as long as they keep it too.  [stays_from] carries what the
    thread has found out about interfaces and control data, which other threads
    do not take away.  The lemmas follow the definitions of [ApThreads],
    [NodeThreads], [SvcThreads], [SendThreads], [Threads] and [WorkItem]. *)

From S2P Require Import Prelude Config Protocols Hdlc Kernel Mdns Messages Interfaces NodeCache CacheRace.
From S2P Require Import State ApMap NodeLink NodeLife Ap LocalNode Routes Svc Quiet NodeTx Bridge.
From S2P Require Import NodeRx Discovery Resume NodeThreads HdlcThread ApThreads SvcThreads SendThreads Threads Main WorkItem LogBackend LogThread Boot Invariant MemInv.

(** ** Threads whose pieces keep the invariant *)

Section Stays.
Context `{Config, !ConfigOk _, Crc16, KHeap, !KHeapLaws, KSlab, !KSlabLaws, Sockets, !SocketsLaws,
          Stack, !StackLaws}.
Implicit Types s : fw.

(** All pieces keep the invariant, whatever happens between them; [s0] is a
    state the thread has seen. *)
Fixpoint stays_from (s0 : fw) {A} (Q : A → fw → Prop) (t : thread fw A) : Prop :=
  match t with
  | Ret a => Q a s0
  | Block m => ∀ s, mem_inv s → grows s0 s →
      match m s with Done t s' => mem_inv s' ∧ grows s s' ∧ stays_from s' Q t | Crash _ => True end
  end.

(** From any state on, with a property of the result. *)
Definition stays {A} (φ : A → Prop) (t : thread fw A) : Prop := ∀ s0, stays_from s0 (λ a _, φ a) t.

Lemma stays_from_call s0 {A} (m : M fw A) Q : safe_from s0 m Q → stays_from s0 Q (call m).
Proof.
  intros Hm s Hs Hg. specialize (Hm s Hs Hg). unfold mbind, M_bind. by destruct (m s).
Qed.

Lemma stays_from_mono s0 {A} (Q Q' : A → fw → Prop) t :
  stays_from s0 Q t → (∀ a s, Q a s → Q' a s) → stays_from s0 Q' t.
Proof.
  intros Ht HQ. revert s0 t Ht. fix IH 2. intros s0 [a|m]; cbn [stays_from]; [apply HQ|].
  intros Hm s Hs Hg. specialize (Hm s Hs Hg). destruct (m s) as [t s'|f]; [|done].
  split; [apply Hm|]. split; [apply Hm|]. apply (IH s' t), Hm.
Qed.

(** What was known stays known. *)
Lemma stays_from_grows s0 s1 {A} (φ : A → Prop) t :
  grows s0 s1 → stays_from s0 (λ a _, φ a) t → stays_from s1 (λ a _, φ a) t.
Proof.
  intros Hg. destruct t as [a|m]; [done|]. cbn [stays_from]. intros Hm s Hs Hg1. apply Hm; [done|by etrans].
Qed.

Lemma stays_from_bind s0 {A B} (t : thread fw A) (k : A → thread fw B) Q R :
  stays_from s0 Q t → (∀ a s, grows s0 s → Q a s → stays_from s R (k a)) → stays_from s0 R (t ≫= k).
Proof.
  revert s0 t. fix IH 2. intros s0 [a|m]; cbn [stays_from]; [intros Ha Hk; by apply Hk|].
  intros Hm Hk. unfold mbind, thread_bind. cbn [thread_bind_def stays_from]. intros s Hs Hg. specialize (Hm s Hs Hg).
  destruct (m s) as [t s'|f]; [|done]. destruct Hm as (Hs' & Hg' & Ht).
  split; [done|]. split; [done|]. apply (IH s' t); [exact Ht|].
  intros a s1 Hg1 Ha. apply Hk; [|done]. etrans; [exact Hg|]. by etrans.
Qed.

Lemma stays_ret {A} (a : A) (φ : A → Prop) : φ a → stays φ (mret a).
Proof. by intros Ha s0. Qed.

Lemma stays_call {A} (m : M fw A) φ : safe m φ → stays φ (call m).
Proof. intros Hm s0. apply stays_from_call, Hm. Qed.

Lemma stays_mono {A} (φ φ' : A → Prop) t : stays φ t → (∀ a, φ a → φ' a) → stays φ' t.
Proof. intros Ht Hφ s0. apply (stays_from_mono _ _ _ _ (Ht s0)). intros a _. apply Hφ. Qed.

Lemma stays_bind {A B} (t : thread fw A) (k : A → thread fw B) φ R :
  stays φ t → (∀ a, φ a → stays R (k a)) → stays R (t ≫= k).
Proof. intros Ht Hk s0. apply (stays_from_bind _ _ _ _ _ (Ht s0)). intros a s _ Ha. by apply Hk. Qed.

Lemma stays_bind_any {A B} (t : thread fw A) (k : A → thread fw B) R :
  stays (λ _, True) t → (∀ a, stays R (k a)) → stays R (t ≫= k).
Proof. intros Ht Hk. by apply (stays_bind _ _ (λ _, True)). Qed.

(** A part that finds nothing out. *)
Lemma stays_from_part s0 {A B} (t : thread fw A) (k : A → thread fw B) φ R :
  stays φ t → (∀ a s, grows s0 s → φ a → stays_from s R (k a)) → stays_from s0 R (t ≫= k).
Proof. intros Ht. apply stays_from_bind, Ht. Qed.

Lemma stays_tables {A} (m : M fw A) φ :
  (∀ s0, maintains (mem_inv_from s0) m φ) → stays φ (call m).
Proof. intros Hm. by apply stays_call, safe_maintains. Qed.

Lemma stays_quiet {A} (m : M fw A) φ : quiet m φ → stays φ (call m).
Proof. intros Hm. by apply stays_call, safe_quiet. Qed.

Lemma stays_crash {A} f (φ : A → Prop) : stays φ (call (crash f)).
Proof. by intros s0 s Hs _. Qed.
End Stays.

Create HintDb stays discriminated.

#[export] Hint Resolve safe_set_sock safe_copy_last safe_set_pos safe_pos safe_ctrl_free safe_ctrl_set_sock
  safe_interface_dealloc safe_node_ap_remove safe_deinit_from : stays.

Ltac stays_step :=
  match goal with
  | |- stays _ (mret _) => apply stays_ret; (exact I || done || idtac)
  | |- stays _ (call (crash _)) => apply stays_crash
  | |- stays _ (call _) =>
      first [apply stays_call; solve [apply safe_net|eauto 2 with stays]
            |apply stays_tables; intros ?; solve [solve_keeps]]
  | |- stays _ (_ ≫= _) =>
      first [eapply stays_bind; [solve [eauto 3 with stays]|intros ? ?]|apply stays_bind_any; [|intros ?]]
  | |- stays _ (if ?b then _ else _) => destruct b
  | |- stays _ (match ?x with _ => _ end) => destruct x
  | |- stays _ _ => first [solve [eauto 3 with stays]|progress cbv beta zeta]
  end.
Ltac solve_stays := repeat stays_step.

(** *** Sending in pieces *)

Section Bytes.
Context `{Config, !ConfigOk _, Crc16, KHeap, !KHeapLaws, KSlab, !KSlabLaws, Sockets, !SocketsLaws,
          Stack, !StackLaws}.

Lemma stays_poll_out buffer n i : stays (λ _, True) (poll_out_from_t buffer n i).
Proof.
  revert i. induction n as [|n IH]; intros i; cbn [poll_out_from_t]; unfold uart_poll_out; solve_stays.
Qed.
Hint Resolve stays_poll_out : stays.

Lemma stays_send_callback buffer n : stays (λ _, True) (hdlc_send_callback_t buffer n).
Proof. apply stays_poll_out. Qed.
Hint Resolve stays_send_callback : stays.

Lemma stays_poll_out_crc byte crc : stays (λ _, True) (uart_poll_out_crc_t byte crc).
Proof. unfold uart_poll_out_crc_t. solve_stays. Qed.
Hint Resolve stays_poll_out_crc : stays.

Lemma stays_send_buffer buffer n i crc : stays (λ _, True) (send_buffer_t buffer n i crc).
Proof. revert i crc. induction n as [|n IH]; intros i crc; cbn [send_buffer_t]; solve_stays. Qed.
Hint Resolve stays_send_buffer : stays.

Lemma stays_block_send buffer len address control :
  stays (λ _, True) (hdlc_block_send_sync_t buffer len address control).
Proof. unfold hdlc_block_send_sync_t. solve_stays. Qed.
Hint Resolve stays_block_send : stays.

Lemma stays_ap_send msg cport : stays (λ _, True) (ap_send_t msg cport).
Proof. unfold ap_send_t, gb_message_hdlc_send_t. solve_stays. Qed.

(** *** Nodes *)

Lemma stays_connect addr : stays (λ _, True) (connect_to_node_t addr).
Proof.
  unfold connect_to_node_t, sock_open, sock_connect. solve_stays.
Qed.
Hint Resolve stays_connect : stays.

Lemma stays_node_create_connection ctrl cport : stays (λ _, True) (node_intf_create_connection_t ctrl cport).
Proof. unfold node_intf_create_connection_t. solve_stays. Qed.
Hint Resolve stays_node_create_connection : stays.

Lemma stays_call_create intf cport : stays (λ _, True) (call_create_connection_t intf cport).
Proof. unfold call_create_connection_t, svc_inf_create_connection, svc_is_ready, intf_create_connection. solve_stays. Qed.
Hint Resolve stays_call_create : stays.

(** The pointer that is found is one of the array's. *)
Lemma stays_find_by_id s0 nid : stays_from s0 (λ inf s, intf_ok s inf) (gb_interface_find_by_id_t nid).
Proof.
  unfold gb_interface_find_by_id_t. destruct (nid =? SVC_INF_ID); [|destruct (nid =? LOCAL_NODE_ID); [by intros p|]].
  - apply stays_from_call. intros s Hs _. unfold svc_interface, svc_is_ready. step_getL L_svc.
    cbn [view L_svc]. destruct (svc_is_read_flag s); cbn; split; [done|split; [done|by intros p]|done|split; [done|by intros p]].
  - unfold node_find_by_id_t. eapply stays_from_part.
    { apply stays_quiet. solve_quiet. }
    intros ret s Hg _. destruct (0 <=? ret); [|by intros p].
    eapply stays_from_bind; [apply stays_from_call, safe_cache_at|]. intros it s1 Hg1 Hit. exact Hit.
Qed.

Lemma stays_connection_create i1 c1 i2 c2 : stays (λ _, True) (connection_create_t i1 c1 i2 c2).
Proof.
  unfold connection_create_t. destruct (connection_ends i1 c1 i2 c2) as [[[nid cport] ap_cport]|]; [|done].
  intros s0. eapply stays_from_bind; [apply stays_find_by_id|]. intros inf s1 _ Hinf.
  case_decide; [done|]. eapply stays_from_part; [apply stays_call_create|]. intros ret s2 Hg2 _.
  destruct (ret <? 0); [done|].
  eapply stays_from_bind; [apply stays_from_call, safe_node_ap_add; by apply (intf_ok_grows s1)|].
  intros ret' s3 _ _. by destruct (ret' <? 0).
Qed.

Lemma stays_find nid : stays (λ _, True) (gb_interface_find_by_id_t nid).
Proof. intros s0. by apply (stays_from_mono _ _ _ _ (stays_find_by_id s0 nid)). Qed.
Hint Resolve stays_find : stays.

Lemma stays_remove_by_id id : stays (λ _, True) (node_cache_remove_by_id_t id).
Proof. unfold node_cache_remove_by_id_t, node_cache_remove_at_t. solve_stays. Qed.
Hint Resolve stays_remove_by_id : stays.

Lemma stays_destroy_interface inf : stays (λ _, True) (node_destroy_interface_t inf).
Proof. unfold node_destroy_interface_t. solve_stays. Qed.
Hint Resolve stays_destroy_interface : stays.

Lemma stays_destroy_from n i : stays (λ _, True) (destroy_from_t n i).
Proof. revert i. induction n as [|n IH]; intros i; cbn [destroy_from_t]; solve_stays. Qed.
Hint Resolve stays_destroy_from : stays.

Lemma stays_destroy_all : stays (λ _, True) node_destroy_all_t.
Proof. unfold node_destroy_all_t, assert_unused. solve_stays. Qed.

Lemma stays_cache_add s0 sock id addr inf :
  intf_ok s0 inf → stays_from s0 (λ _ _, True) (node_cache_add_t sock id addr inf).
Proof.
  intros Hinf. unfold node_cache_add_t. eapply stays_from_part; [solve_stays|]. intros pos s1 Hg1 _.
  destruct (_ <=? pos); [done|].
  eapply stays_from_part; [by apply stays_call, safe_assign|]. intros _ s2 Hg2 _.
  eapply stays_from_part; [by apply stays_call, safe_assign|]. intros _ s3 Hg3 _.
  eapply stays_from_part; [by apply stays_call, safe_assign|]. intros _ s4 Hg4 _.
  eapply stays_from_bind; [apply stays_from_call, safe_assign_inf|].
  { apply (intf_ok_grows s0); [|done]. etrans; [exact Hg1|]. etrans; [exact Hg2|]. by etrans. }
  intros _ s5 _ _. revert s5. match goal with |- ∀ s, stays_from s _ ?t => change (stays (λ _, True) t) end.
  apply stays_bind_any; [by apply stays_call, safe_assign|]. intros _. solve_stays.
Qed.

Lemma stays_create_interface addr : stays (λ _, True) (node_create_interface_t addr).
Proof.
  intros s0. unfold node_create_interface_t. eapply stays_from_bind; [apply stays_from_call, safe_ctrl_alloc|].
  intros [c|] s1 _ Hc; [|done]. specialize (Hc c eq_refl).
  eapply stays_from_bind; [by apply stays_from_call, safe_interface_alloc|]. intros inf s2 _ Hinf.
  case_decide; [apply (stays_bind_any (call ctrl_free)); [|intros _]; solve_stays|].
  apply (stays_from_part _ _ _ (λ _, True)); [solve_stays|]. intros i s3 Hg3 _.
  eapply stays_from_bind; [by apply stays_cache_add, (intf_ok_grows s2)|]. intros ret s4 _ _.
  destruct (ret <? 0); [|done]. apply (stays_bind_any (call ctrl_free)); [|intros _]; solve_stays.
Qed.

Lemma stays_connection_destroy i1 c1 i2 c2 : stays (λ _, True) (connection_destroy_t i1 c1 i2 c2).
Proof. unfold connection_destroy_t. solve_stays. Qed.
End Bytes.

#[export] Hint Resolve stays_create_interface stays_destroy_interface stays_destroy_all stays_find
  stays_block_send stays_ap_send stays_connection_create stays_connection_destroy : stays.

Section Sends.
Context `{Config, !ConfigOk _, Crc16, KHeap, !KHeapLaws, KSlab, !KSlabLaws, Sockets, !SocketsLaws,
          Stack, !StackLaws}.
Context (cst : Z → Z → Z → thread fw Z).
Context (Hcst : ∀ intf_id cport msg, intf_id ≠ AP_INF_ID → stays (λ _, True) (cst intf_id cport msg)).

Lemma stays_cst_svc cport msg : stays (λ _, True) (cst SVC_INF_ID cport msg).
Proof. by apply Hcst. Qed.

Lemma stays_cst_local cport msg : stays (λ _, True) (cst LOCAL_NODE_ID cport msg).
Proof. by apply Hcst. Qed.
Hint Resolve stays_cst_svc stays_cst_local : stays.

(** A message that is looked at has a header in range. *)
Lemma stays_deref {A} msg (k : gb_message → thread fw A) Q :
  (∀ m, is_u8 (hdr_type (header m)) → is_u16 (hdr_operation_id (header m)) → stays Q (k m)) →
  stays Q (call (zoom L_messages (msg_deref msg)) ≫= k).
Proof.
  intros Hk. eapply stays_bind; [apply stays_tables; intros ?; apply keeps_msg_deref|].
  intros m [Ht Hid]%block_header. by apply Hk.
Qed.

Lemma stays_local_response ctrl msg pl n status cport :
  bytes pl → is_u8 status → stays (λ _, True) (response_helper_t cst ctrl msg pl n status cport).
Proof. intros Hpl Hst. unfold response_helper_t. apply stays_deref. intros m Ht Hid. solve_stays. Qed.

Lemma stays_intf_write ctrl msg cport : stays (λ _, True) (intf_write_t cst ctrl msg cport).
Proof.
  unfold intf_write_t, control_protocol_handle_t, control_protocol_cport_shutdown_handler_t,
    control_protocol_version_handler_t, control_protocol_get_manifest_size_handler_t,
    control_protocol_get_manifest_handler_t, control_protocol_empty_handler_t.
  solve_stays; apply stays_local_response; try done;
    first [apply to_wire_bytes|apply manifest_bytes|by apply Forall_nil_2].
Qed.

Lemma stays_send_request pl n type :
  bytes pl → is_u8 type → stays (λ _, True) (control_send_request_t cst pl n type).
Proof. intros Hpl Ht. unfold control_send_request_t. solve_stays. Qed.

Lemma stays_module_removed inf : stays (λ _, True) (svc_send_module_removed_t cst inf).
Proof.
  unfold svc_send_module_removed_t. solve_stays; apply stays_send_request; [apply to_wire_bytes|done].
Qed.
Hint Resolve stays_module_removed : stays.

Lemma stays_module_inserted nid : stays (λ _, True) (svc_send_module_inserted_t cst nid).
Proof. apply stays_send_request; [apply to_wire_bytes|done]. Qed.

Lemma stays_send_version : stays (λ _, True) (svc_send_version_t cst).
Proof. apply stays_send_request; [apply to_wire_bytes|done]. Qed.

Lemma stays_send_hello : stays (λ _, True) (svc_send_hello_t cst).
Proof. apply stays_send_request; [apply to_wire_bytes|done]. Qed.
Hint Resolve stays_send_hello : stays.

Lemma stays_svc_response msg pl n status :
  bytes pl → is_u8 status → stays (λ _, True) (svc_response_helper_t cst msg pl n status).
Proof. intros Hpl Hst. unfold svc_response_helper_t. apply stays_deref. intros m Ht Hid. solve_stays. Qed.

Lemma stays_svc_inf_write ctrl msg cport : stays (λ _, True) (svc_inf_write_t cst ctrl msg cport).
Proof.
  unfold svc_inf_write_t, gb_handle_msg_t, svc_empty_request_handler_t, svc_connection_create_handler_t,
    svc_connection_destroy_handler_t, svc_dme_peer_get_handler_t, svc_dme_peer_set_handler_t,
    svc_intf_set_pwrm_handler_t, svc_pwrm_get_rail_count_handler_t, svc_intf_vsys_enable_disable_handler_t,
    svc_interface_refclk_enable_disable_handler_t, svc_interface_unipro_enable_disable_handler_t,
    svc_interface_activate_handler_t, svc_interface_resume_handler_t, svc_version_response_handler_t,
    svc_hello_response_handler_t, svc_module_inserted_response_handler_t, svc_module_removed_response_handler_t.
  solve_stays; apply stays_svc_response; try done; first [apply to_wire_bytes|by apply Forall_nil_2].
Qed.

Lemma stays_removed_by_sock sock : stays (λ _, True) (svc_send_module_removed_by_sock_t cst sock).
Proof. unfold svc_send_module_removed_by_sock_t. solve_stays. Qed.
Hint Resolve stays_removed_by_sock : stays.

(** The loop ends: a send returns an error or at least one byte is gone. *)
Lemma stays_write_loop sock data len (fuel : nat) t :
  0 <= t → len - t <= fuel → len <= length data → stays (λ _, True) (write_loop_t sock data len fuel t).
Proof.
  revert t. induction fuel as [|fuel IH]; intros t Ht Hf Hl; cbn [write_loop_t];
    (destruct (Z.ltb_spec t len); [|by apply stays_ret]); [lia|].
  set (piece := take _ _). assert (Hp : (length piece : Z) = len - t)
    by (unfold piece; rewrite length_take, length_drop; lia).
  eapply stays_bind; [apply stays_quiet, quiet_sock_send|].
  { intros ->. cbn [length] in Hp. lia. }
  intros ret Hret. destruct (Z.ltb_spec ret 0); [by apply stays_ret|]. destruct Hret; [lia|].
  apply IH; lia.
Qed.

Lemma stays_write_data sock data len : stays (λ _, True) (write_data_t sock data len).
Proof. unfold write_data_t. case_decide; [apply stays_write_loop; lia|by apply stays_call]. Qed.
Hint Resolve stays_write_data : stays.

Lemma stays_message_send sock msg cport : stays (λ _, True) (gb_message_send_t cst sock msg cport).
Proof. unfold gb_message_send_t. solve_stays. Qed.
Hint Resolve stays_message_send : stays.

Lemma stays_node_inf_write ctrl msg cport : stays (λ _, True) (node_inf_write_t cst ctrl msg cport).
Proof. unfold node_inf_write_t. solve_stays. Qed.

Lemma stays_call_write intf msg cport : stays (λ _, True) (call_write_t cst intf msg cport).
Proof.
  unfold call_write_t. apply stays_bind_any; [solve_stays|intros i].
  destruct (write i); [apply stays_svc_inf_write|apply stays_intf_write|apply stays_node_inf_write].
Qed.
End Sends.

Section Connections.
Context `{Config, !ConfigOk _, Crc16, KHeap, !KHeapLaws, KSlab, !KSlabLaws, Sockets, !SocketsLaws,
          Stack, !StackLaws}.

(** To the AP: the only depth the handlers reach. *)
Lemma stays_send_to_ap fuel intf_id cport msg :
  intf_id ≠ AP_INF_ID → stays (λ _, True) (connection_send_fuel_t (S fuel) intf_id cport msg).
Proof.
  intros Hne. cbn [connection_send_fuel_t]. rewrite (proj2 (Z.eqb_neq _ _) Hne). solve_stays.
Qed.

Lemma stays_connection_send intf_id cport msg : stays (λ _, True) (connection_send_t intf_id cport msg).
Proof.
  unfold connection_send_t. cbn [connection_send_fuel_t]. destruct (intf_id =? AP_INF_ID); [|solve_stays].
  unfold ap_entry. apply stays_bind_any; [solve_stays|intros intf]. apply stays_bind_any; [solve_stays|intros c].
  apply stays_call_write. intros i c' m. apply (stays_send_to_ap 0).
Qed.

Lemma stays_removed inf : stays (λ _, True) (svc_send_module_removed_t connection_send_t inf).
Proof. apply stays_module_removed. intros; apply stays_connection_send. Qed.

Lemma stays_removed_sock sock : stays (λ _, True) (svc_send_module_removed_by_sock_t connection_send_t sock).
Proof. apply stays_removed_by_sock. intros; apply stays_connection_send. Qed.

Lemma stays_inserted nid : stays (λ _, True) (svc_send_module_inserted_t connection_send_t nid).
Proof. apply stays_module_inserted. intros; apply stays_connection_send. Qed.

Lemma stays_version : stays (λ _, True) (svc_send_version_t connection_send_t).
Proof. apply stays_send_version. intros; apply stays_connection_send. Qed.
End Connections.

#[export] Hint Resolve stays_removed stays_removed_sock stays_connection_send stays_inserted stays_version : stays.

Section Pieces.
Context `{Config, !ConfigOk _, Crc16, KHeap, !KHeapLaws, KSlab, !KSlabLaws, Sockets, !SocketsLaws,
          Stack, !StackLaws}.
Implicit Types s : fw.

Lemma stays_read_loop sock len (fuel : nat) t data :
  bytes data → (length data : Z) = t → len - t <= fuel →
  stays (read_result len) (read_loop_t sock len fuel t data).
Proof.
  revert t data. induction fuel as [|fuel IH]; intros t data Hb Hd Hf; cbn [read_loop_t];
    (destruct (Z.ltb_spec t len); [|apply stays_ret; split; [done|cbn; lia]]); [lia|].
  eapply stays_bind; [apply stays_quiet, quiet_sock_recv; lia|].
  intros [ret more] [Hr Hm]. cbn [fst snd] in *.
  destruct (Z.leb_spec ret 0); [apply stays_ret; split; [done|cbn; lia]|].
  destruct Hr as [|[_ Hr]]; [lia|]. apply IH; [by apply Forall_app_2|rewrite length_app; lia|lia].
Qed.

Lemma stays_read_data sock len : stays (read_result len) (read_data_t sock len).
Proof. unfold read_data_t. apply stays_read_loop; [by apply Forall_nil_2|done|lia]. Qed.

Lemma stays_message_receive sock flag : stays (λ _, True) (gb_message_receive_t sock flag).
Proof.
  unfold gb_message_receive_t.
  eapply stays_bind; [apply stays_read_data|]. intros [ret cport] _.
  destruct (negb _); [done|]. cbv zeta.
  eapply stays_bind; [apply stays_read_data|]. intros [ret' bs] [Hb Hl]. cbn [fst snd] in *.
  destruct (Z.eqb_spec ret' (sizeof gb_operation_msg_hdr)) as [Hret|]; cbn [negb]; [|done].
  specialize (Hl ltac:(done) Hret). change (sizeof gb_operation_msg_hdr : Z) with 8 in Hl.
  destruct (of_wire_block_header bs) as (Ht & Hid & Hst); [done|lia|].
  apply stays_bind_any; [by apply stays_quiet, quiet_alloc|intros msg].
  destruct (msg =? NULL); [done|].
  apply stays_bind_any; [solve_stays|intros m].
  eapply stays_bind; [apply stays_read_data|]. intros [ret'' pl] [Hpl _]. cbn [fst snd] in *.
  destruct (negb _); [solve_stays|].
  apply stays_bind_any; [by apply stays_quiet, quiet_write_payload|done].
Qed.
Hint Resolve stays_message_receive : stays.

Lemma stays_rx_socket flag fd revents : stays (λ _, True) (node_rx_socket_t flag fd revents).
Proof. unfold node_rx_socket_t. solve_stays. Qed.
Hint Resolve stays_rx_socket : stays.

Lemma stays_rx_sockets flag fds : stays (λ _, True) (node_rx_sockets_t flag fds).
Proof.
  revert flag. induction fds as [|[fd revents] fds IH]; intros flag; cbn [node_rx_sockets_t]; solve_stays.
Qed.
Hint Resolve stays_rx_sockets : stays.

Lemma stays_poll fds timeout : stays (λ _, True) (call (sock_poll fds timeout)).
Proof.
  apply stays_tables. intros s0. unfold sock_poll. solve_keeps.
Qed.
Hint Resolve stays_poll : stays.

Lemma stays_rx_thread t : stays (λ _, True) (node_rx_thread_t t).
Proof. destruct t; cbn [node_rx_thread_t]; unfold node_rx_iteration_t, node_rx_thread_step, svc_is_ready; solve_stays. Qed.
End Pieces.

#[export] Hint Resolve stays_rx_thread stays_poll : stays.

(** *** The work item *)

Section WorkPieces.
Context `{Config, !ConfigOk _, Crc16, KHeap, !KHeapLaws, KSlab, !KSlabLaws, Sockets, !SocketsLaws,
          Stack, !StackLaws}.

Lemma stays_rx_submit msg cport : stays (λ _, True) (ap_rx_submit_t msg cport).
Proof. apply stays_connection_send. Qed.
Hint Resolve stays_rx_submit : stays.

Lemma stays_greybus_frame buffer len :
  bytes buffer → stays (λ _, True) (hdlc_process_greybus_frame_t buffer len).
Proof.
  intros Hb. unfold hdlc_process_greybus_frame_t. cbv zeta.
  eapply stays_bind; [apply stays_quiet, quiet_reads, reads_read_struct|].
  intros hdr [Hl ->]. destruct (of_wire_block_header (drop 2 buffer)) as (Ht & Hid & Hst);
    [by apply Forall_drop|exact Hl|].
  assert (Hw : ∀ msg n, quiet (zoom L_messages (msg_write_payload msg (drop 10 buffer) n)) (λ _, True)).
  { intros msg n. by apply quiet_write_payload, Forall_drop. }
  solve_stays.
Qed.
Hint Resolve stays_greybus_frame : stays.

Lemma stays_control_frame buffer len : stays (λ _, True) (control_process_frame_t buffer len).
Proof.
  unfold control_process_frame_t, svc_init, svc_deinit, ap_init, ap_deinit, apbridge_init, apbridge_deinit.
  solve_stays.
Qed.
Hint Resolve stays_control_frame : stays.

Lemma stays_complete_frame buffer len address :
  bytes buffer → stays (λ _, True) (process_complete_frame_t buffer len address).
Proof. intros Hb. unfold process_complete_frame_t. solve_stays. Qed.

(** The frame is read where the driver keeps it; no other thread writes there. *)
Lemma stays_deliver : stays (λ _, True) (hdlc_process_complete_frame_t L_hdlc process_complete_frame_t).
Proof.
  unfold hdlc_process_complete_frame_t.
  eapply stays_bind; [apply stays_tables; intros ?; apply keeps_get_driver|intros d [Ha Hl Hb]].
  apply stays_bind_any; [solve_stays|intros address]. cbv zeta.
  apply stays_bind_any; [by apply stays_complete_frame, Forall_drop|done].
Qed.
Hint Resolve stays_deliver : stays.

Lemma stays_process_frame : stays (λ _, True) (hdlc_process_frame_t L_hdlc process_complete_frame_t).
Proof. unfold hdlc_process_frame_t. solve_stays. Qed.
Hint Resolve stays_process_frame : stays.

Lemma stays_save_byte byte : is_u8 byte → stays (λ _, True) (hdlc_save_byte_t L_hdlc byte).
Proof.
  intros Hbyte. unfold hdlc_save_byte_t. apply stays_bind_any; [solve_stays|intros d0].
  apply stays_bind_any; [solve_stays|intros _].
  eapply stays_bind; [apply stays_tables; intros ?; apply keeps_get_driver|intros d Hd].
  eapply stays_bind; [apply stays_quiet, quiet_reads, reads_array_set|].
  intros buf Hbuf. destruct (driver_wf_store d buf byte Hd Hbyte Hbuf) as [Hset Hlen].
  apply stays_bind_any; [by apply stays_tables; intros ?; apply keeps_driver|intros _].
  apply stays_bind_any; [by apply stays_tables; intros ?; apply keeps_driver_len|done].
Qed.
Hint Resolve stays_save_byte : stays.

Lemma stays_input_byte byte :
  is_u8 byte → stays (λ _, True) (hdlc_rx_input_byte_t L_hdlc process_complete_frame_t byte).
Proof.
  intros Hb. unfold hdlc_rx_input_byte_t. apply stays_bind_any; [solve_stays|intros d].
  destruct (byte =? HDLC_FRAME); [solve_stays|]. destruct (byte =? HDLC_ESC); [solve_stays|].
  apply (stays_bind _ _ is_u8).
  { destruct (next_escaped d); [|by apply stays_ret].
    apply stays_bind_any; [solve_stays|intros _]. apply stays_ret. by apply lxor_is_u8. }
  intros byte' Hb'. apply stays_bind_any; [by apply stays_tables; intros ?; apply keeps_driver_flags|intros _].
  solve_stays.
Qed.

Lemma stays_receive_bytes bs : bytes bs → stays (λ _, True) (receive_bytes_t bs).
Proof.
  intros Hbs. unfold receive_bytes_t, hdlc_process_buffer_t. apply stays_bind_any; [|done].
  induction Hbs as [|b bs Hb Hbs IH]; cbn [process_bytes_t]; [done|].
  apply stays_bind_any; [by apply stays_input_byte|done].
Qed.
End WorkPieces.

Section DiscoveryPieces.
Context `{Config, !ConfigOk _, Crc16, KHeap, !KHeapLaws, KSlab, !KSlabLaws, Sockets, !SocketsLaws,
          Stack, !StackLaws}.
Implicit Types s : fw.

Lemma stays_node_filter addrs : stays (λ _, True) (node_filter_t addrs).
Proof.
  induction addrs as [|addr addrs IH]; cbn [node_filter_t]; [done|].
  apply stays_bind_any; [apply stays_quiet; solve_quiet|intros ret].
  apply stays_bind_any; [solve_stays|done].
Qed.
Hint Resolve stays_node_filter : stays.

Lemma quiet_note_answer found addr_list total : quiet (note_answer found addr_list total) (λ _, True).
Proof.
  unfold note_answer. destruct found as [addr|]; [|by apply quiet_ret].
  eapply quiet_bind; [apply quiet_reads, reads_array_set|]. intros l _. by apply quiet_ret.
Qed.

Lemma stays_recv_loop fuel sock ret total addr_list len query query_len :
  stays (λ _, True) (recv_loop_t fuel sock ret total addr_list len query query_len).
Proof.
  revert ret total addr_list. induction fuel as [|fuel IH]; intros ret total addr_list; cbn [recv_loop_t].
  - destruct (_ && _); [|done]. apply stays_crash.
  - destruct (_ && _); [|done]. apply stays_bind_any; [solve_stays|intros found].
    apply stays_bind_any; [apply stays_quiet, quiet_note_answer|].
    intros [addr_list' total']. apply stays_bind_any; [apply stays_poll|]. intros [ret' revents]. apply IH.
Qed.
Hint Resolve stays_recv_loop : stays.

Lemma stays_handler addr6 fuel : stays (λ _, True) (handler_t addr6 fuel).
Proof.
  unfold handler_t, static_round_t, mdns_round_t, mdns_query_recv_t. solve_stays.
  apply stays_call. intros s0 s. step_getL L_discovery_sock. apply (safe_net _ s0).
Qed.
End DiscoveryPieces.

(** *** The logging thread *)

Section LogPieces.
Context `{Config, !ConfigOk _, Crc16, KHeap, !KHeapLaws, KSlab, !KSlabLaws, Sockets, !SocketsLaws,
          Stack, !StackLaws, UartDevice, LogOutput}.

Lemma stays_uart_output blocks : stays (λ _, True) (hdlc_uart_output_t blocks).
Proof.
  induction blocks as [|block blocks IH]; cbn [hdlc_uart_output_t]; [done|].
  apply stays_bind_any; [|done]. unfold hdlc_uart_out_t. solve_stays.
Qed.
Hint Resolve stays_uart_output : stays.

Lemma stays_log_call c : stays (λ _, True) (hdlc_uart_backend_api_t c).
Proof.
  destruct c; cbn [hdlc_uart_backend_api_t]; unfold hdlc_uart_backend_process_t, hdlc_uart_backend_dropped_t,
    hdlc_uart_backend_panic_t, hdlc_uart_backend_init, hdlc_uart_backend_is_ready, hdlc_uart_backend_format_set,
    hdlc_uart_backend_notify; solve_stays.
Qed.

Lemma stays_log_calls calls : stays (λ _, True) (log_calls_t calls).
Proof.
  induction calls as [|c calls IH]; cbn [log_calls_t]; [done|].
  apply stays_bind_any; [apply stays_log_call|done].
Qed.
End LogPieces.

#[export] Hint Resolve stays_handler stays_receive_bytes stays_log_calls : stays.
