(* ===== verification/Interleaving.v ===== *)
(** * The firmware's invariant between the steps of its threads

    The work item of [WorkItem], the receive thread and the discovery thread of
    [Threads] and the logging thread of [LogThread] run piece by piece, in any
    order.  [mem_inv] holds between any two pieces. *)

From S2P Require Import Prelude Config Protocols Hdlc Kernel Mdns Messages Interfaces NodeCache.
From S2P Require Import State ApMap NodeLink NodeLife Ap LocalNode Routes Svc Quiet NodeTx Bridge.
From S2P Require Import NodeRx Discovery Resume ApThreads SvcThreads SendThreads Threads Main WorkItem LogBackend LogThread Boot Invariant MemInv Stays.

Section System.
Context `{Config, !ConfigOk _, Crc16, !Crc16Laws, KHeap, !KHeapLaws, KSlab, !KSlabLaws, Sockets, !SocketsLaws,
          Stack, !StackLaws, UartDevice, LogOutput, !LogOutputLaws BUFFER_LEN}.
Implicit Types s : fw.

(** The firmware and where its threads are; [sys_work] is the work queue's. *)
Record system := System {
  sys_fw : fw;
  sys_work : thread fw Z;
  sys_rx : thread fw rx_thread;
  sys_discovery : thread fw ();
  sys_log : thread fw ()
}.

(** A thread runs its next piece, or goes round its loop when it is at its end:
    the work item with the bytes that have arrived, the logging thread with what
    has been logged.  A suspended discovery thread stays where it is. *)
Inductive sys_step : system → system → Prop :=
| step_work m s w s' rx d l :
    m s = Done w s' →
    sys_step (System s (Block m) rx d l) (System s' w rx d l)
| step_work_loop bs s n rx d l :
    bytes bs →
    sys_step (System s (Ret n) rx d l) (System s (receive_bytes_t bs) rx d l)
| step_rx m s w rx s' d l :
    m s = Done rx s' →
    sys_step (System s w (Block m) d l) (System s' w rx d l)
| step_rx_loop t s w d l :
    sys_step (System s w (Ret t) d l) (System s w (node_rx_thread_t t) d l)
| step_discovery m s w d s' rx l :
    tcp_discovery_running s = true → m s = Done d s' →
    sys_step (System s w rx (Block m) l) (System s' w rx d l)
| step_discovery_loop addr6 fuel s w rx l :
    tcp_discovery_running s = true →
    sys_step (System s w rx (Ret ()) l) (System s w rx (handler_t addr6 fuel) l)
| step_log m s w rx d l s' :
    m s = Done l s' →
    sys_step (System s w rx d (Block m)) (System s' w rx d l)
| step_log_loop calls s w rx d :
    sys_step (System s w rx d (Ret ())) (System s w rx d (log_calls_t calls)).

(** Each thread has seen some state before this one. *)
Record sys_inv (c : system) : Prop := {
  si_fw : mem_inv (sys_fw c);
  si_work : stays_from (sys_fw c) (λ _ _, True) (sys_work c);
  si_rx : stays_from (sys_fw c) (λ _ _, True) (sys_rx c);
  si_discovery : stays_from (sys_fw c) (λ _ _, True) (sys_discovery c);
  si_log : stays_from (sys_fw c) (λ _ _, True) (sys_log c);
}.

(** A piece of one of the threads, and what it leaves of the others. *)
Lemma stays_piece {A} (m : M fw (thread fw A)) t s s' :
  stays_from s (λ _ _, True) (Block m) → mem_inv s → m s = Done t s' →
  mem_inv s' ∧ stays_from s' (λ _ _, True) t ∧ grows s s'.
Proof. intros Ht Hs Hrun. specialize (Ht s Hs (reflexivity s)). rewrite Hrun in Ht. tauto. Qed.

Lemma stays_begins {A} (t : thread fw A) s : stays (λ _, True) t → stays_from s (λ _ _, True) t.
Proof. intros Ht. apply Ht. Qed.

Lemma stays_others {A} (t : thread fw A) s s' :
  grows s s' → stays_from s (λ _ _, True) t → stays_from s' (λ _ _, True) t.
Proof. apply (stays_from_grows s s' (λ _, True)). Qed.

Lemma sys_step_inv c c' : sys_step c c' → sys_inv c → sys_inv c'.
Proof.
  intros Hstep [Hs Hw Hrx Hd Hl].
  destruct Hstep; cbn [sys_fw sys_work sys_rx sys_discovery sys_log] in *;
    try match goal with
      | Ht : stays_from _ _ (Block ?m), Hrun : ?m _ = Done _ _ |- _ =>
          destruct (stays_piece m _ _ _ Ht Hs Hrun) as (? & ? & ?)
      end; split; cbn [sys_fw sys_work sys_rx sys_discovery sys_log];
    first [done|by eapply stays_others|apply stays_begins; auto with stays].
Qed.

Lemma sys_steps_inv c c' : rtc sys_step c c' → sys_inv c → sys_inv c'.
Proof. induction 1; eauto using sys_step_inv. Qed.

(** What main leaves behind. *)
Lemma main_mem_inv heap interface_slab control_slab n port s port' :
  k_heap_live heap = ∅ → slab_live interface_slab = ∅ → slab_live control_slab = ∅ →
  slab_blocks control_slab = MAX_GREYBUS_NODES →
  main (fw_statics heap interface_slab control_slab n, port) = Done None (s, port') → mem_inv s.
Proof.
  intros Hh Hi Hc Hb Hmain.
  pose proof (main_inv heap interface_slab control_slab n port s port' Hh Hi Hc Hb Hmain) as [Hd Hlink Hnodes].
  destruct (main_outcome heap interface_slab control_slab n Hh Hi Hc Hb port)
    as (r & s0 & port0 & Hrun & _ & _ & _ & _ & _ & _ & Hn & Hmap & _).
  rewrite Hmain in Hrun. injection Hrun as _ <- _. destruct Hnodes as [Hcwf Hiw Hcw _ _ Hst _].
  split; [done|done|apply Hcwf| | |done..].
  - intros it. rewrite Hn. intros [-> _]%elem_of_replicate. by intros p.
  - intros it. rewrite Hmap. intros [-> _]%elem_of_replicate. by intros p.
Qed.

(** Pieces of a thread are steps of the system. *)
Lemma pieces_sys_steps {A} (place : thread fw A → fw → system) :
  (∀ m t s s', m s = Done t s' → sys_step (place (Block m) s) (place t s')) →
  ∀ t s t' s', rtc piece (t, s) (t', s') → rtc sys_step (place t s) (place t' s').
Proof.
  intros Hplace t s t' s'. apply (rtc_congruence (λ c, place (fst c) (snd c))).
  intros c c' Hstep. destruct Hstep as [m s0 t0 s1 Hrun]. by apply Hplace.
Qed.

Lemma pieces_work_steps w s w' s' rx d l :
  rtc piece (w, s) (w', s') → rtc sys_step (System s w rx d l) (System s' w' rx d l).
Proof. apply (pieces_sys_steps (λ w s, System s w rx d l)). intros. by apply step_work. Qed.

Lemma pieces_rx_steps rx s rx' s' w d l :
  rtc piece (rx, s) (rx', s') → rtc sys_step (System s w rx d l) (System s' w rx' d l).
Proof. apply (pieces_sys_steps (λ rx s, System s w rx d l)). intros. by apply step_rx. Qed.

Lemma pieces_log_steps l s l' s' w rx d :
  rtc piece (l, s) (l', s') → rtc sys_step (System s w rx d l) (System s' w rx d l').
Proof. apply (pieces_sys_steps (λ l s, System s w rx d l)). intros. by apply step_log. Qed.

(** What happens in one go in [Invariant] is one of the interleavings; discovery
    may be suspended within a round. *)
Lemma event_interleaves e n t s t' s' d :
  match e with Discovery _ _ => False | _ => True end →
  event_ok e s → run_event e t s = Done t' s' →
  ∃ n', rtc sys_step (System s (Ret n) (Ret t) d (Ret ())) (System s' (Ret n') (Ret t') d (Ret ())).
Proof.
  destruct e as [bs| |addr6 fuel|calls]; cbn [run_event event_ok]; intros Hd Hok Hrun; [| |done|].
  - apply M_bind_inv in Hrun as (r & s1 & Hrecv & [= <- <-]). exists r.
    eapply rtc_l; [by apply (step_work_loop bs)|]. apply pieces_work_steps, run_pieces.
    by rewrite (work_undisturbed bs s).
  - exists n. eapply rtc_l; [apply step_rx_loop|]. apply pieces_rx_steps, run_pieces.
    by rewrite (rx_thread_undisturbed t s).
  - exists n. apply M_bind_inv in Hrun as ([] & s1 & Hlog & [= <- <-]).
    eapply rtc_l; [apply (step_log_loop calls)|]. apply pieces_log_steps, run_pieces.
    by rewrite (log_undisturbed calls s).
Qed.

(** C2: From the moment main goes to sleep, while the work item that handles the bytes from the
    UART, the receive thread, the discovery thread and the logging thread run piece by piece in
    any order, each preempted between any two of its calls (between any two bytes written to the
    UART, between the steps of a blocking connect, and between the statements that add or remove
    a node; a search of a table is one piece): between any two pieces the HDLC driver's buffer
    is within bounds, the AP's table and the node cache's array keep their sizes, live messages
    are exactly the allocated blocks and are well formed, and every interface pointer in the
    cache or in the AP's table is NULL, static or leads to an allocated interface whose
    operations are a node's and whose control data is allocated. That cache and interfaces agree
    is not claimed (node_removal_race, connect_stale_index, node_cache_add_race). Pieces that
    fault end a run. *)
Theorem threads_invariant heap interface_slab control_slab n port s port' c :
  k_heap_live heap = ∅ → slab_live interface_slab = ∅ → slab_live control_slab = ∅ →
  slab_blocks control_slab = MAX_GREYBUS_NODES →
  main (fw_statics heap interface_slab control_slab n, port) = Done None (s, port') →
  rtc sys_step (System s (Ret 0) (Ret RxWaiting) (Ret ()) (Ret ())) c → mem_inv (sys_fw c).
Proof.
  intros Hh Hi Hc Hb Hmain Hsteps. apply (sys_steps_inv _ _ Hsteps). split; [|done..].
  by apply (main_mem_inv heap interface_slab control_slab n port s port').
Qed.
End System.
