(* ===== verification/Receive.v ===== *)
(** * From received bytes to their effect (src/hdlc.c, src/main.c)

    No part of the firmware that a frame reaches touches the HDLC receiver
    ([hdlc_free]), so the receiver's refinement applies to the whole system:
    received bytes have the effect of the frames they contain, in order. *)

From S2P Require Import Prelude Config Protocols Hdlc HdlcRx Kernel Messages Interfaces NodeCache.
From S2P Require Import State ApMap NodeLink NodeLife Ap LocalNode Routes Svc SvcFacts NodeTx.
From S2P Require Import Bridge NodeRx Discovery Main MainFacts.

(** [m] behaves the same whatever the receiver's state is, and keeps it. *)
Definition hdlc_free `{KHeap, KSlab, Sockets} {A} (m : M fw A) : Prop :=
  ∀ d s, m (store L_hdlc d s)
    = match m s with Done a s' => Done a (store L_hdlc d s') | Crash f => Crash f end.

Create HintDb hdlc_free discriminated.

Section Free.
Context `{Config, Crc16, KHeap, KSlab, Sockets, Stack}.

Lemma free_ret {A} (a : A) : hdlc_free (mret a). Proof. done. Qed.
Lemma free_crash {A} f : hdlc_free (crash f : M fw A). Proof. done. Qed.

Lemma free_bind {A B} (m : M fw A) (k : A → M fw B) :
  hdlc_free m → (∀ a, hdlc_free (k a)) → hdlc_free (m ≫= k).
Proof.
  intros Hm Hk d s. unfold mbind, M_bind. rewrite Hm. destruct (m s) as [a s'|]; [apply Hk|done].
Qed.

(** A component other than the receiver. *)
Definition apart {T} (l : lens fw T) : Prop :=
  ∀ d s, view l (store L_hdlc d s) = view l s ∧
    ∀ t, store l t (store L_hdlc d s) = store L_hdlc d (store l t s).

Lemma free_zoom {T A} (l : lens fw T) (m : M T A) : apart l → hdlc_free (zoom l m).
Proof.
  intros Hl d s. destruct (Hl d s) as [Hv Hs]. unfold zoom. rewrite Hv.
  destruct (m (view l s)); [by rewrite Hs|done].
Qed.

Lemma free_pure {A} (m : M fw A) :
  ((∃ a, ∀ s : fw, m s = Done a s) ∨ ∃ f, ∀ s : fw, m s = Crash f) → hdlc_free m.
Proof. intros [[a Ha]|[f Hf]] d s; [by rewrite !Ha|by rewrite !Hf]. Qed.

Lemma free_array_get {A} (l : list A) i : hdlc_free (array_get l i).
Proof.
  apply free_pure. unfold array_get. destruct (i <? 0); [by right; eexists|].
  destruct (l !! Z.to_nat i); [left|right]; by eexists.
Qed.

Lemma free_array_set {A} (l : list A) i a : hdlc_free (array_set l i a).
Proof.
  apply free_pure. unfold array_set. destruct (i <? 0); [by right; eexists|].
  case_decide; [left|right]; by eexists.
Qed.

Lemma free_memcpy_at dst off src n : hdlc_free (memcpy_at dst off src n).
Proof.
  unfold memcpy_at. case_decide; [|done]. apply free_bind; [|done]. apply free_pure.
  unfold memcpy. case_decide; [left|right]; by eexists.
Qed.

Lemma free_read_fields {A} `{Packed A} n bs : hdlc_free (read_fields n bs : M fw A).
Proof.
  apply free_pure. unfold read_fields. case_decide; [left|right]; by eexists.
Qed.

Lemma free_read_struct {A} `{Packed A} bs : hdlc_free (read_struct bs : M fw A).
Proof.
  apply free_pure. unfold read_struct. case_decide; [left|right]; by eexists.
Qed.
End Free.

#[export] Hint Resolve free_ret free_crash free_array_get free_array_set free_memcpy_at
  free_read_fields free_read_struct : hdlc_free.

(** Take a program apart down to the components it uses. *)
Ltac hdlc_free :=
  repeat match goal with
    | |- hdlc_free (_ ≫= _) => apply free_bind; [|intros ?]
    | |- hdlc_free (if ?b then _ else _) => destruct b
    | |- hdlc_free (match ?x with _ => _ end) => destruct x
    | |- hdlc_free (let _ := _ in _) => cbv zeta
    | |- hdlc_free (getL _) => apply free_zoom; done
    | |- hdlc_free (modL _ _) => apply free_zoom; done
    | |- hdlc_free (zoom _ _) => apply free_zoom; done
    | |- hdlc_free _ => solve [auto 2 with hdlc_free]
    | |- hdlc_free _ => progress cbv beta
    end.

Section Firmware.
Context `{Config, Crc16, KHeap, KSlab, Sockets, Stack}.

Lemma free_write_loop sock data len fuel t : hdlc_free (write_loop sock data len fuel t).
Proof.
  revert t. induction fuel as [|fuel IH]; intros t; cbn [write_loop]; unfold sock_send; hdlc_free.
Qed.
Hint Resolve free_write_loop : hdlc_free.

Lemma free_write_data sock data len : hdlc_free (write_data sock data len).
Proof. unfold write_data. hdlc_free. Qed.
Hint Resolve free_write_data : hdlc_free.

Lemma free_ap_cport_from nid cport n i : hdlc_free (ap_cport_from nid cport n i).
Proof. revert i. induction n as [|n IH]; intros i; cbn [ap_cport_from]; hdlc_free. Qed.

Lemma free_deinit_from n i : hdlc_free (deinit_from n i).
Proof. revert i. induction n as [|n IH]; intros i; cbn [deinit_from]; hdlc_free. Qed.

Lemma free_poll_out_from buffer n i : hdlc_free (poll_out_from buffer n i).
Proof.
  revert i. induction n as [|n IH]; intros i; cbn [poll_out_from]; unfold uart_poll_out; hdlc_free.
Qed.
Hint Resolve free_ap_cport_from free_deinit_from free_poll_out_from : hdlc_free.

Lemma free_uart_poll_out_crc b c : hdlc_free (uart_poll_out_crc hdlc_send_callback b c).
Proof. unfold uart_poll_out_crc, hdlc_send_callback. hdlc_free. Qed.
Hint Resolve free_uart_poll_out_crc : hdlc_free.

Lemma free_send_buffer buffer n i c : hdlc_free (send_buffer hdlc_send_callback buffer n i c).
Proof. revert i c. induction n as [|n IH]; intros i c; cbn [send_buffer]; hdlc_free. Qed.
Hint Resolve free_send_buffer : hdlc_free.

Lemma free_ap_send msg cport : hdlc_free (ap_send msg cport).
Proof.
  unfold ap_send, gb_message_hdlc_send, hdlc_block_send_sync. cbn [Z.eqb].
  unfold hdlc_send_callback. hdlc_free.
Qed.
Hint Resolve free_ap_send : hdlc_free.

Lemma free_node_destroy_interface inf : hdlc_free (node_destroy_interface inf).
Proof. unfold node_destroy_interface, ctrl_sock, ctrl_free, sock_close. hdlc_free. Qed.
Hint Resolve free_node_destroy_interface : hdlc_free.

Lemma free_node_create_connection inf cport : hdlc_free (node_intf_create_connection inf cport).
Proof.
  unfold node_intf_create_connection, connect_to_node, ctrl_sock, ctrl_set_sock, pipe_send,
    sock_send, sock_close, ctrl_sock. hdlc_free.
Qed.
Hint Resolve free_node_create_connection : hdlc_free.

Lemma free_find_by_id nid : hdlc_free (gb_interface_find_by_id nid).
Proof.
  unfold gb_interface_find_by_id, svc_interface, svc_is_ready, node_find_by_id. hdlc_free.
Qed.
Hint Resolve free_find_by_id : hdlc_free.

Lemma free_connection_create i1 c1 i2 c2 : hdlc_free (connection_create i1 c1 i2 c2).
Proof.
  unfold connection_create, call_create_connection, svc_inf_create_connection, svc_is_ready,
    intf_create_connection, node_ap_add. hdlc_free.
Qed.

Lemma free_connection_destroy i1 c1 i2 c2 : hdlc_free (connection_destroy i1 c1 i2 c2).
Proof.
  unfold connection_destroy, call_destroy_connection, svc_inf_destroy_connection,
    intf_destroy_connection, node_intf_destroy_connection, node_ap_remove. hdlc_free.
Qed.
Hint Resolve free_connection_create free_connection_destroy : hdlc_free.

(** *** Clients of [connection_send] *)

Section Clients.
Context (cs : Z → Z → Z → M fw Z).
Hypothesis cs_free : ∀ intf_id cport msg, hdlc_free (cs intf_id cport msg).

Lemma free_control_send_request pl n t : hdlc_free (control_send_request cs pl n t).
Proof. unfold control_send_request. hdlc_free; apply cs_free. Qed.
Hint Resolve free_control_send_request : hdlc_free.

Lemma free_svc_send_module_removed intf : hdlc_free (svc_send_module_removed cs intf).
Proof. unfold svc_send_module_removed. hdlc_free. Qed.
Hint Resolve free_svc_send_module_removed : hdlc_free.

Lemma free_svc_response_helper msg pl n st : hdlc_free (svc_response_helper cs msg pl n st).
Proof. unfold svc_response_helper. hdlc_free; apply cs_free. Qed.
Hint Resolve free_svc_response_helper : hdlc_free.

Lemma free_svc_notifications msg :
  hdlc_free (svc_module_inserted_response_handler msg) ∧
  hdlc_free (svc_module_removed_response_handler msg) ∧
  hdlc_free (svc_hello_response_handler msg).
Proof.
  unfold svc_module_inserted_response_handler, svc_module_removed_response_handler,
    svc_hello_response_handler. split_and!; hdlc_free.
Qed.

Lemma free_svc_handlers msg :
  hdlc_free (svc_version_response_handler cs msg) ∧
  hdlc_free (svc_connection_create_handler cs msg) ∧
  hdlc_free (svc_connection_destroy_handler cs msg) ∧
  hdlc_free (svc_intf_set_pwrm_handler cs msg).
Proof.
  unfold svc_version_response_handler, svc_send_hello, svc_connection_create_handler,
    svc_connection_destroy_handler, svc_intf_set_pwrm_handler.
  split_and!; hdlc_free.
Qed.

Lemma free_svc_inf_write ctrl msg cport : hdlc_free (svc_inf_write cs ctrl msg cport).
Proof.
  destruct (free_svc_handlers msg) as (? & ? & ? & ?).
  destruct (free_svc_notifications msg) as (? & ? & ?).
  unfold svc_inf_write, gb_handle_msg. hdlc_free; apply free_svc_response_helper.
Qed.

Lemma free_response_helper ctrl msg pl n st cport :
  hdlc_free (response_helper cs ctrl msg pl n st cport).
Proof. unfold response_helper. hdlc_free; apply cs_free. Qed.
Hint Resolve free_response_helper : hdlc_free.

Lemma free_intf_write ctrl msg cport : hdlc_free (intf_write cs ctrl msg cport).
Proof.
  unfold intf_write, control_protocol_handle. hdlc_free; apply free_response_helper.
Qed.

Lemma free_node_inf_write ctrl msg cport : hdlc_free (node_inf_write cs ctrl msg cport).
Proof.
  unfold node_inf_write, gb_message_send, svc_send_module_removed_by_sock, ctrl_sock. hdlc_free.
Qed.

Lemma free_call_write intf msg cport : hdlc_free (call_write cs intf msg cport).
Proof.
  unfold call_write. hdlc_free;
    [apply free_svc_inf_write|apply free_intf_write|apply free_node_inf_write].
Qed.
End Clients.

Lemma free_connection_send_fuel fuel intf_id cport msg :
  hdlc_free (connection_send_fuel fuel intf_id cport msg).
Proof.
  revert intf_id cport msg. induction fuel as [|fuel IH]; intros intf_id cport msg; [done|].
  rewrite connection_send_S. unfold node_to_ap_cport. hdlc_free. by apply free_call_write.
Qed.

Lemma free_connection_send intf_id cport msg : hdlc_free (connection_send intf_id cport msg).
Proof. apply free_connection_send_fuel. Qed.
Hint Resolve free_connection_send : hdlc_free.

Lemma free_destroy_from n i : hdlc_free (destroy_from n i).
Proof. revert i. induction n as [|n IH]; intros i; cbn [destroy_from]; hdlc_free. Qed.
Hint Resolve free_destroy_from : hdlc_free.

(** Nothing a frame does depends on the receiver. *)
Lemma free_process_frame buffer len address :
  hdlc_free (Main.hdlc_process_complete_frame buffer len address).
Proof.
  unfold Main.hdlc_process_complete_frame, hdlc_process_greybus_frame, control_process_frame.
  unfold ap_rx_submit, svc_send_version, node_destroy_all, apbridge_deinit, svc_init, svc_deinit,
    tcp_discovery_start, tcp_discovery_stop, ap_init, ap_deinit, apbridge_init.
  hdlc_free. by apply free_control_send_request; intros; apply free_connection_send.
Qed.
End Firmware.

#[export] Hint Resolve free_ap_cport_from free_deinit_from free_node_destroy_interface free_node_create_connection
  free_find_by_id free_connection_send free_destroy_from : hdlc_free.

(** ** A frame's effect depends only on the frame *)

(** A Greybus frame holds at least a cport and a header; a shorter one makes
    the code read what earlier frames left behind it. *)
Definition frame_good (f : frame) : Prop :=
  fst f = ADDRESS_GREYBUS → (10 <= length (snd f))%nat ∧ bytes (snd f).

Section Effects.
Context `{Config, !ConfigOk _, Crc16, !Crc16Laws, KHeap, !KHeapLaws, KSlab, !KSlabLaws,
          Sockets, !SocketsLaws, Stack, !StackLaws}.
Implicit Types s : fw.

(** What the firmware does with a frame; the result is only logged. *)
Definition frame_effect (f : frame) : M fw () :=
  _ ← Main.hdlc_process_complete_frame (snd f) (length (snd f)) (fst f); mret ().

(** The header is read from the first ten bytes. *)
Lemma greybus_header_take buffer (len : nat) s :
  (10 <= len <= length buffer)%nat → bytes (take len buffer) →
  ∃ hdr : gb_operation_msg_hdr, in_range hdr ∧
    read_struct (drop 2 buffer) s = Done hdr s ∧ read_struct (drop 2 (take len buffer)) s = Done hdr s.
Proof.
  intros Hl Hb. assert (Hsize : sizeof gb_operation_msg_hdr = 8%nat) by done.
  exists (of_wire (drop 2 buffer)). split; [|split].
  - rewrite <-(of_wire_take (len - 2)) by (rewrite Hsize; lia).
    apply of_wire_header_range; [|rewrite length_take, length_drop; lia].
    rewrite <-skipn_firstn_comm. by apply Forall_drop.
  - apply read_struct_ok. rewrite Hsize, length_drop. lia.
  - rewrite (read_struct_ok (A := gb_operation_msg_hdr)) by (rewrite Hsize, length_drop, length_take; lia).
    by rewrite skipn_firstn_comm, of_wire_take by (rewrite Hsize; lia).
Qed.

(** A block that was allocated for a header's payload. *)
Lemma allocated_payload_len (hdr : gb_operation_msg_hdr) t i r p m m' b :
  in_range hdr → gb_message_alloc (gb_hdr_payload_len hdr) t i r m = Done p m' → p ≠ NULL →
  msg_store m' !! p = Some b →
  gb_message_payload_len b = hdr_size hdr - 8.
Proof.
  intros Hhdr Halloc Hp Hlook.
  destruct (gb_message_alloc_Done _ _ _ _ _ _ _ Halloc) as [|(b' & Hlook' & Hbsize)]; [done|].
  rewrite Hlook in Hlook'. injection Hlook' as <-.
  assert (Hu16 : is_u16 (hdr_size hdr)) by (destruct hdr; by apply in_range_header in Hhdr as (? & _)).
  assert (Hge : 8 <= hdr_size hdr).
  { apply Z.nlt_ge. intros Hlt. apply Hp. unfold gb_hdr_payload_len in Halloc.
    eapply gb_message_alloc_short; [|exact Halloc]. unfold is_u16 in Hu16. lia. }
  unfold gb_hdr_payload_len in Hbsize. change (Z.of_nat (sizeof gb_operation_msg_hdr)) with 8 in Hbsize.
  unfold is_u16 in Hu16. rewrite (u32_id (hdr_size hdr - 8)) in Hbsize by (unfold is_u32; lia).
  apply sized_payload_len; [done|lia|unfold is_u16; lia].
Qed.

Lemma greybus_frame_take buffer (len : nat) s :
  (10 <= len <= length buffer)%nat → bytes (take len buffer) →
  hdlc_process_greybus_frame buffer len s = hdlc_process_greybus_frame (take len buffer) len s.
Proof.
  intros Hl Hb. unfold hdlc_process_greybus_frame.
  destruct (greybus_header_take buffer len s Hl Hb) as (hdr & Hhdr & Hread & Hread').
  step_with Hread. step_with Hread'.
  destruct (_ <? hdr_size hdr) eqn:Hfit; [done|]. apply Z.ltb_ge in Hfit.
  assert (Hfit' : hdr_size hdr <= len - 2).
  { pose proof (Z.mod_le (len - 2) (2 ^ 32) ltac:(lia) ltac:(done)). unfold u32 in Hfit. lia. }
  unfold mbind, M_bind. destruct (zoom L_messages (gb_message_alloc _ _ _ _) s) as [p s1|] eqn:Hz; [|done].
  unfold zoom in Hz.
  destruct (gb_message_alloc _ _ _ _ (view L_messages s)) as [p' m'|] eqn:Halloc; [|done].
  assert (p' = p ∧ store L_messages m' s = s1) as [-> <-] by (split; congruence).
  destruct (Z.eqb_spec p NULL) as [|Hp]; [done|].
  destruct (gb_message_alloc_Done _ _ _ _ _ _ _ Halloc) as [|(b & Hlook & _)]; [done|].
  pose proof (allocated_payload_len hdr _ _ _ p _ m' b Hhdr Halloc Hp Hlook) as Hplen.
  set (s1 := store L_messages m' s).
  assert (Hderef : zoom L_messages (msg_deref p) s1 = Done b s1).
  { apply zoom_read; [apply _|]. unfold msg_deref, getS, mbind, M_bind.
    cbn [view L_messages s1 store fw_messages]. rewrite (proj2 (Z.eqb_neq _ _) Hp). by rewrite Hlook. }
  rewrite Hderef.
  assert (Hwrite : msg_write_payload p (drop 10 buffer) (gb_message_payload_len b)
    ≡ msg_write_payload p (drop 10 (take len buffer)) (gb_message_payload_len b)).
  { intros m. rewrite skipn_firstn_comm. symmetry.
    apply msg_write_payload_take; [lia|rewrite length_drop; lia]. }
  assert (Hzw : zoom L_messages (msg_write_payload p (drop 10 buffer) (gb_message_payload_len b)) s1
    = zoom L_messages (msg_write_payload p (drop 10 (take len buffer)) (gb_message_payload_len b)) s1).
  { unfold zoom. by rewrite (Hwrite (view L_messages s1)). }
  rewrite Hzw.
  match goal with
  | |- match ?x with _ => _ end = match ?y with _ => _ end =>
      change y with x; destruct x as [[] s2|]; [|reflexivity]
  end.
  rewrite take_take. by rewrite Nat.min_l by lia.
Qed.

Lemma frame_effect_ok buffer len address s :
  0 <= len <= length buffer → frame_good (address, take (Z.to_nat len) buffer) →
  (Main.hdlc_process_complete_frame buffer len address ≫= λ _, mret ()) s
  = frame_effect (address, take (Z.to_nat len) buffer) s.
Proof.
  intros Hl Hgood. unfold frame_effect. cbn [fst snd].
  assert (Hlen : length (take (Z.to_nat len) buffer) = Z.to_nat len) by (rewrite length_take; lia).
  rewrite Hlen, Z2Nat.id by lia.
  enough (Hsame : Main.hdlc_process_complete_frame buffer len address s
    = Main.hdlc_process_complete_frame (take (Z.to_nat len) buffer) len address s).
  { unfold mbind, M_bind. by rewrite Hsame. }
  unfold Main.hdlc_process_complete_frame.
  destruct (Z.eqb_spec address ADDRESS_GREYBUS) as [->|_].
  { destruct (Hgood eq_refl) as [Hmin Hb]. cbn [snd] in *. rewrite Hlen in Hmin.
    pose proof (greybus_frame_take buffer (Z.to_nat len) s ltac:(lia) Hb) as Htake.
    by rewrite Z2Nat.id in Htake by lia. }
  destruct (address =? ADDRESS_CONTROL); [|done]. unfold control_process_frame.
  destruct (Z.eqb_spec len 1) as [->|_]; [|done]. cbn [negb].
  by destruct buffer as [|c buffer].
Qed.

Lemma receive_bytes_outcome bs a s :
  sim (fw_hdlc s) a → Forall frame_good (snd (deframe a bs)) →
  ∃ d', receive_bytes bs s
        = (outcome L_hdlc frame_effect (snd (deframe a bs)) d' ≫= λ _, mret (length bs : Z)) s
      ∧ sim d' (fst (deframe a bs)).
Proof.
  intros Hs Hgood. unfold receive_bytes.
  apply (hdlc_process_buffer_outcome L_hdlc Main.hdlc_process_complete_frame frame_good frame_effect);
    [|..|done|done].
  - intros buffer len address w. apply frame_effect_ok.
  - intros f d w.
    assert (Hfree : hdlc_free (frame_effect f)).
    { unfold frame_effect. hdlc_free. apply free_process_frame. }
    rewrite Hfree. unfold mbind, M_bind, modS. by destruct (frame_effect f w) as [[] ?|].
Qed.

(** C3: Receiving any bytes, cut in any way, has on the whole firmware the effect of handing
    over one by one, in order, the frames the abstract deframer finds in them (as long as
    Greybus frames hold at least their ten byte header): the driver's state follows the
    deframer's, and no frame handler disturbs it. *)
Theorem receive_bytes_frames bs a s :
  sim (fw_hdlc s) a → Forall frame_good (snd (deframe a bs)) →
  ∃ d', receive_bytes bs s
        = (outcome L_hdlc frame_effect (snd (deframe a bs)) d' ≫= λ _, mret (length bs : Z)) s
      ∧ sim d' (fst (deframe a bs)).
Proof. apply receive_bytes_outcome. Qed.

(** *** One message from the AP *)

(** The bytes on the UART that carry a message. *)
Definition uart_message (cport : Z) (b : gb_message) : list Z :=
  frame_bytes ADDRESS_GREYBUS 0x03 (message_wire cport b).

Lemma receive_message q cport b s :
  sim (fw_hdlc s) (at_boundary q) → sendable b →
  14 + length (payload b) <= HDLC_MAX_BLOCK_SIZE →
  ∃ d', sim d' (at_boundary q) ∧
    receive_bytes (uart_message cport b) s
    = match hdlc_process_greybus_frame (greybus_frame cport b []) (10 + length (payload b)) s with
      | Done _ s' => Done (length (uart_message cport b) : Z) (store L_hdlc d' s')
      | Crash f => Crash f
      end.
Proof.
  intros Hs Hb Hl. pose proof (length_message_wire cport b) as Hlen.
  pose proof (message_wire_bytes cport b Hb) as Hbytes.
  pose proof (deframe_frame q ADDRESS_GREYBUS 0x03 (message_wire cport b) ltac:(done) ltac:(done)
    Hbytes ltac:(lia)) as Hde. change (Z.land 0x03 1 =? 0) with false in Hde. cbv iota in Hde.
  destruct (receive_bytes_outcome (uart_message cport b) (at_boundary q) s Hs)
    as (d' & Hrun & Hs').
  { unfold uart_message. rewrite Hde. apply Forall_singleton. intros _. cbn. split; [lia|done]. }
  unfold uart_message in *. rewrite Hde in Hrun, Hs'. cbn [fst snd] in *.
  exists d'. split; [done|]. rewrite Hrun. unfold outcome, greybus_frame. rewrite app_nil_r.
  cbn [deliver_all]. unfold frame_effect. cbn [fst snd].
  change (Main.hdlc_process_complete_frame (message_wire cport b) (length (message_wire cport b)) ADDRESS_GREYBUS)
    with (hdlc_process_greybus_frame (message_wire cport b) (length (message_wire cport b))).
  rewrite Hlen. unfold mbind, M_bind.
  by destruct (hdlc_process_greybus_frame (message_wire cport b) _ s) as [? ?|].
Qed.

(** C1: The bytes of an HDLC frame carrying an SVC request, received on the UART while the
    receiver is between frames, make the firmware write to the UART exactly one frame, with the
    response the SVC specification svc_reply gives (the request's operation id, the type with
    the response bit, success, the payload), to the AP cport the SVC is connected to; no message
    stays allocated, and the receiver is between frames again. *)
Theorem svc_request_answered_on_uart q cport b rp nid j s :
  sim (fw_hdlc s) (at_boundary q) → link_wf s → sendable b → 0 <= cport < 2 ^ 16 →
  14 + length (payload b) <= HDLC_MAX_BLOCK_SIZE → 16 <= HDLC_MAX_BLOCK_SIZE →
  fw_ap_map s !! Z.to_nat cport = Some (NodeApItem SvcIntf 0 nid) →
  ap_cport_of SVC_INF_ID 0 (fw_ap_map s) = Some j →
  svc_reply (hdr_type (header b)) (payload b) = Some rp →
  heap_takes (greybus_messages_heap (fw_messages s)) [8 + length (payload b); 8 + length rp] →
  ∃ r s', receive_bytes (uart_message cport b) s = Done (length (uart_message cport b) : Z) s' ∧
    message_is rp (GB_RESPONSE (hdr_type (header b))) (hdr_operation_id (header b))
      GB_SVC_OP_SUCCESS r ∧
    fw_uart s' = fw_uart s ++ uart_message j r ∧
    msg_store (fw_messages s') = msg_store (fw_messages s) ∧
    sim (fw_hdlc s') (at_boundary q).
Proof.
  intros Hs Hlink Hb Hc Hl Hblock Hit Hj Hr Htakes.
  destruct (receive_message q cport b s Hs Hb Hl) as (d' & Hs' & Hrecv).
  pose proof hdlc_block_ok as Hok. unfold HDLC_MAX_BLOCK_SIZE in *.
  destruct (svc_frame_answered cport b [] rp nid j s) as (s1 & Hrun & r & Hmsg & Hans);
    try assumption; [lia|].
  rewrite Hrun in Hrecv. destruct Hans as (m' & _ & Hst & _ & _ & ->).
  exists r. eexists. split; [exact Hrecv|]. unfold GB_RESPONSE. rewrite Z.lor_comm.
  split; [exact Hmsg|]. split; [done|]. split; [exact Hst|exact Hs'].
Qed.

(** What the bytes of a message for a remote node do. *)
Lemma node_message_bytes q cport b it p i ncport j s :
  sim (fw_hdlc s) (at_boundary q) → link_wf s → nodes_wf s → sendable b → 0 <= cport < 2 ^ 16 →
  14 + length (payload b) <= HDLC_MAX_BLOCK_SIZE → 11 <= HDLC_MAX_BLOCK_SIZE →
  it ∈ entries (fw_nodes s) → entry_ok s it p i →
  (∀ it', it' ∈ entries (fw_nodes s) → ni_sock it' = ni_sock it → it' = it) →
  fw_ap_map s !! Z.to_nat cport = Some (NodeApItem (ni_inf it) ncport (ni_id it)) →
  ap_cport_of SVC_INF_ID 0 (fw_ap_map s) = Some j →
  k_heap_alloc (greybus_messages_heap (fw_messages s)) (8 + length (payload b)) ≠ None →
  room_beside_message s →
  let run := receive_bytes (uart_message cport b) s in
  (∃ b' s', run = Done (length (uart_message cport b) : Z) s' ∧ same_message b b' ∧
     sent_on (ni_sock it) (message_wire ncport b') (fw_net s) (fw_net s') ∧
     fw_uart s' = fw_uart s ∧ msg_store (fw_messages s') = msg_store (fw_messages s) ∧
     sim (fw_hdlc s') (at_boundary q)) ∨
  ∃ ret d' s', run = Done (length (uart_message cport b) : Z) (store L_hdlc d' s') ∧
    send_failed_twice it ncport b j ret s s' ∧ sim d' (at_boundary q).
Proof.
  intros Hs Hlink Hnodes Hb Hc Hl Hblock Hit Hok Huniq Hroute Hj Hroom1 Hroom. cbv zeta.
  destruct (receive_message q cport b s Hs Hb Hl) as (d' & Hs' & Hrecv).
  pose proof hdlc_block_ok as Hbok. unfold HDLC_MAX_BLOCK_SIZE in *.
  destruct (node_frame_delivered cport b [] it p i ncport j s)
    as [(b' & n' & s1 & Hrun & Hsame & Hsent & <- & Huart & Hst)|(ret & s1 & Hrun & Hfail)];
    try assumption; [lia|..]; rewrite Hrun in Hrecv.
  - left. exists b'. eexists. split; [exact Hrecv|]. by split_and!.
  - right. by exists ret, d', s1.
Qed.

(** C9: The bytes of a frame with a message for a cport connected to a remote node make the
    node's TCP socket carry exactly that message, tagged with the node's cport, with nothing on
    the UART and no message left allocated; otherwise a send on that socket failed with a
    negative result, the bytes that went out are a beginning of the message, the node is removed
    twice (by gb_message_send and again by node_inf_write: the AP is told twice and the socket
    closed twice), and no message is left allocated. Assumes the heap has room for the message
    and, beside it, for the events. *)
Theorem node_message_reaches_socket q cport b it p i ncport j s :
  sim (fw_hdlc s) (at_boundary q) → link_wf s → nodes_wf s → sendable b → 0 <= cport < 2 ^ 16 →
  14 + length (payload b) <= HDLC_MAX_BLOCK_SIZE → 11 <= HDLC_MAX_BLOCK_SIZE →
  it ∈ entries (fw_nodes s) → entry_ok s it p i →
  (∀ it', it' ∈ entries (fw_nodes s) → ni_sock it' = ni_sock it → it' = it) →
  fw_ap_map s !! Z.to_nat cport = Some (NodeApItem (ni_inf it) ncport (ni_id it)) →
  ap_cport_of SVC_INF_ID 0 (fw_ap_map s) = Some j →
  k_heap_alloc (greybus_messages_heap (fw_messages s)) (8 + length (payload b)) ≠ None →
  room_beside_message s →
  let run := receive_bytes (uart_message cport b) s in
  (∃ b' s', run = Done (length (uart_message cport b) : Z) s' ∧ same_message b b' ∧
     sent_on (ni_sock it) (message_wire ncport b') (fw_net s) (fw_net s') ∧
     fw_uart s' = fw_uart s ∧ msg_store (fw_messages s') = msg_store (fw_messages s) ∧
     sim (fw_hdlc s') (at_boundary q)) ∨
  ∃ ret d' s', run = Done (length (uart_message cport b) : Z) (store L_hdlc d' s') ∧
    send_failed_twice it ncport b j ret s s' ∧ sim d' (at_boundary q).
Proof. apply node_message_bytes. Qed.
End Effects.
