(* ===== verification/RxPreempted.v ===== *)
(** * The HDLC receiver while other threads run (src/hdlc.c, src/main.c)

    Only the work item touches the HDLC driver: the pieces of all other threads,
    and those of the handling of a frame, leave it alone ([still]).  So whatever
    runs in between, the receiver goes through the states of the abstract
    deframer and hands over its frames. *)

From S2P Require Import Prelude Config Protocols Hdlc HdlcRx Kernel Mdns Messages Interfaces NodeCache.
From S2P Require Import State ApMap NodeLink NodeLife Ap LocalNode Routes Svc SvcFacts NodeTx.
From S2P Require Import Bridge NodeRx Discovery Resume NodeThreads HdlcThread Rely ApThreads SvcThreads.
From S2P Require Import SendThreads Threads Main WorkItem LogBackend LogThread MainFacts Receive.

(** ** The receiver, over the driver and the frames handed over *)

Section Receiver.
Context `{Config, !ConfigOk _, Crc16, !Crc16Laws}.
Context {W : Type} (drv : lens W hdlc_driver) `{!LensLaws drv} (frames : W → list frame).
Context (Hframes : ∀ d w, frames (store drv d w) = frames w).

Definition rx_obs (w : W) : rx_world := (view drv w, frames w).

(** Steps of others. *)
Context (rel : relation W) (Hrel : ∀ w w', rel w w' → rx_obs w' = rx_obs w).

Notation "t ⊑ m" := (implements rel rx_obs eq t m) (at level 70).

Lemma receiver_reads : call (getL drv) ⊑ getL rx_driver.
Proof.
  apply implements_call; [done|]. intros w. unfold getL, zoom, getS. cbn. by rewrite store_view.
Qed.

Lemma receiver_writes f : call (modL drv f) ⊑ modL rx_driver f.
Proof.
  apply implements_call; [done|]. intros w. unfold modL, zoom, modS, rx_obs. cbn.
  by rewrite Hframes, view_store.
Qed.

(** A piece that only looks at an array. *)
Lemma receiver_pure {A} (m : ∀ S, M S A) :
  ((∃ a, ∀ S s, m S s = Done a s) ∨ ∃ f, ∀ S s, m S s = Crash f) → call (m W) ⊑ m rx_world.
Proof. intros Hm. apply implements_call; [done|]. intros w. by destruct Hm as [[a Ha]|[f Hf]]; rewrite ?Ha, ?Hf. Qed.

Lemma receiver_array_get {A} (l : list A) i : call (array_get l i) ⊑ array_get l i.
Proof.
  apply (receiver_pure (λ S, array_get l i)). unfold array_get. destruct (i <? 0); [by right; eexists|].
  destruct (l !! Z.to_nat i); [left|right]; by eexists.
Qed.

Lemma receiver_array_set {A} (l : list A) i a : call (array_set l i a) ⊑ array_set l i a.
Proof.
  apply (receiver_pure (λ S, array_set l i a)). unfold array_set. destruct (i <? 0); [by right; eexists|].
  case_decide; [left|right]; by eexists.
Qed.

Hint Resolve receiver_reads receiver_writes receiver_array_get receiver_array_set : core.

Ltac receiver_step :=
  match goal with
  | |- mret _ ⊑ mret _ => by apply implements_ret
  | |- (_ ≫= _) ⊑ (_ ≫= _) => apply (implements_bind rel rx_obs eq eq); [|intros ? ? <-; cbv beta zeta]
  | |- (if ?b then _ else _) ⊑ _ => destruct b
  | |- _ => solve [auto 2]
  end.

Context (cb_t : list Z → Z → Z → thread W Z).
Context (Hcb : ∀ buffer len address,
  implements rel rx_obs (λ _ _, True) (cb_t buffer len address) (record_frame buffer len address)).

Lemma receiver_delivers : hdlc_process_complete_frame_t drv cb_t ⊑ Hdlc.hdlc_process_complete_frame rx_driver record_frame.
Proof.
  unfold hdlc_process_complete_frame_t, Hdlc.hdlc_process_complete_frame. do 2 (receiver_step; [receiver_step|]).
  eapply implements_bind; [apply Hcb|]. intros r r' _. receiver_step.
Qed.
Hint Resolve receiver_delivers : core.

Lemma receiver_process_frame : hdlc_process_frame_t drv cb_t ⊑ hdlc_process_frame rx_driver record_frame.
Proof. unfold hdlc_process_frame_t, hdlc_process_frame. repeat receiver_step. Qed.
Hint Resolve receiver_process_frame : core.

Lemma receiver_save_byte byte : hdlc_save_byte_t drv byte ⊑ hdlc_save_byte rx_driver byte.
Proof. unfold hdlc_save_byte_t, hdlc_save_byte. repeat receiver_step. Qed.
Hint Resolve receiver_save_byte : core.

Lemma receiver_input_byte byte :
  hdlc_rx_input_byte_t drv cb_t byte ⊑ hdlc_rx_input_byte rx_driver record_frame byte.
Proof. unfold hdlc_rx_input_byte_t, hdlc_rx_input_byte. repeat receiver_step. Qed.
Hint Resolve receiver_input_byte : core.

Lemma receiver_process_bytes bs : process_bytes_t drv cb_t bs ⊑ process_bytes rx_driver record_frame bs.
Proof. induction bs as [|b bs IH]; cbn [process_bytes_t process_bytes]; repeat receiver_step. Qed.
Hint Resolve receiver_process_bytes : core.

Lemma receiver_process_buffer bs :
  hdlc_process_buffer_t drv cb_t bs ⊑ hdlc_process_buffer rx_driver record_frame bs.
Proof. unfold hdlc_process_buffer_t, hdlc_process_buffer. repeat receiver_step. Qed.

(** Whatever happens in between, the deframer's states and frames. *)
Lemma receiver_preempted bs a w n w' :
  sim (view drv w) a → rtc (preempted rel) (hdlc_process_buffer_t drv cb_t bs, w) (Ret n, w') →
  n = length bs ∧ sim (view drv w') (fst (deframe a bs)) ∧ frames w' = frames w ++ snd (deframe a bs).
Proof.
  intros Hs Hsteps. destruct (hdlc_process_buffer_refines (view drv w) a (frames w) bs Hs) as (d' & Hrun & Hs').
  pose proof (receiver_process_buffer bs (rx_obs w)) as Himp. unfold rx_obs at 1 in Himp. rewrite Hrun in Himp.
  destruct (rg_sound _ _ _ _ w n w' (stable_obs rel rx_obs Hrel (rx_obs w)) Himp eq_refl Hsteps) as [-> Hobs].
  injection Hobs as -> ->. done.
Qed.
End Receiver.

(** ** Threads that leave the driver alone *)

Fixpoint still `{KHeap, KSlab, Sockets} {A} (t : thread fw A) : Prop :=
  match t with
  | Ret a => True
  | Block m => ∀ s,
      match m s with Done t' s' => fw_hdlc s' = fw_hdlc s ∧ still t' | Crash _ => True end
  end.

Create HintDb still discriminated.

Section Still.
Context `{Config, Crc16, KHeap, KSlab, Sockets, Stack}.

Lemma free_hdlc {A} (m : M fw A) s a s' : hdlc_free m → m s = Done a s' → fw_hdlc s' = fw_hdlc s.
Proof.
  intros Hm Hrun. specialize (Hm (fw_hdlc s) s). change (store L_hdlc (fw_hdlc s) s) with
    (store L_hdlc (view L_hdlc s) s) in Hm. rewrite store_view, Hrun in Hm. injection Hm as Hm. by rewrite Hm.
Qed.

Lemma still_call {A} (m : M fw A) : hdlc_free m → still (call m).
Proof.
  intros Hm s. unfold mbind, M_bind. destruct (m s) as [a s'|f] eqn:Hrun; [|done].
  split; [by apply (free_hdlc m s a)|done].
Qed.

Lemma still_bind {A B} (t : thread fw A) (k : A → thread fw B) :
  still t → (∀ a, still (k a)) → still (t ≫= k).
Proof.
  intros Ht Hk. revert t Ht. fix IH 1. intros [a|m]; [intros _; apply Hk|]. cbn [still]. intros Hm.
  unfold mbind, thread_bind. cbn [thread_bind_def still]. intros s. specialize (Hm s).
  destruct (m s) as [t s'|f]; [|done]. split; [apply Hm|]. apply (IH t), Hm.
Qed.
End Still.

Ltac still_step :=
  match goal with
  | |- still (mret _) => exact I
  | |- still (call _) => apply still_call; solve [hdlc_free]
  | |- still (_ ≫= _) => apply still_bind; [|intros ?]
  | |- still (if ?b then _ else _) => destruct b
  | |- still (match ?x with _ => _ end) => destruct x
  | |- still _ => first [solve [eauto 3 with still]|progress cbv beta zeta]
  end.
Ltac solve_still := repeat still_step.

Section Threads.
Context `{Config, Crc16, KHeap, KSlab, Sockets, Stack}.

Lemma still_poll_out buffer n i : still (poll_out_from_t buffer n i).
Proof. revert i. induction n as [|n IH]; intros i; cbn [poll_out_from_t]; unfold uart_poll_out; solve_still. Qed.
Hint Resolve still_poll_out : still.

Lemma still_poll_out_crc byte crc : still (uart_poll_out_crc_t byte crc).
Proof. unfold uart_poll_out_crc_t, hdlc_send_callback_t. solve_still. Qed.
Hint Resolve still_poll_out_crc : still.

Lemma still_send_buffer buffer n i crc : still (send_buffer_t buffer n i crc).
Proof. revert i crc. induction n as [|n IH]; intros i crc; cbn [send_buffer_t]; solve_still. Qed.
Hint Resolve still_send_buffer : still.

(** With a control byte of its own the frame does not need the driver. *)
Lemma still_block_send buffer len address control :
  control ≠ 0 → still (hdlc_block_send_sync_t buffer len address control).
Proof.
  intros Hc. unfold hdlc_block_send_sync_t, hdlc_send_callback_t. rewrite (proj2 (Z.eqb_neq _ _) Hc). solve_still.
Qed.

Lemma still_ap_send msg cport : still (ap_send_t msg cport).
Proof.
  assert (Hsend : ∀ buffer len, still (hdlc_block_send_sync_t buffer len ADDRESS_GREYBUS 0x03)).
  { intros. by apply still_block_send. }
  unfold ap_send_t, gb_message_hdlc_send_t. solve_still.
Qed.
Hint Resolve still_ap_send : still.

(** *** Nodes *)

Lemma still_create_connection ctrl cport : still (node_intf_create_connection_t ctrl cport).
Proof.
  unfold node_intf_create_connection_t, connect_to_node_t, sock_open, sock_connect, sock_close, ctrl_set_sock,
    ctrl_sock, pipe_send, sock_send. solve_still.
Qed.
Hint Resolve still_create_connection : still.

Lemma still_call_create intf cport : still (call_create_connection_t intf cport).
Proof.
  unfold call_create_connection_t, svc_inf_create_connection, svc_is_ready, intf_create_connection. solve_still.
Qed.

Lemma still_find_by_id nid : still (gb_interface_find_by_id_t nid).
Proof. unfold gb_interface_find_by_id_t, node_find_by_id_t, svc_interface, svc_is_ready. solve_still. Qed.
Hint Resolve still_call_create still_find_by_id : still.

Lemma still_destroy_interface inf : still (node_destroy_interface_t inf).
Proof.
  unfold node_destroy_interface_t, node_cache_remove_by_id_t, node_cache_remove_at_t, cache_pos, set_cache_pos,
    ctrl_sock, sock_close, ctrl_free. solve_still.
Qed.
Hint Resolve still_destroy_interface : still.

Lemma still_destroy_from n i : still (destroy_from_t n i).
Proof. revert i. induction n as [|n IH]; intros i; cbn [destroy_from_t]; unfold cache_pos; solve_still. Qed.
Hint Resolve still_destroy_from : still.

Lemma still_destroy_all : still node_destroy_all_t.
Proof. unfold node_destroy_all_t, set_cache_pos, assert_unused. solve_still. Qed.

Lemma still_create_interface addr : still (node_create_interface_t addr).
Proof.
  unfold node_create_interface_t, node_cache_add_t, cache_pos, set_cache_pos, ctrl_alloc, slab_alloc, ctrl_free.
  solve_still.
Qed.
Hint Resolve still_destroy_all still_create_interface : still.

Lemma still_connection_create i1 c1 i2 c2 : still (connection_create_t i1 c1 i2 c2).
Proof.
  unfold connection_create_t, node_ap_add. solve_still.
Qed.

Lemma still_connection_destroy i1 c1 i2 c2 : still (connection_destroy_t i1 c1 i2 c2).
Proof.
  unfold connection_destroy_t, call_destroy_connection, svc_inf_destroy_connection,
    intf_destroy_connection, node_intf_destroy_connection, node_ap_remove. solve_still.
Qed.
Hint Resolve still_connection_create still_connection_destroy : still.

Section Clients.
Context (cst : Z → Z → Z → thread fw Z) (Hcst : ∀ intf_id cport msg, still (cst intf_id cport msg)).
Hint Resolve Hcst : still.

Lemma still_send_request pl n type : still (control_send_request_t cst pl n type).
Proof. unfold control_send_request_t. solve_still. Qed.
Hint Resolve still_send_request : still.

Lemma still_module_removed inf : still (svc_send_module_removed_t cst inf).
Proof. unfold svc_send_module_removed_t. solve_still. Qed.
Hint Resolve still_module_removed : still.

Lemma still_svc_response msg pl n status : still (svc_response_helper_t cst msg pl n status).
Proof. unfold svc_response_helper_t. solve_still. Qed.
Hint Resolve still_svc_response : still.

Lemma still_local_response ctrl msg pl n status cport : still (response_helper_t cst ctrl msg pl n status cport).
Proof. unfold response_helper_t. solve_still. Qed.
Hint Resolve still_local_response : still.

Lemma still_intf_write ctrl msg cport : still (intf_write_t cst ctrl msg cport).
Proof.
  unfold intf_write_t, control_protocol_handle_t, control_protocol_cport_shutdown_handler_t,
    control_protocol_version_handler_t, control_protocol_get_manifest_size_handler_t,
    control_protocol_get_manifest_handler_t, control_protocol_empty_handler_t. solve_still.
Qed.

Lemma still_svc_inf_write ctrl msg cport : still (svc_inf_write_t cst ctrl msg cport).
Proof.
  unfold svc_inf_write_t, gb_handle_msg_t, svc_empty_request_handler_t, svc_connection_create_handler_t,
    svc_connection_destroy_handler_t, svc_dme_peer_get_handler_t, svc_dme_peer_set_handler_t,
    svc_intf_set_pwrm_handler_t, svc_pwrm_get_rail_count_handler_t, svc_intf_vsys_enable_disable_handler_t,
    svc_interface_refclk_enable_disable_handler_t, svc_interface_unipro_enable_disable_handler_t,
    svc_interface_activate_handler_t, svc_interface_resume_handler_t, svc_version_response_handler_t,
    svc_send_hello_t, svc_hello_response_handler_t, svc_module_inserted_response_handler_t,
    svc_module_removed_response_handler_t. solve_still.
Qed.

Lemma still_removed_by_sock sock : still (svc_send_module_removed_by_sock_t cst sock).
Proof. unfold svc_send_module_removed_by_sock_t. solve_still. Qed.
Hint Resolve still_removed_by_sock : still.

Lemma still_write_loop sock data len fuel t : still (write_loop_t sock data len fuel t).
Proof. revert t. induction fuel as [|fuel IH]; intros t; cbn [write_loop_t]; unfold sock_send; solve_still. Qed.
Hint Resolve still_write_loop : still.

Lemma still_node_inf_write ctrl msg cport : still (node_inf_write_t cst ctrl msg cport).
Proof. unfold node_inf_write_t, gb_message_send_t, write_data_t, ctrl_sock. solve_still. Qed.

Lemma still_call_write intf msg cport : still (call_write_t cst intf msg cport).
Proof.
  unfold call_write_t. still_step; [solve_still|].
  destruct (write a); [apply still_svc_inf_write|apply still_intf_write|apply still_node_inf_write].
Qed.
End Clients.

Lemma still_connection_fuel fuel intf_id cport msg : still (connection_send_fuel_t fuel intf_id cport msg).
Proof.
  revert intf_id cport msg. induction fuel as [|fuel IH]; intros intf_id cport msg; cbn [connection_send_fuel_t];
    [solve_still|]. unfold ap_entry, node_to_ap_cport. solve_still. by apply still_call_write.
Qed.

Lemma still_connection_send intf_id cport msg : still (connection_send_t intf_id cport msg).
Proof. apply still_connection_fuel. Qed.
Hint Resolve still_connection_send : still.

Lemma still_removed inf : still (svc_send_module_removed_t connection_send_t inf).
Proof. apply still_module_removed, still_connection_send. Qed.

Lemma still_removed_sock sock : still (svc_send_module_removed_by_sock_t connection_send_t sock).
Proof. apply still_removed_by_sock, still_connection_send. Qed.

Lemma still_request pl n type : still (control_send_request_t connection_send_t pl n type).
Proof. apply still_send_request, still_connection_send. Qed.
Hint Resolve still_removed still_removed_sock still_request : still.

(** *** The threads *)

Lemma still_poll fds timeout : still (call (sock_poll fds timeout)).
Proof. unfold sock_poll. solve_still. Qed.
Hint Resolve still_poll : still.

Lemma still_read_data sock len : still (read_data_t sock len).
Proof.
  unfold read_data_t. generalize (Z.to_nat len), 0, (@nil Z). intros fuel.
  induction fuel as [|fuel IH]; intros received data; cbn [read_loop_t]; unfold sock_recv; solve_still.
Qed.
Hint Resolve still_read_data : still.

Lemma still_rx_sockets flag fds : still (node_rx_sockets_t flag fds).
Proof.
  revert flag. induction fds as [|[fd revents] fds IH]; intros flag; cbn [node_rx_sockets_t]; [done|].
  unfold node_rx_socket_t, gb_message_receive_t. solve_still.
Qed.
Hint Resolve still_rx_sockets : still.

Lemma free_populate_fds n i : hdlc_free (populate_fds n i).
Proof. revert i. induction n as [|n IH]; intros i; cbn [populate_fds]; hdlc_free. Qed.
Hint Resolve free_populate_fds : hdlc_free.

Lemma still_rx_thread t : still (node_rx_thread_t t).
Proof.
  destruct t; cbn [node_rx_thread_t]; unfold node_rx_iteration_t, node_rx_thread_step, svc_is_ready, sock_recv; solve_still.
Qed.

Lemma still_node_filter addrs : still (node_filter_t addrs).
Proof.
  induction addrs as [|addr addrs IH]; cbn [node_filter_t]; [done|].
  unfold svc_send_module_inserted_t. solve_still.
Qed.
Hint Resolve still_node_filter : still.

Lemma still_recv_loop fuel sock ret total addr_list len query query_len :
  still (recv_loop_t fuel sock ret total addr_list len query query_len).
Proof.
  revert ret total addr_list. induction fuel as [|fuel IH]; intros ret total addr_list; cbn [recv_loop_t];
    unfold note_answer; solve_still.
Qed.
Hint Resolve still_recv_loop : still.

Lemma still_handler addr6 fuel : still (handler_t addr6 fuel).
Proof. unfold handler_t, static_round_t, mdns_round_t, mdns_query_recv_t. solve_still. Qed.

Lemma still_frame buffer len address : still (process_complete_frame_t buffer len address).
Proof.
  unfold process_complete_frame_t, hdlc_process_greybus_frame_t, control_process_frame_t, ap_rx_submit_t,
    svc_send_version_t, apbridge_deinit, svc_init, svc_deinit, tcp_discovery_start,
    tcp_discovery_stop, ap_init, ap_deinit, apbridge_init. solve_still.
Qed.
End Threads.

Lemma still_log_calls `{Config, Crc16, KHeap, KSlab, Sockets, Stack, UartDevice, LogOutput} calls :
  still (log_calls_t calls).
Proof.
  assert (Hsend : ∀ buffer len, still (hdlc_block_send_sync_t buffer len ADDRESS_DBG 0x03)).
  { intros. by apply still_block_send. }
  assert (Hout : ∀ blocks, still (hdlc_uart_output_t blocks)).
  { induction blocks as [|block blocks IH]; cbn [hdlc_uart_output_t]; [done|]. unfold hdlc_uart_out_t. solve_still. }
  induction calls as [|c calls IH]; cbn [log_calls_t]; [done|]. apply still_bind; [|done].
  destruct c; cbn [hdlc_uart_backend_api_t]; unfold hdlc_uart_backend_process_t, hdlc_uart_backend_dropped_t,
    hdlc_uart_backend_panic_t, hdlc_uart_backend_init, hdlc_uart_backend_is_ready, hdlc_uart_backend_format_set,
    hdlc_uart_backend_notify; solve_still.
Qed.

(** ** The work item, with a history of the frames handed over *)

Section Recorded.
Context `{Config, !ConfigOk _, Crc16, !Crc16Laws, KHeap, KSlab, Sockets, Stack}.

Definition recorded : Type := fw * list frame.
Definition L_recorded : lens recorded fw := Lens fst (λ s w, (s, snd w)).

#[export] Instance L_recorded_laws : LensLaws L_recorded.
Proof. by split; [|intros []|]. Qed.

(** A thread of the firmware that leaves the history alone. *)
Fixpoint with_history {A} (t : thread fw A) : thread recorded A :=
  match t with
  | Ret a => Ret a
  | Block m => Block (λ w,
      match m (fst w) with
      | Done t' s' => Done (with_history t') (s', snd w)
      | Crash f => Crash f
      end)
  end.

(** The callback that [main] installs, after noting the frame it is given. *)
Definition recorded_frame_t (buffer : list Z) (len address : Z) : thread recorded Z :=
  _ ← call (modS (λ w, (fst w, snd w ++ [(address, take (Z.to_nat len) buffer)])));
  with_history (process_complete_frame_t buffer len address).

Definition recorded_bytes_t (bs : list Z) : thread recorded Z :=
  hdlc_process_buffer_t (lens_comp L_recorded L_hdlc) recorded_frame_t bs.

(** A piece of another thread, which leaves the driver alone. *)
Definition other_piece (s s' : fw) : Prop :=
  ∃ A (t t' : thread fw A), still t ∧ piece (t, s) (t', s').

Definition other_recorded (w w' : recorded) : Prop := other_piece (fst w) (fst w') ∧ snd w' = snd w.

Lemma other_piece_hdlc s s' : other_piece s s' → fw_hdlc s' = fw_hdlc s.
Proof.
  intros (A & t & t' & Ht & Hstep). inversion Hstep as [m s0 t1 s1 Hm]; subst. specialize (Ht s).
  rewrite Hm in Ht. apply Ht.
Qed.

Abbreviation recorded_obs := (rx_obs (lens_comp L_recorded L_hdlc) snd).

Lemma other_recorded_obs w w' : other_recorded w w' → recorded_obs w' = recorded_obs w.
Proof. intros [Hs Hh]. unfold rx_obs. cbn. by rewrite (other_piece_hdlc _ _ Hs), Hh. Qed.

(** Handling a frame leaves driver and history alone. *)
Lemma still_rg {A} (t : thread fw A) x :
  still t → rg other_recorded (λ w, recorded_obs w = x) (with_history t) (λ _ w, recorded_obs w = x).
Proof.
  revert t. fix IH 1. intros [a|m]; cbn [with_history rg still]; [done|]. intros Hm w Hw. specialize (Hm (fst w)).
  destruct (m (fst w)) as [t' s'|f]; [|done]. destruct Hm as [Hd Ht'].
  exists (λ w, recorded_obs w = x). split; [apply stable_obs, other_recorded_obs|]. split; [|by apply (IH t')].
  rewrite <-Hw. unfold rx_obs. cbn. by rewrite Hd.
Qed.

Lemma recorded_callback buffer len address :
  implements other_recorded recorded_obs (λ _ _, True) (recorded_frame_t buffer len address)
    (record_frame buffer len address).
Proof.
  intros x. set (x' := (fst x, snd x ++ [(address, take (Z.to_nat len) buffer)])).
  change (rg other_recorded (λ w, recorded_obs w = x) (recorded_frame_t buffer len address)
    (λ _ w, True ∧ recorded_obs w = x')).
  unfold recorded_frame_t. apply (rg_bind _ _ _ _ (λ _ w, recorded_obs w = x')).
  - intros w Hw. cbn. exists (λ w, recorded_obs w = x'). split; [apply stable_obs, other_recorded_obs|].
    split; [by unfold x'; rewrite <-Hw|by intros w' ->].
  - intros []. eapply rg_post; [apply still_rg, still_frame|done].
Qed.

(** *** The history is only a history *)

(** [th] does what [t] does, besides writing the history. *)
Fixpoint erases {A} (t : thread fw A) (th : thread recorded A) : Prop :=
  match th with
  | Ret a => t = Ret a
  | Block mh =>
      (∀ s h, match mh (s, h) with Done th' w => fst w = s ∧ erases t th' | Crash _ => False end) ∨
      ∃ m, t = Block m ∧ ∀ s h,
        match m s, mh (s, h) with
        | Done t' s', Done th' w => w = (s', h) ∧ erases t' th'
        | Crash _, Crash _ => True
        | _, _ => False
        end
  end.

Lemma erases_bind {A B} (t : thread fw A) (th : thread recorded A) (k : A → thread fw B) (kh : A → thread recorded B) :
  erases t th → (∀ a, erases (k a) (kh a)) → erases (t ≫= k) (th ≫= kh).
Proof.
  intros Ht Hk. revert th t Ht. fix IH 1. intros [a|mh] t; cbn [erases]; [intros ->; apply Hk|].
  unfold mbind, thread_bind. cbn [thread_bind_def erases]. intros [Hm|(m & -> & Hm)]; [left|right].
  - intros s h. specialize (Hm s h). destruct (mh (s, h)) as [th' w|f]; [|done].
    split; [apply Hm|]. by apply (IH th' t), Hm.
  - eexists. split; [reflexivity|]. intros s h. specialize (Hm s h). cbv beta.
    destruct (m s) as [t' s'|f], (mh (s, h)) as [th' w|f']; try done.
    split; [apply Hm|]. by apply (IH th' t'), Hm.
Qed.

Lemma erases_call {A} (m : M fw A) (mh : M recorded A) :
  (∀ s h, match m s, mh (s, h) with
          | Done a s', Done b w => w = (s', h) ∧ a = b
          | Crash _, Crash _ => True
          | _, _ => False
          end) → erases (call m) (call mh).
Proof.
  intros Hm. right. eexists. split; [reflexivity|]. intros s h. specialize (Hm s h). unfold mbind, M_bind. cbv beta.
  destruct (m s) as [a s'|f], (mh (s, h)) as [b w|f']; try done. by destruct Hm as [-> ->].
Qed.

Lemma erases_history {A} (t : thread fw A) : erases t (with_history t).
Proof.
  revert t. fix IH 1. intros [a|m]; cbn [with_history erases]; [done|]. right. exists m. split; [done|].
  intros s h. cbn [fst snd]. destruct (m s) as [t' s'|f]; [|done]. split; [done|apply (IH t')].
Qed.

Lemma erases_note {A} (t : thread fw A) (th : thread recorded A) f :
  erases t th → erases t (_ ← call (modS (λ w : recorded, (fst w, f w))); th).
Proof. intros Ht. left. by intros s h. Qed.

Lemma erases_read {A} (k : hdlc_driver → thread fw A) (kh : hdlc_driver → thread recorded A) :
  (∀ d, erases (k d) (kh d)) →
  erases (d ← call (getL L_hdlc); k d) (d ← call (getL (lens_comp L_recorded L_hdlc)); kh d).
Proof.
  intros Hk. apply erases_bind; [|done]. apply erases_call. intros s h. unfold getL, zoom, getS. cbn.
  split; [|done]. by destruct s.
Qed.

Lemma erases_write f : erases (call (modL L_hdlc f)) (call (modL (lens_comp L_recorded L_hdlc) f)).
Proof. by apply erases_call. Qed.

Lemma erases_array_get {A} (l : list A) i : erases (call (array_get l i)) (call (array_get l i)).
Proof. apply erases_call. intros s h. unfold array_get. destruct (i <? 0); [done|]. by destruct (l !! _). Qed.

Lemma erases_array_set {A} (l : list A) i a : erases (call (array_set l i a)) (call (array_set l i a)).
Proof. apply erases_call. intros s h. unfold array_set. destruct (i <? 0); [done|]. by case_decide. Qed.

Ltac erases_step :=
  match goal with
  | |- erases (mret _) (mret _) => reflexivity
  | |- erases (call (getL _) ≫= _) _ => apply erases_read; intros ?; cbv beta zeta
  | |- erases (_ ≫= _) (_ ≫= _) => apply erases_bind; [|intros ?; cbv beta zeta]
  | |- erases (call (modL _ _)) _ => apply erases_write
  | |- erases (call (array_get _ _)) _ => apply erases_array_get
  | |- erases (call (array_set _ _ _)) _ => apply erases_array_set
  | |- erases (if ?b then _ else _) _ => destruct b
  end.

Lemma erases_deliver :
  erases (hdlc_process_complete_frame_t L_hdlc process_complete_frame_t)
    (hdlc_process_complete_frame_t (lens_comp L_recorded L_hdlc) recorded_frame_t).
Proof.
  unfold hdlc_process_complete_frame_t. repeat erases_step. unfold recorded_frame_t.
  by apply erases_note, erases_history.
Qed.

Lemma erases_bytes bs : erases (receive_bytes_t bs) (recorded_bytes_t bs).
Proof.
  unfold receive_bytes_t, recorded_bytes_t, hdlc_process_buffer_t. apply erases_bind; [|done].
  induction bs as [|b bs IH]; cbn [process_bytes_t]; [done|]. apply erases_bind; [|done].
  unfold hdlc_rx_input_byte_t, hdlc_process_frame_t, hdlc_save_byte_t. repeat erases_step. apply erases_deliver.
Qed.

(** Up to the next piece that is not a note. *)
Lemma erases_ready {A} (t : thread fw A) (th : thread recorded A) s h :
  erases t th →
  ∃ th' h', rtc (preempted other_recorded) (th, (s, h)) (th', (s, h')) ∧
    match th' with
    | Ret a => t = Ret a
    | Block mh => ∃ m, t = Block m ∧ ∀ s h,
        match m s, mh (s, h) with
        | Done t' s', Done th' w => w = (s', h) ∧ erases t' th'
        | Crash _, Crash _ => True
        | _, _ => False
        end
    end.
Proof.
  revert th h. fix IH 1. intros [a|mh] h; cbn [erases].
  - clear IH. intros ->. exists (Ret a), h. by split.
  - intros [Hm|Hm]; [|clear IH; by exists (Block mh), h].
    specialize (Hm s h). destruct (mh (s, h)) as [th1 [s1 h1]|f] eqn:Hmh; [|done].
    destruct Hm as [Hs1 Ht]. cbn in Hs1. subst s1. destruct (IH th1 h1 Ht) as (th' & h' & Hsteps & Hready).
    exists th', h'. split; [|done]. eapply rtc_l; [|exact Hsteps]. apply preempted_own. by constructor.
Qed.

(** A run of the work item is one with its history. *)
Lemma recorded_run {A} (t : thread fw A) (th : thread recorded A) s h a s' :
  erases t th → rtc (preempted other_piece) (t, s) (Ret a, s') →
  ∃ h', rtc (preempted other_recorded) (th, (s, h)) (Ret a, (s', h')).
Proof.
  intros Ht Hsteps. remember (t, s) as c eqn:Hc. remember (Ret a, s') as c' eqn:Hc'.
  revert t s th h Ht Hc. induction Hsteps as [c|c c1 c' Hstep _ IH]; intros t s th h Ht ->.
  - injection Hc' as -> ->. destruct (erases_ready _ _ s' h Ht) as (th' & h' & Hsteps & Hready).
    destruct th' as [b|mh]; [|by destruct Hready as (m & ? & _)]. injection Hready as ->. by exists h'.
  - inversion Hstep as [c0 c2 Hpiece|t0 w0 w1 Hrel]; subst.
    + inversion Hpiece as [m w0 t1 w1 Hm]; subst.
      destruct (erases_ready _ _ s h Ht) as (th' & h' & Hsteps & Hready).
      destruct th' as [b|mh]; [done|]. destruct Hready as (m' & [= <-] & Hnext). specialize (Hnext s h').
      rewrite Hm in Hnext. destruct (mh (s, h')) as [th1 w|f] eqn:Hmh; [|done]. destruct Hnext as [-> Ht1].
      destruct (IH eq_refl t1 w1 th1 h' Ht1 eq_refl) as [h2 Hrest]. exists h2.
      etrans; [exact Hsteps|]. eapply rtc_l; [|exact Hrest]. apply preempted_own. by constructor.
    + destruct (IH eq_refl t w1 th h Ht eq_refl) as [h2 Hrest]. exists h2.
      eapply rtc_l; [|exact Hrest]. apply preempted_other. by split.
Qed.
End Recorded.

Section Undisturbed.
Context `{Config, !ConfigOk _, Crc16, !Crc16Laws, KHeap, KSlab, Sockets, Stack, UartDevice, LogOutput}.

(** C14: Only the work item touches the HDLC receiver: no piece of the receive, the discovery or
    the logging thread, and none of those that handle a frame, changes the driver. So whatever
    such pieces run between those of the work item, at the end of the bytes received the driver
    is in the state of the abstract deframer, and the frames handed over, recorded by a history
    variable of the same run, are exactly the deframer's, in order. *)
Theorem receiver_undisturbed t addr6 fuel calls bs a s n s' :
  sim (fw_hdlc s) a → rtc (preempted other_piece) (receive_bytes_t bs, s) (Ret n, s') →
  (still (node_rx_thread_t t) ∧ still (handler_t addr6 fuel) ∧ still (log_calls_t calls)) ∧
  n = length bs ∧ sim (fw_hdlc s') (fst (deframe a bs)) ∧
  rtc (preempted other_recorded) (recorded_bytes_t bs, (s, [])) (Ret n, (s', snd (deframe a bs))).
Proof.
  intros Hs Hsteps. split; [split_and!; [apply still_rx_thread|apply still_handler|apply still_log_calls]|].
  destruct (recorded_run _ _ s [] n s' (erases_bytes bs) Hsteps) as [fs Hrec].
  destruct (receiver_preempted (lens_comp L_recorded L_hdlc) snd (λ _ _, eq_refl) other_recorded other_recorded_obs
    recorded_frame_t recorded_callback bs a (s, []) n (s', fs) Hs Hrec) as (-> & Hsim & Hfs).
  cbn in Hfs. subst fs. done.
Qed.
End Undisturbed.
