(* ===== verification/Session.v ===== *)
(** * Connections made by the AP (src/svc.c, src/apbridge.c, src/main.c)

    The AP connects a cport of its own to an interface with a request to the
    SVC, and from then on messages flow both ways: what the bytes of such
    requests on the UART do to the whole firmware, and what a connection made
    this way carries. *)

From S2P Require Import Prelude Config Protocols Hdlc HdlcRx Kernel Messages Interfaces NodeCache.
From S2P Require Import State ApMap NodeLink NodeLife Ap LocalNode Routes Svc SvcFacts NodeTx.
From S2P Require Import Bridge NodeRx Discovery Main MainFacts Receive.

Section Session.
Context `{Config, !ConfigOk _, Crc16, !Crc16Laws, KHeap, !KHeapLaws, KSlab, !KSlabLaws,
          Sockets, !SocketsLaws, Stack, !StackLaws}.
Implicit Types s : fw.

(** The SVC is connected to the AP's cport 0, as [control_process_frame] leaves
    it. *)
Definition svc_item : node_ap_item := NodeApItem SvcIntf 0 SVC_INF_ID.

Lemma svc_on_cport_0 map it :
  map !! 0%nat = Some it → node_id it = SVC_INF_ID → node_cport it = 0 →
  ap_cport_of SVC_INF_ID 0 map = Some 0%nat.
Proof. intros Hit Hid Hc. apply ap_cport_of_Some. split; [eauto|lia]. Qed.

(** *** What creating a connection leaves alone *)

Lemma connect_outcome_frame a nid ncport s ret s' :
  connect_outcome a nid ncport s ret s' →
  fw_hdlc s' = fw_hdlc s ∧ fw_uart s' = fw_uart s ∧ fw_messages s' = fw_messages s ∧
  fw_ap_map s' = (if ret <? 0 then fw_ap_map s
                  else <[Z.to_nat a := NodeApItem (interface_of s nid) ncport nid]> (fw_ap_map s)) ∧
  (0 <= ret → ∃ it, fw_ap_map s !! Z.to_nat a = Some it ∧ node_intf it = NullIntf).
Proof.
  unfold connect_outcome. case_decide; [by intros [-> ->]|].
  intros (cret & s1 & _ & Hsame & Hout). revert Hout.
  pose proof (se_hdlc _ _ Hsame). pose proof (se_uart _ _ Hsame).
  pose proof (se_messages _ _ Hsame). pose proof (se_ap_map _ _ Hsame).
  destruct (cret <? 0) eqn:Hc.
  { intros [-> ->]. rewrite Hc. split_and!; try assumption. apply Z.ltb_lt in Hc. lia. }
  destruct (fw_ap_map s !! Z.to_nat a) as [it|] eqn:Hit; [|by intros [-> ->]; split_and!].
  case_decide; intros [-> ->]; cbn; split_and!; try assumption; try done; eauto.
Qed.

(** *** Requests to the SVC *)

(** A frame for the SVC reaches its [write] callback. *)
Lemma svc_frame_runs b rest ns s :
  link_wf s → sendable b → 10 + length (payload b) < 2 ^ 16 →
  fw_ap_map s !! 0%nat = Some svc_item →
  heap_takes (greybus_messages_heap (fw_messages s)) (8 + length (payload b) :: ns) →
  ∃ p b' m1, allocated (fw_messages s) p b' m1 ∧ same_message b b' ∧
    heap_takes (greybus_messages_heap m1) ns ∧
    ∀ s2, gb_handle_msg (connection_send_fuel 1) p (store L_messages m1 s) = Done () s2 →
      messages_wf (fw_messages s2) → msg_store (fw_messages s2) !! p = Some b' →
      ∃ m', freed p (fw_messages s2) m' ∧
        hdlc_process_greybus_frame (greybus_frame 0 b rest) (10 + length (payload b)) s
        = Done 0 (store L_messages m' s2).
Proof.
  intros [Hmap Hwf] Hb Hl Hit Htakes.
  destruct (hdlc_process_greybus_frame_submits 0 b rest ns s Hwf Hb ltac:(by split) Hl Htakes)
    as (p & b' & m1 & Ha & Hsame & _ & Htakes' & Hrun).
  exists p, b', m1. split; [done|]. split; [done|]. split; [done|]. intros s2 Hhandle Hwf2 Hp2.
  destruct (gb_message_dealloc_freed (fw_messages s2) p b' Hwf2 Hp2) as (m' & Hfree & Hm').
  exists m'. split; [done|]. rewrite Hrun. unfold ap_rx_submit.
  set (s1 := store L_messages m1 s) in *.
  pose proof (connection_send_from_ap 0 svc_item p s1 ltac:(done) Hit) as Hsend.
  unfold call_write in Hsend. cbn [node_intf node_cport svc_item] in Hsend.
  assert (Hsvc : svc_inf_write (connection_send_fuel 1) SvcIntf p 0 s1 = Done 0 (store L_messages m' s2)).
  { unfold svc_inf_write. cbn [negb Z.eqb]. step_with Hhandle.
    by step_zoom L_messages (Hfree : _ (view L_messages s2) = _). }
  by step_with (eq_trans Hsend Hsvc).
Qed.

(** Only the ends matter, not their order. *)
Lemma connection_ends_calls i1 c1 i2 c2 nid ncport a :
  connection_ends i1 c1 i2 c2 = Some (nid, ncport, a) →
  connection_create i1 c1 i2 c2 = connection_create AP_INF_ID a nid ncport ∧
  connection_destroy i1 c1 i2 c2 = connection_destroy AP_INF_ID a nid ncport.
Proof. intros Hends. unfold connection_create, connection_destroy. by rewrite Hends. Qed.

Lemma connection_ends_distinct i1 c1 i2 c2 nid ncport a :
  connection_ends i1 c1 i2 c2 = Some (nid, ncport, a) → nid ≠ AP_INF_ID → i1 ≠ i2.
Proof.
  unfold connection_ends. destruct (Z.eqb_spec i1 AP_INF_ID) as [->|]; [by intros [= -> -> ->] ? <-|].
  destruct (Z.eqb_spec i2 AP_INF_ID) as [->|]; [|done]. by intros [= -> -> ->] ? ->.
Qed.

Definition create_status (ret : Z) : Z :=
  if ret <? 0 then GB_SVC_OP_UNKNOWN_ERROR else GB_SVC_OP_SUCCESS.

Section Handlers.
Context (cs : Z → Z → Z → M fw Z) `{!ApLink cs}.

Lemma svc_connection_create_handler_spec p b req nid ncport a s :
  link_wf s → nodes_wf s → msg_store (fw_messages s) !! p = Some b →
  payload b = to_wire req → in_range req → 0 <= a →
  connection_ends (cc_intf1_id req) (cc_cport1_id req) (cc_intf2_id req) (cc_cport2_id req)
  = Some (nid, ncport, a) → nid ≠ AP_INF_ID → fw_ap_map s !! 0%nat = Some svc_item →
  k_heap_alloc (greybus_messages_heap (fw_messages s)) 8 ≠ None →
  ∃ ret s2 r s3, connection_create AP_INF_ID a nid ncport s = Done ret s2 ∧
    connect_outcome a nid ncport s ret s2 ∧ nodes_wf s2 ∧
    svc_connection_create_handler cs p s = Done () s3 ∧
    message_is [] (Z.lor GB_OP_RESPONSE (hdr_type (header b))) (hdr_operation_id (header b))
      (create_status ret) r ∧
    answered (ap_frame 0 r) s2 s3.
Proof.
  intros [Hmap Hwf] Hnodes Hp Hpl Hreq Ha Hends Hn Hsvc Hroom. pose proof hdlc_block_ok as Hblock.
  destruct (connection_create_outcome a nid ncport s Hmap Hnodes Ha Hn)
    as (ret & s2 & Hrun & _ & Hnodes2 & Hout).
  destruct (connect_outcome_frame _ _ _ _ _ _ Hout) as (_ & _ & Hm & Hmap2 & Hfree).
  assert (Hsvc2 : ∃ it, fw_ap_map s2 !! 0%nat = Some it ∧ node_id it = SVC_INF_ID ∧ node_cport it = 0).
  { rewrite Hmap2. destruct (Z.ltb_spec ret 0) as [|Hok]; [by exists svc_item|].
    destruct (Hfree Hok) as (it & Hit & Hnull). rewrite list_lookup_insert_ne; [by exists svc_item|].
    intros Heq. rewrite Heq, Hsvc in Hit. by injection Hit as <-. }
  destruct Hsvc2 as (it & Hit & Hid & Hcp).
  assert (Hlink2 : link_wf s2).
  { split; [|by rewrite Hm]. rewrite Hmap2. unfold ap_map_wf in *. destruct (ret <? 0); [done|].
    by rewrite length_insert. }
  rewrite <-Hm in Hp, Hroom.
  destruct (svc_response_helper_spec cs p b [] (create_status ret) 0 s2 Hlink2 Hp) as (r & s3 & Hresp & Hr & Hans);
    [constructor|cbn; unfold HDLC_MAX_BLOCK_SIZE; lia|unfold create_status; by destruct (_ <? 0)|
     by eapply svc_on_cport_0|exact Hroom|].
  exists ret, s2, r, s3. split; [exact Hrun|]. split; [exact Hout|]. split; [exact Hnodes2|].
  split; [|by split]. rewrite Hm in Hp. unfold svc_connection_create_handler.
  step_read L_messages (msg_deref_ok (fw_messages s) p b Hwf Hp : _ (view L_messages s) = _).
  step_with (read_fields_ok (A := gb_svc_conn_create_request) 6 (payload b) s
    ltac:(rewrite Hpl, length_to_wire; by apply Nat.leb_le)).
  rewrite Hpl, <-(app_nil_r (to_wire req)), of_wire_to_wire by done.
  pose proof (connection_ends_distinct _ _ _ _ _ _ _ Hends Hn) as Hne.
  rewrite (proj2 (Z.eqb_neq _ _) Hne). cbn [andb].
  destruct (connection_ends_calls _ _ _ _ _ _ _ Hends) as [-> _]. step_with Hrun.
  rewrite <-Hresp. unfold create_status. by destruct (ret <? 0).
Qed.

Lemma svc_connection_destroy_handler_spec p b req nid ncport a s :
  link_wf s → nodes_wf s → msg_store (fw_messages s) !! p = Some b →
  payload b = to_wire req → in_range req → 0 <= a →
  connection_ends (cd_intf1_id req) (cd_cport1_id req) (cd_intf2_id req) (cd_cport2_id req)
  = Some (nid, ncport, a) → nid ≠ AP_INF_ID → fw_ap_map s !! 0%nat = Some svc_item →
  k_heap_alloc (greybus_messages_heap (fw_messages s)) 8 ≠ None →
  ∃ s2 r s3, connection_destroy AP_INF_ID a nid ncport s = Done 0 s2 ∧
    svc_connection_destroy_handler cs p s = Done () s3 ∧
    message_is [] (Z.lor GB_OP_RESPONSE (hdr_type (header b))) (hdr_operation_id (header b))
      GB_SVC_OP_SUCCESS r ∧
    answered (ap_frame 0 r) s2 s3.
Proof.
  intros [Hmap Hwf] Hnodes Hp Hpl Hreq Ha Hends Hn Hsvc Hroom. pose proof hdlc_block_ok as Hblock.
  destruct (connection_destroy_outcome a nid ncport s Hmap Hnodes Ha Hn) as (s2 & Hrun & _ & Hs2).
  assert (Hsvc2 : ∃ it, fw_ap_map s2 !! 0%nat = Some it ∧ node_id it = SVC_INF_ID ∧ node_cport it = 0).
  { rewrite Hs2. cbn [fw_ap_map store L_ap_map]. destruct (decide (Z.to_nat a = 0%nat)) as [->|Hne].
    - exists empty_item. split; [|done]. apply list_lookup_insert_eq. by eapply lookup_lt_Some.
    - rewrite list_lookup_insert_ne by done. by exists svc_item. }
  destruct Hsvc2 as (it & Hit & Hid & Hcp).
  assert (Hlink2 : link_wf s2).
  { rewrite Hs2. split; [|done]. cbn. unfold ap_map_wf in *. by rewrite length_insert. }
  assert (Hm : fw_messages s2 = fw_messages s) by (by rewrite Hs2).
  rewrite <-Hm in Hp, Hroom.
  destruct (svc_response_helper_spec cs p b [] GB_SVC_OP_SUCCESS 0 s2 Hlink2 Hp) as (r & s3 & Hresp & Hr & Hans);
    [constructor|cbn; unfold HDLC_MAX_BLOCK_SIZE; lia|done|by eapply svc_on_cport_0|exact Hroom|].
  exists s2, r, s3. split; [exact Hrun|]. split; [|by split]. rewrite Hm in Hp.
  unfold svc_connection_destroy_handler.
  step_read L_messages (msg_deref_ok (fw_messages s) p b Hwf Hp : _ (view L_messages s) = _).
  step_with (read_struct_ok (A := gb_svc_conn_destroy_request) (payload b) s
    ltac:(by rewrite Hpl, length_to_wire)).
  rewrite Hpl, <-(app_nil_r (to_wire req)), of_wire_to_wire by done.
  destruct (connection_ends_calls _ _ _ _ _ _ _ Hends) as [_ ->]. step_with Hrun. exact Hresp.
Qed.
End Handlers.

(** *** Their bytes on the UART *)

(** Request [b] was answered with [status] on AP cport 0, no message is left
    behind, and everything is ready for the next frame. *)
Record served (q : Z) (b : gb_message) (status : Z) s s' : Prop := {
  sv_response : ∃ r,
    message_is [] (GB_RESPONSE (hdr_type (header b))) (hdr_operation_id (header b)) status r ∧
    fw_uart s' = fw_uart s ++ uart_message 0 r;
  sv_store : msg_store (fw_messages s') = msg_store (fw_messages s);
  sv_receiver : sim (fw_hdlc s') (at_boundary q);
  sv_link : link_wf s';
  sv_nodes : nodes_wf s';
}.

(** The state [s2] with the receiver's, the messages' and the UART's parts
    replaced. *)
Definition after_reply d m u s2 : fw := store L_hdlc d (store L_messages m (store L_uart u s2)).

(** A request that is handled and answered, from its bytes on. *)
Lemma svc_request_bytes q b s :
  sim (fw_hdlc s) (at_boundary q) → link_wf s → sendable b →
  14 + length (payload b) <= HDLC_MAX_BLOCK_SIZE →
  fw_ap_map s !! 0%nat = Some svc_item →
  heap_takes (greybus_messages_heap (fw_messages s)) [8 + length (payload b); 8] →
  ∃ p b' m1 d', messages_wf m1 ∧ msg_store m1 !! p = Some b' ∧
    same_message b b' ∧ k_heap_alloc (greybus_messages_heap m1) 8 ≠ None ∧ sim d' (at_boundary q) ∧
    ∀ s2 s3 out,
      gb_handle_msg (connection_send_fuel 1) p (store L_messages m1 s) = Done () s3 →
      answered out s2 s3 → fw_messages s2 = m1 →
      ∃ m', messages_wf m' ∧ msg_store m' = msg_store (fw_messages s) ∧
        receive_bytes (uart_message 0 b) s
        = Done (length (uart_message 0 b) : Z) (after_reply d' m' (fw_uart s2 ++ out) s2).
Proof.
  intros Hs Hlink Hb Hl Hsvc Htakes. pose proof hdlc_block_ok as Hok. unfold HDLC_MAX_BLOCK_SIZE in *.
  destruct (receive_message q 0 b s Hs Hb) as (d' & Hs' & Hrecv); [unfold HDLC_MAX_BLOCK_SIZE; lia|].
  destruct (svc_frame_runs b [] [8] s Hlink Hb ltac:(lia) Hsvc Htakes)
    as (p & b' & m1 & Ha & Hsame & Htakes' & Hrun).
  pose proof Ha as (heap & _ & Hnone & Hwf1 & Hm1).
  exists p, b', m1, d'. split; [done|]. split; [by rewrite Hm1; apply lookup_insert_eq|].
  split; [done|]. split; [by apply heap_takes_head in Htakes'|]. split; [done|].
  intros s2 s3 out Hhandle (m3 & Hwf3 & Hst3 & _ & _ & Hs3) Hm2. rewrite Hm2 in Hst3.
  assert (Hm3 : fw_messages s3 = m3) by (by rewrite Hs3).
  destruct (Hrun s3 Hhandle) as (m' & [Hwf' Hst' _ _] & Hframe); [by rewrite Hm3|
    rewrite Hm3, Hst3, Hm1; apply lookup_insert_eq|].
  exists m'. split; [done|]. split; [rewrite Hst', Hm3, Hst3, Hm1; by apply delete_insert_id|].
  rewrite Hframe, Hs3 in Hrecv. exact Hrecv.
Qed.

(** A callback asked for a cport other than 0 has nothing to do. *)
Lemma call_create_connection_nonzero nid ncport s :
  nodes_wf s → interface_of s nid ≠ NullIntf → ncport ≠ 0 →
  call_create_connection (interface_of s nid) ncport s = Done 0 s.
Proof.
  intros Hwf Hne Hc. destruct (interface_of_deref nid s Hwf Hne) as (i & Hderef & _).
  unfold call_create_connection. step_read L_interfaces (Hderef : _ (view L_interfaces s) = _).
  apply Z.eqb_neq in Hc. destruct (create_connection i).
  - unfold svc_inf_create_connection. by rewrite Hc.
  - done.
  - unfold node_intf_create_connection.
    step_read L_interfaces (Hderef : _ (view L_interfaces s) = _). by rewrite Hc.
Qed.

(** [b] asks the SVC to connect (or disconnect) cport [ncport] of interface
    [nid] and the AP's cport [a]. *)
Record connect_request (b : gb_message) (nid ncport a : Z) : Prop := {
  cq_type : hdr_type (header b) = GB_SVC_TYPE_CONN_CREATE;
  cq_nid : nid ≠ AP_INF_ID;
  cq_payload : ∃ req : gb_svc_conn_create_request, payload b = to_wire req ∧ in_range req ∧
    connection_ends (cc_intf1_id req) (cc_cport1_id req) (cc_intf2_id req) (cc_cport2_id req)
    = Some (nid, ncport, a);
}.

Record disconnect_request (b : gb_message) (nid ncport a : Z) : Prop := {
  dq_type : hdr_type (header b) = GB_SVC_TYPE_CONN_DESTROY;
  dq_nid : nid ≠ AP_INF_ID;
  dq_payload : ∃ req : gb_svc_conn_destroy_request, payload b = to_wire req ∧ in_range req ∧
    connection_ends (cd_intf1_id req) (cd_cport1_id req) (cd_intf2_id req) (cd_cport2_id req)
    = Some (nid, ncport, a);
}.

Lemma connection_ends_range i1 c1 i2 c2 nid ncport a :
  connection_ends i1 c1 i2 c2 = Some (nid, ncport, a) → is_u16 c1 → is_u16 c2 → is_u16 a ∧ is_u16 ncport.
Proof. unfold connection_ends. intros Hends ? ?. repeat case_match; by simplify_eq. Qed.

Lemma connect_request_range b nid ncport a : connect_request b nid ncport a → is_u16 a.
Proof.
  intros [_ _ ([] & _ & Hr & Hends)]. apply connection_ends_range in Hends as [? _]; [done|..];
  repeat apply Forall2_cons in Hr as [? Hr]; assumption.
Qed.

Lemma connect_request_cport b nid ncport a : connect_request b nid ncport a → is_u16 ncport.
Proof.
  intros [_ _ ([] & _ & Hr & Hends)]. apply connection_ends_range in Hends as [_ ?]; [done|..];
  repeat apply Forall2_cons in Hr as [? Hr]; assumption.
Qed.

Lemma disconnect_request_range b nid ncport a : disconnect_request b nid ncport a → is_u16 a.
Proof.
  intros [_ _ ([] & _ & Hr & Hends)]. apply connection_ends_range in Hends as [? _]; [done|..];
  repeat apply Forall2_cons in Hr as [? Hr]; assumption.
Qed.

Lemma with_messages_nodes m s : nodes_wf s → nodes_wf (store L_messages m s).
Proof. by intros []. Qed.

(** Requests are sent with a response of the same id to AP cport 0. *)
Lemma reply_of b b' status r :
  same_message b b' →
  message_is [] (Z.lor GB_OP_RESPONSE (hdr_type (header b'))) (hdr_operation_id (header b')) status r →
  message_is [] (GB_RESPONSE (hdr_type (header b))) (hdr_operation_id (header b)) status r.
Proof. intros (_ & -> & -> & _). by rewrite Z.lor_comm. Qed.

Lemma connect_request_run q b nid ncport a s :
  sim (fw_hdlc s) (at_boundary q) → link_wf s → nodes_wf s → sendable b →
  connect_request b nid ncport a → 22 <= HDLC_MAX_BLOCK_SIZE →
  fw_ap_map s !! 0%nat = Some svc_item →
  heap_takes (greybus_messages_heap (fw_messages s)) [16; 8] →
  ∃ m1 ret s2 d' m' r, connect_outcome a nid ncport (store L_messages m1 s) ret s2 ∧
    messages_wf m1 ∧ nodes_wf s2 ∧
    receive_bytes (uart_message 0 b) s
    = Done (length (uart_message 0 b) : Z) (after_reply d' m' (fw_uart s ++ uart_message 0 r) s2) ∧
    message_is [] (GB_RESPONSE (hdr_type (header b))) (hdr_operation_id (header b)) (create_status ret) r ∧
    messages_wf m' ∧ msg_store m' = msg_store (fw_messages s) ∧ sim d' (at_boundary q).
Proof.
  intros Hs [Hmap Hwf] Hnodes Hb Hreq Hblock Hsvc Htakes.
  pose proof (connect_request_range _ _ _ _ Hreq) as Ha.
  destruct Hreq as [Hty Hn (req & Hpl & Hr & Hends)].
  assert (Hlen : length (payload b) = 8%nat) by (by rewrite Hpl, length_to_wire).
  destruct (svc_request_bytes q b s Hs) as (p & b' & m1 & d' & Hwf1 & Hp & Hsame & Hroom & Hs' & Hrun);
    [by split|done|lia|done|by rewrite Hlen|].
  pose proof Hsame as (_ & _ & Hty' & _ & Hpl').
  destruct (svc_connection_create_handler_spec (connection_send_fuel 1) p b' req nid ncport a
    (store L_messages m1 s)) as (ret & s2 & r & s3 & Hcreate & Hout & Hnodes2 & Hhandle & Hmsg & Hans);
    [by split|by apply with_messages_nodes|exact Hp|by rewrite <-Hpl'|exact Hr|unfold is_u16 in Ha; lia|
     exact Hends|exact Hn|exact Hsvc|exact Hroom|].
  destruct (connect_outcome_frame _ _ _ _ _ _ Hout) as (_ & Huart & Hm2 & _).
  destruct (Hrun s2 s3 (ap_frame 0 r)) as (m' & Hwf' & Hst' & Hrecv); [|exact Hans|exact Hm2|].
  { unfold gb_handle_msg.
    step_read L_messages (msg_deref_ok m1 p b' Hwf1 Hp : _ (view L_messages (store L_messages m1 s)) = _).
    unfold gb_message_type. rewrite <-Hty', Hty. eval_dispatch. exact Hhandle. }
  exists m1, ret, s2, d', m', r. split; [exact Hout|]. split; [exact Hwf1|]. split; [exact Hnodes2|].
  split; [by rewrite Hrecv, Huart|]. split; [by eapply reply_of|]. by split.
Qed.

(** C26: The bytes of an SVC request that connects an interface's cport and a cport of the AP
    are answered on the UART with one frame that carries the request's operation id; with the
    status for success the AP cport was free and now routes to the interface, with the error
    status the table is as before. For cports other than 0 it succeeds whenever the interface
    exists and the AP cport is free. No message is left allocated, and the firmware is ready for
    the next frame. *)
Theorem svc_connects_on_uart q b nid ncport a s :
  sim (fw_hdlc s) (at_boundary q) → link_wf s → nodes_wf s → sendable b →
  connect_request b nid ncport a → 22 <= HDLC_MAX_BLOCK_SIZE →
  fw_ap_map s !! 0%nat = Some svc_item →
  heap_takes (greybus_messages_heap (fw_messages s)) [16; 8] →
  let free := ∃ it, fw_ap_map s !! Z.to_nat a = Some it ∧ node_intf it = NullIntf in
  ∃ status s', receive_bytes (uart_message 0 b) s = Done (length (uart_message 0 b) : Z) s' ∧
    served q b status s s' ∧
    (status = GB_SVC_OP_SUCCESS ∧ interface_of s nid ≠ NullIntf ∧ free ∧
       fw_ap_map s' = <[Z.to_nat a := NodeApItem (interface_of s nid) ncport nid]> (fw_ap_map s)
     ∨ status = GB_SVC_OP_UNKNOWN_ERROR ∧ fw_ap_map s' = fw_ap_map s) ∧
    (ncport ≠ 0 → interface_of s nid ≠ NullIntf → free → status = GB_SVC_OP_SUCCESS).
Proof.
  intros Hs Hlink Hnodes Hb Hreq Hblock Hsvc Htakes free.
  destruct (connect_request_run q b nid ncport a s Hs Hlink Hnodes Hb Hreq Hblock Hsvc Htakes)
    as (m1 & ret & s2 & d' & m' & r & Hout & Hwf1 & Hnodes2 & Hrecv & Hmsg & Hwf' & Hst' & Hs').
  destruct (connect_outcome_frame _ _ _ _ _ _ Hout) as (_ & _ & _ & Hmap2 & Hfree).
  change (fw_ap_map (store L_messages m1 s)) with (fw_ap_map s) in *.
  change (interface_of (store L_messages m1 s) nid) with (interface_of s nid) in *.
  exists (create_status ret), (after_reply d' m' (fw_uart s ++ uart_message 0 r) s2).
  split; [exact Hrecv|]. split.
  { split; [by exists r|exact Hst'|exact Hs'| |by destruct Hnodes2].
    split; [|exact Hwf']. cbn. rewrite Hmap2. destruct Hlink as [Hmap _]. unfold ap_map_wf in *.
    destruct (ret <? 0); [done|by rewrite length_insert]. }
  unfold create_status. cbn [fw_ap_map after_reply store L_hdlc L_messages L_uart]. rewrite Hmap2.
  unfold connect_outcome in Hout. change (interface_of (store L_messages m1 s) nid) with (interface_of s nid) in Hout.
  split.
  - destruct (Z.ltb_spec ret 0) as [|Hok]; [by right|left]. split; [done|].
    split; [|by split; [apply Hfree|]]. intros Hnull. rewrite decide_True in Hout by done.
    destruct Hout as [-> _]. by cbn in Hok.
  - intros Hc Hne (it & Hit & Hnull). rewrite decide_False in Hout by done.
    destruct Hout as (cret & s1 & Hcall & _ & Hout).
    change (interface_of s nid) with (interface_of (store L_messages m1 s) nid) in Hcall, Hne.
    rewrite (call_create_connection_nonzero nid ncport _ (with_messages_nodes m1 s Hnodes) Hne Hc) in Hcall.
    injection Hcall as <- _. cbn [Z.ltb Z.compare] in Hout.
    change (fw_ap_map (store L_messages m1 s)) with (fw_ap_map s) in Hout. rewrite Hit in Hout.
    rewrite decide_True in Hout by done. by destruct Hout as [-> _].
Qed.

Lemma disconnect_request_run q b nid ncport a s :
  sim (fw_hdlc s) (at_boundary q) → link_wf s → nodes_wf s → sendable b →
  disconnect_request b nid ncport a → 20 <= HDLC_MAX_BLOCK_SIZE →
  fw_ap_map s !! 0%nat = Some svc_item →
  heap_takes (greybus_messages_heap (fw_messages s)) [14; 8] →
  ∃ s', receive_bytes (uart_message 0 b) s = Done (length (uart_message 0 b) : Z) s' ∧
    served q b GB_SVC_OP_SUCCESS s s' ∧
    fw_ap_map s' = <[Z.to_nat a := empty_item]> (fw_ap_map s) ∧
    svc_is_read_flag s' = svc_is_read_flag s && negb ((nid =? SVC_INF_ID) && (ncport =? 0)) ∧
    fw_nodes s' = fw_nodes s ∧ fw_interfaces s' = fw_interfaces s ∧ fw_net s' = fw_net s.
Proof.
  intros Hs [Hmap Hwf] Hnodes Hb Hreq Hblock Hsvc Htakes.
  pose proof (disconnect_request_range _ _ _ _ Hreq) as Ha.
  destruct Hreq as [Hty Hn (req & Hpl & Hr & Hends)].
  assert (Hlen : length (payload b) = 6%nat) by (by rewrite Hpl, length_to_wire).
  destruct (svc_request_bytes q b s Hs) as (p & b' & m1 & d' & Hwf1 & Hp & Hsame & Hroom & Hs' & Hrun);
    [by split|done|lia|done|by rewrite Hlen|].
  pose proof Hsame as (_ & _ & Hty' & _ & Hpl'). set (s1 := store L_messages m1 s).
  destruct (svc_connection_destroy_handler_spec (connection_send_fuel 1) p b' req nid ncport a s1)
    as (s2 & r & s3 & Hdestroy & Hhandle & Hmsg & Hans);
    [by split|by apply with_messages_nodes|exact Hp|by rewrite <-Hpl'|exact Hr|unfold is_u16 in Ha; lia|
     exact Hends|exact Hn|exact Hsvc|exact Hroom|].
  destruct (connection_destroy_outcome a nid ncport s1 Hmap (with_messages_nodes m1 s Hnodes)
    ltac:(unfold is_u16 in Ha; lia) Hn) as (s2' & Hdestroy' & _ & Hs2).
  assert (s2' = s2) as -> by congruence.
  destruct (Hrun s2 s3 (ap_frame 0 r)) as (m' & Hwf' & Hst' & Hrecv); [|exact Hans|by rewrite Hs2|].
  { unfold gb_handle_msg.
    step_read L_messages (msg_deref_ok m1 p b' Hwf1 Hp : _ (view L_messages s1) = _).
    unfold gb_message_type. rewrite <-Hty', Hty. eval_dispatch. exact Hhandle. }
  eexists. split; [exact Hrecv|]. rewrite Hs2. split; [|by split_and!].
  split; [|exact Hst'|exact Hs'| |by destruct Hnodes].
  - exists r. split; [by eapply reply_of|done].
  - split; [|exact Hwf']. cbn. unfold ap_map_wf in *. by rewrite length_insert.
Qed.

(** Apart from messages, the UART and the receiver, two states differ in the AP's
    table only. *)
Definition same_but_table s s' : Prop :=
  fw_nodes s' = fw_nodes s ∧ fw_interfaces s' = fw_interfaces s ∧ fw_controls s' = fw_controls s ∧
  fw_net s' = fw_net s ∧ svc_is_read_flag s' = svc_is_read_flag s.

(** A cport other than 0 is connected without anything else changing. *)
Lemma connect_cport_run q b nid ncport a it s :
  sim (fw_hdlc s) (at_boundary q) → link_wf s → nodes_wf s → sendable b →
  connect_request b nid ncport a → 22 <= HDLC_MAX_BLOCK_SIZE → ncport ≠ 0 →
  interface_of s nid ≠ NullIntf → fw_ap_map s !! 0%nat = Some svc_item →
  fw_ap_map s !! Z.to_nat a = Some it → node_intf it = NullIntf →
  heap_takes (greybus_messages_heap (fw_messages s)) [16; 8] →
  ∃ s1, receive_bytes (uart_message 0 b) s = Done (length (uart_message 0 b) : Z) s1 ∧
    served q b GB_SVC_OP_SUCCESS s s1 ∧
    fw_ap_map s1 = <[Z.to_nat a := NodeApItem (interface_of s nid) ncport nid]> (fw_ap_map s) ∧
    same_but_table s s1.
Proof.
  intros Hs Hlink Hnodes Hb Hreq Hblock Hc Hne Hsvc Hit Hnull Htakes.
  destruct (connect_request_run q b nid ncport a s Hs Hlink Hnodes Hb Hreq Hblock Hsvc Htakes)
    as (m1 & ret & s2 & d' & m' & r & Hout & Hwf1 & Hnodes2 & Hrecv & Hmsg & Hwf' & Hst' & Hs').
  unfold connect_outcome in Hout. set (s0 := store L_messages m1 s) in Hout.
  change (interface_of s nid) with (interface_of s0 nid) in *.
  rewrite decide_False in Hout by done. destruct Hout as (cret & s1 & Hcall & _ & Hout).
  rewrite (call_create_connection_nonzero nid ncport s0 (with_messages_nodes m1 s Hnodes) Hne Hc) in Hcall.
  injection Hcall as <- <-. cbn [Z.ltb Z.compare] in Hout.
  change (fw_ap_map s0) with (fw_ap_map s) in Hout. rewrite Hit, decide_True in Hout by done.
  destruct Hout as [-> ->]. eexists. split; [exact Hrecv|]. split; [|by split_and!].
  split; [by exists r|exact Hst'|exact Hs'| |by destruct Hnodes].
  destruct Hlink as [Hmap _]. split; [|exact Hwf']. cbn. unfold ap_map_wf in *. by rewrite length_insert.
Qed.

(** C27: Connecting an interface, on one of its cports other than 0, to a free cport of the AP
    and disconnecting it again, both by requests received as bytes on the UART, is answered with
    two success responses; in between the AP's cport routes to the interface, and afterwards the
    AP's table, the nodes, the interfaces and the allocated messages are exactly as they were. *)
Theorem svc_connection_roundtrip q b1 b2 nid ncport a s :
  sim (fw_hdlc s) (at_boundary q) → link_wf s → nodes_wf s → sendable b1 → sendable b2 →
  connect_request b1 nid ncport a → disconnect_request b2 nid ncport a →
  22 <= HDLC_MAX_BLOCK_SIZE → ncport ≠ 0 → interface_of s nid ≠ NullIntf →
  fw_ap_map s !! 0%nat = Some svc_item → fw_ap_map s !! Z.to_nat a = Some empty_item →
  (∀ m, messages_wf m → msg_store m = msg_store (fw_messages s) →
     heap_takes (greybus_messages_heap m) [16; 8] ∧ heap_takes (greybus_messages_heap m) [14; 8]) →
  ∃ s1 s2, receive_bytes (uart_message 0 b1) s = Done (length (uart_message 0 b1) : Z) s1 ∧
    served q b1 GB_SVC_OP_SUCCESS s s1 ∧
    fw_ap_map s1 = <[Z.to_nat a := NodeApItem (interface_of s nid) ncport nid]> (fw_ap_map s) ∧
    receive_bytes (uart_message 0 b2) s1 = Done (length (uart_message 0 b2) : Z) s2 ∧
    served q b2 GB_SVC_OP_SUCCESS s1 s2 ∧
    fw_ap_map s2 = fw_ap_map s ∧ fw_nodes s2 = fw_nodes s ∧ fw_interfaces s2 = fw_interfaces s ∧
    svc_is_read_flag s2 = svc_is_read_flag s.
Proof.
  intros Hs Hlink Hnodes Hb1 Hb2 Hr1 Hr2 Hblock Hc Hne Hsvc Hempty Hroom.
  destruct (Hroom _ (lw_messages _ Hlink) eq_refl) as [Htakes _].
  destruct (connect_cport_run q b1 nid ncport a empty_item s Hs Hlink Hnodes Hb1 Hr1 Hblock Hc Hne
    Hsvc Hempty eq_refl Htakes) as (s1 & Hrun1 & Hserved & Hmap1 & Hn & Hi & _ & _ & Hf).
  destruct Hserved as [Hresp1 Hst1 Hs1 Hlink1 Hnodes1] eqn:Heqs.
  destruct (Hroom _ (lw_messages _ Hlink1) Hst1) as [_ Htakes1].
  assert (Ha : Z.to_nat a ≠ 0%nat) by (intros Heq; rewrite Heq, Hsvc in Hempty; discriminate Hempty).
  destruct (disconnect_request_run q b2 nid ncport a s1 Hs1 Hlink1 Hnodes1 Hb2 Hr2 ltac:(lia))
    as (s2 & Hrun2 & Hserved2 & Hmap2 & Hf2 & Hn2 & Hi2 & _); [|exact Htakes1|].
  { by rewrite Hmap1, list_lookup_insert_ne. }
  exists s1, s2. split; [exact Hrun1|]. split; [exact Hserved|]. split; [exact Hmap1|].
  split; [exact Hrun2|]. split; [exact Hserved2|].
  split; [by rewrite Hmap2, Hmap1, list_insert_insert_eq, list_insert_id|].
  split; [by rewrite Hn2|]. split; [by rewrite Hi2|].
  apply Z.eqb_neq in Hc. by rewrite Hf2, Hf, Hc, andb_false_r, andb_true_r.
Qed.

(** The heap has room for two messages of up to the block size whenever the
    messages allocated are those of [s] and at most one more. *)
Definition roomy s : Prop :=
  ∀ m n1 n2, messages_wf m →
    (msg_store m = msg_store (fw_messages s) ∨ ∃ q b, msg_store m = <[q := b]> (msg_store (fw_messages s))) →
    0 <= n1 <= HDLC_MAX_BLOCK_SIZE → 0 <= n2 <= HDLC_MAX_BLOCK_SIZE →
    heap_takes (greybus_messages_heap m) [n1; n2].

(** [c] went out on the node's socket, tagged with its cport, and nothing else
    happened outside the firmware. *)
Definition reached_node it ncport (c : gb_message) s s' : Prop :=
  ∃ c', same_message c c' ∧ sent_on (ni_sock it) (message_wire ncport c') (fw_net s) (fw_net s') ∧
    fw_uart s' = fw_uart s ∧ msg_store (fw_messages s') = msg_store (fw_messages s).

(** [c] went out on the UART, to the AP's cport [a]. *)
Definition reached_ap (a : nat) (c : gb_message) s s' : Prop :=
  ∃ c', same_message c c' ∧ fw_uart s' = fw_uart s ++ uart_message a c' ∧
    msg_store (fw_messages s') = msg_store (fw_messages s).

(** C4: After the AP has connected its cport a to an unconnected cport, other than 0, of a node
    by a request on the UART, the two cports are joined in both directions: the bytes of any
    message for a that fits a block come out of the node's socket tagged with the node's cport,
    and a message that fits a block and that the node sends from that cport comes out of the
    UART on cport a when the receive thread polls the socket with its flag clear. The only other
    outcomes: a send on the node's socket failed, part of the message having gone out, and the
    node is removed twice and the message freed; or a receive failed, and the node is removed. *)
Theorem connected_cports_joined q b it p i k ncport a s :
  sim (fw_hdlc s) (at_boundary q) → link_wf s → nodes_wf s → sendable b →
  connect_request b (ni_id it) ncport a → 22 <= HDLC_MAX_BLOCK_SIZE → ncport ≠ 0 →
  entries (fw_nodes s) !! k = Some it → entry_ok s it p i →
  (∀ it', it' ∈ entries (fw_nodes s) → ni_sock it' = ni_sock it → it' = it) →
  ni_id it ∉ [SVC_INF_ID; AP_INF_ID; LOCAL_NODE_ID] →
  fw_ap_map s !! 0%nat = Some svc_item → fw_ap_map s !! Z.to_nat a = Some empty_item →
  ap_cport_of (ni_id it) ncport (fw_ap_map s) = None → roomy s →
  ∃ s1, receive_bytes (uart_message 0 b) s = Done (length (uart_message 0 b) : Z) s1 ∧
    served q b GB_SVC_OP_SUCCESS s s1 ∧
    (∀ c, sendable c → 14 + length (payload c) <= HDLC_MAX_BLOCK_SIZE →
       (∃ s2, receive_bytes (uart_message a c) s1 = Done (length (uart_message a c) : Z) s2 ∧
          reached_node it ncport c s1 s2) ∨
       ∃ ret d' s2, receive_bytes (uart_message a c) s1
                    = Done (length (uart_message a c) : Z) (store L_hdlc d' s2) ∧
         send_failed_twice it ncport c 0 ret s1 s2 ∧ sim d' (at_boundary q)) ∧
    (∀ c rest, sendable c → 10 + length (payload c) <= HDLC_MAX_BLOCK_SIZE →
       net_incoming (fw_net s) (ni_sock it) = message_wire ncport c ++ rest →
       ∃ flag s2, node_rx_socket false (ni_sock it) ZSOCK_POLLIN s1 = Done flag s2 ∧
         (reached_ap (Z.to_nat a) c s1 s2 ∨
          (∃ n', recv_failed (ni_sock it) (fw_net s1) n') ∧ node_removed it 0 s1 s2)).
Proof.
  intros Hs Hlink Hnodes Hb Hreq Hblock Hc Hk Hok Huniq Hid Hsvc Hempty Hnone Hroom.
  apply list_elem_of_lookup_2 in Hk as Hit. rewrite !elem_of_cons, elem_of_nil in Hid.
  assert (Hof : interface_of s (ni_id it) = ni_inf it).
  { apply interface_of_node; [done..|]. rewrite !elem_of_cons, elem_of_nil. tauto. }
  pose proof Hok as (Hinf & _).
  pose proof (connect_request_range _ _ _ _ Hreq) as Ha.
  assert (Hroom1 : heap_takes (greybus_messages_heap (fw_messages s)) [16; 8])
    by (apply Hroom; [apply Hlink|by left|lia..]).
  destruct (connect_cport_run q b (ni_id it) ncport a empty_item s Hs Hlink Hnodes Hb Hreq Hblock Hc
    ltac:(by rewrite Hof, Hinf) Hsvc Hempty eq_refl Hroom1)
    as (s1 & Hrun & Hserved & Hmap1 & Hn & Hi & Hctl & Hnet & _).
  rewrite Hof in Hmap1. destruct Hserved as [Hresp Hst Hs1 Hlink1 Hnodes1] eqn:Heqs. clear Heqs.
  assert (Hlt : (Z.to_nat a < length (fw_ap_map s))%nat) by (by eapply lookup_lt_Some).
  assert (Ha0 : Z.to_nat a ≠ 0%nat) by (intros Heq; rewrite Heq, Hsvc in Hempty; discriminate Hempty).
  assert (Hsvc1 : ap_cport_of SVC_INF_ID 0 (fw_ap_map s1) = Some 0%nat).
  { apply (svc_on_cport_0 _ svc_item); [|done..]. by rewrite Hmap1, list_lookup_insert_ne. }
  assert (Hok1 : entry_ok s1 it p i) by (unfold entry_ok in *; by rewrite Hi, Hctl).
  assert (Hk1 : entries (fw_nodes s1) !! k = Some it) by (by rewrite Hn).
  apply list_elem_of_lookup_2 in Hk1 as Hit1.
  assert (Huniq1 : ∀ it', it' ∈ entries (fw_nodes s1) → ni_sock it' = ni_sock it → it' = it)
    by (by rewrite Hn).
  assert (Hroom2 : ∀ n, 0 <= n <= HDLC_MAX_BLOCK_SIZE →
    k_heap_alloc (greybus_messages_heap (fw_messages s1)) n ≠ None).
  { intros n Hnr. eapply heap_takes_head. apply (Hroom _ n 9); [apply Hlink1|by left|exact Hnr|lia]. }
  exists s1. split; [exact Hrun|]. split; [exact Hserved|]. split.
  - intros c Hcs Hcl.
    destruct (node_message_bytes q a c it p i ncport 0 s1 Hs1 Hlink1 Hnodes1 Hcs ltac:(exact Ha) Hcl
      ltac:(lia) Hit1 Hok1 Huniq1) as [(c' & s2 & H1' & H2' & H3' & H4' & H5' & _)|Hfail];
      [by rewrite Hmap1, list_lookup_insert_eq|exact Hsvc1|apply Hroom2; lia| |left|by right].
    { intros m w b' Hm Hmst. eapply heap_takes_head. apply (Hroom m 9 9); [exact Hm| |lia..].
      right. exists w, b'. by rewrite Hmst, Hst. }
    exists s2. split; [exact H1'|]. by exists c'.
  - intros c rest Hcs Hcl Hin.
    destruct (node_rx_socket_message it p i k ncport c rest (Z.to_nat a) 0 s1 Hlink1 Hnodes1 Hk1 Hok1
      Huniq1) as (flag & s2 & Hpoll & Hcase);
      [by rewrite Hnet|exact Hcs|by eapply connect_request_cport|exact Hcl|
       rewrite Hmap1; by apply ap_cport_of_insert|tauto|exact Hsvc1|lia| |].
    { intros m Hm Hmst. eapply heap_takes_head. apply (Hroom m 9 9); [exact Hm|left; by rewrite Hmst|lia..]. }
    exists flag, s2. split; [exact Hpoll|].
    destruct Hcase as [(_ & (c' & Hsame & Hu) & _ & _ & Hst2)|[[Hfail|Hfull] Hgone]]; [left|by right|].
    + by exists c'.
    + exfalso. revert Hfull. apply Hroom2. lia.
Qed.
End Session.
