(* ===== verification/Witnesses.v ===== *)
(** * Concrete runs

    Every property with hypotheses is applied here to a concrete firmware
    state: the configuration of prj.conf, the checksum of [Crc], and the kernel
    services of [Zephyr]. *)

From S2P Require Import Prelude Config Protocols Hdlc HdlcRx Crc RxQueue Kernel Zephyr Messages.
From S2P Require Import Interfaces NodeCache State ApMap NodeLink NodeLife Ap LocalNode Routes Svc.
From S2P Require Import SvcFacts NodeTx Bridge NodeRx Discovery Main MainFacts NodeSet Receive.

#[local] Existing Instance prj_conf.
#[local] Existing Instance reflected_crc16.

(** ** States *)

Definition w_driver : hdlc_driver := hdlc_init (HdlcDriver 0 false 0 0 0 (replicate 256 0)).

(** No message is allocated. *)
Definition w_messages : messages := @Messages simple_heap (∅ : gset Z) ∅ 1 [].

(** The firmware after boot; [conn] is the bridge's table. *)
Definition w_boot (map : list node_ap_item) (ready : bool) : fw :=
  Fw _ _ _ w_driver [] w_messages (Interfaces _ (slab_with 10 ∅) ∅ 3)
    (Controls _ (slab_with 32 ∅) ∅) (NodeCache (replicate 32 (NodeItem 0 0 [] NullIntf 0)) 0) map ready 0
    (SimpleNet ∅ ∅ 5 ∅ ∅) (-1) false.

Definition w_empty_map : list node_ap_item := replicate 32 empty_item.

(** The SVC on AP cport 0, the local node on 1, node 3's cport 5 on 2. *)
Definition w_map : list node_ap_item :=
  NodeApItem SvcIntf 0 0 :: NodeApItem LocalIntf 0 2 :: NodeApItem (SlabIntf 1) 5 3
  :: replicate 29 empty_item.

Definition w_addr : list Z := [0x20; 0x01; 0x0d; 0xb8; 0; 0; 0; 0; 0; 0; 0; 0; 0; 0; 0; 1].
Definition w_item : node_item := NodeItem 7 3 w_addr (SlabIntf 1) 0.
Definition w_intf : gb_interface := GbInterface 3 node_inf_write_cb node_create_cb node_destroy_cb 1.

(** One connected node; [incoming] is what its socket will deliver. *)
Definition w_node (incoming : list Z) : fw :=
  Fw _ _ _ w_driver [] w_messages (Interfaces _ (slab_with 10 {[1]}) {[1 := w_intf]} 4)
    (Controls _ (slab_with 32 {[1]}) {[1 := 7]}) (NodeCache (w_item :: replicate 31 (NodeItem 0 0 [] NullIntf 0)) 1)
    w_map true 0 (SimpleNet ∅ {[7 := incoming]} 8 ∅ ∅) (-1) true.

(** ** They are well formed *)

Lemma w_driver_sim : sim w_driver (at_boundary 0).
Proof. by apply sim_init. Qed.

Lemma w_messages_wf : messages_wf w_messages.
Proof. split; [apply dom_empty_L|done|apply map_Forall_empty|done]. Qed.

Lemma w_boot_link ready : link_wf (w_boot w_empty_map ready).
Proof. split; [done|apply w_messages_wf]. Qed.

Lemma w_boot_map_link ready : link_wf (w_boot w_map ready).
Proof. split; [done|apply w_messages_wf]. Qed.

Lemma w_boot_nodes map ready : nodes_wf (w_boot map ready).
Proof.
  split.
  - split; [done|done|constructor].
  - split; [apply dom_empty_L|apply map_Forall_empty|done].
  - split; [apply dom_empty_L|done|done].
  - by intros it ?%elem_of_nil.
  - by intros it1 it2 p1 p2 i1 i2 ?%elem_of_nil.
  - intros p i Hl. cbn in Hl. by apply lookup_empty_Some in Hl.
  - done.
Qed.

Lemma w_node_link incoming : link_wf (w_node incoming).
Proof. split; [done|apply w_messages_wf]. Qed.

Lemma w_node_entry incoming : entry_ok (w_node incoming) w_item 1 w_intf.
Proof. by split_and!. Qed.

Lemma w_node_entries incoming : entries (fw_nodes (w_node incoming)) = [w_item].
Proof. done. Qed.

Lemma w_node_only incoming it : it ∈ entries (fw_nodes (w_node incoming)) → it = w_item.
Proof. by rewrite w_node_entries, list_elem_of_singleton. Qed.

Lemma w_node_nodes incoming : nodes_wf (w_node incoming).
Proof.
  split.
  - split; [done|done|]. rewrite w_node_entries. apply NoDup_singleton.
  - split; [by cbn; rewrite dom_singleton_L| |done]. by apply map_Forall_singleton.
  - split; [by cbn; rewrite dom_singleton_L|done|done].
  - intros it ->%w_node_only. eexists _, _. apply w_node_entry.
  - by intros it1 it2 p1 p2 i1 i2 ->%w_node_only ->%w_node_only.
  - intros p i Hl. cbn in Hl. apply lookup_singleton_Some in Hl as [<- <-]. split; [done|by exists 7].
  - done.
Qed.

Lemma w_node_unique incoming it :
  it ∈ entries (fw_nodes (w_node incoming)) → ni_sock it = ni_sock w_item → it = w_item.
Proof. intros Hit _. by apply w_node_only in Hit. Qed.

(** A ping, a message with a two-byte payload. *)
Definition w_header (size type : Z) : gb_operation_msg_hdr :=
  {| hdr_size := size; hdr_operation_id := 0x1234; hdr_type := type; hdr_result := 0;
     hdr_pad0 := 0; hdr_pad1 := 0 |}.
Definition w_ping : gb_message := GbMessage (w_header 8 GB_SVC_TYPE_PING) [].
Definition w_message : gb_message := GbMessage (w_header 10 0x02) [0x7e; 0x42].

Definition w_manifest_size : gb_message :=
  GbMessage (w_header 8 GB_CONTROL_TYPE_GET_MANIFEST_SIZE) [].

(** A frame for the debug address between two stray bytes. *)
Definition w_noise : list Z := [0x55; HDLC_FRAME] ++ frame_bytes ADDRESS_DBG 3 [0x42] ++ [0x55].

Ltac solve_sendable := split; [by repeat constructor|by repeat constructor|done].

Lemma w_ping_sendable : sendable w_ping.
Proof. solve_sendable. Qed.

Lemma w_message_sendable : sendable w_message.
Proof. solve_sendable. Qed.

Lemma w_heap_room n h : 0 <= n <= 4096 → k_heap_alloc (KHeap := simple_heap) h n ≠ None.
Proof. intros Hn. cbn. unfold heap_alloc. by destruct (Z.leb_spec n 4096); [|lia]. Qed.

(** A fact about closed terms. *)
Ltac computed := vm_compute; first [exact I|reflexivity|discriminate].

(** An equation of closed terms, by the virtual machine's conversion. *)
Ltac by_conversion :=
  match goal with |- ?x = ?y => exact (eq_refl y <: x = y) end.

(** ** The AP's requests *)

Lemma svc_request_answered_on_uart_witness :
  ∃ r s', receive_bytes (uart_message 0 w_ping) (w_boot w_map true)
          = Done (length (uart_message 0 w_ping) : Z) s' ∧
    message_is [] (GB_RESPONSE GB_SVC_TYPE_PING) 0x1234 GB_SVC_OP_SUCCESS r ∧
    fw_uart s' = uart_message 0 r.
Proof.
  destruct (svc_request_answered_on_uart 0 0 w_ping [] 0 0 (w_boot w_map true))
    as (r & s' & Hrun & Hmsg & Huart & _);
    [apply w_driver_sim|apply w_boot_map_link|apply w_ping_sendable|done..| | |].
  - computed.
  - computed.
  - exists r, s'. split_and!; assumption.
Defined.

Lemma local_node_frame_answered_witness :
  ∃ s', answers_frame 1 w_manifest_size [] 1 (le_bytes 2 (length manifest)) (w_boot w_map true) s'.
Proof.
  apply (local_node_frame_answered 1 w_manifest_size [] (le_bytes 2 (length manifest)) 2 1);
    [apply w_boot_map_link|solve_sendable|done..| |]; computed.
Defined.

Lemma w_noise_frames : snd (deframe (at_boundary 0) w_noise) = [(ADDRESS_DBG, [0x42])].
Proof. computed. Qed.

Lemma receive_bytes_frames_witness :
  ∃ d', receive_bytes w_noise (w_boot w_empty_map true)
        = (outcome L_hdlc frame_effect [(ADDRESS_DBG, [0x42])] d' ≫= λ _, mret 10)
            (w_boot w_empty_map true)
      ∧ sim d' (fst (deframe (at_boundary 0) w_noise)).
Proof.
  destruct (receive_bytes_frames w_noise (at_boundary 0) (w_boot w_empty_map true)) as (d' & Hrun & Hs).
  - apply w_driver_sim.
  - rewrite w_noise_frames. by constructor.
  - rewrite w_noise_frames in Hrun. exists d'. split; [exact Hrun|exact Hs].
Defined.

Lemma control_start_announces_version_witness :
  ∃ r s', control_process_frame [CONTROL_SVC_START] 1 (w_boot w_empty_map false) = Done 0 s' ∧
    svc_is_read_flag s' = true ∧ fw_uart s' = ap_frame 0 r ∧
    message_is [0; 1] GB_SVC_TYPE_PROTOCOL_VERSION 1 0 r.
Proof.
  destruct (control_start_announces_version [] (w_boot w_empty_map false))
    as (r & s' & Hrun & Hready & _ & _ & Hmsg & Huart);
    [apply w_boot_link|apply w_boot_nodes|done|computed|done|].
  exists r, s'. split_and!; assumption.
Defined.

(** ** Nodes *)

Lemma w_room_beside (s : fw) : room_beside_message s.
Proof. intros m q b _ _. by apply w_heap_room. Qed.

Lemma node_message_reaches_socket_witness :
  (∃ b' s', receive_bytes (uart_message 2 w_message) (w_node [])
            = Done (length (uart_message 2 w_message) : Z) s' ∧ same_message w_message b' ∧
     sent_on 7 (message_wire 5 b') (fw_net (w_node [])) (fw_net s')) ∨
  ∃ ret d' s', receive_bytes (uart_message 2 w_message) (w_node [])
               = Done (length (uart_message 2 w_message) : Z) (store L_hdlc d' s') ∧
    send_failed_twice w_item 5 w_message 0 ret (w_node []) s'.
Proof.
  destruct (node_message_reaches_socket 0 2 w_message w_item 1 w_intf 5 0 (w_node []))
    as [(b' & s' & Hrun & Hsame & Hsent & _)|(ret & d' & s' & Hrun & Hfail & _)];
    [apply w_driver_sim|apply w_node_link|apply w_node_nodes|apply w_message_sendable|done..|
     |apply w_node_entry|apply w_node_unique|done| | |apply w_room_beside| |].
  - rewrite w_node_entries. by apply list_elem_of_singleton.
  - computed.
  - computed.
  - left. exists b', s'. split_and!; assumption.
  - right. exists ret, d', s'. split; assumption.
Defined.

Lemma node_message_forwarded_witness :
  ∃ flag' s', node_rx_socket false 7 ZSOCK_POLLIN (w_node (message_wire 5 w_message)) = Done flag' s' ∧
    (flag' = false ∧
       (∃ b', same_message w_message b' ∧ fw_uart s' = ap_frame 2 b') ∧
       net_incoming (fw_net s') 7 = []
     ∨ receive_failed 7 w_message (w_node (message_wire 5 w_message)) ∧
       node_removed w_item 0 (w_node (message_wire 5 w_message)) s').
Proof.
  destruct (node_message_forwarded w_item 1 w_intf 0 5 w_message [] 2 0
              (w_node (message_wire 5 w_message)))
    as (flag' & s' & Hrun & [(Hflag & Huart & _ & Hnet & _)|Hgone]);
    [apply w_node_link|apply w_node_nodes|done|apply w_node_entry|apply w_node_unique|
     |apply w_message_sendable|done..| | |].
  - by rewrite app_nil_r.
  - intros m _ _. by apply w_heap_room.
  - exists flag', s'. split; [exact Hrun|]. left. split_and!; assumption.
  - exists flag', s'. split; [exact Hrun|]. right. assumption.
Defined.

Lemma stale_flag_removes_node_witness :
  ∃ flag' s', node_rx_socket true 7 ZSOCK_POLLIN (w_node (message_wire 5 w_message)) = Done flag' s' ∧
    node_removed w_item 0 (w_node (message_wire 5 w_message)) s'.
Proof.
  apply (stale_flag_removes_node w_item 1 w_intf 0 5 w_message []);
    [apply w_node_link|apply w_node_nodes|done|apply w_node_entry|apply w_node_unique|
     |apply w_message_sendable|done..|].
  - by rewrite app_nil_r.
  - intros m _. by apply w_heap_room.
Defined.

Lemma node_filter_known_witness : node_filter [w_addr; w_addr] (w_node []) = Done () (w_node []).
Proof.
  apply node_filter_known; [apply w_node_nodes|].
  intros addr Hin. exists w_item. rewrite w_node_entries.
  split; [by apply list_elem_of_singleton|]. by apply elem_of_cons in Hin as [Hin|Hin%list_elem_of_singleton].
Defined.

Lemma node_filter_new_witness :
  ∃ inf s', node_filter [w_addr] (w_boot w_map true) = Done () s' ∧
    (inf = NullIntf ∧ create_outcome (w_boot w_map true) w_addr inf s' ∧ fw_uart s' = [] ∨
     ∃ p r, inf = SlabIntf p ∧ entries (fw_nodes s') = [new_entry (w_boot w_map true) w_addr p] ∧
       message_is [3; 1; 0; 0] GB_SVC_TYPE_MODULE_INSERTED 1 0 r ∧ fw_uart s' = ap_frame 0 r).
Proof.
  destruct (node_filter_new w_addr 0 (w_boot w_map true)) as (inf & s' & Hrun & _ & Hcase);
    [apply w_boot_map_link|apply w_boot_nodes|by split| |computed|computed|computed|done|].
  - by intros (it & Hit%elem_of_nil & _).
  - exists inf, s'. split; [exact Hrun|exact Hcase].
Defined.

Lemma control_stop_clears_witness :
  ∃ s', control_process_frame [CONTROL_SVC_STOP] 1 (w_node []) = Done 0 s' ∧
    entries (fw_nodes s') = [] ∧ svc_is_read_flag s' = false.
Proof.
  destruct (control_stop_clears [] (w_node [])) as (s' & n1 & Hrun & _ & _ & Hempty & Hflag & _);
    [apply w_node_link|apply w_node_nodes|done|].
  exists s'. split_and!; assumption.
Defined.

(** The state after [node_create_interface], and the interface. *)
Definition w_created : intf_ptr * fw :=
  match node_create_interface w_addr (w_boot w_map true) with
  | Done p s => (p, s)
  | Crash _ => (NullIntf, w_boot w_map true)
  end.

Lemma node_create_destroy_witness :
  ∃ p s'', fst w_created = SlabIntf p ∧
    node_destroy_interface (SlabIntf p) (snd w_created) = Done () s'' ∧
    cache_map (fw_nodes s'') = ∅ ∧ node_create_interface w_addr s'' = Crash StackBlock.
Proof.
  destruct (node_create_destroy (w_boot w_map true) w_addr 1 (snd w_created))
    as (_ & c & s'' & Hrun & _ & _ & _ & Hcache & _ & _ & _ & _ & Hstray);
    [apply w_boot_nodes|computed|by_conversion|].
  exists 1, s''. split_and!; [by_conversion|exact Hrun|exact Hcache|exact (Hstray w_addr)].
Defined.

(** ** Connections *)

Lemma w_map_wf : ap_map_wf w_map.
Proof. done. Qed.

Lemma w_empty_map_wf : ap_map_wf w_empty_map.
Proof. done. Qed.

Lemma connection_create_spec_witness :
  ∃ ret s', connection_create AP_INF_ID 5 3 9 (w_node []) = Done ret s' ∧
    connection_create 3 9 AP_INF_ID 5 (w_node []) = Done ret s' ∧
    connect_outcome 5 3 9 (w_node []) ret s'.
Proof.
  destruct (connection_create_spec 5 3 9 (w_node [])) as (ret & s' & Hrun & Hswap & _ & Hcase);
    [apply w_map_wf|apply w_node_nodes|done|done|].
  exists ret, s'. split_and!; assumption.
Defined.

Definition w_connected : fw :=
  match connection_create AP_INF_ID 5 3 9 (w_node []) with Done _ s => s | Crash _ => w_node [] end.

Lemma connection_create_destroy_witness :
  ∃ s'', connection_destroy AP_INF_ID 5 3 9 w_connected = Done 0 s'' ∧ fw_ap_map s'' = w_map.
Proof.
  destruct (connection_create_destroy 5 3 9 (w_node []) w_connected)
    as (_ & s'' & Hrun & Hmap & _);
    [apply w_map_wf|apply w_node_nodes|done|done|done|by_conversion|].
  exists s''. split; assumption.
Defined.

Lemma connection_needs_ap_witness :
  connection_create SVC_INF_ID 0 3 5 (w_node []) = Done (- EINVAL) (w_node []).
Proof. apply (connection_needs_ap SVC_INF_ID 0 3 5 (w_node [])); done. Defined.

(** ** The bridge *)

(** The message [b] is allocated at address 5. *)
Definition w_with_message (b : gb_message) (s : fw) : fw :=
  store L_messages (Messages _ {[5]} {[5 := b]} 1 []) s.

Lemma w_with_message_wf b s : block_ok b → messages_wf (fw_messages (w_with_message b s)).
Proof.
  intros Hb. split; [by cbn; rewrite dom_singleton_L|done| |done].
  by apply map_Forall_singleton.
Qed.

(** The socket carries the message's twelve bytes. *)
Definition w_sent : fw :=
  store L_net (SimpleNet {[7 := [5; 0; 10; 0; 0x34; 0x12; 2; 0; 0; 0; 0x7e; 0x42]]} {[7 := []]} 8 ∅ ∅)
    (w_with_message w_message (w_node [])).

Lemma message_send_receive_witness :
  wp (gb_message_receive 7 false)
    (λ r s', received 7 w_message [] false (w_node (message_wire 5 w_message)) r s' ∧
             (msg (fst r) ≠ NULL → cport_id (fst r) = 5))
    (w_node (message_wire 5 w_message)).
Proof.
  apply (message_send_receive connection_send 7 5 w_message 5 false []
           (w_with_message w_message (w_node [])) w_sent).
  - apply w_with_message_wf. split_and!; [by repeat constructor|by repeat constructor|done].
  - by_conversion.
  - apply w_message_sendable.
  - done.
  - by_conversion.
  - apply w_messages_wf.
  - intros bs [Hsent _]. rewrite app_nil_r. exact Hsent.
Defined.

Lemma connection_send_bounded_witness :
  connection_send_fuel 7 AP_INF_ID 1 5 ≡ connection_send AP_INF_ID 1 5.
Proof. apply (connection_send_bounded 7). lia. Defined.

Lemma connection_send_bad_cport_witness :
  connection_send AP_INF_ID 40 5 (w_node []) = Crash OutOfBounds ∧
  connection_send AP_INF_ID 9 5 (w_node []) = Crash NullDeref.
Proof.
  split.
  - apply (connection_send_bad_cport 40 5 (w_node [])); [apply w_map_wf|done|done].
  - apply (connection_send_bad_cport 9 5 (w_node [])); [apply w_map_wf|done|done].
Defined.

(** Node 3 is no longer in the cache. *)
Definition w_removed : fw :=
  store L_nodes (NodeCache (nc_items (fw_nodes (w_node []))) 0) (w_with_message w_message (w_node [])).

Lemma w_removed_nodes : nodes_wf w_removed.
Proof.
  destruct (w_node_nodes []) as [_ Hi Hc _ _ Hst _].
  split; [split; [done|done|apply (NoDup_nil_2 (A := Z))]|exact Hi|exact Hc| | |exact Hst|apply Nat.le_0_l].
  - by intros it ?%elem_of_nil.
  - by intros it1 it2 p1 p2 i1 i2 ?%elem_of_nil.
Qed.

Lemma stale_route_writes_witness :
  ∃ n' bs, sent_on 7 bs (fw_net w_removed) n' ∧
    (bs = message_wire 5 w_message ∨ bs `prefix_of` message_wire 5 w_message).
Proof.
  destruct (stale_route_writes 2 1 w_intf 7 3 5 5 w_message w_removed) as (n' & bs & Hsent & Hcase);
    [done|done|apply w_removed_nodes|constructor|done|done| |done|apply w_message_sendable|].
  - apply w_with_message_wf. split_and!; [by repeat constructor|by repeat constructor|done].
  - exists n', bs. split; [exact Hsent|]. destruct Hcase as [[-> _]|[Hp _]]; [by left|by right].
Defined.

Lemma empty_slot_answers_for_svc_witness :
  node_to_ap_cport SVC_INF_ID 0 (w_boot w_empty_map false) = Done 0 (w_boot w_empty_map false).
Proof. apply empty_slot_answers_for_svc; [apply w_empty_map_wf|done]. Defined.

Lemma hdlc_block_send_sync_frame_witness :
  hdlc_block_send_sync L_hdlc hdlc_send_callback [0x7e; 0x42; 0x99] 2 ADDRESS_DBG 3 (w_node [])
  = Done 0 (store L_uart (frame_bytes ADDRESS_DBG 3 [0x7e; 0x42]) (w_node [])).
Proof. apply (hdlc_block_send_sync_frame [0x7e; 0x42; 0x99] 2 ADDRESS_DBG 3 (w_node [])). done. Defined.

(** A message too long for the frame's buffer. *)
Definition w_long : gb_message := GbMessage (w_header 255 0x02) (replicate 247 0).

Lemma w_long_ok : block_ok w_long.
Proof. split_and!; [by repeat constructor|by apply Forall_replicate|done]. Qed.

Lemma w_long_sendable : sendable w_long.
Proof. split; [by repeat constructor|by apply Forall_replicate|done]. Qed.

Lemma ap_send_overflow_witness :
  ap_send 5 0 (w_with_message w_long (w_node [])) = Crash OutOfBounds.
Proof.
  apply (ap_send_overflow 5 0 w_long);
    [apply w_with_message_wf, w_long_ok|by_conversion|apply w_long_sendable|done].
Defined.

Lemma svc_request_id_read_after_free_witness :
  ∃ ret p s', control_send_request connection_send [3; 1; 0; 0] 4 GB_SVC_TYPE_MODULE_INSERTED
                (w_boot w_map true) = Done ret s' ∧
    msg_store (fw_messages s') !! p = None ∧ stale_reads (fw_messages s') = [p].
Proof.
  destruct (svc_request_id_read_after_free connection_send [3; 1; 0; 0] GB_SVC_TYPE_MODULE_INSERTED 0
              (w_boot w_map true)) as (ret & p & s' & Hrun & _ & Hfreed & Hread);
    [apply w_boot_map_link|by repeat constructor|done|done|computed|computed|].
  exists ret, p, s'. split_and!; assumption.
Defined.

(** ** HDLC *)

(** Two frames whose bytes need escaping. *)
Definition w_packets : list packet := [Packet HDLC_FRAME 3 [HDLC_FRAME; HDLC_ESC; 0x20]; Packet 2 0x13 []].

Ltac solve_packet := split_and!; [done|done|done|by repeat constructor|done].

Lemma hdlc_roundtrip_witness :
  ∃ d', hdlc_process_buffer rx_driver record_frame (w_packets ≫= packet_wire) (w_driver, [])
        = Done (length (w_packets ≫= packet_wire) : Z) (d', [(HDLC_FRAME, [HDLC_FRAME; HDLC_ESC; 0x20]); (2, [])]).
Proof.
  destruct (hdlc_roundtrip w_driver 0 [] w_packets) as (d' & Hrun & _).
  - apply w_driver_sim.
  - constructor; [solve_packet|]. constructor; [solve_packet|constructor].
  - exists d'. exact Hrun.
Defined.

Lemma hdlc_delivers_checked_witness :
  ∃ d' fs, hdlc_process_buffer rx_driver record_frame w_noise (w_driver, []) = Done 10 (d', fs) ∧
    Forall checked fs.
Proof. apply (hdlc_delivers_checked w_driver 0), w_driver_sim. Defined.

Lemma hdlc_resynchronises_witness :
  ∃ d' fs' q,
    hdlc_process_buffer rx_driver record_frame
      ([0x42; HDLC_FRAME; 0x17] ++ packet_wire (Packet 2 3 [0x42])) (w_driver, [])
    = Done (length ([0x42; HDLC_FRAME; 0x17] ++ packet_wire (Packet 2 3 [0x42])) : Z) (d', fs' ++ [(2, [0x42])]) ∧ sim d' (at_boundary q).
Proof.
  apply (hdlc_resynchronises w_driver (at_boundary 0) [] [0x42; HDLC_FRAME; 0x17] (Packet 2 3 [0x42]));
    [apply w_driver_sim|solve_packet|computed].
Defined.

Lemma hdlc_abort_drops_next_frame_witness :
  ∃ d', hdlc_process_buffer rx_driver record_frame
          ([HDLC_ESC; HDLC_FRAME] ++ packet_wire (Packet 2 3 [0x42])) (w_driver, [])
        = Done (length ([HDLC_ESC; HDLC_FRAME] ++ packet_wire (Packet 2 3 [0x42])) : Z) (d', []).
Proof.
  destruct (hdlc_abort_drops_next_frame w_driver 0 [] (Packet 2 3 [0x42])) as (d' & Hrun & _);
    [apply w_driver_sim|solve_packet|done|]. exists d'. exact Hrun.
Defined.

(** A driver whose buffer has filled up in the middle of a frame. *)
Definition w_full : hdlc_driver :=
  HdlcDriver (crc16_ccitt 0xffff (replicate 256 0)) false 0 0 256 (replicate 256 0).

Lemma w_full_sim : sim w_full (Deframer (replicate 256 0) (replicate 256 0) false 0).
Proof. by split. Qed.

Lemma hdlc_overflow_shifts_frame_witness :
  ∃ d', hdlc_process_buffer rx_driver record_frame
          (stuff (0x42 :: frame_body 5 3 [0x17]) ++ [HDLC_FRAME]) (w_full, [])
        = Done (length (stuff (0x42 :: frame_body 5 3 [0x17]) ++ [HDLC_FRAME]) : Z)
            (d', [(0x42, [3; 0x17])]).
Proof.
  apply (hdlc_overflow_shifts_frame w_full (Deframer (replicate 256 0) (replicate 256 0) false 0) []);
    [apply w_full_sim|done|done|done|done|done|by repeat constructor|done|done].
Defined.

(** ** The receive queue *)

(** An interrupt that finds [bs] in the FIFO. *)
Definition w_uart (bs : list Z) : uart :=
  Uart true true (λ size, let data := take (Z.to_nat size) bs in (length data : Z, data)).

Lemma w_uart_reads bs : uart_reads (w_uart bs).
Proof.
  split; intros size Hsize; cbn; rewrite length_take; [|lia]. split_and!; [lia|lia|lia].
Qed.

Lemma w_uart_ok bs : uart_ok (w_uart bs).
Proof. apply w_uart_reads. Qed.

(** Nothing received yet; the ring buffer's head is two bytes before its end. *)
Definition w_rx_start : rx_sys :=
  RxSys (RxQueue _ (Circular [] [] 1022 0) false) (w_driver, []) [].

(** After an interrupt that could store only two bytes. *)
Definition w_rx_half : rx_sys :=
  RxSys (fst (serial_callback (w_uart [1; 2; 3; 4]) (s_queue w_rx_start))) (w_driver, []) [1; 2].

(** After another one, with the remaining two. *)
Definition w_rx_queued : rx_sys :=
  RxSys (fst (serial_callback (w_uart [3; 4]) (s_queue w_rx_half))) (w_driver, []) [1; 2; 3; 4].

Lemma w_rx_initial : rx_initial w_rx_start.
Proof. split_and!; [done..|]. by exists (HdlcDriver 0 false 0 0 0 (replicate 256 0)). Qed.

Lemma w_rx_interrupts : rtc (rx_step uart_reads) w_rx_start w_rx_queued.
Proof.
  eapply rtc_l; [|apply rtc_once].
  - by apply (step_interrupt _ w_rx_start (w_uart [1; 2; 3; 4]) (s_queue w_rx_half) [1; 2]);
      [apply w_uart_reads|].
  - by apply (step_interrupt _ w_rx_half (w_uart [3; 4])); [apply w_uart_reads|].
Qed.

Lemma w_rx_inv : stream_inv w_rx_queued.
Proof. split; [done|]. exists []. split_and!; [done|apply w_driver_sim|done]. Qed.

Lemma rx_stream_exact_witness : stream_inv w_rx_queued.
Proof. apply (rx_stream_exact w_rx_start); [apply w_rx_initial|apply w_rx_interrupts]. Defined.

(** A read that fails, then one that finds 0x55: the receiver is handed a byte of the space
    claimed for the first. *)
Definition w_uart_fails : uart := Uart true true (λ _, (- 5, [])).

Lemma failed_read_commits_stale_witness :
  ∃ q1, serial_callback w_uart_fails (s_queue w_rx_start) = (q1, []) ∧
    ring_contents (hdlc_rx_ringbuf (fst (serial_callback (w_uart [0x55]) q1))) = [0].
Proof.
  destruct (failed_read_commits_stale w_uart_fails (s_queue w_rx_start)) as (q1 & area & Hrun & Harea & Hnext);
    [done|intros size Hsize; cbn; split_and!; [lia|lia|done]|done|done|].
  assert (Hq1 : q1 = fst (serial_callback w_uart_fails (s_queue w_rx_start))) by (by rewrite Hrun).
  exists q1. split; [exact Hrun|]. subst q1. rewrite <-Harea in Hnext.
  exact (Hnext (w_uart [0x55]) _ [0x55] (w_uart_reads _) eq_refl ltac:(done) ltac:(by vm_compute)).
Defined.

Lemma rx_work_progress_witness :
  ∃ s', rx_step uart_ok w_rx_queued s' ∧
    (length (ring_contents (hdlc_rx_ringbuf (s_queue s'))) < 4)%nat.
Proof.
  destruct (rx_work_progress w_rx_queued) as (s' & Hstep & _ & Hless); [apply w_rx_inv|done|].
  exists s'. split; [exact Hstep|]. by apply Hless.
Defined.

Lemma rx_work_leaves_bytes_witness :
  ∃ s', rx_step uart_ok w_rx_queued s' ∧ hdlc_rx_work (s_queue s') = false ∧
    ring_contents (hdlc_rx_ringbuf (s_queue s')) = [3; 4].
Proof.
  destruct (rx_work_leaves_bytes w_rx_queued [1; 2] (Circular [1; 2; 3; 4] [] 1022 2))
    as (s' & Hstep & Hidle & Hleft & _); [apply w_rx_inv|done|done|vm_compute; lia|].
  exists s'. split_and!; assumption.
Defined.

(** ** Messages and the node table *)

Lemma gb_message_response_alloc_spec_witness :
  wp (gb_message_response_alloc [0; 1] 2 GB_SVC_TYPE_PROTOCOL_VERSION 0x1234 0)
    (λ p m', (p = NULL ∧ m' = w_messages) ∨
      ∃ b, allocated w_messages p b m' ∧
           message_is [0; 1] (Z.lor GB_OP_RESPONSE GB_SVC_TYPE_PROTOCOL_VERSION) 0x1234 0 b ∧
           gb_message_is_response b = true ∧ gb_message_payload_len b = 2)
    w_messages.
Proof.
  apply (gb_message_response_alloc_spec w_messages [0; 1]
           GB_SVC_TYPE_PROTOCOL_VERSION 0x1234 0);
    [apply w_messages_wf|by repeat constructor|done|done|done|done|left; computed].
Defined.

Lemma gb_message_alloc_short_header_witness :
  gb_message_alloc (gb_hdr_payload_len (w_header 3 0x02)) 0x02 0x1234 0
    w_messages = Crash OutOfBounds.
Proof.
  apply (gb_message_alloc_short_header w_messages 3 0x02 0x1234 0
           1 (replicate 3 0) {[1]}); [done|by_conversion].
Defined.

Definition w_cache : node_cache := fw_nodes (w_node []).

Lemma node_cache_find_by_id_map_witness :
  ∃ ret, node_cache_find_by_id 3 w_cache = Done ret w_cache ∧ node_cache_at ret w_cache = Done w_item w_cache.
Proof.
  destruct (node_cache_find_by_id_map w_cache 3) as (ret & Hrun & Hcase); [apply w_node_nodes|].
  exists ret. split; [exact Hrun|]. apply Hcase.
Defined.

Lemma node_cache_remove_by_id_map_witness :
  ∃ ret c', node_cache_remove_by_id 3 w_cache = Done ret c' ∧ cache_map c' = ∅.
Proof.
  destruct (node_cache_remove_by_id_map w_cache 3) as (ret & c' & Hrun & _ & Hmap & _);
    [apply w_node_nodes|]. exists ret, c'. split; [exact Hrun|exact Hmap].
Defined.
