(* ===== verification/SystemWitness.v ===== *)
(** * Concrete runs of the whole system

    The properties of booting, of the invariant, of the log and of discovery
    with mDNS, applied to concrete states. *)

From S2P Require Import Prelude Config Protocols Hdlc HdlcRx Crc Kernel Zephyr Mdns MdnsNames.
From S2P Require Import MdnsQuery MdnsRecv MdnsWitness Messages Interfaces NodeCache State ApMap.
From S2P Require Import NodeLink NodeLife Ap LocalNode Routes Svc Quiet SvcFacts NodeTx Bridge.
From S2P Require Import NodeRx Discovery Main NodeSet Discover LogBackend Boot Invariant Witnesses.

#[local] Existing Instance prj_conf.
#[local] Existing Instance reflected_crc16.

(** ** Booting *)

Definition w_net : net := SimpleNet ∅ ∅ 5 ∅ ∅.
Definition w_heap : kheap := (∅ : gset Z).
Definition w_interface_slab : kslab := slab_with 10 ∅.
Definition w_control_slab : kslab := slab_with 32 ∅.

Lemma w_blocks : slab_blocks w_control_slab = MAX_GREYBUS_NODES.
Proof. reflexivity. Qed.

(** The static variables with empty pools of ten interfaces and 32 nodes. *)
Definition w_statics : fw := fw_statics w_heap w_interface_slab w_control_slab w_net.

Lemma main_boots_witness :
  ∃ s', main (w_statics, UartPort false false) = Done None (s', UartPort true true) ∧
    tcp_discovery_running s' = false ∧ link_wf s' ∧ nodes_wf s'.
Proof.
  destruct (main_boots w_heap w_interface_slab w_control_slab w_net eq_refl eq_refl eq_refl w_blocks
    (UartPort false false)) as (r & s' & port' & Hrun & _ & Hd & _ & Hl & Hn & _ & _ & -> & ->).
  exists s'. split_and!; assumption.
Defined.

(** ** The invariant *)

Definition w_ready : fw :=
  store L_hdlc (hdlc_init (fw_hdlc w_statics)) (store L_discovery_running false w_statics).

Lemma w_main : main (w_statics, UartPort false false) = Done None (w_ready, UartPort true true).
Proof. reflexivity. Qed.

(** A stray byte between the flags of two frames. *)
Definition w_received : fw :=
  store L_hdlc (set_rx_buffer_len 1 (set_rx_buffer (0x55 :: replicate 255 0)
    (set_crc (crc16_ccitt 0xffff [0x55]) (fw_hdlc w_ready)))) w_ready.

Lemma w_idle_step : fw_step (w_ready, RxWaiting) (w_ready, RxWaiting).
Proof. by apply (fw_step_event RxThread). Qed.

Lemma w_received_step : fw_step (w_ready, RxWaiting) (w_received, RxWaiting).
Proof. apply (fw_step_event (Received [HDLC_FRAME; 0x55])); [solve_bytes|]. reflexivity. Qed.

Lemma firmware_invariant_witness : fw_inv w_received.
Proof.
  apply (firmware_invariant w_heap w_interface_slab w_control_slab w_net (UartPort false false) w_ready
    (UartPort true true) w_received RxWaiting eq_refl eq_refl eq_refl w_blocks w_main).
  eapply rtc_l; [apply w_idle_step|]. apply rtc_once, w_received_step.
Defined.

Lemma w_ready_inv : fw_inv w_ready.
Proof.
  split.
  - split; [reflexivity|solve_closed|]. change (bytes (replicate 256 0)).
    apply Forall_replicate. by unfold is_u8.
  - destruct (w_boot_link false). by split.
  - by apply (nodes_wf_tables w_statics), (statics_nodes w_heap w_interface_slab w_control_slab w_net).
Qed.

Lemma log_calls_framed_witness :
  ∃ out, log_calls [LogInit; LogProcess [0x7e]; LogDropped 2] w_ready
         = Done () (store L_uart (fw_uart w_ready ++ out) w_ready) ∧
    deframe (at_boundary 0) out = (at_boundary 0, [(ADDRESS_DBG, [0x7e]); (ADDRESS_DBG, [2])]).
Proof. exact (log_calls_framed [LogInit; LogProcess [0x7e]; LogDropped 2] 0 w_ready ltac:(solve_closed)). Defined.

(** Address 5 is not in use, and the arguments ask for more bytes than are given. *)
Lemma message_operations_outcome_witness :
  alloc_outcome 70000 0x02 1 0 w_messages (gb_message_alloc 70000 0x02 1 0 w_messages) ∧
  fill_outcome 70000 0x82 1 0 w_messages [7] (gb_message_response_alloc [7] 70000 0x02 1 0 w_messages) ∧
  gb_message_dealloc 5 w_messages = Crash DoubleFree.
Proof.
  destruct (message_operations_outcome w_messages 5 [7] 70000 0x02 1 0 w_messages_wf
    ltac:(by repeat constructor) ltac:(done) ltac:(done) ltac:(done) ltac:(done)) as (Ha & Hf & _ & _ & Hd).
  split; [exact Ha|]. split; [exact Hf|]. exact (proj2 Hd).
Defined.

(** ** Discovery *)

(** The SVC is connected, the discovery socket is 5, and a responder at
    [w_addr] has answered. *)
Definition w_asked : fw :=
  Fw _ _ _ w_driver [] w_messages (Interfaces _ (slab_with 10 ∅) ∅ 3)
    (Controls _ (slab_with 32 ∅) ∅) (NodeCache (replicate 32 (NodeItem 0 0 [] NullIntf 0)) 0) w_map true 0
    (SimpleNet ∅ ∅ 8 ∅ {[5 := [(w_addr, w_answer)]]}) 5 true.

Lemma w_asked_link : link_wf w_asked.
Proof. destruct (w_boot_map_link true). by split. Qed.

Lemma w_asked_nodes : nodes_wf w_asked.
Proof. by apply (nodes_wf_tables (w_boot w_map true)), w_boot_nodes. Qed.

Lemma w_asked_arrive : answers_arrive w_asked w_open [(w_addr, w_answer)].
Proof.
  split; [apply w_undisturbed|]. split; [reflexivity|].
  intros ret n1 r rev n2 (Hd & _) [= _ _ <-].
  transitivity (net_datagrams (fw_net w_asked) 5); [by rewrite <-Hd|reflexivity].
Qed.

Lemma w_asked_judged : Forall2 (judged query) [(w_addr, w_answer)] [true].
Proof.
  repeat constructor. exists [w_zephyr :: w_service]. split; [apply w_answer_well_formed|].
  by split; [apply w_answer_settled|].
Qed.


Lemma w_asked_inv : fw_inv w_asked.
Proof.
  split; [|apply w_asked_link|apply w_asked_nodes]. split; [reflexivity|solve_closed|].
  change (bytes (replicate 256 0)). apply Forall_replicate. by unfold is_u8.
Qed.

Lemma w_asked_ok : event_ok (Discovery w_addr 1) w_asked.
Proof. split; [reflexivity|]. split; [by apply NoDup_singleton|]. apply Forall_singleton. reflexivity. Qed.

(** Without mDNS the configured node is reported. *)
Lemma firmware_event_ends_witness :
  (∃ t' s', run_event (Discovery w_addr 1) RxWaiting w_asked = Done t' s' ∧ fw_inv s') ∨
  ∃ f, run_event (Discovery w_addr 1) RxWaiting w_asked = Crash f ∧ f ≠ Diverge.
Proof.
  apply (firmware_event_ends (Discovery w_addr 1) RxWaiting w_asked w_asked_inv w_asked_ok). intros [=].
Defined.
