(* ===== verification/SessionWitness.v ===== *)
(** * Concrete runs of sessions and races

    The properties of connections made by the AP and of the preempted
    transmitter, applied to concrete states. *)

From S2P Require Import Prelude Config Protocols Hdlc HdlcRx Crc Kernel Zephyr Messages Interfaces NodeCache.
From S2P Require Import State ApMap NodeLink NodeLife Ap TxRace LocalNode Routes Svc SvcFacts NodeTx.
From S2P Require Import Bridge NodeRx Discovery Main MainFacts NodeSet Receive Session Witnesses.

#[local] Existing Instance prj_conf.
#[local] Existing Instance reflected_crc16.

(** ** Two senders *)

(** A log line whose second byte is escaped, as a packet. *)
Definition w_log : list Z := [0x41; 0x7e; 0x42].
Definition w_log_packet : packet := Packet ADDRESS_DBG 3 w_log.

Lemma w_log_packet_ok : packet_ok w_log_packet.
Proof. solve_packet. Qed.

(** A ping for the AP waits in another thread. *)
Definition w_two_senders : fw := w_with_message w_ping (w_node []).

Lemma w_two_senders_wf : messages_wf (fw_messages w_two_senders).
Proof. apply w_with_message_wf. split_and!; [by repeat constructor|by repeat constructor|done]. Qed.

Definition w_sends_ping : nat → M fw () := at_byte 5 (_ ← ap_send 5 0; mret ()).

Lemma w_log_wire : length (packet_wire w_log_packet) = 10%nat.
Proof. reflexivity. Qed.

Lemma w_log_cut : last (take 5 (packet_wire w_log_packet)) = Some HDLC_ESC.
Proof. reflexivity. Qed.

Lemma w_cut_frames fs :
  cut_frames 5 w_log_packet (message_packet 0 w_ping) fs →
  Forall (λ f : frame, length (snd f) < 3)%nat fs.
Proof.
  unfold cut_frames. rewrite w_log_wire. do 2 (case_decide; [lia|]).
  intros (fs1 & fs2 & -> & Hall). rewrite decide_True by apply w_log_cut. exact Hall.
Qed.

Lemma tx_race_loses_frames_witness :
  ∃ s' q' fs,
    hdlc_block_send_preempted w_sends_ping w_log 3 ADDRESS_DBG 3 w_two_senders = Done 0 s' ∧
    deframe (at_boundary 0) (cut_in 5 (packet_wire w_log_packet) (ap_frame 0 w_ping))
    = (at_boundary q', fs) ∧
    Forall (λ f : frame, length (snd f) < 3)%nat fs.
Proof.
  destruct (tx_race_loses_frames 5 5 0 w_ping w_log 3 ADDRESS_DBG 3 0 w_two_senders)
    as (s' & q' & fs & Hrun & _ & _ & Hde & Hcut);
    [apply w_two_senders_wf|by_conversion|apply w_ping_sendable|done|done|apply w_log_packet_ok|done| |].
  - apply Nat.ltb_lt. by_conversion.
  - exists s', q', fs. split; [exact Hrun|]. split; [exact Hde|apply w_cut_frames, Hcut].
Defined.

(** The same, seen from the wire. *)
Definition w_outs : nat → list Z := λ n, if decide (n = 5%nat) then ap_frame 0 w_ping else [].

Lemma w_sends_ping_well_behaved :
  well_behaved
    (λ n s', if decide (n <= 5)%nat then fw_messages s' = fw_messages w_two_senders
             else freed 5 (fw_messages w_two_senders) (fw_messages s'))
    w_sends_ping w_outs.
Proof.
  apply ap_send_well_behaved; [apply w_two_senders_wf|by_conversion|apply w_ping_sendable|done].
Qed.

Lemma tx_preempted_interleaves_witness :
  ∃ s', hdlc_block_send_preempted w_sends_ping w_log 3 ADDRESS_DBG 3 w_two_senders = Done 0 s' ∧
    fw_uart s' = interleave w_outs 0 (frame_bytes ADDRESS_DBG 3 w_log).
Proof.
  destruct (tx_preempted_interleaves _ w_sends_ping w_outs w_log 3 ADDRESS_DBG 3 w_two_senders
    w_sends_ping_well_behaved) as (s' & Hrun & _ & Hu);
    [done|done|done|].
  exists s'. split; [exact Hrun|exact Hu].
Defined.

(** ** Connections made by the AP *)

(** Node 3's cport 6 and the AP's cport 3. *)
Definition w_connect_payload : gb_svc_conn_create_request :=
  {| cc_intf1_id := AP_INF_ID; cc_cport1_id := 3; cc_intf2_id := 3; cc_cport2_id := 6;
     cc_tc := 0; cc_flags := 0 |}.
Definition w_connect : gb_message :=
  GbMessage (w_header 16 GB_SVC_TYPE_CONN_CREATE) (to_wire w_connect_payload).

Definition w_disconnect_payload : gb_svc_conn_destroy_request :=
  {| cd_intf1_id := AP_INF_ID; cd_cport1_id := 3; cd_intf2_id := 3; cd_cport2_id := 6 |}.
Definition w_disconnect : gb_message :=
  GbMessage (w_header 14 GB_SVC_TYPE_CONN_DESTROY) (to_wire w_disconnect_payload).

Lemma w_connect_sendable : sendable w_connect.
Proof. split; [by repeat constructor|solve_bytes|done]. Qed.

Lemma w_disconnect_sendable : sendable w_disconnect.
Proof. split; [by repeat constructor|solve_bytes|done]. Qed.

Lemma w_connect_request : connect_request w_connect 3 6 3.
Proof.
  split; [done|done|]. exists w_connect_payload. split; [done|]. split; [by repeat constructor|done].
Qed.

Lemma w_disconnect_request : disconnect_request w_disconnect 3 6 3.
Proof.
  split; [done|done|]. exists w_disconnect_payload. split; [done|]. split; [by repeat constructor|done].
Qed.

Lemma w_heap_takes (h : gset Z) n1 n2 :
  0 <= n1 <= 256 → 0 <= n2 <= 256 → heap_takes (h : kheap) [n1; n2].
Proof.
  intros H1n H2n. cbn. unfold heap_alloc. destruct (Z.leb_spec n1 4096); [|lia].
  by destruct (Z.leb_spec n2 4096); [|lia].
Qed.

Lemma w_interface_of : interface_of (w_node []) 3 = SlabIntf 1.
Proof. reflexivity. Qed.

Lemma w_node_exists : interface_of (w_node []) 3 ≠ NullIntf.
Proof. by rewrite w_interface_of. Qed.

Lemma w_cport_6 : (6 : Z) ≠ 0.
Proof. done. Qed.

Lemma w_cport_3_free :
  ∃ it, fw_ap_map (w_node []) !! Z.to_nat 3 = Some it ∧ node_intf it = NullIntf.
Proof. by exists empty_item. Qed.

Lemma svc_connects_on_uart_witness :
  ∃ status s', receive_bytes (uart_message 0 w_connect) (w_node [])
               = Done (length (uart_message 0 w_connect) : Z) s' ∧
    served 0 w_connect status (w_node []) s' ∧ status = GB_SVC_OP_SUCCESS.
Proof.
  destruct (svc_connects_on_uart 0 w_connect 3 6 3 (w_node []))
    as (status & s' & Hrun & Hserved & _ & Hok);
    [apply w_driver_sim|apply w_node_link|apply w_node_nodes|apply w_connect_sendable
    |apply w_connect_request|done|done|by apply w_heap_takes|].
  exists status, s'. split; [exact Hrun|]. split; [exact Hserved|].
  exact (Hok w_cport_6 w_node_exists w_cport_3_free).
Defined.

Lemma svc_connection_roundtrip_witness :
  ∃ s1 s2, receive_bytes (uart_message 0 w_connect) (w_node [])
           = Done (length (uart_message 0 w_connect) : Z) s1 ∧
    receive_bytes (uart_message 0 w_disconnect) s1
    = Done (length (uart_message 0 w_disconnect) : Z) s2 ∧
    fw_ap_map s2 = w_map.
Proof.
  destruct (svc_connection_roundtrip 0 w_connect w_disconnect 3 6 3 (w_node []))
    as (s1 & s2 & Hrun1 & _ & _ & Hrun2 & _ & Hmap & _);
    [apply w_driver_sim|apply w_node_link|apply w_node_nodes|apply w_connect_sendable
    |apply w_disconnect_sendable|apply w_connect_request|apply w_disconnect_request|done|done
    |apply w_node_exists|done|done|by intros m _ _; split; apply w_heap_takes|].
  exists s1, s2. split; [exact Hrun1|]. split; [exact Hrun2|exact Hmap].
Defined.

(** The node has sent a message from its cport 6. *)
Definition w_incoming : list Z := message_wire 6 w_message.

Lemma w_message_fits : 14 + length (payload w_message) <= HDLC_MAX_BLOCK_SIZE.
Proof. done. Qed.

Lemma w_message_fits_up : 10 + length (payload w_message) <= HDLC_MAX_BLOCK_SIZE.
Proof. done. Qed.

Lemma w_message_incoming :
  net_incoming (fw_net (w_node w_incoming)) (ni_sock w_item) = message_wire 6 w_message ++ [].
Proof. by rewrite app_nil_r. Qed.

Lemma connected_cports_joined_witness :
  ∃ s1, receive_bytes (uart_message 0 w_connect) (w_node w_incoming)
        = Done (length (uart_message 0 w_connect) : Z) s1 ∧
    ((∃ s2, receive_bytes (uart_message 3 w_message) s1
            = Done (length (uart_message 3 w_message) : Z) s2 ∧
        reached_node w_item 6 w_message s1 s2) ∨
     ∃ ret d' s2, receive_bytes (uart_message 3 w_message) s1
                  = Done (length (uart_message 3 w_message) : Z) (store L_hdlc d' s2) ∧
       send_failed_twice w_item 6 w_message 0 ret s1 s2 ∧ sim d' (at_boundary 0)) ∧
    ∃ flag s2, node_rx_socket false 7 ZSOCK_POLLIN s1 = Done flag s2 ∧
      (reached_ap 3 w_message s1 s2 ∨
       (∃ n', recv_failed 7 (fw_net s1) n') ∧ node_removed w_item 0 s1 s2).
Proof.
  destruct (connected_cports_joined 0 w_connect w_item 1 w_intf 0 6 3 (w_node w_incoming))
    as (s1 & Hrun & _ & Hdown & Hup);
    [apply w_driver_sim|apply w_node_link|apply w_node_nodes|apply w_connect_sendable
    |apply w_connect_request|done|done|done|apply w_node_entry|apply w_node_unique
    |by rewrite !elem_of_cons, elem_of_nil; cbn; intros [|[|[|]]]|done|done|done
    |by intros m n1 n2 _ _; apply w_heap_takes|].
  exists s1. split; [exact Hrun|]. split.
  - exact (Hdown w_message w_message_sendable w_message_fits).
  - exact (Hup w_message [] w_message_sendable w_message_fits_up w_message_incoming).
Defined.
