(* ===== verification/ThreadWitness.v ===== *)
(** * Concrete runs of interleaved threads

    The properties of threads that lose the processor, applied to concrete
    states. *)

From S2P Require Import Prelude Config Protocols Hdlc HdlcRx Crc Kernel Zephyr Messages Interfaces NodeCache.
From S2P Require Import State ApMap NodeLink NodeLife Ap LocalNode Routes Svc NodeTx Bridge NodeRx.
From S2P Require Import Discovery Resume NodeThreads HdlcThread ApThreads SvcThreads SendThreads Threads Main WorkItem MainFacts ThreadRace ConnectRace RemoveRace Rely LogBackend LogThread Receive RxPreempted Boot Invariant MemInv Interleaving Witnesses.
From S2P Require Import SystemWitness.

#[local] Existing Instance prj_conf.
#[local] Existing Instance reflected_crc16.

(** ** The invariant *)

Lemma w_received_bytes : bytes [HDLC_FRAME; 0x55].
Proof. solve_bytes. Qed.

Lemma w_rx_waits s w :
  node_rx_thread_step RxWaiting s = Done RxWaiting s →
  sys_step (System s w (node_rx_thread_t RxWaiting) (Ret ()) (Ret ())) (System s w (Ret RxWaiting) (Ret ()) (Ret ())).
Proof. intros Hrun. apply step_rx. unfold mbind, M_bind. by rewrite Hrun. Qed.

(** The work item, interrupted after its first call. *)
Lemma w_interrupted :
  ∃ w, rtc piece (receive_bytes_t [HDLC_FRAME; 0x55], w_ready) (w, w_ready) ∧
    rtc piece (w, w_ready) (Ret 2, w_received).
Proof.
  assert (Hrun : run (receive_bytes_t [HDLC_FRAME; 0x55]) w_ready = Done 2 w_received).
  { rewrite (work_undisturbed _ w_ready). reflexivity. }
  eassert (Hfirst : rtc piece (receive_bytes_t [HDLC_FRAME; 0x55], w_ready) (_, w_ready)).
  { unfold receive_bytes_t, hdlc_process_buffer_t. apply pieces_bind. cbn [process_bytes_t]. apply pieces_bind.
    unfold hdlc_rx_input_byte_t. apply rtc_once, piece_call. reflexivity. }
  eexists. split; [exact Hfirst|]. apply run_pieces. by rewrite <-(pieces_run _ _ _ _ Hfirst).
Qed.

(** The work item loses the processor to the receive thread's round, and goes on. *)
Lemma threads_invariant_witness : mem_inv w_received.
Proof.
  apply (threads_invariant w_heap w_interface_slab w_control_slab w_net (UartPort false false) w_ready
    (UartPort true true) (System w_received (Ret 2) (Ret RxWaiting) (Ret ()) (Ret ())) eq_refl eq_refl eq_refl w_blocks w_main).
  destruct w_interrupted as (w & Hpiece & Hrest).
  eapply rtc_l; [exact (step_work_loop _ _ _ _ _ _ w_received_bytes)|].
  etrans; [exact (pieces_work_steps _ _ _ _ _ _ _ Hpiece)|].
  eapply rtc_l; [apply step_rx_loop|].
  eapply rtc_l; [exact (w_rx_waits w_ready w eq_refl)|].
  exact (pieces_work_steps _ _ _ _ _ _ _ Hrest).
Defined.

(** ** The receiver *)

(** A debug frame, which is ignored. *)
Definition w_debug_frame : list Z := frame_bytes ADDRESS_DBG 0x03 [1; 2].
Definition w_between : deframer := Deframer [] [] false 0.

Lemma w_ready_sim : sim (fw_hdlc w_ready) w_between.
Proof. exact (sim_init (fw_hdlc w_statics) eq_refl). Qed.

Lemma w_debug_frames : snd (deframe w_between w_debug_frame) = [(ADDRESS_DBG, [1; 2])].
Proof. vm_compute. reflexivity. Qed.

(** The receive thread runs before the work item's first piece. *)
Lemma w_debug_preempted :
  ∃ s', rtc (preempted other_piece) (receive_bytes_t w_debug_frame, w_ready) (Ret (length w_debug_frame : Z), s').
Proof.
  destruct (receive_bytes_outcome w_debug_frame w_between w_ready w_ready_sim) as (d' & Hrun & _).
  { rewrite w_debug_frames. by repeat constructor. }
  rewrite w_debug_frames in Hrun. exists (store L_hdlc d' w_ready).
  eapply rtc_l; [apply (preempted_other _ _ _ w_ready)|].
  - exists rx_thread, (node_rx_thread_t RxWaiting), (Ret RxWaiting). split; [apply still_rx_thread|].
    constructor. reflexivity.
  - apply (rtc_subrel piece); [apply preempted_own|]. apply run_pieces.
    rewrite (work_undisturbed w_debug_frame w_ready). exact Hrun.
Qed.

Lemma receiver_undisturbed_witness :
  ∃ s', rtc (preempted other_recorded) (recorded_bytes_t w_debug_frame, (w_ready, []))
          (Ret (length w_debug_frame : Z), (s', [(ADDRESS_DBG, [1; 2])])).
Proof.
  destruct w_debug_preempted as [s' Hrun]. exists s'. rewrite <-w_debug_frames.
  exact (proj2 (proj2 (proj2 (receiver_undisturbed RxWaiting [] 0 [] w_debug_frame w_between w_ready _ s'
    w_ready_sim Hrun)))).
Defined.

(** ** Two nodes *)

(** Node 3 has a message waiting; node 4's cport 5 is on AP cport 3. *)
Definition w_second_addr : list Z := replicate 15 0xfd ++ [2].
Definition w_two_map : list node_ap_item := <[3%nat := NodeApItem (SlabIntf 2) 5 4]> w_map.
Definition w_one_of_two : fw := store L_ap_map w_two_map (w_node (message_wire 5 w_message)).
Definition w_two : fw :=
  match node_create_interface w_second_addr w_one_of_two with Done _ s => s | Crash _ => w_one_of_two end.
Definition w_second : node_item := NodeItem (-1) 4 w_second_addr (SlabIntf 2) 0.

Lemma w_two_created : node_create_interface w_second_addr w_one_of_two = Done (SlabIntf 2) w_two.
Proof. reflexivity. Qed.

Lemma w_pair_wf : link_wf w_two ∧ nodes_wf w_two.
Proof.
  destruct (node_create_interface_spec w_one_of_two w_second_addr) as (r & s' & Hrun & Hwf & Hsame & _);
    [by apply (nodes_wf_tables (w_node (message_wire 5 w_message))), w_node_nodes|by split|computed|].
  rewrite w_two_created in Hrun. injection Hrun as <- <-. split; [|done].
  split; [by rewrite (se_ap_map _ _ Hsame)|]. rewrite (se_messages _ _ Hsame). apply w_messages_wf.
Qed.

Lemma stale_index_hits_other_node_witness :
  ∃ t s1 ret s2 flag s3,
    rtc piece (node_rx_socket_t false 7 ZSOCK_POLLIN, w_two) (t, s1) ∧
    svc_send_module_removed connection_send (SlabIntf 1) s1 = Done ret s2 ∧ run t s2 = Done flag s3 ∧
    ((∃ m', same_message w_message m' ∧ fw_uart s3 = fw_uart s2 ++ ap_frame 3 m') ∨ node_removed w_second 0 s2 s3).
Proof.
  destruct w_pair_wf as [Hlink Hnodes].
  destruct (stale_index_hits_other_node w_item w_second 5 w_message [] 3 0 w_two Hlink Hnodes)
    as (t & s1 & Hpieces & _ & _ & ret & s2 & Hrem & _ & flag & s3 & Hrun & Hcase);
    [computed|computed|apply w_message_sendable|done|done|computed|done|computed|done|intros m _; by apply w_heap_room|].
  exists t, s1, ret, s2, flag, s3. split_and!; assumption.
Defined.

(** ** A connection to the second node *)

Definition w_second_intf : gb_interface :=
  GbInterface 4 node_inf_write_cb node_create_cb node_destroy_cb 2.

Definition w_two_opened : @net simple_sockets := simple_open (fw_net w_two) 1.

Lemma w_second_entry : entry_ok w_two w_second 2 w_second_intf.
Proof. by split_and!. Qed.

Lemma w_two_fresh : Forall (λ it, ni_sock it ≠ 8) (entries (fw_nodes w_two)).
Proof. by repeat constructor. Qed.

Lemma w_items_differ : w_item ≠ w_second.
Proof. unfold w_item, w_second. intros [=]. Qed.

(** The first node is removed, or the second itself. *)
Lemma connect_stale_index_witness :
  (∃ t s1 ret s2 s3 fds, rtc piece (node_intf_create_connection_t (SlabIntf 2) 0, w_two) (t, s1) ∧
     svc_send_module_removed connection_send (SlabIntf 1) s1 = Done ret s2 ∧ run t s2 = Done 8 s3 ∧
     w_second ∈ entries (fw_nodes s3) ∧ ¬ nodes_wf s3 ∧
     populate_fds (Z.to_nat (node_cache_pos (fw_nodes s3))) 0 s3 = Done fds s3 ∧ 8 ∉ fds) ∧
  (∃ t s1 ret s2 s3, rtc piece (node_intf_create_connection_t (SlabIntf 2) 0, w_two) (t, s1) ∧
     svc_send_module_removed connection_send (SlabIntf 2) s1 = Done ret s2 ∧ run t s2 = Done 8 s3 ∧
     (w_second ∉ entries (fw_nodes s3)) ∧ ctrl_store (fw_controls s3) !! 2 = Some 8).
Proof.
  destruct w_pair_wf as [Hlink Hnodes]. split.
  - destruct (connect_stale_index w_item w_second 2 w_second_intf 8 w_two_opened 0 w_two Hlink Hnodes)
      as (t & s1 & Hpieces & _ & _ & ret & s2 & s3 & fds & Hrem & _ & Hrun & _ & Hin & _ & Hnwf & Hfds & Hnot);
      [apply list_elem_of_here|done|apply w_second_entry|done|apply w_two_fresh|done|done|done|computed|done|computed|].
    exists t, s1, ret, s2, s3, fds. split_and!; try assumption; [apply Hin|apply Hnwf]; exact w_items_differ.
  - destruct (connect_stale_index w_second w_second 2 w_second_intf 8 w_two_opened 0 w_two Hlink Hnodes)
      as (t & s1 & Hpieces & _ & _ & ret & s2 & s3 & fds & Hrem & _ & Hrun & _ & Hin & Hctrl & _);
      [apply list_elem_of_further, list_elem_of_here|done|apply w_second_entry|done|apply w_two_fresh|done|done|done|computed|done|computed|].
    exists t, s1, ret, s2, s3. split_and!; try assumption. intros Hmem. by apply Hin in Hmem.
Defined.

(** ** Two threads destroy the first node *)

Lemma w_item_entry : entry_ok w_two w_item 1 w_intf.
Proof. by split_and!. Qed.

Lemma w_second_unique it : it ∈ entries (fw_nodes w_two) → ni_sock it = ni_sock w_second → it = w_second.
Proof.
  change (entries (fw_nodes w_two)) with [w_item; w_second]. rewrite !elem_of_cons, elem_of_nil.
  by intros [->|[->|[]]].
Qed.

Lemma node_removal_race_witness :
  ∃ t s1 s2 s3, rtc piece (node_destroy_interface_t (SlabIntf 1), w_two) (t, s1) ∧
    node_destroy_interface (SlabIntf 1) s1 = Done () s2 ∧ w_second ∈ entries (fw_nodes s2) ∧
    run t s2 = Done () s3 ∧ [w_item; w_second] ≡ₚ w_item :: w_second :: entries (fw_nodes s3) ∧
    ctrl_store (fw_controls s3) !! 2 = Some (-1).
Proof.
  destruct w_pair_wf as [_ Hnodes].
  destruct (node_removal_race w_item w_second 1 w_intf 2 w_second_intf 0 w_two Hnodes)
    as (t & s1 & Hpieces & _ & s2 & s3 & fds & Hother & _ & _ & Hin & Hrun & Hperm & _ & _ & Hctrl & _);
    [done|done|exact w_items_differ|apply w_item_entry|apply w_second_entry|apply w_second_unique|].
  exists t, s1, s2, s3. split_and!; assumption.
Defined.
